(* ===== verification/_CoqProject ===== *)
-Q . S2P
Prelude.v
Calendar.v
Coordinate.v
SectorGrid.v
Fixture.v
Packet.v
Protocol.v
Memory.v
MultiDimensionMap.v
Logger.v
LockedStack.v
Loopback.v
Concurrent.v
Iocp.v
IocpLife.v
IocpRuns.v
IocpSafety.v
NetworkEngine.v
EngineRead.v
EngineLife.v
EngineFaults.v
CloudConfig.v
Sampling.v
PacketThrottler.v
SectorPosting.v
SectorSystem.v
World.v
Handover.v
WorldUpdate.v
WorldRuns.v
Session.v
Supervisor.v
GameServer.v
Play.v
Agency.v
Topology.v
AgencySafety.v
Composition.v
TestClient.v
Deployment.v
Programs.v
Examples.v
AgencyExamples.v
CompositionExamples.v
ProgramExamples.v
EngineExamples.v
IocpExamples.v
MemoryExamples.v
UtilityExamples.v
