(* ===== verification/Prelude.v ===== *)
(** * SeamlessServer

    A verification of the servers of SeamlessServer: a game world of 5x5 square
    sectors that is simulated by several processes at once, so that a player
    crosses from one to the next without noticing.

    ** The program

    Three programs share the code under [src/common].

    - The _supervisor_ ([src/supervisor]) numbers the other servers, tells each
      which servers exist, and distributes the sectors over the play servers.
    - A _play server_ ([src/play]) runs the world for the sectors it owns.  An
      object in the border zone of its sector has observing copies in the near
      sectors; when it leaves the sector, the copy at the destination is
      promoted and the original is removed.
    - An _agency_ ([src/agency]) is what the clients connect to.  It forwards a
      client's requests to the owner of the client's sector and passes the
      reports of the play servers on to the clients that listen to the sector.

    The layers, from the bottom: the transport moves bytes over completion ports
    ([common/network]); the network engine cuts the bytes into packets, opens and
    closes sessions and queues contexts for one worker thread
    ([common/engine], [common/concurrent]); the game server authorises the
    sessions between servers and follows the allocation of the sectors
    ([common/game/GameServer.cpp]); the posting manager knows who owns and who
    listens to a sector, and the packet throttler collects what is posted; the
    world and its sector systems compute ([common/game]).

    ** Conventions

    A function of the code is a function here, with the code's name where that
    is possible.  Code that changes state is an [Act]: it takes the state, and
    either returns a value, the new state and the outputs it posted in order, or
    ends in a [fault]: an exception, a failed [assert] (the Debug configuration)
    or undefined behaviour.  [wp] is the weakest precondition of an action and
    the lemmas [bind_ok], [bind_out] and [wp_bind] drive it through its steps.

    Integers are [Z]; where the code's width matters the wrap-around is written
    out ([u8], [u16], [u32], [u64]).  Coordinates are of a type [C] with the
    operations the code applies to a [float]: [binary32] is IEEE single
    precision, [exact] the rationals.  Hash maps are [gmap]s that iterate in an
    arbitrary order ([IterOrder]).  Variables read before they are written have
    an arbitrary value ([Indeterminate]).  Objects that are shared through
    pointers are kept in tables by their identity, and a pointer is the key.

    What is not part of the sources is a parameter: the serialiser [struct_pack]
    ([StructPack], with [StructPackSize] for what its documentation promises),
    the rules of a time zone ([Timezone], [TimezoneLaws]), the clock and the
    random generator (functions of the number of the reading), and every answer
    of the operating system (an argument of the operation that asks, so the
    theorems hold for each answer).

    ** The files and what they show

    Shared:
    - [Prelude]: faults, actions, iteration orders, machine integers.

    Geometry ([common/game/coordinate]):
    - [Coordinate] ([Base.h]): the two coordinate arithmetics.
    - [SectorGrid] ([Base.h], [SectorGrid.h]): sectors, directions, near sectors.
      Every position of the world lies in exactly one sector and
      [GetSectorByPosition] finds it; [GetNearSectors] lists exactly the
      neighbours the phase names.
    - [Fixture] ([Fixture.h]): positions, sizes, motion.
    - [SectorSystem] ([SectorSystem.h], [.cpp]): the step that moves the fixtures
      of a sector and reports changes of location and phase through a
      [Callback].  The step keeps the zone invariant and faults only where a
      callback does ([CallbackFrame] is the interface); indices into the phase
      table are in range in single precision too.

    The world ([common/game]):
    - [SectorPosting] ([SectorPostingManager.h], [.cpp]): the cross-linked tables
      of owners, listeners and sessions refine plain tables; a broadcast reaches
      each linked listener once.
    - [World] ([World.h], [.cpp]): every request and callback.  A phase change
      tells exactly the sectors that gain or lose nearness; requests follow an
      object that was handed over.
    - [Handover]: the callback at the origin and the handlers at the destination
      and the origin, composed: the object ends up owned once, with the same
      motion.
    - [WorldUpdate]: the invariant under which [World::Update] returns, and that
      it is kept.
    - [WorldRuns]: every sequence of requests and steps keeps that invariant and
      the freshness of object ids, without a fault; and the position a client can
      send that stops the world.

    Packets and buffers:
    - [Packet] ([common/engine/protocol]): the packet structures.
    - [Protocol] ([Protocol.h], [Buffer.h]): frames, and taking a buffer of frames
      apart again.
    - [PacketThrottler] ([PacketThrottler.h]): whatever is posted to a session is
      handed over in order, each packet in one buffer.
    - [Sampling] ([utility/Sampling.h]): the samplers the workers pace
      themselves with.
    - [Loopback] ([SocketSession.h]): the session a server has with itself; what
      was sent to it is handled once and in order, unless it is sent meanwhile.

    Memory and threads:
    - [Memory] ([common/memory]): pools, reference counts, intrusive pointers.
      Counts are exact, the references taken past the pointers included, and an
      object is in its pool exactly when nobody holds it.
    - [LockedStack] ([SpinLock.h], [ConcurrentStack.h]): threads interleave
      between any two memory accesses; the stack refines an atomic one.
    - [Concurrent] ([common/concurrent]): the double queue between the network
      threads and the worker, the worker's loop and the locked map.  No context
      is lost or duplicated; order is kept when no swap falls into a push, and
      can be lost when one does.

    The network:
    - [Iocp] ([common/network/iocp]): start and shutdown, the streams, their
      buffers and counts, the operations begun on a stream, and an iteration of
      each thread's loop.
    - [IocpLife]: the invariant on who holds a stream and its buffers.
    - [IocpRuns]: the threads, the operating system and the client as a
      transition system; every event keeps the invariant.
    - [IocpSafety]: in every run a stream is free exactly when nothing points to
      it, no thread faults, and the announcements of connections alternate; and
      what a refusal of the operating system does.
    - [NetworkEngine] ([common/engine/NetworkEngine.cpp], [SocketSession.h],
      [Session.h], [SocketWorkerInfo.h], [NetworkEngineWorker.h]): sessions,
      connectors, the framing of reads, the tick and the worker's dispatch.
    - [EngineRead]: packets come out of the byte stream complete, once and in
      order, however the network cuts it; a session request opens a session.
    - [EngineLife]: in every interleaving of the network threads with the worker,
      streams and sessions belong together and the worker handles each context
      of a session in order, between its start and its end.
    - [EngineFaults]: reconnecting connectors, and the inputs the engine does not
      survive.
    - [CloudConfig] ([CloudConfigManager.h], [.cpp]): a server asks the supervisor
      for its configuration and gets it.

    The servers:
    - [Session] ([Session.h]): the integers a server attaches to a session.
    - [Supervisor] ([src/supervisor/supervisor]): the two records of who owns a
      sector agree in every reachable state; one update gives every sector an
      owner and balances the loads.
    - [GameServer] ([GameServer.h], [.cpp]), [Play] ([src/play/play]), [Agency]
      ([src/agency/agency]): every handler; the virtual methods are a record of
      hooks.
    - [Topology]: of two servers exactly one connects; the handshakes establish
      the session on both sides; data before authorisation closes the session.
    - [AgencySafety]: an agency under every sequence of events of its engines: the
      tables that tie clients, characters and sectors together agree, and no
      event faults; and what [GameServer::Reset] leaves behind.
    - [Composition]: an agency and a play server together.  A client gets its
      character, whatever happens between the request and the answer; it follows
      the character into the next sector; and a client that leaves too early
      leaves its character behind.
    - [TestClient] ([src/TestClient]): the worker that walks 200 characters at
      random keeps them in the world and sends one request for each.
    - [Deployment]: the transports of the three programs, with the configurations
      they ship, come up in states the transport's theorems start from.
    - [Programs] ([supervisor.cpp], [agency.cpp], [play.cpp], and the socket
      service of [Meta.cpp]): the three [main] functions.  They reach the loop in
      which they sleep, with every component in a state its theorems start from.

    Utilities ([common/utility]):
    - [Calendar] ([Time.h]): [DateTime] over the Gregorian calendar, and the table
      of time zones.  The fields of a [DateTime] are a valid date and agree with
      its point in time; dates survive the round trip.
    - [Logger] ([Logger.h]): what is logged is printed once, in order.
    - [MultiDimensionMap] ([MultiDimensionMap.h]): what is inserted is found.

    [Examples], [AgencyExamples], [CompositionExamples], [EngineExamples],
    [IocpExamples], [MemoryExamples], [ProgramExamples] and [UtilityExamples] apply
    the theorems that have hypotheses to concrete states.

    ** Bounds and fuel

    Loops over containers are structural.  The others carry a number of
    iterations and end in [OutOfFuel] when it is used up; each theorem that says
    such a loop returns includes that it did not run out.

    - [read_loop] gets one more than the size of the buffer plus the bytes that
      are waiting: every iteration but the last consumes a header.
    - [loopback_loop] and [Concurrent.pop_all] get one more than the bytes and
      contexts they start with, [Logger.drain] one more than the queued texts.
    - [create_loop] of the pools gets one more than the objects it creates.
    - [next_server_id_loop] gets one more than the ids that can be taken.
    - [wait_for_config] polls; the theorem gives a number of polls that is enough
      from the poll at which the answer is pushed.

    Constants of the code are kept: 25 sectors, 128 contexts of 64 bytes in the
    8192 bytes a socket buffer reserves, eight tick contexts.  Runs of the
    transport stay within the 32-bit counts and 64-bit sequence numbers
    ([within_limits]).  Interleavings are sequentially consistent.

    ** Not modelled

    - [src/thirdparty]: [struct_pack] is a parameter, [atomic_queue] a bounded
      FIFO queue; the rest is not called by the modelled code.
    - The Windows API: what it answers is an argument.
    - Of the [main] functions, the start of the logger, the final loop of sleeps
      and what the test client prints.
    - [common/game/object]: classes no code constructs.  [Uid.h],
      [RuntimeUidGenerator.h], [Defer.h], [Union.h] and, in [RefCounter.h],
      [SingleThreadRefCounter], [CAS] and [RetainN]: nothing uses them.
    - [Allocator.h] forwards to [malloc]; that memory runs out is not considered.
    - Memory models weaker than sequential consistency, and rounding in the
      geometric theorems other than the one on the phase table. *)

From stdpp Require Export base gmap list strings fin_maps.
From Stdlib Require Export ZArith Lia.
From Corelib Require Export ssreflect.
#[global] Open Scope general_if_scope.

Open Scope Z_scope.

(** ** Faults and results

    The C++ code has three ways not to return: it throws, an [assert] fails
    (the Debug configuration), or it runs into undefined behaviour (a null or
    dangling pointer, an index out of range, an unrepresentable conversion). *)

Inductive fault : Type :=
| Exception (msg : string)
| AssertionFailed (cond : string)
| UndefinedBehaviour (what : string)
| OutOfFuel.

Inductive result (A : Type) : Type :=
| Ok (a : A)
| Err (f : fault).
Arguments Ok {A} a.
Arguments Err {A} f.

#[export] Instance result_ret : MRet result := @Ok.
#[export] Instance result_bind : MBind result := λ A B k m,
  match m with Ok a => k a | Err f => Err f end.

Definition from_option_ub {A} (what : string) (o : option A) : result A :=
  match o with Some a => Ok a | None => Err (UndefinedBehaviour what) end.

(** ** State, output and error

    A handler reads and updates a state [S], posts outputs [O] in order, and
    may fault.  A fault ends the process, so it keeps neither state nor
    outputs. *)

Definition Act (S O A : Type) : Type := S → result (A * S * list O).

Section act.
Context {S O : Type}.

Definition act_ret {A} (a : A) : Act S O A := λ s, Ok (a, s, []).
Definition act_bind {A B} (k : A → Act S O B) (m : Act S O A) : Act S O B := λ s,
match m s with
| Ok (a, s', o) =>
    match k a s' with
    | Ok (b, s'', o') => Ok (b, s'', o ++ o')
    | Err f => Err f
    end
| Err f => Err f
end.

Definition get_state : Act S O S := λ s, Ok (s, s, []).
Definition modify (f : S → S) : Act S O () := λ s, Ok ((), f s, []).
Definition emit (o : list O) : Act S O () := λ s, Ok ((), s, o).
Definition fail {A} (f : fault) : Act S O A := λ _, Err f.
Definition throw {A} (msg : string) : Act S O A := fail (Exception msg).
Definition check (cond : string) (b : bool) : Act S O () :=
if b then act_ret () else fail (AssertionFailed cond).
Definition lift {A} (r : result A) : Act S O A := λ s,
match r with Ok a => Ok (a, s, []) | Err f => Err f end.
End act.

#[export] Instance act_mret {S O} : MRet (Act S O) := λ A, act_ret.
#[export] Instance act_mbind {S O} : MBind (Act S O) := λ A B, act_bind.

Fixpoint for_each {S O A} (l : list A) (body : A → Act S O ()) : Act S O () :=
  match l with
  | [] => mret ()
  | x :: l => body x ;; for_each l body
  end.

(** The weakest precondition of an action: [Q] on a normal return, [E] on a
    fault. *)
Definition wp {S O A} (m : Act S O A) (s : S)
    (Q : A → S → list O → Prop) (E : fault → Prop) : Prop :=
  match m s with Ok (a, s', o) => Q a s' o | Err f => E f end.

(** ** Iteration order

    [std::unordered_map] and [std::unordered_set] iterate in an unspecified
    order.  The development is parametric in it. *)

Class IterOrder : Type := {
  iter_map : ∀ {A : Type}, gmap Z A → list (Z * A);
  iter_map_perm : ∀ (A : Type) (m : gmap Z A), iter_map m ≡ₚ map_to_list m;
  iter_set : gset Z → list Z;
  iter_set_perm : ∀ (X : gset Z), iter_set X ≡ₚ elements X;
}.

Definition canonical_order : IterOrder := {|
  iter_map := λ A m, map_to_list m;
  iter_map_perm := λ A m, Permutation_refl _;
  iter_set := λ X, elements X;
  iter_set_perm := λ X, Permutation_refl _;
|}.

(** ** Machine integers *)

Definition u64 (z : Z) : Z := z mod 2 ^ 64.
Definition u32 (z : Z) : Z := z mod 2 ^ 32.
Definition u16 (z : Z) : Z := z mod 2 ^ 16.
Definition u8 (z : Z) : Z := z mod 2 ^ 8.

Definition UINT64_MAX : Z := 18446744073709551615.
Definition UINT32_MAX : Z := 4294967295.

(** [std::array::operator[]]: [None] is the out-of-range access. *)
Definition arr_get {A} (l : list A) (i : Z) : option A :=
  if (0 <=? i) && (i <? Z.of_nat (length l)) then l !! Z.to_nat i else None.

(** Values of variables that the code declares without initialising them,
    by the name of the variable; [C] is the type of coordinates. *)
Class Indeterminate (C : Type) : Type := {
  ind_Z : string → Z;
  ind_bool : string → bool;
  ind_C : string → C;
}.

(** ** Rules for actions *)

Create HintDb seamless.

Section wp_rules.
Context {S O : Type}.
Implicit Types s : S.

Lemma wp_ret {A} (a : A) s (Q : A → S → list O → Prop) E :
Q a s [] → wp (mret a) s Q E.
Proof. done. Qed.

Lemma wp_bind {A B} (m : Act S O A) (k : A → Act S O B) s Q E :
wp m s (λ a s' o, wp (k a) s' (λ b s'' o', Q b s'' (o ++ o')) E) E →
wp (m ≫= k) s Q E.
Proof.
rw /wp /mbind /act_mbind /act_bind.
destruct (m s) as [[[a s'] o]|f]; [|done].
destruct (k a s') as [[[b s''] o']|f]; done.
Qed.

(** Running an action whose first step is known. *)
Lemma bind_ok {A B} (m : Act S O A) (k : A → Act S O B) s a s' :
m s = Ok (a, s', []) → (m ≫= k) s = k a s'.
Proof.
intros Hm. rw /mbind /act_mbind /act_bind Hm. by destruct (k a s') as [[[? ?] ?]|].
Qed.

Lemma bind_out {A B} (m : Act S O A) (k : A → Act S O B) s a s' o b s'' o' :
m s = Ok (a, s', o) → k a s' = Ok (b, s'', o') → (m ≫= k) s = Ok (b, s'', o ++ o').
Proof. intros Hm Hk. by rw /mbind /act_mbind /act_bind Hm Hk. Qed.

Lemma bind_err {A B} (m : Act S O A) (k : A → Act S O B) s f : m s = Err f → (m ≫= k) s = Err f.
Proof. intros Hm. by rw /mbind /act_mbind /act_bind Hm. Qed.

Lemma wp_ok {A B} (m : Act S O A) (k : A → Act S O B) s a s' (Q : B → S → list O → Prop) E :
m s = Ok (a, s', []) → wp (k a) s' Q E → wp (m ≫= k) s Q E.
Proof. intros Hm Hk. by rw /wp (bind_ok _ _ _ _ _ Hm). Qed.

Lemma wp_mono {A} (m : Act S O A) s (Q Q' : A → S → list O → Prop) (E E' : fault → Prop) :
wp m s Q E → (∀ a s' o, Q a s' o → Q' a s' o) → (∀ f, E f → E' f) → wp m s Q' E'.
Proof. rw /wp. destruct (m s) as [[[a s'] o]|f]; eauto. Qed.

(** [m] returns from [s], with a value and a state that satisfy [Q]. *)
Definition returns {A} (m : Act S O A) s (Q : A → S → Prop) : Prop := wp m s (λ a s' _, Q a s') (λ _, False).

Lemma returns_bind {A B} (m : Act S O A) (k : A → Act S O B) s Q :
returns m s (λ a s', returns (k a) s' Q) → returns (m ≫= k) s Q.
Proof.
rw /returns /wp /mbind /act_mbind /act_bind.
destruct (m s) as [[[a s'] o]|f]; [|done]. by destruct (k a s') as [[[b s''] o']|f].
Qed.

Lemma returns_ok {A} (m : Act S O A) s a s' o (Q : A → S → Prop) : m s = Ok (a, s', o) → Q a s' → returns m s Q.
Proof. by rw /returns /wp => ->. Qed.

Lemma returns_mono {A} (m : Act S O A) s (Q Q' : A → S → Prop) :
returns m s Q → (∀ a s', Q a s' → Q' a s') → returns m s Q'.
Proof. rw /returns /wp. destruct (m s) as [[[a s'] o]|f]; eauto. Qed.

Lemma returns_inv {A} (m : Act S O A) s (Q : A → S → Prop) :
returns m s Q → ∃ a s' o, m s = Ok (a, s', o) ∧ Q a s'.
Proof. rw /returns /wp. destruct (m s) as [[[a s'] o]|f]; [|done]. eauto. Qed.

Lemma returns_for_each {A} (I : S → Prop) (l : list A) (body : A → Act S O ()) s :
I s → (∀ x s, x ∈ l → I s → returns (body x) s (λ _, I)) → returns (for_each l body) s (λ _, I).
Proof.
revert s. induction l as [|x l IH]; intros s Hs Hb; [done|]. cbn. apply returns_bind.
eapply returns_mono; [apply Hb; [by left|done]|]. intros [] s' Hs'. apply IH; [done|].
intros y t Hy. apply Hb. by right.
Qed.

Lemma wp_for_each {A} (I : list A → S → list O → Prop) (E : fault → Prop)
  (l : list A) (body : A → Act S O ()) :
(∀ x l1 l2 s o, l = l1 ++ x :: l2 → I l1 s o →
   wp (body x) s (λ _ s' o', I (l1 ++ [x]) s' (o ++ o')) E) →
∀ s, I [] s [] → wp (for_each l body) s (λ _ s' o', I l s' o') E.
Proof.
intros Hbody s HI.
assert (Hgen : ∀ l2 l1 s o, l = l1 ++ l2 → I l1 s o →
  wp (for_each l2 body) s (λ _ s' o', I l s' (o ++ o')) E).
{ induction l2 as [|x l2 IH]; intros l1 s' o Hl HI'.
  - rw app_nil_r in Hl. subst l1. by rw /wp /= app_nil_r.
  - simpl. apply wp_bind. eapply wp_mono; [by eapply (Hbody x l1 l2 _ o)| |done].
    intros [] s'' o'' HI''.
    eapply wp_mono; [refine (IH (l1 ++ [x]) _ _ _ HI''); by rw -app_assoc| |done].
    intros [] s3 o3. by rw -app_assoc. }
apply (Hgen l [] s []); done.
Qed.
End wp_rules.

(** Steps through the primitive actions; what is left is the state they end in. *)
Ltac run_step :=
  lazymatch goal with
  | |- returns (mbind _ _) _ _ => apply returns_bind
  | |- returns get_state _ _ => eapply returns_ok; [reflexivity|]
  | |- returns (modify _) _ _ => eapply returns_ok; [reflexivity|]
  | |- returns (emit _) _ _ => eapply returns_ok; [reflexivity|]
  | |- returns (mret _) _ _ => eapply returns_ok; [reflexivity|]
  end; cbv beta.
Ltac run_steps := repeat run_step.

(** ** Shared facts *)

Lemma u64_range z : 0 ≤ u64 z < 2 ^ 64.
Proof. apply Z.mod_pos_bound; lia. Qed.
Lemma u64_small z : 0 ≤ z < 2 ^ 64 → u64 z = z.
Proof. apply Z.mod_small. Qed.
Lemma u32_range z : 0 ≤ u32 z < 2 ^ 32.
Proof. apply Z.mod_pos_bound; lia. Qed.
Lemma u32_small z : 0 ≤ z < 2 ^ 32 → u32 z = z.
Proof. apply Z.mod_small. Qed.

Lemma elem_of_iter_map `{IterOrder} {A} (m : gmap Z A) k v :
  (k, v) ∈ iter_map m ↔ m !! k = Some v.
Proof. by rw iter_map_perm elem_of_map_to_list. Qed.

Lemma elem_of_iter_set `{IterOrder} (X : gset Z) k : k ∈ iter_set X ↔ k ∈ X.
Proof. by rw iter_set_perm elem_of_elements. Qed.

Lemma NoDup_iter_map `{IterOrder} {A} (m : gmap Z A) : NoDup ((iter_map m).*1).
Proof. rw iter_map_perm. apply NoDup_fst_map_to_list. Qed.

Lemma NoDup_iter_set `{IterOrder} (X : gset Z) : NoDup (iter_set X).
Proof. rw iter_set_perm. apply NoDup_elements. Qed.

Lemma Forall2_weaken {A B} (P Q : A → B → Prop) (l : list A) (k : list B) :
  Forall2 P l k → (∀ x y, x ∈ l → P x y → Q x y) → Forall2 Q l k.
Proof.
  intros Hf. induction Hf as [|x y l k Hxy _ IH]; intros Hq; [by apply Forall2_nil|].
  apply Forall2_cons. split; [apply Hq; [by left|done]|]. apply IH. intros x' y' Hx'. apply Hq. by right.
Qed.

Lemma concat_singletons {A B} (f : A → B) (l : list A) : concat ((λ x, [f x]) <$> l) = f <$> l.
Proof. induction l as [|x l IH]; [done|]. cbn. by rw IH. Qed.

Lemma arr_get_Some {A} (l : list A) i x :
  arr_get l i = Some x → 0 ≤ i < Z.of_nat (length l).
Proof.
  rw /arr_get. case: (Z.leb_spec 0 i) => Hi; [|done].
  case: (Z.ltb_spec i (Z.of_nat (length l))) => Hl; [lia|done].
Qed.

Lemma arr_get_is_Some {A} (l : list A) i :
  0 ≤ i < Z.of_nat (length l) → is_Some (arr_get l i).
Proof.
  intros Hi. rw /arr_get (proj2 (Z.leb_le 0 i)); [lia|].
  rw (proj2 (Z.ltb_lt i _)); [lia|]. apply lookup_lt_is_Some. lia.
Qed.

#[export] Hint Resolve u64_range u32_range NoDup_iter_map NoDup_iter_set : seamless.
