(* ===== verification/Calendar.v ===== *)
(** * Calendar

    [common/utility/Time.h]: the class [DateTime] over [std::chrono]'s proleptic
    Gregorian calendar.  Time points are counts of nanoseconds since the epoch;
    a time zone is a parameter, the two conversions [std::chrono::time_zone]
    offers between system and local time. *)

From stdpp Require Import pretty.
From S2P Require Import Prelude.

Open Scope Z_scope.

(** ** The civil calendar *)

Record year_month_day : Type := mkYmd { ymd_year : Z; ymd_month : Z; ymd_day : Z }.

#[export] Instance year_month_day_eq_dec : EqDecision year_month_day.
Proof. solve_decision. Defined.

Definition is_leap (y : Z) : bool := (y mod 4 =? 0) && (negb (y mod 100 =? 0) || (y mod 400 =? 0)).

(** [year_month_day_last::day]. *)
Definition last_day (y m : Z) : Z :=
  if m =? 2 then (if is_leap y then 29 else 28)
  else if (m =? 4) || (m =? 6) || (m =? 9) || (m =? 11) then 30 else 31.

(** [year_month_day::ok]. *)
Definition ymd_ok (x : year_month_day) : bool :=
  (1 <=? ymd_month x) && (ymd_month x <=? 12) && (1 <=? ymd_day x) && (ymd_day x <=? last_day (ymd_year x) (ymd_month x)).

(** [local_days(ymd)]: days since 1970-01-01, counted in eras of 400 years that
    begin in March.  A day past the end of its month counts on into the next. *)
Definition days_from_civil (x : year_month_day) : Z :=
  let y := if ymd_month x <=? 2 then ymd_year x - 1 else ymd_year x in
  let era := y / 400 in
  let yoe := y mod 400 in
  let mp := if ymd_month x >? 2 then ymd_month x - 3 else ymd_month x + 9 in
  let doy := (153 * mp + 2) / 5 + ymd_day x - 1 in
  era * 146097 + (yoe * 365 + yoe / 4 - yoe / 100 + doy) - 719468.

(** [year_month_day(local_days)]. *)
Definition civil_from_days (n : Z) : year_month_day :=
  let z := n + 719468 in
  let era := z / 146097 in
  let doe := z mod 146097 in
  let yoe := (doe - doe / 1460 + doe / 36524 - doe / 146096) / 365 in
  let doy := doe - (365 * yoe + yoe / 4 - yoe / 100) in
  let mp := (5 * doy + 2) / 153 in
  let d := doy - (153 * mp + 2) / 5 + 1 in
  let m := if mp <? 10 then mp + 3 else mp - 9 in
  mkYmd (yoe + era * 400 + (if m <=? 2 then 1 else 0)) m d.

(** [ymd += months] and [ymd += years] keep the day, valid or not. *)
Definition add_months (x : year_month_day) (k : Z) : year_month_day :=
  let n := ymd_year x * 12 + (ymd_month x - 1) + k in
  mkYmd (n / 12) (n mod 12 + 1) (ymd_day x).
Definition add_years (x : year_month_day) (k : Z) : year_month_day :=
  mkYmd (ymd_year x + k) (ymd_month x) (ymd_day x).

(** *** An era *)

(** A check of an interval. *)
Fixpoint all_from (n : nat) (i : Z) (f : Z → bool) : bool :=
  match n with
  | O => true
  | S n => if f i then all_from n (i + 1) f else false
  end.

Lemma all_from_spec n i f : all_from n i f = true → ∀ j, i ≤ j < i + Z.of_nat n → f j = true.
Proof.
  revert i. induction n as [|n IH]; intros i Hf j Hj; [lia|]. cbn [all_from] in Hf.
  destruct (f i) eqn:Hi; [|done]. destruct (decide (j = i)) as [->|]; [done|]. apply (IH (i + 1) Hf). lia.
Qed.

(** The year of an era of a day of the era, and the first day of a year; years
    begin in March and are as long as the February at their end says. *)
Definition era_year (doe : Z) : Z := (doe - doe / 1460 + doe / 36524 - doe / 146096) / 365.
Definition year_start (yoe : Z) : Z := 365 * yoe + yoe / 4 - yoe / 100.
Definition year_length (yoe : Z) : Z := if is_leap (yoe + 1) then 366 else 365.

Lemma era_year_mono a b : 0 ≤ a ≤ b → b < 146097 → era_year a ≤ era_year b.
Proof.
  intros Ha Hb. rw /era_year. apply Z.div_le_mono; [lia|].
  destruct (decide (b = 146096)) as [->|Hne].
  - destruct (decide (a = 146096)) as [->|]; [lia|]. rw (Z.div_small a 146096); [lia|].
    assert (a / 36524 ≤ 3) by (apply Z.lt_succ_r, Z.div_lt_upper_bound; lia).
    assert (100 - a / 1460 ≤ 146096 - a) by (pose proof (Z.div_mod a 1460); pose proof (Z.mod_pos_bound a 1460); lia).
    change (146096 / 1460) with 100. change (146096 / 36524) with 4. change (146096 / 146096) with 1. lia.
  - rw !(Z.div_small _ 146096); [lia..|]. pose proof (Z.div_le_mono a b 36524 ltac:(lia) ltac:(lia)).
    assert (b / 1460 - a / 1460 ≤ b - a).
    { pose proof (Z.div_mod a 1460). pose proof (Z.div_mod b 1460). pose proof (Z.mod_pos_bound a 1460).
      pose proof (Z.mod_pos_bound b 1460). lia. }
    lia.
Qed.

Definition year_check (yoe : Z) : bool :=
  (era_year (year_start yoe) =? yoe) && (era_year (year_start yoe + year_length yoe - 1) =? yoe) &&
  (year_start yoe + year_length yoe =? (if yoe =? 399 then 146097 else year_start (yoe + 1))).

Lemma era_years : all_from 400 0 year_check = true.
Proof. vm_compute. reflexivity. Qed.

Lemma year_facts yoe : 0 ≤ yoe < 400 →
  era_year (year_start yoe) = yoe ∧ era_year (year_start yoe + year_length yoe - 1) = yoe ∧
  year_start yoe + year_length yoe = (if yoe =? 399 then 146097 else year_start (yoe + 1)).
Proof.
  intros Hy. pose proof (all_from_spec _ _ _ era_years yoe ltac:(lia)) as Hc. rw /year_check in Hc.
  by apply andb_prop in Hc as [[H1%Z.eqb_eq H2%Z.eqb_eq]%andb_prop H3%Z.eqb_eq].
Qed.

(** Every day of the era lies in one year of it. *)
Lemma era_year_find doe : 0 ≤ doe < 146097 → ∃ yoe, 0 ≤ yoe < 400 ∧ year_start yoe ≤ doe < year_start yoe + year_length yoe.
Proof.
  intros Hd.
  assert (Hind : ∀ n : nat, (n ≤ 399)%nat → doe < year_start (Z.of_nat n) ∨ Z.of_nat n = 0 →
    Z.of_nat n ≠ 0 → ∃ yoe, 0 ≤ yoe < 400 ∧ year_start yoe ≤ doe < year_start yoe + year_length yoe).
  { intros n. induction n as [|n IH]; intros Hn Hlt H0; [done|]. destruct Hlt as [Hlt|]; [|done].
    destruct (decide (year_start (Z.of_nat n) ≤ doe)) as [Hge|Hge].
    - exists (Z.of_nat n). split; [lia|]. destruct (year_facts (Z.of_nat n) ltac:(lia)) as (_&_&Hs).
      rw (proj2 (Z.eqb_neq _ _)) in Hs; [lia|]. rw Hs. rw (_ : Z.of_nat n + 1 = Z.of_nat (S n)); [lia|]. split; [exact Hge|exact Hlt].
    - destruct (decide (Z.of_nat n = 0)) as [Hz|Hz]; [rw Hz in Hge; change (year_start 0) with 0 in Hge; lia|]. apply IH; [lia|left; lia|done]. }
  destruct (decide (doe < year_start 399)) as [Hlt|Hge]; [by apply (Hind 399%nat); [lia|left|]|].
  exists 399. split; [lia|]. destruct (year_facts 399 ltac:(lia)) as (_&_&Hs). cbn [Z.eqb Pos.eqb] in Hs. lia.
Qed.

Lemma era_year_ok yoe doy :
  0 ≤ yoe < 400 → 0 ≤ doy < year_length yoe →
  0 ≤ year_start yoe + doy < 146097 ∧ era_year (year_start yoe + doy) = yoe.
Proof.
  intros Hy Hd. destruct (year_facts yoe Hy) as (H1&H2&H3).
  assert (H0 : 0 ≤ year_start yoe) by (rw /year_start; pose proof (Z.div_mod yoe 4); pose proof (Z.div_mod yoe 100);
    pose proof (Z.mod_pos_bound yoe 4); pose proof (Z.mod_pos_bound yoe 100); lia).
  assert (H4 : year_start yoe + year_length yoe ≤ 146097).
  { rw H3. destruct (yoe =? 399) eqn:E; [lia|]. apply Z.eqb_neq in E.
    rw /year_start. pose proof (Z.div_mod (yoe + 1) 4). pose proof (Z.div_mod (yoe + 1) 100).
    pose proof (Z.mod_pos_bound (yoe + 1) 4). pose proof (Z.mod_pos_bound (yoe + 1) 100). lia. }
  split; [lia|].
  pose proof (era_year_mono (year_start yoe) (year_start yoe + doy) ltac:(lia) ltac:(lia)).
  pose proof (era_year_mono (year_start yoe + doy) (year_start yoe + year_length yoe - 1) ltac:(lia) ltac:(lia)). lia.
Qed.

(** Months counted from March: the first day in the year, the number of days
    when the year is long enough, and the month's number. *)
Definition month_start (mp : Z) : Z := (153 * mp + 2) / 5.
Definition month_length (mp : Z) : Z :=
  if mp =? 11 then 29 else if (mp =? 1) || (mp =? 3) || (mp =? 6) || (mp =? 8) then 30 else 31.
Definition month_of (mp : Z) : Z := if mp <? 10 then mp + 3 else mp - 9.
Definition march_of (m : Z) : Z := if m >? 2 then m - 3 else m + 9.

Definition doy_check (doy : Z) : bool :=
  let mp := (5 * doy + 2) / 153 in
  (0 <=? mp) && (mp <? 12) && (1 <=? doy - month_start mp + 1) && (doy - month_start mp + 1 <=? month_length mp).
Lemma year_days : all_from 366 0 doy_check = true.
Proof. vm_compute. reflexivity. Qed.

Definition date_check (mp : Z) : bool :=
  all_from (Z.to_nat (month_length mp)) 1 (λ d,
    ((5 * (month_start mp + d - 1) + 2) / 153 =? mp) && (0 <=? month_start mp + d - 1) &&
    (month_start mp + d - 1 <? (if (mp =? 11) && (d =? 29) then 366 else 365))).
Lemma year_dates : all_from 12 0 date_check = true.
Proof. vm_compute. reflexivity. Qed.

Lemma doy_facts doy : 0 ≤ doy < 366 →
  0 ≤ (5 * doy + 2) / 153 < 12 ∧ 1 ≤ doy - month_start ((5 * doy + 2) / 153) + 1 ≤ month_length ((5 * doy + 2) / 153).
Proof.
  intros Hd. pose proof (all_from_spec _ _ _ year_days doy ltac:(lia)) as Hc. rw /doy_check in Hc.
  apply andb_prop in Hc as [[[H1%Z.leb_le H2%Z.ltb_lt]%andb_prop H3%Z.leb_le]%andb_prop H4%Z.leb_le]. lia.
Qed.

Lemma date_facts mp d : 0 ≤ mp < 12 → 1 ≤ d ≤ month_length mp →
  (5 * (month_start mp + d - 1) + 2) / 153 = mp ∧
  0 ≤ month_start mp + d - 1 < (if (mp =? 11) && (d =? 29) then 366 else 365).
Proof.
  intros Hm Hd. pose proof (all_from_spec _ _ _ year_dates mp ltac:(lia)) as Hc. rw /date_check in Hc.
  pose proof (all_from_spec _ _ _ Hc d ltac:(lia)) as Hx. cbv beta in Hx.
  apply andb_prop in Hx as [[H1%Z.eqb_eq H2%Z.leb_le]%andb_prop H3%Z.ltb_lt]. lia.
Qed.

Lemma month_of_facts mp : 0 ≤ mp < 12 →
  1 ≤ month_of mp ≤ 12 ∧ march_of (month_of mp) = mp ∧ (month_of mp <=? 2) = (10 <=? mp).
Proof.
  intros Hm. rw /month_of /march_of. destruct (Z.ltb_spec mp 10).
  - rw (_ : (mp + 3 >? 2) = true); [rw Z.gtb_ltb; apply Z.ltb_lt; lia|].
    rw (_ : (mp + 3 <=? 2) = false); [apply Z.leb_gt; lia|]. rw (_ : (10 <=? mp) = false); [apply Z.leb_gt; lia|]. lia.
  - rw (_ : (mp - 9 >? 2) = false); [rw Z.gtb_ltb; apply Z.ltb_ge; lia|].
    rw (_ : (mp - 9 <=? 2) = true); [apply Z.leb_le; lia|]. rw (_ : (10 <=? mp) = true); [apply Z.leb_le; lia|]. lia.
Qed.

(** The year the calendar writes for a month of a year that begins in March. *)
Definition civil_year (era yoe mp : Z) : Z := yoe + era * 400 + (if 10 <=? mp then 1 else 0).

Lemma is_leap_period y k : is_leap (y + k * 400) = is_leap y.
Proof.
  rw /is_leap. rw (_ : y + k * 400 = y + (100 * k) * 4); [lia|]. rw Z.mod_add; [lia|].
  rw (_ : y + 100 * k * 4 = y + (4 * k) * 100); [lia|]. rw Z.mod_add; [lia|].
  rw (_ : y + 4 * k * 100 = y + k * 400); [lia|]. by rw Z.mod_add; [lia|].
Qed.

Lemma last_day_march era yoe mp : 0 ≤ mp < 12 →
  last_day (civil_year era yoe mp) (month_of mp) = if mp =? 11 then year_length yoe - 337 else month_length mp.
Proof.
  intros Hm. rw /last_day /civil_year /year_length.
  assert (Hall : mp = 0 ∨ mp = 1 ∨ mp = 2 ∨ mp = 3 ∨ mp = 4 ∨ mp = 5 ∨ mp = 6 ∨ mp = 7 ∨ mp = 8 ∨ mp = 9 ∨ mp = 10 ∨ mp = 11) by lia.
  destruct_or! Hall; subst mp; try done. cbn -[is_leap].
  rw (_ : yoe + era * 400 + 1 = yoe + 1 + era * 400); [lia|]. rw is_leap_period. by destruct (is_leap (yoe + 1)).
Qed.

Lemma days_from_march era yoe mp d : 0 ≤ yoe < 400 → 0 ≤ mp < 12 →
  days_from_civil (mkYmd (civil_year era yoe mp) (month_of mp) d) =
  era * 146097 + (year_start yoe + (month_start mp + d - 1)) - 719468.
Proof.
  intros Hy Hm. destruct (month_of_facts mp Hm) as (_&Hmar&Hle). rw /days_from_civil. cbn [ymd_year ymd_month ymd_day].
  rw Hle. fold (march_of (month_of mp)). rw Hmar.
  rw (_ : (if 10 <=? mp then civil_year era yoe mp - 1 else civil_year era yoe mp) = yoe + era * 400);
    [rw /civil_year; case_match; lia|].
  rw Z.div_add; [lia|]. rw Z.mod_add; [lia|]. rw (Z.div_small yoe); [lia|]. rw (Z.mod_small yoe); [lia|].
  rw /year_start /month_start. lia.
Qed.

Lemma civil_from_march era yoe doy : 0 ≤ yoe < 400 → 0 ≤ doy < year_length yoe →
  civil_from_days (era * 146097 + (year_start yoe + doy) - 719468) =
  let mp := (5 * doy + 2) / 153 in mkYmd (civil_year era yoe mp) (month_of mp) (doy - month_start mp + 1).
Proof.
  intros Hy Hd. destruct (era_year_ok yoe doy Hy Hd) as [Hr He]. rw /civil_from_days.
  rw (_ : era * 146097 + (year_start yoe + doy) - 719468 + 719468 = year_start yoe + doy + era * 146097); [lia|].
  rw Z.div_add; [lia|]. rw Z.mod_add; [lia|]. rw (Z.div_small (year_start yoe + doy) 146097); [lia|].
  rw (Z.mod_small (year_start yoe + doy) 146097); [lia|].
  fold (era_year (year_start yoe + doy)). rw He. fold (year_start yoe).
  rw (_ : year_start yoe + doy - year_start yoe = doy); [lia|]. cbv zeta. set (mp := (5 * doy + 2) / 153).
  fold (month_of mp). fold (month_start mp).
  assert (Hmp : 0 ≤ mp < 12) by (apply doy_facts; rw /year_length in Hd; destruct (is_leap (yoe + 1)); lia).
  destruct (month_of_facts mp Hmp) as (_&_&Hle). rw Hle /civil_year. done.
Qed.

(** Every day has a valid date, and the date gives the day back. *)
Lemma civil_from_days_ok n : ymd_ok (civil_from_days n) = true ∧ days_from_civil (civil_from_days n) = n.
Proof.
  pose proof (Z.div_mod (n + 719468) 146097 ltac:(lia)) as Hn. set (era := (n + 719468) / 146097) in *.
  pose proof (Z.mod_pos_bound (n + 719468) 146097 ltac:(lia)) as Hr. set (doe := (n + 719468) mod 146097) in *.
  destruct (era_year_find doe Hr) as (yoe&Hy&Hd). set (doy := doe - year_start yoe).
  assert (Hn' : n = era * 146097 + (year_start yoe + doy) - 719468) by (rw /doy; lia).
  assert (Hdoy : 0 ≤ doy < year_length yoe) by (rw /doy; lia).
  assert (Hlen : year_length yoe ≤ 366) by (rw /year_length; destruct (is_leap _); lia).
  rw Hn' (civil_from_march era yoe doy Hy Hdoy). cbv zeta. destruct (doy_facts doy ltac:(lia)) as [Hm Hday].
  set (mp := (5 * doy + 2) / 153) in *. split; [|rw days_from_march; [done..|lia]].
  destruct (month_of_facts mp Hm) as (Hmo&_&_). rw /ymd_ok. cbn [ymd_year ymd_month ymd_day].
  rw (last_day_march era yoe mp Hm). rw !andb_true_iff !Z.leb_le. split_and!; try lia.
  destruct (Z.eqb_spec mp 11) as [E|E]; [|lia]. rw E (_ : month_start 11 = 337); [done|]. lia.
Qed.

(** Every valid date is the date of its day. *)
Lemma days_from_civil_ok x : ymd_ok x = true → civil_from_days (days_from_civil x) = x.
Proof.
  destruct x as [y m d]. rw /ymd_ok !andb_true_iff !Z.leb_le. cbn [ymd_year ymd_month ymd_day]. intros [[[H1 H2] H3] H4].
  set (mp := march_of m). assert (Hmp : 0 ≤ mp < 12) by (rw /mp /march_of; case_match; lia).
  assert (Hm : month_of mp = m).
  { rw /mp /march_of /month_of. rw Z.gtb_ltb. destruct (Z.ltb_spec 2 m); case_match eqn:E;
      [lia|apply Z.ltb_ge in E; lia|apply Z.ltb_lt in E; lia|lia]. }
  set (y' := y - (if 10 <=? mp then 1 else 0)).
  assert (Hy : y = civil_year (y' / 400) (y' mod 400) mp) .
  { assert (y = y' + (if 10 <=? mp then 1 else 0)) by (rw /y'; lia). pose proof (Z.div_mod y' 400). rw /civil_year. lia. }
  pose proof (Z.mod_pos_bound y' 400 ltac:(lia)) as Hyr. rw -Hm Hy in H4. rw (last_day_march _ _ mp Hmp) in H4.
  assert (Hlen : 365 ≤ year_length (y' mod 400) ≤ 366) by (rw /year_length; destruct (is_leap _); lia).
  assert (Hd : 1 ≤ d ≤ month_length mp).
  { destruct (Z.eqb_spec mp 11) as [E|E]; [|lia]. rw E. change (month_length 11) with 29. lia. }
  destruct (date_facts mp d Hmp Hd) as [Hback Hdoy].
  rw -Hm Hy (days_from_march _ _ mp d Hyr Hmp) (civil_from_march _ _ _ Hyr).
  - destruct (Z.eqb_spec mp 11) as [E|E]; cbn [andb] in Hdoy; [|lia]. rw E (_ : month_start 11 = 337); [done|]. lia.
  - cbv zeta. rw Hback. f_equal. lia.
Qed.

(** A date in terms of its era and of the year that begins in March. *)
Lemma march_form y m : 1 ≤ m ≤ 12 →
  ∃ era yoe mp, 0 ≤ yoe < 400 ∧ 0 ≤ mp < 12 ∧ y = civil_year era yoe mp ∧ m = month_of mp.
Proof.
  intros Hm. set (mp := march_of m). assert (Hmp : 0 ≤ mp < 12) by (rw /mp /march_of; case_match; lia).
  set (y' := y - (if 10 <=? mp then 1 else 0)). exists (y' / 400), (y' mod 400), mp.
  pose proof (Z.mod_pos_bound y' 400 ltac:(lia)). split_and!; try lia.
  - assert (y = y' + (if 10 <=? mp then 1 else 0)) by (rw /y'; lia). pose proof (Z.div_mod y' 400). rw /civil_year. lia.
  - rw /mp /march_of /month_of. rw Z.gtb_ltb. destruct (Z.ltb_spec 2 m); case_match eqn:E;
      [lia|apply Z.ltb_ge in E; lia|apply Z.ltb_lt in E; lia|lia].
Qed.

Lemma add_one_month y m d : 1 ≤ m ≤ 12 →
  add_months (mkYmd y m d) 1 = if m =? 12 then mkYmd (y + 1) 1 d else mkYmd y (m + 1) d.
Proof.
  intros Hm. rw /add_months. cbn [ymd_year ymd_month ymd_day]. destruct (Z.eqb_spec m 12) as [->|Hne].
  - rw (_ : y * 12 + (12 - 1) + 1 = 0 + (y + 1) * 12); [lia|]. rw Z.div_add; [lia|]. by rw Z.mod_add; [lia|].
  - rw (_ : y * 12 + (m - 1) + 1 = m + y * 12); [lia|]. rw Z.div_add; [lia|]. rw Z.mod_add; [lia|].
    rw Z.div_small; [lia|]. by rw Z.mod_small; [lia|].
Qed.

Definition start_check (mp : Z) : bool := month_start (mp + 1) =? month_start mp + month_length mp.
Lemma month_starts : all_from 11 0 start_check = true.
Proof. vm_compute. reflexivity. Qed.

(** The next month begins after the last day of this one. *)
Lemma next_month y m : 1 ≤ m ≤ 12 →
  days_from_civil (add_months (mkYmd y m 1) 1) = days_from_civil (mkYmd y m 1) + last_day y m.
Proof.
  intros Hm. rw (add_one_month y m 1 Hm). destruct (march_form y m Hm) as (era&yoe&mp&Hy&Hmp&->&->).
  rw (last_day_march era yoe mp Hmp) (days_from_march era yoe mp 1 Hy Hmp).
  destruct (Z.eqb_spec mp 11) as [->|Hne].
  - change (month_of 11) with 2. cbn [Z.eqb Pos.eqb]. destruct (year_facts yoe Hy) as (_&_&Hlen).
    change (month_start 11) with 337. destruct (Z.eqb_spec yoe 399) as [->|H399].
    + rw (_ : mkYmd (civil_year era 399 11) (2 + 1) 1 = mkYmd (civil_year (era + 1) 0 0) (month_of 0) 1);
        [rw /civil_year /month_of /=; f_equal; lia|].
      rw days_from_march; [lia..|]. change (month_start 0) with 0. change (year_start 0) with 0. lia.
    + rw (_ : mkYmd (civil_year era yoe 11) (2 + 1) 1 = mkYmd (civil_year era (yoe + 1) 0) (month_of 0) 1);
        [rw /civil_year /month_of /=; f_equal; lia|].
      rw days_from_march; [lia..|]. change (month_start 0) with 0. lia.
  - pose proof (all_from_spec _ _ _ month_starts mp ltac:(lia)) as Hs. apply Z.eqb_eq in Hs.
    rw (_ : (if month_of mp =? 12 then mkYmd (civil_year era yoe mp + 1) 1 1 else mkYmd (civil_year era yoe mp) (month_of mp + 1) 1)
          = mkYmd (civil_year era yoe (mp + 1)) (month_of (mp + 1)) 1).
    + rw /civil_year /month_of. assert (Hc : mp < 9 ∨ mp = 9 ∨ mp = 10) by lia. destruct Hc as [Hc|[-> | ->]]; [|repeat (case_match; try done); f_equal; lia..].
      rw (proj2 (Z.ltb_lt mp 10)); [lia|]. rw (proj2 (Z.ltb_lt (mp + 1) 10)); [lia|].
      rw (proj2 (Z.eqb_neq (mp + 3) 12)); [lia|]. rw (proj2 (Z.leb_gt 10 mp)); [lia|]. rw (proj2 (Z.leb_gt 10 (mp + 1))); [lia|].
      f_equal; lia.
    + rw days_from_march; [lia..|]. lia.
Qed.

Lemma last_day_bounds y m : 28 ≤ last_day y m ≤ 31.
Proof. rw /last_day. repeat case_match; lia. Qed.

Lemma days_linear y m d e : days_from_civil (mkYmd y m (d + e)) = days_from_civil (mkYmd y m d) + e.
Proof. rw /days_from_civil. cbn [ymd_year ymd_month ymd_day]. lia. Qed.

(** ** Time zones by offset *)

Section zones.
(** The zones of the data base and their offsets, in seconds, at the moment. *)
Context {Zone : Type} (zones : list Zone) (offset : Zone → Z).

(** [insert] keeps the entry that is there. *)
Definition insert_zone (timezones : gmap Z Zone) (tz : Zone) : gmap Z Zone :=
match timezones !! offset tz with Some _ => timezones | None => <[offset tz := tz]> timezones end.

(** [_tz_list]: the table of a thread is made at the first call and kept. *)
Definition tz_list (timezones : option (gmap Z Zone)) : gmap Z Zone :=
match timezones with Some timezones => timezones | None => foldl insert_zone ∅ zones end.

(** [GetAnyTimezoneByOffset], with the offset in nanoseconds. *)
Definition GetAnyTimezoneByOffset (timezones : option (gmap Z Zone)) (ns : Z) : option Zone :=
tz_list timezones !! Z.quot ns 1000000000.

(** The first zone with the offset is found, and none if there is none. *)
Lemma insert_zones_lookup l (timezones : gmap Z Zone) o :
foldl insert_zone timezones l !! o =
match timezones !! o with Some tz => Some tz | None => snd <$> list_find (λ tz, offset tz = o) l end.
Proof.
revert timezones. induction l as [|tz l IH]; intros timezones; cbn [foldl]; [by destruct (timezones !! o)|].
rw IH /insert_zone. destruct (timezones !! offset tz) as [tz'|] eqn:Htz.
- destruct (timezones !! o) as [?|] eqn:Ho; [done|]. cbn. rw decide_False; [congruence|].
  by destruct (list_find _ l) as [[]|].
- destruct (decide (offset tz = o)) as [<-|Hne].
  + rw lookup_insert_eq Htz. cbn. by rw decide_True.
  + rw lookup_insert_ne; [done|]. destruct (timezones !! o); [done|]. cbn. rw decide_False; [done|].
    by destruct (list_find _ l) as [[]|].
Qed.

Lemma GetAnyTimezoneByOffset_first ns :
GetAnyTimezoneByOffset None ns = snd <$> list_find (λ tz, offset tz = Z.quot ns 1000000000) zones.
Proof. rw /GetAnyTimezoneByOffset /tz_list insert_zones_lookup lookup_empty. done. Qed.
End zones.

(** ** DateTime *)

Definition NS_PER_SECOND : Z := 1000000000.
Definition NS_PER_DAY : Z := 86400 * NS_PER_SECOND.

(** [std::chrono::time_zone]: [tz_to_sys] throws, here [None], for a local time
    the zone skips or repeats; [tz_offset] is the offset in seconds at a local
    time. *)
Class Timezone : Type := {
  tz_to_local : Z → Z;
  tz_to_sys : Z → option Z;
  tz_offset : Z → Z;
}.

(** What [std::chrono] documents of the conversions. *)
Class TimezoneLaws `{Timezone} : Prop := {
  tz_local_sys : ∀ local sys, tz_to_sys local = Some sys → tz_to_local sys = local;
}.

(** [int64_t] arithmetic of durations. *)
Definition i64 (z : Z) : result Z :=
  if (- 2 ^ 63 <=? z) && (z <? 2 ^ 63) then Ok z else Err (UndefinedBehaviour "int64_t overflow").

(** [_hms] is kept as the nanoseconds it stands for, [_epoch_time] as its
    system time; the zone is a parameter. *)
Record DateTime : Type := mkDateTime { dt_ymd : year_month_day; dt_hms : Z; dt_epoch_time : Z }.

Section date_time.
Context `{Timezone}.

(** [SetTimeData] of a system time, and of a local time. *)
Definition SetTimeData (epoch_time : Z) : DateTime :=
let local_time := tz_to_local epoch_time in
let local_days := local_time / NS_PER_DAY in
mkDateTime (civil_from_days local_days) (local_time - local_days * NS_PER_DAY) epoch_time.

Definition SetTimeData_local (local_time : Z) : result DateTime :=
match tz_to_sys local_time with
| Some epoch_time => Ok (SetTimeData epoch_time)
| None => Err (Exception "nonexistent or ambiguous local time")
end.

Definition ToLocalTimePoint (ymd : year_month_day) (hms : Z) : result Z :=
i64 (days_from_civil ymd * NS_PER_DAY + hms).

(** From a duration since the epoch, in nanoseconds. *)
Definition DateTime_epoch (epoch_time : Z) : DateTime := SetTimeData epoch_time.

(** From a date and a time of day; [hour * 3600 + minute * 60 + second] is a
    [uint32_t].  [std::chrono::year] holds years up to 32767. *)
Definition DateTime_civil (year month day hour minute second : Z) : result DateTime :=
if year >? 32767 then Err (UndefinedBehaviour "std::chrono::year")
else
  local ← ToLocalTimePoint (mkYmd year month day) (u32 (hour * 3600 + minute * 60 + second) * NS_PER_SECOND);
  SetTimeData_local local.

(** [duration_cast] to a coarser unit of [unit] nanoseconds. *)
Definition ToEpochTimestamp (unit : Z) (d : DateTime) : Z := Z.quot (dt_epoch_time d) unit.

Definition FloorTo (unit : Z) (d : DateTime) : result DateTime :=
SetTimeData_local (tz_to_local (dt_epoch_time d) / unit * unit).

Definition FloorMonths (d : DateTime) : result DateTime :=
local ← ToLocalTimePoint (mkYmd (ymd_year (dt_ymd d)) (ymd_month (dt_ymd d)) 1) 0;
SetTimeData_local local.

Definition FloorYears (d : DateTime) : result DateTime :=
local ← ToLocalTimePoint (mkYmd (ymd_year (dt_ymd d)) 1 1) 0;
SetTimeData_local local.

Definition AddTime (time : Z) (d : DateTime) : result DateTime :=
expected_time ← i64 (dt_epoch_time d + time);
Ok (SetTimeData expected_time).

Definition AddMonths (k : Z) (d : DateTime) : result DateTime :=
FloorMonths (mkDateTime (add_months (dt_ymd d) k) (dt_hms d) (dt_epoch_time d)).

Definition AddYears (k : Z) (d : DateTime) : result DateTime :=
FloorYears (mkDateTime (add_years (dt_ymd d) k) (dt_hms d) (dt_epoch_time d)).

Definition PlusTime (time : Z) (d : DateTime) : result DateTime :=
expected_time ← i64 (dt_epoch_time d + time);
Ok (DateTime_epoch expected_time).

Definition PlusMonths (k : Z) (d : DateTime) : result DateTime :=
local ← ToLocalTimePoint (add_months (dt_ymd d) k) (dt_hms d);
d ← SetTimeData_local local;
FloorMonths d.

Definition PlusYears (k : Z) (d : DateTime) : result DateTime :=
local ← ToLocalTimePoint (add_years (dt_ymd d) k) (dt_hms d);
d ← SetTimeData_local local;
FloorYears d.

Definition Year (d : DateTime) : Z := ymd_year (dt_ymd d).
Definition Month (d : DateTime) : Z := ymd_month (dt_ymd d).
Definition Day (d : DateTime) : Z := ymd_day (dt_ymd d).
Definition Hour (d : DateTime) : Z := dt_hms d / (3600 * NS_PER_SECOND).
Definition Minute (d : DateTime) : Z := dt_hms d / (60 * NS_PER_SECOND) mod 60.
Definition Second (d : DateTime) : Z := dt_hms d / NS_PER_SECOND mod 60.
Definition SubSecond (d : DateTime) : Z := dt_hms d mod NS_PER_SECOND.
Definition IsLeapYear (d : DateTime) : bool := is_leap (Year d).
Definition IsLastDayOfMonth (d : DateTime) : bool := last_day (Year d) (Month d) =? Day d.
(** In hours, with the minutes of the offset cut off. *)
Definition GetTimezoneOffset (d : DateTime) : Z := Z.quot (tz_offset (tz_to_local (dt_epoch_time d))) 3600.

(** [std::setfill('0') << std::setw(width)]. *)
Fixpoint zeros (n : nat) : string :=
match n with O => "" | S n => "0" +:+ zeros n end.
Definition setw (width : nat) (s : string) : string := zeros (width - String.length s) +:+ s.

Definition ToLocalDateString (d : DateTime) : string :=
pretty (Year d) +:+ "-" +:+ setw 2 (pretty (Month d)) +:+ "-" +:+ setw 2 (pretty (Day d)) +:+ " " +:+
setw 2 (pretty (Hour d)) +:+ ":" +:+ setw 2 (pretty (Minute d)) +:+ ":" +:+ setw 2 (pretty (Second d)) +:+ "." +:+
setw 3 (pretty (SubSecond d / 1000000)).

(** The types of durations [Add] and [Plus] are specialised for. *)
Inductive Duration : Type := InTime (nanoseconds : Z) | InMonths (k : Z) | InYears (k : Z).

Definition Add (time : Duration) (d : DateTime) : result DateTime :=
match time with InTime t => AddTime t d | InMonths k => AddMonths k d | InYears k => AddYears k d end.

Definition Plus (time : Duration) (d : DateTime) : result DateTime :=
match time with InTime t => PlusTime t d | InMonths k => PlusMonths k d | InYears k => PlusYears k d end.

(** [-time]; the counts of months and years are [int]s. *)
Definition negate (time : Duration) : result Duration :=
match time with
| InTime t => t ← i64 (- t); Ok (InTime t)
| InMonths k => if k =? - 2 ^ 31 then Err (UndefinedBehaviour "int overflow") else Ok (InMonths (- k))
| InYears k => if k =? - 2 ^ 31 then Err (UndefinedBehaviour "int overflow") else Ok (InYears (- k))
end.

(** [d += time], [d -= time], [d + time], [d - time] *)
Definition op_add_assign (time : Duration) (d : DateTime) : result DateTime := Add time d.
Definition op_sub_assign (time : Duration) (d : DateTime) : result DateTime := time ← negate time; Add time d.
Definition op_add (time : Duration) (d : DateTime) : result DateTime := Plus time d.
Definition op_sub (time : Duration) (d : DateTime) : result DateTime := time ← negate time; Plus time d.

(** [system_clock::now().time_since_epoch()], an argument, in nanoseconds or cast to
    a coarser unit. *)
Definition CurrentTimeEpoch (now : Z) : Z := now.
Definition CurrentTimeEpoch_in (unit now : Z) : Z := Z.quot now unit.
Definition DateTime_now (now : Z) : DateTime := DateTime_epoch now.

(** The dates a program can have. *)
Inductive date_made : DateTime → Prop :=
| made_epoch t : date_made (DateTime_epoch t)
| made_civil y mo dy h mi s d : DateTime_civil y mo dy h mi s = Ok d → date_made d
| made_floor unit d d' : date_made d → FloorTo unit d = Ok d' → date_made d'
| made_floor_months d d' : date_made d → FloorMonths d = Ok d' → date_made d'
| made_floor_years d d' : date_made d → FloorYears d = Ok d' → date_made d'
| made_add t d d' : date_made d → AddTime t d = Ok d' → date_made d'
| made_add_months k d d' : date_made d → AddMonths k d = Ok d' → date_made d'
| made_add_years k d d' : date_made d → AddYears k d = Ok d' → date_made d'
| made_plus t d d' : date_made d → PlusTime t d = Ok d' → date_made d'
| made_plus_months k d d' : date_made d → PlusMonths k d = Ok d' → date_made d'
| made_plus_years k d d' : date_made d → PlusYears k d = Ok d' → date_made d'
| made_now now : date_made (DateTime_now now)
| made_add_assign time d d' : date_made d → op_add_assign time d = Ok d' → date_made d'
| made_sub_assign time d d' : date_made d → op_sub_assign time d = Ok d' → date_made d'
| made_op_add time d d' : date_made d → op_add time d = Ok d' → date_made d'
| made_op_sub time d d' : date_made d → op_sub time d = Ok d' → date_made d'.

(** The fields of a date are those of its point in local time. *)
Definition date_of (d : DateTime) : Prop := d = SetTimeData (dt_epoch_time d).

Lemma SetTimeData_date_of t : date_of (SetTimeData t).
Proof. done. Qed.

Lemma SetTimeData_local_inv local d : SetTimeData_local local = Ok d → ∃ t, tz_to_sys local = Some t ∧ d = SetTimeData t.
Proof. rw /SetTimeData_local. destruct (tz_to_sys local) as [t|]; [|done]. intros [= <-]. by exists t. Qed.

Lemma i64_inv z x : i64 z = Ok x → x = z.
Proof. rw /i64. case_match; congruence. Qed.

Lemma AddTime_inv t d d' : AddTime t d = Ok d' → d' = SetTimeData (dt_epoch_time d + t).
Proof. rw /AddTime /mbind /result_bind. destruct (i64 _) as [x|] eqn:Hx; [|done]. by apply i64_inv in Hx as ->; intros [= <-]. Qed.

Lemma Add_date_of time d d' : Add time d = Ok d' → date_of d'.
Proof.
destruct time as [t|k|k]; cbn [Add].
- by intros ->%AddTime_inv.
- rw /AddMonths /FloorMonths /mbind /result_bind. case_match; [|done]. by intros (t&_&->)%SetTimeData_local_inv.
- rw /AddYears /FloorYears /mbind /result_bind. case_match; [|done]. by intros (t&_&->)%SetTimeData_local_inv.
Qed.

Lemma Plus_date_of time d d' : Plus time d = Ok d' → date_of d'.
Proof.
destruct time as [t|k|k]; cbn [Plus]; rw ?/PlusTime ?/PlusMonths ?/PlusYears ?/FloorMonths ?/FloorYears /mbind /result_bind;
  repeat case_match; try done; first [by intros [= <-]|by intros (t'&_&->)%SetTimeData_local_inv].
Qed.

Lemma date_made_date_of d : date_made d → date_of d.
Proof.
destruct 1 as [t|y mo dy h mi s d Hd|unit d d' _ Hd|d d' _ Hd|d d' _ Hd|t d d' _ Hd|k d d' _ Hd|k d d' _ Hd|t d d' _ Hd
  |k d d' _ Hd|k d d' _ Hd|now|time d d' _ Hd|time d d' _ Hd|time d d' _ Hd|time d d' _ Hd].
- done.
- move: Hd. rw /DateTime_civil /mbind /result_bind. repeat case_match; try done. by intros (t&_&->)%SetTimeData_local_inv.
- by apply SetTimeData_local_inv in Hd as (t&_&->).
- move: Hd. rw /FloorMonths /mbind /result_bind. case_match; [|done]. by intros (t&_&->)%SetTimeData_local_inv.
- move: Hd. rw /FloorYears /mbind /result_bind. case_match; [|done]. by intros (t&_&->)%SetTimeData_local_inv.
- exact (Add_date_of (InTime t) d d' Hd).
- exact (Add_date_of (InMonths k) d d' Hd).
- exact (Add_date_of (InYears k) d d' Hd).
- exact (Plus_date_of (InTime t) d d' Hd).
- exact (Plus_date_of (InMonths k) d d' Hd).
- exact (Plus_date_of (InYears k) d d' Hd).
- done.
- exact (Add_date_of time d d' Hd).
- move: Hd. rw /op_sub_assign /mbind /result_bind. case_match; [|done]. apply Add_date_of.
- exact (Plus_date_of time d d' Hd).
- move: Hd. rw /op_sub /mbind /result_bind. case_match; [|done]. apply Plus_date_of.
Qed.

(** Subtracting what was added gives the date back. *)
Lemma sub_after_add t d d' :
date_made d → - 2 ^ 63 < t < 2 ^ 63 → - 2 ^ 63 ≤ dt_epoch_time d < 2 ^ 63 →
op_add_assign (InTime t) d = Ok d' → op_sub_assign (InTime t) d' = Ok d.
Proof.
intros Hd%date_made_date_of Ht He ->%AddTime_inv. rw /op_sub_assign /negate /Add /AddTime /mbind /result_bind /i64.
rw (_ : (_ && _) = true); [lia|]. cbn [dt_epoch_time SetTimeData]. rw (_ : dt_epoch_time d + t + - t = dt_epoch_time d); [lia|].
rw (_ : (_ && _) = true); [lia|]. by rw -Hd.
Qed.
End date_time.

Lemma NS_PER_DAY_pos : 0 < NS_PER_DAY.
Proof. done. Qed.

(** The time of day in its parts. *)
Lemma hms_parts h : 0 ≤ h < NS_PER_DAY →
  0 ≤ h / (3600 * NS_PER_SECOND) < 24 ∧
  h = ((h / (3600 * NS_PER_SECOND) * 60 + h / (60 * NS_PER_SECOND) mod 60) * 60 + h / NS_PER_SECOND mod 60) * NS_PER_SECOND
        + h mod NS_PER_SECOND.
Proof.
  intros Hh. assert (Hd : NS_PER_DAY = 86400 * NS_PER_SECOND) by done. assert (Hp : 0 < NS_PER_SECOND) by done.
  generalize dependent NS_PER_SECOND. intros N HN Hp. rw HN in Hh. split.
  - split; [apply Z.div_pos; lia|apply Z.div_lt_upper_bound; lia].
  - rw (Z.mul_comm 3600) (Z.mul_comm 60). rw -!Z.div_div; try lia. set (q := h / N).
    pose proof (Z.div_mod h N ltac:(lia)) as H1. fold q in H1. rw (_ : q / 3600 = q / 60 / 60); [rw Z.div_div; [lia..|done]|].
    pose proof (Z.div_mod q 60 ltac:(lia)) as H2. pose proof (Z.div_mod (q / 60) 60 ltac:(lia)) as H3. nia.
Qed.

Lemma date_made_fields `{Timezone} d : date_made d → ymd_ok (dt_ymd d) = true ∧ 0 ≤ dt_hms d < NS_PER_DAY.
Proof.
  intros Hd%date_made_date_of. rw /date_of /SetTimeData in Hd. set (local := tz_to_local (dt_epoch_time d)) in *.
  rw Hd. cbn [dt_ymd dt_hms]. split; [apply civil_from_days_ok|].
  pose proof (Z.div_mod local NS_PER_DAY ltac:(done)). pose proof (Z.mod_pos_bound local NS_PER_DAY NS_PER_DAY_pos). lia.
Qed.

(** C28: Whatever constructors and operations made it, the fields of a date are in
    their ranges, the day exists in its month, and together they denote the
    local time of its point in time. *)
Theorem date_fields_valid `{Timezone} (d : DateTime) :
  date_made d →
  ymd_ok (dt_ymd d) = true ∧ 0 ≤ Hour d < 24 ∧ 0 ≤ Minute d < 60 ∧ 0 ≤ Second d < 60 ∧ 0 ≤ SubSecond d < NS_PER_SECOND ∧
  tz_to_local (dt_epoch_time d) =
    days_from_civil (mkYmd (Year d) (Month d) (Day d)) * NS_PER_DAY +
    ((Hour d * 60 + Minute d) * 60 + Second d) * NS_PER_SECOND + SubSecond d.
Proof.
  intros Hmade. pose proof (date_made_date_of d Hmade) as Hd. rw /date_of /SetTimeData in Hd.
  set (local := tz_to_local (dt_epoch_time d)) in *. destruct (civil_from_days_ok (local / NS_PER_DAY)) as [Hok Hdays].
  assert (Hymd : dt_ymd d = civil_from_days (local / NS_PER_DAY)) by (by rw Hd).
  assert (Hhms : dt_hms d = local mod NS_PER_DAY) by (rw Hd /=; pose proof (Z.div_mod local NS_PER_DAY ltac:(done)); lia).
  pose proof (Z.mod_pos_bound local NS_PER_DAY NS_PER_DAY_pos) as Hr. rw -Hhms in Hr.
  destruct (hms_parts (dt_hms d) Hr) as [Hh Hparts].
  split; [by rw Hymd|]. split; [exact Hh|]. do 3 (split; [by apply Z.mod_pos_bound|]).
  rw (_ : mkYmd (Year d) (Month d) (Day d) = dt_ymd d); [rw /Year /Month /Day; by destruct (dt_ymd d)|].
  rw Hymd Hdays /Hour /Minute /Second /SubSecond -Z.add_assoc -Hparts Hhms.
  pose proof (Z.div_mod local NS_PER_DAY ltac:(done)). lia.
Qed.

(** A local time in its parts. *)
Lemma SetTimeData_parts `{Timezone, !TimezoneLaws} days h t :
  tz_to_sys (days * NS_PER_DAY + h) = Some t → 0 ≤ h < NS_PER_DAY →
  dt_ymd (SetTimeData t) = civil_from_days days ∧ dt_hms (SetTimeData t) = h.
Proof.
  intros Ht Hh. apply tz_local_sys in Ht. rw /SetTimeData Ht. cbn [dt_ymd dt_hms].
  rw (_ : (days * NS_PER_DAY + h) / NS_PER_DAY = days); [|split; [done|lia]].
  rw Z.add_comm Z.div_add; [done|]. rw Z.div_small; [done|lia].
Qed.

(** A date given by its parts has these parts. *)
Theorem civil_roundtrip `{Timezone, !TimezoneLaws} year month day hour minute second d :
  ymd_ok (mkYmd year month day) = true → 0 ≤ hour < 24 → 0 ≤ minute < 60 → 0 ≤ second < 60 →
  DateTime_civil year month day hour minute second = Ok d →
  (Year d, Month d, Day d) = (year, month, day) ∧ (Hour d, Minute d, Second d, SubSecond d) = (hour, minute, second, 0).
Proof.
  intros Hok Hh Hm Hs. rw /DateTime_civil. case_match; [done|]. rw /ToLocalTimePoint /mbind /result_bind.
  destruct (i64 _) as [local|] eqn:Hl; [|done]. apply i64_inv in Hl as ->. rw u32_small; [lia|].
  intros (t&Ht&->)%SetTimeData_local_inv. set (n := hour * 3600 + minute * 60 + second) in *.
  destruct (SetTimeData_parts _ _ t Ht) as [Hymd Hhms].
  { rw /NS_PER_DAY /NS_PER_SECOND. lia. }
  rw /Year /Month /Day /Hour /Minute /Second /SubSecond Hymd Hhms (days_from_civil_ok _ Hok). split; [done|].
  rw /NS_PER_SECOND. rw Z.mod_mul; [done|]. rw (Z.div_mul n); [done|].
  rw (_ : n * 1000000000 / (3600 * 1000000000) = hour); [rw Z.div_mul_cancel_r; [done..|]; symmetry; apply (Z.div_unique _ _ _ (minute * 60 + second)); lia|].
  rw (_ : n * 1000000000 / (60 * 1000000000) = hour * 60 + minute);
    [rw Z.div_mul_cancel_r; [done..|]; symmetry; apply (Z.div_unique _ _ _ second); lia|].
  rw (_ : (hour * 60 + minute) mod 60 = minute); [symmetry; apply (Z.mod_unique _ _ hour); lia|].
  by rw (_ : n mod 60 = second); [symmetry; apply (Z.mod_unique _ _ (hour * 60 + minute)); lia|].
Qed.

Lemma FloorMonths_first `{Timezone, !TimezoneLaws} d d' :
  1 ≤ Month d ≤ 12 → FloorMonths d = Ok d' → dt_ymd d' = mkYmd (Year d) (Month d) 1 ∧ dt_hms d' = 0.
Proof.
  intros Hm. rw /FloorMonths /ToLocalTimePoint /mbind /result_bind. destruct (i64 _) as [local|] eqn:Hl; [|done].
  apply i64_inv in Hl as ->. intros (t&Ht&->)%SetTimeData_local_inv.
  destruct (SetTimeData_parts _ 0 t Ht) as [-> ->]; [done|]. split; [|done]. apply days_from_civil_ok.
  rw /ymd_ok. cbn [ymd_year ymd_month ymd_day]. pose proof (last_day_bounds (Year d) (Month d)).
  rw !andb_true_iff !Z.leb_le. lia.
Qed.

Lemma add_months_month x k : 1 ≤ ymd_month (add_months x k) ≤ 12.
Proof. rw /add_months /=. pose proof (Z.mod_pos_bound (ymd_year x * 12 + (ymd_month x - 1) + k) 12). lia. Qed.

(** A day past the end of its month is one of the first days of the next. *)
Lemma overflowing_day y m d :
  1 ≤ m ≤ 12 → last_day y m < d ≤ 31 →
  civil_from_days (days_from_civil (mkYmd y m d)) = let n := add_months (mkYmd y m 1) 1 in
    mkYmd (ymd_year n) (ymd_month n) (d - last_day y m).
Proof.
  intros Hm Hd. pose proof (last_day_bounds y m) as Hb. cbv zeta. set (n := add_months (mkYmd y m 1) 1).
  pose proof (add_months_month (mkYmd y m 1) 1) as Hn. fold n in Hn.
  pose proof (last_day_bounds (ymd_year n) (ymd_month n)) as Hb2.
  rw (_ : mkYmd y m d = mkYmd y m (1 + (d - 1))); [f_equal; lia|]. rw days_linear.
  rw (_ : days_from_civil (mkYmd y m 1) + (d - 1) = days_from_civil n + (d - 1 - last_day y m)).
  { rw /n (next_month y m Hm). lia. }
  rw (_ : n = mkYmd (ymd_year n) (ymd_month n) 1); [by rw /n /add_months|].
  rw -days_linear. cbn [ymd_year ymd_month]. rw days_from_civil_ok; [|f_equal; lia].
  rw /ymd_ok. cbn [ymd_year ymd_month ymd_day]. rw !andb_true_iff !Z.leb_le. lia.
Qed.

(** Both ways of adding months arrive at the first of a month, midnight: [Add]
    always at the month so many months later; [Plus] too when that month has the
    day of the date, and otherwise one month further. *)
Theorem months_later `{Timezone, !TimezoneLaws} (d d1 d2 : DateTime) (k : Z) :
  date_made d → AddMonths k d = Ok d1 → PlusMonths k d = Ok d2 →
  let x := add_months (dt_ymd d) k in
  dt_hms d1 = 0 ∧ dt_hms d2 = 0 ∧
  dt_ymd d1 = mkYmd (ymd_year x) (ymd_month x) 1 ∧
  dt_ymd d2 = if ymd_ok x then mkYmd (ymd_year x) (ymd_month x) 1
              else add_months (mkYmd (ymd_year x) (ymd_month x) 1) 1.
Proof.
  intros Hmade H1 H2. cbv zeta. set (x := add_months (dt_ymd d) k).
  pose proof (add_months_month (dt_ymd d) k) as Hx. fold x in Hx.
  destruct (FloorMonths_first (mkDateTime x (dt_hms d) (dt_epoch_time d)) d1 Hx H1) as [Hd1 Hh1]. rw Hd1 Hh1.
  destruct (date_made_fields d Hmade) as [Hok Hhms]. rw /PlusMonths /ToLocalTimePoint /mbind /result_bind in H2. fold x in H2.
  destruct (i64 _) as [local|] eqn:Hl in H2; [|done]. apply i64_inv in Hl as ->.
  destruct (SetTimeData_local _) as [d3|] eqn:Hd3 in H2; [|done]. apply SetTimeData_local_inv in Hd3 as (t&Ht&->).
  destruct (SetTimeData_parts _ _ t Ht Hhms) as [Hymd _].
  assert (Hday : 1 ≤ ymd_day x ≤ 31).
  { rw /ymd_ok !andb_true_iff !Z.leb_le in Hok. pose proof (last_day_bounds (ymd_year (dt_ymd d)) (ymd_month (dt_ymd d))).
    rw /x /add_months /=. lia. }
  assert (Hmonth : 1 ≤ Month (SetTimeData t) ≤ 12).
  { rw /Month Hymd. destruct (civil_from_days_ok (days_from_civil x)) as [Hc _].
    rw /ymd_ok !andb_true_iff !Z.leb_le in Hc. lia. }
  destruct (FloorMonths_first _ d2 Hmonth H2) as [Hd2 Hh2]. rw Hd2 Hh2 /Year /Month Hymd. split_and!; [done..|].
  destruct (ymd_ok x) eqn:Hx_ok; [by rw (days_from_civil_ok x Hx_ok)|].
  assert (Hov : last_day (ymd_year x) (ymd_month x) < ymd_day x ≤ 31).
  { destruct (decide (ymd_day x ≤ last_day (ymd_year x) (ymd_month x))) as [Hle|]; [|lia]. exfalso.
    assert (Ht' : ymd_ok x = true) by (rw /ymd_ok !andb_true_iff !Z.leb_le; lia). congruence. }
  rw (_ : x = mkYmd (ymd_year x) (ymd_month x) (ymd_day x)) in Hymd |- *; [by destruct x|].
  cbn [ymd_year ymd_month]. rw (overflowing_day _ _ _ Hx Hov). done.
Qed.
