(* ===== verification/Coordinate.v ===== *)
(** * Coordinate arithmetic

    [CoordinateUnit] is [float] in [common/game/coordinate/Base.h].  The
    geometry is written once, over the operations the code applies to a
    [CoordinateUnit]; [binary32] is the code's instance, IEEE 754 single
    precision with round-to-nearest-even as SSE computes it, and [exact] is
    the same algorithm over the rationals, for the geometric facts that hold
    up to rounding. *)

From S2P Require Import Prelude.
From Stdlib Require Import SpecFloat QArith Qabs Lqa.

Open Scope Z_scope.

Class CoordinateUnit (C : Type) : Type := {
  c_add : C → C → C;
  c_sub : C → C → C;
  c_mul : C → C → C;
  c_div : C → C → C;
  c_abs : C → C;
  c_ltb : C → C → bool;
  c_eqb : C → C → bool;
  c_of_Z : Z → C;
  (** [static_cast<int32_t>]; [None] where the conversion is undefined *)
  c_to_int : C → option Z;
}.

Definition c_gtb {C} `{CoordinateUnit C} (x y : C) : bool := c_ltb y x.
Definition c_half {C} `{CoordinateUnit C} : C := c_div (c_of_Z 1) (c_of_Z 2).

Declare Scope coord_scope.
Delimit Scope coord_scope with coord.
Infix "+" := c_add : coord_scope.
Infix "-" := c_sub : coord_scope.
Infix "*" := c_mul : coord_scope.
Infix "/" := c_div : coord_scope.
Infix "<?" := c_ltb : coord_scope.
Infix ">?" := c_gtb : coord_scope.
Infix "=?" := c_eqb : coord_scope.

Definition int32_range (z : Z) : option Z :=
  if (- 2 ^ 31 <=? z) && (z <? 2 ^ 31) then Some z else None.

(** ** IEEE 754 binary32 *)

Abbreviation f32 := spec_float (only parsing).

Definition f32_trunc (x : f32) : option Z :=
  match x with
  | S754_zero _ => Some 0
  | S754_finite s m e =>
      int32_range (cond_Zopp s (if 0 <=? e then Z.pos m * 2 ^ e else Z.pos m / 2 ^ (- e)))
  | S754_infinity _ | S754_nan => None
  end.

#[export] Instance binary32 : CoordinateUnit spec_float := {|
  c_add := SFadd 24 128;
  c_sub := SFsub 24 128;
  c_mul := SFmul 24 128;
  c_div := SFdiv 24 128;
  c_abs := SFabs;
  c_ltb := SFltb;
  c_eqb := SFeqb;
  c_of_Z := λ z, binary_normalize 24 128 z 0 false;
  c_to_int := f32_trunc;
|}.

(** ** Exact arithmetic *)

#[export] Instance exact : CoordinateUnit Q := {|
  c_add := Qplus;
  c_sub := Qminus;
  c_mul := Qmult;
  c_div := Qdiv;
  c_abs := Qabs;
  c_ltb := λ x y, negb (Qle_bool y x);
  c_eqb := Qeq_bool;
  c_of_Z := inject_Z;
  c_to_int := λ q, int32_range (Z.quot (Qnum q) (Zpos (Qden q)));
|}.

(** ** Reflection of the exact comparisons *)

Lemma exact_ltb_true (x y : Q) : (x <? y)%coord = true ↔ (x < y)%Q.
Proof.
  cbn. rw negb_true_iff -not_true_iff_false Qle_bool_iff.
  split; [apply Qnot_le_lt | apply Qlt_not_le].
Qed.

Lemma exact_ltb_false (x y : Q) : (x <? y)%coord = false ↔ (y <= x)%Q.
Proof. cbn. by rw negb_false_iff Qle_bool_iff. Qed.

Lemma exact_eqb_true (x y : Q) : (x =? y)%coord = true ↔ (x == y)%Q.
Proof. apply Qeq_bool_iff. Qed.

Lemma exact_eqb_false (x y : Q) : (x =? y)%coord = false ↔ ~ (x == y)%Q.
Proof. cbn. by rw -not_true_iff_false Qeq_bool_iff. Qed.

Lemma exact_to_int_nonneg (q : Q) (n : Z) :
  0 ≤ n < 2 ^ 31 → (inject_Z n <= q)%Q → (q < inject_Z (n + 1))%Q → c_to_int q = Some n.
Proof.
  destruct q as [a d]. rw /Qle /Qlt /=. intros Hn H1 H2.
  rw !Z.mul_1_r in H1 H2.
  rw (_ : Z.quot a (Z.pos d) = n) /int32_range.
  { symmetry. apply (Z.quot_unique a (Z.pos d) n (a - Z.pos d * n)); lia. }
  rw (proj2 (Z.leb_le _ _)); [lia|]. rw (proj2 (Z.ltb_lt _ _)); [lia|done].
Qed.

(** Literals the geometry uses, in the form [lra] reads. *)
Ltac exact_literals :=
  change (inject_Z 1 / inject_Z 2)%Q with (1 # 2)%Q in *;
  change (inject_Z 0) with 0%Q in *;
  change (inject_Z 1) with 1%Q in *;
  change (inject_Z 2) with (2 # 1)%Q in *;
  change (inject_Z 3) with (3 # 1)%Q in *;
  change (inject_Z 10) with (10 # 1)%Q in *;
  change (inject_Z 50) with (50 # 1)%Q in *;
  change (inject_Z 100) with (100 # 1)%Q in *.
