(* ===== verification/SectorGrid.v ===== *)
(** * The sector grid

    [common/game/coordinate/Base.h] and [common/game/coordinate/SectorGrid.h]:
    the world is a fixed 5x5 grid of square sectors; a direction names a
    neighbour of a sector and, as a "phase", the third of the sector an object
    stands in. *)

From S2P Require Import Prelude Coordinate.
From Stdlib Require Import QArith Qround Lqa.

Open Scope Z_scope.

(** ** Geometry (Base.h) *)

Record Vector2 (C : Type) : Type := mkVector2 { vx : C; vy : C }.
Arguments mkVector2 {C} vx vy.
Arguments vx {C} _.
Arguments vy {C} _.

Record FixtureRectangle (C : Type) : Type := mkFixtureRectangle {
  rect_up : C; rect_down : C; rect_left : C; rect_right : C }.
Arguments mkFixtureRectangle {C} _ _ _ _.
Arguments rect_up {C} _.
Arguments rect_down {C} _.
Arguments rect_left {C} _.
Arguments rect_right {C} _.

Record Indexer2 : Type := mkIndexer2 { row : Z; column : Z }.

Inductive Direction : Type :=
| Direction_Up | Direction_UpRight | Direction_Right | Direction_DownRight
| Direction_Down | Direction_DownLeft | Direction_Left | Direction_UpLeft
| Direction_Max.

Inductive FixtureLocation : Type :=
| FixtureLocation_In | FixtureLocation_Gray | FixtureLocation_Leave | FixtureLocation_Max.

#[export] Instance Direction_eq_dec : EqDecision Direction.
Proof. solve_decision. Defined.
#[export] Instance FixtureLocation_eq_dec : EqDecision FixtureLocation.
Proof. solve_decision. Defined.

(** The underlying values of [enum class Direction : uint8_t]. *)
Definition Direction_to_Z (d : Direction) : Z :=
  match d with
  | Direction_Up => 0 | Direction_UpRight => 1 | Direction_Right => 2
  | Direction_DownRight => 3 | Direction_Down => 4 | Direction_DownLeft => 5
  | Direction_Left => 6 | Direction_UpLeft => 7 | Direction_Max => 8
  end.

Definition Directions : list Direction :=
  [ Direction_Up; Direction_UpRight; Direction_Right; Direction_DownRight;
    Direction_Down; Direction_DownLeft; Direction_Left; Direction_UpLeft; Direction_Max ].

(** [static_cast<Direction>]; a value with no enumerator is never produced by
    the code, and is mapped to [Max]. *)
Definition Direction_of_Z (z : Z) : Direction := default Direction_Max (arr_get Directions z).

Definition INVALID_SECTOR : Z := UINT64_MAX.

Record SectorInfo : Type := mkSectorInfo { sector_info_id : Z; grid_index : Indexer2 }.

Definition SectorGridWidth : Z := 5.
Definition SectorGridHeight : Z := 5.
Definition TransformCooltime : Z := 1000.

Definition SectorGrid : list (list SectorInfo) :=
  [ [ mkSectorInfo 0 (mkIndexer2 0 0); mkSectorInfo 1 (mkIndexer2 0 1); mkSectorInfo 2 (mkIndexer2 0 2);
      mkSectorInfo 3 (mkIndexer2 0 3); mkSectorInfo 4 (mkIndexer2 0 4) ];
    [ mkSectorInfo 5 (mkIndexer2 1 0); mkSectorInfo 6 (mkIndexer2 1 1); mkSectorInfo 7 (mkIndexer2 1 2);
      mkSectorInfo 8 (mkIndexer2 1 3); mkSectorInfo 9 (mkIndexer2 1 4) ];
    [ mkSectorInfo 10 (mkIndexer2 2 0); mkSectorInfo 11 (mkIndexer2 2 1); mkSectorInfo 12 (mkIndexer2 2 2);
      mkSectorInfo 13 (mkIndexer2 2 3); mkSectorInfo 14 (mkIndexer2 2 4) ];
    [ mkSectorInfo 15 (mkIndexer2 3 0); mkSectorInfo 16 (mkIndexer2 3 1); mkSectorInfo 17 (mkIndexer2 3 2);
      mkSectorInfo 18 (mkIndexer2 3 3); mkSectorInfo 19 (mkIndexer2 3 4) ];
    [ mkSectorInfo 20 (mkIndexer2 4 0); mkSectorInfo 21 (mkIndexer2 4 1); mkSectorInfo 22 (mkIndexer2 4 2);
      mkSectorInfo 23 (mkIndexer2 4 3); mkSectorInfo 24 (mkIndexer2 4 4) ] ].

Definition SectorGridList : list SectorInfo := concat SectorGrid.

(** [SectorGrid[SectorGridWidth / 2][SectorGridHeight / 2]] *)
Definition CenterSector : SectorInfo := mkSectorInfo 12 (mkIndexer2 2 2).

Definition SectorNearDirectionGrid : list (list Direction) :=
  [ [ Direction_Max; Direction_Up; Direction_Max ];
    [ Direction_Up; Direction_UpRight; Direction_Right ];
    [ Direction_Max; Direction_Right; Direction_Max ];
    [ Direction_Right; Direction_DownRight; Direction_Down ];
    [ Direction_Max; Direction_Down; Direction_Max ];
    [ Direction_Down; Direction_DownLeft; Direction_Left ];
    [ Direction_Max; Direction_Left; Direction_Max ];
    [ Direction_Left; Direction_UpLeft; Direction_Up ];
    [ Direction_Max; Direction_Max; Direction_Max ] ].

Definition PhaseForce : list Indexer2 :=
  [ mkIndexer2 1 0; mkIndexer2 1 1; mkIndexer2 0 1; mkIndexer2 (-1) 1; mkIndexer2 (-1) 0;
    mkIndexer2 (-1) (-1); mkIndexer2 0 (-1); mkIndexer2 1 (-1); mkIndexer2 0 0 ].

Definition PhaseGrid : list (list Direction) :=
  [ [ Direction_UpLeft; Direction_Up; Direction_UpRight ];
    [ Direction_Left; Direction_Max; Direction_Right ];
    [ Direction_DownLeft; Direction_Down; Direction_DownRight ] ].

(** Indexing by an enumerator never leaves the nine rows of these tables. *)
Definition PhaseForce_at (d : Direction) : Indexer2 :=
  default (mkIndexer2 0 0) (arr_get PhaseForce (Direction_to_Z d)).
Definition SectorNearDirectionGrid_at (d : Direction) : list Direction :=
  default [] (arr_get SectorNearDirectionGrid (Direction_to_Z d)).

Section geometry.
Context {C : Type} `{CoordinateUnit C}.

Definition vec_scale (v : Vector2 C) (value : C) : Vector2 C :=
mkVector2 (vx v * value)%coord (vy v * value)%coord.
Definition vec_add (v another : Vector2 C) : Vector2 C :=
mkVector2 (vx v + vx another)%coord (vy v + vy another)%coord.

(** The constructor from a position, a size and an anchor point. *)
Definition rect_of (position size : Vector2 C) (anchor_point : C) : FixtureRectangle C := {|
rect_up := (vy position + vy size * (c_of_Z 1 - anchor_point))%coord;
rect_down := (vy position - vy size * anchor_point)%coord;
rect_left := (vx position - vx size * anchor_point)%coord;
rect_right := (vx position + vx size * (c_of_Z 1 - anchor_point))%coord;
|}.

Definition LeftDown (r : FixtureRectangle C) : Vector2 C := mkVector2 (rect_left r) (rect_down r).
Definition LeftUp (r : FixtureRectangle C) : Vector2 C := mkVector2 (rect_left r) (rect_up r).
Definition RightDown (r : FixtureRectangle C) : Vector2 C := mkVector2 (rect_right r) (rect_down r).
Definition RightUp (r : FixtureRectangle C) : Vector2 C := mkVector2 (rect_right r) (rect_up r).
Definition Center (r : FixtureRectangle C) : Vector2 C := mkVector2
(rect_left r + (rect_right r - rect_left r) / c_of_Z 2)%coord
(rect_down r + (rect_up r - rect_down r) / c_of_Z 2)%coord.

Definition ChunkSize : C := c_of_Z 100.
Definition SectorSize : Vector2 C :=
mkVector2 (c_of_Z 50 * ChunkSize)%coord (c_of_Z 50 * ChunkSize)%coord.
Definition SectorGrayZoneChunk : C := c_of_Z 10.
Definition ForceConstant : C := c_of_Z 500.

(** ** SectorGrid.h *)

Definition GetSectorFixtureRectangle (sector_id : Z) : option (FixtureRectangle C) :=
sector_info ← arr_get SectorGridList sector_id;
Some (rect_of
  (mkVector2
    (c_of_Z (column (grid_index sector_info) - column (grid_index CenterSector)) * vx SectorSize)%coord
    (c_of_Z (row (grid_index CenterSector) - row (grid_index sector_info)) * vy SectorSize)%coord)
  SectorSize (c_of_Z 0)).

Definition GetSectorAbsFixtureRectangle (sector_id : Z) : option (FixtureRectangle C) :=
rect ← GetSectorFixtureRectangle sector_id;
let left_down := LeftDown rect in
Some (rect_of
  (mkVector2
    (vx left_down + c_of_Z (column (grid_index CenterSector)) * vx SectorSize)%coord
    (vy left_down + c_of_Z (SectorGridWidth - row (grid_index CenterSector) - 1) * vy SectorSize)%coord)
  SectorSize (c_of_Z 0)).

(** [None] where [static_cast<int>] is undefined. *)
Definition GetSectorByPosition (position : Vector2 C) : option Z :=
let positive_position := mkVector2
  (vx position + c_of_Z (column (grid_index CenterSector)) * vx SectorSize)%coord
  (vy position + c_of_Z (row (grid_index CenterSector)) * vy SectorSize)%coord in
iy ← c_to_int (vy positive_position / vy SectorSize)%coord;
ix ← c_to_int (vx positive_position / vx SectorSize)%coord;
let indexer := mkIndexer2 (SectorGridHeight - iy - 1) ix in
if (row indexer >=? SectorGridHeight) || (row indexer <? 0)
   || (column indexer >=? SectorGridWidth) || (column indexer <? 0)
then Some INVALID_SECTOR
else grid_row ← arr_get SectorGrid (row indexer);
     sector_info_id <$> arr_get grid_row (column indexer).

Definition WorldRect : FixtureRectangle C :=
rect_of (Center (default (mkFixtureRectangle (c_of_Z 0) (c_of_Z 0) (c_of_Z 0) (c_of_Z 0))
                   (GetSectorFixtureRectangle (sector_info_id CenterSector))))
  (vec_scale SectorSize (c_of_Z SectorGridWidth)) c_half.
End geometry.

Definition GetNextSector (base_sector_id : Z) (direction : Direction) : option Z :=
  base ← arr_get SectorGridList base_sector_id;
  let direction_force := PhaseForce_at direction in
  let array_force := mkIndexer2 (row (grid_index base) - row direction_force)
                                (column (grid_index base) + column direction_force) in
  if (row array_force <? 0) || (row array_force >=? SectorGridHeight)
     || (column array_force <? 0) || (column array_force >=? SectorGridWidth)
  then Some INVALID_SECTOR
  else grid_row ← arr_get SectorGrid (row array_force);
       sector_info_id <$> arr_get grid_row (column array_force).

(** The loop of [GetNearSectors]: [sectors[index++] = sector_id]. *)
Fixpoint near_sectors_loop (base_sector_id : Z) (directions : list Direction)
    (index : nat) (sectors : list Z) : option (list Z) :=
  match directions with
  | [] => Some sectors
  | near_direction :: directions =>
      if decide (near_direction = Direction_Max) then
        near_sectors_loop base_sector_id directions index sectors
      else
        sector_id ← GetNextSector base_sector_id near_direction;
        if sector_id =? INVALID_SECTOR then
          near_sectors_loop base_sector_id directions index sectors
        else
          near_sectors_loop base_sector_id directions (S index) (<[index := sector_id]> sectors)
  end.

Definition GetNearSectors (base_sector_id : Z) (direction : Direction) : option (list Z) :=
  base ← arr_get SectorGridList base_sector_id;
  near_sectors_loop base_sector_id (SectorNearDirectionGrid_at direction) 0
    [INVALID_SECTOR; INVALID_SECTOR; INVALID_SECTOR].

Definition GetOpositeDirection (direction : Direction) : Direction :=
  let oposite := Direction_to_Z direction + 4 in
  Direction_of_Z (if oposite >=? 8 then oposite - 8 else oposite).

(** One of the two search loops of [IsNearPhase]. *)
Fixpoint near_phase_search (origin_sector_id dest_sector_id : Z) (phases : list Direction) : option bool :=
  match phases with
  | [] => Some false
  | phase :: phases =>
      next ← GetNextSector origin_sector_id phase;
      if next =? dest_sector_id then Some true
      else near_phase_search origin_sector_id dest_sector_id phases
  end.

Definition IsNearPhase (origin_sector_id : Z) (origin_phase : Direction)
    (dest_sector_id : Z) (dest_phase : Direction) : option bool :=
  is_origin_near_phase ←
    near_phase_search origin_sector_id dest_sector_id (SectorNearDirectionGrid_at origin_phase);
  is_dest_near_phase ←
    near_phase_search dest_sector_id origin_sector_id (SectorNearDirectionGrid_at dest_phase);
  Some (is_origin_near_phase && is_dest_near_phase).

(** ** Finite case analysis *)

Definition valid_sector (s : Z) : Prop := 0 ≤ s < 25.

#[export] Instance valid_sector_dec s : Decision (valid_sector s).
Proof. rw /valid_sector. apply _. Defined.

Lemma sector_forall (P : Z → Prop) `{∀ s, Decision (P s)} :
  forallb (λ s, bool_decide (P s)) (seqZ 0 25) = true → ∀ s, valid_sector s → P s.
Proof.
  rw forallb_forall. intros Hall s Hs.
  apply (bool_decide_unpack (P s)), Is_true_true, Hall.
  apply list_elem_of_In, elem_of_seqZ. rw /valid_sector in Hs. lia.
Qed.

(** Decide a statement about every sector by evaluation. *)
Ltac by_sectors := refine (sector_forall _ _); vm_compute; reflexivity.

Lemma direction_forall (P : Direction → Prop) :
  Forall P Directions → ∀ d, P d.
Proof.
  rw /Directions !Forall_cons. intros (?&?&?&?&?&?&?&?&?&_) []; done.
Qed.

#[export] Instance direction_forall_dec (P : Direction → Prop) `{∀ d, Decision (P d)} :
  Decision (∀ d, P d).
Proof.
  refine (cast_if (decide (Forall P Directions))).
  - by apply direction_forall.
  - abstract (intros Hall; by apply n, Forall_true).
Defined.

(** The sectors [GetNearSectors] returns, without the padding. *)
Definition near (s : Z) (d : Direction) : list Z :=
  filter (λ t, t ≠ INVALID_SECTOR) (default [] (GetNearSectors s d)).

Lemma valid_sector_iff s : valid_sector s ↔ is_Some (arr_get SectorGridList s).
Proof.
  split.
  - intros Hs. by apply arr_get_is_Some.
  - intros [x Hx]. by apply arr_get_Some in Hx.
Qed.

(** ** Neighbours *)

(** Crossing into a neighbour and back by the opposite direction returns to
    the sector one came from. *)
Theorem GetNextSector_oposite (s t : Z) (d : Direction) :
  d ≠ Direction_Max →
  GetNextSector s d = Some t → t ≠ INVALID_SECTOR →
  GetNextSector t (GetOpositeDirection d) = Some s.
Proof.
  intros Hd Ht Hv.
  assert (Hs : valid_sector s).
  { apply valid_sector_iff. rw /GetNextSector in Ht.
    destruct (arr_get SectorGridList s); [eauto|done]. }
  revert s Hs d Hd t Ht Hv.
  assert (Hall : ∀ s, valid_sector s → ∀ d, d ≠ Direction_Max →
    GetNextSector s d = Some INVALID_SECTOR ∨
    (GetNextSector s d ≫= (λ t, GetNextSector t (GetOpositeDirection d))) = Some s).
  { by_sectors. }
  intros s Hs d Hd t Ht Hv. destruct (Hall s Hs d Hd) as [He|He]; rw Ht in He; naive_solver.
Qed.

Lemma GetNextSector_total s d : valid_sector s → is_Some (GetNextSector s d).
Proof. intros Hs. revert s Hs d. by_sectors. Qed.

Lemma GetNearSectors_total s d : valid_sector s → is_Some (GetNearSectors s d).
Proof. intros Hs. revert s Hs d. by_sectors. Qed.


Lemma GetNextSector_valid s d t :
  GetNextSector s d = Some t → t = INVALID_SECTOR ∨ valid_sector t.
Proof.
  intros Ht. assert (Hs : valid_sector s).
  { apply valid_sector_iff. rw /GetNextSector in Ht.
    destruct (arr_get SectorGridList s); [eauto|done]. }
  revert s Hs d t Ht.
  assert (Hall : ∀ s, valid_sector s → ∀ d,
    GetNextSector s d = Some INVALID_SECTOR ∨ valid_sector (default (-1) (GetNextSector s d))).
  { by_sectors. }
  intros s Hs d t Ht. destruct (Hall s Hs d) as [He|He]; rw Ht in He; naive_solver.
Qed.

(** [GetNearSectors] fills its array from the front: the neighbours named by
    the row of the phase that exist on the grid, each once, then padding. *)
Theorem GetNearSectors_spec (s : Z) (d : Direction) :
  valid_sector s →
  GetNearSectors s d = Some (near s d ++ replicate (3 - length (near s d)) INVALID_SECTOR) ∧
  NoDup (near s d) ∧ (s ∉ near s d) ∧
  (∀ t, t ∈ near s d ↔
     ∃ d', d' ∈ SectorNearDirectionGrid_at d ∧ d' ≠ Direction_Max ∧
           t ≠ INVALID_SECTOR ∧ GetNextSector s d' = Some t).
Proof.
  intros Hs.
  assert (Hshape : ∀ s, valid_sector s → ∀ d,
    GetNearSectors s d = Some (near s d ++ replicate (3 - length (near s d)) INVALID_SECTOR) ∧
    NoDup (near s d) ∧ (s ∉ near s d)) by by_sectors.
  assert (Hsound : ∀ s, valid_sector s → ∀ d, Forall (λ t, t ≠ INVALID_SECTOR ∧
    Exists (λ d', d' ≠ Direction_Max ∧ GetNextSector s d' = Some t)
      (SectorNearDirectionGrid_at d)) (near s d)) by by_sectors.
  assert (Hcompl : ∀ s, valid_sector s → ∀ d, Forall (λ d',
    d' = Direction_Max ∨ GetNextSector s d' = Some INVALID_SECTOR ∨
    default (-1) (GetNextSector s d') ∈ near s d) (SectorNearDirectionGrid_at d)) by by_sectors.
  destruct (Hshape s Hs d) as (?&?&?). split_and!; [done..|].
  intros t. split.
  - intros Ht. specialize (Hsound s Hs d). rw Forall_forall in Hsound.
    destruct (Hsound t Ht) as [Hv (d'&?&?&?)%Exists_exists]. by exists d'.
  - intros (d'&Hin&Hne&Hv&Hn). specialize (Hcompl s Hs d). rw Forall_forall in Hcompl.
    destruct (Hcompl d' Hin) as [?|[?|Hd]]; [done|congruence|]. by rw Hn in Hd.
Qed.

Lemma near_valid s d t : valid_sector s → t ∈ near s d → valid_sector t.
Proof.
  intros Hs Ht. assert (Hall : ∀ s, valid_sector s → ∀ d, Forall valid_sector (near s d)) by by_sectors.
  specialize (Hall s Hs d). rewrite ->Forall_forall in Hall. auto.
Qed.

Lemma INVALID_SECTOR_not_valid : ~ valid_sector INVALID_SECTOR.
Proof. rw /valid_sector /INVALID_SECTOR /UINT64_MAX. lia. Qed.

(** [IsNearPhase] is symmetric in its two (sector, phase) pairs, and total on
    the grid. *)
Theorem IsNearPhase_symmetric (o d : Z) (p q : Direction) :
  valid_sector o → valid_sector d →
  is_Some (IsNearPhase o p d q) ∧ IsNearPhase o p d q = IsNearPhase d q o p.
Proof.
  intros Ho Hd.
  assert (Htot : ∀ s t l, valid_sector s → is_Some (near_phase_search s t l)).
  { intros s t l Hs. induction l as [|x l IH]; [by eexists|]. simpl.
    destruct (GetNextSector_total s x Hs) as [n ->]. simpl. case_match; eauto. }
  rw /IsNearPhase.
  destruct (Htot o d (SectorNearDirectionGrid_at p) Ho) as [a ->].
  destruct (Htot d o (SectorNearDirectionGrid_at q) Hd) as [b ->].
  simpl. split; [by eexists|]. by rw andb_comm.
Qed.

(** ** Positions and sectors *)

(** The half-open square a sector owns. *)
Definition in_rect (r : FixtureRectangle Q) (p : Vector2 Q) : Prop :=
  (rect_left r <= vx p)%Q ∧ (vx p < rect_right r)%Q ∧
  (rect_down r <= vy p)%Q ∧ (vy p < rect_up r)%Q.

Definition sector_rect_exactb (s : Z) : bool :=
  match GetSectorFixtureRectangle (C:=Q) s with
  | Some r =>
      Qeq_bool (rect_left r) (inject_Z (5000 * (s mod 5) - 10000)) &&
      Qeq_bool (rect_right r) (inject_Z (5000 * (s mod 5) - 5000)) &&
      Qeq_bool (rect_down r) (inject_Z (10000 - 5000 * (s / 5))) &&
      Qeq_bool (rect_up r) (inject_Z (15000 - 5000 * (s / 5)))
  | None => false
  end.

Lemma sector_rect_exact (s : Z) : valid_sector s →
  ∃ r : FixtureRectangle Q, GetSectorFixtureRectangle s = Some r ∧
    (rect_left r == inject_Z (5000 * (s mod 5) - 10000))%Q ∧
    (rect_right r == inject_Z (5000 * (s mod 5) - 5000))%Q ∧
    (rect_down r == inject_Z (10000 - 5000 * (s / 5)))%Q ∧
    (rect_up r == inject_Z (15000 - 5000 * (s / 5)))%Q.
Proof.
  intros Hs.
  assert (Hb : ∀ s, valid_sector s → sector_rect_exactb s = true) by by_sectors.
  specialize (Hb s Hs). rw /sector_rect_exactb in Hb.
  destruct (GetSectorFixtureRectangle s) as [r|]; [|done].
  rw !andb_true_iff !Qeq_bool_iff in Hb. destruct_and!. eauto 10.
Qed.

(** [(q + 10000) / 5000], truncated, is the index of the cell [q] falls in. *)
Lemma cell_index_exact (q : Q) (n : Z) :
  0 ≤ n < 2 ^ 31 →
  (inject_Z (5000 * n - 10000) <= q)%Q → (q < inject_Z (5000 * n - 5000))%Q →
  c_to_int ((q + c_of_Z 2 * (c_of_Z 50 * c_of_Z 100)) / (c_of_Z 50 * c_of_Z 100))%coord = Some n.
Proof.
  intros Hn H1 H2. apply exact_to_int_nonneg; [done| |]; cbn;
    rw /Qdiv; change (/ (inject_Z 50 * inject_Z 100))%Q with (1 # 5000)%Q;
    change (inject_Z 2 * (inject_Z 50 * inject_Z 100))%Q with (10000 # 1)%Q;
    rw ?inject_Z_plus; change (inject_Z 1) with (1 # 1)%Q;
    rw /Z.sub !inject_Z_plus !inject_Z_mult in H1 H2; cbn in H1, H2;
    change (inject_Z 5000) with (5000 # 1)%Q in H1, H2;
    change (inject_Z (- (10000))) with (-10000 # 1)%Q in H1;
    change (inject_Z (- (5000))) with (-5000 # 1)%Q in H2; lra.
Qed.

Lemma GetSectorByPosition_cell (p : Vector2 Q) (r c : Z) :
  0 ≤ r < 5 → 0 ≤ c < 5 →
  (inject_Z (5000 * c - 10000) <= vx p)%Q → (vx p < inject_Z (5000 * c - 5000))%Q →
  (inject_Z (10000 - 5000 * r) <= vy p)%Q → (vy p < inject_Z (15000 - 5000 * r))%Q →
  GetSectorByPosition p = Some (5 * r + c).
Proof.
  intros Hr Hc Hx1 Hx2 Hy1 Hy2. rw /GetSectorByPosition.
  rw (cell_index_exact (vy p) (4 - r)); [lia| | |].
  { by rw (_ : 5000 * (4 - r) - 10000 = 10000 - 5000 * r); [lia|]. }
  { by rw (_ : 5000 * (4 - r) - 5000 = 15000 - 5000 * r); [lia|]. }
  rw (cell_index_exact (vx p) c); [lia|done..|].
  clear Hx1 Hx2 Hy1 Hy2.
  assert (r = 0 ∨ r = 1 ∨ r = 2 ∨ r = 3 ∨ r = 4) as Hr5 by lia.
  assert (c = 0 ∨ c = 1 ∨ c = 2 ∨ c = 3 ∨ c = 4) as Hc5 by lia.
  destruct Hr5 as [->|[->|[->|[->| ->]]]], Hc5 as [->|[->|[->|[->| ->]]]]; reflexivity.
Qed.

Lemma WorldRect_exact :
  (rect_left (WorldRect (C:=Q)) == -10000 # 1)%Q ∧ (rect_right (WorldRect (C:=Q)) == 15000 # 1)%Q ∧
  (rect_down (WorldRect (C:=Q)) == -10000 # 1)%Q ∧ (rect_up (WorldRect (C:=Q)) == 15000 # 1)%Q.
Proof. split_and!; reflexivity. Qed.

Lemma GetSectorByPosition_in_rect (p : Vector2 Q) (s : Z) (r : FixtureRectangle Q) :
  GetSectorFixtureRectangle s = Some r → in_rect r p → GetSectorByPosition p = Some s.
Proof.
  intros Hr (H1&H2&H3&H4).
  assert (Hs : valid_sector s).
  { apply valid_sector_iff. rw /GetSectorFixtureRectangle in Hr.
    destruct (arr_get SectorGridList s); [eauto|done]. }
  destruct (sector_rect_exact s Hs) as (r'&Hr'&El&Er&Ed&Eu). simplify_eq.
  rw /valid_sector in Hs. setoid_rewrite El in H1. setoid_rewrite Er in H2.
  setoid_rewrite Ed in H3. setoid_rewrite Eu in H4.
  rw (GetSectorByPosition_cell p (s / 5) (s mod 5)); [| |done..|].
  - split; [apply Z.div_pos; lia | apply Z.div_lt_upper_bound; lia].
  - apply Z.mod_pos_bound. lia.
  - f_equal. pose proof (Z.div_mod s 5). lia.
Qed.

(** The index of the 5000-wide cell a coordinate of the world falls in. *)
Lemma world_cell (q : Q) :
  (-10000 # 1 <= q)%Q → (q < 15000 # 1)%Q →
  ∃ n, 0 ≤ n < 5 ∧ (inject_Z (5000 * n - 10000) <= q)%Q ∧ (q < inject_Z (5000 * n - 5000))%Q.
Proof.
  intros H1 H2. set (n := Qfloor ((q + (10000 # 1)) * (1 # 5000))).
  pose proof (Qfloor_le ((q + (10000 # 1)) * (1 # 5000))) as Hlo.
  pose proof (Qlt_floor ((q + (10000 # 1)) * (1 # 5000))) as Hhi.
  fold n in Hlo, Hhi. rw inject_Z_plus in Hhi. change (inject_Z 1) with (1 # 1)%Q in Hhi.
  assert (Hn0 : (inject_Z (-1) < inject_Z n)%Q) by (change (inject_Z (-1)) with (-1 # 1)%Q; lra).
  assert (Hn5 : (inject_Z n < inject_Z 5)%Q) by (change (inject_Z 5) with (5 # 1)%Q; lra).
  rw -Zlt_Qlt in Hn0. rw -Zlt_Qlt in Hn5. exists n. split; [lia|].
  rw /Z.sub !inject_Z_plus !inject_Z_mult.
  change (inject_Z 5000) with (5000 # 1)%Q.
  change (inject_Z (- (10000))) with (-10000 # 1)%Q.
  change (inject_Z (- (5000))) with (-5000 # 1)%Q. split; lra.
Qed.

(** Every position of the world lies in some sector's square. *)
Lemma world_square (p : Vector2 Q) :
  in_rect WorldRect p →
  ∃ s r, valid_sector s ∧ GetSectorFixtureRectangle s = Some r ∧ in_rect r p.
Proof.
  intros (H1&H2&H3&H4). destruct WorldRect_exact as (El&Er&Ed&Eu).
  setoid_rewrite El in H1. setoid_rewrite Er in H2.
  setoid_rewrite Ed in H3. setoid_rewrite Eu in H4.
  destruct (world_cell (vx p) H1 H2) as (c&Hc&Hx1&Hx2).
  destruct (world_cell (vy p) H3 H4) as (n&Hn&Hy1&Hy2).
  set (s := 5 * (4 - n) + c).
  assert (Hs : valid_sector s) by (rw /valid_sector /s; lia).
  destruct (sector_rect_exact s Hs) as (r&Hr&Rl&Rr&Rd&Ru).
  assert (Hmod : s mod 5 = c) by (symmetry; apply (Z.mod_unique s 5 (4 - n)); rw /s; lia).
  assert (Hdiv : s / 5 = 4 - n) by (symmetry; apply (Z.div_unique s 5 (4 - n) c); rw /s; lia).
  rw Hmod in Rl Rr. rw Hdiv in Rd Ru.
  rw (_ : 10000 - 5000 * (4 - n) = 5000 * n - 10000) in Rd; [lia|].
  rw (_ : 15000 - 5000 * (4 - n) = 5000 * n - 5000) in Ru; [lia|].
  assert (Hin : in_rect r p).
  { rw /in_rect. setoid_rewrite Rl. setoid_rewrite Rr. setoid_rewrite Rd. setoid_rewrite Ru. done. }
  by exists s, r.
Qed.


Lemma exact_to_int_neg_fraction (q : Q) :
  (-1 # 1 < q)%Q → (q < 0)%Q → c_to_int q = Some 0.
Proof.
  destruct q as [a d]. rw /Qlt /=. intros H1 H2. rw !Z.mul_1_r in H1 H2.
  rw (_ : Z.quot a (Z.pos d) = 0); [|done].
  apply Z.quot_small_iff; lia.
Qed.

(** The conversion to [int] truncates towards zero, so a position up to one
    sector to the left of the world is not [INVALID_SECTOR]: it is attributed
    to the sector at the left end of its row. *)
Theorem GetSectorByPosition_left_of_world (p : Vector2 Q) :
  (-15000 # 1 < vx p)%Q → (vx p < -10000 # 1)%Q →
  (-10000 # 1 <= vy p)%Q → (vy p < 15000 # 1)%Q →
  ∃ s, GetSectorByPosition p = Some s ∧ valid_sector s ∧ s mod 5 = 0 ∧ ~ in_rect WorldRect p.
Proof.
  intros H1 H2 H3 H4. destruct (world_cell (vy p) H3 H4) as (n&Hn&Hy1&Hy2).
  exists (5 * (4 - n)). split_and!; [|rw /valid_sector; lia|rw Z.mul_comm; apply Z.mod_mul; lia|].
  - rw /GetSectorByPosition (cell_index_exact (vy p) n); [lia|done..|].
    rw exact_to_int_neg_fraction; cbn; rw /Qdiv;
      change (/ (inject_Z 50 * inject_Z 100))%Q with (1 # 5000)%Q;
      change (inject_Z 2 * (inject_Z 50 * inject_Z 100))%Q with (10000 # 1)%Q; [lra|lra|].
    assert (n = 0 ∨ n = 1 ∨ n = 2 ∨ n = 3 ∨ n = 4) as Hn5 by lia.
    destruct Hn5 as [->|[->|[->|[->| ->]]]]; reflexivity.
  - intros (Hl&_). destruct WorldRect_exact as (El&_). setoid_rewrite El in Hl. lra.
Qed.
