(* ===== verification/Fixture.v ===== *)
(** * Fixtures

    [common/game/coordinate/Fixture.h]: an object's position, size and motion,
    and where it stands relative to the sector that holds it. *)

From S2P Require Import Prelude Coordinate SectorGrid.
From Stdlib Require Import QArith Lqa.

Open Scope Z_scope.

Record Fixture (C : Type) : Type := mkFixture {
  fx_id : Z;
  fx_position : Vector2 C;
  fx_size : Vector2 C;
  fx_force : C;
  fx_direction : Direction;
  fx_location : FixtureLocation;
  fx_is_observing_fixture : bool;
  fx_phase : Direction;
  fx_sector_id : Z;
  fx_last_transform_time : Z;
  fx_personal_delta_time : Z;
  fx_user_data : Z;
}.
Arguments mkFixture {C} _ _ _ _ _ _ _ _ _ _ _ _.
Arguments fx_id {C} _.
Arguments fx_position {C} _.
Arguments fx_size {C} _.
Arguments fx_force {C} _.
Arguments fx_direction {C} _.
Arguments fx_location {C} _.
Arguments fx_is_observing_fixture {C} _.
Arguments fx_phase {C} _.
Arguments fx_sector_id {C} _.
Arguments fx_last_transform_time {C} _.
Arguments fx_personal_delta_time {C} _.
Arguments fx_user_data {C} _.

Section fixture.
Context {C : Type} `{CoordinateUnit C}.
Implicit Types f : Fixture C.

Definition vec_zero : Vector2 C := mkVector2 (c_of_Z 0) (c_of_Z 0).

(** [Fixture()]: the members with no initialiser are zeroed by
  value-initialisation. *)
Definition new_Fixture : Fixture C := {|
fx_id := 0; fx_position := vec_zero; fx_size := vec_zero; fx_force := ForceConstant;
fx_direction := Direction_Up; fx_location := FixtureLocation_In;
fx_is_observing_fixture := false; fx_phase := Direction_Max; fx_sector_id := 0;
fx_last_transform_time := 0; fx_personal_delta_time := 0; fx_user_data := 0 |}.

Definition set_id (v : Z) f : Fixture C :=
mkFixture v (fx_position f) (fx_size f) (fx_force f) (fx_direction f) (fx_location f)
  (fx_is_observing_fixture f) (fx_phase f) (fx_sector_id f) (fx_last_transform_time f)
  (fx_personal_delta_time f) (fx_user_data f).
Definition set_position (v : Vector2 C) f : Fixture C :=
mkFixture (fx_id f) v (fx_size f) (fx_force f) (fx_direction f) (fx_location f)
  (fx_is_observing_fixture f) (fx_phase f) (fx_sector_id f) (fx_last_transform_time f)
  (fx_personal_delta_time f) (fx_user_data f).
Definition set_size (v : Vector2 C) f : Fixture C :=
mkFixture (fx_id f) (fx_position f) v (fx_force f) (fx_direction f) (fx_location f)
  (fx_is_observing_fixture f) (fx_phase f) (fx_sector_id f) (fx_last_transform_time f)
  (fx_personal_delta_time f) (fx_user_data f).
Definition set_direction (v : Direction) f : Fixture C :=
mkFixture (fx_id f) (fx_position f) (fx_size f) (fx_force f) v (fx_location f)
  (fx_is_observing_fixture f) (fx_phase f) (fx_sector_id f) (fx_last_transform_time f)
  (fx_personal_delta_time f) (fx_user_data f).
Definition set_location (v : FixtureLocation) f : Fixture C :=
mkFixture (fx_id f) (fx_position f) (fx_size f) (fx_force f) (fx_direction f) v
  (fx_is_observing_fixture f) (fx_phase f) (fx_sector_id f) (fx_last_transform_time f)
  (fx_personal_delta_time f) (fx_user_data f).
Definition set_is_observing_fixture (v : bool) f : Fixture C :=
mkFixture (fx_id f) (fx_position f) (fx_size f) (fx_force f) (fx_direction f) (fx_location f)
  v (fx_phase f) (fx_sector_id f) (fx_last_transform_time f)
  (fx_personal_delta_time f) (fx_user_data f).
Definition set_phase (v : Direction) f : Fixture C :=
mkFixture (fx_id f) (fx_position f) (fx_size f) (fx_force f) (fx_direction f) (fx_location f)
  (fx_is_observing_fixture f) v (fx_sector_id f) (fx_last_transform_time f)
  (fx_personal_delta_time f) (fx_user_data f).
Definition set_sector_id (v : Z) f : Fixture C :=
mkFixture (fx_id f) (fx_position f) (fx_size f) (fx_force f) (fx_direction f) (fx_location f)
  (fx_is_observing_fixture f) (fx_phase f) v (fx_last_transform_time f)
  (fx_personal_delta_time f) (fx_user_data f).
Definition set_last_transform_time (v : Z) f : Fixture C :=
mkFixture (fx_id f) (fx_position f) (fx_size f) (fx_force f) (fx_direction f) (fx_location f)
  (fx_is_observing_fixture f) (fx_phase f) (fx_sector_id f) v
  (fx_personal_delta_time f) (fx_user_data f).
Definition set_personal_delta_time (v : Z) f : Fixture C :=
mkFixture (fx_id f) (fx_position f) (fx_size f) (fx_force f) (fx_direction f) (fx_location f)
  (fx_is_observing_fixture f) (fx_phase f) (fx_sector_id f) (fx_last_transform_time f)
  v (fx_user_data f).

Definition FixtureRectangleOverlap (r1 r2 : FixtureRectangle C) : bool :=
if (rect_up r1 =? rect_down r1)%coord || (rect_left r1 =? rect_right r1)%coord
   || (rect_up r2 =? rect_down r2)%coord || (rect_left r2 =? rect_right r2)%coord
then false
else if (rect_left r1 >? rect_right r2)%coord || (rect_left r2 >? rect_right r1)%coord
then false
else if (rect_down r1 >? rect_up r2)%coord || (rect_down r2 >? rect_up r1)%coord
then false
else true.

Definition ToFixtureRectangle (f : Fixture C) : FixtureRectangle C :=
rect_of (fx_position f) (fx_size f) c_half.

(** [delta_time.count() + personal_delta_time] is unsigned 64-bit. *)
Definition Move (delta_time : Z) (f : Fixture C) : Vector2 C * Fixture C :=
if decide (fx_direction f = Direction_Max) then (vec_zero, f)
else
  let time_ratio :=
    (c_of_Z (u64 (delta_time + fx_personal_delta_time f)) / c_of_Z 1000)%coord in
  let direction_force := PhaseForce_at (fx_direction f) in
  let mx := (fx_force f * time_ratio * c_of_Z (column direction_force))%coord in
  let my := (fx_force f * time_ratio * c_of_Z (row direction_force))%coord in
  let backup_position := fx_position f in
  let moved := set_position
    (mkVector2 (vx (fx_position f) + mx)%coord (vy (fx_position f) + my)%coord) f in
  let after_rect := ToFixtureRectangle moved in
  let mx := if (rect_left WorldRect >? rect_left after_rect)%coord
            then (mx + (rect_left WorldRect - rect_left after_rect))%coord else mx in
  let mx := if (rect_right WorldRect <? rect_right after_rect)%coord
            then (mx - (rect_right after_rect - rect_right WorldRect))%coord else mx in
  let my := if (rect_down WorldRect >? rect_down after_rect)%coord
            then (my + (rect_down WorldRect - rect_down after_rect))%coord else my in
  let my := if (rect_up WorldRect <? rect_up after_rect)%coord
            then (my - (rect_up after_rect - rect_up WorldRect))%coord else my in
  let movement := mkVector2 mx my in
  (movement, set_personal_delta_time 0 (set_position (vec_add backup_position movement) moved)).
End fixture.

(** ** Overlap *)

Lemma FixtureRectangleOverlap_comm {C} `{CoordinateUnit C} (r1 r2 : FixtureRectangle C) :
  FixtureRectangleOverlap r1 r2 = FixtureRectangleOverlap r2 r1.
Proof.
  rw /FixtureRectangleOverlap.
  destruct (rect_up r1 =? rect_down r1)%coord, (rect_left r1 =? rect_right r1)%coord,
    (rect_up r2 =? rect_down r2)%coord, (rect_left r2 =? rect_right r2)%coord; try done; cbn [orb].
  by rw (orb_comm (rect_left r1 >? rect_right r2)%coord) (orb_comm (rect_down r1 >? rect_up r2)%coord).
Qed.

Definition proper_rect (r : FixtureRectangle Q) : Prop :=
  (rect_left r < rect_right r)%Q ∧ (rect_down r < rect_up r)%Q.

Definition in_closed_rect (r : FixtureRectangle Q) (p : Vector2 Q) : Prop :=
  (rect_left r <= vx p)%Q ∧ (vx p <= rect_right r)%Q ∧
  (rect_down r <= vy p)%Q ∧ (vy p <= rect_up r)%Q.

Lemma FixtureRectangleOverlap_true (r1 r2 : FixtureRectangle Q) :
  proper_rect r1 → proper_rect r2 →
  FixtureRectangleOverlap r1 r2 = true ↔
    (rect_left r1 <= rect_right r2)%Q ∧ (rect_left r2 <= rect_right r1)%Q ∧
    (rect_down r1 <= rect_up r2)%Q ∧ (rect_down r2 <= rect_up r1)%Q.
Proof.
  intros [Hx1 Hy1] [Hx2 Hy2]. rw /FixtureRectangleOverlap /c_gtb.
  rw !(proj2 (exact_eqb_false _ _)); [lra..|]. cbn [orb].
  destruct (rect_right r2 <? rect_left r1)%coord eqn:E1;
  destruct (rect_right r1 <? rect_left r2)%coord eqn:E2;
  destruct (rect_up r2 <? rect_down r1)%coord eqn:E3;
  destruct (rect_up r1 <? rect_down r2)%coord eqn:E4; cbn [orb];
  rewrite ->?exact_ltb_true, ?exact_ltb_false in *; split; intros; try done; lra.
Qed.

(** [FixtureRectangleOverlap] decides whether two proper rectangles, edges
    included, share a point. *)
Theorem FixtureRectangleOverlap_spec (r1 r2 : FixtureRectangle Q) :
  proper_rect r1 → proper_rect r2 →
  FixtureRectangleOverlap r1 r2 = true ↔ ∃ p, in_closed_rect r1 p ∧ in_closed_rect r2 p.
Proof.
  intros Hr1 Hr2. rw FixtureRectangleOverlap_true; [done|done|].
  destruct Hr1 as [Hx1 Hy1], Hr2 as [Hx2 Hy2]. split.
  - intros (H1&H2&H3&H4).
    assert (Hmax : ∀ a b : Q, ∃ c, (a <= c)%Q ∧ (b <= c)%Q ∧ (c == a ∨ c == b)%Q).
    { intros a b. destruct (Qlt_le_dec a b); [exists b|exists a]; split_and!; (lra || auto with qarith). }
    destruct (Hmax (rect_left r1) (rect_left r2)) as (x&?&?&Hx).
    destruct (Hmax (rect_down r1) (rect_down r2)) as (y&?&?&Hy).
    exists (mkVector2 x y). split; split_and!; cbn; destruct Hx, Hy; lra.
  - intros (p&(?&?&?&?)&(?&?&?&?)). split_and!; lra.
Qed.

(** ** Movement *)

Definition rect_within (inner outer : FixtureRectangle Q) : Prop :=
  (rect_left outer <= rect_left inner)%Q ∧ (rect_right inner <= rect_right outer)%Q ∧
  (rect_down outer <= rect_down inner)%Q ∧ (rect_up inner <= rect_up outer)%Q.

(** One axis of the clamping in [Move]: [x] moves by [m], the extent is [s]
    around the middle, the world is [lo .. hi]. *)
Definition clamp_axis (lo hi x s m : Q) : Q :=
  let l := (x + m - s * c_half)%coord in
  let r := (x + m + s * (c_of_Z 1 - c_half))%coord in
  let m' := if (lo >? l)%coord then (m + (lo - l))%coord else m in
  if (hi <? r)%coord then (m' - (r - hi))%coord else m'.

Lemma clamp_axis_within (lo hi x s m : Q) :
  (0 <= s)%Q → (s <= hi - lo)%Q →
  (lo <= x + clamp_axis lo hi x s m - s * (1 # 2))%Q ∧
  (x + clamp_axis lo hi x s m + s * (1 # 2) <= hi)%Q.
Proof.
  intros Hs1 Hs2. rw /clamp_axis /c_gtb.
  destruct (_ <? lo)%coord eqn:E1; destruct (hi <? _)%coord eqn:E2;
    rewrite ->?exact_ltb_true, ?exact_ltb_false in *; cbn in *;
    exact_literals; split; lra.
Qed.

Lemma clamp_axis_free (lo hi x s m : Q) :
  (lo <= x + m - s * (1 # 2))%Q → (x + m + s * (1 # 2) <= hi)%Q → clamp_axis lo hi x s m = m.
Proof.
  intros H1 H2. rw /clamp_axis /c_gtb.
  destruct (_ <? lo)%coord eqn:E1; destruct (hi <? _)%coord eqn:E2; try done;
    rewrite ->?exact_ltb_true, ?exact_ltb_false in *; cbn in *;
    exact_literals; lra.
Qed.

(** The displacement before clamping. *)
Definition free_movement (dt : Z) (f : Fixture Q) : Vector2 Q :=
  let time_ratio := (c_of_Z (u64 (dt + fx_personal_delta_time f)) / c_of_Z 1000)%coord in
  mkVector2 (fx_force f * time_ratio * c_of_Z (column (PhaseForce_at (fx_direction f))))%coord
            (fx_force f * time_ratio * c_of_Z (row (PhaseForce_at (fx_direction f))))%coord.

Lemma Move_clamp (dt : Z) (f : Fixture Q) :
  fx_direction f ≠ Direction_Max →
  let W := WorldRect (C:=Q) in
  let m := mkVector2
    (clamp_axis (rect_left W) (rect_right W) (vx (fx_position f)) (vx (fx_size f)) (vx (free_movement dt f)))
    (clamp_axis (rect_down W) (rect_up W) (vy (fx_position f)) (vy (fx_size f)) (vy (free_movement dt f))) in
  Move dt f = (m, set_personal_delta_time 0 (set_position (vec_add (fx_position f) m) f)).
Proof. intros Hd. rw /Move decide_False; [done|]. reflexivity. Qed.

(** The clamping of [Move] brings both axes into the world. *)
Lemma Move_within (dt : Z) (f : Fixture Q) :
  fx_direction f ≠ Direction_Max →
  (0 <= vx (fx_size f) <= 25000)%Q → (0 <= vy (fx_size f) <= 25000)%Q →
  rect_within (ToFixtureRectangle (snd (Move dt f))) WorldRect.
Proof.
  intros Hd Hx Hy. rw (Move_clamp dt f Hd). destruct WorldRect_exact as (El&Er&Ed&Eu).
  cbn [snd]. set (W := WorldRect) in *. clearbody W. rw /rect_within /ToFixtureRectangle.
  cbn -[clamp_axis free_movement]. exact_literals.
  pose proof (clamp_axis_within (rect_left W) (rect_right W) (vx (fx_position f)) (vx (fx_size f))
    (vx (free_movement dt f))) as Hcx.
  pose proof (clamp_axis_within (rect_down W) (rect_up W) (vy (fx_position f)) (vy (fx_size f))
    (vy (free_movement dt f))) as Hcy.
  destruct Hcx as [Hx1 Hx2]; [lra..|]. destruct Hcy as [Hy1 Hy2]; [lra..|].
  split_and!; lra.
Qed.

(** Away from the border the step is the commanded one: [force] units per
    second along the direction, for the elapsed and the pending time, and the
    pending time is consumed. *)
Theorem Move_unclamped (dt : Z) (f : Fixture Q) :
  fx_direction f ≠ Direction_Max →
  rect_within (rect_of (vec_add (fx_position f) (free_movement dt f)) (fx_size f) (1 # 2)) WorldRect →
  Move dt f = (free_movement dt f,
    set_personal_delta_time 0 (set_position (vec_add (fx_position f) (free_movement dt f)) f)).
Proof.
  intros Hd (H1&H2&H3&H4). rw (Move_clamp dt f Hd). cbn -[free_movement WorldRect] in *.
  exact_literals.
  rw !clamp_axis_free; [lra..|]. by destruct (free_movement dt f).
Qed.
