(* ===== verification/Packet.v ===== *)
(** * Packets

    [common/engine/protocol/Packet.h], [PacketEnum.h], [PacketStruct.h] and the
    structures they carry ([SocketServer.h], [Meta.h], [Vital.h],
    [game/define.h]): the messages the servers exchange, one record per
    [struct packet_*], and [Packet] as the sum of them. *)

From S2P Require Import Prelude Coordinate SectorGrid Fixture.

Open Scope Z_scope.

(** ** Enumerations *)

Inductive ErrorCode : Type :=
| ErrorCode_None | UnknownServerId | SectorNotFound | ObjectNotFound | RecoveryFailed
| SessionAuthFailed | SessionIsNotReady | SessionIsFull.

Inductive ServerType : Type := ServerType_Supervisor | ServerType_Agency | ServerType_Play.

Inductive ObjectType : Type :=
| ObjectType_Monster | ObjectType_Character | ObjectType_Prop | ObjectType_Wall.

#[export] Instance ErrorCode_eq_dec : EqDecision ErrorCode.
Proof. solve_decision. Defined.
#[export] Instance ServerType_eq_dec : EqDecision ServerType.
Proof. solve_decision. Defined.

Definition ErrorCode_to_Z (e : ErrorCode) : Z :=
  match e with
  | ErrorCode_None => 0 | UnknownServerId => 1 | SectorNotFound => 2 | ObjectNotFound => 3
  | RecoveryFailed => 4 | SessionAuthFailed => 5 | SessionIsNotReady => 6 | SessionIsFull => 7
  end.

Definition ServerType_to_Z (t : ServerType) : Z :=
  match t with ServerType_Supervisor => 1 | ServerType_Agency => 2 | ServerType_Play => 3 end.

Inductive PacketType : Type :=
| PacketType_heartbeat_rq
| PacketType_heartbeat_rs
| PacketType_session_create_rq
| PacketType_session_create_rs
| PacketType_session_auth_rq
| PacketType_session_auth_rs
| PacketType_session_close_rq
| PacketType_bandwith_overflow_ps
| PacketType_server_is_busy_ps
| PacketType_game_enter_request_rq
| PacketType_game_enter_request_rs
| PacketType_enter_new_character_ps
| PacketType_object_list_ps
| PacketType_object_move_ps
| PacketType_create_object_ps
| PacketType_remove_object_ps
| PacketType_object_start_skill_ps
| PacketType_character_move_rq
| PacketType_character_move_rs
| PacketType_start_skill_rq
| PacketType_start_skill_rs
| PacketType_load_server_config_rq
| PacketType_load_server_config_rs
| PacketType_register_minion_server_rq
| PacketType_register_minion_server_rs
| PacketType_authorize_server_rq
| PacketType_authorize_server_rs
| PacketType_update_intra_server_info_ps
| PacketType_sector_allocation_ps
| PacketType_recovery_minion_server_rq
| PacketType_recovery_minion_server_rs
| PacketType_spawn_character_rq
| PacketType_spawn_character_rs
| PacketType_remove_character_rq
| PacketType_remove_character_rs
| PacketType_create_observing_object_rq
| PacketType_remove_observing_object_rq
| PacketType_promote_object_rq.

#[export] Instance PacketType_eq_dec : EqDecision PacketType.
Proof. solve_decision. Defined.

(** The underlying values of [enum class PacketType : uint16_t]. *)
Definition PacketType_to_Z (t : PacketType) : Z :=
  match t with
  | PacketType_heartbeat_rq => 0
  | PacketType_heartbeat_rs => 1
  | PacketType_session_create_rq => 2
  | PacketType_session_create_rs => 3
  | PacketType_session_auth_rq => 4
  | PacketType_session_auth_rs => 5
  | PacketType_session_close_rq => 6
  | PacketType_bandwith_overflow_ps => 7
  | PacketType_server_is_busy_ps => 8
  | PacketType_game_enter_request_rq => 9
  | PacketType_game_enter_request_rs => 10
  | PacketType_enter_new_character_ps => 11
  | PacketType_object_list_ps => 12
  | PacketType_object_move_ps => 13
  | PacketType_create_object_ps => 14
  | PacketType_remove_object_ps => 15
  | PacketType_object_start_skill_ps => 16
  | PacketType_character_move_rq => 17
  | PacketType_character_move_rs => 18
  | PacketType_start_skill_rq => 19
  | PacketType_start_skill_rs => 20
  | PacketType_load_server_config_rq => 21
  | PacketType_load_server_config_rs => 22
  | PacketType_register_minion_server_rq => 23
  | PacketType_register_minion_server_rs => 24
  | PacketType_authorize_server_rq => 25
  | PacketType_authorize_server_rs => 26
  | PacketType_update_intra_server_info_ps => 27
  | PacketType_sector_allocation_ps => 28
  | PacketType_recovery_minion_server_rq => 29
  | PacketType_recovery_minion_server_rs => 30
  | PacketType_spawn_character_rq => 31
  | PacketType_spawn_character_rs => 32
  | PacketType_remove_character_rq => 33
  | PacketType_remove_character_rs => 34
  | PacketType_create_observing_object_rq => 35
  | PacketType_remove_observing_object_rq => 36
  | PacketType_promote_object_rq => 37
  end.

(** ** Structures *)

Record SocketAddress : Type := mkSocketAddress { sa_ip : string; sa_port : Z }.

#[export] Instance SocketAddress_eq_dec : EqDecision SocketAddress.
Proof. solve_decision. Defined.

Record SocketServerConfig : Type := mkSocketServerConfig {
  ssc_parallel_acceptor_count : Z;
  ssc_max_connectable_socket_count : Z;
  ssc_max_acceptable_socket_count : Z;
  ssc_worker_count : Z;
  ssc_read_buffer_pool_size : Z;
  ssc_read_buffer_capacity : Z;
  ssc_write_buffer_pool_size : Z;
  ssc_write_buffer_capacity : Z;
  ssc_update_tick : Z;
}.

Definition SocketServerConfig_default : SocketServerConfig :=
  mkSocketServerConfig 1 256 1024 2 8 65536 8 65536 0.

Record NetworkEngineOption : Type := mkNetworkEngineOption {
  neo_socket_idle_timeout_ms : Z;
  neo_session_idle_timeout_ms : Z;
  neo_session_heartbeat_interval_ms : Z;
  neo_max_session_count : Z;
  neo_use_session_reconnect : bool;
  neo_session_reconnect_timeout_ms : Z;
  neo_worker_update_tick_ms : Z;
}.

Definition NetworkEngineOption_default : NetworkEngineOption :=
  mkNetworkEngineOption 5000 5000 2000 64 false 30000 500.

Record GameConfig : Type := mkGameConfig {
  gc_game_update_tick_ms : Z;
  gc_packet_batch_process_time_ms : Z;
  gc_fixture_transform_cooltime_ms : Z;
}.

Record ServerConfig : Type := mkServerConfig {
  sc_intra_server_listen_port : Z;
  sc_intra_socket_server_config : SocketServerConfig;
  sc_intra_network_engine_option : NetworkEngineOption;
  sc_user_listen_port : Z;
  sc_user_socket_server_config : SocketServerConfig;
  sc_user_network_engine_option : NetworkEngineOption;
  sc_game_config : GameConfig;
}.

Record ServerInfo : Type := mkServerInfo {
  si_server_type : ServerType; si_server_id : Z; si_address : SocketAddress }.

#[export] Instance ServerInfo_eq_dec : EqDecision ServerInfo.
Proof. solve_decision. Defined.

Record SectorAllocationInfo : Type := mkSectorAllocationInfo {
  sai_server_info : ServerInfo; sai_sector_id : Z }.

Record Vital : Type := mkVital { vital_hp : Z; vital_speed : Z; vital_damage : Z }.

Record PacketObjectInfo (C : Type) : Type := mkPacketObjectInfo {
  oi_object_id : Z;
  oi_sector_id : Z;
  oi_type : ObjectType;
  oi_fixture : Fixture C;
  oi_vital : Vital;
}.
Arguments mkPacketObjectInfo {C} _ _ _ _ _.
Arguments oi_object_id {C} _.
Arguments oi_sector_id {C} _.
Arguments oi_type {C} _.
Arguments oi_fixture {C} _.
Arguments oi_vital {C} _.

(** ** The packets *)

Record packet_heartbeat_rq : Type := mk_heartbeat_rq {
  hbrq_ping : Z }.

Record packet_heartbeat_rs : Type := mk_heartbeat_rs {
  hbrs_1 : Z }.

Record packet_session_create_rq : Type := mk_session_create_rq {
  scrq_1 : Z }.

Record packet_session_create_rs : Type := mk_session_create_rs {
  scrs_session_id : Z; scrs_session_key : list Z }.

Record packet_session_auth_rq : Type := mk_session_auth_rq {
  sarq_session_id : Z; sarq_session_key : list Z }.

Record packet_session_auth_rs : Type := mk_session_auth_rs {
  sars_1 : Z }.

Record packet_session_close_rq : Type := mk_session_close_rq {
  sclrq_1 : Z }.

Record packet_bandwith_overflow_ps : Type := mk_bandwith_overflow_ps {
  bops_1 : Z }.

Record packet_server_is_busy_ps : Type := mk_server_is_busy_ps {
  sbps_1 : Z }.

Record packet_game_enter_request_rq : Type := mk_game_enter_request_rq {
  gerq_nickname : string }.

Record packet_game_enter_request_rs (C : Type) : Type := mk_game_enter_request_rs {
  gers_nickname : string; gers_object_info : PacketObjectInfo C }.
Arguments mk_game_enter_request_rs {C} _ _.
Arguments gers_nickname {C} _.
Arguments gers_object_info {C} _.

Record packet_object_list_ps (C : Type) : Type := mk_object_list_ps {
  olps_sector_id : Z; olps_object_list : list (PacketObjectInfo C) }.
Arguments mk_object_list_ps {C} _ _.
Arguments olps_sector_id {C} _.
Arguments olps_object_list {C} _.

Record packet_create_object_ps (C : Type) : Type := mk_create_object_ps {
  cops_object_info : PacketObjectInfo C }.
Arguments mk_create_object_ps {C} _.
Arguments cops_object_info {C} _.

Record packet_remove_object_ps : Type := mk_remove_object_ps {
  rops_sector_id : Z; rops_object_id : Z; rops_reason : Z }.

Record packet_enter_new_character_ps (C : Type) : Type := mk_enter_new_character_ps {
  encps_nickname : string; encps_object_info : PacketObjectInfo C }.
Arguments mk_enter_new_character_ps {C} _ _.
Arguments encps_nickname {C} _.
Arguments encps_object_info {C} _.

Record packet_object_move_ps (C : Type) : Type := mk_object_move_ps {
  omps_sector_id : Z; omps_object_id : Z; omps_starting_position : Vector2 C; omps_direction : Direction }.
Arguments mk_object_move_ps {C} _ _ _ _.
Arguments omps_sector_id {C} _.
Arguments omps_object_id {C} _.
Arguments omps_starting_position {C} _.
Arguments omps_direction {C} _.

Record packet_object_start_skill_ps (C : Type) : Type := mk_object_start_skill_ps {
  osps_object_id : Z; osps_start : Vector2 C; osps_direction : Direction; osps_skill_id : Z }.
Arguments mk_object_start_skill_ps {C} _ _ _ _.
Arguments osps_object_id {C} _.
Arguments osps_start {C} _.
Arguments osps_direction {C} _.
Arguments osps_skill_id {C} _.

Record packet_character_move_rq (C : Type) : Type := mk_character_move_rq {
  cmrq_sector_id : Z; cmrq_object_id : Z; cmrq_starting_position : Vector2 C; cmrq_direction : Direction; cmrq_to_owner : bool }.
Arguments mk_character_move_rq {C} _ _ _ _ _.
Arguments cmrq_sector_id {C} _.
Arguments cmrq_object_id {C} _.
Arguments cmrq_starting_position {C} _.
Arguments cmrq_direction {C} _.
Arguments cmrq_to_owner {C} _.

Record packet_character_move_rs (C : Type) : Type := mk_character_move_rs {
  cmrs_sector_id : Z; cmrs_object_id : Z; cmrs_starting_position : Vector2 C; cmrs_direction : Direction }.
Arguments mk_character_move_rs {C} _ _ _ _.
Arguments cmrs_sector_id {C} _.
Arguments cmrs_object_id {C} _.
Arguments cmrs_starting_position {C} _.
Arguments cmrs_direction {C} _.

Record packet_start_skill_rq : Type := mk_start_skill_rq {
  ssrq_1 : Z }.

Record packet_start_skill_rs : Type := mk_start_skill_rs {
  ssrs_1 : Z }.

Record packet_load_server_config_rq : Type := mk_load_server_config_rq {
  lcrq_server_type : ServerType }.

Record packet_load_server_config_rs : Type := mk_load_server_config_rs {
  lcrs_server_config : ServerConfig }.

Record packet_register_minion_server_rq : Type := mk_register_minion_server_rq {
  rmrq_server_type : ServerType; rmrq_address : SocketAddress }.

Record packet_register_minion_server_rs : Type := mk_register_minion_server_rs {
  rmrs_server_info : ServerInfo; rmrs_auth_key : list Z }.

Record packet_recovery_minion_server_rq : Type := mk_recovery_minion_server_rq {
  rcrq_auth_key : list Z; rcrq_server_info : ServerInfo; rcrq_sectors : list Z; rcrq_intra_servers : list ServerInfo }.

Record packet_recovery_minion_server_rs : Type := mk_recovery_minion_server_rs {
  rcrs_1 : Z }.

Record packet_update_intra_server_info_ps : Type := mk_update_intra_server_info_ps {
  uips_joined_server_info : list ServerInfo; uips_leaved_server_info : list ServerInfo }.

Record packet_sector_allocation_ps : Type := mk_sector_allocation_ps {
  saps_allocation_info : list SectorAllocationInfo; saps_deallocation_info : list SectorAllocationInfo }.

Record packet_authorize_server_rq : Type := mk_authorize_server_rq {
  asrq_server_type : ServerType; asrq_server_id : Z }.

Record packet_authorize_server_rs : Type := mk_authorize_server_rs {
  asrs_server_id : Z }.

Record packet_create_observing_object_rq (C : Type) : Type := mk_create_observing_object_rq {
  corq_origin_sector_id : Z; corq_object_info : PacketObjectInfo C }.
Arguments mk_create_observing_object_rq {C} _ _.
Arguments corq_origin_sector_id {C} _.
Arguments corq_object_info {C} _.

Record packet_remove_observing_object_rq : Type := mk_remove_observing_object_rq {
  rorq_sector_id : Z; rorq_object_id : Z; rorq_reason : Z }.

Record packet_spawn_character_rq (C : Type) : Type := mk_spawn_character_rq {
  sprq_user_id : Z; sprq_nickname : string; sprq_object_info : PacketObjectInfo C }.
Arguments mk_spawn_character_rq {C} _ _ _.
Arguments sprq_user_id {C} _.
Arguments sprq_nickname {C} _.
Arguments sprq_object_info {C} _.

Record packet_spawn_character_rs (C : Type) : Type := mk_spawn_character_rs {
  sprs_user_id : Z; sprs_nickname : string; sprs_object_info : PacketObjectInfo C }.
Arguments mk_spawn_character_rs {C} _ _ _.
Arguments sprs_user_id {C} _.
Arguments sprs_nickname {C} _.
Arguments sprs_object_info {C} _.

Record packet_remove_character_rq : Type := mk_remove_character_rq {
  rcq_user_id : Z; rcq_sector_id : Z; rcq_object_id : Z; rcq_to_owner : bool }.

Record packet_remove_character_rs : Type := mk_remove_character_rs {
  rcs_user_id : Z; rcs_sector_id : Z; rcs_object_id : Z }.

Record packet_promote_object_rq (C : Type) : Type := mk_promote_object_rq {
  porq_origin_sector_id : Z; porq_object_info : PacketObjectInfo C }.
Arguments mk_promote_object_rq {C} _ _.
Arguments porq_origin_sector_id {C} _.
Arguments porq_object_info {C} _.

Inductive Packet (C : Type) : Type :=
| pkt_heartbeat_rq (p : packet_heartbeat_rq)
| pkt_heartbeat_rs (p : packet_heartbeat_rs)
| pkt_session_create_rq (p : packet_session_create_rq)
| pkt_session_create_rs (p : packet_session_create_rs)
| pkt_session_auth_rq (p : packet_session_auth_rq)
| pkt_session_auth_rs (p : packet_session_auth_rs)
| pkt_session_close_rq (p : packet_session_close_rq)
| pkt_bandwith_overflow_ps (p : packet_bandwith_overflow_ps)
| pkt_server_is_busy_ps (p : packet_server_is_busy_ps)
| pkt_game_enter_request_rq (p : packet_game_enter_request_rq)
| pkt_game_enter_request_rs (p : packet_game_enter_request_rs C)
| pkt_enter_new_character_ps (p : packet_enter_new_character_ps C)
| pkt_object_list_ps (p : packet_object_list_ps C)
| pkt_object_move_ps (p : packet_object_move_ps C)
| pkt_create_object_ps (p : packet_create_object_ps C)
| pkt_remove_object_ps (p : packet_remove_object_ps)
| pkt_object_start_skill_ps (p : packet_object_start_skill_ps C)
| pkt_character_move_rq (p : packet_character_move_rq C)
| pkt_character_move_rs (p : packet_character_move_rs C)
| pkt_start_skill_rq (p : packet_start_skill_rq)
| pkt_start_skill_rs (p : packet_start_skill_rs)
| pkt_load_server_config_rq (p : packet_load_server_config_rq)
| pkt_load_server_config_rs (p : packet_load_server_config_rs)
| pkt_register_minion_server_rq (p : packet_register_minion_server_rq)
| pkt_register_minion_server_rs (p : packet_register_minion_server_rs)
| pkt_authorize_server_rq (p : packet_authorize_server_rq)
| pkt_authorize_server_rs (p : packet_authorize_server_rs)
| pkt_update_intra_server_info_ps (p : packet_update_intra_server_info_ps)
| pkt_sector_allocation_ps (p : packet_sector_allocation_ps)
| pkt_recovery_minion_server_rq (p : packet_recovery_minion_server_rq)
| pkt_recovery_minion_server_rs (p : packet_recovery_minion_server_rs)
| pkt_spawn_character_rq (p : packet_spawn_character_rq C)
| pkt_spawn_character_rs (p : packet_spawn_character_rs C)
| pkt_remove_character_rq (p : packet_remove_character_rq)
| pkt_remove_character_rs (p : packet_remove_character_rs)
| pkt_create_observing_object_rq (p : packet_create_observing_object_rq C)
| pkt_remove_observing_object_rq (p : packet_remove_observing_object_rq)
| pkt_promote_object_rq (p : packet_promote_object_rq C).
Arguments pkt_heartbeat_rq {C} p.
Arguments pkt_heartbeat_rs {C} p.
Arguments pkt_session_create_rq {C} p.
Arguments pkt_session_create_rs {C} p.
Arguments pkt_session_auth_rq {C} p.
Arguments pkt_session_auth_rs {C} p.
Arguments pkt_session_close_rq {C} p.
Arguments pkt_bandwith_overflow_ps {C} p.
Arguments pkt_server_is_busy_ps {C} p.
Arguments pkt_game_enter_request_rq {C} p.
Arguments pkt_game_enter_request_rs {C} p.
Arguments pkt_enter_new_character_ps {C} p.
Arguments pkt_object_list_ps {C} p.
Arguments pkt_object_move_ps {C} p.
Arguments pkt_create_object_ps {C} p.
Arguments pkt_remove_object_ps {C} p.
Arguments pkt_object_start_skill_ps {C} p.
Arguments pkt_character_move_rq {C} p.
Arguments pkt_character_move_rs {C} p.
Arguments pkt_start_skill_rq {C} p.
Arguments pkt_start_skill_rs {C} p.
Arguments pkt_load_server_config_rq {C} p.
Arguments pkt_load_server_config_rs {C} p.
Arguments pkt_register_minion_server_rq {C} p.
Arguments pkt_register_minion_server_rs {C} p.
Arguments pkt_authorize_server_rq {C} p.
Arguments pkt_authorize_server_rs {C} p.
Arguments pkt_update_intra_server_info_ps {C} p.
Arguments pkt_sector_allocation_ps {C} p.
Arguments pkt_recovery_minion_server_rq {C} p.
Arguments pkt_recovery_minion_server_rs {C} p.
Arguments pkt_spawn_character_rq {C} p.
Arguments pkt_spawn_character_rs {C} p.
Arguments pkt_remove_character_rq {C} p.
Arguments pkt_remove_character_rs {C} p.
Arguments pkt_create_observing_object_rq {C} p.
Arguments pkt_remove_observing_object_rq {C} p.
Arguments pkt_promote_object_rq {C} p.

(** [T::PACKET_TYPE] *)
Definition PACKET_TYPE {C} (p : Packet C) : PacketType :=
  match p with
  | pkt_heartbeat_rq _ => PacketType_heartbeat_rq
  | pkt_heartbeat_rs _ => PacketType_heartbeat_rs
  | pkt_session_create_rq _ => PacketType_session_create_rq
  | pkt_session_create_rs _ => PacketType_session_create_rs
  | pkt_session_auth_rq _ => PacketType_session_auth_rq
  | pkt_session_auth_rs _ => PacketType_session_auth_rs
  | pkt_session_close_rq _ => PacketType_session_close_rq
  | pkt_bandwith_overflow_ps _ => PacketType_bandwith_overflow_ps
  | pkt_server_is_busy_ps _ => PacketType_server_is_busy_ps
  | pkt_game_enter_request_rq _ => PacketType_game_enter_request_rq
  | pkt_game_enter_request_rs _ => PacketType_game_enter_request_rs
  | pkt_enter_new_character_ps _ => PacketType_enter_new_character_ps
  | pkt_object_list_ps _ => PacketType_object_list_ps
  | pkt_object_move_ps _ => PacketType_object_move_ps
  | pkt_create_object_ps _ => PacketType_create_object_ps
  | pkt_remove_object_ps _ => PacketType_remove_object_ps
  | pkt_object_start_skill_ps _ => PacketType_object_start_skill_ps
  | pkt_character_move_rq _ => PacketType_character_move_rq
  | pkt_character_move_rs _ => PacketType_character_move_rs
  | pkt_start_skill_rq _ => PacketType_start_skill_rq
  | pkt_start_skill_rs _ => PacketType_start_skill_rs
  | pkt_load_server_config_rq _ => PacketType_load_server_config_rq
  | pkt_load_server_config_rs _ => PacketType_load_server_config_rs
  | pkt_register_minion_server_rq _ => PacketType_register_minion_server_rq
  | pkt_register_minion_server_rs _ => PacketType_register_minion_server_rs
  | pkt_authorize_server_rq _ => PacketType_authorize_server_rq
  | pkt_authorize_server_rs _ => PacketType_authorize_server_rs
  | pkt_update_intra_server_info_ps _ => PacketType_update_intra_server_info_ps
  | pkt_sector_allocation_ps _ => PacketType_sector_allocation_ps
  | pkt_recovery_minion_server_rq _ => PacketType_recovery_minion_server_rq
  | pkt_recovery_minion_server_rs _ => PacketType_recovery_minion_server_rs
  | pkt_spawn_character_rq _ => PacketType_spawn_character_rq
  | pkt_spawn_character_rs _ => PacketType_spawn_character_rs
  | pkt_remove_character_rq _ => PacketType_remove_character_rq
  | pkt_remove_character_rs _ => PacketType_remove_character_rs
  | pkt_create_observing_object_rq _ => PacketType_create_observing_object_rq
  | pkt_remove_observing_object_rq _ => PacketType_remove_observing_object_rq
  | pkt_promote_object_rq _ => PacketType_promote_object_rq
  end.

(** ** Declared but uninitialised

    [packet_x packet;] leaves the scalar members indeterminate. *)

Definition ObjectType_of_Z (z : Z) : ObjectType :=
  match z with 1 => ObjectType_Character | 2 => ObjectType_Prop | 3 => ObjectType_Wall
  | _ => ObjectType_Monster end.

Section uninit.
Context {C : Type} `{CoordinateUnit C} `{Indeterminate C}.

Definition uninit_Vital : Vital :=
mkVital (ind_Z "vital.hp") (ind_Z "vital.speed") (ind_Z "vital.damage").

(** [Fixture] default-initialised: only the members with an initialiser are
  determined. *)
Definition uninit_Fixture : Fixture C :=
set_sector_id (ind_Z "fixture.sector_id")
  (set_size (mkVector2 (ind_C "fixture.size.x") (ind_C "fixture.size.y"))
    (set_position (mkVector2 (ind_C "fixture.position.x")
                             (ind_C "fixture.position.y")) new_Fixture)).

Definition uninit_PacketObjectInfo : PacketObjectInfo C :=
mkPacketObjectInfo (ind_Z "object_info.object_id") (ind_Z "object_info.sector_id")
  (ObjectType_of_Z (ind_Z "object_info.type")) uninit_Fixture uninit_Vital.
End uninit.

Section object_info.
Context {C : Type}.
Implicit Types o : PacketObjectInfo C.

Definition oi_set_sector_id (v : Z) o : PacketObjectInfo C :=
mkPacketObjectInfo (oi_object_id o) v (oi_type o) (oi_fixture o) (oi_vital o).
Definition oi_set_fixture (v : Fixture C) o : PacketObjectInfo C :=
mkPacketObjectInfo (oi_object_id o) (oi_sector_id o) (oi_type o) v (oi_vital o).
Definition oi_set_object_id (v : Z) o : PacketObjectInfo C :=
mkPacketObjectInfo v (oi_sector_id o) (oi_type o) (oi_fixture o) (oi_vital o).
Definition oi_set_type (v : ObjectType) o : PacketObjectInfo C :=
mkPacketObjectInfo (oi_object_id o) (oi_sector_id o) v (oi_fixture o) (oi_vital o).
End object_info.
