(* ===== verification/Protocol.v ===== *)
(** * Wire format

    [common/memory/Buffer.h] (buffers and cursors),
    [common/engine/protocol/Protocol.h] (a packet is a four-byte length, an
    eight-byte header and a [struct_pack] body) and the loop that takes a
    buffer apart again, [GameServerWorker::ProcessLoopbackData] of
    [common/game/GameServer.cpp].  [struct_pack] is third-party code: its
    operations are parameters. *)

From S2P Require Import Prelude Coordinate SectorGrid Fixture Packet.

Open Scope Z_scope.

(** ** Bytes *)

Fixpoint le_bytes (n : nat) (z : Z) : list Z :=
  match n with
  | O => []
  | S n => z mod 256 :: le_bytes n (z / 256)
  end.

Fixpoint le_value (l : list Z) : Z :=
  match l with
  | [] => 0
  | b :: l => b + 256 * le_value l
  end.

(** ** Buffers and cursors (Buffer.h) *)

(** The bytes below [length]; the rest of [capacity] is unused. *)
Record DynamicBuffer : Type := mkDynamicBuffer { db_bytes : list Z; db_capacity : Z }.

Definition db_length (b : DynamicBuffer) : Z := Z.of_nat (length (db_bytes b)).

Record DynamicBufferCursor : Type := mkCursor { cur_buffer : DynamicBuffer; cur_pos : Z }.

Definition Cursor_of (b : DynamicBuffer) : DynamicBufferCursor := mkCursor b 0.

Definition Data (c : DynamicBufferCursor) : list Z :=
  drop (Z.to_nat (cur_pos c)) (db_bytes (cur_buffer c)).

(** A [uint32_t] argument converted to the [int32_t] parameter. *)
Definition to_int32 (z : Z) : Z :=
  let w := u32 z in if w <? 2 ^ 31 then w else w - 2 ^ 32.

Definition Seek (byte_movement : Z) (c : DynamicBufferCursor) : result DynamicBufferCursor :=
  let pos := cur_pos c + to_int32 byte_movement in
  if (0 <=? pos) && (pos <=? db_length (cur_buffer c))
  then Ok (mkCursor (cur_buffer c) pos)
  else Err (AssertionFailed "_cursor >= 0 && _buffer->length >= _cursor").

Definition RemainBytes (c : DynamicBufferCursor) : Z := u32 (db_length (cur_buffer c) - cur_pos c).

(** ** Headers and packets (Protocol.h) *)

Record PacketHeader : Type := mkPacketHeader {
  hdr_packet_type : Z; hdr_error_code : Z; hdr_body_size : Z }.

Definition PACKET_LENGTH_SIZE : Z := 4.
Definition PACKET_HEADER_SIZE : Z := 8.

Definition header_bytes (h : PacketHeader) : list Z :=
  le_bytes 2 (hdr_packet_type h) ++ le_bytes 2 (hdr_error_code h) ++ le_bytes 4 (hdr_body_size h).

Definition DeserializePacketHeader (packet_buffer : list Z) (buffer_size : Z) : result PacketHeader :=
  if buffer_size <? PACKET_HEADER_SIZE then Err (AssertionFailed "buffer_size >= PACKET_HEADER_SIZE")
  else if (length packet_buffer <? 8)%nat then Err (UndefinedBehaviour "read past the buffer")
  else Ok (mkPacketHeader (le_value (take 2 packet_buffer))
                          (le_value (take 2 (drop 2 packet_buffer)))
                          (le_value (take 4 (drop 4 packet_buffer)))).

(** [struct_pack::get_needed_size], [serialize_to] and [deserialize_to]. *)
Class StructPack (C : Type) : Type := {
  sp_get_needed_size : Packet C → Z;
  sp_serialize : Packet C → list Z;
  sp_deserialize : PacketType → list Z → option (Packet C);
}.

(** What [struct_pack] documents of the first two. *)
Class StructPackSize (C : Type) `{StructPack C} : Prop := {
  sp_size : ∀ p : Packet C, sp_get_needed_size p = Z.of_nat (length (sp_serialize p)) }.

Section protocol.
Context {C : Type} `{StructPack C}.

Definition DeserializePacketBody (t : PacketType) (packet_buffer : list Z) : option (Packet C) :=
sp_deserialize t packet_buffer.

(** The value of [packet_size] and, on success, the bytes written. *)
Definition SerializePacket (packet : Packet C) (error_code : ErrorCode) (buffer_size : Z)
  : Z * option (list Z) :=
let needed_size := sp_get_needed_size packet in
let packet_size := u32 (PACKET_LENGTH_SIZE + PACKET_HEADER_SIZE + u32 needed_size) in
if buffer_size <? packet_size then (packet_size, None)
else
  let packet_length := u32 (packet_size - PACKET_LENGTH_SIZE) in
  let header := mkPacketHeader (PacketType_to_Z (PACKET_TYPE packet))
                  (ErrorCode_to_Z error_code) (u32 needed_size) in
  (packet_size,
   Some (le_bytes 4 packet_length ++ header_bytes header ++ sp_serialize packet)).
End protocol.

(** ** Taking a buffer apart (GameServer.cpp, [ProcessLoopbackData]) *)

Section loopback.
Context {St Out : Type}.
Variable OnIntraServerData : PacketHeader → list Z → Act St Out ().

(** One iteration calls the handler on the header and on the bytes that
  [cursor.Data()] and [header.body_size] delimit. *)
Fixpoint loopback_loop (fuel : nat) (cursor : DynamicBufferCursor) : Act St Out DynamicBufferCursor :=
match fuel with
| O => fail OutOfFuel
| S fuel =>
    if RemainBytes cursor >=? PACKET_HEADER_SIZE then
      cursor ← lift (Seek PACKET_LENGTH_SIZE cursor);
      header ← lift (DeserializePacketHeader (Data cursor)
                       (db_capacity (cur_buffer cursor) - cur_pos cursor));
      cursor ← lift (Seek PACKET_HEADER_SIZE cursor);
      OnIntraServerData header (take (Z.to_nat (hdr_body_size header)) (Data cursor)) ;;
      cursor ← lift (Seek (hdr_body_size header) cursor);
      loopback_loop fuel cursor
    else mret cursor
end.

Definition ProcessLoopbackData (buffer : DynamicBuffer) : Act St Out () :=
cursor ← loopback_loop (S (length (db_bytes buffer))) (Cursor_of buffer);
check "cursor.RemainBytes() == 0" (RemainBytes cursor =? 0).
End loopback.

(** ** Little-endian integers *)

Lemma length_le_bytes n z : length (le_bytes n z) = n.
Proof. revert z. induction n as [|n IH]; intros z; simpl; [done|]. by rw IH. Qed.

Lemma le_value_bytes n z : le_value (le_bytes n z) = z mod 256 ^ Z.of_nat n.
Proof.
  revert z. induction n as [|n IH]; intros z; [by rw Z.mod_1_r|].
  cbn [le_bytes le_value]. rw IH Nat2Z.inj_succ Z.pow_succ_r; [lia|].
  rw Z.rem_mul_r; [lia|apply Z.pow_pos_nonneg; lia|]. lia.
Qed.

Lemma le_value_bytes_small n z : 0 ≤ z < 256 ^ Z.of_nat n → le_value (le_bytes n z) = z.
Proof. intros. rw le_value_bytes. by apply Z.mod_small. Qed.

Lemma length_header_bytes h : length (header_bytes h) = 8%nat.
Proof. by rw /header_bytes !length_app !length_le_bytes. Qed.

(** A header whose fields fit their widths is read back from the front of any
    buffer it was written to. *)
Lemma DeserializePacketHeader_bytes (h : PacketHeader) (rest : list Z) (size : Z) :
  0 ≤ hdr_packet_type h < 2 ^ 16 → 0 ≤ hdr_error_code h < 2 ^ 16 → 0 ≤ hdr_body_size h < 2 ^ 32 →
  PACKET_HEADER_SIZE ≤ size →
  DeserializePacketHeader (header_bytes h ++ rest) size = Ok h.
Proof.
  intros Ht He Hb Hs. rw /DeserializePacketHeader.
  rw (proj2 (Z.ltb_ge _ _)); [done|].
  rw (proj2 (Nat.ltb_ge _ _)); [rw length_app length_header_bytes; lia|].
  rw /header_bytes -!app_assoc.
  rw (take_app_length' (le_bytes 2 _)); [by rw length_le_bytes|].
  rw (drop_app_length' (le_bytes 2 (hdr_packet_type h))); [by rw length_le_bytes|].
  rw (take_app_length' (le_bytes 2 (hdr_error_code h))); [by rw length_le_bytes|].
  rw (_ : drop 4 _ = le_bytes 4 (hdr_body_size h) ++ rest).
  { rw app_assoc. rw (drop_app_length' (le_bytes 2 _ ++ le_bytes 2 _)); [|done].
    by rw length_app !length_le_bytes. }
  rw (take_app_length' (le_bytes 4 _)); [by rw length_le_bytes|].
  rw !le_value_bytes_small; [lia..|]. by destruct h.
Qed.

(** ** Framing *)

Section framing.
Context {C : Type} `{StructPack C} `{!StructPackSize C}.

Definition packet_header (packet : Packet C) (error_code : ErrorCode) : PacketHeader :=
mkPacketHeader (PacketType_to_Z (PACKET_TYPE packet)) (ErrorCode_to_Z error_code)
  (sp_get_needed_size packet).

(** The bytes of one packet. *)
Definition frame (packet : Packet C) (error_code : ErrorCode) : list Z :=
le_bytes 4 (PACKET_HEADER_SIZE + sp_get_needed_size packet) ++
header_bytes (packet_header packet error_code) ++ sp_serialize packet.

(** Bodies this far below the 32-bit limit fit every arithmetic of the wire
  code; buffers hold 131072 bytes at most in the shipped configuration. *)
Definition small_packet (packet : Packet C) : Prop := sp_get_needed_size packet < 2 ^ 31 - 12.

Lemma PacketType_to_Z_range t : 0 ≤ PacketType_to_Z t < 2 ^ 16.
Proof. destruct t; cbn; lia. Qed.
Lemma ErrorCode_to_Z_range e : 0 ≤ ErrorCode_to_Z e < 2 ^ 16.
Proof. destruct e; cbn; lia. Qed.

Lemma needed_size_nonneg (p : Packet C) : 0 ≤ sp_get_needed_size p.
Proof. rw sp_size. lia. Qed.

Lemma length_frame p e : Z.of_nat (length (frame p e)) = 12 + sp_get_needed_size p.
Proof. rw /frame length_app length_le_bytes length_app length_header_bytes sp_size. lia. Qed.

(** [SerializePacket] writes exactly the frame, when it fits. *)
Lemma SerializePacket_frame p e size :
small_packet p →
SerializePacket p e size =
  (12 + sp_get_needed_size p,
   if size <? 12 + sp_get_needed_size p then None else Some (frame p e)).
Proof.
rw /small_packet. intros Hp. pose proof (needed_size_nonneg p). rw /SerializePacket.
rw (u32_small (sp_get_needed_size p)); [lia|].
rw /PACKET_LENGTH_SIZE /PACKET_HEADER_SIZE. rw (u32_small (4 + 8 + _)); [lia|].
rw (_ : 4 + 8 + sp_get_needed_size p = 12 + sp_get_needed_size p); [lia|].
rw (u32_small (12 + _ - 4)); [lia|].
rw (_ : 12 + sp_get_needed_size p - 4 = 8 + sp_get_needed_size p); [lia|].
rw /frame /packet_header. case_match; done.
Qed.

Lemma to_int32_small z : 0 ≤ z < 2 ^ 31 → to_int32 z = z.
Proof.
intros. rw /to_int32 u32_small; [lia|]. by rw (proj2 (Z.ltb_lt _ _)); [lia|].
Qed.

Lemma Seek_ok n c :
0 ≤ n < 2 ^ 31 → 0 ≤ cur_pos c → cur_pos c + n ≤ db_length (cur_buffer c) →
Seek n c = Ok (mkCursor (cur_buffer c) (cur_pos c + n)).
Proof.
intros. rw /Seek to_int32_small; [done|].
rw (proj2 (Z.leb_le _ _)); [lia|]. by rw (proj2 (Z.leb_le _ _)); [lia|].
Qed.

Context {St Out : Type}.
Variable handler : PacketHeader → list Z → Act St Out ().

(** Handling the packets of a list in order. *)
Definition dispatch (packets : list (Packet C)) : Act St Out () :=
for_each packets (λ p, handler (packet_header p ErrorCode_None) (sp_serialize p)).

(** One iteration takes one frame off the front. *)
Lemma loopback_loop_frame (b : DynamicBuffer) (p : Packet C) (rest : list Z) fuel pos s :
db_length b < 2 ^ 31 → db_length b ≤ db_capacity b → small_packet p → 0 ≤ pos →
drop (Z.to_nat pos) (db_bytes b) = frame p ErrorCode_None ++ rest →
loopback_loop handler (Datatypes.S fuel) (mkCursor b pos) s =
  (handler (packet_header p ErrorCode_None) (sp_serialize p) ;;
   loopback_loop handler fuel (mkCursor b (pos + (12 + sp_get_needed_size p)))) s.
Proof.
rw /small_packet. intros Hlen Hcap Hp Hpos Hdata.
pose proof (needed_size_nonneg p) as Hn. pose proof (length_frame p ErrorCode_None) as Hf.
set (n := sp_get_needed_size p) in *.
assert (Hend : pos + 12 + n ≤ db_length b).
{ apply (f_equal length) in Hdata. rw length_drop length_app in Hdata. rw /db_length. lia. }
assert (Hdrop : ∀ k, 0 ≤ k →
  drop (Z.to_nat (pos + k)) (db_bytes b) = drop (Z.to_nat k) (frame p ErrorCode_None ++ rest)).
{ intros k Hk. rw -Hdata drop_drop. f_equal. lia. }
cbn [loopback_loop]. rw {1}/RemainBytes u32_small /=; [lia|].
rw (_ : (_ >=? PACKET_HEADER_SIZE) = true).
{ rw Z.geb_leb. apply Z.leb_le. rw /PACKET_HEADER_SIZE. lia. }
rw Seek_ok; [rw /PACKET_LENGTH_SIZE /=; lia..|].
rw /lift /mbind /act_mbind /act_bind /Data /=. rw Hdrop; [done|].
rw {1}/frame -!app_assoc (drop_app_length' (le_bytes 4 _)); [by rw length_le_bytes|].
rw DeserializePacketHeader_bytes; [apply PacketType_to_Z_range|apply ErrorCode_to_Z_range|cbn; lia
  |rw /PACKET_HEADER_SIZE /PACKET_LENGTH_SIZE; lia|].
rw Seek_ok; [rw /PACKET_HEADER_SIZE /PACKET_LENGTH_SIZE /=; lia..|].
cbn [cur_buffer cur_pos hdr_body_size packet_header].
rw -Z.add_assoc Hdrop; [done|].
rw (_ : drop (Z.to_nat (PACKET_LENGTH_SIZE + PACKET_HEADER_SIZE)) _ = sp_serialize p ++ rest).
{ rw /frame -app_assoc -app_assoc app_assoc.
  rw (drop_app_length' (le_bytes 4 _ ++ header_bytes _)); [|done].
  by rw length_app length_le_bytes length_header_bytes. }
rw (take_app_length' (sp_serialize p)); [rw sp_size; lia|].
destruct (handler _ _ s) as [[[u s1] o1]|f]; [|done].
rw Seek_ok; [rw /PACKET_LENGTH_SIZE /PACKET_HEADER_SIZE /=; fold n; lia..|].
fold n. cbn [cur_pos cur_buffer].
rw (_ : pos + (PACKET_LENGTH_SIZE + PACKET_HEADER_SIZE) + n = pos + (12 + n));
  [rw /PACKET_LENGTH_SIZE /PACKET_HEADER_SIZE; lia|].
by destruct (loopback_loop _ _ _ _) as [[[? ?] ?]|].
Qed.

Lemma loopback_loop_frames (b : DynamicBuffer) :
db_length b < 2 ^ 31 → db_length b ≤ db_capacity b →
∀ packets fuel pos s,
Forall small_packet packets → (length packets < fuel)%nat → 0 ≤ pos ≤ db_length b →
drop (Z.to_nat pos) (db_bytes b) = concat ((λ p, frame p ErrorCode_None) <$> packets) →
loopback_loop handler fuel (mkCursor b pos) s =
  (dispatch packets ;; mret (mkCursor b (db_length b))) s.
Proof.
intros Hlen Hcap. induction packets as [|p packets IH]; intros fuel pos s Hsm Hfuel Hpos Hdata;
  (destruct fuel as [|fuel]; [cbn in *; lia|]).
- apply (f_equal length) in Hdata. rw length_drop /= in Hdata. rw /db_length in Hpos.
  assert (pos = db_length b) as -> by (rw /db_length; lia).
  cbn. by rw /RemainBytes /= Z.sub_diag.
- apply Forall_cons in Hsm as [Hp Hsm]. cbn [fmap list_fmap concat] in Hdata.
  rw (loopback_loop_frame b p _ fuel pos s Hlen Hcap Hp (proj1 Hpos) Hdata).
  pose proof (length_frame p ErrorCode_None) as Hf. pose proof (needed_size_nonneg p).
  rw /dispatch /= /mbind /act_mbind /act_bind.
  destruct (handler _ _ s) as [[[u s1] o1]|f]; [|done].
  rw (IH fuel); [done|cbn in *; lia| | |].
  { apply (f_equal length) in Hdata. rw length_drop length_app in Hdata.
    rw /db_length in Hpos |- *. lia. }
  { rw Z2Nat.inj_add; [lia..|]. rw -drop_drop Hdata -Hf Nat2Z.id.
    by rw drop_app_length. }
  rw /dispatch /mbind /act_mbind /act_bind.
  destruct (for_each packets _ s1) as [[[? ?] ?]|]; [|done]. by rw /= !app_nil_r.
Qed.

(** Taking a buffer of frames apart. *)
Lemma ProcessLoopbackData_dispatch (b : DynamicBuffer) (packets : list (Packet C)) (s : St) :
db_length b < 2 ^ 31 → db_length b ≤ db_capacity b →
Forall small_packet packets →
db_bytes b = concat ((λ p, frame p ErrorCode_None) <$> packets) →
ProcessLoopbackData handler b s = dispatch packets s.
Proof.
intros Hlen Hcap Hsm Hb. rw /ProcessLoopbackData.
rw {1}/mbind {1}/act_mbind {1}/act_bind.
rw (loopback_loop_frames b Hlen Hcap packets); [done| |rw /db_length; lia|done|].
{ rw Hb. clear Hb Hsm. induction packets as [|p ps IH]; cbn; [lia|].
  rw length_app. pose proof (length_frame p ErrorCode_None). pose proof (needed_size_nonneg p).
  cbn in IH. lia. }
rw /mbind /act_mbind /act_bind. destruct (dispatch packets s) as [[[[] ?] ?]|]; [|done].
by rw /= /RemainBytes /= Z.sub_diag /= !app_nil_r.
Qed.

(** C14: A buffer that holds the frames of some packets back to back is taken
  apart into exactly these packets, in order, each handed to the handler
  with its header and its body; nothing is left over. *)
Theorem ProcessLoopbackData_frames (b : DynamicBuffer) (packets : list (Packet C)) (s : St) :
db_length b < 2 ^ 31 → db_length b ≤ db_capacity b →
Forall small_packet packets →
db_bytes b = concat ((λ p, frame p ErrorCode_None) <$> packets) →
ProcessLoopbackData handler b s = dispatch packets s.
Proof. apply ProcessLoopbackData_dispatch. Qed.
End framing.

#[global] Arguments frame : simpl never.
#[global] Arguments header_bytes : simpl never.
