(* ===== verification/Memory.v ===== *)
(** * Memory

    [common/memory]: the object pools ([ObjectPool.h], [SharedObjectPool.h]),
    reference counts and intrusive pointers ([RefCounter.h], [IntrusivePtr.h])
    and the queue of scalars [SequentialBuffer.h].  Objects are named by the
    sequence number the pool hands to their initialiser. *)

From S2P Require Import Prelude.

Open Scope Z_scope.

(** A value stored in an [int32_t]. *)
Definition to_i32 (z : Z) : Z := (z + 2 ^ 31) mod 2 ^ 32 - 2 ^ 31.

(** ** ObjectPool *)

(** [_pool] is a stack in both instantiations (a locked [std::stack], or a
    [std::deque] used at its back), top first.  [in_used] and
    [is_heap_allocation] are flags of the blocks. *)
Record ObjectPool : Type := mkObjectPool {
  op_pool : list Z;
  op_object_sequence : Z;
  op_in_used : gset Z;
  op_heap : gset Z;
}.

Definition PushObject (object : Z) (p : ObjectPool) : ObjectPool :=
  mkObjectPool (object :: op_pool p) (op_object_sequence p) (op_in_used p) (op_heap p).

(** [for (chunk_index = 0; chunk_index < chunk_size; chunk_index++)] *)
Fixpoint AllocateChunk (chunk_size : nat) (sequence : Z) (p : ObjectPool) : Z * ObjectPool :=
  match chunk_size with
  | O => (sequence, p)
  | S n => AllocateChunk n (u64 (sequence + 1)) (PushObject sequence p)
  end.

(** The loop of the constructor; [size] is a [uint32_t]. *)
Fixpoint create_loop (fuel : nat) (size pool_size chunk_size sequence : Z) (p : ObjectPool)
    : result (Z * ObjectPool) :=
  match fuel with
  | O => Err OutOfFuel
  | S fuel =>
      if size <? pool_size then
        let allocation_size := if u32 (size + chunk_size) >? pool_size then u32 (pool_size - size) else chunk_size in
        let '(sequence, p) := AllocateChunk (Z.to_nat allocation_size) sequence p in
        create_loop fuel (u32 (size + chunk_size)) pool_size chunk_size sequence p
      else Ok (sequence, p)
  end.

Definition new_ObjectPool (pool_size chunk_size start_sequence : Z) : result ObjectPool :=
  if chunk_size >? 0 then
    '(sequence, p) ← create_loop (S (Z.to_nat pool_size)) 0 pool_size chunk_size start_sequence
                       (mkObjectPool [] 0 ∅ ∅);
    mret (mkObjectPool (op_pool p) sequence ∅ ∅)
  else Err (AssertionFailed "chunk_size > 0").

Definition Pop (must_allocation : bool) (p : ObjectPool) : option Z * ObjectPool :=
  match op_pool p with
  | object :: pool =>
      (Some object, mkObjectPool pool (op_object_sequence p) ({[object]} ∪ op_in_used p) (op_heap p))
  | [] =>
      if must_allocation then
        let object := op_object_sequence p in
        (Some object, mkObjectPool [] (u64 (object + 1)) ({[object]} ∪ op_in_used p) ({[object]} ∪ op_heap p))
      else (None, p)
  end.

(** A block allocated from the heap is deleted instead of kept. *)
Definition Push (object : Z) (p : ObjectPool) : result ObjectPool :=
  if bool_decide (object ∈ op_in_used p) then
    if bool_decide (object ∈ op_heap p)
    then Ok (mkObjectPool (op_pool p) (op_object_sequence p) (op_in_used p ∖ {[object]}) (op_heap p ∖ {[object]}))
    else Ok (PushObject object
               (mkObjectPool (op_pool p) (op_object_sequence p) (op_in_used p ∖ {[object]}) (op_heap p)))
  else Err (AssertionFailed "block->in_used").

(** What a pool of [stock] objects promises: no object is both free and in use,
    the free ones are distinct, the heap allocations in use are the surplus, and
    no object of the initial stock is lost. *)
Record pool_wf (stock : nat) (p : ObjectPool) : Prop := {
  pw_nodup : NoDup (op_pool p);
  pw_disjoint : ∀ o, o ∈ op_pool p → o ∉ op_in_used p;
  pw_heap : op_heap p ⊆ op_in_used p;
  pw_stock : (length (op_pool p) + size (op_in_used p ∖ op_heap p) = stock)%nat;
  pw_sequence : 0 ≤ op_object_sequence p;
  pw_fresh : ∀ o, o ∈ op_pool p ∨ o ∈ op_in_used p → 0 ≤ o < op_object_sequence p;
}.

Lemma AllocateChunk_spec n sequence p :
  0 ≤ sequence → sequence + Z.of_nat n < 2 ^ 64 →
  AllocateChunk n sequence p =
    (sequence + Z.of_nat n,
     mkObjectPool (reverse (seqZ sequence (Z.of_nat n)) ++ op_pool p) (op_object_sequence p) (op_in_used p) (op_heap p)).
Proof.
  revert sequence p. induction n as [|n IH]; intros sequence p H0 Hn; cbn [AllocateChunk].
  - rw Z.add_0_r /=. by destruct p.
  - rw u64_small; [lia|]. rw IH; [lia..|]. cbn [PushObject op_pool op_object_sequence op_in_used op_heap].
    rw (seqZ_cons sequence (Z.of_nat (S n))); [lia|]. rw reverse_cons -app_assoc /=.
    f_equal; [lia|]. rw Nat2Z.inj_succ Z.pred_succ. done.
Qed.

Lemma create_loop_spec fuel size pool_size chunk_size sequence p :
  0 < chunk_size → 0 ≤ size → pool_size + chunk_size < 2 ^ 32 → 0 ≤ sequence →
  sequence + Z.max 0 (pool_size - size) < 2 ^ 64 → (Z.to_nat (pool_size - size) < fuel)%nat →
  create_loop fuel size pool_size chunk_size sequence p =
    Ok (sequence + Z.max 0 (pool_size - size),
        mkObjectPool (reverse (seqZ sequence (Z.max 0 (pool_size - size))) ++ op_pool p)
          (op_object_sequence p) (op_in_used p) (op_heap p)).
Proof.
  revert size sequence p. induction fuel as [|fuel IH]; intros size sequence p Hc Hs Hp Hq Hb Hf; [lia|].
  cbn [create_loop]. case: Z.ltb_spec => Hlt.
  - set (n := Z.min chunk_size (pool_size - size)).
    rw (_ : (if u32 (size + chunk_size) >? pool_size then u32 (pool_size - size) else chunk_size) = n).
    { rw !u32_small; [lia..|]. rw /n Z.gtb_ltb. case: Z.ltb_spec; lia. }
    rw AllocateChunk_spec; [lia..|]. rw u32_small; [lia|]. rw IH; [lia..|].
    cbn [op_pool op_object_sequence op_in_used op_heap].
    rw Z2Nat.id; [lia|]. rw app_assoc -reverse_app. f_equal. f_equal; [lia|]. f_equal. f_equal. f_equal.
    rw (_ : Z.max 0 (pool_size - size) = n + Z.max 0 (pool_size - (size + chunk_size))); [lia|].
    rw seqZ_app; [lia..|]. done.
  - rw Z.max_l; [lia|]. rw Z.add_0_r /=. by destruct p.
Qed.

(** Creating a pool returns, and yields [pool_size] objects numbered from the
    start sequence, all free. *)
Lemma new_ObjectPool_spec pool_size chunk_size start :
  0 < chunk_size → 0 ≤ pool_size → pool_size + chunk_size < 2 ^ 32 → 0 ≤ start → start + pool_size < 2 ^ 64 →
  new_ObjectPool pool_size chunk_size start =
    Ok (mkObjectPool (reverse (seqZ start pool_size)) (start + pool_size) ∅ ∅).
Proof.
  intros. rw /new_ObjectPool (_ : (chunk_size >? 0) = true); [rw Z.gtb_ltb; apply Z.ltb_lt; lia|].
  rw create_loop_spec; [lia..|]. rw /mbind /result_bind /= app_nil_r.
  rw Z.max_r; [lia|]. by rw Z.sub_0_r.
Qed.

Lemma new_ObjectPool_wf pool_size chunk_size start p :
  0 < chunk_size → 0 ≤ pool_size → pool_size + chunk_size < 2 ^ 32 → 0 ≤ start → start + pool_size < 2 ^ 64 →
  new_ObjectPool pool_size chunk_size start = Ok p → pool_wf (Z.to_nat pool_size) p.
Proof.
  intros ???? Hb. rw new_ObjectPool_spec; [done..|]. intros [= <-]. split; cbn.
  - rw reverse_Permutation. apply NoDup_seqZ.
  - set_solver.
  - done.
  - rw length_reverse length_seqZ. rw (_ : (∅ : gset Z) ∖ ∅ = ∅); [set_solver|]. rw size_empty. lia.
  - lia.
  - intros o [Ho|Ho]; [|set_solver]. rw elem_of_reverse elem_of_seqZ in Ho. lia.
Qed.

(** [Pop] hands out an object nobody uses; it fails only on an empty stack and
    only when it may, and with [must_allocation] never. *)
Lemma Pop_spec (stock : nat) (must : bool) (p : ObjectPool) :
  pool_wf stock p → op_object_sequence p < 2 ^ 64 - 1 →
  match Pop must p with
  | (Some o, p') => pool_wf stock p' ∧ o ∉ op_in_used p ∧ op_in_used p' = {[o]} ∪ op_in_used p
  | (None, p') => must = false ∧ p' = p ∧ (stock ≤ size (op_in_used p))%nat
  end.
Proof.
  intros [Hn Hd Hh Hs H0 Hf] Hq. rw /Pop. destruct p as [pool seq used heap]; cbn in *.
  destruct pool as [|o pool]; [destruct must|].
  - assert (seq ∉ used) by (intros ?; pose proof (Hf seq); naive_solver lia).
    split_and!; [|done..]. split; cbn; [done|set_solver|set_solver| |rw u64_small; lia|].
    + rw (_ : ({[seq]} ∪ used) ∖ ({[seq]} ∪ heap) = used ∖ heap); [set_solver|done].
    + rw u64_small; [lia|]. intros o [?|[->%elem_of_singleton|Ho]%elem_of_union]; [set_solver|lia|].
      pose proof (Hf o (or_intror Ho)). lia.
  - split_and!; [done..|]. rw -Hs. apply subseteq_size. set_solver.
  - apply NoDup_cons in Hn as [Hno Hn]. assert (Hou : o ∉ used) by (apply Hd; set_solver).
    split_and!; [|done..]. split; cbn; [done|set_solver|set_solver| |done|].
    + rw (_ : ({[o]} ∪ used) ∖ heap = {[o]} ∪ (used ∖ heap)); [set_solver|].
      rw size_union; [set_solver|]. rw size_singleton. cbn [length] in Hs. lia.
    + intros o' Ho'. apply Hf. set_solver.
Qed.

(** Taking an object of the stock, without a bound on the sequence numbers. *)
Lemma pop_wf (stock : nat) (must : bool) (p : ObjectPool) (o : Z) (p' : ObjectPool) :
  pool_wf stock p → Pop must p = (Some o, p') → o ∈ op_pool p → pool_wf stock p'.
Proof.
  intros [Hn Hd Hh Hs H0 Hf] Hpop Ho. rw /Pop in Hpop. destruct p as [pool seq used heap]; cbn in *.
  destruct pool as [|o' pool]; [set_solver|]. injection Hpop as -> <-.
  apply NoDup_cons in Hn as [Hno Hn]. assert (Hou : o ∉ used) by (apply Hd; set_solver).
  split; cbn; [done|set_solver|set_solver| |done|].
  - rw (_ : ({[o]} ∪ used) ∖ heap = {[o]} ∪ (used ∖ heap)); [set_solver|].
    rw size_union; [set_solver|]. rw size_singleton. cbn [length] in Hs. lia.
  - intros o' Ho'. apply Hf. set_solver.
Qed.

(** [Push] takes back every object in use exactly once; pushing it a second
    time is caught. *)
Lemma Push_spec (stock : nat) (o : Z) (p : ObjectPool) :
  pool_wf stock p →
  match Push o p with
  | Ok p' => pool_wf stock p' ∧ o ∈ op_in_used p ∧ op_in_used p' = op_in_used p ∖ {[o]} ∧
      Push o p' = Err (AssertionFailed "block->in_used")
  | Err f => o ∉ op_in_used p
  end.
Proof.
  intros [Hn Hd Hh Hs H0 Hf]. rw /Push. destruct p as [pool seq used heap]; cbn in *.
  case_bool_decide as Hu; [|done].
  assert (Hagain : o ∉ used ∖ {[o]}) by set_solver.
  case_bool_decide as Ho; cbn [op_in_used op_heap PushObject]; (rw (bool_decide_eq_false_2 _ Hagain));
    (split_and!; [split; cbn|done..]); try set_solver.
  - rw (_ : (used ∖ {[o]}) ∖ (heap ∖ {[o]}) = used ∖ heap); [|done].
    apply set_eq. intros x. destruct (decide (x = o)); set_solver.
  - apply NoDup_cons. split; [|done]. intros Hop. by apply (Hd o).
  - rw (_ : (used ∖ {[o]}) ∖ heap = (used ∖ heap) ∖ {[o]}); [set_solver|].
    rw size_difference; [set_solver|]. rw size_singleton.
    assert (1 ≤ size (used ∖ heap))%nat; [|lia].
    rw -(size_singleton (C:=gset Z) o). apply subseteq_size. set_solver.
Qed.

(** A pool never hands out an object twice: [Pop] returns one nobody uses,
    taking it from the stock or, when it must, from the heap, and [Push] takes
    back what is in use, once; the stock stays complete. *)
Theorem pool_discipline (stock : nat) (must : bool) (o : Z) (p : ObjectPool) :
  pool_wf stock p → op_object_sequence p < 2 ^ 64 - 1 →
  match Pop must p with
  | (Some o', p') => pool_wf stock p' ∧ o' ∉ op_in_used p ∧ op_in_used p' = {[o']} ∪ op_in_used p
  | (None, p') => must = false ∧ p' = p ∧ (stock ≤ size (op_in_used p))%nat
  end ∧
  match Push o p with
  | Ok p' => pool_wf stock p' ∧ o ∈ op_in_used p ∧ op_in_used p' = op_in_used p ∖ {[o]} ∧
      Push o p' = Err (AssertionFailed "block->in_used")
  | Err f => o ∉ op_in_used p
  end.
Proof. intros Hwf Hseq. split; [by apply Pop_spec|by apply Push_spec]. Qed.

(** ** RefCounter and IntrusivePtr *)

(** The pointers of a program over the objects of one [SharedObjectPool]:
    [ph_slots] maps a variable to the object it holds (no entry: null),
    [ph_count] is the reference count of each object, and the deleter of every
    pointer is [IntrusivePtrDeleter], which pushes the object back onto
    [ph_pool]. *)
Record PtrHeap : Type := mkPtrHeap {
  ph_slots : gmap Z Z;
  ph_count : gmap Z Z;
  ph_pool : list Z;
}.

Definition count_of (h : PtrHeap) (o : Z) : Z := default 0 (ph_count h !! o).

(** A 32-bit counter: [fetch_add] returns the old value. *)
Definition set_count (o n : Z) (h : PtrHeap) : PtrHeap :=
  mkPtrHeap (ph_slots h) (<[o := to_i32 n]> (ph_count h)) (ph_pool h).

Definition Retain (o : Z) (h : PtrHeap) : PtrHeap := set_count o (count_of h o + 1) h.
Definition Release (o : Z) (h : PtrHeap) : Z * PtrHeap :=
  (to_i32 (count_of h o - 1), set_count o (count_of h o - 1) h).

Definition IntrusivePtrDeleter (o : Z) (h : PtrHeap) : PtrHeap :=
  mkPtrHeap (ph_slots h) (ph_count h) (o :: ph_pool h).

Definition set_slot (x : Z) (o : option Z) (h : PtrHeap) : PtrHeap :=
  mkPtrHeap (partial_alter (λ _, o) x (ph_slots h)) (ph_count h) (ph_pool h).

(** [IntrusivePtr::Release] *)
Definition ptr_Release (x : Z) (h : PtrHeap) : PtrHeap :=
  match ph_slots h !! x with
  | None => h
  | Some o =>
      let '(result, h) := Release o h in
      let h := if result =? 0 then IntrusivePtrDeleter o h else h in
      set_slot x None h
  end.

(** [x = y], copying; the second read of [copy_ptr._ptr] sees what [Release]
    left there. *)
Definition ptr_copy (x y : Z) (h : PtrHeap) : PtrHeap :=
  match ph_slots h !! y with
  | None => ptr_Release x h
  | Some o =>
      let h := ptr_Release x (Retain o h) in
      set_slot x (ph_slots h !! y) h
  end.

(** [x = std::move(y)] *)
Definition ptr_move (x y : Z) (h : PtrHeap) : PtrHeap :=
  match ph_slots h !! y with
  | None => ptr_Release x h
  | Some _ =>
      let h := ptr_Release x h in
      let h := set_slot x (ph_slots h !! y) h in
      set_slot y None h
  end.

(** [x = pool->Pop()]: the temporary the call returns holds the only reference
    and is moved into [x]. *)
Definition ptr_Pop (x temporary : Z) (h : PtrHeap) : bool * PtrHeap :=
  match ph_pool h with
  | [] => (false, ptr_Release x h)
  | o :: pool =>
      let h := Retain o (mkPtrHeap (ph_slots h) (ph_count h) pool) in
      (true, ptr_move x temporary (set_slot temporary (Some o) h))
  end.

(** [_UnsafeRetain] and [_UnsafeRelease]: a reference that no variable holds, as the
    transport takes for a connection. *)
Definition UnsafeRetain (x : Z) (h : PtrHeap) : result PtrHeap :=
  match ph_slots h !! x with
  | None => Err (UndefinedBehaviour "_ptr->Retain()")
  | Some o => Ok (Retain o h)
  end.

Definition UnsafeRelease (x : Z) (h : PtrHeap) : result PtrHeap :=
  match ph_slots h !! x with
  | None => Err (UndefinedBehaviour "_ptr->Release()")
  | Some o =>
      let '(result, h) := Release o h in
      Ok (if result =? 0 then set_slot x None (IntrusivePtrDeleter o h) else h)
  end.

(** [SharedObjectPool]'s constructor: the loop of [ObjectPool]'s. *)
Definition new_SharedObjectPool (pool_size chunk_size start_sequence : Z) : result PtrHeap :=
  if chunk_size >? 0 then
    '(_, p) ← create_loop (S (Z.to_nat pool_size)) 0 pool_size chunk_size start_sequence (mkObjectPool [] 0 ∅ ∅);
    mret (mkPtrHeap ∅ ∅ (op_pool p))
  else Err (AssertionFailed "chunk_size > 0").

(** The variables that hold an object. *)
Definition holders (h : PtrHeap) (o : Z) : gset Z := dom (filter (λ xo, xo.2 = o) (ph_slots h)).

(** Reference counts are exact up to [k]: an object is in the pool, once, iff
    its count is zero.  [objects] are the objects of the pool.  The number of
    variables is far below the range of the counters. *)
Record refs_off (objects : gset Z) (k : Z → Z) (h : PtrHeap) : Prop := {
  ro_count : ∀ o, count_of h o = Z.of_nat (size (holders h o)) + k o;
  ro_pool : ∀ o, o ∈ ph_pool h ↔ o ∈ objects ∧ count_of h o = 0;
  ro_nodup : NoDup (ph_pool h);
  ro_objects : ∀ x o, ph_slots h !! x = Some o → o ∈ objects;
}.

(** There is room for [n] more references in the counters. *)
Definition room (n : Z) (k : Z → Z) (h : PtrHeap) : Prop := ∀ o, 0 ≤ k o ∧ Z.of_nat (size (ph_slots h)) + k o + n < 2 ^ 31.

Definition plus_one (o : Z) (n : Z) (k : Z → Z) : Z → Z := λ o', if decide (o' = o) then k o' + n else k o'.

Lemma to_i32_small z : - 2 ^ 31 ≤ z < 2 ^ 31 → to_i32 z = z.
Proof. intros. rw /to_i32 Z.mod_small; lia. Qed.

Lemma elem_of_holders h o x : x ∈ holders h o ↔ ph_slots h !! x = Some o.
Proof.
  rw /holders elem_of_dom. split.
  - intros [o' [Ho Heq]%map_lookup_filter_Some]. by cbn in Heq; subst.
  - intros Ho. exists o. by apply map_lookup_filter_Some.
Qed.

Lemma size_holders h o : (size (holders h o) ≤ size (ph_slots h))%nat.
Proof.
  rw -(size_dom (D:=gset Z) (ph_slots h)). apply subseteq_size. intros x Hx%elem_of_holders.
  apply elem_of_dom. by exists o.
Qed.

Lemma holders_set_slot h x o o' :
  holders (set_slot x o h) o' =
    if decide (o = Some o') then {[x]} ∪ holders h o' else holders h o' ∖ {[x]}.
Proof.
  apply set_eq. intros y. rw elem_of_holders /=. destruct (decide (y = x)) as [->|Hne].
  - rw lookup_partial_alter_eq. case_decide; set_solver.
  - rw lookup_partial_alter_ne; [congruence|]. rw -elem_of_holders. case_decide; set_solver.
Qed.

Lemma count_of_set o n h o' :
  count_of (set_count o n h) o' = if decide (o' = o) then to_i32 n else count_of h o'.
Proof.
  rw /count_of /=. case_decide; subst; [by rw lookup_insert_eq|]. rw lookup_insert_ne; congruence.
Qed.

Section refs.
Context (objects : gset Z).
Implicit Types (k : Z → Z) (h : PtrHeap).

(** Storing an object into an empty variable. *)
Lemma set_slot_refs k h x o :
refs_off objects k h → ph_slots h !! x = None → o ∈ objects →
refs_off objects (plus_one o (-1) k) (set_slot x (Some o) h).
Proof.
intros [Hc Hp Hn Ho] Hx Hob. split; [|done|done|].
- intros o'. rw /plus_one holders_set_slot. change (count_of (set_slot x (Some o) h) o') with (count_of h o').
  rw Hc. destruct (decide (o' = o)) as [->|Hne].
  + rw decide_True; [done|]. rw size_union; [|rw size_singleton; lia].
    apply disjoint_singleton_l. rw elem_of_holders Hx. done.
  + rw decide_False; [congruence|]. rw (_ : holders h o' ∖ {[x]} = holders h o'); [|done].
    apply difference_disjoint_L, disjoint_singleton_r. rw elem_of_holders Hx. done.
- intros y o' Hy. destruct (decide (y = x)) as [->|Hne].
  + rw /set_slot /= lookup_partial_alter_eq in Hy. naive_solver.
  + rw /set_slot /= lookup_partial_alter_ne in Hy; [congruence|]. exact (Ho y o' Hy).
Qed.

(** Clearing a variable without releasing. *)
Lemma clear_slot_refs k h x o :
refs_off objects k h → ph_slots h !! x = Some o →
refs_off objects (plus_one o 1 k) (set_slot x None h).
Proof.
intros [Hc Hp Hn Ho] Hx. split; [|done|done|].
- intros o'. rw /plus_one holders_set_slot. change (count_of (set_slot x None h) o') with (count_of h o').
  rw Hc. case: (decide (None = Some o')) => [//|_]. destruct (decide (o' = o)) as [->|Hne].
  + assert (x ∈ holders h o) as Hin by by apply elem_of_holders.
    rw size_difference; [set_solver|]. rw size_singleton.
    assert (1 ≤ size (holders h o))%nat; [|lia].
    rw -(size_singleton (C:=gset Z) x). apply subseteq_size. set_solver.
  + rw (_ : holders h o' ∖ {[x]} = holders h o'); [|done].
    apply difference_disjoint_L, disjoint_singleton_r. rw elem_of_holders Hx. congruence.
- intros y o' Hy. destruct (decide (y = x)) as [->|Hne].
  + rw /set_slot /= lookup_partial_alter_eq in Hy. naive_solver.
  + rw /set_slot /= lookup_partial_alter_ne in Hy; [congruence|]. exact (Ho y o' Hy).
Qed.

(** Changing the count of an object that keeps at least one reference. *)
Lemma set_count_refs k h o n :
refs_off objects k h → 0 < count_of h o → 0 < count_of h o + n < 2 ^ 31 →
refs_off objects (plus_one o n k) (set_count o (count_of h o + n) h).
Proof.
intros [Hc Hp Hn Ho] H0 Hb. split; [| |done|done].
- intros o'. rw count_of_set /plus_one. change (holders (set_count _ _ h) o') with (holders h o').
  case_decide; subst; [|done]. rw to_i32_small; [lia|]. rw Hc. lia.
- intros o'. rw count_of_set. change (ph_pool (set_count _ _ h)) with (ph_pool h).
  rw Hp. case_decide; subst; [|done]. rw to_i32_small; [lia|]. lia.
Qed.

Lemma plus_one_id o n m k h : n + m = 0 → refs_off objects (plus_one o n (plus_one o m k)) h → refs_off objects k h.
Proof.
intros Hnm [Hc Hp Hn Ho]. split; [|done..]. intros o'. rw Hc /plus_one. case_decide; [|done]. lia.
Qed.

(** Releasing a variable: its object goes back to the pool with the last
  reference. *)
Lemma ptr_Release_refs k h x :
refs_off objects k h → room 0 k h →
refs_off objects k (ptr_Release x h) ∧ ph_slots (ptr_Release x h) = delete x (ph_slots h).
Proof.
intros Hinv Hk. rw /ptr_Release. destruct (ph_slots h !! x) as [o|] eqn:Hx.
2:{ split; [done|]. by rw delete_id. }
split; [|cbn; by case_match].
pose proof (ro_count _ _ _ Hinv o) as Hc. pose proof (size_holders h o) as Hs.
assert (1 ≤ size (holders h o))%nat as H1.
{ rw -(size_singleton (C:=gset Z) x). apply subseteq_size. apply elem_of_holders in Hx. set_solver. }
pose proof (Hk o) as Hko. cbn [Release]. rw to_i32_small; [lia|].
case: Z.eqb_spec => Hz.
- apply (plus_one_id o 1 (-1)); [done|]. apply (clear_slot_refs (plus_one o (-1) k)); [|done].
  destruct Hinv as [Hc' Hp Hn Ho]. split; [| | |done].
  + intros o'. rw /count_of /=. fold (count_of h). change (holders (IntrusivePtrDeleter _ _) o') with (holders h o').
    change (default 0 _) with (count_of (set_count o (count_of h o - 1) h) o').
    rw count_of_set /plus_one. case_decide; subst; [|by rw Hc']. rw to_i32_small; [lia|]. lia.
  + intros o'. change (count_of (IntrusivePtrDeleter _ _) o') with (count_of (set_count o (count_of h o - 1) h) o').
    rw count_of_set. change (ph_pool (IntrusivePtrDeleter _ _)) with (o :: ph_pool h). rw elem_of_cons Hp.
    case_decide as Hd; subst.
    * rw to_i32_small; [lia|]. split; [|by left]. intros _. split; [exact (Ho x o Hx)|lia].
    * naive_solver.
  + apply NoDup_cons. split; [|done]. rw Hp. lia.
- apply (plus_one_id o 1 (-1)); [done|]. apply (clear_slot_refs (plus_one o (-1) k)); [|done].
  apply (set_count_refs k h o (-1)); [done|lia..].
Qed.

Lemma Retain_refs k h o x :
refs_off objects k h → room 1 k h → ph_slots h !! x = Some o →
refs_off objects (plus_one o 1 k) (Retain o h).
Proof.
intros Hinv Hk Hx. pose proof (ro_count _ _ _ Hinv o) as Hc. pose proof (size_holders h o) as Hs.
pose proof (Hk o) as Hko.
assert (1 ≤ size (holders h o))%nat as H1.
{ rw -(size_singleton (C:=gset Z) x). apply subseteq_size. apply elem_of_holders in Hx. set_solver. }
apply set_count_refs; [done|lia..].
Qed.

Lemma room_retain k h o : room 1 k h → room 0 (plus_one o 1 k) h.
Proof. intros Hr o'. rw /plus_one. specialize (Hr o'). case_decide; lia. Qed.

Lemma room_less n m k h : room n k h → m ≤ n → room m k h.
Proof. intros Hr Hm o. specialize (Hr o). lia. Qed.

(** Every operation on pointers keeps the reference counts exact. *)
Lemma ptr_copy_refs k h x y :
x ≠ y → refs_off objects k h → room 1 k h → refs_off objects k (ptr_copy x y h).
Proof.
intros Hxy Hinv Hr. rw /ptr_copy. destruct (ph_slots h !! y) as [o|] eqn:Hy.
2:{ apply ptr_Release_refs; [done|]. by apply (room_less 1). }
pose proof (Retain_refs _ h o y Hinv Hr Hy) as Hret.
destruct (ptr_Release_refs _ _ x Hret) as [Hrel Hsl]; [exact (room_retain k h o Hr)|].
rw Hsl. rw lookup_delete_ne; [congruence|]. change (ph_slots (Retain o h)) with (ph_slots h) in *. rw Hy.
apply (plus_one_id o (-1) 1); [done|]. apply set_slot_refs; [done| |].
- rw Hsl. by apply lookup_delete_eq.
- exact (ro_objects _ _ _ Hinv y o Hy).
Qed.

Lemma ptr_move_refs k h x y :
x ≠ y → refs_off objects k h → room 0 k h → refs_off objects k (ptr_move x y h).
Proof.
intros Hxy Hinv Hr. rw /ptr_move.
destruct (ptr_Release_refs _ _ x Hinv Hr) as [Hrel Hsl].
destruct (ph_slots h !! y) as [o|] eqn:Hy; [|done].
rw Hsl. rw lookup_delete_ne; [congruence|]. rw Hy.
apply (plus_one_id o 1 (-1)); [done|]. apply clear_slot_refs.
- apply set_slot_refs; [done| |].
  + rw Hsl. by apply lookup_delete_eq.
  + exact (ro_objects _ _ _ Hinv y o Hy).
- cbn. rw lookup_partial_alter_ne; [congruence|]. rw Hsl. rw lookup_delete_ne; congruence.
Qed.

Lemma ptr_Pop_refs k h x t :
x ≠ t → ph_slots h !! t = None → refs_off objects k h → room 1 k h →
refs_off objects k (ptr_Pop x t h).2.
Proof.
intros Hxt Ht Hinv Hr. rw /ptr_Pop. destruct (ph_pool h) as [|o pool] eqn:Hpool; cbn [snd].
{ apply ptr_Release_refs; [done|]. by apply (room_less 1). }
destruct (Hinv) as [Hc Hp Hn Ho]. rw Hpool in Hp. rw Hpool in Hn. apply NoDup_cons in Hn as [Hno Hn].
assert (Hc0 : o ∈ objects ∧ count_of h o = 0) by (apply Hp; by left).
apply ptr_move_refs; [done| |].
- apply (plus_one_id o (-1) 1); [done|]. apply set_slot_refs; [|done|naive_solver]. split; [| |done|done].
  + intros o'. rw /Retain count_of_set /plus_one /=. change (holders (set_count _ _ _) o') with (holders h o').
    change (count_of (mkPtrHeap (ph_slots h) (ph_count h) pool)) with (count_of h).
    case_decide; subst; [|by rw Hc]. rw to_i32_small; [lia|]. pose proof (Hc o). lia.
  + intros o'. rw /Retain count_of_set. change (ph_pool (set_count _ _ _)) with pool.
    change (count_of (mkPtrHeap (ph_slots h) (ph_count h) pool)) with (count_of h).
    case_decide as Hd; subst; [rw to_i32_small; [lia|]; naive_solver lia|].
    rw -Hp elem_of_cons. naive_solver.
- intros o'. specialize (Hr o'). cbn. change (partial_alter (λ _, Some o) t (ph_slots h)) with (<[t := o]> (ph_slots h)).
  rw map_size_insert_None; [done|]. lia.
Qed.
End refs.

(** *** Runs *)

Inductive ptr_op : Type :=
| OpCopy (x y : Z)
| OpMove (x y : Z)
| OpRelease (x : Z)
| OpPop (x temporary : Z).

Definition run_ptr_op (op : ptr_op) (h : PtrHeap) : PtrHeap :=
  match op with
  | OpCopy x y => ptr_copy x y h
  | OpMove x y => ptr_move x y h
  | OpRelease x => ptr_Release x h
  | OpPop x t => (ptr_Pop x t h).2
  end.

(** Programs over some variables and a name for temporaries, without
    self-assignment. *)
Definition ptr_op_ok (vars : gset Z) (t : Z) (op : ptr_op) : Prop :=
  match op with
  | OpCopy x y | OpMove x y => x ∈ vars ∧ y ∈ vars ∧ x ≠ y
  | OpRelease x => x ∈ vars
  | OpPop x t' => x ∈ vars ∧ t' = t
  end.

Lemma ptr_Release_dom x h : dom (ph_slots (ptr_Release x h)) = dom (ph_slots h) ∖ {[x]}.
Proof.
  rw /ptr_Release. destruct (ph_slots h !! x) as [o|] eqn:Hx.
  - cbn. case_match; exact (dom_delete_L (D:=gset Z) (ph_slots h) x).
  - apply not_elem_of_dom in Hx. set_solver.
Qed.

Lemma dom_set_slot x o h : dom (ph_slots (set_slot x o h)) ⊆ {[x]} ∪ dom (ph_slots h).
Proof.
  intros y. rw !elem_of_union !elem_of_dom elem_of_singleton /=. destruct (decide (y = x)); [by left|].
  rw lookup_partial_alter_ne; [congruence|]. by right.
Qed.

Lemma ptr_move_dom x y h : dom (ph_slots (ptr_move x y h)) ⊆ ({[x]} ∪ dom (ph_slots h)) ∖ {[y]}.
Proof.
  rw /ptr_move. destruct (ph_slots h !! y) as [o|] eqn:Hy.
  - set (h1 := set_slot x _ _). pose proof (dom_set_slot x (ph_slots (ptr_Release x h) !! y) (ptr_Release x h)) as Hd.
    rw ptr_Release_dom in Hd. fold h1 in Hd. cbn. change (partial_alter (λ _, None) y (ph_slots h1)) with (delete y (ph_slots h1)).
    rw dom_delete_L. set_solver.
  - rw ptr_Release_dom. apply not_elem_of_dom in Hy. set_solver.
Qed.

Lemma run_ptr_op_dom vars t op h :
  ptr_op_ok vars t op → t ∉ vars → dom (ph_slots h) ⊆ vars → dom (ph_slots (run_ptr_op op h)) ⊆ vars.
Proof.
  intros Hop Ht Hdom. destruct op as [x y|x y|x|x t']; cbn in *.
  - rw /ptr_copy. destruct (ph_slots h !! y) as [o|]; [|rw ptr_Release_dom; set_solver].
    etrans; [apply dom_set_slot|]. rw ptr_Release_dom. set_solver.
  - etrans; [apply ptr_move_dom|]. set_solver.
  - rw ptr_Release_dom. set_solver.
  - destruct Hop as [Hx ->]. rw /ptr_Pop. destruct (ph_pool h) as [|o pool]; cbn [snd]; [rw ptr_Release_dom; set_solver|].
    etrans; [apply ptr_move_dom|]. pose proof (dom_set_slot t (Some o) (Retain o (mkPtrHeap (ph_slots h) (ph_count h) pool))).
    set_solver.
Qed.

(** The references that no variable holds. *)
Definition pinned (pins : list Z) (o : Z) : Z := Z.of_nat (length (filter (λ p, p = o) pins)).

(** A program over the pointers: [pins] are the objects that [_UnsafeRetain] was
    called for and [_UnsafeRelease] not yet, at most [limit] at a time. *)
Inductive ptr_step (vars : gset Z) (t limit : Z) : PtrHeap * list Z → PtrHeap * list Z → Prop :=
| step_op op h pins : ptr_op_ok vars t op → ptr_step vars t limit (h, pins) (run_ptr_op op h, pins)
| step_retain x o h h' pins :
    ph_slots h !! x = Some o → UnsafeRetain x h = Ok h' → Z.of_nat (length (o :: pins)) ≤ limit →
    ptr_step vars t limit (h, pins) (h', o :: pins)
| step_release x o h h' pins1 pins2 :
    ph_slots h !! x = Some o → UnsafeRelease x h = Ok h' →
    ptr_step vars t limit (h, pins1 ++ o :: pins2) (h', pins1 ++ pins2).

Record ptr_inv (objects vars : gset Z) (limit : Z) (s : PtrHeap * list Z) : Prop := {
  pi_refs : refs_off objects (pinned s.2) s.1;
  pi_vars : dom (ph_slots s.1) ⊆ vars;
  pi_limit : Z.of_nat (length s.2) ≤ limit;
}.

Lemma pinned_middle pins1 o pins2 o' : pinned (pins1 ++ o :: pins2) o' = plus_one o 1 (pinned (pins1 ++ pins2)) o'.
Proof.
  rw /pinned /plus_one !filter_app !length_app filter_cons. case_decide as Hd; subst.
  - rw decide_True; [done|]. cbn [length]. lia.
  - rw decide_False; [congruence|]. lia.
Qed.

Lemma pinned_zero pins o : pinned pins o = 0 ↔ o ∉ pins.
Proof.
  rw /pinned. destruct (filter (λ p, p = o) pins) as [|p l] eqn:Hf.
  - split; [intros _|done]. by eapply filter_nil_not_elem_of; [exact Hf|].
  - assert (p = o ∧ p ∈ pins) as [-> ?]; [|naive_solver lia]. apply (list_elem_of_filter (λ p, p = o)). rw Hf. by left.
Qed.

Lemma refs_off_ext objects k k' h : (∀ o, k o = k' o) → refs_off objects k h → refs_off objects k' h.
Proof. intros Hk [Hc Hp Hn Ho]. split; [|done..]. intros o. by rw Hc Hk. Qed.

Lemma ptr_inv_room objects vars limit s :
  Z.of_nat (size vars) + limit < 2 ^ 31 - 1 → ptr_inv objects vars limit s → room 1 (pinned s.2) s.1.
Proof.
  intros Hsz [_ Hv Hl] o. pose proof (length_filter (λ p, p = o) s.2) as Hlen. rw /pinned.
  apply subseteq_size in Hv. rw size_dom in Hv. lia.
Qed.

(** Dropping a reference beside the one a variable holds. *)
Lemma UnsafeRelease_refs objects k h h' x o :
  refs_off objects (plus_one o 1 k) h → room 0 (plus_one o 1 k) h → (∀ o, 0 ≤ k o) → ph_slots h !! x = Some o →
  UnsafeRelease x h = Ok h' → refs_off objects k h' ∧ ph_slots h' = ph_slots h.
Proof.
  intros Hinv Hr Hk Hx. rw /UnsafeRelease Hx. cbn [Release].
  pose proof (ro_count _ _ _ Hinv o) as Hc. pose proof (size_holders h o) as Hs. specialize (Hr o). specialize (Hk o).
  rw /plus_one decide_True in Hc; [done|]. rw /plus_one decide_True in Hr; [done|].
  assert (1 ≤ size (holders h o))%nat as H1.
  { rw -(size_singleton (C:=gset Z) x). apply subseteq_size. apply elem_of_holders in Hx. set_solver. }
  rw to_i32_small; [lia|]. rw (proj2 (Z.eqb_neq _ _)); [lia|]. intros [= <-]. split; [|done].
  apply (plus_one_id objects o (-1) 1); [done|]. apply (set_count_refs objects _ h o (-1)); [done|lia..].
Qed.

Lemma run_ptr_op_refs objects vars t limit op h pins :
  t ∉ vars → Z.of_nat (size vars) + limit < 2 ^ 31 - 1 → ptr_op_ok vars t op →
  ptr_inv objects vars limit (h, pins) → ptr_inv objects vars limit (run_ptr_op op h, pins).
Proof.
  intros Ht Hsz Hop Hinv. pose proof (ptr_inv_room _ _ _ _ Hsz Hinv) as Hr. destruct Hinv as [Hrefs Hv Hl]. cbn in *.
  split; [|exact (run_ptr_op_dom vars t op h Hop Ht Hv)|done]. cbn. destruct op as [x y|x y|x|x t']; cbn in *.
  - apply ptr_copy_refs; naive_solver.
  - apply ptr_move_refs; [naive_solver|done|by apply (room_less 1)].
  - apply ptr_Release_refs; [done|by apply (room_less 1)].
  - destruct Hop as [Hx ->]. apply ptr_Pop_refs; try done; [set_solver|]. apply not_elem_of_dom. set_solver.
Qed.

Lemma ptr_step_inv objects vars t limit s s' :
  t ∉ vars → Z.of_nat (size vars) + limit < 2 ^ 31 - 1 → ptr_inv objects vars limit s → ptr_step vars t limit s s' →
  ptr_inv objects vars limit s'.
Proof.
  intros Ht Hsz Hinv Hstep. pose proof (ptr_inv_room _ _ _ _ Hsz Hinv) as Hr.
  destruct Hstep as [op h pins Hop|x o h h' pins Hx Hret Hlen|x o h h' pins1 pins2 Hx Hrel].
  - by apply (run_ptr_op_refs _ _ t).
  - destruct Hinv as [Hrefs Hv _]. rw /UnsafeRetain Hx in Hret. injection Hret as <-. split; [|done|done].
    apply (refs_off_ext _ (plus_one o 1 (pinned pins))); [intros o'; symmetry; apply (pinned_middle [])|].
    by apply (Retain_refs _ _ h o x).
  - destruct Hinv as [Hrefs Hv Hl]. cbn [fst snd] in *.
    destruct (UnsafeRelease_refs objects (pinned (pins1 ++ pins2)) h h' x o) as [Hrefs' Hs]; [| | |done..|].
    + eapply refs_off_ext; [|exact Hrefs]. apply pinned_middle.
    + intros o'. specialize (Hr o'). rw pinned_middle in Hr. lia.
    + intros o'. rw /pinned. lia.
    + split; [done|by rw /= Hs|]. rw length_app /= in Hl. cbn. rw length_app. lia.
Qed.

Lemma new_SharedObjectPool_inv (pool_size chunk_size start limit : Z) (vars : gset Z) (h : PtrHeap) :
  0 < chunk_size → 0 ≤ pool_size → pool_size + chunk_size < 2 ^ 32 → 0 ≤ start → start + pool_size < 2 ^ 64 → 0 ≤ limit →
  new_SharedObjectPool pool_size chunk_size start = Ok h →
  ptr_inv (list_to_set (seqZ start pool_size)) vars limit (h, []).
Proof.
  intros Hc Hp Hb H0 H64 Hlim. rw /new_SharedObjectPool (_ : (chunk_size >? 0) = true); [rw Z.gtb_ltb; apply Z.ltb_lt; lia|].
  rw create_loop_spec; [lia..|]. rw /mbind /result_bind /= app_nil_r Z.sub_0_r Z.max_r; [lia|]. intros [= <-].
  split; [|set_solver|done]. split; cbn.
  - intros o'. rw /count_of /holders /= lookup_empty map_filter_empty dom_empty_L size_empty. done.
  - intros o'. rw elem_of_reverse elem_of_list_to_set. naive_solver.
  - rw reverse_Permutation. apply NoDup_seqZ.
  - intros x o' Hx. by rw lookup_empty in Hx.
Qed.

(** C25: A program that never assigns a pointer to itself keeps the counts exact, the
    references taken past the pointers included: an object can be popped again iff
    no pointer holds it any more and every reference taken by [_UnsafeRetain] was
    given back. *)
Theorem refs_are_exact (pool_size chunk_size start limit : Z) (vars : gset Z) (t : Z) (h h' : PtrHeap) (pins : list Z) :
  0 < chunk_size → 0 ≤ pool_size → pool_size + chunk_size < 2 ^ 32 → 0 ≤ start → start + pool_size < 2 ^ 64 →
  t ∉ vars → 0 ≤ limit → Z.of_nat (size vars) + limit < 2 ^ 31 - 1 →
  new_SharedObjectPool pool_size chunk_size start = Ok h → rtc (ptr_step vars t limit) (h, []) (h', pins) →
  ∀ o, count_of h' o = Z.of_nat (size (holders h' o)) + pinned pins o ∧
    (o ∈ ph_pool h' ↔ start ≤ o < start + pool_size ∧ holders h' o = ∅ ∧ o ∉ pins).
Proof.
  intros Hc Hp Hb H0 H64 Ht Hlim Hsz Hnew Hrun o.
  assert (Hinv : ptr_inv (list_to_set (seqZ start pool_size)) vars limit (h', pins)).
  { refine (rtc_ind_r (ptr_inv _ vars limit) (h, []) _ _ _ Hrun); [by apply (new_SharedObjectPool_inv _ chunk_size)|].
    intros s s' _ Hstep Hs. by apply (ptr_step_inv _ _ t _ s). }
  destruct Hinv as [[Hcount Hpool _ _] _ _]. cbn in *. split; [done|].
  rw Hpool Hcount elem_of_list_to_set elem_of_seqZ. rw -leibniz_equiv_iff -size_empty_iff.
  rw -pinned_zero /pinned. lia.
Qed.

(** Assigning a pointer to itself loses the object: the pointer becomes null,
    the count stays, and the object never returns to the pool. *)
Theorem self_assignment_leaks (x o : Z) (h : PtrHeap) :
  ph_slots h !! x = Some o → 0 < count_of h o < 2 ^ 31 - 1 →
  ph_slots (ptr_copy x x h) !! x = None ∧ count_of (ptr_copy x x h) o = count_of h o ∧
  ph_pool (ptr_copy x x h) = ph_pool h.
Proof.
  intros Hx Hc. rw /ptr_copy Hx /ptr_Release. change (ph_slots (Retain o h)) with (ph_slots h). rw Hx.
  cbn [Release]. rw /Retain !count_of_set. rw decide_True; [done|].
  rw (to_i32_small (count_of h o + 1)); [lia|]. rw Z.add_simpl_r (to_i32_small (count_of h o)); [lia|].
  rw (proj2 (Z.eqb_neq _ _)); [lia|]. split_and!; [| |done].
  - cbn. by rw !lookup_partial_alter_eq.
  - change (count_of (set_count o (count_of h o) (set_count o (count_of h o + 1) h)) o = count_of h o).
    rw count_of_set. rw decide_True; [done|]. by rw to_i32_small; [lia|].
Qed.

(** ** SequentialBuffer *)

(** [malloc]ed cells are [None] until written; the sizes in bytes are assumed
    to fit [malloc]'s argument. *)
Record SequentialBuffer (T : Type) : Type := mkSequentialBuffer {
  sb_rewinding_size : Z;
  sb_starting_index : Z;
  sb_buffer : list (option T);
  sb_capacity : Z;
  sb_count : Z;
}.
Arguments mkSequentialBuffer {T} _ _ _ _ _.
Arguments sb_rewinding_size {T} _.
Arguments sb_starting_index {T} _.
Arguments sb_buffer {T} _.
Arguments sb_capacity {T} _.
Arguments sb_count {T} _.

Section sequential_buffer.
Context {T : Type}.
Implicit Types b : SequentialBuffer T.

Definition new_SequentialBuffer (capacity : Z) : SequentialBuffer T :=
mkSequentialBuffer (capacity / 2) 0 (replicate (Z.to_nat capacity) None) capacity 0.

(** The reallocation at the head of [PushBack]. *)
Definition grow b : SequentialBuffer T :=
if sb_capacity b =? u32 (sb_starting_index b + sb_count b) then
  let new_capacity := u32 (sb_capacity b * 2) in
  let data := take (Z.to_nat (sb_count b)) (drop (Z.to_nat (sb_starting_index b)) (sb_buffer b)) in
  mkSequentialBuffer (new_capacity / 2) 0
    (data ++ replicate (Z.to_nat new_capacity - length data) None) new_capacity (sb_count b)
else b.

Definition write_cell (i : Z) (x : T) (cells : list (option T)) : result (list (option T)) :=
if (0 <=? i) && (i <? Z.of_nat (length cells)) then Ok (<[Z.to_nat i := Some x]> cells)
else Err (UndefinedBehaviour "write past the buffer").

Definition PushBack (data : T) b : result (SequentialBuffer T) :=
let b := grow b in
cells ← write_cell (u32 (sb_starting_index b + sb_count b)) data (sb_buffer b);
mret (mkSequentialBuffer (sb_rewinding_size b) (sb_starting_index b) cells (sb_capacity b) (u32 (sb_count b + 1))).

(** [memcpy] of the cells from [start] to the front; overlapping areas are
  undefined behaviour. *)
Definition rewind (start : Z) (cells : list (option T)) : result (list (option T)) :=
let n := Z.of_nat (length cells) - start in
if start <? n then Err (UndefinedBehaviour "memcpy: overlapping areas")
else Ok (drop (Z.to_nat start) cells ++ drop (Z.to_nat n) cells).

Definition EraseFront (count : Z) b : result (SequentialBuffer T) :=
if sb_count b >=? count then
  let new_count := sb_count b - count in
  let start := u32 (sb_starting_index b + count) in
  '(cells, start) ← (if start >=? sb_rewinding_size b
                     then (cells ← rewind start (sb_buffer b); mret (cells, 0))
                     else mret (sb_buffer b, start));
  mret (mkSequentialBuffer (sb_rewinding_size b) (if new_count =? 0 then 0 else start) cells (sb_capacity b) new_count)
else Err (AssertionFailed "_count >= count").

(** [operator []]: the assertion compares with the end of the data, not with
  the number of elements. *)
Definition at_index (index : Z) b : result (option T) :=
if index <? u32 (sb_starting_index b + sb_count b)
then from_option_ub "read past the buffer" (arr_get (sb_buffer b) (u32 (sb_starting_index b + index)))
else Err (AssertionFailed "index < _starting_index + _count").

(** The elements between [Begin] and [End]. *)
Definition contents b : list (option T) :=
take (Z.to_nat (sb_count b)) (drop (Z.to_nat (sb_starting_index b)) (sb_buffer b)).

Record sequential_wf b : Prop := {
sq_capacity : 0 < sb_capacity b < 2 ^ 31;
sq_even : sb_capacity b = 2 * sb_rewinding_size b;
sq_cells : Z.of_nat (length (sb_buffer b)) = sb_capacity b;
sq_start : 0 ≤ sb_starting_index b;
sq_count : 0 ≤ sb_count b;
sq_fits : sb_starting_index b + sb_count b ≤ sb_capacity b;
}.

Lemma new_SequentialBuffer_wf half :
0 < half < 2 ^ 30 → sequential_wf (new_SequentialBuffer (2 * half)).
Proof.
intros. split; cbn [new_SequentialBuffer sb_capacity sb_rewinding_size sb_buffer sb_starting_index sb_count]; try lia.
- rw Z.mul_comm Z.div_mul; lia.
- rw length_replicate. lia.
Qed.

Lemma length_contents b : sequential_wf b → Z.of_nat (length (contents b)) = sb_count b.
Proof. intros []. rw /contents length_take length_drop. lia. Qed.

Lemma grow_spec b :
sequential_wf b → sb_capacity b < 2 ^ 30 →
sequential_wf (grow b) ∧ contents (grow b) = contents b ∧
sb_count (grow b) = sb_count b ∧ sb_starting_index (grow b) + sb_count (grow b) < sb_capacity (grow b).
Proof.
intros Hwf Hc. pose proof (length_contents b Hwf) as Hlen. destruct (Hwf). rw /grow.
rw (u32_small (sb_starting_index b + _)); [lia|]. case: Z.eqb_spec => Hfull; [|split_and!; try done; lia].
change (take _ (drop _ (sb_buffer b))) with (contents b).
rw u32_small; [lia|]. rw Z.div_mul; [lia|]. split_and!; [split| | |]; cbn; try lia.
- rw length_app length_replicate. lia.
- rw {1}/contents /= take_app_le; [lia|]. rw take_ge; [lia|done].
Qed.

(** [PushBack] appends and [EraseFront] drops from the front, for every buffer
  created with an even capacity; in particular [EraseFront] never copies
  overlapping areas. *)
Theorem SequentialBuffer_fifo (x : T) (n : Z) b :
sequential_wf b → sb_capacity b < 2 ^ 30 → 0 ≤ n ≤ sb_count b →
(∃ b', PushBack x b = Ok b' ∧ sequential_wf b' ∧ contents b' = contents b ++ [Some x]) ∧
(∃ b', EraseFront n b = Ok b' ∧ sequential_wf b' ∧ contents b' = drop (Z.to_nat n) (contents b)).
Proof.
intros Hwf Hc Hn. split.
- destruct (grow_spec b Hwf Hc) as (Hg&Hcon&Hcnt&Hroom). rw /PushBack. destruct (Hg).
  rw (u32_small (sb_starting_index _ + _)); [lia|]. rw /write_cell (proj2 (Z.leb_le _ _)); [lia|].
  rw (proj2 (Z.ltb_lt _ _)); [lia|]. cbn [andb]. rw /mbind /result_bind. eexists. split_and!; [done| |].
  + rw u32_small; [lia|]. split; cbn; try lia. rw length_insert. lia.
  + rw u32_small; [lia|]. rw -Hcon /contents. cbn [sb_count sb_starting_index sb_buffer].
    set (l := sb_buffer (grow b)) in *. set (s := Z.to_nat (sb_starting_index (grow b))).
    set (c := Z.to_nat (sb_count (grow b))).
    rw (_ : Z.to_nat (sb_count (grow b) + 1) = S c); [lia|].
    rw (_ : Z.to_nat (sb_starting_index (grow b) + sb_count (grow b)) = s + c)%nat; [lia|].
    rw (take_S_r _ _ (Some x)).
    * rw lookup_drop. rw list_lookup_insert_eq; [lia|done].
    * f_equal. rw drop_insert_ge; [lia|]. rw take_insert_ge; [lia|done].
- destruct (Hwf). rw /EraseFront (_ : (sb_count b >=? n) = true); [rw Z.geb_leb; apply Z.leb_le; lia|].
  rw u32_small; [lia|]. rw Z.geb_leb. case: Z.leb_spec => Hrew.
  + rw /rewind (proj2 (Z.ltb_ge _ _)); [lia|]. rw /mbind /result_bind. eexists. split_and!; [done| |].
    * split; cbn; try lia; [|case_match; lia..]. rw length_app !length_drop. lia.
    * rw /contents. cbn [sb_count sb_starting_index sb_buffer]. rw (_ : (if _ =? 0 then 0 else 0) = 0); [by case_match|].
      rw drop_0 take_app_le; [rw length_drop; lia|].
      rw skipn_firstn_comm drop_drop. f_equal; [lia|]. f_equal. lia.
  + rw /mbind /result_bind /=. eexists. split_and!; [done| |].
    * split; cbn; try lia; case_match; lia.
    * rw /contents. cbn [sb_count sb_starting_index sb_buffer]. rw skipn_firstn_comm drop_drop.
      case: Z.eqb_spec => Hz.
      -- rw Hz (_ : (Z.to_nat (sb_count b) - Z.to_nat n = 0)%nat); [lia|done].
      -- f_equal; [lia|]. f_equal. lia.
Qed.
End sequential_buffer.
