(* ===== verification/MultiDimensionMap.v ===== *)
(** * Maps with keys of several elements

    [common/utility/MultiDimensionMap.h]: a tree of hash maps, one level for each
    element of a key. *)

From S2P Require Import Prelude.

Section multi_dimension_map.
Context {KeyElement Val : Type} `{Countable KeyElement}.
(** [Val value = {}]. *)
Variable value_init : Val.

Inductive Node : Type := mkNode {
  node_value : Val;
  node_value_enabled : bool;
  node_next_node_map : gmap KeyElement Node;
}.

Definition new_Node : Node := mkNode value_init false ∅.

(** [next_node_map[key]] creates the node when there is none. *)
Fixpoint InsertNode (key_vector : list KeyElement) (value : Val) (n : Node) : Node :=
match key_vector with
| [] => mkNode value true (node_next_node_map n)
| k :: key_vector =>
    let next := default new_Node (node_next_node_map n !! k) in
    mkNode (node_value n) (node_value_enabled n) (<[k := InsertNode key_vector value next]> (node_next_node_map n))
end.

(** The value, when the function returns true. *)
Fixpoint FindValue (key_vector : list KeyElement) (n : Node) : option Val :=
match key_vector with
| [] => if node_value_enabled n then Some (node_value n) else None
| k :: key_vector =>
    match node_next_node_map n !! k with
    | None => None
    | Some next => FindValue key_vector next
    end
end.

(** The public overloads: a vector, one element, a list of arguments. *)
Definition mdm_Insert (key_vector : list KeyElement) (value : Val) (root : Node) : Node := InsertNode key_vector value root.
Definition mdm_Insert_one (key : KeyElement) (value : Val) (root : Node) : Node := mdm_Insert [key] value root.
Definition InsertWithVariadicKey (value : Val) (key_args : list KeyElement) (root : Node) : Node :=
mdm_Insert key_args value root.
Definition mdm_TryGet (key_vector : list KeyElement) (root : Node) : option Val := FindValue key_vector root.
Definition mdm_TryGet_one (key : KeyElement) (root : Node) : option Val := mdm_TryGet [key] root.
Definition TryGetWithVariadicKey (key_args : list KeyElement) (root : Node) : option Val := mdm_TryGet key_args root.

Lemma FindValue_new key : FindValue key new_Node = None.
Proof. destruct key as [|k key]; [done|]. cbn. by rw lookup_empty. Qed.

Lemma FindValue_default key n k :
FindValue key (default new_Node (node_next_node_map n !! k)) = FindValue (k :: key) n.
Proof. cbn. destruct (node_next_node_map n !! k) as [next|]; [done|apply FindValue_new]. Qed.

(** A value is found under the key it was inserted with, and what is found under
  every other key, shorter, longer or different, stays the same. *)
Theorem InsertNode_FindValue (key key' : list KeyElement) (value : Val) (n : Node) :
FindValue key' (InsertNode key value n) = if decide (key' = key) then Some value else FindValue key' n.
Proof.
  revert key' n. induction key as [|k key IH]; intros key' n.
  - destruct key' as [|k' key']; by case_decide.
  - destruct key' as [|k' key']; [by case_decide|]. cbn [InsertNode FindValue node_next_node_map].
    destruct (decide (k' = k)) as [->|Hne].
    + rw lookup_insert_eq IH FindValue_default. cbn [FindValue]. repeat case_decide; congruence.
    + rw lookup_insert_ne; [congruence|]. case_decide; congruence.
Qed.
End multi_dimension_map.
