(* ===== verification/Logger.v ===== *)
(** * Logger

    [common/utility/Logger.h]: threads format their messages into log objects of
    a pool and queue them; one thread prints what is queued and gives the
    objects back.  A pool and a queue belong to every residue of the hash of the
    thread's id. *)

From stdpp Require Import pretty.
From S2P Require Import Prelude Calendar Memory.

Open Scope Z_scope.

Inductive LogLevel : Type := LogLevel_Info | LogLevel_Warn | LogLevel_Error | LogLevel_Fatal | LogLevel_Max.

Record Log : Type := mkLog {
  log_time : Z;
  log_file_name : string;
  log_line : Z;
  log_message : string;
  log_thread_id : Z;
  log_level : LogLevel;
}.

(** [lg_hands] are the objects that threads have between [Pop] and [push]. *)
Record Logger : Type := mkLogger {
  lg_buffer_pool : gmap Z ObjectPool;
  lg_log_queue : gmap Z (list Z);
  lg_logs : gmap (Z * Z) Log;
  lg_hands : gmap Z Z;
  lg_max_log_size : Z;
  lg_parallelism : Z;
}.

Definition lg_set_pool (q : Z) (p : ObjectPool) (g : Logger) : Logger :=
  mkLogger (<[q := p]> (lg_buffer_pool g)) (lg_log_queue g) (lg_logs g) (lg_hands g) (lg_max_log_size g) (lg_parallelism g).
Definition lg_set_queue (q : Z) (l : list Z) (g : Logger) : Logger :=
  mkLogger (lg_buffer_pool g) (<[q := l]> (lg_log_queue g)) (lg_logs g) (lg_hands g) (lg_max_log_size g) (lg_parallelism g).
Definition lg_set_log (k : Z * Z) (x : Log) (g : Logger) : Logger :=
  mkLogger (lg_buffer_pool g) (lg_log_queue g) (<[k := x]> (lg_logs g)) (lg_hands g) (lg_max_log_size g) (lg_parallelism g).
Definition lg_set_hands (x : gmap Z Z) (g : Logger) : Logger :=
  mkLogger (lg_buffer_pool g) (lg_log_queue g) (lg_logs g) x (lg_max_log_size g) (lg_parallelism g).

(** [InitializeLogger]: [LogBufferPool(1024, 8, max_log_size, 1)] and a queue
    for every index. *)
Fixpoint initialize_pools (indices : list Z) (pools : gmap Z ObjectPool) : result (gmap Z ObjectPool) :=
  match indices with
  | [] => Ok pools
  | i :: indices => p ← new_ObjectPool 1024 8 1; initialize_pools indices (<[i := p]> pools)
  end.

Definition InitializeLogger (max_log_size parallelism : Z) : result Logger :=
  pools ← initialize_pools (seqZ 0 parallelism) ∅;
  Ok (mkLogger pools (list_to_map ((λ i, (i, [])) <$> seqZ 0 parallelism)) ∅ ∅ max_log_size parallelism).

Section logger.
Context `{Timezone}.
(** [std::hash<std::thread::id>]. *)
Variable hash : Z → Z.

Abbreviation M := (Act Logger string).

Definition queue_of (thread_id : Z) (g : Logger) : Z := hash thread_id mod lg_parallelism g.

(** [PushLog] up to the formatted message: [sprintf_s] calls the invalid
    parameter handler when the message and its terminator do not fit. *)
Definition PushLog_fill (level : LogLevel) (file_name : string) (line time : Z) (thread_id : Z) (message : string) : M () :=
g ← get_state;
if lg_parallelism g =? 0 then fail (UndefinedBehaviour "division by zero")
else
  let q := queue_of thread_id g in
  p ← lift (from_option_ub "_buffer_pool" (lg_buffer_pool g !! q));
  let '(o, p) := Pop true p in
  o ← lift (from_option_ub "log" o);
  modify (lg_set_pool q p) ;;
  if Z.of_nat (String.length message) >=? lg_max_log_size g then throw "sprintf_s"
  else
    modify (lg_set_log (q, o) (mkLog time file_name line message thread_id level)) ;;
    modify (lg_set_hands (<[thread_id := o]> (lg_hands g))).

(** [push] onto the queue, in its rest. *)
Definition PushLog_queue (thread_id : Z) : M () :=
g ← get_state;
o ← lift (from_option_ub "log" (lg_hands g !! thread_id));
let q := queue_of thread_id g in
l ← lift (from_option_ub "_log_queue" (lg_log_queue g !! q));
modify (lg_set_queue q (l ++ [o])) ;;
modify (lg_set_hands (delete thread_id (lg_hands g))).

Definition PushLog (level : LogLevel) (file_name : string) (line time thread_id : Z) (message : string) : M () :=
PushLog_fill level file_name line time thread_id message ;;
PushLog_queue thread_id.

Definition level_str (level : LogLevel) : string :=
match level with
| LogLevel_Info => "Info" | LogLevel_Warn => "Warn" | LogLevel_Error => "Error" | LogLevel_Fatal => "Fatal"
| LogLevel_Max => "Max"
end.

Definition newline : string := String (Ascii.ascii_of_nat 10) "".

(** What [LoggerMain] writes for a log; [DateTime] takes the current zone. *)
Definition format_log (x : Log) : string :=
"[" +:+ level_str (log_level x) +:+ "][" +:+ ToLocalDateString (DateTime_epoch (log_time x * 1000000)) +:+ "][" +:+
log_file_name x +:+ " line:" +:+ pretty (log_line x) +:+ "][" +:+ pretty (log_thread_id x) +:+ "][ " +:+
log_message x +:+ " ]" +:+ newline.

(** One round of the inner loop of [LoggerMain]: whether the queue had a log. *)
Definition print_one (q : Z) : M bool :=
g ← get_state;
l ← lift (from_option_ub "_log_queue" (lg_log_queue g !! q));
match l with
| [] => mret false
| o :: l =>
    modify (lg_set_queue q l) ;;
    x ← lift (from_option_ub "log" (lg_logs g !! (q, o)));
    emit [format_log x] ;;
    p ← lift (from_option_ub "pool" (lg_buffer_pool g !! q));
    p ← lift (Push o p);
    modify (lg_set_pool q p) ;;
    mret true
end.

(** The inner loop, with nobody else running; the queue bounds its rounds. *)
Fixpoint drain (fuel : nat) (q : Z) : M () :=
match fuel with
| O => fail OutOfFuel
| S fuel =>
    more ← print_one q;
    if more : bool then drain fuel q else mret ()
end.

(** One round of the outer loop. *)
Definition LoggerMain_pass : M () :=
g ← get_state;
for_each (seqZ 0 (lg_parallelism g)) (λ q, drain (S (length (default [] (lg_log_queue g !! q)))) q).

(** ** Runs *)

(** Threads fill and queue, the logger's thread prints, in any order. *)
Inductive log_event : Type :=
| LogFill (level : LogLevel) (file_name : string) (line time thread_id : Z) (message : string)
| LogQueue (thread_id : Z)
| LogPrint (q : Z).

Definition run_log_event (ev : log_event) : M () :=
match ev with
| LogFill level file_name line time thread_id message => PushLog_fill level file_name line time thread_id message
| LogQueue thread_id => PushLog_queue thread_id
| LogPrint q => print_one q ;; mret ()
end.
End logger.

Section logger_runs.
Context `{Timezone}.
Variable hash : Z → Z.

(** The texts of one queue. *)
Definition texts (q : Z) (l : list (Z * string)) : list string := snd <$> filter (λ e, e.1 = q) l.

Lemma texts_snoc q l e : texts q (l ++ [e]) = texts q l ++ (if decide (e.1 = q) then [e.2] else []).
Proof. rw /texts filter_app fmap_app. f_equal. destruct e as [q' s]. cbn. by case_decide. Qed.

(** [pending] are the texts threads have formatted and not queued yet, [queued]
    and [printed] the texts with their queue, in order.  A thread is in one call
    of [PushLog] at a time. *)
Inductive log_run : Logger → gmap Z string → list (Z * string) → list (Z * string) → Prop :=
| log_start size parallelism g :
    0 < parallelism → InitializeLogger size parallelism = Ok g → log_run g ∅ [] []
| log_fill g pending queued printed level file_name line time thread_id message g' :
    log_run g pending queued printed → lg_hands g !! thread_id = None →
    (∀ p, lg_buffer_pool g !! queue_of hash thread_id g = Some p → op_object_sequence p < 2 ^ 64 - 1) →
    PushLog_fill hash level file_name line time thread_id message g = Ok ((), g', []) →
    log_run g' (<[thread_id := format_log (mkLog time file_name line message thread_id level)]> pending) queued printed
| log_queue g pending queued printed thread_id text g' :
    log_run g pending queued printed → pending !! thread_id = Some text →
    PushLog_queue hash thread_id g = Ok ((), g', []) →
    log_run g' (delete thread_id pending) (queued ++ [(queue_of hash thread_id g, text)]) printed
| log_print g pending queued printed q text g' :
    log_run g pending queued printed → print_one q g = Ok (true, g', [text]) →
    log_run g' pending queued (printed ++ [(q, text)]).

(** An object stands for a text. *)
Definition says (g : Logger) (q o : Z) (text : string) : Prop := ∃ x, lg_logs g !! (q, o) = Some x ∧ format_log x = text.

Record log_inv (g : Logger) (pending : gmap Z string) (waiting : Z → list string) : Prop := {
  li_parallelism : 0 < lg_parallelism g;
  li_pools : ∀ q, 0 ≤ q < lg_parallelism g → ∃ p, lg_buffer_pool g !! q = Some p ∧ pool_wf 1024 p;
  li_queues : ∀ q, is_Some (lg_log_queue g !! q) ↔ 0 ≤ q < lg_parallelism g;
  li_queued : ∀ q l p, lg_log_queue g !! q = Some l → lg_buffer_pool g !! q = Some p →
    NoDup l ∧ (∀ o, o ∈ l → o ∈ op_in_used p) ∧ Forall2 (says g q) l (waiting q);
  li_pending : dom (lg_hands g) = dom pending;
  li_hands : ∀ t o p, lg_hands g !! t = Some o → lg_buffer_pool g !! queue_of hash t g = Some p →
    o ∈ op_in_used p ∧ (∀ l, lg_log_queue g !! queue_of hash t g = Some l → o ∉ l) ∧
    ∀ text, pending !! t = Some text → says g (queue_of hash t g) o text;
  li_apart : ∀ t u o, lg_hands g !! t = Some o → lg_hands g !! u = Some o →
    queue_of hash t g = queue_of hash u g → t = u;
}.

Lemma queue_of_range t g : 0 < lg_parallelism g → 0 ≤ queue_of hash t g < lg_parallelism g.
Proof. intros Hp. by apply Z.mod_pos_bound. Qed.

Lemma initialize_pools_ok indices pools pools' :
  initialize_pools indices pools = Ok pools' →
  ∀ q, (q ∈ indices → ∃ p, pools' !! q = Some p ∧ pool_wf 1024 p) ∧ (q ∉ indices → pools' !! q = pools !! q).
Proof.
  revert pools. induction indices as [|i indices IH]; intros pools; cbn [initialize_pools].
  - intros [= <-] q. split; [by intros ?%elem_of_nil|done].
  - rw /mbind /result_bind. destruct (new_ObjectPool 1024 8 1) as [p|] eqn:Hp; [|done]. intros Hrun q.
    destruct (IH _ Hrun q) as [Ha Hb]. destruct (decide (q ∈ indices)) as [Hin|Hin].
    + split; [by intros _; apply Ha|]. intros Hn. destruct Hn. by right.
    + rw (Hb Hin). split.
      * intros [->|?]%elem_of_cons; [|done]. exists p. split; [by rw lookup_insert_eq|].
        apply (new_ObjectPool_wf 1024 8 1); try done; lia.
      * intros Hn. rw lookup_insert_ne; [|done]. intros ->. apply Hn. by left.
Qed.

Lemma start_inv size parallelism g : 0 < parallelism → InitializeLogger size parallelism = Ok g → log_inv g ∅ (λ _, []).
Proof.
  intros Hp. rw /InitializeLogger /mbind /result_bind. destruct (initialize_pools _ _) as [pools|] eqn:Hpools; [|done].
  intros [= <-]. pose proof (initialize_pools_ok _ _ _ Hpools) as Hok.
  assert (Hq : ∀ q l, (list_to_map ((λ i, (i, [])) <$> seqZ 0 parallelism) : gmap Z (list Z)) !! q = Some l → l = [] ∧ q ∈ seqZ 0 parallelism).
  { intros q l Hl. apply elem_of_list_to_map_2 in Hl. apply list_elem_of_fmap in Hl as (i&[= -> ->]&Hi). done. }
  split; cbn [lg_parallelism lg_buffer_pool lg_log_queue lg_hands]; try done.
  - intros q Hr. destruct (Hok q) as [Ha _]. apply Ha, elem_of_seqZ. lia.
  - intros q. split; [intros [l (_&Hin)%Hq]; apply elem_of_seqZ in Hin; lia|]. intros Hr. exists []. apply elem_of_list_to_map_1.
    + generalize (NoDup_seqZ 0 parallelism). generalize (seqZ 0 parallelism). intros ixs His.
      assert (Hfst : ((λ i, (i, [] : list Z)) <$> ixs).*1 = ixs) by (clear; induction ixs; cbn; congruence). by rw Hfst.
    + apply list_elem_of_fmap. exists q. split; [done|]. apply elem_of_seqZ. lia.
  - intros q l p (->&_)%Hq _. split_and!; [apply NoDup_nil_2|by intros o ?%elem_of_nil|by apply Forall2_nil].
Qed.

(** What a successful [PushLog_fill] did. *)
Lemma PushLog_fill_inv level file_name line time t message g g' :
  0 < lg_parallelism g → PushLog_fill hash level file_name line time t message g = Ok ((), g', []) →
  let q := queue_of hash t g in ∃ p o p', lg_buffer_pool g !! q = Some p ∧ Pop true p = (Some o, p') ∧
    g' = lg_set_hands (<[t := o]> (lg_hands g))
           (lg_set_log (q, o) (mkLog time file_name line message t level) (lg_set_pool q p' g)).
Proof.
  intros Hpar. cbv zeta. rw /PushLog_fill /get_state /modify /lift /mbind /act_mbind /act_bind.
  rw (proj2 (Z.eqb_neq _ _)); [lia|]. set (q := queue_of hash t g).
  destruct (lg_buffer_pool g !! q) as [p|]; [|done]. cbn. destruct (Pop true p) as [[o|] p'] eqn:Hpop; [|done].
  cbn [from_option_ub]. destruct (_ >=? _); [done|]. intros [= <-]. by exists p, o, p'.
Qed.

Lemma fill_inv g pending waiting level file_name line time t message g' :
  log_inv g pending waiting → lg_hands g !! t = None →
  (∀ p, lg_buffer_pool g !! queue_of hash t g = Some p → op_object_sequence p < 2 ^ 64 - 1) →
  PushLog_fill hash level file_name line time t message g = Ok ((), g', []) →
  log_inv g' (<[t := format_log (mkLog time file_name line message t level)]> pending) waiting.
Proof.
  intros [P1 P2 P3 P4 P5 P6 P7] Hnone Hseq Hrun. destruct (PushLog_fill_inv _ _ _ _ _ _ _ _ P1 Hrun) as (p&o&p'&Hp&Hpop&->).
  set (q := queue_of hash t g) in *. pose proof (queue_of_range t g P1) as Hq. fold q in Hq.
  destruct (P2 q Hq) as (p0&Hp0&Hwf). rw Hp in Hp0. injection Hp0 as <-.
  pose proof (Pop_spec 1024 true p Hwf (Hseq p Hp)) as Hspec. rw Hpop in Hspec. destruct Hspec as (Hwf'&Hfresh&Hused).
  set (x := mkLog time file_name line message t level).
  set (g' := lg_set_hands _ _).
  assert (Hqo : ∀ u, queue_of hash u g' = queue_of hash u g) by done.
  assert (Hsays : ∀ q1 o1 s1, (q1, o1) ≠ (q, o) → says g q1 o1 s1 → says g' q1 o1 s1).
  { intros q1 o1 s1 Hne (y&Hy&Hf). exists y. split; [|done]. rw /g' /=. by rw lookup_insert_ne; [congruence|]. }
  assert (Hpool : ∀ q1 p1, lg_buffer_pool g' !! q1 = Some p1 →
    ∃ p2, lg_buffer_pool g !! q1 = Some p2 ∧ (q1 = q → p2 = p ∧ p1 = p') ∧ op_in_used p2 ⊆ op_in_used p1).
  { intros q1 p1. rw /g' /=. intros [[<- <-]|[Hne Hp1]]%lookup_insert_Some; [exists p|exists p1]; split_and!; try done.
    - rw Hused. set_solver.
    - congruence. }
  split; try done.
  - intros q1 Hq1. rw /g' /=. destruct (decide (q1 = q)) as [->|Hne]; [exists p'; by rw lookup_insert_eq|].
    rw lookup_insert_ne; [congruence|]. by apply P2.
  - intros q1 l p1 Hl (p2&Hp2&Hsame&Hsub)%Hpool. destruct (P4 q1 l p2 Hl Hp2) as (Hnd&Hin&Hf).
    split_and!; [done|intros o1 Ho1; by apply Hsub, Hin|]. apply (Forall2_weaken _ _ _ _ Hf). intros o1 s1 Ho1.
    apply Hsays. intros [= -> ->]. destruct (Hsame eq_refl) as [-> ->]. by apply Hfresh, Hin.
  - rw /g' /= !dom_insert_L. by rw P5.
  - intros u o1 p1 Hu (p2&Hp2&Hsame&Hsub)%Hpool. rw Hqo in Hp2 Hsame |- *. rw /g' /= in Hu.
    apply lookup_insert_Some in Hu as [[<- <-]|[Hne Hu]].
    + destruct (Hsame eq_refl) as [-> ->]. split_and!; [rw Hused; set_solver| |].
      * intros l Hl Ho. destruct (P4 q l p Hl Hp) as (_&Hin&_). by apply Hfresh, Hin.
      * intros text. rw lookup_insert_eq. intros [= <-]. exists x. split; [rw /g' /=; by rw lookup_insert_eq|done].
    + destruct (P6 u o1 p2 Hu Hp2) as (Hin&Hnl&Hsay). split_and!; [by apply Hsub|done|].
      intros text. rw lookup_insert_ne; [done|]. intros Ht. apply Hsays; [|by apply Hsay].
      intros [= Hq1 ->]. destruct (Hsame Hq1) as [-> _]. done.
  - intros u w o1. rw !Hqo. rw /g' /=. intros [[<- <-]|[Hu Hu']]%lookup_insert_Some [[<- ?]|[Hw Hw']]%lookup_insert_Some Heq; try done.
    + exfalso. destruct (P6 w o p Hw') as (Hin&_); [rw -Heq; done|done].
    + exfalso. subst o1. destruct (P6 u o p Hu') as (Hin&_); [rw Heq; done|done].
    + by apply (P7 u w o1).
Qed.

Lemma queue_inv g pending waiting t text g' :
  log_inv g pending waiting → pending !! t = Some text → PushLog_queue hash t g = Ok ((), g', []) →
  let q := queue_of hash t g in
  log_inv g' (delete t pending) (λ q', if decide (q' = q) then waiting q' ++ [text] else waiting q').
Proof.
  intros [P1 P2 P3 P4 P5 P6 P7] Ht Hrun. cbv zeta. set (q := queue_of hash t g).
  rw /PushLog_queue /get_state /modify /lift /mbind /act_mbind /act_bind in Hrun. fold q in Hrun.
  destruct (lg_hands g !! t) as [o|] eqn:Ho; [|done]. cbn in Hrun.
  destruct (lg_log_queue g !! q) as [l|] eqn:Hl; [|done]. injection Hrun as <-. set (g' := lg_set_hands _ _).
  destruct (P2 q (queue_of_range t g P1)) as (p&Hp&Hwf). destruct (P6 t o p Ho Hp) as (Hin&Hnl&Hsay).
  assert (Hqo : ∀ u, queue_of hash u g' = queue_of hash u g) by done. split; try done.
  - intros q1. rw -P3 /g' /=. destruct (decide (q1 = q)) as [->|Hne]; [rw lookup_insert_eq Hl; by split; eexists|].
    by rw lookup_insert_ne; [congruence|].
  - intros q1 l1 p1. rw /g' /=. intros [[<- <-]|[Hne Hl1]]%lookup_insert_Some Hp1.
    + rw decide_True; [done|]. rw Hp in Hp1. injection Hp1 as <-. destruct (P4 q l p Hl Hp) as (Hnd&Hu&Hf).
      split_and!.
      * apply NoDup_app. split_and!; [done| |apply NoDup_singleton]. intros o1 Ho1 ->%list_elem_of_singleton. by apply (Hnl l Hl).
      * intros o1 [Ho1| ->%list_elem_of_singleton]%elem_of_app; [by apply Hu|done].
      * apply Forall2_app; [done|]. apply Forall2_cons. split; [by apply Hsay|by apply Forall2_nil].
    + rw decide_False; [congruence|]. by apply P4.
  - rw /g' /= !dom_delete_L. by rw P5.
  - intros u o1 p1. rw !Hqo. rw /g' /=. intros [Hne Hu]%lookup_delete_Some Hp1. destruct (P6 u o1 p1 Hu Hp1) as (Hin1&Hnl1&Hsay1).
    split_and!; [done| |].
    + intros l1 [[Hq <-]|[_ Hl1]]%lookup_insert_Some; [|by apply Hnl1].
      intros [Ho1| ->%list_elem_of_singleton]%elem_of_app; [rw -Hq in Hnl1; by apply (Hnl1 l)|].
      apply Hne. by apply (P7 t u o).
    + intros text1. rw lookup_delete_ne; [done|]. apply Hsay1.
  - intros u w o1. rw !Hqo. rw /g' /=. intros [_ Hu]%lookup_delete_Some [_ Hw]%lookup_delete_Some. exact (P7 u w o1 Hu Hw).
Qed.

(** Printing gives the first text that waits, and the object back to its pool. *)
Lemma print_inv g pending waiting q l :
  log_inv g pending waiting → lg_log_queue g !! q = Some l →
  match l, waiting q with
  | [], [] => print_one q g = Ok (false, g, [])
  | _ :: _, text :: rest => ∃ g', print_one q g = Ok (true, g', [text]) ∧
      lg_log_queue g' = <[q := tail l]> (lg_log_queue g) ∧ lg_parallelism g' = lg_parallelism g ∧
      log_inv g' pending (λ q', if decide (q' = q) then rest else waiting q')
  | _, _ => False
  end.
Proof.
  intros [P1 P2 P3 P4 P5 P6 P7] Hl. assert (Hq : 0 ≤ q < lg_parallelism g) by (apply P3; by exists l).
  destruct (P2 q Hq) as (p&Hp&Hwf). destruct (P4 q l p Hl Hp) as (Hnd&Hu&Hf).
  destruct l as [|o l]; [apply Forall2_nil_inv_l in Hf; rw Hf|apply Forall2_cons_inv_l in Hf as (text&rest&Ho&Hf&->)].
  - rw /print_one (bind_ok get_state _ g g g); [done|]. by rw Hl.
  - apply NoDup_cons in Hnd as [Hno Hnd]. destruct Ho as (x&Hx&<-). pose proof (Push_spec 1024 o p Hwf) as Hpush.
    assert (Hin : o ∈ op_in_used p) by (apply Hu; by left).
    destruct (Push o p) as [p'|] eqn:Hp'; [|done]. destruct Hpush as (Hwf'&_&Hused&_).
    set (g1 := lg_set_queue q l g). set (g' := lg_set_pool q p' g1). exists g'. split_and!; [|done..|].
    + rw /print_one (bind_ok get_state _ g g g); [done|]. rw Hl (bind_ok _ _ g (o :: l) g); [done|].
      rw (bind_ok _ _ g () g1); [done|]. rw Hx (bind_ok _ _ g1 x g1); [done|].
      apply (bind_out _ _ g1 () g1 [format_log x] true g' []); [done|]. rw Hp (bind_ok _ _ g1 p g1); [done|].
      rw (bind_ok _ _ g1 p' g1); [by rw /lift Hp'|]. by rw (bind_ok _ _ g1 () g').
    + assert (Hqo : ∀ u, queue_of hash u g' = queue_of hash u g) by done. split; try done.
      * intros q1 Hq1. rw /g' /=. destruct (decide (q1 = q)) as [->|Hne]; [exists p'; by rw lookup_insert_eq|].
        rw lookup_insert_ne; [congruence|]. by apply P2.
      * intros q1. rw -P3 /g' /=. destruct (decide (q1 = q)) as [->|Hne]; [rw lookup_insert_eq Hl; by split; eexists|].
        by rw lookup_insert_ne; [congruence|].
      * intros q1 l1 p1. rw /g' /=. intros [[<- <-]|[Hne Hl1]]%lookup_insert_Some [[? <-]|[Hne' Hp1]]%lookup_insert_Some; try done.
        -- rw decide_True; [done|]. split_and!; [done| |done]. intros o1 Ho1. rw Hused. apply elem_of_difference.
           split; [apply Hu; by right|]. intros ->%elem_of_singleton. done.
        -- rw decide_False; [congruence|]. by apply P4.
      * intros u o1 p1. rw !Hqo. rw /g' /=. intros Hh Hp1.
        assert (Hp2 : ∃ p2, lg_buffer_pool g !! queue_of hash u g = Some p2 ∧ (queue_of hash u g = q → p2 = p ∧ p1 = p') ∧
          (queue_of hash u g ≠ q → p1 = p2)).
        { apply lookup_insert_Some in Hp1 as [[<- <-]|[Hne Hp1]]; [by exists p|]. exists p1. split_and!; [done|congruence|done]. }
        destruct Hp2 as (p2&Hp2&Heq&Hneq). destruct (P6 u o1 p2 Hh Hp2) as (Hin1&Hnl1&Hsay1). split_and!; [| |done].
        -- destruct (decide (queue_of hash u g = q)) as [Hq1|Hq1]; [|by rw (Hneq Hq1)]. destruct (Heq Hq1) as [-> ->].
           rw Hused. apply elem_of_difference. split; [done|]. intros ->%elem_of_singleton.
           apply (Hnl1 (o :: l)); [by rw Hq1|by left].
        -- intros l1 [[Hq1 <-]|[_ Hl1]]%lookup_insert_Some; [|by apply Hnl1]. intros Ho1. apply (Hnl1 (o :: l)); [by rw -Hq1|by right].
Qed.

Lemma run_log_inv g pending queued printed :
  log_run g pending queued printed →
  ∃ waiting, log_inv g pending waiting ∧ ∀ q, texts q queued = texts q printed ++ waiting q.
Proof.
  induction 1 as [size k g Hk Hg|g pe qu pr level fn line time t message g' _ (W&Hi&Hw) Hn Hs Hrun
    |g pe qu pr t text g' _ (W&Hi&Hw) Ht Hrun|g pe qu pr q text g' _ (W&Hi&Hw) Hrun].
  - exists (λ _, []). split; [by apply (start_inv size k)|done].
  - exists W. split; [by apply (fill_inv g pe W)|done].
  - eexists. split; [by apply (queue_inv g pe W t text g')|]. intros q. rw texts_snoc Hw. cbn [fst snd].
    case_decide as H1; case_decide as H2; subst; try done; [by rw app_assoc|by rw app_nil_r].
  - assert (Hl : ∃ l, lg_log_queue g !! q = Some l).
    { rw /print_one /get_state /lift /mbind /act_mbind /act_bind in Hrun. destruct (lg_log_queue g !! q) as [l|]; [by exists l|done]. }
    destruct Hl as [l Hl]. pose proof (print_inv g pe W q l Hi Hl) as Hp. destruct l as [|o l], (W q) as [|s rest] eqn:HW; try done.
    + rw Hp in Hrun. done.
    + destruct Hp as (g2&Hp&_&_&Hi2). rw Hp in Hrun. injection Hrun as <- <-. eexists. split; [exact Hi2|].
      intros q1. rw texts_snoc Hw. cbn [fst snd]. case_decide as H1; case_decide as H2; subst; try done;
        [by rw HW -app_assoc|by rw app_nil_r].
Qed.

(** Emptying a queue. *)
Lemma drain_run fuel g pending waiting q l :
  log_inv g pending waiting → lg_log_queue g !! q = Some l → (length l < fuel)%nat →
  ∃ g', drain fuel q g = Ok ((), g', waiting q) ∧ lg_log_queue g' = <[q := []]> (lg_log_queue g) ∧
    lg_parallelism g' = lg_parallelism g ∧ log_inv g' pending (λ q', if decide (q' = q) then [] else waiting q').
Proof.
  revert g waiting l. induction fuel as [|fuel IH]; intros g W l Hi Hl Hfuel; [lia|]. cbn [drain].
  pose proof (print_inv g pending W q l Hi Hl) as Hp. destruct l as [|o l], (W q) as [|text rest] eqn:HW; try done.
  - exists g. split_and!; [by rw (bind_ok _ _ g false g)|by rw insert_id|done|].
    destruct Hi as [P1 P2 P3 P4 P5 P6 P7]. split; try done. intros q1 l1 p1 Hl1 Hp1.
    destruct (P4 q1 l1 p1 Hl1 Hp1) as (?&?&Hf). split_and!; [done..|]. case_decide as Hq; [subst; by rw HW in Hf|done].
  - destruct Hp as (g1&Hp&Hq1&Hpar1&Hi1). destruct (IH g1 _ l Hi1) as (g2&Hrun&Hq2&Hpar2&Hi2).
    { by rw Hq1 lookup_insert_eq. }
    { cbn in Hfuel. lia. }
    exists g2. split_and!; [|by rw Hq2 Hq1 insert_insert_eq|congruence|].
    + rw decide_True in Hrun; [done|]. by apply (bind_out _ _ g true g1 [text] () g2 rest).
    + destruct Hi2 as [P1 P2 P3 P4 P5 P6 P7]. split; try done. intros q1 l1 p1 Hl1 Hp1.
      destruct (P4 q1 l1 p1 Hl1 Hp1) as (?&?&Hf). split_and!; [done..|]. by case_decide.
Qed.

Lemma drain_all qs g0 g pending waiting :
  NoDup qs → log_inv g pending waiting → lg_parallelism g = lg_parallelism g0 →
  (∀ q, q ∈ qs → 0 ≤ q < lg_parallelism g0 ∧ lg_log_queue g !! q = lg_log_queue g0 !! q) →
  ∃ g', for_each qs (λ q, drain (S (length (default [] (lg_log_queue g0 !! q)))) q) g = Ok ((), g', concat (waiting <$> qs)) ∧
    ∀ q, q ∈ qs ∨ lg_log_queue g !! q = Some [] → lg_log_queue g' !! q = Some [].
Proof.
  revert g waiting. induction qs as [|q qs IH]; intros g W Hnd Hi Hpar Hqs.
  - exists g. split; [done|]. by intros q [?%elem_of_nil|?].
  - apply NoDup_cons in Hnd as [Hno Hnd]. destruct (Hqs q ltac:(by left)) as [Hr Hsame].
    destruct (li_queues _ _ _ Hi q) as [_ Hex]. destruct Hex as [l Hl]; [by rw Hpar|].
    destruct (drain_run (S (length l)) g pending W q l Hi Hl) as (g1&Hrun&Hq1&Hpar1&Hi1); [lia|].
    destruct (IH g1 _ Hnd Hi1) as (g2&Hrun2&Hempty); [congruence|..].
    { intros q' Hq'. destruct (Hqs q' ltac:(by right)) as [Hr' Hs']. split; [done|]. rw Hq1 lookup_insert_ne; [|done]. congruence. }
    exists g2. split.
    + cbn [for_each fmap list_fmap concat]. apply (bind_out _ _ g () g1 (W q) () g2 _); [by rw -Hsame Hl|].
      rw Hrun2. do 3 f_equal. apply list_fmap_ext. intros i q' Hq'. rw decide_False; [|done].
      intros ->. by apply Hno, (list_elem_of_lookup_2 _ i).
    + intros q' Hq'. apply Hempty. destruct (decide (q' = q)) as [->|Hne]; [right; by rw Hq1 lookup_insert_eq|].
      destruct Hq' as [[->|Hq']%elem_of_cons|Hq']; [done|by left|right]. rw Hq1 lookup_insert_ne; [congruence|done].
Qed.
End logger_runs.

(** C26: However threads and the logger's thread interleave, the printed texts of a
    queue are the first of those queued, in order and as they were formatted,
    and a round of [LoggerMain] returns, prints exactly those that wait, queue by
    queue, and leaves every queue empty. *)
Theorem logger_prints `{Timezone} (hash : Z → Z) g pending queued printed :
  log_run hash g pending queued printed →
  ∃ waiting g', (∀ q, texts q queued = texts q printed ++ waiting q) ∧
    LoggerMain_pass g = Ok ((), g', concat (waiting <$> seqZ 0 (lg_parallelism g))) ∧
    ∀ q, 0 ≤ q < lg_parallelism g → lg_log_queue g' !! q = Some [].
Proof.
  intros Hrun. destruct (run_log_inv hash g pending queued printed Hrun) as (W&Hi&Hw).
  destruct (drain_all hash (seqZ 0 (lg_parallelism g)) g g pending W) as (g'&Hpass&Hempty); try done.
  { apply NoDup_seqZ. }
  { intros q Hq%elem_of_seqZ. split; [lia|done]. }
  exists W, g'. split_and!; [done| |].
  - rw /LoggerMain_pass. by rw (bind_ok get_state _ g g g).
  - intros q Hq. apply Hempty. left. apply elem_of_seqZ. lia.
Qed.
