(* ===== verification/LockedStack.v ===== *)
(** * The locked stack

    [common/memory/SpinLock.h] and [common/memory/ConcurrentStack.h], the stack
    behind every concurrent pool, as threads that interleave between any two
    accesses to shared memory.  The pools of [Memory.v] treat its operations as
    atomic; the refinement theorem here says that they may. *)

From S2P Require Import Prelude.

Open Scope Z_scope.

Section stack.
Context {V : Type}.

Inductive stack_op : Type := Op_push (value : V) | Op_try_pop.
Inductive stack_result : Type := Res_push | Res_try_pop (value : option V).

(** Where a thread is: at [test_and_set] or at the inner [test] of
    [SpinLock::Lock], behind it, behind the test for emptiness, between
    [_stack.top()] and [_stack.pop()], or at [Unlock]. *)
Inductive thread_pc : Type :=
| Idle
| Lock (o : stack_op)
| Spin (o : stack_op)
| Enter (o : stack_op)
| NonEmpty
| TopRead (value : V)
| Unlock (r : stack_result)
| Crashed.

Record ConcurrentStack : Type := mkConcurrentStack {
  cs_spinlock_flag : bool;
  cs_stack : list V;
  cs_threads : gmap Z thread_pc;
}.

Definition new_ConcurrentStack : ConcurrentStack := mkConcurrentStack false [] ∅.

Definition pc_of (c : ConcurrentStack) (t : Z) : thread_pc := default Idle (cs_threads c !! t).

(** The next access of a thread that runs: where it goes, the flag and the
    stack after it, and the result when it returns.  [top] and [pop] of an empty
    [std::stack] are undefined. *)
Definition advance (p : thread_pc) (flag : bool) (s : list V) : thread_pc * bool * list V * option stack_result :=
  match p with
  | Idle => (Idle, flag, s, None)
  | Lock o => if flag then (Spin o, true, s, None) else (Enter o, true, s, None)
  | Spin o => if flag then (Spin o, true, s, None) else (Lock o, false, s, None)
  | Enter (Op_push v) => (Unlock Res_push, flag, v :: s, None)
  | Enter Op_try_pop =>
      match s with
      | [] => (Unlock (Res_try_pop None), flag, s, None)
      | _ :: _ => (NonEmpty, flag, s, None)
      end
  | NonEmpty =>
      match s with
      | [] => (Crashed, flag, s, None)
      | v :: _ => (TopRead v, flag, s, None)
      end
  | TopRead v =>
      match s with
      | [] => (Crashed, flag, s, None)
      | _ :: s => (Unlock (Res_try_pop (Some v)), flag, s, None)
      end
  | Unlock r => (Idle, false, s, Some r)
  | Crashed => (Crashed, flag, s, None)
  end.

Inductive stack_event : Type :=
| Invoke (t : Z) (o : stack_op)
| Return (t : Z) (r : stack_result).

Definition returned (t : Z) (r : option stack_result) : list stack_event :=
  match r with Some r => [Return t r] | None => [] end.

Inductive stack_step : ConcurrentStack → list stack_event → ConcurrentStack → Prop :=
| step_invoke c t o : pc_of c t = Idle →
    stack_step c [Invoke t o]
      (mkConcurrentStack (cs_spinlock_flag c) (cs_stack c) (<[t := Lock o]> (cs_threads c)))
| step_run c t p flag s r : pc_of c t ≠ Idle →
    advance (pc_of c t) (cs_spinlock_flag c) (cs_stack c) = (p, flag, s, r) →
    stack_step c (returned t r) (mkConcurrentStack flag s (<[t := p]> (cs_threads c))).

(** The states threads reach, with what was called and returned. *)
Inductive stack_run : ConcurrentStack → list stack_event → Prop :=
| run_start : stack_run new_ConcurrentStack []
| run_step c tr e c' : stack_run c tr → stack_step c e c' → stack_run c' (tr ++ e).

(** ** Mutual exclusion *)

(** The thread holds the lock. *)
Definition critical (p : thread_pc) : bool :=
  match p with Enter _ | NonEmpty | TopRead _ | Unlock _ => true | _ => false end.

(** What the thread in the critical section knows of the stack. *)
Definition knows (p : thread_pc) (s : list V) : Prop :=
  match p with
  | NonEmpty => s ≠ []
  | TopRead v => head s = Some v
  | Crashed => False
  | _ => True
  end.

Record stack_inv (c : ConcurrentStack) : Prop := {
  si_flag : ∀ t, critical (pc_of c t) = true → cs_spinlock_flag c = true;
  si_one : ∀ t u, critical (pc_of c t) = true → critical (pc_of c u) = true → t = u;
  si_holder : cs_spinlock_flag c = true → ∃ t, critical (pc_of c t) = true;
  si_knows : ∀ t, knows (pc_of c t) (cs_stack c);
}.

Lemma pc_of_insert c t p flag s u :
  pc_of (mkConcurrentStack flag s (<[t := p]> (cs_threads c))) u = if decide (u = t) then p else pc_of c u.
Proof.
  rw /pc_of /=. destruct (decide (u = t)) as [->|Hne]; [by rw lookup_insert_eq|]. rw lookup_insert_ne; [|done]. congruence.
Qed.

Lemma new_stack_inv : stack_inv new_ConcurrentStack.
Proof. by split; rw /pc_of. Qed.

(** A step outside the critical section that leaves the shared memory alone. *)
Lemma inv_aside c t p :
  stack_inv c → critical (pc_of c t) = false → critical p = false → knows p (cs_stack c) →
  stack_inv (mkConcurrentStack (cs_spinlock_flag c) (cs_stack c) (<[t := p]> (cs_threads c))).
Proof.
  intros [F O H K] Ht Hp Hk. split; cbn [cs_spinlock_flag cs_stack].
  - intros u. rw pc_of_insert. case_decide; [congruence|apply F].
  - intros u w. rw !pc_of_insert. do 2 case_decide; try congruence. apply O.
  - intros Hf. destruct (H Hf) as [u Hu]. exists u. rw pc_of_insert. case_decide; [congruence|done].
  - intros u. rw pc_of_insert. case_decide; [done|apply K].
Qed.

(** A step of the thread in the critical section that stays there. *)
Lemma inv_inside c t p s :
  stack_inv c → critical (pc_of c t) = true → critical p = true → knows p s →
  stack_inv (mkConcurrentStack (cs_spinlock_flag c) s (<[t := p]> (cs_threads c))).
Proof.
  intros [F O H K] Ht Hp Hk.
  assert (Hout : ∀ u, u ≠ t → critical (pc_of c u) = false).
  { intros u Hu. destruct (critical (pc_of c u)) eqn:E; [|done]. destruct Hu. by apply O. }
  split; cbn [cs_spinlock_flag cs_stack].
  - intros u _. by apply (F t).
  - intros u w. rw !pc_of_insert. do 2 case_decide; subst; try done; intros; [|exfalso..]; naive_solver.
  - intros _. exists t. rw pc_of_insert. by case_decide.
  - intros u. rw pc_of_insert. case_decide as Hut; [done|]. pose proof (Hout u Hut) as Hc. pose proof (K u) as Hku.
    destruct (pc_of c u); done.
Qed.

(** The lock is taken; the lock is given back. *)
Lemma inv_enter c t o :
  stack_inv c → cs_spinlock_flag c = false →
  stack_inv (mkConcurrentStack true (cs_stack c) (<[t := Enter o]> (cs_threads c))).
Proof.
  intros [F O H K] Hf.
  assert (Hout : ∀ u, critical (pc_of c u) = false).
  { intros u. destruct (critical (pc_of c u)) eqn:E; [|done]. by rw (F u E) in Hf. }
  split; cbn [cs_spinlock_flag cs_stack].
  - done.
  - intros u w. rw !pc_of_insert. do 2 case_decide; try congruence; by rw Hout.
  - intros _. exists t. rw pc_of_insert. by case_decide.
  - intros u. rw pc_of_insert. case_decide; [done|apply K].
Qed.

Lemma lock_leave c t :
  stack_inv c → critical (pc_of c t) = true →
  stack_inv (mkConcurrentStack false (cs_stack c) (<[t := Idle]> (cs_threads c))).
Proof.
  intros [F O H K] Ht.
  assert (Hout : ∀ u, critical (pc_of (mkConcurrentStack false (cs_stack c) (<[t := Idle]> (cs_threads c))) u) = false).
  { intros u. rw pc_of_insert. case_decide as Hu; [done|].
    destruct (critical (pc_of c u)) eqn:E; [|done]. destruct Hu. by apply O. }
  split; cbn [cs_spinlock_flag cs_stack].
  - intros u. by rw Hout.
  - intros u w. by rw Hout.
  - done.
  - intros u. rw pc_of_insert. case_decide; [done|apply K].
Qed.

Lemma step_inv c e c' : stack_inv c → stack_step c e c' → stack_inv c'.
Proof.
  intros Hi Hstep. revert Hi. destruct Hstep as [c0 t o Ht|c0 t p flag s r Ht Hadv]; intros Hi;
    [apply inv_aside; by rw ?Ht|].
  pose proof (si_knows _ Hi t) as Hk. destruct (pc_of c0 t) as [|o|o|[v|]| |v|r0|] eqn:Hpc; cbn in Hadv; try done.
  - destruct (cs_spinlock_flag c0) eqn:Hf; injection Hadv as <- <- <- <-; [|by apply inv_enter].
    rw -Hf. apply inv_aside; by rw ?Hpc.
  - destruct (cs_spinlock_flag c0) eqn:Hf; injection Hadv as <- <- <- <-; rw -Hf; apply inv_aside; by rw ?Hpc.
  - injection Hadv as <- <- <- <-. apply inv_inside; by rw ?Hpc.
  - destruct (cs_stack c0) eqn:Hs; injection Hadv as <- <- <- <-; apply inv_inside; by rw ?Hpc.
  - destruct (cs_stack c0) eqn:Hs; [done|]. injection Hadv as <- <- <- <-. apply inv_inside; by rw ?Hpc.
  - destruct (cs_stack c0) eqn:Hs; [done|]. injection Hadv as <- <- <- <-. apply inv_inside; by rw ?Hpc.
  - injection Hadv as <- <- <- <-. apply lock_leave; by rw ?Hpc.
Qed.

Lemma run_inv c tr : stack_run c tr → stack_inv c.
Proof. induction 1 as [|c tr e c' _ IH Hs]; [exact new_stack_inv|exact (step_inv c e c' IH Hs)]. Qed.

(** ** The atomic stack *)

(** A call is pending until it takes effect, at one moment, and then has its
    result until it returns. *)
Inductive call : Type := Waiting (o : stack_op) | Done (r : stack_result).

Definition atomic_op (o : stack_op) (s : list V) : list V * stack_result :=
  match o with
  | Op_push v => (v :: s, Res_push)
  | Op_try_pop => match s with [] => ([], Res_try_pop None) | v :: s => (s, Res_try_pop (Some v)) end
  end.

Inductive atomic_step : list V * gmap Z call → list stack_event → list V * gmap Z call → Prop :=
| atomic_invoke s calls t o : calls !! t = None → atomic_step (s, calls) [Invoke t o] (s, <[t := Waiting o]> calls)
| atomic_effect s calls t o s' r : calls !! t = Some (Waiting o) → atomic_op o s = (s', r) →
    atomic_step (s, calls) [] (s', <[t := Done r]> calls)
| atomic_return s calls t r : calls !! t = Some (Done r) → atomic_step (s, calls) [Return t r] (s, delete t calls).

Inductive atomic_run : list V * gmap Z call → list stack_event → Prop :=
| atomic_start : atomic_run ([], ∅) []
| atomic_next a tr e a' : atomic_run a tr → atomic_step a e a' → atomic_run a' (tr ++ e).

(** The call a thread is in: [try_pop] takes effect at the test for emptiness
    or at [_stack.pop()], [push] at [_stack.push]. *)
Definition call_of (p : thread_pc) : option call :=
  match p with
  | Idle | Crashed => None
  | Lock o | Spin o | Enter o => Some (Waiting o)
  | NonEmpty | TopRead _ => Some (Waiting Op_try_pop)
  | Unlock r => Some (Done r)
  end.

Definition simulates (c : ConcurrentStack) (a : list V * gmap Z call) : Prop :=
  a.1 = cs_stack c ∧ ∀ t, a.2 !! t = call_of (pc_of c t).

(** A step that takes no effect. *)
Lemma simulates_same c calls t p flag :
  simulates c (cs_stack c, calls) → call_of p = call_of (pc_of c t) →
  simulates (mkConcurrentStack flag (cs_stack c) (<[t := p]> (cs_threads c))) (cs_stack c, calls).
Proof.
  intros [_ Hc] Hp. split; [done|]. intros u. rw pc_of_insert. cbn [snd] in *. case_decide; [subst; by rw Hp|apply Hc].
Qed.

Lemma simulates_update c calls t p flag s x :
  simulates c (cs_stack c, calls) → call_of p = Some x →
  simulates (mkConcurrentStack flag s (<[t := p]> (cs_threads c))) (s, <[t := x]> calls).
Proof.
  intros [_ Hc] Hp. split; [done|]. intros u. rw pc_of_insert. cbn [snd] in *.
  case_decide as Hu; [subst; by rw lookup_insert_eq|]. rw lookup_insert_ne; [congruence|apply Hc].
Qed.

Lemma step_simulated c e c' a tr :
  stack_inv c → stack_step c e c' → simulates c a → atomic_run a tr →
  ∃ a', simulates c' a' ∧ atomic_run a' (tr ++ e).
Proof.
  intros Hi Hstep Hsim Hrun. destruct a as [s0 calls]. destruct Hsim as [Hs Hc]. cbn [fst snd] in *. subst s0.
  assert (Hsim : simulates c (cs_stack c, calls)) by done.
  destruct Hstep as [c t o Ht|c t p flag s r Ht Hadv].
  - exists (cs_stack c, <[t := Waiting o]> calls). split; [by apply simulates_update|].
    eapply atomic_next; [exact Hrun|]. apply atomic_invoke. by rw Hc Ht.
  - pose proof (si_knows _ Hi t) as Hk. pose proof (Hc t) as Hct.
    assert (Hsame : ∀ p0, call_of p0 = call_of (pc_of c t) →
      ∃ a', simulates (mkConcurrentStack flag (cs_stack c) (<[t := p0]> (cs_threads c))) a' ∧ atomic_run a' (tr ++ [])).
    { intros p0 Hp0. exists (cs_stack c, calls). rw app_nil_r. split; [by apply simulates_same|done]. }
    assert (Heff : ∀ o s' r', call_of (pc_of c t) = Some (Waiting o) → atomic_op o (cs_stack c) = (s', r') →
      ∃ a', simulates (mkConcurrentStack flag s' (<[t := Unlock r']> (cs_threads c))) a' ∧ atomic_run a' (tr ++ [])).
    { intros o s' r' Ho Hop. exists (s', <[t := Done r']> calls). split; [by apply simulates_update|].
      eapply atomic_next; [exact Hrun|]. eapply atomic_effect; [by rw Hct Ho|done]. }
    destruct (pc_of c t) as [|o|o|[v|]| |v|r0|] eqn:Hpc; cbn in Hadv; try done.
    + destruct (cs_spinlock_flag c); injection Hadv as <- <- <- <-; by apply Hsame.
    + destruct (cs_spinlock_flag c); injection Hadv as <- <- <- <-; by apply Hsame.
    + injection Hadv as <- <- <- <-. by apply (Heff (Op_push v)).
    + destruct (cs_stack c) eqn:Hs; injection Hadv as <- <- <- <-; [by apply (Heff Op_try_pop)|by apply Hsame].
    + destruct (cs_stack c) eqn:Hs; [done|]. injection Hadv as <- <- <- <-. by apply Hsame.
    + destruct (cs_stack c) as [|v' s1] eqn:Hs; [done|]. injection Hadv as <- <- <- <-. injection Hk as ->.
      by apply (Heff Op_try_pop).
    + injection Hadv as <- <- <- <-. exists (cs_stack c, delete t calls). split.
      * split; [done|]. intros u. rw pc_of_insert. cbn [snd]. case_decide as Hu; [subst; by rw lookup_delete_eq|].
        rw lookup_delete_ne; [congruence|apply Hc].
      * eapply atomic_next; [exact Hrun|]. by apply atomic_return.
Qed.
End stack.

(** C19: However the threads interleave, what they call and what is returned to them
    is what an atomic stack could have answered, every call taking effect at one
    moment between its invocation and its return; at most one thread is in the
    critical section, and none runs into [top] or [pop] of an empty stack. *)
Theorem stack_linearizable {V} (c : ConcurrentStack (V:=V)) (tr : list stack_event) :
  stack_run c tr →
  (∃ calls, atomic_run (cs_stack c, calls) tr) ∧
  (∀ t u, critical (pc_of c t) = true → critical (pc_of c u) = true → t = u) ∧
  ∀ t, pc_of c t ≠ Crashed.
Proof.
  intros Hrun. pose proof (run_inv c tr Hrun) as [_ Ho _ Hk]. split_and!; [|done|].
  - assert (Hsim : ∃ a, simulates c a ∧ atomic_run a tr); [|by destruct Hsim as ([s calls]&[Hs _]&?); exists calls; rewrite -Hs].
    induction Hrun as [|c tr e c' Hr IH Hs].
    + exists ([], ∅). split; [|constructor]. split; [done|]. intros t. by rw /pc_of /= lookup_empty.
    + pose proof (run_inv c tr Hr) as Hi. destruct IH as (a&Hsa&Hra); [apply Hi..|].
      exact (step_simulated c e c' a tr Hi Hs Hsa Hra).
  - intros t Ht. specialize (Hk t). by rw Ht in Hk.
Qed.
