(* ===== verification/Loopback.v ===== *)
(** * Loopback session

    [LoopbackSocketSession] of [common/engine/SocketSession.h]: packets a game
    server posts to itself collect in buffers of a pool, and
    [ProcessLoopbackPacket] runs [ProcessLoopbackData] on each of them once a
    tick.  Buffers are named by their sequence number in the pool. *)

From S2P Require Import Prelude Coordinate SectorGrid Fixture Packet Protocol Memory.

Open Scope Z_scope.

(** [_packet_list] is a vector: [ls_reserved] is its capacity, [ls_iterating]
    holds while [ProcessLoopbackPacket] goes through it. *)
Record LoopbackSocketSession : Type := mkLoopback {
  ls_packet_list : list Z;
  ls_reserved : Z;
  ls_iterating : bool;
  ls_buffer_pool : ObjectPool;
  ls_buffers : gmap Z DynamicBuffer;
  ls_buffer_size : Z;
}.

Definition ls_set_list (x : list Z) (reserved : Z) (l : LoopbackSocketSession) : LoopbackSocketSession :=
  mkLoopback x reserved (ls_iterating l) (ls_buffer_pool l) (ls_buffers l) (ls_buffer_size l).
Definition ls_set_iterating (x : bool) (l : LoopbackSocketSession) : LoopbackSocketSession :=
  mkLoopback (ls_packet_list l) (ls_reserved l) x (ls_buffer_pool l) (ls_buffers l) (ls_buffer_size l).
Definition ls_set_pool (x : ObjectPool) (l : LoopbackSocketSession) : LoopbackSocketSession :=
  mkLoopback (ls_packet_list l) (ls_reserved l) (ls_iterating l) x (ls_buffers l) (ls_buffer_size l).
Definition ls_set_buffer (o : Z) (b : DynamicBuffer) (l : LoopbackSocketSession) : LoopbackSocketSession :=
  mkLoopback (ls_packet_list l) (ls_reserved l) (ls_iterating l) (ls_buffer_pool l)
    (<[o := b]> (ls_buffers l)) (ls_buffer_size l).

(** [LoopbackSessionBufferInitializer::Initialize]. *)
Definition LoopbackSessionBufferInitializer (param : Z) : DynamicBuffer := mkDynamicBuffer [] (u32 param).

Definition new_LoopbackSocketSession (initial_pool_size buffer_size : Z) : result LoopbackSocketSession :=
  pool ← new_ObjectPool initial_pool_size initial_pool_size 1;
  Ok (mkLoopback [] buffer_size false pool ∅ buffer_size).

Section session.
Context {S Out : Type}.
(** The state of the executor lies beside that of the session. *)
Abbreviation St := (LoopbackSocketSession * S)%type.
Abbreviation M := (Act St Out).

Definition get_session : M LoopbackSocketSession := p ← get_state; mret p.1.
Definition modify_session (f : LoopbackSocketSession → LoopbackSocketSession) : M () :=
  modify (λ p, (f p.1, p.2)).

(** [push_back] needs new storage when the vector is full, which invalidates
    the iterators of a loop over it; the new capacity is the least the standard
    asks for. *)
Definition Loopback_Send (o : Z) : M () :=
  l ← get_session;
  if Z.of_nat (length (ls_packet_list l)) <? ls_reserved l then
    modify_session (ls_set_list (ls_packet_list l ++ [o]) (ls_reserved l))
  else if ls_iterating l then fail (UndefinedBehaviour "_packet_list reallocated in a loop over it")
  else modify_session (ls_set_list (ls_packet_list l ++ [o]) (Z.of_nat (length (ls_packet_list l)) + 1)).

(** [Pop(true)] always returns a buffer; [length = 0]. *)
Definition Loopback_TryAllocateBuffer : M Z :=
  l ← get_session;
  let '(o, pool) := Pop true (ls_buffer_pool l) in
  o ← lift (from_option_ub "buffer" o);
  modify_session (ls_set_pool pool) ;;
  let b := default (LoopbackSessionBufferInitializer (ls_buffer_size l)) (ls_buffers l !! o) in
  modify_session (ls_set_buffer o (mkDynamicBuffer [] (db_capacity b))) ;;
  mret o.
Definition Loopback_TryAllocateReadBuffer : M Z := Loopback_TryAllocateBuffer.
Definition Loopback_TryAllocateWriteBuffer : M Z := Loopback_TryAllocateBuffer.

Definition Loopback_ReleaseReadBuffer (o : Z) : M () :=
  l ← get_session;
  pool ← lift (Push o (ls_buffer_pool l));
  modify_session (ls_set_pool pool).
Definition Loopback_ReleaseWriteBuffer (o : Z) : M () := Loopback_ReleaseReadBuffer o.

Definition Loopback_Disconnect : M () := mret ().
Definition Loopback_CloseSession : M () := mret ().

Section executor.
Variable OnIntraServerData : PacketHeader → list Z → M ().

(** [_executor->ProcessLoopbackData(buffer)]: the loop over the frames, then
    the buffer goes back. *)
Definition process_buffer (o : Z) : M () :=
  l ← get_session;
  b ← lift (from_option_ub "buffer" (ls_buffers l !! o));
  ProcessLoopbackData OnIntraServerData b ;;
  Loopback_ReleaseReadBuffer o.

(** The loop visits the buffers that were in the list when it began. *)
Definition Loopback_ProcessLoopbackPacket : M () :=
  l ← get_session;
  modify_session (ls_set_iterating true) ;;
  for_each (ls_packet_list l) process_buffer ;;
  modify_session (λ l, ls_set_list [] (ls_reserved l) (ls_set_iterating false l)).
End executor.
End session.

(** ** What the session delivers *)

Section delivery.
Context {C : Type} `{StructPack C} `{!StructPackSize C} {S Out : Type}.
Abbreviation St := (LoopbackSocketSession * S)%type.

(** A buffer that holds the frames of some packets. *)
Definition holds_frames (l : LoopbackSocketSession) (o : Z) (packets : list (Packet C)) : Prop :=
  ∃ b, ls_buffers l !! o = Some b ∧ db_length b < 2 ^ 31 ∧ db_length b ≤ db_capacity b ∧
    Forall small_packet packets ∧ db_bytes b = concat ((λ p, frame p ErrorCode_None) <$> packets).

(** A session in use: [held] are the buffers the executor has, [pending] the
    ones still to be processed. *)
Record session_ok (stock : nat) (pending held : gset Z) (l : LoopbackSocketSession) : Prop := {
  so_pool : pool_wf stock (ls_buffer_pool l);
  so_pending : pending ⊆ op_in_used (ls_buffer_pool l);
  so_held : held ⊆ op_in_used (ls_buffer_pool l);
  so_disjoint : pending ## held;
}.

(** What the executor may do with the session: take buffers and give its own
    back, and send; the pending buffers it leaves alone. *)
Record session_frame (pending held held' : gset Z) (l l' : LoopbackSocketSession) : Prop := {
  sf_used : op_in_used (ls_buffer_pool l') = op_in_used (ls_buffer_pool l) ∖ held ∪ held';
  sf_buffers : ∀ o, o ∈ pending → ls_buffers l' !! o = ls_buffers l !! o;
}.

Lemma session_frame_trans pending h1 h2 h3 l1 l2 l3 :
  h2 ## op_in_used (ls_buffer_pool l1) ∖ h1 →
  session_frame pending h1 h2 l1 l2 → session_frame pending h2 h3 l2 l3 → session_frame pending h1 h3 l1 l3.
Proof.
  intros Hd [U1 B1] [U2 B2]. split; [rw U2 U1; set_solver|]. intros o Ho. by rw (B2 o Ho) (B1 o Ho).
Qed.

Variable handler : PacketHeader → list Z → Act St Out ().
(** What is true of the executor after it handled some packets, with the
    buffers it has. *)
Variable handled : list (Packet C) → gset Z → S → Prop.
Variable stock : nat.

Definition executor_ok : Prop := ∀ done p pending held l s,
  handled done held s → session_ok stock pending held l →
  wp (handler (packet_header p ErrorCode_None) (sp_serialize p)) (l, s)
    (λ _ ls _, ∃ held', handled (done ++ [p]) held' ls.2 ∧ session_ok stock pending held' ls.1 ∧
       held' ## op_in_used (ls_buffer_pool l) ∖ held ∧ session_frame pending held held' l ls.1)
    (λ _, False).

Hypothesis Hexec : executor_ok.

Lemma dispatch_wp done packets pending held l s :
  handled done held s → session_ok stock pending held l →
  wp (dispatch handler packets) (l, s)
    (λ _ ls _, ∃ held', handled (done ++ packets) held' ls.2 ∧ session_ok stock pending held' ls.1 ∧
       held' ## op_in_used (ls_buffer_pool l) ∖ held ∧ session_frame pending held held' l ls.1)
    (λ _, False).
Proof.
  revert done held l s. induction packets as [|p packets IH]; intros done held l s Hd Hs.
  - apply wp_ret. exists held. rw app_nil_r. split_and!; [done..|set_solver|].
    pose proof (so_held _ _ _ _ Hs). split; [|done]. cbn. apply leibniz_equiv. intros o.
    destruct (decide (o ∈ held)); set_solver.
  - rw /dispatch. cbn [for_each]. apply wp_bind. eapply wp_mono; [exact (Hexec done p pending held l s Hd Hs)| |done].
    intros [] [l1 s1] o1 (h1&Hd1&Hs1&Hn1&Hf1). cbn [fst snd] in *.
    eapply wp_mono; [exact (IH (done ++ [p]) h1 l1 s1 Hd1 Hs1)| |done].
    intros [] [l2 s2] o2 (h2&Hd2&Hs2&Hn2&Hf2). cbn [fst snd] in *. exists h2. rw -app_assoc in Hd2.
    split_and!; [done|done| |exact (session_frame_trans _ _ _ _ _ _ _ Hn1 Hf1 Hf2)].
    rw (sf_used _ _ _ _ _ Hf1) in Hn2. set_solver.
Qed.

Lemma process_buffer_wp done packets o pending held l s :
  handled done held s → session_ok stock ({[o]} ∪ pending) held l → o ∉ pending → holds_frames l o packets →
  wp (process_buffer handler o) (l, s)
    (λ _ ls _, ∃ held', handled (done ++ packets) held' ls.2 ∧ session_ok stock pending held' ls.1 ∧
       held' ## op_in_used (ls_buffer_pool l) ∖ held ∧ session_frame pending ({[o]} ∪ held) held' l ls.1)
    (λ _, False).
Proof.
  intros Hd Hs Ho (b&Hb&Hlen&Hcap&Hsm&Hbytes). rw /process_buffer.
  apply (wp_ok _ _ _ l (l, s)); [done|]. apply (wp_ok _ _ _ b (l, s)); [by rw Hb|].
  apply wp_bind. rw /wp (ProcessLoopbackData_dispatch handler b packets (l, s) Hlen Hcap Hsm Hbytes).
  eapply wp_mono; [exact (dispatch_wp done packets _ held l s Hd Hs)| |done].
  intros [] [l1 s1] o1 (h1&Hd1&[P1 P2 P3 P4]&Hn1&[U1 B1]). cbn [fst snd] in *. rw /Loopback_ReleaseReadBuffer.
  apply (wp_ok _ _ _ l1 (l1, s1)); [done|]. pose proof (Push_spec stock o _ P1) as Hpush.
  destruct (Push o (ls_buffer_pool l1)) as [pool|f] eqn:Hp; [|set_solver]. destruct Hpush as (W&Hu&Hu'&_).
  apply (wp_ok _ _ _ pool (l1, s1)); [done|]. cbn. exists h1.
  split_and!; [done| |done|].
  - split; cbn; [done|rw Hu'; set_solver|rw Hu'; set_solver|set_solver].
  - split; cbn; [|intros o' Ho'; apply B1; set_solver]. rw Hu' U1. set_solver.
Qed.

Lemma frames_kept l l' ids pss :
  (∀ o, o ∈ ids → ls_buffers l' !! o = ls_buffers l !! o) →
  Forall2 (holds_frames l) ids pss → Forall2 (holds_frames l') ids pss.
Proof.
  intros Hb Hf. apply (Forall2_weaken _ _ _ _ Hf). intros o ps Ho (b&Hbo&Hrest). exists b. by rw (Hb o Ho).
Qed.

Lemma process_all_wp ids pss done held l s :
  handled done held s → NoDup ids → session_ok stock (list_to_set ids) held l → Forall2 (holds_frames l) ids pss →
  wp (for_each ids (process_buffer handler)) (l, s)
    (λ _ ls _, ∃ held', handled (done ++ concat pss) held' ls.2 ∧ session_ok stock ∅ held' ls.1 ∧
       held' ## op_in_used (ls_buffer_pool l) ∖ (list_to_set ids ∪ held) ∧
       session_frame ∅ (list_to_set ids ∪ held) held' l ls.1)
    (λ _, False).
Proof.
  revert pss done held l s. induction ids as [|o ids IH]; intros pss done held l s Hd Hnd Hs Hf.
  - apply Forall2_nil_inv_l in Hf as ->. apply wp_ret. exists held. rw app_nil_r. split_and!; [done..|set_solver|].
    destruct Hs as [_ _ P3 _]. split; [|done]. cbn. apply leibniz_equiv. intros x. destruct (decide (x ∈ held)); set_solver.
  - apply Forall2_cons_inv_l in Hf as (ps&pss'&Hps&Hf&->). apply NoDup_cons in Hnd as [Hno Hnd]. cbn [for_each].
    apply wp_bind. eapply wp_mono; [refine (process_buffer_wp done ps o (list_to_set ids) held l s Hd Hs _ Hps)| |done].
    { by rw elem_of_list_to_set. }
    intros [] [l1 s1] o1 (h1&Hd1&Hs1&Hn1&Hf1). cbn [fst snd] in *.
    eapply wp_mono; [refine (IH pss' (done ++ ps) h1 l1 s1 Hd1 Hnd Hs1 _)| |done].
    { apply (frames_kept l); [|done]. intros x Hx. apply (sf_buffers _ _ _ _ _ Hf1). by rw elem_of_list_to_set. }
    intros [] [l2 s2] o2 (h2&Hd2&Hs2&Hn2&[U2 _]). cbn [fst snd] in *. destruct Hf1 as [U1 _]. exists h2.
    cbn [concat]. rw app_assoc. split_and!; [done|done| |].
    + rw U1 in Hn2. cbn. set_solver.
    + split; [|intros x Hx; set_solver]. rw U2 U1. cbn. set_solver.
Qed.
End delivery.


(** A buffer that the executor sends while [ProcessLoopbackPacket] runs is not
    visited and is then cleared from the list: its packets are lost, and the
    buffer never goes back to the pool. *)
Theorem loopback_send_lost {C} `{StructPack C} `{!StructPackSize C} (l : LoopbackSocketSession) (o o' : Z)
    (p : Packet C) (stock : nat) :
  ls_packet_list l = [o] → holds_frames l o [p] → pool_wf stock (ls_buffer_pool l) →
  o ∈ op_in_used (ls_buffer_pool l) → o' ∈ op_in_used (ls_buffer_pool l) → o ≠ o' → 1 < ls_reserved l →
  ∃ l', Loopback_ProcessLoopbackPacket (Out:=Empty_set) (λ _ _, Loopback_Send o') (l, ()) = Ok ((), (l', ()), []) ∧
    ls_packet_list l' = [] ∧ o' ∈ op_in_used (ls_buffer_pool l').
Proof.
  intros Hl (b&Hb&Hlen&Hcap&Hsm&Hbytes) Hwf Ho Ho' Hne Hr. set (l0 := ls_set_iterating true l).
  set (l1 := ls_set_list [o; o'] (ls_reserved l0) l0).
  pose proof (Push_spec stock o (ls_buffer_pool l) Hwf) as Hpush.
  destruct (Push o (ls_buffer_pool l)) as [pool|] eqn:Hp; [|done]. destruct Hpush as (_&_&Hu&_).
  set (l2 := ls_set_pool pool l1).
  exists (ls_set_list [] (ls_reserved l2) (ls_set_iterating false l2)). split_and!; [|done|cbn; rw Hu; set_solver].
  rw /Loopback_ProcessLoopbackPacket (bind_ok _ _ _ l (l, ())); [done|].
  rw (bind_ok _ _ _ () (l0, ())); [done|]. rw Hl. cbn [for_each].
  rw (bind_ok _ _ _ () (l2, ())); [|done]. rw (bind_ok _ _ _ () (l2, ())); [|done].
  rw /process_buffer (bind_ok _ _ _ l0 (l0, ())); [done|]. rw (bind_ok _ _ _ b (l0, ())); [by rw /l0 /= Hb|].
  rw (bind_ok _ _ _ () (l1, ())).
  - rw (ProcessLoopbackData_dispatch _ b [p]); try done. rw /dispatch. cbn [for_each].
    rw (bind_ok _ _ _ () (l1, ())); [|done]. rw /Loopback_Send (bind_ok _ _ _ l0 (l0, ())); [done|].
    cbn. rw Hl. cbn [length]. rw (proj2 (Z.ltb_lt _ _)); [lia|]. done.
  - rw /Loopback_ReleaseReadBuffer (bind_ok _ _ _ l1 (l1, ())); [done|]. by rw (bind_ok _ _ _ pool (l1, ())); [rw /= Hp|].
Qed.
