(* ===== verification/Concurrent.v ===== *)
(** * Concurrency

    [common/concurrent]: the locked map [ConcurrentMap.h], the double queue
    between the network threads and the worker [LinearWorkQueue.h] and the loop
    of the worker [LinearWorker.h].  The queue is a step relation over the
    memory accesses of its producers and its consumer; [atomic_queue] is a
    bounded FIFO queue. *)

From S2P Require Import Prelude.

Open Scope Z_scope.

(** ** ConcurrentMap

    Every operation holds the mutex, so it is one step. *)

Section concurrent_map.
Context {V : Type}.
Implicit Types m : gmap Z V.

(** Returns whether it overwrote. *)
Definition cm_Insert (key : Z) (value : V) m : bool * gmap Z V :=
(bool_decide (is_Some (m !! key)), <[key := value]> m).

Definition cm_TryGet (key : Z) m : option V := m !! key.

Definition cm_Process (key : Z) (processor : V → V) m : bool * gmap Z V :=
match m !! key with
| None => (false, m)
| Some v => (true, <[key := processor v]> m)
end.

(** The processor may act on the state the values point into; the entry is
  removed when it returns true. *)
Definition cm_RemoveIf {S} (key : Z) (processor : V → S → bool * S) m (s : S) : option V * gmap Z V * S :=
match m !! key with
| None => (None, m, s)
| Some v =>
    let '(b, s) := processor v s in
    if b then (Some v, delete key m, s) else (None, m, s)
end.

Definition cm_Remove (key : Z) m : option V * gmap Z V := (m !! key, delete key m).
End concurrent_map.

(** ** LinearWorkQueue *)

(** The two queues, by index; [lq_submission] names the one [_submission_queue]
    points to, the other is [_fetch_queue].  [lq_pushing] holds, for each thread
    inside [TryPush], the queue it loaded from [_submission_queue] and the value.
    [lq_accepted] and [lq_popped] are the values pushed and popped so far, in the
    order of the calls' effects. *)
Record LinearWorkQueue (T : Type) : Type := mkLinearWorkQueue {
  lq_queues : bool → list T;
  lq_submission : bool;
  lq_pushing : gmap Z (bool * T);
  lq_accepted : list T;
  lq_popped : list T;
  lq_draining : bool;
}.
Arguments mkLinearWorkQueue {T} _ _ _ _ _ _.
Arguments lq_queues {T} _ _.
Arguments lq_submission {T} _.
Arguments lq_pushing {T} _.
Arguments lq_accepted {T} _.
Arguments lq_popped {T} _.
Arguments lq_draining {T} _.

Definition BUFFER_SIZE : Z := 65536.

Section work_queue.
Context {T : Type}.
Implicit Types q : LinearWorkQueue T.

Definition new_LinearWorkQueue : LinearWorkQueue T := mkLinearWorkQueue (λ _, []) false ∅ [] [] false.

Definition set_queue (i : bool) (l : list T) (f : bool → list T) : bool → list T :=
λ j, if Bool.eqb j i then l else f j.

(** [TryPush], first half: the pointer is loaded. *)
Definition TryPush_load (thread : Z) (value : T) q : LinearWorkQueue T :=
mkLinearWorkQueue (lq_queues q) (lq_submission q) (<[thread := (lq_submission q, value)]> (lq_pushing q))
  (lq_accepted q) (lq_popped q) (lq_draining q).

(** [TryPush], second half: [try_push] on the queue that was loaded. *)
Definition TryPush_store (thread : Z) q : bool * LinearWorkQueue T :=
match lq_pushing q !! thread with
| None => (false, q)
| Some (i, value) =>
    let pushing := delete thread (lq_pushing q) in
    if Z.of_nat (length (lq_queues q i)) <? BUFFER_SIZE then
      (true, mkLinearWorkQueue (set_queue i (lq_queues q i ++ [value]) (lq_queues q)) (lq_submission q) pushing
               (lq_accepted q ++ [value]) (lq_popped q) (lq_draining q))
    else
      (false, mkLinearWorkQueue (lq_queues q) (lq_submission q) pushing
                (lq_accepted q) (lq_popped q) (lq_draining q))
end.

Definition LockSubmissionQueue q : LinearWorkQueue T :=
mkLinearWorkQueue (lq_queues q) (negb (lq_submission q)) (lq_pushing q) (lq_accepted q) (lq_popped q) true.

(** [TryPop]; a failing pop ends the loop of the consumer. *)
Definition TryPop q : option T * LinearWorkQueue T :=
let fetch := negb (lq_submission q) in
match lq_queues q fetch with
| [] => (None, mkLinearWorkQueue (lq_queues q) (lq_submission q) (lq_pushing q) (lq_accepted q) (lq_popped q) false)
| value :: rest =>
    (Some value, mkLinearWorkQueue (set_queue fetch rest (lq_queues q)) (lq_submission q) (lq_pushing q)
                   (lq_accepted q) (lq_popped q ++ [value]) (lq_draining q))
end.

(** Any number of producers against the consumer's loop
  [LockSubmissionQueue(); while (TryPop(context)) ...]. *)
Inductive queue_step : LinearWorkQueue T → LinearWorkQueue T → Prop :=
| step_load thread value q :
  lq_pushing q !! thread = None → queue_step q (TryPush_load thread value q)
| step_store thread q :
  is_Some (lq_pushing q !! thread) → queue_step q (TryPush_store thread q).2
| step_lock q :
  lq_draining q = false → queue_step q (LockSubmissionQueue q)
| step_pop q :
  lq_draining q = true → queue_step q (TryPop q).2.

(** [TryPush] without another thread in between. *)
Definition TryPush_now (thread : Z) (value : T) q : bool * LinearWorkQueue T :=
TryPush_store thread (TryPush_load thread value q).

Inductive atomic_step : LinearWorkQueue T → LinearWorkQueue T → Prop :=
| astep_push thread value q : atomic_step q (TryPush_now thread value q).2
| astep_lock q : lq_draining q = false → atomic_step q (LockSubmissionQueue q)
| astep_pop q : lq_draining q = true → atomic_step q (TryPop q).2.

(** The values in flight. *)
Definition in_queues q : list T := lq_queues q false ++ lq_queues q true.

Lemma set_queue_perm i (l l' : list T) f :
l ≡ₚ l' ++ f i → set_queue i l f false ++ set_queue i l f true ≡ₚ l' ++ f false ++ f true.
Proof.
intros Hl. destruct i; rw /set_queue /= Hl; [|by rw app_assoc].
by rw !app_assoc (Permutation_app_comm (f false) l').
Qed.

Lemma queue_step_conserves q q' :
queue_step q q' → lq_accepted q ≡ₚ lq_popped q ++ in_queues q → lq_accepted q' ≡ₚ lq_popped q' ++ in_queues q'.
Proof.
rw /in_queues. intros [thread value q0 _|thread q0 [[i v] Hv]|q0 _|q0 _] IH; [done| |done|].
- rw /TryPush_store Hv. case: Z.ltb_spec => _; [|done]. cbn.
  rw (set_queue_perm i _ [v]); [by rw Permutation_app_comm|].
  rw IH /= -!Permutation_middle app_nil_r. done.
- rw /TryPop. destruct (lq_queues q0 (negb (lq_submission q0))) as [|v rest] eqn:Hq; [done|]. cbn.
  rw IH -app_assoc. apply Permutation_app_head. symmetry.
  pose proof (set_queue_perm (negb (lq_submission q0)) (v :: rest) [] (lq_queues q0)) as H1.
  destruct (negb (lq_submission q0)); rw /set_queue /= Hq; [by rw Permutation_middle|done].
Qed.


(** *** Order *)

Lemma lookup_TryPush_now thread value q :
TryPush_now thread value q =
  let i := lq_submission q in
  let pushing := delete thread (lq_pushing q) in
  if Z.of_nat (length (lq_queues q i)) <? BUFFER_SIZE then
    (true, mkLinearWorkQueue (set_queue i (lq_queues q i ++ [value]) (lq_queues q)) i pushing
             (lq_accepted q ++ [value]) (lq_popped q) (lq_draining q))
  else (false, mkLinearWorkQueue (lq_queues q) i pushing (lq_accepted q) (lq_popped q) (lq_draining q)).
Proof.
rw /TryPush_now /TryPush_store /TryPush_load /= lookup_insert_eq.
by rw (_ : delete thread (<[thread:=(lq_submission q, value)]> (lq_pushing q)) = delete thread (lq_pushing q));
  [apply delete_insert_eq|].
Qed.

(** What was popped, then the queue being drained, then the queue being
  filled: the order of the pushes.  The queue being drained is empty when the
  consumer swaps. *)
Definition in_order q : Prop :=
lq_accepted q = lq_popped q ++ lq_queues q (negb (lq_submission q)) ++ lq_queues q (lq_submission q) ∧
(lq_draining q = false → lq_queues q (negb (lq_submission q)) = []).

Lemma atomic_step_in_order q q' : atomic_step q q' → in_order q → in_order q'.
Proof.
rw /in_order. intros [thread value q0|q0 Hd|q0 Hd] [IH He].
- rw lookup_TryPush_now. destruct q0 as [qs [] pu ac po dr]; cbn in *; case: Z.ltb_spec => _; cbn;
    (split; [|exact He]); rw IH -?app_assoc; done.
- destruct q0 as [qs [] pu ac po dr]; cbn in *; subst dr; (split; [|done]); rw IH (He eq_refl) /= app_nil_r; done.
- rw /TryPop. destruct q0 as [qs [] pu ac po dr]; cbn in *; subst dr;
    destruct (qs _) as [|v rest] eqn:Hq; cbn; (split; [|done]); rw /set_queue /= IH ?Hq -?app_assoc; done.
Qed.

(** When no swap falls between the load and the store of a push, the values
  come out in the order they went in, those of all producers together. *)
Theorem atomic_fifo q :
rtc atomic_step new_LinearWorkQueue q →
lq_accepted q = lq_popped q ++ lq_queues q (negb (lq_submission q)) ++ lq_queues q (lq_submission q).
Proof.
intros Hrun. assert (Hq : in_order q); [|by destruct Hq]. revert q Hrun. apply rtc_ind_r; [done|].
intros q q' _ Hstep IH. exact (atomic_step_in_order q q' Hstep IH).
Qed.
End work_queue.

(** A swap between the load and the store breaks the order, for one producer
    alone: of two values pushed one after the other, the second is popped and the
    first is still queued. *)
Theorem push_overtaken :
  ∃ q : LinearWorkQueue Z, rtc queue_step new_LinearWorkQueue q ∧
    lq_accepted q = [1; 2] ∧ lq_popped q = [2].
Proof.
  set (q1 := TryPush_load 7 1 new_LinearWorkQueue : LinearWorkQueue Z).
  set (q2 := LockSubmissionQueue q1). set (q3 := (TryPop q2).2).
  set (q4 := (TryPush_store 7 q3).2). set (q5 := TryPush_load 7 2 q4).
  set (q6 := (TryPush_store 7 q5).2). set (q7 := LockSubmissionQueue q6).
  exists (TryPop q7).2. split; [|done].
  eapply rtc_l; [apply (step_load 7 1); done|]. eapply rtc_l; [apply step_lock; done|].
  eapply rtc_l; [apply step_pop; done|]. eapply rtc_l; [apply (step_store 7); by eexists|].
  eapply rtc_l; [apply (step_load 7 2); done|]. eapply rtc_l; [apply (step_store 7); by eexists|].
  eapply rtc_l; [apply step_lock; done|]. eapply rtc_l; [apply step_pop; done|]. apply rtc_refl.
Qed.

(** ** LinearWorker *)

(** The locals and members of [WorkerMain]; times are milliseconds. *)
Record LinearWorker (T : Type) : Type := mkLinearWorker {
  lw_context_queue : LinearWorkQueue T;
  lw_update_tick : Z;
  lw_current_time : Z;
  lw_last_update_time : Z;
  lw_last_update_context_time : Z;
}.
Arguments mkLinearWorker {T} _ _ _ _ _.
Arguments lw_context_queue {T} _.
Arguments lw_update_tick {T} _.
Arguments lw_current_time {T} _.
Arguments lw_last_update_time {T} _.
Arguments lw_last_update_context_time {T} _.

(** The virtual methods, as calls. *)
Inductive worker_call (T : Type) : Type :=
| UpdateContext_call (contexts : list T) (current_time delta_time : Z)
| Update_call (current_time delta_time : Z)
| UpdateEveryTick_call (current_time : Z)
| Sleep_call.
Arguments UpdateContext_call {T} _ _ _.
Arguments Update_call {T} _ _.
Arguments UpdateEveryTick_call {T} _.
Arguments Sleep_call {T}.

Section worker.
Context {T : Type}.
Implicit Types w : LinearWorker T.

(** [while (_context_queue.TryPop(context)) contexts.push_back(context);] with no
  producer in between. *)
Fixpoint pop_all (fuel : nat) (q : LinearWorkQueue T) : result (list T * LinearWorkQueue T) :=
match fuel with
| O => Err OutOfFuel
| S fuel =>
    match TryPop q with
    | (None, q) => Ok ([], q)
    | (Some context, q) => '(contexts, q) ← pop_all fuel q; mret (context :: contexts, q)
    end
end.

(** One iteration of the loop of [WorkerMain].  [now] is the reading of the clock
  before the calls, [after] the one after [UpdateContext]. *)
Definition WorkerMain_iteration (now after : Z) (w : LinearWorker T) : result (list (worker_call T) * LinearWorker T) :=
let q := LockSubmissionQueue (lw_context_queue w) in
'(contexts, q) ← pop_all (S (length (lq_queues q (negb (lq_submission q))))) q;
let '(calls1, context_time) :=
  match contexts with
  | [] => ([], lw_last_update_context_time w)
  | _ => ([UpdateContext_call contexts now (now - lw_last_update_context_time w)], after)
  end in
let '(calls2, update_time) :=
  if now - lw_last_update_time w >=? lw_update_tick w
  then ([Update_call now (now - lw_last_update_time w)], now)
  else ([], lw_last_update_time w) in
let sleep := match calls1 ++ calls2 with [] => [Sleep_call] | _ => [] end in
mret (calls1 ++ calls2 ++ [UpdateEveryTick_call now] ++ sleep,
      mkLinearWorker q (lw_update_tick w) now update_time context_time).

(** [Start]: the worker keeps the tick it was started with first. *)
Definition LinearWorker_Start (update_tick : Z) w : LinearWorker T :=
if lw_update_tick w =? 0
then mkLinearWorker (lw_context_queue w) update_tick (lw_current_time w) 0 0
else w.

Definition Submit (thread : Z) (context : T) w : bool * LinearWorker T :=
let '(b, q) := TryPush_now thread context (lw_context_queue w) in
(b, mkLinearWorker q (lw_update_tick w) (lw_current_time w) (lw_last_update_time w) (lw_last_update_context_time w)).

Lemma pop_all_spec fuel (q : LinearWorkQueue T) :
let fetch := negb (lq_submission q) in
(length (lq_queues q fetch) < fuel)%nat →
∃ q', pop_all fuel q = Ok (lq_queues q fetch, q') ∧ lq_queues q' fetch = [] ∧
  lq_queues q' (lq_submission q) = lq_queues q (lq_submission q) ∧ lq_submission q' = lq_submission q ∧
  lq_popped q' = lq_popped q ++ lq_queues q fetch.
Proof.
cbn. revert q. induction fuel as [|fuel IH]; intros q Hlen; [lia|]. cbn [pop_all]. rw /TryPop.
destruct (lq_queues q (negb (lq_submission q))) as [|v rest] eqn:Hq.
- eexists. split_and!; [done|done|done|done|]. cbn. by rw app_nil_r.
- set (q1 := mkLinearWorkQueue (set_queue _ rest _) _ _ _ _ _).
  assert (Hf : lq_queues q1 (negb (lq_submission q)) = rest) by (cbn; rw /set_queue Bool.eqb_reflx; done).
  assert (Hs : lq_queues q1 (lq_submission q) = lq_queues q (lq_submission q)).
  { cbn. rw /set_queue. by destruct (lq_submission q). }
  destruct (IH q1) as (q'&Hrun&H1&H2&H3&H4); [cbn [lq_submission q1]; rw Hf; cbn in Hlen; lia|].
  cbn [lq_submission q1] in *. exists q'. rw Hrun Hf. split_and!; [done|done|by rw H2 Hs|done|].
  rw H4 Hf /= -app_assoc. done.
Qed.


(** [Update] is called when a tick has elapsed since its last call, and not
  before; the deltas it is given add up to the time of the last call. *)
Definition update_deltas (calls : list (worker_call T)) : list Z :=
omap (λ c, match c with Update_call _ d => Some d | _ => None end) calls.

Fixpoint WorkerMain (readings : list (Z * Z)) w : result (list (worker_call T) * LinearWorker T) :=
match readings with
| [] => Ok ([], w)
| (now, after) :: readings =>
    '(calls, w) ← WorkerMain_iteration now after w;
    '(calls', w) ← WorkerMain readings w;
    mret (calls ++ calls', w)
end.

Lemma iteration_deltas now after w :
∃ calls w', WorkerMain_iteration now after w = Ok (calls, w') ∧
  lw_update_tick w' = lw_update_tick w ∧
  update_deltas calls =
    (if now - lw_last_update_time w >=? lw_update_tick w then [now - lw_last_update_time w] else []) ∧
  lw_last_update_time w' =
    (if now - lw_last_update_time w >=? lw_update_tick w then now else lw_last_update_time w).
Proof.
rw /WorkerMain_iteration. set (q := LockSubmissionQueue (lw_context_queue w)).
destruct (pop_all_spec (S (length (lq_queues q (negb (lq_submission q))))) q) as (q'&Hrun&_); [lia|].
rw Hrun. rw /mbind /result_bind.
destruct (lq_queues q (negb (lq_submission q))); case: (_ >=? _); (eexists _, _; split; [done|]); done.
Qed.

Theorem WorkerMain_ticks (readings : list (Z * Z)) w :
∃ calls w', WorkerMain readings w = Ok (calls, w') ∧
  Forall (λ d, lw_update_tick w ≤ d) (update_deltas calls) ∧
  foldr Z.add 0 (update_deltas calls) = lw_last_update_time w' - lw_last_update_time w.
Proof.
revert w. induction readings as [|[now after] readings IH]; intros w.
- eexists _, _. split_and!; [done|done|]. cbn. lia.
- destruct (iteration_deltas now after w) as (calls&w1&Hrun&Htick&Hd&Hl).
  destruct (IH w1) as (calls'&w2&Hrun'&Hall&Hsum). cbn [WorkerMain]. rw Hrun /mbind /result_bind Hrun'.
  eexists _, _. split; [done|]. rw /update_deltas omap_app. fold (update_deltas calls) (update_deltas calls').
  rw Hd Htick in Hall |- *. rw Hl in Hsum. revert Hall Hsum. case: Z.geb_spec => Hge Hall Hsum; split; cbn; try lia.
  + constructor; [lia|done].
  + done.
Qed.
End worker.
