(* ===== verification/Iocp.v ===== *)
(** * The transport

    [common/network/iocp]: the socket streams, their buffers and the threads
    that serve the completion ports ([IocpSocketServer.cpp],
    [IocpSocketServerOperation.cpp], [IocpTransferStream.cpp],
    [IocpAcceptorStream.cpp], [IocpConnectorStream.cpp], [IoContext.h],
    [SocketStreamBase.h]).

    The operating system is not part of the sources: what it answers is an
    argument of the operation that asks ([accepted]: the call succeeded or is
    pending), and an operation it takes is an output.  Streams are named by
    their id, buffers ([IoContext]) by the stream whose pool they come from, the
    pool (read or write) and their number in it. *)

From S2P Require Import Prelude Memory.
From S2P Require Import Coordinate SectorGrid Fixture Packet.

Open Scope Z_scope.

Inductive IoOperation : Type :=
| Io_None | Io_Accept | Io_Read | Io_Write | Io_Disconnect | Io_Connect | Io_Tick.

#[export] Instance IoOperation_eq_dec : EqDecision IoOperation.
Proof. solve_decision. Defined.

(** [io_length], [io_capacity] and [io_count] are those of the [SocketBuffer]
    part; its bytes are the business of the engine. *)
Record IoContext : Type := mkIoContext {
  io_operation : IoOperation;
  io_attachment : Z;
  io_operation_stream : option Z;
  io_length : Z;
  io_capacity : Z;
  io_count : Z;
}.

Definition IoContextPtr : Type := Z * bool * Z.
Definition ptr_stream (c : IoContextPtr) : Z := c.1.1.
Definition ptr_write (c : IoContextPtr) : bool := c.1.2.

(** [SocketStreamBase], its reference count and the two buffer pools. *)
Record IocpStream : Type := mkIocpStream {
  st_worker_index : Z;
  st_is_connector_socket : bool;
  st_socket_address : SocketAddress;
  st_connected : bool;
  st_count : Z;
  st_read_buffer_pool : ObjectPool;
  st_write_buffer_pool : ObjectPool;
}.

Record IocpSocketServer : Type := mkIocpSocketServer {
  sk_config : SocketServerConfig;
  sk_is_initialized : bool;
  sk_acceptor_socket_pool : option ObjectPool;
  sk_connector_socket_pool : option ObjectPool;
  sk_io_handles : Z;
  sk_has_acceptor : bool;
  sk_start : bool;
  sk_streams : gmap Z IocpStream;
  sk_contexts : gmap IoContextPtr IoContext;
  sk_hang_acceptor_count : Z;
}.

(** What the threads do that others see: an operation handed to the operating
    system, a completion posted to a port, a call of the event handler. *)
Inductive io_out : Type :=
| AcceptEx (c : IoContextPtr)
| ConnectEx (c : IoContextPtr)
| DisconnectEx (c : IoContextPtr)
| WSARecv (c : IoContextPtr) (len : Z)
| WSASend (c : IoContextPtr) (offset len : Z)
| PostQueuedCompletionStatus (c : IoContextPtr)
| Handler_OnAccept (stream : Z)
| Handler_OnConnect (stream : option Z) (attachment : Z)
| Handler_OnRead (stream : Z) (c : IoContextPtr) (attachment : Z)
| Handler_OnWrite (stream : Z) (c : IoContextPtr) (attachment : Z)
| Handler_OnDisconnect (stream attachment : Z)
| Handler_OnTick (worker_index : Z).

#[local] Abbreviation M := (Act IocpSocketServer io_out).

(** ** Access *)

Definition st_set_connected (b : bool) (t : IocpStream) : IocpStream :=
  mkIocpStream (st_worker_index t) (st_is_connector_socket t) (st_socket_address t) b (st_count t)
    (st_read_buffer_pool t) (st_write_buffer_pool t).
Definition st_set_count (n : Z) (t : IocpStream) : IocpStream :=
  mkIocpStream (st_worker_index t) (st_is_connector_socket t) (st_socket_address t) (st_connected t) n
    (st_read_buffer_pool t) (st_write_buffer_pool t).
Definition st_set_socket_address (a : SocketAddress) (t : IocpStream) : IocpStream :=
  mkIocpStream (st_worker_index t) (st_is_connector_socket t) a (st_connected t) (st_count t)
    (st_read_buffer_pool t) (st_write_buffer_pool t).
Definition st_pool (write : bool) (t : IocpStream) : ObjectPool :=
  if write then st_write_buffer_pool t else st_read_buffer_pool t.
Definition st_set_pool (write : bool) (p : ObjectPool) (t : IocpStream) : IocpStream :=
  mkIocpStream (st_worker_index t) (st_is_connector_socket t) (st_socket_address t) (st_connected t) (st_count t)
    (if write then st_read_buffer_pool t else p) (if write then p else st_write_buffer_pool t).

Definition sk_set_streams (x : gmap Z IocpStream) (v : IocpSocketServer) : IocpSocketServer :=
  mkIocpSocketServer (sk_config v) (sk_is_initialized v) (sk_acceptor_socket_pool v) (sk_connector_socket_pool v)
    (sk_io_handles v) (sk_has_acceptor v) (sk_start v) x (sk_contexts v) (sk_hang_acceptor_count v).
Definition sk_set_contexts (x : gmap IoContextPtr IoContext) (v : IocpSocketServer) : IocpSocketServer :=
  mkIocpSocketServer (sk_config v) (sk_is_initialized v) (sk_acceptor_socket_pool v) (sk_connector_socket_pool v)
    (sk_io_handles v) (sk_has_acceptor v) (sk_start v) (sk_streams v) x (sk_hang_acceptor_count v).
Definition sk_set_hang_acceptor_count (x : Z) (v : IocpSocketServer) : IocpSocketServer :=
  mkIocpSocketServer (sk_config v) (sk_is_initialized v) (sk_acceptor_socket_pool v) (sk_connector_socket_pool v)
    (sk_io_handles v) (sk_has_acceptor v) (sk_start v) (sk_streams v) (sk_contexts v) x.
Definition sk_set_acceptor_pool (x : option ObjectPool) (v : IocpSocketServer) : IocpSocketServer :=
  mkIocpSocketServer (sk_config v) (sk_is_initialized v) x (sk_connector_socket_pool v)
    (sk_io_handles v) (sk_has_acceptor v) (sk_start v) (sk_streams v) (sk_contexts v) (sk_hang_acceptor_count v).
Definition sk_set_connector_pool (x : option ObjectPool) (v : IocpSocketServer) : IocpSocketServer :=
  mkIocpSocketServer (sk_config v) (sk_is_initialized v) (sk_acceptor_socket_pool v) x
    (sk_io_handles v) (sk_has_acceptor v) (sk_start v) (sk_streams v) (sk_contexts v) (sk_hang_acceptor_count v).

Definition get_stream (s : Z) : M IocpStream :=
  v ← get_state; lift (from_option_ub "stream" (sk_streams v !! s)).
Definition put_stream (s : Z) (t : IocpStream) : M () :=
  modify (λ v, sk_set_streams (<[s := t]> (sk_streams v)) v).
Definition get_context (c : IoContextPtr) : M IoContext :=
  v ← get_state; lift (from_option_ub "io_context" (sk_contexts v !! c)).
Definition put_context (c : IoContextPtr) (x : IoContext) : M () :=
  modify (λ v, sk_set_contexts (<[c := x]> (sk_contexts v)) v).

Definition CONNECTOR_SOCKET_START_ID : Z := UINT32_MAX / 2.

(** The pool a stream comes from ([ObjectBlock::pool_address]): the two pools
    number their streams from 1 and from [CONNECTOR_SOCKET_START_ID]. *)
Definition from_connector_pool (s : Z) : bool := s >=? CONNECTOR_SOCKET_START_ID.
Definition socket_pool (connector : bool) (v : IocpSocketServer) : option ObjectPool :=
  if connector then sk_connector_socket_pool v else sk_acceptor_socket_pool v.
Definition set_socket_pool (connector : bool) (p : ObjectPool) (v : IocpSocketServer) : IocpSocketServer :=
  if connector then sk_set_connector_pool (Some p) v else sk_set_acceptor_pool (Some p) v.

(** ** References to streams *)

Definition stream_Retain (s : Z) : M () :=
  t ← get_stream s; put_stream s (st_set_count (to_i32 (st_count t + 1)) t).
Definition stream_Release (s : Z) : M Z :=
  t ← get_stream s;
  put_stream s (st_set_count (to_i32 (st_count t - 1)) t) ;;
  mret (to_i32 (st_count t - 1)).

(** [SocketObjectPool::Push]; a stream allocated from the heap is deleted. *)
Definition push_socket (s : Z) : M () :=
  v ← get_state;
  let connector := from_connector_pool s in
  p ← lift (from_option_ub "pool_address" (socket_pool connector v));
  p' ← lift (Push s p);
  modify (set_socket_pool connector p') ;;
  if bool_decide (s ∈ op_heap p) then modify (λ v, sk_set_streams (delete s (sk_streams v)) v) else mret ().

Definition SocketObjectDeleter (s : Z) : M () := push_socket s.

(** [IntrusivePtr::Release] of a pointer to [s], which it leaves null. *)
Definition release_reference (s : Z) : M () :=
  result ← stream_Release s;
  if result =? 0 then SocketObjectDeleter s else mret ().

Definition with_stream (s : option Z) (x : IoContext) : IoContext :=
  mkIoContext (io_operation x) (io_attachment x) s (io_length x) (io_capacity x) (io_count x).

(** [io_context->operation_stream.Release()] *)
Definition operation_stream_Release (c : IoContextPtr) : M () :=
  x ← get_context c;
  match io_operation_stream x with
  | None => mret ()
  | Some s => release_reference s ;; put_context c (with_stream None x)
  end.

(** [context->operation_stream = std::move(IntrusivePtr<TransferStream>(this, SocketObjectDeleter))] *)
Definition operation_stream_assign (c : IoContextPtr) (s : Z) : M () :=
  stream_Retain s ;;
  operation_stream_Release c ;;
  x ← get_context c;
  put_context c (with_stream (Some s) x).

Definition SetConnectionStatus (s : Z) (connect : bool) : M bool :=
  t ← get_stream s;
  if Bool.eqb (st_connected t) (negb connect)
  then put_stream s (st_set_connected connect t) ;; mret true
  else mret false.

(** ** Buffers *)

(** The [memset] clears the operation, the attachment and the pointer to the
    stream, without releasing it. *)
Definition cleared (x : IoContext) : IoContext := mkIoContext Io_None 0 None 0 (io_capacity x) (io_count x).

Definition pop_buffer (s : Z) (write must_allocation : bool) : M (option IoContextPtr) :=
  t ← get_stream s;
  let '(o, p) := Pop must_allocation (st_pool write t) in
  match o with
  | None => mret None
  | Some o =>
      put_stream s (st_set_pool write p t) ;;
      v ← get_state;
      let capacity := if write then ssc_write_buffer_capacity (sk_config v) else ssc_read_buffer_capacity (sk_config v) in
      let c := (s, write, o) in
      put_context c (cleared (default (mkIoContext Io_None 0 None 0 capacity 0) (sk_contexts v !! c))) ;;
      mret (Some c)
  end.

Definition AllocateReadBuffer (s : Z) (must_allocation : bool) : M (option IoContextPtr) :=
  pop_buffer s false must_allocation.

Definition AllocateWriteBuffer (s : Z) (must_allocation : bool) : M (option IoContextPtr) :=
  c ← pop_buffer s true must_allocation;
  match c with
  | None => mret None
  | Some c =>
      x ← get_context c;
      check "buffer->Ref() == 0" (io_count x =? 0) ;;
      mret (Some c)
  end.

(** [IoContextObjectPool::Push] onto the pool of the buffer's stream. *)
Definition push_buffer (c : IoContextPtr) : M () :=
  t ← get_stream (ptr_stream c);
  p ← lift (Push c.2 (st_pool (ptr_write c) t));
  put_stream (ptr_stream c) (st_set_pool (ptr_write c) p t).

(** [ReleaseReadBuffer] and [ReleaseWriteBuffer] of a buffer of the stream. *)
Definition release_buffer (s : Z) (write : bool) (c : IoContextPtr) : M () :=
  check "block->pool_address == this" ((ptr_stream c =? s) && Bool.eqb (ptr_write c) write) ;;
  x ← get_context c;
  put_context c (mkIoContext (io_operation x) (io_attachment x) (io_operation_stream x) (io_length x)
                   (io_capacity x) (to_i32 (io_count x - io_count x))) ;;
  operation_stream_Release c ;;
  push_buffer c.
Definition ReleaseReadBuffer (s : Z) (c : IoContextPtr) : M () := release_buffer s false c.
Definition ReleaseWriteBuffer (s : Z) (c : IoContextPtr) : M () := release_buffer s true c.

(** ** IocpTransferStream *)

Definition begin_operation (op : IoOperation) (attachment : Z) (s : Z) (c : IoContextPtr) : M () :=
  x ← get_context c;
  put_context c (mkIoContext op attachment (io_operation_stream x) (io_length x) (io_capacity x) (io_count x)) ;;
  operation_stream_assign c s.

Definition TransmitRead (s : Z) (c : IoContextPtr) (attachment : Z) (accepted : bool) : M () :=
  x ← get_context c;
  check "buffer->capacity >= buffer->length" (io_length x <=? io_capacity x) ;;
  begin_operation Io_Read attachment s c ;;
  t ← get_stream s;
  emit [if st_connected t && accepted then WSARecv c (io_capacity x - io_length x) else PostQueuedCompletionStatus c].

Definition TransmitWrite (s : Z) (c : IoContextPtr) (offset attachment : Z) (accepted : bool) : M () :=
  x ← get_context c;
  check "offset <= buffer->length" (offset <=? io_length x) ;;
  begin_operation Io_Write attachment s c ;;
  t ← get_stream s;
  emit [if st_connected t && accepted then WSASend c offset (io_length x - offset) else PostQueuedCompletionStatus c].

Definition TransmitDisconnect (s attachment : Z) (accepted : bool) : M () :=
  changed ← SetConnectionStatus s false;
  if negb changed then mret ()
  else
    c ← AllocateWriteBuffer s true;
    c ← lift (from_option_ub "context" c);
    begin_operation Io_Disconnect attachment s c ;;
    if accepted then emit [DisconnectEx c]
    else
      operation_stream_Release c ;;
      ReleaseWriteBuffer s c.

(** ** IocpAcceptorStream, IocpConnectorStream *)

(** What a call into the operating system returns, and [WSAGetLastError()]
    after it. *)
Record os_answer : Type := mkAnswer { an_result : Z; an_last_error : Z }.

Definition SOCKET_ERROR : Z := -1.
Definition WSA_IO_PENDING : Z := 997.

Definition WSAOperationResult (answer : os_answer) : bool :=
  if an_result answer =? SOCKET_ERROR then an_last_error answer =? WSA_IO_PENDING else true.

Definition TransmitAccept (s : Z) (answer : os_answer) : M bool :=
  c ← AllocateReadBuffer s false;
  match c with
  | None => fail (AssertionFailed "io_context != nullptr")
  | Some c =>
      x ← get_context c;
      begin_operation Io_Accept (io_attachment x) s c ;;
      if WSAOperationResult answer then emit [AcceptEx c] ;; mret true
      else ReleaseReadBuffer s c ;; mret false
  end.

Definition TransmitConnect (s attachment : Z) (accepted : bool) : M () :=
  c ← AllocateWriteBuffer s false;
  match c with
  | None => fail (AssertionFailed "io_context != nullptr")
  | Some c =>
      begin_operation Io_Connect attachment s c ;;
      emit [if accepted then ConnectEx c else PostQueuedCompletionStatus c]
  end.

(** ** IocpSocketServer *)

(** The new stream's block is free until it is popped, its fields are those of
    the constructor and [SocketStreamBase::Initialize]. *)
Definition Empty_address : SocketAddress := mkSocketAddress "0.0.0.0" 0.

(** [SocketInitializer::Initialize]; [socket], [registered] and [bound] are the
    answers of [WSASocket], [CreateIoCompletionPort] and [bind]. *)
Definition SocketInitializer_Initialize (config : SocketServerConfig) (handles id : Z)
    (socket registered bound : bool) : result IocpStream :=
  if negb socket then Err (Exception "cannot allocate win socket")
  else if ssc_worker_count config =? 0 then Err (UndefinedBehaviour "id % worker_count")
  else
    let worker_index := id mod ssc_worker_count config in
    if handles <=? worker_index then Err (UndefinedBehaviour "_io_handles[worker_index]")
    else if negb registered then Err (Exception "cannot register socket to iocp")
    else if from_connector_pool id && negb bound then Err (Exception "failed to bind connector socket")
    else
      let pool size := new_ObjectPool size (size / 4) 1 in
      read_pool ← pool (ssc_read_buffer_pool_size config);
      write_pool ← pool (ssc_write_buffer_pool_size config);
      Ok (mkIocpStream worker_index (from_connector_pool id) Empty_address false 0 read_pool write_pool).

(** The answers of the operating system while a stream is set up. *)
Record socket_setup : Type := mkSocketSetup { su_socket : bool; su_registered : bool; su_bound : bool }.

(** [new SocketObjectPool(count, count, this, start)]: every stream of the stock
    is initialised, in order. *)
Fixpoint initialize_streams (config : SocketServerConfig) (handles : Z) (setup : Z → socket_setup) (ids : list Z)
    (streams : gmap Z IocpStream) : result (gmap Z IocpStream) :=
  match ids with
  | [] => Ok streams
  | id :: ids =>
      let u := setup id in
      t ← SocketInitializer_Initialize config handles id (su_socket u) (su_registered u) (su_bound u);
      initialize_streams config handles setup ids (<[id := t]> streams)
  end.

Definition new_SocketObjectPool (setup : Z → socket_setup) (count start : Z) (v : IocpSocketServer)
    : result (ObjectPool * gmap Z IocpStream) :=
  p ← new_ObjectPool count count start;
  streams ← initialize_streams (sk_config v) (sk_io_handles v) setup (seqZ start count) (sk_streams v);
  Ok (p, streams).

(** The loop over [worker_count]; [created] answers [CreateIoCompletionPort]. *)
Fixpoint create_ports (n : nat) (index : Z) (created : Z → bool) : bool * Z :=
  match n with
  | O => (true, index)
  | S n => if created index then create_ports n (index + 1) created else (false, index)
  end.

(** [SocketServerConfig _config = { 0 }] sets the first field; the others keep
    their default initialisers. *)
Definition initial_config : SocketServerConfig := mkSocketServerConfig 0 256 1024 2 8 65536 8 65536 0.

Definition new_IocpSocketServer : IocpSocketServer :=
  mkIocpSocketServer initial_config false None None 0 false false ∅ ∅ 0.

Definition IocpSocketServer_Initialize (config : SocketServerConfig) (created : Z → bool) (setup : Z → socket_setup)
    : M bool :=
  v ← get_state;
  if sk_is_initialized v then mret false
  else
    modify (λ v, mkIocpSocketServer config true (sk_acceptor_socket_pool v) (sk_connector_socket_pool v)
      (sk_io_handles v) (sk_has_acceptor v) (sk_start v) (sk_streams v) (sk_contexts v) (sk_hang_acceptor_count v)) ;;
    if (ssc_read_buffer_capacity config =? 0) || negb (ssc_read_buffer_capacity config mod 4096 =? 0)
       || (ssc_write_buffer_capacity config =? 0) || negb (ssc_write_buffer_capacity config mod 4096 =? 0)
    then throw "buffer must align as 4096 byte"
    else if (ssc_read_buffer_pool_size config <? 4) || (ssc_write_buffer_pool_size config <? 4)
    then throw "need at least of 4 buffers"
    else
      let '(all, handles) := create_ports (Z.to_nat (ssc_worker_count config)) 0 created in
      modify (λ v, mkIocpSocketServer (sk_config v) (sk_is_initialized v) (sk_acceptor_socket_pool v)
        (sk_connector_socket_pool v) handles (sk_has_acceptor v) (sk_start v) (sk_streams v) (sk_contexts v)
        (sk_hang_acceptor_count v)) ;;
      if negb all then mret false
      else
        v ← get_state;
        '(p, streams) ← lift (new_SocketObjectPool setup (ssc_max_connectable_socket_count config)
                                CONNECTOR_SOCKET_START_ID v);
        modify (λ v, sk_set_streams streams (sk_set_connector_pool (Some p) v)) ;;
        mret true.

(** [SetSocketOptions] adds up the answers of [setsockopt], an [int]. *)
Definition SocketOptions : Type := list (Z * Z).
Definition SetSocketOptions (setsockopt : Z → Z → Z) (options : SocketOptions) : Z :=
  foldl (λ result option, to_i32 (result + setsockopt option.1 option.2)) 0 options.

Definition SO_CONDITIONAL_ACCEPT : Z := 0x3002.

(** The answers to [WSASocket], [setsockopt] and the two calls of
    [CreateIoCompletionPort] for the acceptor's socket. *)
Record acceptor_setup : Type := mkAcceptorSetup {
  as_socket : bool;
  as_setsockopt : Z → Z → Z;
  as_port : bool;
  as_registered : bool;
}.

Definition set_has_acceptor (v : IocpSocketServer) : IocpSocketServer :=
  mkIocpSocketServer (sk_config v) (sk_is_initialized v) (sk_acceptor_socket_pool v)
    (sk_connector_socket_pool v) (sk_io_handles v) true (sk_start v) (sk_streams v) (sk_contexts v)
    (sk_hang_acceptor_count v).

Definition InitializeAcceptor (options : SocketOptions) (acceptor : acceptor_setup) (setup : Z → socket_setup)
    : M bool :=
  v ← get_state;
  if sk_has_acceptor v then mret false
  else
    '(p, streams) ← lift (new_SocketObjectPool setup (ssc_max_acceptable_socket_count (sk_config v)) 1 v);
    modify (λ v, sk_set_streams streams (sk_set_acceptor_pool (Some p) v)) ;;
    if negb (as_socket acceptor) then mret false
    else if SetSocketOptions (as_setsockopt acceptor) options <? 0 then mret false
    else if SetSocketOptions (as_setsockopt acceptor) [(SO_CONDITIONAL_ACCEPT, 1)] <? 0 then mret false
    else if negb (as_port acceptor) then mret false
    else
      modify set_has_acceptor ;;
      if negb (as_registered acceptor) then mret false else mret true.

(** [Pop] of a socket pool; [must_allocation] sets up a new stream when the
    stock is used up. *)
Definition pop_socket (connector must_allocation : bool) (setup : Z → socket_setup) : M (option Z) :=
  v ← get_state;
  p ← lift (from_option_ub "socket_pool" (socket_pool connector v));
  let '(s, p') := Pop must_allocation p in
  modify (set_socket_pool connector p') ;;
  match s with
  | Some s =>
      if bool_decide (s ∈ op_heap p') then
        let u := setup s in
        t ← lift (SocketInitializer_Initialize (sk_config v) (sk_io_handles v) s (su_socket u) (su_registered u) (su_bound u));
        put_stream s t ;; mret (Some s)
      else mret (Some s)
  | None => mret None
  end.

Definition AcceptSocket (setup : Z → socket_setup) (answer : os_answer) : M bool :=
  s ← pop_socket false false setup;
  match s with
  | None => mret false
  | Some s =>
      transmitted ← TransmitAccept s answer;
      if transmitted : bool then mret true
      else push_socket s ;; mret false
  end.

(** [for (; hang_acceptor_count > 0; hang_acceptor_count--)] *)
Fixpoint retry_hang (n : nat) (setup : Z → socket_setup) (answers : nat → os_answer) : M () :=
  match n with
  | O => mret ()
  | S n =>
      ok ← AcceptSocket setup (answers n);
      if negb ok then mret ()
      else
        modify (λ v, sk_set_hang_acceptor_count (u32 (sk_hang_acceptor_count v - 1)) v) ;;
        retry_hang n setup answers
  end.

(** [IoAccept]: [address] is what [inet_ntop] makes of the peer's address. *)
Definition IoAccept (c : IoContextPtr) (address : option SocketAddress) : M () :=
  x ← get_context c;
  match address with
  | None => throw "cannot convert address to ip"
  | Some address =>
      s ← lift (from_option_ub "operation_stream" (io_operation_stream x));
      t ← get_stream s;
      put_stream s (st_set_socket_address address t) ;;
      SetConnectionStatus s true ;;
      stream_Retain s
  end.

Inductive acceptor_status : Type :=
| Acceptor_Completed (c : IoContextPtr) (address : option SocketAddress)
| Acceptor_Retry
| Acceptor_OtherError.

(** One iteration of [AcceptorMain]; [Acceptor_Retry] are the errors it goes on
    after, the timeout of 500 ms among them. *)
Definition AcceptorMain_iteration (setup : Z → socket_setup) (status : acceptor_status)
    (retried : nat → os_answer) (answer : os_answer) : M () :=
  v ← get_state;
  retry_hang (Z.to_nat (sk_hang_acceptor_count v)) setup retried ;;
  match status with
  | Acceptor_Retry => mret ()
  | Acceptor_OtherError => fail (AssertionFailed "false")
  | Acceptor_Completed c address =>
      IoAccept c address ;;
      emit [PostQueuedCompletionStatus c] ;;
      ok ← AcceptSocket setup answer;
      if negb ok then modify (λ v, sk_set_hang_acceptor_count (u32 (sk_hang_acceptor_count v + 1)) v) else mret ()
  end.

(** [IocpSocketServerOperation.cpp]; [OnRead] and [OnWrite] take a copy of the
    pointer to the stream. *)
Definition IoRead (c : IoContextPtr) (bytes_transferred : Z) (disconnect_accepted : bool) : M () :=
  x ← get_context c;
  put_context c (mkIoContext (io_operation x) (io_attachment x) (io_operation_stream x)
    (u32 (io_length x + bytes_transferred)) (io_capacity x) (io_count x)) ;;
  s ← lift (from_option_ub "operation_stream" (io_operation_stream x));
  if 0 <? bytes_transferred then
    stream_Retain s ;;
    emit [Handler_OnRead s c (io_attachment x)]
  else
    TransmitDisconnect s (io_attachment x) disconnect_accepted ;;
    ReleaseReadBuffer s c.

Definition IoWrite (c : IoContextPtr) : M () :=
  x ← get_context c;
  s ← lift (from_option_ub "operation_stream" (io_operation_stream x));
  stream_Retain s ;;
  emit [Handler_OnWrite s c (io_attachment x)].

Definition IoDisconnect (c : IoContextPtr) : M () :=
  x ← get_context c;
  s ← lift (from_option_ub "operation_stream" (io_operation_stream x));
  emit [Handler_OnDisconnect s (io_attachment x)] ;;
  result ← stream_Release s;
  if result =? 0 then SocketObjectDeleter s ;; put_context c (with_stream None x) else mret ().

Definition IoConnect (c : IoContextPtr) (connected : bool) : M () :=
  x ← get_context c;
  s ← lift (from_option_ub "operation_stream" (io_operation_stream x));
  if negb connected then emit [Handler_OnConnect None (io_attachment x)]
  else
    SetConnectionStatus s true ;;
    stream_Retain s ;;
    emit [Handler_OnConnect (Some s) (io_attachment x)].

(** [result] and [GetLastError()]: [Io_Listed] are the errors [IoMain] goes on
    after. *)
Inductive io_status : Type := Io_Completed | Io_Listed | Io_HandleClosed | Io_OtherError.

(** One iteration of [IoMain] for the operation of a stream: [connected] is
    [SO_CONNECT_TIME]'s answer. *)
Definition IoMain_iteration (c : IoContextPtr) (status : io_status) (bytes_transferred : Z)
    (connected disconnect_accepted : bool) : M () :=
  match status with
  | Io_HandleClosed => mret ()
  | Io_OtherError => fail (AssertionFailed "false")
  | Io_Completed | Io_Listed =>
      x ← get_context c;
      let finish := operation_stream_Release c ;; push_buffer c in
      match io_operation x with
      | Io_Read => IoRead c bytes_transferred disconnect_accepted
      | Io_Write => IoWrite c
      | Io_Disconnect => IoDisconnect c ;; finish
      | Io_Accept =>
          s ← lift (from_option_ub "operation_stream" (io_operation_stream x));
          emit [Handler_OnAccept s] ;; finish
      | Io_Connect => IoConnect c connected ;; finish
      | Io_None | Io_Tick => finish
      end
  end.

(** [answers] are those of [bind] and [listen], zero or an error code. *)
Fixpoint start_acceptors (n : nat) (setup : Z → socket_setup) (answers : nat → os_answer) : M bool :=
  match n with
  | O => mret true
  | S n =>
      ok ← AcceptSocket setup (answers n);
      if negb ok then mret false else start_acceptors n setup answers
  end.

Definition IocpSocketServer_Start (setup : Z → socket_setup) (bound listening last_error : Z)
    (answers : nat → os_answer) : M Z :=
  v ← get_state;
  if negb (sk_is_initialized v) then mret (-1)
  else
    modify (λ v, mkIocpSocketServer (sk_config v) (sk_is_initialized v) (sk_acceptor_socket_pool v)
      (sk_connector_socket_pool v) (sk_io_handles v) (sk_has_acceptor v) true (sk_streams v) (sk_contexts v)
      (sk_hang_acceptor_count v)) ;;
    if negb (sk_has_acceptor v) then mret 0
    else if negb (bound =? 0) then mret bound
    else if negb (listening =? 0) then mret listening
    else
      ok ← start_acceptors (Z.to_nat (ssc_parallel_acceptor_count (sk_config v))) setup answers;
      mret (if ok : bool then 0 else last_error).

Definition IocpSocketServer_Connect (socket_address : SocketAddress) (attachment : Z) (setup : Z → socket_setup)
    (accepted : bool) : M () :=
  s ← pop_socket true false setup;
  s ← (match s with
       | Some s => mret (Some s)
       | None => pop_socket true true setup
       end);
  s ← lift (from_option_ub "socket_stream" s);
  t ← get_stream s;
  put_stream s (st_set_socket_address socket_address t) ;;
  TransmitConnect s attachment accepted.

(** One round of [TickMain]: a completion for every port, with a context of a
    pool of its own that is not tested for being used up. *)
Fixpoint tick_round (handles : list Z) (pool : ObjectPool) : result (list Z * ObjectPool) :=
  match handles with
  | [] => Ok ([], pool)
  | _ :: handles =>
      let '(o, pool) := Pop false pool in
      o ← from_option_ub "io_context" o;
      '(posted, pool) ← tick_round handles pool;
      Ok (o :: posted, pool)
  end.

(** [IoMain] for a tick. *)
Definition IoMain_tick (worker_index o : Z) (pool : ObjectPool) : result (io_out * ObjectPool) :=
  pool ← Push o pool;
  Ok (Handler_OnTick worker_index, pool).

(** [Shutdown]: the threads that were started are joinable; [join] of another
    throws. *)
Record server_threads : Type := mkServerThreads { th_io : nat; th_acceptor : bool; th_tick : bool }.

Inductive shutdown_out : Type :=
| CloseHandle_io (index : Z)
| CloseHandle_acceptor
| Join_io (index : nat)
| Join_acceptor
| Join_tick.

Definition join (joinable : bool) (o : shutdown_out) : Act IocpSocketServer shutdown_out () :=
  if joinable then emit [o] else throw "std::system_error".

Definition IocpSocketServer_Shutdown (gracefull : bool) (threads : server_threads)
    : Act IocpSocketServer shutdown_out () :=
  modify (λ v, mkIocpSocketServer (sk_config v) (sk_is_initialized v) (sk_acceptor_socket_pool v)
    (sk_connector_socket_pool v) (sk_io_handles v) (sk_has_acceptor v) false (sk_streams v) (sk_contexts v)
    (sk_hang_acceptor_count v)) ;;
  v ← get_state;
  emit (CloseHandle_io <$> seqZ 0 (sk_io_handles v)) ;;
  emit [CloseHandle_acceptor] ;;
  if gracefull then
    emit (Join_io <$> seq 0 (th_io threads)) ;;
    join (th_acceptor threads) Join_acceptor ;;
    join (th_tick threads) Join_tick
  else mret ().
