(* ===== verification/IocpLife.v ===== *)
(** * The life of a stream

    Who may hold a stream of the transport ([Iocp.v]) and when it goes back to
    its pool, in every interleaving of the threads. *)

From stdpp Require Import gmultiset.
From S2P Require Import Prelude Memory.
From S2P Require Import Coordinate SectorGrid Fixture Packet Iocp.

#[local] Unset SsrOldRewriteGoalsOrder.

Open Scope Z_scope.

(** ** What the code does not store

    The operations of the operating system under way ([g_listening]: the
    [AcceptEx] at the acceptor's port, [g_flight]: the others and the posted
    completions), the pointers the event handler and the code under way hold
    ([g_held]), the connections ([g_conn]: those that own a reference,
    [g_open]: those the handler was told about) and the streams popped that
    have no reference yet. *)
Record io_ghost : Type := mkIoGhost {
  g_listening : gset IoContextPtr;
  g_flight : gset IoContextPtr;
  g_held : gmultiset Z;
  g_conn : gset Z;
  g_open : gset Z;
  g_popped : gset Z;
}.

(** The buffers that point to a stream. *)
Definition namers (m : gmap IoContextPtr IoContext) (s : Z) : gset IoContextPtr :=
  dom (filter (λ kx : IoContextPtr * IoContext, io_operation_stream kx.2 = Some s) m).

Definition refs (g : io_ghost) (m : gmap IoContextPtr IoContext) (s : Z) : Z :=
  Z.of_nat (size (namers m s)) + Z.of_nat (multiplicity s (g_held g)) + Z.b2z (bool_decide (s ∈ g_conn g)).

Lemma elem_of_namers m s c : c ∈ namers m s ↔ io_operation_stream <$> m !! c = Some (Some s).
Proof.
  rw /namers elem_of_dom. split.
  - intros [x [Hx Hs]%map_lookup_filter_Some]. cbn in Hs. by rw Hx /= Hs.
  - destruct (m !! c) as [x|] eqn:Hx; [|done]. cbn. intros [= Hs]. exists x. by apply map_lookup_filter_Some.
Qed.

Lemma namers_insert m c x s :
  namers (<[c := x]> m) s =
    if decide (io_operation_stream x = Some s) then {[c]} ∪ namers m s else namers m s ∖ {[c]}.
Proof.
  apply set_eq. intros d. rw elem_of_namers. destruct (decide (d = c)) as [->|Hne].
  - rw lookup_insert_eq /=. case_decide as Hx; [rw Hx; set_solver|]. split; [congruence|set_solver].
  - rw (lookup_insert_ne m c d x (not_eq_sym Hne)) -elem_of_namers. case_decide; set_solver.
Qed.

(** Rewriting a buffer's other fields leaves the pointers alone. *)
Lemma namers_same m c x y s :
  m !! c = Some y → io_operation_stream x = io_operation_stream y → namers (<[c := x]> m) s = namers m s.
Proof.
  intros Hy Hx. apply set_eq. intros d. rw !elem_of_namers. destruct (decide (d = c)) as [->|Hne].
  - by rw lookup_insert_eq Hy /= Hx.
  - by rw (lookup_insert_ne m c d x (not_eq_sym Hne)).
Qed.

Lemma namers_pos m s c : c ∈ namers m s → 1 ≤ Z.of_nat (size (namers m s)).
Proof.
  intros Hc. assert (1 ≤ size (namers m s))%nat; [|lia].
  rw -(size_singleton (C:=gset IoContextPtr) c). apply subseteq_size. set_solver.
Qed.

(** ** The invariant *)

Definition opening (op : IoOperation) : bool :=
  match op with Io_Accept | Io_Connect => true | _ => false end.
Definition internal (op : IoOperation) : bool :=
  match op with Io_Accept | Io_Connect | Io_Disconnect => true | _ => false end.

(** The pool a stream belongs to, and whether the pool lent it out. *)
Record pooled (pool : option ObjectPool) (popped : gset Z) (s : Z) (t : IocpStream) : Prop := {
  po_pool : ∃ p, pool = Some p ∧
    (s ∈ op_in_used p ↔ st_count t ≠ 0 ∨ s ∈ popped) ∧ (s ∈ op_pool p ↔ s ∉ op_in_used p);
}.

(** A buffer: it points to no stream but its own, to none at all while it is
    free, and its bytes fit. *)
Record buffer_ok (t : IocpStream) (c : IoContextPtr) (x : IoContext) : Prop := {
  bo_own : io_operation_stream x = None ∨ io_operation_stream x = Some (ptr_stream c);
  bo_free : c.2 ∉ op_in_used (st_pool (ptr_write c) t) → io_operation_stream x = None ∧ io_count x = 0;
  bo_length : 0 ≤ io_length x ≤ io_capacity x;
  bo_capacity : io_capacity x < 2 ^ 32;
}.

(** The operations that go under way, and the pool their buffer is from. *)
Definition operation_kind (c : IoContextPtr) (op : IoOperation) : Prop :=
  match op with
  | Io_Read => ptr_write c = false
  | Io_None | Io_Tick => False
  | Io_Accept | Io_Write | Io_Disconnect | Io_Connect => True
  end.

(** A buffer of an operation under way. *)
Record flying (g : io_ghost) (m : gmap IoContextPtr IoContext) (c : IoContextPtr) (t : IocpStream) (x : IoContext) : Prop := {
  fl_used : c.2 ∈ op_in_used (st_pool (ptr_write c) t);
  fl_stream : io_operation_stream x = Some (ptr_stream c);
  fl_internal : internal (io_operation x) = true → io_count x = 0;
  fl_listening : c ∈ g_listening g → io_operation x = Io_Accept ∧ c ∉ g_flight g;
  fl_opening : opening (io_operation x) = true →
    ptr_stream c ∉ g_open g ∧
    st_count t = 1 + Z.b2z (bool_decide (ptr_stream c ∈ g_conn g)) ∧
    (ptr_stream c ∈ g_conn g ↔ c ∈ g_flight g ∧ io_operation x = Io_Accept);
  fl_closing : io_operation x = Io_Disconnect → ptr_stream c ∈ g_open g ∧ st_connected t = false ∧
    ∀ c' x', c' ∈ g_flight g → m !! c' = Some x' → io_operation x' = Io_Disconnect →
      ptr_stream c' = ptr_stream c → c' = c;
  fl_kind : operation_kind c (io_operation x);
}.

Record io_inv (g : io_ghost) (v : IocpSocketServer) : Prop := {
  ii_sockets : ∀ b p, socket_pool b v = Some p → (∃ stock, pool_wf stock p) ∧ op_heap p = ∅ ∧
    ∀ s, s ∈ op_pool p ∨ s ∈ op_in_used p → from_connector_pool s = b ∧ is_Some (sk_streams v !! s);
  ii_pooled : ∀ s t, sk_streams v !! s = Some t →
    pooled (socket_pool (from_connector_pool s) v) (g_popped g) s t;
  ii_count : ∀ s t, sk_streams v !! s = Some t → st_count t = refs g (sk_contexts v) s;
  ii_popped : ∀ s t, sk_streams v !! s = Some t → s ∈ g_popped g → st_count t = 0;
  ii_connected : ∀ s t, sk_streams v !! s = Some t → st_connected t = true → s ∈ g_conn g;
  ii_buffers : ∀ s t w, sk_streams v !! s = Some t → ∃ stock, pool_wf stock (st_pool w t);
  ii_contexts : ∀ c x, sk_contexts v !! c = Some x → ∃ t, sk_streams v !! ptr_stream c = Some t ∧ buffer_ok t c x;
  ii_used : ∀ c t, sk_streams v !! ptr_stream c = Some t → c.2 ∈ op_in_used (st_pool (ptr_write c) t) →
    is_Some (sk_contexts v !! c);
  ii_flying : ∀ c, c ∈ g_listening g ∪ g_flight g → ∃ t x, sk_streams v !! ptr_stream c = Some t ∧
    sk_contexts v !! c = Some x ∧ flying g (sk_contexts v) c t x;
  ii_known : ∀ s, s ∈ g_held g ∨ s ∈ g_conn g ∨ s ∈ g_popped g → is_Some (sk_streams v !! s);
  ii_open : g_open g ⊆ g_conn g;
  ii_conn : ∀ s, s ∈ g_conn g → s ∈ g_open g ∨ ∃ c x, c ∈ g_flight g ∧ ptr_stream c = s ∧
    sk_contexts v !! c = Some x ∧ io_operation x = Io_Accept;
  ii_capacity : 0 ≤ ssc_read_buffer_capacity (sk_config v) < 2 ^ 32 ∧ 0 ≤ ssc_write_buffer_capacity (sk_config v) < 2 ^ 32;
}.

(** ** Changing one stream, one buffer *)

Definition upd_stream (s : Z) (t : IocpStream) (v : IocpSocketServer) : IocpSocketServer :=
  sk_set_streams (<[s := t]> (sk_streams v)) v.
Definition upd_context (c : IoContextPtr) (x : IoContext) (v : IocpSocketServer) : IocpSocketServer :=
  sk_set_contexts (<[c := x]> (sk_contexts v)) v.

Definition with_held (h : gmultiset Z) (g : io_ghost) : io_ghost :=
  mkIoGhost (g_listening g) (g_flight g) h (g_conn g) (g_open g) (g_popped g).
Definition with_popped (p : gset Z) (g : io_ghost) : io_ghost :=
  mkIoGhost (g_listening g) (g_flight g) (g_held g) (g_conn g) (g_open g) p.
Definition with_flight (f : gset IoContextPtr) (g : io_ghost) : io_ghost :=
  mkIoGhost (g_listening g) f (g_held g) (g_conn g) (g_open g) (g_popped g).
Definition with_listening (f : gset IoContextPtr) (g : io_ghost) : io_ghost :=
  mkIoGhost f (g_flight g) (g_held g) (g_conn g) (g_open g) (g_popped g).
Definition with_conn (k o : gset Z) (g : io_ghost) : io_ghost :=
  mkIoGhost (g_listening g) (g_flight g) (g_held g) k o (g_popped g).

(** A stream nobody is opening. *)
Definition settled (g : io_ghost) (v : IocpSocketServer) (s : Z) : Prop :=
  ∀ c x, c ∈ g_listening g ∪ g_flight g → sk_contexts v !! c = Some x → ptr_stream c = s →
    opening (io_operation x) = false.

(** No operation under way ends the connection of [s]. *)
Definition not_closing (g : io_ghost) (v : IocpSocketServer) (s : Z) : Prop :=
  ∀ c x, c ∈ g_flight g → sk_contexts v !! c = Some x → ptr_stream c = s → io_operation x ≠ Io_Disconnect.

Lemma get_stream_run s t v : sk_streams v !! s = Some t → get_stream s v = Ok (t, v, []).
Proof. intros Hs. by rw /get_stream /mbind /act_mbind /act_bind /get_state /= Hs. Qed.
Lemma get_context_run c x v : sk_contexts v !! c = Some x → get_context c v = Ok (x, v, []).
Proof. intros Hc. by rw /get_context /mbind /act_mbind /act_bind /get_state /= Hc. Qed.
Lemma put_stream_run s t v : put_stream s t v = Ok ((), upd_stream s t v, []).
Proof. done. Qed.
Lemma put_context_run c x v : put_context c x v = Ok ((), upd_context c x v, []).
Proof. done. Qed.

Lemma refs_held g m s h : refs (with_held h g) m s =
  refs g m s - Z.of_nat (multiplicity s (g_held g)) + Z.of_nat (multiplicity s h).
Proof. rw /refs /=. lia. Qed.

Lemma multiplicity_plus s s' (h : gmultiset Z) :
  Z.of_nat (multiplicity s (h ⊎ {[+ s' +]})) = Z.of_nat (multiplicity s h) + Z.b2z (bool_decide (s = s')).
Proof.
  rw multiplicity_disj_union multiplicity_singleton.
  destruct (decide (s = s')) as [Hs|Hs]; [rw (bool_decide_eq_true_2 _ Hs)|rw (bool_decide_eq_false_2 _ Hs)]; cbn; lia.
Qed.

Lemma upd_stream_lookup s t s' v :
  sk_streams (upd_stream s t v) !! s' = if decide (s' = s) then Some t else sk_streams v !! s'.
Proof. cbn. case_decide as Hs; [subst; by rw lookup_insert_eq|]. by rw (lookup_insert_ne _ _ _ _ (not_eq_sym Hs)). Qed.
Lemma upd_context_lookup c x c' v :
  sk_contexts (upd_context c x v) !! c' = if decide (c' = c) then Some x else sk_contexts v !! c'.
Proof. cbn. case_decide as Hc; [subst; by rw lookup_insert_eq|]. by rw (lookup_insert_ne _ _ _ _ (not_eq_sym Hc)). Qed.

(** A buffer the operating system does not have. *)
Definition in_hands (g : io_ghost) (c : IoContextPtr) : Prop := c ∉ g_listening g ∧ c ∉ g_flight g.

Lemma in_hands_ne g c d : in_hands g c → d ∈ g_listening g ∪ g_flight g → d ≠ c.
Proof. intros [Hl Hf] [Hd|Hd]%elem_of_union ->; done. Qed.

Lemma flying_frame g m c x d t y :
  c ∉ g_flight g → flying g m d t y → flying g (<[c := x]> m) d t y.
Proof.
  intros Hc [F1 F2 F3 F4 F5 F6 F7]. split; try done. intros Hop. destruct (F6 Hop) as (?&?&Hu).
  split_and!; try done. intros d' x' Hd'. rw lookup_insert_ne; [intros ->; done|]. by apply Hu.
Qed.

(** What a change of a buffer in hands has to keep: the count of its pointers. *)
Lemma inv_context g g' v c x t :
  io_inv g v → in_hands g c → sk_streams v !! ptr_stream c = Some t → buffer_ok t c x →
  g' = with_held (g_held g') g →
  (∀ s, refs g' (<[c := x]> (sk_contexts v)) s = refs g (sk_contexts v) s) →
  (∀ s, s ∈ g_held g' → is_Some (sk_streams v !! s)) →
  io_inv g' (upd_context c x v).
Proof.
  intros [H1 H2 H3 H4 H5 H6 H7 H8 H9 H10 H11 H12 H13] Hfree Ht Hx -> Hrefs Hheld. set (h := g_held g') in *.
  split; try done.
  - intros s t' Hs. rw (H3 s t' Hs). symmetry. apply Hrefs.
  - intros d z. rw upd_context_lookup. case_decide as Hd; [subst d; intros [= <-]; by exists t|]. apply H7.
  - intros d t' Hs Hu. rw upd_context_lookup. case_decide; [by eexists|]. exact (H8 d t' Hs Hu).
  - intros d Hd. destruct (H9 d Hd) as (t'&z&Hs&Hz&Hf). exists t', z. split; [done|].
    rw upd_context_lookup decide_False; [exact (in_hands_ne g c d Hfree Hd)|]. split; [done|].
    assert (Hf' : flying (with_held h g) (sk_contexts v) d t' z) by (by destruct Hf). apply flying_frame; [apply Hfree|done].
  - intros s [Hs|[Hs|Hs]]; [by apply Hheld|apply H10; tauto..].
  - intros s Hs. destruct (H12 s Hs) as [?|(d&z&Hd&Hds&Hz&Hop)]; [by left|]. right. exists d, z.
    rw upd_context_lookup decide_False; [by intros ->; apply Hfree|]. done.
Qed.

Lemma size_namers_bind m c x y s s' :
  m !! c = Some y → io_operation_stream y = None → io_operation_stream x = Some s →
  Z.of_nat (size (namers (<[c := x]> m) s')) = Z.of_nat (size (namers m s')) + Z.b2z (bool_decide (s' = s)).
Proof.
  intros Hy Hn Hx. assert (Hc : c ∉ namers m s') by (rw elem_of_namers Hy /= Hn; done).
  rw namers_insert Hx. destruct (decide (s' = s)) as [->|Hne].
  - rw decide_True; [done|]. rw bool_decide_eq_true_2; [done|].
    rw (size_union {[c]} (namers m s)); [by apply disjoint_singleton_l|]. rw size_singleton. cbn. lia.
  - rw decide_False; [congruence|]. rw bool_decide_eq_false_2; [done|].
    rw (_ : namers m s' ∖ {[c]} = namers m s'); [|cbn; lia]. apply set_eq. intros d. rw elem_of_difference elem_of_singleton.
    split; [tauto|]. intros Hd. split; [done|]. by intros ->.
Qed.

Lemma size_namers_unbind m c x y s s' :
  m !! c = Some y → io_operation_stream y = Some s → io_operation_stream x = None →
  Z.of_nat (size (namers m s')) = Z.of_nat (size (namers (<[c := x]> m) s')) + Z.b2z (bool_decide (s' = s)).
Proof.
  intros Hy Hs Hx. rw -(size_namers_bind (<[c := x]> m) c y x s s'); [by rw lookup_insert_eq|done..|].
  rw insert_insert_eq insert_id; done.
Qed.

Lemma multiplicity_minus s s' (h : gmultiset Z) : s' ∈ h →
  Z.of_nat (multiplicity s (h ∖ {[+ s' +]})) = Z.of_nat (multiplicity s h) - Z.b2z (bool_decide (s = s')).
Proof.
  intros Hs. pose proof (multiplicity_plus s s' (h ∖ {[+ s' +]})) as Hp.
  rw (_ : h ∖ {[+ s' +]} ⊎ {[+ s' +]} = h) in Hp; [multiset_solver|]. lia.
Qed.

Lemma buffer_ok_used t c x y :
  buffer_ok t c y → c.2 ∈ op_in_used (st_pool (ptr_write c) t) →
  (io_operation_stream x = None ∨ io_operation_stream x = Some (ptr_stream c)) →
  io_length x = io_length y → io_capacity x = io_capacity y → buffer_ok t c x.
Proof. intros [B1 B2 B3 B4] Hu Hx Hl Hcap. split; rw ?Hl ?Hcap; done. Qed.

(** The buffer [c] is in hands and in use, with content [y]. *)
Record handled (g : io_ghost) (v : IocpSocketServer) (c : IoContextPtr) (t : IocpStream) (y : IoContext) : Prop := {
  ha_hands : in_hands g c;
  ha_stream : sk_streams v !! ptr_stream c = Some t;
  ha_used : c.2 ∈ op_in_used (st_pool (ptr_write c) t);
  ha_content : sk_contexts v !! c = Some y;
}.

Lemma handled_ok g v c t y : io_inv g v → handled g v c t y → buffer_ok t c y.
Proof.
  intros Hi [_ Ht _ Hy]. destruct (ii_contexts _ _ Hi c y Hy) as (t'&Ht'&Hok). rw Ht in Ht'. by injection Ht' as <-.
Qed.

(** Rewriting the other fields of a buffer. *)
Lemma inv_rewrite g v c t x y :
  io_inv g v → handled g v c t y → io_operation_stream x = io_operation_stream y →
  0 ≤ io_length x ≤ io_capacity x → io_capacity x < 2 ^ 32 → io_inv g (upd_context c x v).
Proof.
  intros Hi Hh Hx Hl Hc. pose proof (handled_ok _ _ _ _ _ Hi Hh) as [B1 B2 B3 B4]. destruct Hh as [Hfree Ht Hu Hy].
  apply (inv_context g g v c x t); try done.
  - split; [by rw Hx|done..].
  - by destruct g.
  - intros s. rw /refs (namers_same _ _ _ _ _ Hy Hx). done.
  - intros s Hs. apply (ii_known _ _ Hi). tauto.
Qed.

(** Moving a reference from a local pointer into a buffer and back. *)
Lemma inv_bind g v c t y :
  io_inv g v → handled g v c t y → io_operation_stream y = None → ptr_stream c ∈ g_held g →
  io_inv (with_held (g_held g ∖ {[+ ptr_stream c +]}) g) (upd_context c (with_stream (Some (ptr_stream c)) y) v).
Proof.
  intros Hi Hh Hy0 Hs. pose proof (handled_ok _ _ _ _ _ Hi Hh) as Hok. destruct Hh as [Hfree Ht Hu Hy].
  apply (inv_context g _ v c _ t); try done.
  - apply (buffer_ok_used t c _ y); try done. by right.
  - intros s. rw /refs. cbn [g_held with_held g_conn]. rw (size_namers_bind _ _ _ y (ptr_stream c)); [done..|].
    rw multiplicity_minus; [done|]. lia.
  - intros s Hx. cbn in Hx. apply (ii_known _ _ Hi). left. multiset_solver.
Qed.

Lemma inv_unbind g v c t y s :
  io_inv g v → handled g v c t y → io_operation_stream y = Some s →
  io_inv (with_held (g_held g ⊎ {[+ s +]}) g) (upd_context c (with_stream None y) v).
Proof.
  intros Hi Hh Hys. pose proof (handled_ok _ _ _ _ _ Hi Hh) as Hok. destruct Hh as [Hfree Ht Hu Hy].
  assert (s = ptr_stream c) as -> by (destruct Hok as [[?|?] _ _ _]; congruence).
  apply (inv_context g _ v c _ t); try done.
  - apply (buffer_ok_used t c _ y); try done. by left.
  - intros s. rw /refs. cbn [g_held with_held g_conn].
    rw (size_namers_unbind (sk_contexts v) c (with_stream None y) y (ptr_stream c) s); [done..|]. rw multiplicity_plus. lia.
  - intros s Hx. cbn in Hx. apply gmultiset_elem_of_disj_union in Hx as [Hx| ->%gmultiset_elem_of_singleton]; [|by exists t].
    apply (ii_known _ _ Hi). by left.
Qed.

(** ** Changing a stream *)

Lemma inv_stream g h q v s t t' :
  let g' := with_popped q (with_held h g) in
  io_inv g v → sk_streams v !! s = Some t → (∀ w, st_pool w t' = st_pool w t) →
  pooled (socket_pool (from_connector_pool s) v) q s t' → (∀ s', s' ≠ s → s' ∈ q ↔ s' ∈ g_popped g) →
  st_count t' = refs g' (sk_contexts v) s →
  (∀ s', s' ≠ s → multiplicity s' h = multiplicity s' (g_held g)) →
  (s ∈ q → st_count t' = 0) → (st_connected t' = true → s ∈ g_conn g) →
  (st_connected t' = true → st_connected t = true ∨ not_closing g v s) →
  (settled g v s ∨ st_count t' = st_count t) →
  io_inv g' (upd_stream s t' v).
Proof.
  intros g' [H1 H2 H3 H4 H5 H6 H7 H8 H9 H10 H11 H12 H13] Ht Hp Hpo Hq Hcnt Hh Hq0 Hc1 Hc2 Hset.
  assert (Hkeep : ∀ c t0, sk_streams v !! ptr_stream c = Some t0 → ∃ t1,
    sk_streams (upd_stream s t' v) !! ptr_stream c = Some t1 ∧ ∀ w, st_pool w t1 = st_pool w t0).
  { intros c t0 H0. rw upd_stream_lookup. case_decide as Hs; [|by exists t0]. exists t'. split; [done|].
    rw Hs Ht in H0. injection H0 as <-. done. }
  split; try done.
  - intros b p Hb. destruct (H1 b p Hb) as (Hw&Hhp&Hm). split_and!; [done..|]. intros s' Hs'.
    destruct (Hm s' Hs') as [? ?]. split; [done|]. rw upd_stream_lookup. case_decide; [by eexists|done].
  - intros s' t0. rw upd_stream_lookup. case_decide as Hs; [intros [= <-]; by subst|]. intros H0.
    destruct (H2 s' t0 H0) as [(p&Hpp&Hu&Hn)]. split. exists p. split; [exact Hpp|]. cbn [g_popped with_popped]. by rw (Hq s' Hs).
  - intros s' t0. rw upd_stream_lookup. case_decide as Hs; [intros [= <-]; subst; exact Hcnt|]. intros H0.
    rw (H3 s' t0 H0) /refs /= (Hh s' Hs). done.
  - intros s' t0. rw upd_stream_lookup. case_decide as Hs; [intros [= <-]; by subst|]. cbn. rw (Hq s' Hs). apply H4.
  - intros s' t0. rw upd_stream_lookup. case_decide as Hs; [intros [= <-]; by subst|]. apply H5.
  - intros s' t0 w. rw upd_stream_lookup. case_decide as Hs; [intros [= <-]; rw Hp; exact (H6 s t w Ht)|]. apply H6.
  - intros c x Hx. destruct (H7 c x Hx) as (t0&H0&[B1 B2 B3 B4]). destruct (Hkeep c t0 H0) as (t1&Ht1&Hpt).
    exists t1. split; [done|]. split; try done. by rw Hpt.
  - intros c t1 H0 Hu. rw upd_stream_lookup in H0. case_decide as Hs; [|exact (H8 c t1 H0 Hu)].
    injection H0 as <-. rw Hp in Hu. apply (H8 c t); [by rw Hs|done].
  - intros c Hc. destruct (H9 c Hc) as (t0&x&H0&Hx&[F1 F2 F3 F4 F5 F6 F7]).
    rw upd_stream_lookup. destruct (decide (ptr_stream c = s)) as [Hs|Hs]; [|exists t0, x; split; [exact H0|]; split; [exact Hx|]; split; assumption]. rw Hs Ht in H0. injection H0 as <-.
    exists t', x. split_and!; [done..|]. split; try done; [by rw Hp|..].
    + intros Hop. destruct (F5 Hop) as (?&Hct&?). split_and!; try done. destruct Hset as [Hset|Hset]; [|by rw Hset].
      rw (Hset c x Hc Hx Hs) in Hop. done.
    + intros Hop. destruct (F6 Hop) as (Hopen&Hcf&?). split_and!; try done.
      destruct (st_connected t') eqn:Hct; [|done]. destruct (Hc2 eq_refl) as [Hb|Hb]; [congruence|].
      assert (Hcf' : c ∈ g_flight g).
      { apply elem_of_union in Hc as [Hc|Hc]; [|done]. destruct (F4 Hc). congruence. }
      by destruct (Hb c x Hcf' Hx Hs).
  - intros s' Hs'. rw upd_stream_lookup. case_decide as Hs; [by eexists|]. apply H10. cbn in Hs'.
    rw (Hq s' Hs) in Hs'. rw /elem_of /gmultiset_elem_of in Hs' |- *. by rw (Hh s' Hs) in Hs'.
Qed.

(** Changing what the invariant does not look at. *)
Lemma inv_stream_same g v s t t' :
  io_inv g v → sk_streams v !! s = Some t → (∀ w, st_pool w t' = st_pool w t) → st_count t' = st_count t →
  st_connected t' = st_connected t ∨ st_connected t' = false ∨ s ∈ g_conn g ∧ not_closing g v s →
  io_inv g (upd_stream s t' v).
Proof.
  intros Hi Ht Hp Hc Hb. pose proof (inv_stream g (g_held g) (g_popped g) v s t t') as Hinv. cbv zeta in Hinv.
  rw (_ : with_popped (g_popped g) (with_held (g_held g) g) = g) in Hinv; [by destruct g|]. apply Hinv; try done.
  - destruct (ii_pooled _ _ Hi s t Ht) as [(p&?&?&?)]. split. exists p. by rw Hc.
  - rw Hc. exact (ii_count _ _ Hi s t Ht).
  - rw Hc. by apply (ii_popped _ _ Hi).
  - destruct Hb as [->|[->|[? ?]]]; [by apply (ii_connected _ _ Hi)|done..].
  - destruct Hb as [->|[->|[? ?]]]; naive_solver.
  - by right.
Qed.

(** *** Taking a reference *)

Definition retained (s : Z) (g : io_ghost) : io_ghost :=
  with_popped (g_popped g ∖ {[s]}) (with_held (g_held g ⊎ {[+ s +]}) g).

Lemma inv_retain g v s t :
  io_inv g v → sk_streams v !! s = Some t → settled g v s → st_count t ≠ 0 ∨ s ∈ g_popped g →
  st_count t < 2 ^ 31 - 1 →
  stream_Retain s v = Ok ((), upd_stream s (st_set_count (st_count t + 1) t) v, []) ∧
  io_inv (retained s g) (upd_stream s (st_set_count (st_count t + 1) t) v).
Proof.
  intros Hi Ht Hset Hu Hb. pose proof (ii_count _ _ Hi s t Ht) as Hc.
  assert (0 ≤ st_count t) by (rw Hc /refs; case_bool_decide; cbn; lia).
  split.
  - rw /stream_Retain (bind_ok _ _ _ _ _ (get_stream_run s t v Ht)) to_i32_small; [lia|done].
  - apply (inv_stream g _ _ v s t); try done; cbn.
    + destruct (ii_pooled _ _ Hi s t Ht) as [(p&Hp&Hin&Hn)]. split. exists p. split_and!; [done| |done].
      rw Hin. split; intros _; [left; cbn; lia|done].
    + intros s' Hs'. set_solver.
    + rw Hc /refs /= multiplicity_plus (bool_decide_eq_true_2 (s = s)); [done|]. cbn. lia.
    + intros s' Hs'. rw multiplicity_disj_union (multiplicity_singleton_ne s' s Hs'). lia.
    + set_solver.
    + by apply (ii_connected _ _ Hi).
    + tauto.
    + by left.
Qed.

(** *** Giving a reference back *)

Definition released (s : Z) (g : io_ghost) : io_ghost := with_held (g_held g ∖ {[+ s +]}) g.

(** The parts of the server a release leaves alone. *)
Record same_but_pools (v v' : IocpSocketServer) : Prop := {
  sb_config : sk_config v' = sk_config v;
  sb_contexts : sk_contexts v' = sk_contexts v;
  sb_hang : sk_hang_acceptor_count v' = sk_hang_acceptor_count v;
}.

(** What [Initialize] and [InitializeAcceptor] set up once. *)
Record same_setup (v v' : IocpSocketServer) : Prop := {
  su_config_same : sk_config v' = sk_config v;
  su_initialized_same : sk_is_initialized v' = sk_is_initialized v;
  su_acceptor_same : sk_has_acceptor v' = sk_has_acceptor v;
}.

Definition same_server (v v' : IocpSocketServer) : Prop := same_setup v v' ∧ ∀ b, socket_pool b v' = socket_pool b v.

Lemma same_setup_trans v1 v2 v3 : same_setup v1 v2 → same_setup v2 v3 → same_setup v1 v3.
Proof. intros [] []. split; congruence. Qed.

(** A stream with a reference in hands is not being opened. *)
Lemma held_settled g v s : io_inv g v → s ∈ g_held g → settled g v s.
Proof.
  intros Hi Hs c x Hc Hx Hcs. destruct (ii_flying _ _ Hi c Hc) as (t&x'&Ht&Hx'&Hf). rw Hx in Hx'. injection Hx' as <-.
  destruct (opening (io_operation x)) eqn:Hop; [|done]. destruct (fl_opening _ _ _ _ _ Hf Hop) as (_&Hcnt&_).
  pose proof (ii_count _ _ Hi _ _ Ht) as Hr. rw Hcnt Hcs /refs in Hr.
  assert (Hin : c ∈ namers (sk_contexts v) s) by (rw elem_of_namers Hx /= (fl_stream _ _ _ _ _ Hf) Hcs; done).
  apply namers_pos in Hin. rw /elem_of /gmultiset_elem_of in Hs. lia.
Qed.

Lemma held_pos g v s t : io_inv g v → s ∈ g_held g → sk_streams v !! s = Some t → 1 ≤ st_count t.
Proof.
  intros Hi Hs Ht. rw (ii_count _ _ Hi s t Ht) /refs. rw /elem_of /gmultiset_elem_of in Hs.
  case_bool_decide; cbn; lia.
Qed.

Lemma inv_release_kept g v s t :
  io_inv g v → s ∈ g_held g → sk_streams v !! s = Some t → st_count t ≠ 1 →
  io_inv (released s g) (upd_stream s (st_set_count (st_count t - 1) t) v).
Proof.
  intros Hi Hs Ht H1. pose proof (ii_count _ _ Hi s t Ht) as Hc.
  assert (Hpos : 1 ≤ st_count t) by exact (held_pos g v s t Hi Hs Ht).
  assert (Hp0 : s ∉ g_popped g) by (intros Hp; pose proof (ii_popped _ _ Hi s t Ht Hp); lia).
  pose proof (inv_stream g (g_held g ∖ {[+ s +]}) (g_popped g) v s t (st_set_count (st_count t - 1) t)) as Hinv.
  cbv zeta in Hinv. rw (_ : with_popped (g_popped g) (with_held (g_held g ∖ {[+ s +]}) g) = released s g) in Hinv.
  { by destruct g. }
  apply Hinv; try done; cbn.
  - destruct (ii_pooled _ _ Hi s t Ht) as [(p&Hp&Hin&Hn)]. split. exists p. split_and!; [done| |done].
    rw Hin. cbn. split; intros _; left; lia.
  - rw Hc /refs. cbn [g_held g_conn released with_held]. rw multiplicity_minus; [done|].
    rw (bool_decide_eq_true_2 (s = s)); [done|]. cbn. lia.
  - intros s' Hs'. rw multiplicity_difference (multiplicity_singleton_ne s' s Hs'). lia.
  - by apply (ii_connected _ _ Hi).
  - tauto.
  - left. exact (held_settled g v s Hi Hs).
Qed.

(** The last reference: the stream is on its way to the pool. *)
Lemma inv_release_last g v s t :
  io_inv g v → s ∈ g_held g → sk_streams v !! s = Some t → st_count t = 1 →
  io_inv (with_popped ({[s]} ∪ g_popped g) (released s g)) (upd_stream s (st_set_count 0 t) v).
Proof.
  intros Hi Hs Ht H1. pose proof (ii_count _ _ Hi s t Ht) as Hc.
  apply (inv_stream g _ _ v s t); try done; cbn.
  - destruct (ii_pooled _ _ Hi s t Ht) as [(p&Hp&Hin&Hn)]. split. exists p. split_and!; [done| |done].
    rw Hin. cbn. split; intros _; [right; set_solver|left; lia].
  - intros s' Hs'. set_solver.
  - rw H1 /refs in Hc. rw /refs. cbn [g_held g_conn released with_held with_popped]. rw multiplicity_minus; [done|].
    rw (bool_decide_eq_true_2 (s = s)); [done|]. cbn. lia.
  - intros s' Hs'. rw multiplicity_difference (multiplicity_singleton_ne s' s Hs'). lia.
  - by apply (ii_connected _ _ Hi).
  - tauto.
  - left. exact (held_settled g v s Hi Hs).
Qed.

(** *** The socket pools *)

Lemma socket_pool_set b b' p v : socket_pool b (set_socket_pool b' p v) = if Bool.eqb b b' then Some p else socket_pool b v.
Proof. by destruct b, b'. Qed.

(** Exchanging a pool for one that lends out [s], or no longer does. *)
Lemma inv_socket_pool g q v s p p' :
  let b := from_connector_pool s in
  io_inv g v → socket_pool b v = Some p → (∃ stock, pool_wf stock p') → op_heap p' = ∅ →
  (∀ s', s' ≠ s → (s' ∈ op_in_used p' ↔ s' ∈ op_in_used p) ∧ (s' ∈ op_pool p' ↔ s' ∈ op_pool p) ∧ (s' ∈ q ↔ s' ∈ g_popped g)) →
  (∀ t, sk_streams v !! s = Some t → st_count t = 0) →
  (s ∈ op_in_used p' ↔ s ∈ q) → (s ∈ op_pool p' ↔ s ∉ op_in_used p') → is_Some (sk_streams v !! s) →
  io_inv (with_popped q g) (set_socket_pool b p' v).
Proof.
  intros b [H1 H2 H3 H4 H5 H6 H7 H8 H9 H10 H11 H12 H13] Hp Hwf Hheap Hoth H0 Hs1 Hs2 [t Ht].
  assert (Hst : sk_streams (set_socket_pool b p' v) = sk_streams v) by (by destruct b).
  assert (Hco : sk_contexts (set_socket_pool b p' v) = sk_contexts v) by (by destruct b).
  assert (Hcf : sk_config (set_socket_pool b p' v) = sk_config v) by (by destruct b).
  split; rw ?Hst ?Hco ?Hcf; try done.
  - intros b' p0. rw socket_pool_set. destruct (Bool.eqb b' b) eqn:Hb; [|apply H1].
    apply Bool.eqb_prop in Hb as ->. intros [= <-]. split_and!; [done..|]. intros s' Hs'.
    destruct (decide (s' = s)) as [->|Hne]; [split; [done|by exists t]|].
    destruct (Hoth s' Hne) as (Ha&Hb&_). rw Ha Hb in Hs'. by apply (H1 b p Hp).
  - intros s' t' Hs'. rw socket_pool_set. destruct (Bool.eqb (from_connector_pool s') b) eqn:Hb.
    + apply Bool.eqb_prop in Hb. split. exists p'. split; [done|]. destruct (decide (s' = s)) as [->|Hne].
      * rw (H0 _ Hs') Hs1 Hs2 Hs1. split; [|done]. cbn. split; [tauto|]. intros [?|?]; done.
      * destruct (Hoth s' Hne) as (Ha&Hb'&Hc). destruct (H2 s' t' Hs') as [(p0&Hp0&Hu&Hn)].
        rw Hb Hp in Hp0. injection Hp0 as <-. cbn. rw Ha Hb' Hc. done.
    + destruct (H2 s' t' Hs') as [(p0&Hp0&Hu&Hn)]. split. exists p0. split; [done|]. cbn.
      assert (Hne : s' ≠ s) by (intros ->; by rw Bool.eqb_reflx in Hb). destruct (Hoth s' Hne) as (_&_&Hc). by rw Hc.
  - intros s' t' Hs' Hq. destruct (decide (s' = s)) as [->|Hne]; [by apply H0|].
    apply (H4 s' t' Hs'). by apply (Hoth s' Hne).
  - intros c Hc. destruct (H9 c Hc) as (t0&x&Ht0&Hx&Hf). exists t0, x. split_and!; [done..|]. by destruct Hf.
  - intros s' Hs'. destruct (decide (s' = s)) as [->|Hne]; [by exists t|]. apply H10. cbn in Hs'.
    destruct (Hoth s' Hne) as (_&_&Hc). by rw -Hc.
Qed.

Lemma push_socket_run g v s :
  io_inv g v → s ∈ g_popped g →
  ∃ v', push_socket s v = Ok ((), v', []) ∧ io_inv (with_popped (g_popped g ∖ {[s]}) g) v' ∧
    same_but_pools v v' ∧ sk_streams v' = sk_streams v.
Proof.
  intros Hi Hs. destruct (ii_known _ _ Hi s) as [t Ht]; [tauto|].
  destruct (ii_pooled _ _ Hi s t Ht) as [(p&Hp&Hin&Hn)].
  assert (Hu : s ∈ op_in_used p) by (apply Hin; by right).
  destruct (ii_sockets _ _ Hi _ p Hp) as ([stock Hwf]&Hheap&_).
  pose proof (Push_spec stock s p Hwf) as Hspec. destruct (Push s p) as [p'|f] eqn:Hpush; [|done].
  destruct Hspec as (Hwf'&_&Hused&_). set (b := from_connector_pool s).
  assert (Hpool : op_pool p' = s :: op_pool p ∧ op_heap p' = ∅).
  { rw /Push (bool_decide_eq_true_2 _ Hu) Hheap bool_decide_eq_false_2 in Hpush; [set_solver|].
    injection Hpush as <-. by cbn. }
  destruct Hpool as [Hpool Hheap'].
  exists (set_socket_pool b p' v). split_and!.
  - rw /push_socket. fold b. rw (bind_ok get_state _ v v v); [done|]. rw Hp.
    rw (bind_ok (lift (from_option_ub _ (Some p))) _ v p v); [done|].
    rw (bind_ok (lift (Push s p)) _ v p' v); [by rw Hpush|].
    rw (bind_ok _ _ v () (set_socket_pool b p' v)); [done|]. rw Hheap bool_decide_eq_false_2; [set_solver|done].
  - apply (inv_socket_pool g _ v s p p'); try done.
    + by exists stock.
    + intros s' Hne. rw Hused Hpool. set_solver.
    + intros t' Ht'. by apply (ii_popped _ _ Hi s t').
    + rw Hused. set_solver.
    + rw Hused Hpool. set_solver.
  - by destruct b.
  - by destruct b.
Qed.

Lemma release_reference_run g v s t :
  io_inv g v → s ∈ g_held g → sk_streams v !! s = Some t → st_count t < 2 ^ 31 →
  ∃ v', release_reference s v = Ok ((), v', []) ∧ io_inv (released s g) v' ∧ same_but_pools v v' ∧
    sk_streams v' = <[s := st_set_count (st_count t - 1) t]> (sk_streams v).
Proof.
  intros Hi Hs Ht Hb. pose proof (held_pos g v s t Hi Hs Ht) as Hpos.
  assert (Hrel : stream_Release s v = Ok (st_count t - 1, upd_stream s (st_set_count (st_count t - 1) t) v, [])).
  { rw /stream_Release (bind_ok _ _ _ _ _ (get_stream_run s t v Ht)) !to_i32_small; [lia..|done]. }
  rw /release_reference (bind_ok _ _ _ _ _ Hrel). case: Z.eqb_spec => Hz.
  - rw Hz. destruct (push_socket_run _ _ s (inv_release_last g v s t Hi Hs Ht ltac:(lia))) as (v'&Hrun&Hi'&[Hc1 Hc2 Hc3]&Hst).
    { cbn. set_solver. }
    exists v'. split_and!; [done| |by split|done].
    assert (Hp0 : s ∉ g_popped g) by (intros Hp; pose proof (ii_popped _ _ Hi s t Ht Hp); lia).
    rw (_ : released s g = with_popped (g_popped (with_popped ({[s]} ∪ g_popped g) (released s g)) ∖ {[s]})
              (with_popped ({[s]} ∪ g_popped g) (released s g))); [|done].
    destruct g as [gl gf gh gc go gp]. rw /released /with_popped /with_held. cbn in *. f_equal. set_solver.
  - eexists. split_and!; [done|apply inv_release_kept; try done; lia|by split|done].
Qed.

(** Popping a stream of the stock. *)
Lemma pop_socket_run g v b must setup p s l :
  io_inv g v → socket_pool b v = Some p → op_pool p = s :: l →
  ∃ v' t, pop_socket b must setup v = Ok (Some s, v', []) ∧ io_inv (with_popped ({[s]} ∪ g_popped g) g) v' ∧
    same_but_pools v v' ∧ sk_streams v' = sk_streams v ∧ sk_streams v !! s = Some t ∧ st_count t = 0 ∧
    s ∉ g_popped g ∧ (∃ p', socket_pool b v' = Some p' ∧ op_pool p' = l) ∧
    socket_pool (negb b) v' = socket_pool (negb b) v ∧ same_setup v v'.
Proof.
  intros Hi Hp Hl. destruct (ii_sockets _ _ Hi b p Hp) as ([stock Hwf]&Hheap&Hmem).
  destruct (Hmem s) as [Hb [t Ht]]; [left; rw Hl; set_solver|].
  destruct (ii_pooled _ _ Hi s t Ht) as [(p0&Hp0&Hin&Hn)]. rw Hb Hp in Hp0. injection Hp0 as <-.
  assert (Hu : s ∉ op_in_used p) by (apply Hn; rw Hl; set_solver).
  assert (Hc : st_count t = 0 ∧ s ∉ g_popped g).
  { destruct (decide (st_count t = 0)) as [Hz|Hz]; [|by exfalso; apply Hu, Hin; left]. split; [done|].
    intros Hpp. apply Hu, Hin. by right. }
  destruct Hc as [Hc Hnp]. set (p' := mkObjectPool l (op_object_sequence p) ({[s]} ∪ op_in_used p) (op_heap p)).
  assert (Hpop : Pop must p = (Some s, p')) by (rw /Pop Hl; done).
  exists (set_socket_pool b p' v), t. split_and!; try done; [| |by destruct b|by destruct b|by destruct b; exists p'|by destruct b|by destruct b].
  - rw /pop_socket. rw (bind_ok get_state _ v v v); [done|]. rw Hp.
    rw (bind_ok (lift (from_option_ub _ (Some p))) _ v p v); [done|]. rw Hpop.
    rw (bind_ok _ _ v () (set_socket_pool b p' v)); [done|]. cbn [op_heap p']. rw Hheap bool_decide_eq_false_2; [set_solver|done].
  - pose proof (pw_nodup _ _ Hwf) as Hnd. rw Hl in Hnd. apply NoDup_cons in Hnd as [Hsl _].
    rw -Hb. apply (inv_socket_pool g _ v s p p'); try done.
    + by rw Hb.
    + exists stock. apply (pop_wf stock must p s p' Hwf Hpop). rw Hl. by left.
    + intros s' Hne. cbn. rw Hl. set_solver.
    + intros t' Ht'. rw Ht in Ht'. by injection Ht' as <-.
    + cbn. set_solver.
    + cbn. set_solver.
Qed.

(** ** Buffers *)

(** A step that changes at most the buffer [c]: the others keep their content
    and stay in use. *)
Definition keeps (c : IoContextPtr) (v v' : IocpSocketServer) : Prop :=
  ∀ d t y, d ≠ c → sk_streams v !! ptr_stream d = Some t → d.2 ∈ op_in_used (st_pool (ptr_write d) t) →
    sk_contexts v !! d = Some y →
    sk_contexts v' !! d = Some y ∧
    ∃ t', sk_streams v' !! ptr_stream d = Some t' ∧ d.2 ∈ op_in_used (st_pool (ptr_write d) t').

Lemma keeps_trans c v1 v2 v3 : keeps c v1 v2 → keeps c v2 v3 → keeps c v1 v3.
Proof.
  intros H12 H23 d t y Hd Ht Hu Hy. destruct (H12 d t y Hd Ht Hu Hy) as (Hy2&t2&Ht2&Hu2). by apply (H23 d t2 y).
Qed.

Lemma keeps_same_pools c x s t t' v v' :
  sk_streams v !! s = Some t → sk_streams v' = <[s := t']> (sk_streams v) → (∀ w, st_pool w t' = st_pool w t) →
  sk_contexts v' = <[c := x]> (sk_contexts v) ∨ sk_contexts v' = sk_contexts v → keeps c v v'.
Proof.
  intros Ht Hst Hp Hco d t0 y Hd Ht0 Hu Hy. split.
  - destruct Hco as [-> | ->]; [rw lookup_insert_ne; [congruence|done]|done].
  - rw Hst. destruct (decide (ptr_stream d = s)) as [Hds|Hds].
    + rw Hds in Ht0 |- *. rw lookup_insert_eq. exists t'. split; [done|]. rw Hp. rw Ht in Ht0. by injection Ht0 as ->.
    + rw lookup_insert_ne; [congruence|]. by exists t0.
Qed.

Lemma st_pool_set w w' p t : st_pool w (st_set_pool w' p t) = if Bool.eqb w w' then p else st_pool w t.
Proof. by destruct w, w'. Qed.

(** Exchanging a buffer pool of [s] for one that lends out [o], or no longer
    does, together with the content of that buffer. *)
Lemma inv_buffer_pool g v s w o t p' x :
  let c : IoContextPtr := (s, w, o) in
  io_inv g v → sk_streams v !! s = Some t → in_hands g c → (∃ stock, pool_wf stock p') →
  (∀ o', o' ≠ o → o' ∈ op_in_used p' ↔ o' ∈ op_in_used (st_pool w t)) →
  io_operation_stream x = None → io_operation_stream <$> sk_contexts v !! c ∈ [None; Some None] →
  (o ∉ op_in_used p' → io_count x = 0) → 0 ≤ io_length x ≤ io_capacity x → io_capacity x < 2 ^ 32 →
  io_inv g (upd_context c x (upd_stream s (st_set_pool w p' t) v)).
Proof.
  intros c Hi Ht Hfree Hwf Hoth Hx Hold Hcnt Hlen Hcap.
  assert (Hn : ∀ s', namers (<[c := x]> (sk_contexts v)) s' = namers (sk_contexts v) s').
  { intros s'. apply set_eq. intros d. rw namers_insert Hx. case: (decide (None = Some s')) => [//|_].
    rw elem_of_difference elem_of_singleton.
    split; [tauto|]. intros Hd. split; [done|]. intros ->. rw elem_of_namers in Hd. rw Hd in Hold.
    by rw !elem_of_cons elem_of_nil in Hold; naive_solver. }
  set (t' := st_set_pool w p' t). set (v1 := upd_stream s t' v).
  assert (Hlook : ∀ s' t0, sk_streams (upd_context c x v1) !! s' = Some t0 →
    ∃ t1, sk_streams v !! s' = Some t1 ∧ st_count t0 = st_count t1 ∧ st_connected t0 = st_connected t1).
  { intros s' t0. cbn [upd_context sk_set_contexts sk_streams]. rw upd_stream_lookup.
    case_decide as Hs; [intros [= <-]; subst; by exists t|intros; by exists t0]. }
  assert (Hpools : ∀ d t0, sk_streams v !! ptr_stream d = Some t0 → ∃ t1,
    sk_streams (upd_context c x v1) !! ptr_stream d = Some t1 ∧ st_count t1 = st_count t0 ∧
    st_connected t1 = st_connected t0 ∧
    (d ≠ c → d.2 ∈ op_in_used (st_pool (ptr_write d) t1) ↔ d.2 ∈ op_in_used (st_pool (ptr_write d) t0))).
  { intros d t0 H0. cbn [upd_context sk_set_contexts sk_streams]. rw upd_stream_lookup.
    case_decide as Hs; [|by exists t0]. rw Hs Ht in H0. injection H0 as <-. exists t'. split_and!; [done..|].
    intros Hne. rw st_pool_set. destruct (Bool.eqb (ptr_write d) w) eqn:Hw; [|done]. apply Bool.eqb_prop in Hw. rw Hw.
    apply Hoth. intros Ho. apply Hne. destruct d as [[ds dw] do]. cbn in *. by subst. }
  destruct Hi as [H1 H2 H3 H4 H5 H6 H7 H8 H9 H10 H11 H12 H13]. split; try done.
  - intros b p Hb. destruct (H1 b p Hb) as (?&?&Hm). split_and!; [done..|]. intros s' Hs'. destruct (Hm s' Hs') as [? ?].
    split; [done|]. cbn [upd_context sk_set_contexts sk_streams]. rw upd_stream_lookup. case_decide; [by eexists|done].
  - intros s' t0 H0. destruct (Hlook s' t0 H0) as (t1&H1'&Hc1&_). destruct (H2 s' t1 H1') as [(p&?&?&?)].
    split. exists p. by rw Hc1.
  - intros s' t0 H0. destruct (Hlook s' t0 H0) as (t1&H1'&Hc1&_). rw Hc1 (H3 s' t1 H1') /refs. cbn. by rw Hn.
  - intros s' t0 H0. destruct (Hlook s' t0 H0) as (t1&H1'&Hc1&_). rw Hc1. by apply H4.
  - intros s' t0 H0. destruct (Hlook s' t0 H0) as (t1&H1'&_&Hc1). rw Hc1. by apply H5.
  - intros s' t0 w0. cbn [upd_context sk_set_contexts sk_streams]. rw upd_stream_lookup. case_decide as Hs; [|apply H6].
    intros [= <-]. rw st_pool_set. destruct (Bool.eqb w0 w); [done|]. by apply (H6 s).
  - intros d z. rw upd_context_lookup. case_decide as Hd.
    + intros [= <-]. subst d. exists t'. cbn [upd_context sk_set_contexts sk_streams]. rw upd_stream_lookup decide_True; [done|].
      split; [done|]. split; try done; [by left|]. cbn. rw st_pool_set Bool.eqb_reflx. auto.
    + intros Hz. destruct (H7 d z Hz) as (t0&Ht0&[B1 B2 B3 B4]). destruct (Hpools d t0 Ht0) as (t1&Ht1&_&_&Hu).
      exists t1. split; [done|]. split; try done. by rw (Hu Hd).
  - intros d t0 H0 Hu. rw upd_context_lookup. case_decide as Hd; [by eexists|].
    cbn [upd_context sk_set_contexts sk_streams] in H0. rw upd_stream_lookup in H0.
    destruct (decide (ptr_stream d = s)) as [Hs|Hs]; [|exact (H8 d t0 H0 Hu)].
    destruct (Hpools d t) as (t1&Ht1&_&_&Hu1); [by rw Hs|].
    cbn [upd_context sk_set_contexts sk_streams] in Ht1. rw upd_stream_lookup decide_True in Ht1; [done|].
    injection H0 as <-. injection Ht1 as <-. apply (H8 d t); [by rw Hs|by apply Hu1].
  - intros d Hd. destruct (H9 d Hd) as (t0&z&Ht0&Hz&Hf). pose proof (in_hands_ne g c d Hfree Hd) as Hdc.
    destruct (Hpools d t0 Ht0) as (t1&Ht1&Hcn&Hcon&Hu). exists t1, z.
    rw upd_context_lookup decide_False; [done|]. split_and!; [done..|].
    apply flying_frame; [apply Hfree|]. destruct Hf as [F1 F2 F3 F4 F5 F6 F7]. split; try done; [by apply Hu|by rw Hcn|by rw Hcon].
  - intros s' Hs'. cbn [upd_context sk_set_contexts sk_streams]. rw upd_stream_lookup. case_decide; [by eexists|by apply H10].
  - intros s' Hs'. destruct (H12 s' Hs') as [?|(d&z&Hd&Hds&Hz&Hop)]; [by left|]. right. exists d, z.
    rw upd_context_lookup decide_False; [by intros ->; apply Hfree|]. done.
Qed.

Lemma upd_context_streams c x v : sk_streams (upd_context c x v) = sk_streams v.
Proof. done. Qed.

Lemma buffer_pool_keeps s w o t p' x v :
  sk_streams v !! s = Some t → (∀ o', o' ≠ o → o' ∈ op_in_used p' ↔ o' ∈ op_in_used (st_pool w t)) →
  keeps (s, w, o) v (upd_context (s, w, o) x (upd_stream s (st_set_pool w p' t) v)).
Proof.
  intros Ht Hoth d t0 y Hd Ht0 Hu Hy. rw upd_context_lookup decide_False; [done|]. split; [done|].
  rw upd_context_streams upd_stream_lookup. case_decide as Hds; [|by exists t0].
  eexists. split; [done|]. rw Hds Ht in Ht0. injection Ht0 as <-. rw st_pool_set.
  destruct (Bool.eqb (ptr_write d) w) eqn:Hw; [|done]. apply Bool.eqb_prop in Hw. rw Hw in Hu. apply Hoth; [|done].
  intros Ho. apply Hd. destruct d as [[ds dw] do]. cbn in *. by subst.
Qed.

Lemma unused_in_hands g v c t :
  io_inv g v → sk_streams v !! ptr_stream c = Some t → c.2 ∉ op_in_used (st_pool (ptr_write c) t) → in_hands g c.
Proof.
  intros Hi Ht Hu. assert (Hn : c ∉ g_listening g ∪ g_flight g); [|rw elem_of_union in Hn; split; tauto].
  intros Hc. destruct (ii_flying _ _ Hi c Hc) as (t'&x&Ht'&_&Hf). rw Ht in Ht'. injection Ht' as <-. by destruct Hf.
Qed.

(** A buffer just taken from its pool. *)
Record fresh_buffer (g : io_ghost) (s : Z) (w : bool) (v v' : IocpSocketServer) (c : IoContextPtr) (t t' : IocpStream)
    (y : IoContext) : Prop := {
  fb_stream : ptr_stream c = s;
  fb_write : ptr_write c = w;
  fb_state : v' = upd_context c y (upd_stream s t' v);
  fb_count : st_count t' = st_count t;
  fb_connected : st_connected t' = st_connected t;
  fb_handled : handled g v' c t' y;
  fb_clear : io_operation_stream y = None ∧ io_count y = 0 ∧ io_length y = 0 ∧ io_attachment y = 0;
  fb_keeps : keeps c v v';
  fb_new : ∀ d t0, sk_streams v !! ptr_stream d = Some t0 → d.2 ∈ op_in_used (st_pool (ptr_write d) t0) → d ≠ c;
}.

Lemma pop_buffer_run g v s w must t :
  io_inv g v → sk_streams v !! s = Some t →
  (op_pool (st_pool w t) = [] → must = true ∧ op_object_sequence (st_pool w t) < 2 ^ 64 - 1) →
  ∃ c v' t' y, pop_buffer s w must v = Ok (Some c, v', []) ∧ io_inv g v' ∧ fresh_buffer g s w v v' c t t' y.
Proof.
  intros Hi Ht Hroom. destruct (ii_buffers _ _ Hi s t w Ht) as [stock Hwf].
  assert (Hpop : ∃ o p', Pop must (st_pool w t) = (Some o, p') ∧ pool_wf stock p' ∧ o ∉ op_in_used (st_pool w t) ∧
    op_in_used p' = {[o]} ∪ op_in_used (st_pool w t)).
  { destruct (op_pool (st_pool w t)) as [|o l] eqn:Hl.
    - destruct (Hroom eq_refl) as [-> Hseq]. pose proof (Pop_spec stock true _ Hwf Hseq) as Hsp.
      destruct (Pop true (st_pool w t)) as [[o|] p']; [|naive_solver]. by exists o, p'.
    - assert (Hpop : Pop must (st_pool w t) = (Some o, mkObjectPool l (op_object_sequence (st_pool w t))
        ({[o]} ∪ op_in_used (st_pool w t)) (op_heap (st_pool w t)))) by (rw /Pop Hl; done).
      eexists o, _. split_and!; [exact Hpop| | |done].
      + apply (pop_wf stock must _ o _ Hwf Hpop). rw Hl. by left.
      + apply (pw_disjoint _ _ Hwf). rw Hl. by left. }
  destruct Hpop as (o&p'&Hpop&Hwf'&Hno&Hused). set (c := (s, w, o) : IoContextPtr).
  assert (Hhands : in_hands g c) by exact (unused_in_hands g v c t Hi Ht Hno).
  set (capacity := if w then ssc_write_buffer_capacity (sk_config v) else ssc_read_buffer_capacity (sk_config v)).
  set (y := cleared (default (mkIoContext Io_None 0 None 0 capacity 0) (sk_contexts v !! c))).
  assert (Hy : io_count y = 0 ∧ 0 ≤ io_capacity y < 2 ^ 32 ∧ io_operation_stream <$> sk_contexts v !! c ∈ [None; Some None]).
  { rw /y. destruct (sk_contexts v !! c) as [z|] eqn:Hz; cbn.
    - destruct (ii_contexts _ _ Hi c z Hz) as (t0&Ht0&[B1 B2 B3 B4]). cbn in Ht0. rw Ht in Ht0. injection Ht0 as <-.
      destruct (B2 Hno) as [-> ->]. split_and!; [done|lia..|]. set_solver.
    - destruct (ii_capacity _ _ Hi). split_and!; [done|destruct w; cbn; lia..|]. set_solver. }
  destruct Hy as (Hy1&Hy2&Hy3).
  exists c, (upd_context c y (upd_stream s (st_set_pool w p' t) v)), (st_set_pool w p' t), y. split_and!.
  - rw /pop_buffer (bind_ok _ _ _ _ _ (get_stream_run s t v Ht)) Hpop. done.
  - apply (inv_buffer_pool g v s w o t p' y); try done; [by exists stock| |split; [done|apply Hy2]|apply Hy2].
    intros o' Hne. rw Hused. set_solver.
  - split; try done.
    + split; [done| | |].
      * cbn. by rw lookup_insert_eq.
      * cbn. rw st_pool_set Bool.eqb_reflx Hused. set_solver.
      * by rw upd_context_lookup decide_True.
    + apply (buffer_pool_keeps s w o t p' y v Ht). intros o' Hne. rw Hused. set_solver.
    + intros d t0 Ht0 Hu0 ->. cbn in Ht0, Hu0. rw Ht in Ht0. by injection Ht0 as <-.
Qed.

Lemma AllocateWriteBuffer_run g v s must t :
  io_inv g v → sk_streams v !! s = Some t →
  (op_pool (st_pool true t) = [] → must = true ∧ op_object_sequence (st_pool true t) < 2 ^ 64 - 1) →
  ∃ c v' t' y, AllocateWriteBuffer s must v = Ok (Some c, v', []) ∧ io_inv g v' ∧ fresh_buffer g s true v v' c t t' y.
Proof.
  intros Hi Ht Hroom. destruct (pop_buffer_run g v s true must t Hi Ht Hroom) as (c&v'&t'&y&Hrun&Hi'&Hf).
  exists c, v', t', y. split; [|done]. destruct (fb_handled _ _ _ _ _ _ _ _ _ Hf) as [_ _ _ Hy].
  destruct (fb_clear _ _ _ _ _ _ _ _ _ Hf) as (_&Hc&_).
  rw /AllocateWriteBuffer (bind_ok _ _ _ _ _ Hrun) (bind_ok _ _ _ _ _ (get_context_run c y v' Hy)) Hc. done.
Qed.

(** Giving a buffer back that points to nothing. *)
Lemma push_buffer_run g v c t y :
  io_inv g v → handled g v c t y → io_operation_stream y = None → io_count y = 0 →
  ∃ v', push_buffer c v = Ok ((), v', []) ∧ io_inv g v' ∧ same_but_pools v v' ∧
    (∀ s t0, sk_streams v' !! s = Some t0 → ∃ t1, sk_streams v !! s = Some t1 ∧ st_count t0 = st_count t1 ∧
       st_connected t0 = st_connected t1) ∧ keeps c v v'.
Proof.
  intros Hi Hh Hn Hz. pose proof (handled_ok _ _ _ _ _ Hi Hh) as [B1 B2 B3 B4]. destruct Hh as [Hfree Ht Hu Hy].
  destruct (ii_buffers _ _ Hi _ t (ptr_write c) Ht) as [stock Hwf].
  pose proof (Push_spec stock c.2 _ Hwf) as Hsp. destruct (Push c.2 (st_pool (ptr_write c) t)) as [p'|f] eqn:Hpush; [|done].
  destruct Hsp as (Hwf'&_&Hused&_). destruct c as [[s w] o]. cbn in *.
  assert (Hsame : upd_context (s, w, o) y (upd_stream s (st_set_pool w p' t) v) = upd_stream s (st_set_pool w p' t) v).
  { rw /upd_context /upd_stream /sk_set_streams /sk_set_contexts /=. f_equal. by rw insert_id. }
  exists (upd_stream s (st_set_pool w p' t) v). split_and!.
  - rw /push_buffer (bind_ok _ _ _ _ _ (get_stream_run s t v Ht)) /=. rw (bind_ok (lift _) _ v p' v); [by rw /= Hpush|done].
  - pose proof (inv_buffer_pool g v s w o t p' y Hi Ht Hfree) as Hinv. cbv zeta in Hinv.
    rw Hsame in Hinv. apply Hinv; try done; [by exists stock| |rw Hy /= Hn; set_solver].
    intros o' Hne. rw Hused. set_solver.
  - by split.
  - intros s' t0. rw upd_stream_lookup. case_decide as Hs; [intros [= <-]; subst; by exists t|intros; by exists t0].
  - rw -Hsame. apply buffer_pool_keeps; [done|]. intros o' Hne. rw Hused. set_solver.
Qed.

(** ** The pointer of a buffer to its stream *)

(** Releasing a stream does not look at the buffers. *)
Lemma push_socket_frame s c x v :
  push_socket s (upd_context c x v) =
    match push_socket s v with Ok (a, v', o) => Ok (a, upd_context c x v', o) | Err f => Err f end.
Proof.
  rw /push_socket /mbind /act_mbind /act_bind /get_state /lift /modify.
  rw (_ : socket_pool (from_connector_pool s) (upd_context c x v) = socket_pool (from_connector_pool s) v);
    [by destruct (from_connector_pool s)|].
  destruct (socket_pool (from_connector_pool s) v) as [p|]; [|done]. cbn [from_option_ub].
  destruct (Push s p) as [p'|f]; [|done]. case_bool_decide; by destruct (from_connector_pool s).
Qed.

Lemma release_reference_frame s c x v :
  release_reference s (upd_context c x v) =
    match release_reference s v with Ok (a, v', o) => Ok (a, upd_context c x v', o) | Err f => Err f end.
Proof.
  rw /release_reference /stream_Release /get_stream /SocketObjectDeleter.
  rw /mbind /act_mbind /act_bind /get_state /lift /put_stream /modify upd_context_streams.
  destruct (sk_streams v !! s) as [t|]; [|done]. cbn [from_option_ub].
  cbn [mret act_mret act_ret app]. destruct (to_i32 (st_count t - 1) =? 0); [|done].
  rw (_ : sk_set_streams (<[s:=st_set_count (to_i32 (st_count t - 1)) t]> (sk_streams v)) (upd_context c x v) =
    upd_context c x (sk_set_streams (<[s:=st_set_count (to_i32 (st_count t - 1)) t]> (sk_streams v)) v)); [done|].
  rw push_socket_frame. by destruct (push_socket s _) as [[[[] v'] o]|f].
Qed.

Lemma held_plus_minus s (h : gmultiset Z) : (h ⊎ {[+ s +]}) ∖ {[+ s +]} = h.
Proof. multiset_solver. Qed.

Lemma operation_stream_Release_run g v c t y s :
  io_inv g v → handled g v c t y → io_operation_stream y = Some s → st_count t < 2 ^ 31 →
  ∃ v', operation_stream_Release c v = Ok ((), v', []) ∧ io_inv g v' ∧ sk_config v' = sk_config v ∧
    handled g v' c (st_set_count (st_count t - 1) t) (with_stream None y) ∧
    sk_contexts v' = <[c := with_stream None y]> (sk_contexts v) ∧
    sk_streams v' = <[s := st_set_count (st_count t - 1) t]> (sk_streams v) ∧
    sk_hang_acceptor_count v' = sk_hang_acceptor_count v.
Proof.
  intros Hi Hh Hy Hb. pose proof (handled_ok _ _ _ _ _ Hi Hh) as [B1 _ _ _].
  assert (s = ptr_stream c) as -> by (destruct B1; congruence).
  pose proof (inv_unbind g v c t y _ Hi Hh Hy) as Hu.
  destruct (release_reference_run _ _ (ptr_stream c) t Hu) as (u&Hrun&Hiu&[C1 C2 C3]&Hst).
  { cbn. multiset_solver. }
  { exact (ha_stream _ _ _ _ _ Hh). }
  { done. }
  rw (_ : released (ptr_stream c) (with_held (g_held g ⊎ {[+ ptr_stream c +]}) g) = g) in Hiu.
  { rw /released. cbn. rw held_plus_minus. by destruct g. }
  rw release_reference_frame in Hrun.
  destruct (release_reference (ptr_stream c) v) as [[[[] v1] o]|f] eqn:Hrel; [|done]. injection Hrun as Hv Ho. subst u o.
  exists (upd_context c (with_stream None y) v1). split_and!; try done.
  - rw /operation_stream_Release (bind_ok _ _ _ _ _ (get_context_run c y v (ha_content _ _ _ _ _ Hh))) Hy.
    rw (bind_ok _ _ _ _ _ Hrel). done.
  - destruct Hh as [Hf Ht Hus Hc]. split; [done| |done|].
    + rw Hst. by rw lookup_insert_eq.
    + by rw upd_context_lookup decide_True.
Qed.

Definition operating (op : IoOperation) (attachment s : Z) (y : IoContext) : IoContext :=
  mkIoContext op attachment (Some s) (io_length y) (io_capacity y) (io_count y).

(** What starting an operation on a buffer leaves behind. *)
Record begun (g : io_ghost) (v v' : IocpSocketServer) (c : IoContextPtr) (t t' : IocpStream) (x : IoContext) : Prop := {
  be_handled : handled g v' c t' x;
  be_connected : st_connected t' = st_connected t;
  be_pools : ∀ w, st_pool w t' = st_pool w t;
  be_streams : sk_streams v' = <[ptr_stream c := t']> (sk_streams v);
  be_contexts : sk_contexts v' = <[c := x]> (sk_contexts v);
  be_config : sk_config v' = sk_config v;
}.

Lemma settled_upd_context g v c x s : in_hands g c → settled g v s → settled g (upd_context c x v) s.
Proof.
  intros Hh Hs d z Hd. rw upd_context_lookup decide_False; [exact (in_hands_ne g c d Hh Hd)|]. by apply Hs.
Qed.

(** [operation_stream_assign] to a buffer that points to nothing. *)
Lemma assign_fresh_run g v c t y :
  io_inv g v → handled g v c t y → io_operation_stream y = None → settled g v (ptr_stream c) →
  st_count t ≠ 0 ∨ ptr_stream c ∈ g_popped g → st_count t < 2 ^ 31 - 1 →
  ∃ v', operation_stream_assign c (ptr_stream c) v = Ok ((), v', []) ∧
    io_inv (with_popped (g_popped g ∖ {[ptr_stream c]}) g) v' ∧
    begun g v v' c t (st_set_count (st_count t + 1) t) (with_stream (Some (ptr_stream c)) y) ∧ same_server v v'.
Proof.
  intros Hi [Hf Ht Hu Hy] Hn Hset Hcnt Hb. set (s := ptr_stream c) in *. set (t' := st_set_count (st_count t + 1) t).
  destruct (inv_retain g v s t Hi Ht Hset Hcnt Hb) as [Hret Hi1]. set (v1 := upd_stream s t' v) in *.
  assert (Hh1 : handled (retained s g) v1 c t' y).
  { split; try done. by rw upd_stream_lookup decide_True. }
  pose proof (inv_bind _ _ c t' y Hi1 Hh1 Hn) as Hi2. fold s in Hi2.
  rw (_ : with_held (g_held (retained s g) ∖ {[+ s +]}) (retained s g) = with_popped (g_popped g ∖ {[s]}) g) in Hi2.
  { rw /retained. cbn. rw held_plus_minus. by destruct g. }
  exists (upd_context c (with_stream (Some s) y) v1). split_and!.
  - rw /operation_stream_assign (bind_ok _ _ _ _ _ Hret).
    rw (bind_ok _ _ v1 () v1). { rw /operation_stream_Release (bind_ok _ _ _ _ _ (get_context_run c y v1 Hy)) Hn. done. }
    by rw (bind_ok _ _ _ _ _ (get_context_run c y v1 Hy)).
  - apply Hi2. cbn. multiset_solver.
  - split; try done. split; try done; [by rw upd_context_streams upd_stream_lookup decide_True|].
    by rw upd_context_lookup decide_True.
  - split; [done|]. by intros [].
Qed.

(** To one that still points to its stream: the reference is exchanged. *)
Lemma assign_again_run g v c t y :
  io_inv g v → handled g v c t y → io_operation_stream y = Some (ptr_stream c) → settled g v (ptr_stream c) →
  st_count t < 2 ^ 31 - 1 →
  ∃ v', operation_stream_assign c (ptr_stream c) v = Ok ((), v', []) ∧ io_inv (with_popped (g_popped g ∖ {[ptr_stream c]}) g) v' ∧
    begun g v v' c t (st_set_count (st_count t) t) y.
Proof.
  intros Hi Hh Hy Hset Hb. pose proof Hh as [Hf Ht Hu Hc]. set (s := ptr_stream c) in *.
  assert (Hpos : 1 ≤ st_count t).
  { rw (ii_count _ _ Hi s t Ht) /refs.
    assert (Hin : c ∈ namers (sk_contexts v) s) by (rw elem_of_namers Hc /= Hy; done).
    apply namers_pos in Hin. case_bool_decide; cbn; lia. }
  destruct (inv_retain g v s t Hi Ht Hset) as [Hret Hi1]; [lia|done|].
  set (t1 := st_set_count (st_count t + 1) t) in *. set (v1 := upd_stream s t1 v) in *.
  assert (Hh1 : handled (retained s g) v1 c t1 y).
  { split; try done. by rw upd_stream_lookup decide_True. }
  destruct (operation_stream_Release_run _ _ c t1 y s Hi1 Hh1 Hy) as (v2&Hrel&Hi2&Hcf&Hh2&Hco&Hst&_); [cbn; lia|].
  pose proof (inv_bind _ _ c _ _ Hi2 Hh2 eq_refl) as Hi3. fold s in Hi3.
  rw (_ : with_held (g_held (retained s g) ∖ {[+ s +]}) (retained s g) = with_popped (g_popped g ∖ {[s]}) g) in Hi3.
  { rw /retained. cbn. rw held_plus_minus. by destruct g. }
  rw (_ : with_stream (Some s) (with_stream None y) = y) in Hi3; [destruct y; cbn in *; by rw Hy|].
  assert (Ht2 : st_set_count (st_count t1 - 1) t1 = st_set_count (st_count t) t).
  { rw /t1 /st_set_count /=. f_equal. lia. }
  exists (upd_context c y v2). split_and!.
  - rw /operation_stream_assign (bind_ok _ _ _ _ _ Hret) (bind_ok _ _ _ _ _ Hrel).
    rw (bind_ok _ _ _ _ _ (get_context_run c _ v2 (ha_content _ _ _ _ _ Hh2))).
    rw (_ : with_stream (Some s) (with_stream None y) = y); [destruct y; cbn in *; by rw Hy|done].
  - apply Hi3. cbn. multiset_solver.
  - destruct Hh2 as [_ Hs2 Hu2 _]. split; try done.
    + split; try done; [by rw upd_context_streams Hs2 Ht2|by rw upd_context_lookup decide_True].
    + rw upd_context_streams Hst Ht2. cbn. by rw insert_insert_eq.
    + cbn. by rw Hco insert_insert_eq.
Qed.

Lemma begin_operation_run g v c t y op attachment s :
  io_inv g v → handled g v c t y → ptr_stream c = s → settled g v s →
  st_count t ≠ 0 ∨ s ∈ g_popped g → st_count t < 2 ^ 31 - 1 →
  ∃ v' t', begin_operation op attachment s c v = Ok ((), v', []) ∧
    io_inv (with_popped (g_popped g ∖ {[s]}) g) v' ∧ begun g v v' c t t' (operating op attachment s y) ∧
    st_count t' = st_count t + (if io_operation_stream y is None then 1 else 0) ∧
    (io_operation_stream y = None → same_server v v').
Proof.
  intros Hi Hh <- Hset Hcnt Hb. pose proof Hh as [Hf Ht Hu Hc].
  pose proof (handled_ok _ _ _ _ _ Hi Hh) as [B1 _ B3 B4].
  set (z := mkIoContext op attachment (io_operation_stream y) (io_length y) (io_capacity y) (io_count y)).
  pose proof (inv_rewrite g v c t z y Hi Hh eq_refl B3 B4) as Hi1.
  assert (Hh1 : handled g (upd_context c z v) c t z) by (split; try done; by rw upd_context_lookup decide_True).
  pose proof (settled_upd_context g v c z _ Hf Hset) as Hset1.
  assert (Hrun : ∀ w, operation_stream_assign c (ptr_stream c) (upd_context c z v) = Ok ((), w, []) →
    begin_operation op attachment (ptr_stream c) c v = Ok ((), w, [])).
  { intros w Hw. rw /begin_operation (bind_ok _ _ _ _ _ (get_context_run c y v Hc)). rw (bind_ok _ _ v () (upd_context c z v)); [done|exact Hw]. }
  assert (Hbe : ∀ v' t' x, begun g (upd_context c z v) v' c t t' x → begun g v v' c t t' x).
  { intros v' t' x [E1 E2 E3 E4 E5 E6]. split; try done. by rw E5 /= insert_insert_eq. }
  destruct (io_operation_stream y) as [s|] eqn:Hy.
  - assert (s = ptr_stream c) as -> by (destruct B1; congruence).
    destruct (assign_again_run g _ c t z Hi1 Hh1 eq_refl Hset1 Hb) as (v'&Hrel&Hi2&Hbeg).
    exists v', (st_set_count (st_count t) t). split_and!; [by apply Hrun|done|by apply Hbe|cbn; lia|done].
  - destruct (assign_fresh_run g _ c t z Hi1 Hh1 eq_refl Hset1 Hcnt Hb) as (v'&Hrel&Hi2&Hbeg&Hpools).
    exists v', (st_set_count (st_count t + 1) t). split_and!; [by apply Hrun|done|by apply Hbe|done|].
    intros _. destruct Hpools as [[? ? ?] Hpools]. split; [done|]. intros b. rw Hpools. by destruct b.
Qed.

(** [ReleaseReadBuffer] and [ReleaseWriteBuffer] of a buffer in hands. *)
Lemma release_buffer_run g v c t y :
  io_inv g v → handled g v c t y → st_count t < 2 ^ 31 →
  ∃ v', release_buffer (ptr_stream c) (ptr_write c) c v = Ok ((), v', []) ∧ io_inv g v' ∧ keeps c v v' ∧
    (∀ s t0, sk_streams v' !! s = Some t0 → ∃ t1, sk_streams v !! s = Some t1 ∧ st_count t0 ≤ st_count t1) ∧
    ∃ t', sk_streams v' !! ptr_stream c = Some t' ∧ st_connected t' = st_connected t ∧
      (is_Some (io_operation_stream y) → st_count t' = st_count t - 1).
Proof.
  intros Hi Hh Hb. pose proof Hh as [Hf Ht Hu Hc]. pose proof (handled_ok _ _ _ _ _ Hi Hh) as [B1 _ B3 B4].
  set (z := mkIoContext (io_operation y) (io_attachment y) (io_operation_stream y) (io_length y) (io_capacity y)
              (to_i32 (io_count y - io_count y))).
  assert (Hz0 : io_count z = 0) by (rw /z /= Z.sub_diag; done).
  pose proof (inv_rewrite g v c t z y Hi Hh eq_refl B3 B4) as Hi1.
  assert (Hh1 : handled g (upd_context c z v) c t z) by (split; try done; by rw upd_context_lookup decide_True).
  assert (Hstart : ∀ w, (operation_stream_Release c ;; push_buffer c) (upd_context c z v) = Ok ((), w, []) →
    release_buffer (ptr_stream c) (ptr_write c) c v = Ok ((), w, [])).
  { intros w Hw. rw /release_buffer Z.eqb_refl Bool.eqb_reflx. rw (bind_ok _ _ v () v); [done|].
    rw (bind_ok _ _ _ _ _ (get_context_run c y v Hc)). rw (bind_ok _ _ v () (upd_context c z v)); [done|exact Hw]. }
  destruct (io_operation_stream y) as [s|] eqn:Hy.
  - destruct (operation_stream_Release_run g _ c t z s Hi1 Hh1 eq_refl Hb) as (v2&Hrel&Hi2&Hcf&Hh2&Hco2&Hst2&_).
    destruct (push_buffer_run g v2 c _ _ Hi2 Hh2 eq_refl Hz0) as (v3&Hpush&Hi3&[_ Hco3 _]&Hcnt3&Hk3).
    assert (s = ptr_stream c) as -> by (destruct B1; congruence).
    exists v3. split_and!; [apply Hstart; by rw (bind_ok _ _ _ _ _ Hrel)|done| | |].
    + refine (keeps_trans c v v2 v3 _ Hk3). apply (keeps_same_pools c (with_stream None z) (ptr_stream c) t _ v v2 Ht Hst2); [done|].
      left. rw Hco2 /=. by rw insert_insert_eq.
    + intros s' t0 Ht0. destruct (Hcnt3 s' t0 Ht0) as (t1&Ht1&Hc1&_). rw Hst2 in Ht1.
      apply lookup_insert_Some in Ht1 as [[<- <-]|[_ Ht1]]; [exists t; cbn in Hc1; split; [done|lia]|exists t1; split; [done|lia]].
    + destruct (ii_contexts _ _ Hi3 c _ ltac:(rw Hco3; exact (ha_content _ _ _ _ _ Hh2))) as (t'&Ht'&_). exists t'. split; [done|].
      destruct (Hcnt3 _ t' Ht') as (t1&Ht1&Hc1&Hc2). rw Hst2 lookup_insert_eq in Ht1. by injection Ht1 as <-.
  - destruct (push_buffer_run g _ c _ _ Hi1 Hh1 eq_refl Hz0) as (v3&Hpush&Hi3&[_ Hco3 _]&Hcnt3&Hk3).
    exists v3. split_and!; [|done| |intros s' t0 Ht0; destruct (Hcnt3 s' t0 Ht0) as (t1&Ht1&Hc1&_); exists t1; split; [done|lia]|].
    3: { destruct (ii_contexts _ _ Hi3 c _ ltac:(rw Hco3; exact (ha_content _ _ _ _ _ Hh1))) as (t'&Ht'&_). exists t'. split; [done|].
         destruct (Hcnt3 _ t' Ht') as (t1&Ht1&_&Hc2). cbn in Ht1. rw Ht in Ht1. injection Ht1 as <-. split; [done|].
         by intros [? ?]. }
    2: { refine (keeps_trans c v _ v3 _ Hk3). intros d t0 y0 Hd Ht0 Hu0 Hy0. rw upd_context_lookup decide_False; [done|].
         split; [done|]. by exists t0. }
    apply Hstart. rw (bind_ok _ _ _ () (upd_context c z v)); [|done].
    by rw /operation_stream_Release (bind_ok _ _ _ _ _ (get_context_run c z _ (ha_content _ _ _ _ _ Hh1))).
Qed.

(** ** Handing a buffer to the operating system and getting it back *)

Definition launch (c : IoContextPtr) (g : io_ghost) : io_ghost := with_flight ({[c]} ∪ g_flight g) g.
Definition landed (c : IoContextPtr) (g : io_ghost) : io_ghost := with_flight (g_flight g ∖ {[c]}) g.

Lemma inv_launch g v c t x :
  io_inv g v → handled g v c t x → io_operation_stream x = Some (ptr_stream c) →
  operation_kind c (io_operation x) → (internal (io_operation x) = true → io_count x = 0) → io_operation x ≠ Io_Accept →
  (io_operation x = Io_Connect → ptr_stream c ∉ g_conn g ∧ st_count t = 1) →
  (io_operation x = Io_Disconnect → ptr_stream c ∈ g_open g ∧ st_connected t = false ∧ not_closing g v (ptr_stream c)) →
  io_inv (launch c g) v.
Proof.
  intros [H1 H2 H3 H4 H5 H6 H7 H8 H9 H10 H11 H12 H13] [[Hl Hf] Ht Hu Hc] Hs Hkind Hint Hna Hcon Hdis.
  split; try done.
  - intros d Hd. destruct (decide (d = c)) as [->|Hne].
    + exists t, x. split_and!; try done. split; try done.
      * intros Hop. destruct (io_operation x) eqn:Ho; try done.
        destruct (Hcon eq_refl) as [Hn Hc1]. split_and!; [by intros ?%H11| |].
        -- rw (bool_decide_eq_false_2 _ Hn). cbn. lia.
        -- split; [done|]. by intros [_ ?].
      * intros Hop. destruct (Hdis Hop) as (?&?&Hnc). split_and!; [done..|].
        intros d' x' Hd' Hx' Hop' Hs'. cbn in Hd'. apply elem_of_union in Hd' as [Hd'%elem_of_singleton|Hd']; [done|].
        by destruct (Hnc d' x' Hd' Hx' Hs').
    + assert (Hd' : d ∈ g_listening g ∪ g_flight g).
      { cbn in Hd. rw elem_of_union elem_of_union elem_of_singleton in Hd. rw elem_of_union. tauto. }
      destruct (H9 d Hd') as (t'&y&Ht'&Hy&[F1 F2 F3 F4 F5 F6 F7]). exists t', y. split_and!; [done..|]. split; try done; cbn.
      * intros Hdl. destruct (F4 Hdl) as [? ?]. split; [done|]. rw elem_of_union elem_of_singleton. tauto.
      * intros Hop. destruct (F5 Hop) as (?&?&Hiff). split_and!; [done..|]. rw Hiff elem_of_union elem_of_singleton. tauto.
      * intros Hop. destruct (F6 Hop) as (Ho&Hcf&Huq). split_and!; [done..|]. intros d' x' Hdd Hx' Hop' Hs'.
        apply elem_of_union in Hdd as [->%elem_of_singleton|Hdd]; [|by apply (Huq d' x')].
        rw Hc in Hx'. injection Hx' as <-. destruct (Hdis Hop') as (_&_&Hnc).
        assert (Hdf : d ∈ g_flight g).
        { apply elem_of_union in Hd' as [Hd'|Hd']; [|done]. destruct (F4 Hd') as [Hacc _]. congruence. }
        by destruct (Hnc d y Hdf Hy (eq_sym Hs')).
  - intros s Hs'. destruct (H12 s Hs') as [?|(d&z&Hd&?)]; [by left|]. right. exists d, z. split; [|done]. cbn. set_solver.
Qed.

(** Two buffers that point to a stream are two references. *)
Lemma two_namers m s c d : c ∈ namers m s → d ∈ namers m s → c ≠ d → 2 ≤ Z.of_nat (size (namers m s)).
Proof.
  intros Hc Hd Hne. assert (size ({[c; d]} : gset IoContextPtr) ≤ size (namers m s))%nat as Hs.
  { apply subseteq_size. intros z Hz. rw elem_of_union !elem_of_singleton in Hz. destruct Hz as [-> | ->]; done. }
  rw size_union in Hs; [apply disjoint_singleton_l; by rw elem_of_singleton|]. rw !size_singleton in Hs. lia.
Qed.

(** The facts about an operation under way. *)
Lemma inv_flying g v c x :
  io_inv g v → c ∈ g_listening g ∪ g_flight g → sk_contexts v !! c = Some x →
  ∃ t, sk_streams v !! ptr_stream c = Some t ∧ flying g (sk_contexts v) c t x ∧ c ∈ namers (sk_contexts v) (ptr_stream c).
Proof.
  intros Hi Hc Hx. destruct (ii_flying _ _ Hi c Hc) as (t&y&Ht&Hy&Hf). rw Hx in Hy. injection Hy as <-. exists t.
  split_and!; [done..|]. by rw elem_of_namers Hx /= (fl_stream _ _ _ _ _ Hf).
Qed.

(** A stream that is being opened is being opened once, and by nobody else. *)
Lemma opening_alone g v c x d y :
  io_inv g v → c ∈ g_listening g ∪ g_flight g → sk_contexts v !! c = Some x → opening (io_operation x) = true →
  d ∈ namers (sk_contexts v) (ptr_stream c) → sk_contexts v !! d = Some y → d = c.
Proof.
  intros Hi Hc Hx Hop Hd Hy. destruct (inv_flying g v c x Hi Hc Hx) as (t&Ht&Hf&Hin).
  destruct (decide (d = c)) as [|Hne]; [done|]. pose proof (two_namers _ _ _ _ Hin Hd (not_eq_sym Hne)).
  destruct (fl_opening _ _ _ _ _ Hf Hop) as (_&Hcnt&_). rw (ii_count _ _ Hi _ _ Ht) /refs in Hcnt. lia.
Qed.

Lemma left_others (A B : gset IoContextPtr) c d : d ∈ A ∖ {[c]} ∪ B ∖ {[c]} → d ≠ c ∧ d ∈ A ∪ B.
Proof. set_solver. Qed.
Lemma left_other (B : gset IoContextPtr) c d : d ∈ B ∖ {[c]} ↔ d ∈ B ∧ d ≠ c.
Proof. set_solver. Qed.

Lemma inv_leave g v c x :
  io_inv g v → c ∈ g_listening g ∪ g_flight g → sk_contexts v !! c = Some x →
  (c ∈ g_flight g → io_operation x ≠ Io_Accept) →
  let g' := with_listening (g_listening g ∖ {[c]}) (landed c g) in
  io_inv g' v ∧ ∃ t, handled g' v c t x ∧ io_operation_stream x = Some (ptr_stream c) ∧
    (internal (io_operation x) = true → io_count x = 0) ∧ operation_kind c (io_operation x) ∧
    (opening (io_operation x) = true → settled g' v (ptr_stream c) ∧ not_closing g' v (ptr_stream c) ∧
       st_count t = 1 ∧ ptr_stream c ∉ g_conn g) ∧
    (io_operation x = Io_Disconnect → ptr_stream c ∈ g_open g ∧ st_connected t = false ∧
       not_closing g' v (ptr_stream c) ∧ settled g' v (ptr_stream c)).
Proof.
  intros Hi Hc Hx Hacc g'. destruct (inv_flying g v c x Hi Hc Hx) as (t&Ht&Hf&Hin). split.
  - destruct Hi as [H1 H2 H3 H4 H5 H6 H7 H8 H9 H10 H11 H12 H13]. split; try done.
    + intros d Hd. apply left_others in Hd as [Hdc Hd'].
      destruct (H9 d Hd') as (t'&y&Ht'&Hy&[F1 F2 F3 F4 F5 F6 F7]). exists t', y. split_and!; [done..|]. split; try done; cbn.
      * intros [Hdl _]%left_other. destruct (F4 Hdl). split; [done|]. rw left_other. tauto.
      * intros Hop. destruct (F5 Hop) as (?&?&Hiff). split_and!; [done..|]. rw Hiff left_other. tauto.
      * intros Hop. destruct (F6 Hop) as (?&?&Huq). split_and!; [done..|]. intros d' x' [Hd0 _]%left_other. by apply Huq.
    + intros s Hs. destruct (H12 s Hs) as [?|(d&z&Hd&Hds&Hz&Hop)]; [by left|]. right. exists d, z. split_and!; try done.
      apply left_other. split; [done|]. intros ->. rw Hx in Hz. injection Hz as <-. by apply Hacc.
  - exists t. destruct Hf as [F1 F2 F3 F4 F5 F6 F7]. split_and!; try done.
    + split; try done. split; cbn; rw left_other; tauto.
    + intros Hop. destruct (F5 Hop) as (Hno&Hcnt&Hiff).
      assert (Hnc : ptr_stream c ∉ g_conn g) by (rw Hiff; intros [Hfl Ha]; by apply Hacc).
      rw (bool_decide_eq_false_2 _ Hnc) in Hcnt. split_and!; [| |cbn in Hcnt; lia|done].
      * intros d y [Hdc Hd']%left_others Hy Hds. destruct (inv_flying g v d y Hi Hd' Hy) as (_&_&_&Hdin).
        rw Hds in Hdin. by destruct (Hdc (opening_alone g v c x d y Hi Hc Hx Hop Hdin Hy)).
      * intros d y [Hd Hdc]%left_other Hy Hds.
        destruct (inv_flying g v d y Hi (proj2 (elem_of_union _ _ _) (or_intror Hd)) Hy) as (_&_&_&Hdin).
        rw Hds in Hdin. by destruct (Hdc (opening_alone g v c x d y Hi Hc Hx Hop Hdin Hy)).
    + intros Hop. destruct (F6 Hop) as (Ho&Hcf&Huq). split_and!; [done..| |].
      * intros d y [Hd Hdc]%left_other Hy Hds Hopd. by destruct (Hdc (Huq d y Hd Hy Hopd Hds)).
      * intros d y [Hdc Hd']%left_others Hy Hds.
        destruct (inv_flying g v d y Hi Hd' Hy) as (t'&Ht'&Hfd&_).
        destruct (opening (io_operation y)) eqn:Hopd; [|done]. destruct (fl_opening _ _ _ _ _ Hfd Hopd) as [Hno _].
        by rw Hds in Hno.
Qed.

(** ** Connections *)

Lemma inv_listen g v c t x :
  io_inv g v → handled g v c t x → io_operation_stream x = Some (ptr_stream c) → io_operation x = Io_Accept →
  io_count x = 0 → ptr_stream c ∉ g_conn g → st_count t = 1 →
  io_inv (with_listening ({[c]} ∪ g_listening g) g) v.
Proof.
  intros [H1 H2 H3 H4 H5 H6 H7 H8 H9 H10 H11 H12 H13] [[Hl Hf] Ht Hu Hc] Hs Hop H0 Hn Hc1. split; try done.
  intros d Hd. destruct (decide (d = c)) as [->|Hne].
  - exists t, x. split_and!; try done. split; try done; [|congruence|by rw Hop]. intros _. split_and!; [by intros ?%H11| |].
    + cbn. rw (bool_decide_eq_false_2 _ Hn). cbn. lia.
    + split; [done|]. by intros [? _].
  - assert (Hd' : d ∈ g_listening g ∪ g_flight g).
    { cbn in Hd. rw !elem_of_union elem_of_singleton in Hd. rw elem_of_union. tauto. }
    destruct (H9 d Hd') as (t'&y&Ht'&Hy&[F1 F2 F3 F4 F5 F6 F7]). exists t', y. split_and!; [done..|]. split; try done.
    cbn. rw elem_of_union elem_of_singleton. naive_solver.
Qed.

(** A reference in hands becomes that of a connection. *)
Definition connected_ghost (s : Z) (g : io_ghost) : io_ghost :=
  with_conn ({[s]} ∪ g_conn g) ({[s]} ∪ g_open g) (released s g).

Lemma inv_connect g v s : io_inv g v → s ∈ g_held g → s ∉ g_conn g → io_inv (connected_ghost s g) v.
Proof.
  intros Hi Hs Hn. pose proof (held_settled g v s Hi Hs) as Hset.
  destruct Hi as [H1 H2 H3 H4 H5 H6 H7 H8 H9 H10 H11 H12 H13]. split; try done.
  - intros s' t Ht. rw (H3 s' t Ht) /refs. cbn [g_held g_conn connected_ghost with_conn released with_held].
    rw multiplicity_minus; [done|]. destruct (decide (s' = s)) as [->|Hne].
    + rw (bool_decide_eq_true_2 (s = s)) // (bool_decide_eq_false_2 _ Hn) bool_decide_eq_true_2; [set_solver|]. cbn. lia.
    + rw (bool_decide_eq_false_2 _ Hne) (bool_decide_ext (s' ∈ {[s]} ∪ g_conn g) (s' ∈ g_conn g)); [set_solver|]. cbn. lia.
  - intros s' t Ht Hc. cbn. apply elem_of_union. right. by apply (H5 s' t).
  - intros d Hd. destruct (H9 d Hd) as (t&y&Ht&Hy&[F1 F2 F3 F4 F5 F6 F7]). exists t, y. split_and!; [done..|]. split; try done; cbn.
    + intros Hop. destruct (decide (ptr_stream d = s)) as [Hds|Hds].
      { rw (Hset d y Hd Hy Hds) in Hop. done. }
      destruct (F5 Hop) as (Ho&Hc&Hiff). split_and!; [set_solver| |].
      * rw Hc (bool_decide_ext (ptr_stream d ∈ {[s]} ∪ g_conn g) (ptr_stream d ∈ g_conn g)); [set_solver|done].
      * rw -Hiff. set_solver.
    + intros Hop. destruct (F6 Hop) as (Ho&?&?). split_and!; [set_solver|done..].
  - intros s' Hs'. apply H10. cbn in Hs'. destruct Hs' as [Hs'|[Hs'|Hs']]; [left; multiset_solver| |tauto].
    apply elem_of_union in Hs' as [->%elem_of_singleton|Hs']; tauto.
  - cbn. set_solver.
  - intros s' Hs'. cbn in Hs' |- *. apply elem_of_union in Hs' as [->%elem_of_singleton|Hs']; [left; set_solver|].
    destruct (H12 s' Hs') as [?|?]; [left; set_solver|by right].
Qed.

(** The connection ends: its reference is in hands again. *)
Definition disconnected_ghost (s : Z) (g : io_ghost) : io_ghost :=
  with_conn (g_conn g ∖ {[s]}) (g_open g ∖ {[s]}) (with_held (g_held g ⊎ {[+ s +]}) g).

Lemma inv_disconnect g v s t :
  io_inv g v → s ∈ g_open g → sk_streams v !! s = Some t → st_connected t = false → not_closing g v s →
  settled g v s → io_inv (disconnected_ghost s g) v.
Proof.
  intros Hi Hs Hts Hcf Hnc Hset.
  destruct Hi as [H1 H2 H3 H4 H5 H6 H7 H8 H9 H10 H11 H12 H13]. assert (Hsc : s ∈ g_conn g) by (by apply H11). split; try done.
  - intros s' t' Ht. rw (H3 s' t' Ht) /refs. cbn [g_held g_conn disconnected_ghost with_conn with_held].
    rw multiplicity_plus. destruct (decide (s' = s)) as [->|Hne].
    + rw (bool_decide_eq_true_2 (s = s)) // (bool_decide_eq_true_2 _ Hsc) bool_decide_eq_false_2; [set_solver|]. cbn. lia.
    + rw (bool_decide_eq_false_2 _ Hne) (bool_decide_ext (s' ∈ g_conn g ∖ {[s]}) (s' ∈ g_conn g)); [set_solver|]. cbn. lia.
  - intros s' t' Ht Hc. cbn. apply elem_of_difference. split; [by apply (H5 s' t')|]. intros ->%elem_of_singleton.
    rw Hts in Ht. injection Ht as <-. congruence.
  - intros d Hd. destruct (H9 d Hd) as (t'&y&Ht&Hy&[F1 F2 F3 F4 F5 F6 F7]). exists t', y. split_and!; [done..|]. split; try done; cbn.
    + intros Hop. destruct (decide (ptr_stream d = s)) as [Hds|Hds].
      { rw (Hset d y Hd Hy Hds) in Hop. done. }
      destruct (F5 Hop) as (Ho&Hc&Hiff). split_and!; [set_solver| |].
      * rw Hc (bool_decide_ext (ptr_stream d ∈ g_conn g ∖ {[s]}) (ptr_stream d ∈ g_conn g)); [set_solver|done].
      * rw -Hiff. set_solver.
    + intros Hop. destruct (F6 Hop) as (Ho&?&?). split_and!; [|done..]. apply elem_of_difference. split; [done|].
      intros Hds%elem_of_singleton. assert (Hdf : d ∈ g_flight g).
      { apply elem_of_union in Hd as [Hd|Hd]; [|done]. destruct (F4 Hd). congruence. }
      by destruct (Hnc d y Hdf Hy Hds).
  - intros s' Hs'. cbn in Hs'. destruct Hs' as [Hs'|[Hs'|Hs']]; [|apply H10; set_solver|apply H10; tauto].
    apply gmultiset_elem_of_disj_union in Hs' as [Hs'| ->%gmultiset_elem_of_singleton]; apply H10; tauto.
  - cbn. set_solver.
  - intros s' Hs'. cbn in Hs' |- *. apply elem_of_difference in Hs' as [Hs' Hne].
    destruct (H12 s' Hs') as [?|?]; [left; set_solver|by right].
Qed.

(** An accepted connection waits for the I/O thread to announce it. *)
Definition accepted_ghost (c : IoContextPtr) (g : io_ghost) : io_ghost :=
  with_conn (g_conn g) (g_open g ∖ {[ptr_stream c]}) (launch c g).

Lemma inv_accept g v c t x :
  io_inv g v → handled g v c t x → io_operation_stream x = Some (ptr_stream c) → io_operation x = Io_Accept →
  io_count x = 0 → ptr_stream c ∈ g_conn g → st_count t = 2 → not_closing g v (ptr_stream c) →
  settled g v (ptr_stream c) → io_inv (accepted_ghost c g) v.
Proof.
  intros Hi [[Hl Hf] Ht Hu Hc] Hs Hop H0 Hn Hc2 Hnc Hset.
  destruct Hi as [H1 H2 H3 H4 H5 H6 H7 H8 H9 H10 H11 H12 H13]. split; try done.
  - intros d Hd. destruct (decide (d = c)) as [->|Hne].
    + exists t, x. split_and!; try done. split; try done; [|congruence|by rw Hop]. intros _. cbn. split_and!; [set_solver| |].
      * rw (bool_decide_eq_true_2 _ Hn). cbn. lia.
      * split; [set_solver|done].
    + assert (Hd' : d ∈ g_listening g ∪ g_flight g).
      { cbn in Hd. rw !elem_of_union elem_of_singleton in Hd. rw elem_of_union. tauto. }
      destruct (H9 d Hd') as (t'&y&Ht'&Hy&[F1 F2 F3 F4 F5 F6 F7]). exists t', y. split_and!; [done..|]. split; try done; cbn.
      * intros Hdl. destruct (F4 Hdl). split; [done|]. rw elem_of_union elem_of_singleton. tauto.
      * intros Hopd. destruct (F5 Hopd) as (?&?&Hiff). split_and!; [set_solver|done|].
        rw Hiff elem_of_union elem_of_singleton. tauto.
      * intros Hopd. destruct (F6 Hopd) as (Ho&?&Huq). split_and!; [|done|].
        -- apply elem_of_difference. split; [done|]. intros Hds%elem_of_singleton.
           assert (Hdf : d ∈ g_flight g).
           { apply elem_of_union in Hd' as [Hd'|Hd']; [|done]. destruct (F4 Hd'). congruence. }
           by destruct (Hnc d y Hdf Hy Hds).
        -- intros d' x' [->%elem_of_singleton|Hdd]%elem_of_union Hx' Hop' Hs'; [|by apply (Huq d' x')].
           rw Hc in Hx'. injection Hx' as <-. congruence.
  - cbn. set_solver.
  - intros s Hs'. cbn in Hs' |- *. destruct (decide (s = ptr_stream c)) as [->|Hne].
    + right. exists c, x. split_and!; try done. set_solver.
    + destruct (H12 s Hs') as [?|(d&z&Hd&?)]; [left; set_solver|]. right. exists d, z. split; [|done]. set_solver.
Qed.

(** The I/O thread announces it. *)
Definition announced_ghost (c : IoContextPtr) (g : io_ghost) : io_ghost :=
  with_conn (g_conn g) ({[ptr_stream c]} ∪ g_open g) (landed c g).

Lemma inv_announce g v c x :
  io_inv g v → c ∈ g_flight g → sk_contexts v !! c = Some x → io_operation x = Io_Accept →
  ptr_stream c ∉ g_open g ∧ io_inv (announced_ghost c g) v ∧
  ∃ t, handled (announced_ghost c g) v c t x ∧ io_operation_stream x = Some (ptr_stream c) ∧ io_count x = 0.
Proof.
  intros Hi Hcf Hx Hop. assert (Hc : c ∈ g_listening g ∪ g_flight g) by (apply elem_of_union; by right).
  destruct (inv_flying g v c x Hi Hc Hx) as (t&Ht&Hf&Hin). destruct (fl_opening _ _ _ _ _ Hf) as (Hno&Hcnt&Hiff); [by rw Hop|].
  assert (Hn : ptr_stream c ∈ g_conn g) by (by apply Hiff).
  assert (Hcl : c ∉ g_listening g) by (intros Hcl; destruct (fl_listening _ _ _ _ _ Hf Hcl) as [_ Hcf']; by apply Hcf').
  split; [done|]. split.
  - assert (Halone : ∀ d y, d ∈ g_listening g ∪ g_flight g → sk_contexts v !! d = Some y → ptr_stream d = ptr_stream c → d = c).
    { intros d y Hd Hy Hds. destruct (inv_flying g v d y Hi Hd Hy) as (_&_&_&Hdin). rw Hds in Hdin.
      refine (opening_alone g v c x d y Hi Hc Hx _ Hdin Hy). by rw Hop. }
    destruct Hi as [H1 H2 H3 H4 H5 H6 H7 H8 H9 H10 H11 H12 H13]. split; try done.
    + intros d Hd. assert (Hd' : d ≠ c ∧ d ∈ g_listening g ∪ g_flight g).
      { cbn in Hd. apply elem_of_union in Hd as [Hd|Hd].
        - split; [by intros ->|]. apply elem_of_union. by left.
        - apply left_other in Hd as [? ?]. split; [done|]. apply elem_of_union. by right. }
      destruct Hd' as [Hdc Hd']. destruct (H9 d Hd') as (t'&y&Ht'&Hy&[F1 F2 F3 F4 F5 F6 F7]).
      assert (Hds : ptr_stream d ≠ ptr_stream c) by (intros Hds; by apply Hdc, (Halone d y)).
      exists t', y. split_and!; [done..|]. split; try done; cbn.
      * intros Hdl. destruct (F4 Hdl). split; [done|]. rw left_other. tauto.
      * intros Hopd. destruct (F5 Hopd) as (?&?&Hiff'). split_and!; [set_solver|done|]. rw Hiff' left_other. tauto.
      * intros Hopd. destruct (F6 Hopd) as (Ho&?&Huq). split_and!; [set_solver|done|].
        intros d' x' [Hd0 _]%left_other. by apply Huq.
    + cbn. set_solver.
    + intros s Hs. cbn in Hs |- *. destruct (decide (s = ptr_stream c)) as [->|Hne]; [left; set_solver|].
      destruct (H12 s Hs) as [?|(d&z&Hd&Hds&Hz&Ho)]; [left; set_solver|]. right. exists d, z. split_and!; try done.
      apply left_other. split; [done|]. intros ->. congruence.
  - exists t. split_and!; [|by destruct Hf|apply (fl_internal _ _ _ _ _ Hf); by rw Hop]. destruct Hf as [F1 _ _ _ _ _ _].
    split; try done. split; cbn; [done|]. rw left_other. tauto.
Qed.
