(* ===== verification/IocpRuns.v ===== *)
(** * Runs of the transport

    The threads of [Iocp.v] and its client as a transition system: every
    completion, every call of the event handler's owner and every answer of the
    operating system is an event, and the events interleave freely. *)

From stdpp Require Import gmultiset.
From S2P Require Import Prelude Memory.
From S2P Require Import Coordinate SectorGrid Fixture Packet Iocp IocpLife.

#[local] Unset SsrOldRewriteGoalsOrder.

Open Scope Z_scope.

(** ** Events *)

Inductive io_event : Type :=
| EvStartAccept (answer : os_answer)
| EvAccepted (c : IoContextPtr) (address : SocketAddress) (retried : nat → os_answer) (answer : os_answer)
| EvAcceptorTimeout (retried : nat → os_answer) (answer : os_answer)
| EvComplete (c : IoContextPtr) (status : io_status) (bytes : Z) (connected disconnect_accepted : bool)
| EvConnect (address : SocketAddress) (attachment : Z) (accepted : bool)
| EvHold (s : Z)
| EvDrop (s : Z)
| EvAllocate (s : Z) (write must_allocation : bool)
| EvFree (c : IoContextPtr)
| EvFill (c : IoContextPtr) (length count : Z)
| EvRead (c : IoContextPtr) (attachment : Z) (accepted : bool)
| EvWrite (c : IoContextPtr) (offset attachment : Z) (accepted : bool)
| EvDisconnect (s attachment : Z) (accepted : bool).

#[local] Abbreviation M := (Act IocpSocketServer io_out).

(** A client that writes into a buffer it holds. *)
Definition fill_buffer (c : IoContextPtr) (length count : Z) : M () :=
  x ← get_context c;
  put_context c (mkIoContext (io_operation x) (io_attachment x) (io_operation_stream x) length (io_capacity x) count).

(** The stock of streams suffices in the runs looked at, so no stream is set up
    late. *)
Definition no_setup : Z → socket_setup := λ _, mkSocketSetup false false false.

Definition run_io_event (ev : io_event) : M () :=
  match ev with
  | EvStartAccept answer => AcceptSocket no_setup answer ;; mret ()
  | EvAccepted c address retried answer =>
      AcceptorMain_iteration no_setup (Acceptor_Completed c (Some address)) retried answer
  | EvAcceptorTimeout retried answer => AcceptorMain_iteration no_setup Acceptor_Retry retried answer
  | EvComplete c status bytes connected accepted => IoMain_iteration c status bytes connected accepted
  | EvConnect address attachment accepted => IocpSocketServer_Connect address attachment no_setup accepted
  | EvHold s => stream_Retain s
  | EvDrop s => release_reference s
  | EvAllocate s write must =>
      (if write then AllocateWriteBuffer s must else AllocateReadBuffer s must) ;; mret ()
  | EvFree c => release_buffer (ptr_stream c) (ptr_write c) c
  | EvFill c length count => fill_buffer c length count
  | EvRead c attachment accepted => TransmitRead (ptr_stream c) c attachment accepted
  | EvWrite c offset attachment accepted => TransmitWrite (ptr_stream c) c offset attachment accepted
  | EvDisconnect s attachment accepted => TransmitDisconnect s attachment accepted
  end.

(** ** What the events do to the state outside the code *)

(** What an event takes before it runs. *)
Definition consume (ev : io_event) (g : io_ghost) : io_ghost :=
  match ev with
  | EvAccepted c _ _ _ => with_listening (g_listening g ∖ {[c]}) g
  | EvComplete c _ _ _ _ => landed c g
  | EvHold s => with_held (g_held g ⊎ {[+ s +]}) g
  | EvDrop s => released s g
  | _ => g
  end.

(** What its outputs mean; [m] are the buffers after it.  A posted completion
    of an [AcceptEx] owns the reference of the new connection. *)
Definition absorb (m : gmap IoContextPtr IoContext) (g : io_ghost) (o : io_out) : io_ghost :=
  match o with
  | AcceptEx c => with_listening ({[c]} ∪ g_listening g) g
  | ConnectEx c | DisconnectEx c | WSARecv c _ | WSASend c _ _ => launch c g
  | PostQueuedCompletionStatus c =>
      let g := launch c g in
      if decide (io_operation <$> m !! c = Some Io_Accept)
      then with_conn ({[ptr_stream c]} ∪ g_conn g) (g_open g) g else g
  | Handler_OnAccept s => with_conn (g_conn g) ({[s]} ∪ g_open g) g
  | Handler_OnConnect (Some s) _ => with_conn ({[s]} ∪ g_conn g) ({[s]} ∪ g_open g) g
  | Handler_OnDisconnect s _ => with_conn (g_conn g ∖ {[s]}) (g_open g ∖ {[s]}) g
  | Handler_OnRead s _ _ | Handler_OnWrite s _ _ => with_held (g_held g ⊎ {[+ s +]}) g
  | Handler_OnConnect None _ | Handler_OnTick _ => g
  end.

Definition after_event (ev : io_event) (v' : IocpSocketServer) (o : list io_out) (g : io_ghost) : io_ghost :=
  foldl (absorb (sk_contexts v')) (consume ev g) o.

(** ** When an event can happen *)

Definition in_use (v : IocpSocketServer) (c : IoContextPtr) : Prop :=
  ∃ t, sk_streams v !! ptr_stream c = Some t ∧ c.2 ∈ op_in_used (st_pool (ptr_write c) t).

(** The client uses a stream it was told about, holds, or has a buffer of. *)
Definition touchable (g : io_ghost) (v : IocpSocketServer) (s : Z) : Prop :=
  s ∈ g_open g ∨ s ∈ g_held g ∨ ∃ c x, in_hands g c ∧ sk_contexts v !! c = Some x ∧ io_operation_stream x = Some s.

(** A stream nobody refers to has buffers left for [AcceptEx] and [ConnectEx]. *)
Definition buffers_ready (v : IocpSocketServer) : Prop :=
  ∀ s t w, sk_streams v !! s = Some t → st_count t = 0 → op_pool (st_pool w t) ≠ [].

(** [AcceptEx] returns a [BOOL], [FALSE] also while it waits for a peer. *)
Definition is_BOOL (answer : os_answer) : Prop := an_result answer = 0 ∨ an_result answer = 1.

Lemma BOOL_accepted answer : is_BOOL answer → WSAOperationResult answer = true.
Proof. rw /is_BOOL /WSAOperationResult /SOCKET_ERROR. intros [Hr|Hr]; by rewrite Hr. Qed.

Definition enabled (g : io_ghost) (v : IocpSocketServer) (ev : io_event) : Prop :=
  match ev with
  | EvStartAccept answer => is_Some (sk_acceptor_socket_pool v) ∧ buffers_ready v ∧ is_BOOL answer
  | EvAcceptorTimeout retried _ =>
      is_Some (sk_acceptor_socket_pool v) ∧ buffers_ready v ∧ ∀ n, is_BOOL (retried n)
  | EvAccepted c _ retried answer => is_Some (sk_acceptor_socket_pool v) ∧ buffers_ready v ∧
      (∀ n, is_BOOL (retried n)) ∧ is_BOOL answer ∧ c ∈ g_listening g
  | EvComplete c status bytes _ _ => c ∈ g_flight g ∧ (status = Io_Completed ∨ status = Io_Listed) ∧ 0 ≤ bytes ∧
      ∀ x, sk_contexts v !! c = Some x → io_operation x = Io_Read → bytes ≤ io_capacity x - io_length x
  | EvConnect _ _ _ => buffers_ready v ∧ ∃ p, sk_connector_socket_pool v = Some p ∧ op_pool p ≠ []
  | EvHold s | EvDisconnect s _ _ => touchable g v s
  | EvDrop s => s ∈ g_held g
  | EvAllocate s _ _ => is_Some (sk_streams v !! s)
  | EvFree c => in_hands g c ∧ in_use v c
  | EvFill c length _ => in_hands g c ∧ in_use v c ∧ ∀ x, sk_contexts v !! c = Some x → 0 ≤ length ≤ io_capacity x
  | EvRead c _ _ => in_hands g c ∧ in_use v c ∧ touchable g v (ptr_stream c) ∧ ptr_write c = false
  | EvWrite c offset _ _ => in_hands g c ∧ in_use v c ∧ touchable g v (ptr_stream c) ∧
      ∀ x, sk_contexts v !! c = Some x → offset ≤ io_length x
  end.

(** Far from the limits of the 32-bit counts and the 64-bit sequence numbers. *)
Definition within_limits (v : IocpSocketServer) : Prop :=
  ∀ s t, sk_streams v !! s = Some t → st_count t < 2 ^ 31 - 4 ∧ ∀ w, op_object_sequence (st_pool w t) < 2 ^ 64 - 1.

(** ** Accepting *)

(** A step that touches free streams only. *)
Definition busy_frame (v v' : IocpSocketServer) : Prop :=
  ∀ s t, sk_streams v !! s = Some t → st_count t ≠ 0 →
    sk_streams v' !! s = Some t ∧ ∀ c, ptr_stream c = s → sk_contexts v' !! c = sk_contexts v !! c.

Lemma busy_frame_trans v1 v2 v3 : busy_frame v1 v2 → busy_frame v2 v3 → busy_frame v1 v3.
Proof.
  intros H12 H23 s t Ht Hc. destruct (H12 s t Ht Hc) as [Ht2 Hx2]. destruct (H23 s t Ht2 Hc) as [Ht3 Hx3].
  split; [done|]. intros c Hcs. by rw (Hx3 c Hcs) (Hx2 c Hcs).
Qed.

(** A stream without references is not being opened. *)
Lemma idle_settled g v s t : io_inv g v → sk_streams v !! s = Some t → st_count t = 0 →
  settled g v s ∧ s ∉ g_conn g ∧ s ∉ g_held g ∧ namers (sk_contexts v) s = ∅.
Proof.
  intros Hi Ht Hc. pose proof (ii_count _ _ Hi s t Ht) as Hr. rw Hc /refs in Hr.
  assert (Hn : s ∉ g_conn g) by (intros Hn; rw (bool_decide_eq_true_2 _ Hn) in Hr; cbn in Hr; lia).
  rw (bool_decide_eq_false_2 _ Hn) in Hr. cbn in Hr.
  assert (Hs0 : namers (sk_contexts v) s = ∅) by (apply leibniz_equiv, size_empty_iff; lia).
  split_and!; try done.
  - intros c x Hcl Hx Hcs. destruct (inv_flying g v c x Hi Hcl Hx) as (_&_&_&Hin). rw Hcs Hs0 in Hin. set_solver.
  - rw /elem_of /gmultiset_elem_of. lia.
Qed.

(** A free stream takes a buffer and starts opening a connection on it. *)
Lemma open_operation_run g v s t w op attachment :
  io_inv g v → s ∈ g_popped g → sk_streams v !! s = Some t → op_pool (st_pool w t) ≠ [] →
  ∃ c v1 t1 y v2 t2,
    (if w then AllocateWriteBuffer s false else AllocateReadBuffer s false) v = Ok (Some c, v1, []) ∧
    sk_contexts v1 !! c = Some y ∧ ptr_stream c = s ∧
    begin_operation op attachment s c v1 = Ok ((), v2, []) ∧
    io_inv (with_popped (g_popped g ∖ {[s]}) g) v2 ∧ handled g v2 c t2 (operating op attachment s y) ∧
    st_count t2 = 1 ∧ s ∉ g_conn g ∧ io_count y = 0 ∧ io_attachment y = 0 ∧
    sk_streams v2 = <[s := t2]> (sk_streams v) ∧ st_connected t2 = st_connected t ∧
    (∀ d, ptr_stream d ≠ s → sk_contexts v2 !! d = sk_contexts v !! d) ∧
    sk_config v2 = sk_config v1 ∧ v1 = upd_context c y (upd_stream s t1 v) ∧ same_server v v2.
Proof.
  intros Hi Hp Ht Hne. assert (Hc0 : st_count t = 0) by exact (ii_popped _ _ Hi s t Ht Hp).
  assert (Halloc : ∃ c v1 t1 y, (if w then AllocateWriteBuffer s false else AllocateReadBuffer s false) v = Ok (Some c, v1, []) ∧
    io_inv g v1 ∧ fresh_buffer g s w v v1 c t t1 y).
  { destruct w; [apply AllocateWriteBuffer_run|apply pop_buffer_run]; done. }
  destruct Halloc as (c&v1&t1&y&Hrun&Hi1&[<- _ E2 E3 E4 E5 (E6&E7&E8&E9)]). set (s := ptr_stream c) in *.
  pose proof E5 as [_ Ht1 _ Hy].
  destruct (idle_settled g v1 s t1 Hi1 Ht1) as (Hset&Hnc&_&_); [by rw E3|].
  destruct (begin_operation_run g v1 c t1 y op attachment s Hi1 E5 eq_refl Hset) as (v2&t2&Hbeg&Hi2&[G1 G2 G3 G4 G5 G6]&G7&G8).
  { by right. }
  { rw E3. lia. }
  rw E6 E3 Hc0 in G7. exists c, v1, t1, y, v2, t2. split_and!; try done.
  - rw G4 E2. cbn. by rw insert_insert_eq.
  - by rw G2 E4.
  - intros d Hd. assert (Hdc : c ≠ d) by (by intros ->). rw G5 E2. cbn. by rw !(lookup_insert_ne _ _ _ _ Hdc).
  - destruct (G8 E6) as [[S1 S2 S3] S4]. rw E2 in S1 S2 S3 S4. split; [done|]. intros b. rw S4. by destruct b.
Qed.

Lemma buffers_ready_insert v v' s t :
  buffers_ready v → sk_streams v' = <[s := t]> (sk_streams v) → st_count t ≠ 0 → buffers_ready v'.
Proof.
  intros Hr Hs Hc s' t' w. rw Hs. intros [[<- <-]|[? ?]]%lookup_insert_Some; [done|]. by apply (Hr s').
Qed.

Lemma set_socket_pool_same b p v : socket_pool b v = Some p → set_socket_pool b p v = v.
Proof. destruct v, b; cbn; by intros ->. Qed.

(** Buffers of streams that had no references. *)
Definition idle_in (v : IocpSocketServer) (cs : list IoContextPtr) : Prop :=
  Forall (λ c, ∀ t, sk_streams v !! ptr_stream c = Some t → st_count t = 0) cs.

(** One stream begins to accept. *)
Lemma AcceptSocket_next g v setup answer p s l :
  is_BOOL answer → io_inv g v → g_popped g = ∅ → sk_acceptor_socket_pool v = Some p → op_pool p = s :: l → buffers_ready v →
  ∃ v' c, AcceptSocket setup answer v = Ok (true, v', [AcceptEx c]) ∧
    (∀ m, io_inv (foldl (absorb m) g [AcceptEx c]) v') ∧ busy_frame v v' ∧ buffers_ready v' ∧
    (∃ p', sk_acceptor_socket_pool v' = Some p' ∧ op_pool p' = l) ∧ idle_in v [c].
Proof.
  intros Hans Hi Hp0 Hp Hl Hr.
  destruct (pop_socket_run g v false false setup p s l Hi Hp Hl) as (v0&t&Hpop&Hi0&[C1 C2 C3]&Hst&Ht&Hc0&_&(p'&Hp'&Hl')&_).
  rw Hp0 union_empty_r_L in Hi0.
  destruct (open_operation_run _ v0 s t false Io_Accept 0 Hi0) as
    (c&v1&t1&y&v2&t2&Hrun&Hy&<-&Hbeg&Hi2&Hh&Hc1&Hn&Hcy&Hay&Hst2&_&Hfr&_&_&[_ Hpools]).
  { cbn. set_solver. }
  { by rw Hst. }
  { by apply (Hr s). }
  set (s := ptr_stream c) in *. exists v2, c. split_and!.
  + rw /AcceptSocket (bind_ok _ _ _ _ _ Hpop). apply (bind_out _ _ v0 true v2 [AcceptEx c] true v2 []); [|done].
    rw /TransmitAccept (bind_ok _ _ _ _ _ Hrun) (bind_ok _ _ _ _ _ (get_context_run c y v1 Hy)) Hay (bind_ok _ _ _ _ _ Hbeg).
    by rw (BOOL_accepted _ Hans).
  + intros m. cbn. rw (_ : with_popped (g_popped (with_popped {[s]} g) ∖ {[s]}) (with_popped {[s]} g) = g) in Hi2.
    { destruct g. cbn in *. rw Hp0. f_equal. by rw difference_diag_L. }
    apply (inv_listen g v2 c t2 (operating Io_Accept 0 s y) Hi2); try done. by destruct Hh.
  + intros s' t' Ht' Hc'. assert (Hs' : s' ≠ s) by (intros ->; rw Ht in Ht'; by injection Ht' as <-).
    split; [rw Hst2 lookup_insert_ne; [congruence|by rw Hst]|]. intros d Hd. rw Hfr; [congruence|]. by rw C2.
  + apply (buffers_ready_insert v0 v2 s t2); [|done|lia]. intros s' t' w. rw Hst. apply Hr.
  + exists p'. split; [|done]. etrans; [exact (Hpools false)|exact Hp'].
  + apply Forall_singleton. intros t' Ht'. fold s in Ht'. rw Ht in Ht'. by injection Ht' as <-.
Qed.

Lemma AcceptSocket_run g v answer :
  is_BOOL answer → io_inv g v → g_popped g = ∅ → is_Some (sk_acceptor_socket_pool v) → buffers_ready v →
  ∃ b v' cs, AcceptSocket no_setup answer v = Ok (b, v', AcceptEx <$> cs) ∧
    (∀ m, io_inv (foldl (absorb m) g (AcceptEx <$> cs)) v') ∧ busy_frame v v' ∧ buffers_ready v' ∧
    is_Some (sk_acceptor_socket_pool v') ∧ idle_in v cs.
Proof.
  intros Hans Hi Hp0 [p Hp] Hr. destruct (op_pool p) as [|s l] eqn:Hl.
  - exists false, v, []. split_and!; [|done|by intros ? ? ? ?|done|by exists p|by apply Forall_nil].
    rw /AcceptSocket (bind_ok _ _ v None v); [|done].
    rw /pop_socket. rw (bind_ok get_state _ v v v); [done|]. cbn [socket_pool]. rw Hp.
    rw (bind_ok (lift (from_option_ub _ (Some p))) _ v p v); [done|]. rw /Pop Hl.
    rw (bind_ok _ _ v () v); [|done]. rw /modify (set_socket_pool_same false p v); done.
  - destruct (AcceptSocket_next g v no_setup answer p s l Hans Hi Hp0 Hp Hl Hr) as (v'&c&Hrun&Hi'&Hfr&Hr'&(p'&Hp'&_)&Hid).
    exists true, v', [c]. by split_and!; [..|exists p'|].
Qed.

(** [Start] begins to accept on as many streams as it is told. *)
Lemma start_acceptors_run n g v setup answers p :
  (∀ k, is_BOOL (answers k)) → io_inv g v → g_popped g = ∅ → sk_acceptor_socket_pool v = Some p →
  (n ≤ length (op_pool p))%nat → buffers_ready v →
  ∃ g' v' o, start_acceptors n setup answers v = Ok (true, v', o) ∧ io_inv g' v' ∧ g_popped g' = ∅.
Proof.
  intros Hans. revert g v p. induction n as [|n IH]; intros g v p Hi Hp0 Hp Hn Hr; cbn [start_acceptors].
  - by exists g, v, [].
  - destruct (op_pool p) as [|s l] eqn:Hl; [cbn in Hn; lia|].
    destruct (AcceptSocket_next g v setup (answers n) p s l (Hans n) Hi Hp0 Hp Hl Hr) as (v1&c&Hrun&Hi1&_&Hr1&(p1&Hp1&Hl1)&_).
    destruct (IH (foldl (absorb ∅) g [AcceptEx c]) v1 p1) as (g'&v'&o&Hrest&Hi'&Hp'); [done|done|done| |done|].
    { rw Hl1. cbn in Hn. lia. }
    exists g', v', ([AcceptEx c] ++ o). split_and!; [|done|done]. by apply (bind_out _ _ v true v1 [AcceptEx c] true v' o).
Qed.

Lemma inv_hang g v n : io_inv g v → io_inv g (sk_set_hang_acceptor_count n v).
Proof. intros [H1 H2 H3 H4 H5 H6 H7 H8 H9 H10 H11 H12 H13]. by split. Qed.

Lemma absorb_AcceptEx m g cs :
  foldl (absorb m) g (AcceptEx <$> cs) = with_listening (list_to_set (reverse cs) ∪ g_listening g) g.
Proof.
  revert g. induction cs as [|c cs IH]; intros g; cbn [fmap list_fmap foldl].
  - destruct g. rw /with_listening /=. f_equal. set_solver.
  - rw IH reverse_cons list_to_set_app_L /= /with_listening /=. f_equal. set_solver.
Qed.

Lemma retry_hang_run n g v answers :
  (∀ k, is_BOOL (answers k)) → io_inv g v → g_popped g = ∅ → is_Some (sk_acceptor_socket_pool v) → buffers_ready v →
  ∃ v' cs, retry_hang n no_setup answers v = Ok ((), v', AcceptEx <$> cs) ∧
    (∀ m, io_inv (foldl (absorb m) g (AcceptEx <$> cs)) v') ∧ busy_frame v v' ∧ buffers_ready v' ∧
    is_Some (sk_acceptor_socket_pool v') ∧ idle_in v cs.
Proof.
  intros Hans. revert g v. induction n as [|n IH]; intros g v Hi Hp Ha Hr; cbn [retry_hang].
  - exists v, []. split_and!; try done.
  - destruct (AcceptSocket_run g v _ (Hans n) Hi Hp Ha Hr) as (b&v1&cs&Hrun&Hi1&Hfr&Hr1&Ha1&Hid). destruct b.
    + set (v2 := sk_set_hang_acceptor_count (u32 (sk_hang_acceptor_count v1 - 1)) v1).
      destruct (IH (foldl (absorb ∅) g (AcceptEx <$> cs)) v2) as (v3&cs'&Hrun3&Hi3&Hfr3&Hr3&Ha3&Hid3).
      { by apply inv_hang. }
      { by rw absorb_AcceptEx. }
      { done. }
      { done. }
      exists v3, (cs ++ cs'). split_and!; try done.
      * rw fmap_app. apply (bind_out _ _ v true v1 _ () v3 _ Hrun).
        cbn [negb]. rw (bind_ok _ _ v1 () v2); [done|exact Hrun3].
      * intros m. rw fmap_app foldl_app !absorb_AcceptEx. specialize (Hi3 m). rw !absorb_AcceptEx in Hi3. exact Hi3.
      * refine (busy_frame_trans v v1 v3 Hfr _). intros s t Ht Hc. exact (Hfr3 s t Ht Hc).
      * apply Forall_app. split; [done|]. eapply Forall_impl; [exact Hid3|]. intros c Hc t Ht.
        destruct (decide (st_count t = 0)) as [|Hne]; [done|]. destruct (Hfr _ t Ht Hne) as [Ht1 _]. by apply Hc.
    + exists v1, cs. split_and!; try done. rw -[AcceptEx <$> cs]app_nil_r. by apply (bind_out _ _ v false v1 _ () v1 []).
Qed.

(** ** Connections *)

Definition joined (s : Z) (g : io_ghost) : io_ghost := with_conn ({[s]} ∪ g_conn g) ({[s]} ∪ g_open g) g.

(** [SetConnectionStatus(true)] and [_UnsafeRetain], as [IoAccept] and
    [IoConnect] do them. *)
Lemma join_run g v s t :
  io_inv g v → g_popped g = ∅ → sk_streams v !! s = Some t → settled g v s → not_closing g v s →
  s ∉ g_conn g → st_count t = 1 →
  ∃ v1 v' t', SetConnectionStatus s true v = Ok (true, v1, []) ∧ stream_Retain s v1 = Ok ((), v', []) ∧
    io_inv (joined s g) v' ∧ v' = upd_stream s t' v ∧ st_count t' = 2 ∧ ∀ w, st_pool w t' = st_pool w t.
Proof.
  intros Hi Hp Ht Hset Hnc Hn Hc1.
  assert (Hcf : st_connected t = false).
  { destruct (st_connected t) eqn:Hb; [|done]. by destruct (Hn (ii_connected _ _ Hi s t Ht Hb)). }
  set (t1 := st_set_connected true t). set (t' := st_set_count (st_count t + 1) t1).
  exists (upd_stream s t1 v), (upd_stream s t' v), t'. split_and!; try done.
  - rw /SetConnectionStatus (bind_ok _ _ _ _ _ (get_stream_run s t v Ht)) Hcf. done.
  - rw /stream_Retain (bind_ok _ _ _ t1 (upd_stream s t1 v)).
    { apply get_stream_run. by rw upd_stream_lookup decide_True. }
    rw to_i32_small; [cbn; lia|]. rw put_stream_run /upd_stream. cbn. rw insert_insert_eq. done.
  - destruct (inv_retain g v s t Hi Ht Hset) as [_ Hi1]; [left; lia|lia|].
    set (v1 := upd_stream s (st_set_count (st_count t + 1) t) v) in *.
    assert (Hi2 : io_inv (connected_ghost s (retained s g)) v1).
    { apply inv_connect; [done| |done]. cbn. multiset_solver. }
    rw (_ : connected_ghost s (retained s g) = joined s g) in Hi2.
    { rw /connected_ghost /retained /released /joined. cbn. rw held_plus_minus Hp. destruct g. cbn in *. subst.
      rw /with_conn /=. f_equal. set_solver. }
    rw (_ : upd_stream s t' v = upd_stream s t' v1); [rw /upd_stream /=; by rw insert_insert_eq|].
    apply (inv_stream_same _ v1 s (st_set_count (st_count t + 1) t)); try done.
    + by rw upd_stream_lookup decide_True.
    + right. right. split; [cbn; set_solver|]. exact Hnc.
  - cbn. lia.
Qed.

Definition accepting (c : IoContextPtr) (g : io_ghost) : io_ghost :=
  with_conn ({[ptr_stream c]} ∪ g_conn g) (g_open g) (launch c g).

Lemma IoAccept_run g v c t x address :
  io_inv g v → g_popped g = ∅ → handled g v c t x → io_operation x = Io_Accept → io_operation_stream x = Some (ptr_stream c) →
  io_count x = 0 → settled g v (ptr_stream c) → not_closing g v (ptr_stream c) → ptr_stream c ∉ g_conn g → st_count t = 1 →
  ∃ v', IoAccept c (Some address) v = Ok ((), v', []) ∧ io_inv (accepting c g) v' ∧
    sk_contexts v' = sk_contexts v ∧ (buffers_ready v → buffers_ready v') ∧
    sk_acceptor_socket_pool v' = sk_acceptor_socket_pool v ∧
    ∃ t', sk_streams v' !! ptr_stream c = Some t' ∧ st_count t' = 2.
Proof.
  intros Hi Hp [Hf Ht Hu Hx] Hop Hs H0 Hset Hnc Hn Hc1. set (s := ptr_stream c) in *.
  set (t0 := st_set_socket_address address t). set (v0 := upd_stream s t0 v).
  assert (Hi0 : io_inv g v0) by (apply (inv_stream_same g v s t t0); try done; by left).
  destruct (join_run g v0 s t0 Hi0 Hp) as (v1&v'&t'&Hset1&Hret&Hi1&Hv'&Hc2&Hpool); try done.
  { by rw upd_stream_lookup decide_True. }
  assert (Hh' : handled (joined s g) v' c t' x).
  { subst v'. split; try done; [by rw upd_stream_lookup decide_True|]. by rw Hpool. }
  assert (Hi2 : io_inv (accepting c g) v').
  { rw (_ : accepting c g = accepted_ghost c (joined s g)).
    { rw /accepting /accepted_ghost /joined. cbn. rw /with_conn /=. f_equal.
      assert (s ∉ g_open g) by (intros Ho; by apply Hn, (ii_open _ _ Hi)). set_solver. }
    apply (inv_accept _ _ c t' x); try done; [cbn; set_solver| |]; subst v'; done. }
  subst v'. exists (upd_stream s t' v0). split_and!; try done.
  - rw /IoAccept (bind_ok _ _ _ _ _ (get_context_run c x v Hx)) Hs. rw (bind_ok _ _ v s v); [done|].
    rw (bind_ok _ _ _ _ _ (get_stream_run s t v Ht)) (bind_ok _ _ v () v0); [done|].
    rw (bind_ok _ _ _ _ _ Hset1). done.
  - intros Hr. apply (buffers_ready_insert v _ s t' Hr); [cbn; by rw insert_insert_eq|lia].
  - exists t'. split; [by rw upd_stream_lookup decide_True|done].
Qed.

(** ** Every event *)

(** The calls that begin and end a connection. *)
Definition notice (o : io_out) : option (Z * bool) :=
  match o with
  | Handler_OnAccept s | Handler_OnConnect (Some s) _ => Some (s, true)
  | Handler_OnDisconnect s _ => Some (s, false)
  | _ => None
  end.
Definition notices (o : list io_out) : list (Z * bool) := omap notice o.

(** An event runs without fault, keeps the invariant, and begins no connection
    that has begun and ends none that has not. *)
Definition event_ok (g : io_ghost) (v : IocpSocketServer) (ev : io_event) : Prop :=
  ∃ v' o, run_io_event ev v = Ok ((), v', o) ∧ io_inv (after_event ev v' o g) v' ∧
    (notices o = [] ∨ ∃ s b, notices o = [(s, b)] ∧ (s ∈ g_open g ↔ b = false)).

Lemma notices_AcceptEx cs : notices (AcceptEx <$> cs) = [].
Proof. induction cs as [|c cs IH]; [done|exact IH]. Qed.

Lemma landed_same c g : c ∉ g_flight g → landed c g = g.
Proof. destruct g. intros Hc. rw /landed /with_flight /=. f_equal. cbn in Hc. set_solver. Qed.
Lemma unlisten_same c g : c ∉ g_listening g → with_listening (g_listening g ∖ {[c]}) g = g.
Proof. destruct g. intros Hc. rw /with_listening /=. f_equal. cbn in Hc. set_solver. Qed.

Lemma StartAccept_ok g v answer :
  io_inv g v → g_popped g = ∅ → enabled g v (EvStartAccept answer) → event_ok g v (EvStartAccept answer).
Proof.
  intros Hi Hp (Ha&Hr&Hans). destruct (AcceptSocket_run g v _ Hans Hi Hp Ha Hr) as (b&v'&cs&Hrun&Hi'&_).
  exists v', (AcceptEx <$> cs). split_and!; [|by apply Hi'|left; by rw notices_AcceptEx].
  cbn [run_io_event]. rw -[AcceptEx <$> cs]app_nil_r. by apply (bind_out _ _ v b v').
Qed.

Lemma AcceptorTimeout_ok g v retried answer :
  io_inv g v → g_popped g = ∅ → enabled g v (EvAcceptorTimeout retried answer) →
  event_ok g v (EvAcceptorTimeout retried answer).
Proof.
  intros Hi Hp (Ha&Hr&Hans).
  destruct (retry_hang_run (Z.to_nat (sk_hang_acceptor_count v)) g v _ Hans Hi Hp Ha Hr) as (v'&cs&Hrun&Hi'&_).
  exists v', (AcceptEx <$> cs). split_and!; [|by apply Hi'|left; by rw notices_AcceptEx].
  cbn [run_io_event]. rw /AcceptorMain_iteration (bind_ok get_state _ v v v); [done|].
  rw -[AcceptEx <$> cs]app_nil_r. by apply (bind_out _ _ v () v').
Qed.

(** A stream in use is not touched by the acceptor thread's retries. *)
Lemma busy_settled g v v' cs s t :
  busy_frame v v' → idle_in v cs → sk_streams v !! s = Some t → st_count t ≠ 0 → settled g v s → not_closing g v s →
  settled (foldl (absorb ∅) g (AcceptEx <$> cs)) v' s ∧ not_closing (foldl (absorb ∅) g (AcceptEx <$> cs)) v' s.
Proof.
  intros Hfr Hid Ht Hc Hset Hnc. destruct (Hfr s t Ht Hc) as [_ Hx]. rw absorb_AcceptEx. split.
  - intros d y Hd Hy Hds. rw (Hx d Hds) in Hy. apply (Hset d y); [|done|done]. cbn in Hd.
    apply elem_of_union in Hd as [[Hd|Hd]%elem_of_union|Hd]; [|apply elem_of_union; tauto..].
    rw elem_of_list_to_set elem_of_reverse in Hd. rw /idle_in Forall_forall in Hid.
    destruct Hc. apply (Hid d Hd). by rw Hds.
  - intros d y Hd Hy Hds. rw (Hx d Hds) in Hy. by apply (Hnc d y).
Qed.

Lemma Accepted_ok g v c address retried answer :
  io_inv g v → g_popped g = ∅ → enabled g v (EvAccepted c address retried answer) →
  event_ok g v (EvAccepted c address retried answer).
Proof.
  intros Hi Hp (Ha&Hr&Hans&Hans1&Hl). assert (Hcl : c ∈ g_listening g ∪ g_flight g) by (apply elem_of_union; by left).
  destruct (ii_flying _ _ Hi c Hcl) as (t0&x&_&Hx&Hfl). destruct (fl_listening _ _ _ _ _ Hfl Hl) as [Hop Hnf].
  destruct (inv_leave g v c x Hi Hcl Hx) as (Hi1&t&Hh&Hs&H0&_&Hopen&_); [done|]. cbv zeta in *.
  rw (landed_same c g Hnf) in Hi1 Hh Hopen. set (g1 := with_listening (g_listening g ∖ {[c]}) g) in *.
  destruct Hopen as (Hset&Hnc&Hc1&Hn); [by rw Hop|].
  destruct (retry_hang_run (Z.to_nat (sk_hang_acceptor_count v)) g1 v _ Hans Hi1 Hp Ha Hr) as (v1&cs&Hrun&Hi2&Hfr&Hr1&Ha1&Hid).
  pose proof Hh as [[Hhl Hhf] Ht Hu _]. destruct (Hfr _ t Ht ltac:(lia)) as [Ht1 Hx1].
  destruct (busy_settled g1 v v1 cs (ptr_stream c) t Hfr Hid Ht ltac:(lia) Hset Hnc) as [Hset2 Hnc2].
  specialize (Hi2 ∅). set (g2 := foldl (absorb ∅) g1 (AcceptEx <$> cs)) in *.
  assert (Hg2 : g2 = with_listening (list_to_set (reverse cs) ∪ g_listening g1) g1) by (by rw /g2 absorb_AcceptEx).
  assert (Hh2 : handled g2 v1 c t x).
  { split; try done; [|by rw Hx1]. rw Hg2. split; [|done]. cbn. rw elem_of_union elem_of_list_to_set elem_of_reverse.
    intros [Hin|Hin]; [|done]. rw /idle_in Forall_forall in Hid. specialize (Hid c Hin t Ht). lia. }
  destruct (IoAccept_run g2 v1 c t x address Hi2) as (v2&Hacc&Hi3&Hco&Hr2&Ha2&t2&Ht2&Hc2); try done.
  { by rw Hg2. }
  { apply H0. by rw Hop. }
  { by rw Hg2. }
  destruct (AcceptSocket_run (accepting c g2) v2 _ Hans1 Hi3) as (b&v3&cs'&Hrun3&Hi4&Hfr3&_).
  { by rw Hg2. }
  { by rw Ha2. }
  { by apply Hr2. }
  set (v4 := if b then v3 else sk_set_hang_acceptor_count (u32 (sk_hang_acceptor_count v3 + 1)) v3).
  exists v4, ((AcceptEx <$> cs) ++ [PostQueuedCompletionStatus c] ++ (AcceptEx <$> cs') ++ []). split_and!.
  - cbn [run_io_event]. rw /AcceptorMain_iteration (bind_ok get_state _ v v v); [done|].
    apply (bind_out _ _ v () v1 _ () v4 _ Hrun). rw (bind_ok _ _ _ _ _ Hacc).
    apply (bind_out _ _ v2 () v2 _ () v4 _); [done|]. apply (bind_out _ _ v2 b v3 _ () v4 _ Hrun3). rw /v4. by destruct b.
  - assert (Hm : io_operation <$> sk_contexts v4 !! c = Some Io_Accept).
    { rw (_ : sk_contexts v4 = sk_contexts v3); [by rw /v4; destruct b|].
      destruct (Hfr3 (ptr_stream c) t2 Ht2 ltac:(lia)) as [_ Hx3]. rw (Hx3 c eq_refl) Hco (Hx1 c eq_refl) Hx. by rw /= Hop. }
    rw /after_event app_nil_r !foldl_app. cbn [consume]. fold g1. rw (absorb_AcceptEx _ g1 cs) -Hg2. cbn [foldl absorb]. rw decide_True; [done|].
    specialize (Hi4 (sk_contexts v4)). change (with_conn _ _ _) with (accepting c g2).
    rw /v4. destruct b; [done|]. by apply inv_hang.
  - left. rw /notices !omap_app. fold (notices (AcceptEx <$> cs)). fold (notices (AcceptEx <$> cs')).
    by rw !notices_AcceptEx.
Qed.

(** *** The client *)

Lemma touchable_facts g v s : io_inv g v → touchable g v s →
  ∃ t, sk_streams v !! s = Some t ∧ settled g v s ∧ 1 ≤ st_count t.
Proof.
  intros Hi [Ho|[Hh|(c&x&Hc&Hx&Hs)]].
  - assert (Hn : s ∈ g_conn g) by (by apply (ii_open _ _ Hi)). destruct (ii_known _ _ Hi s) as [t Ht]; [tauto|].
    exists t. split_and!; [done| |].
    + intros d y Hd Hy Hds. destruct (inv_flying g v d y Hi Hd Hy) as (t'&_&Hf&_).
      destruct (opening (io_operation y)) eqn:Hop; [|done]. destruct (fl_opening _ _ _ _ _ Hf Hop) as [Hno _].
      by rw Hds in Hno.
    + rw (ii_count _ _ Hi s t Ht) /refs (bool_decide_eq_true_2 _ Hn). cbn. lia.
  - destruct (ii_known _ _ Hi s) as [t Ht]; [tauto|]. exists t.
    split_and!; [done|exact (held_settled g v s Hi Hh)|exact (held_pos g v s t Hi Hh Ht)].
  - destruct (ii_contexts _ _ Hi c x Hx) as (t&Ht&[B1 _ _ _]). assert (ptr_stream c = s) as <- by (destruct B1; congruence).
    assert (Hin : c ∈ namers (sk_contexts v) (ptr_stream c)) by (rw elem_of_namers Hx /= Hs; done).
    exists t. split_and!; [done| |].
    + intros d y Hd Hy Hds. destruct (opening (io_operation y)) eqn:Hop; [|done]. rw -Hds in Hin.
      pose proof (in_hands_ne g c d Hc Hd) as Hne. by rw (opening_alone g v d y c x Hi Hd Hy Hop Hin Hx) in Hne.
    + rw (ii_count _ _ Hi _ t Ht) /refs. apply namers_pos in Hin. case_bool_decide; cbn; lia.
Qed.

Lemma in_use_handled g v c : io_inv g v → in_hands g c → in_use v c → ∃ t y, handled g v c t y.
Proof.
  intros Hi Hh (t&Ht&Hu). destruct (ii_used _ _ Hi c t Ht Hu) as [y Hy]. exists t, y. by split.
Qed.

Lemma retained_same s g : g_popped g = ∅ → retained s g = with_held (g_held g ⊎ {[+ s +]}) g.
Proof. intros Hp. rw /retained Hp (_ : (∅ : gset Z) ∖ {[s]} = ∅); [set_solver|]. destruct g. cbn in *. by subst. Qed.

Lemma Hold_ok g v s :
  io_inv g v → g_popped g = ∅ → within_limits v → enabled g v (EvHold s) → event_ok g v (EvHold s).
Proof.
  intros Hi Hp Hw Hen. destruct (touchable_facts g v s Hi Hen) as (t&Ht&Hset&Hc). destruct (Hw s t Ht) as [Hb _].
  destruct (inv_retain g v s t Hi Ht Hset) as [Hrun Hi']; [left; lia|lia|].
  eexists _, []. split_and!; [exact Hrun| |by left]. cbn. by rw (retained_same s g Hp) in Hi'.
Qed.

Lemma Drop_ok g v s : io_inv g v → within_limits v → enabled g v (EvDrop s) → event_ok g v (EvDrop s).
Proof.
  intros Hi Hw Hs. destruct (ii_known _ _ Hi s) as [t Ht]; [by left|]. destruct (Hw s t Ht) as [Hb _].
  destruct (release_reference_run g v s t Hi Hs Ht) as (v'&Hrun&Hi'&_); [lia|]. exists v', []. split_and!; [done..|by left].
Qed.

Lemma Allocate_ok g v s w must :
  io_inv g v → within_limits v → enabled g v (EvAllocate s w must) → event_ok g v (EvAllocate s w must).
Proof.
  intros Hi Hw [t Ht]. destruct (Hw s t Ht) as [_ Hseq].
  destruct (decide (op_pool (st_pool w t) = [] ∧ must = false)) as [[Hnil ->]|Hne].
  - assert (Hnone : pop_buffer s w false v = Ok (None, v, [])).
    { rw /pop_buffer (bind_ok _ _ _ _ _ (get_stream_run s t v Ht)) /Pop Hnil. done. }
    exists v, []. split_and!; [|done|by left]. destruct w; cbn [run_io_event].
    + rw (bind_ok _ _ v None v); [by rw /AllocateWriteBuffer (bind_ok _ _ _ _ _ Hnone)|done].
    + by rw (bind_ok _ _ _ _ _ Hnone).
  - assert (Hroom : op_pool (st_pool w t) = [] → must = true ∧ op_object_sequence (st_pool w t) < 2 ^ 64 - 1).
    { intros Hnil. split; [|done]. destruct must; [done|]. by destruct Hne. }
    assert (Halloc : ∃ c v1, (if w then AllocateWriteBuffer s must else AllocateReadBuffer s must) v = Ok (Some c, v1, []) ∧
      io_inv g v1).
    { destruct w; [destruct (AllocateWriteBuffer_run g v s must t Hi Ht Hroom) as (c&v1&?&?&?&?&_)|
        destruct (pop_buffer_run g v s false must t Hi Ht Hroom) as (c&v1&?&?&?&?&_)]; by exists c, v1. }
    destruct Halloc as (c&v1&Hrun&Hi1). exists v1, []. split_and!; [|done|by left].
    cbn [run_io_event]. by rw (bind_ok _ _ _ _ _ Hrun).
Qed.

Lemma Free_ok g v c : io_inv g v → within_limits v → enabled g v (EvFree c) → event_ok g v (EvFree c).
Proof.
  intros Hi Hw [Hh Hu]. destruct (in_use_handled g v c Hi Hh Hu) as (t&y&Hc).
  destruct (Hw _ t (ha_stream _ _ _ _ _ Hc)) as [Hb _].
  destruct (release_buffer_run g v c t y Hi Hc) as (v'&Hrun&Hi'&_); [lia|]. exists v', []. split_and!; [done..|by left].
Qed.

Lemma Fill_ok g v c length count : io_inv g v → enabled g v (EvFill c length count) → event_ok g v (EvFill c length count).
Proof.
  intros Hi (Hh&Hu&Hlen). destruct (in_use_handled g v c Hi Hh Hu) as (t&y&Hc). pose proof (ha_content _ _ _ _ _ Hc) as Hy.
  pose proof (handled_ok _ _ _ _ _ Hi Hc) as [_ _ _ B4]. eexists _, []. split_and!; [| |by left].
  - cbn [run_io_event]. rw /fill_buffer (bind_ok _ _ _ _ _ (get_context_run c y v Hy)). done.
  - apply (inv_rewrite g v c t _ y); try done. exact (Hlen y Hy).
Qed.

Lemma popped_same s g : g_popped g = ∅ → with_popped (g_popped g ∖ {[s]}) g = g.
Proof. intros Hp. rw Hp (_ : (∅ : gset Z) ∖ {[s]} = ∅); [set_solver|]. destruct g. cbn in *. by subst. Qed.

(** Starting a read or a write. *)
Lemma transfer_run g v c t y op attachment :
  io_inv g v → g_popped g = ∅ → handled g v c t y → touchable g v (ptr_stream c) → st_count t < 2 ^ 31 - 1 →
  internal op = false → operation_kind c op →
  ∃ v' t', begin_operation op attachment (ptr_stream c) c v = Ok ((), v', []) ∧ io_inv (launch c g) v' ∧
    sk_streams v' !! ptr_stream c = Some t' ∧ io_operation <$> sk_contexts v' !! c = Some op.
Proof.
  intros Hi Hp Hh Htc Hb Hop Hkind. destruct (touchable_facts g v _ Hi Htc) as (t'&Ht'&Hset&Hc).
  pose proof (ha_stream _ _ _ _ _ Hh) as Ht. rw Ht in Ht'. injection Ht' as <-.
  destruct (begin_operation_run g v c t y op attachment _ Hi Hh eq_refl Hset) as (v'&t2&Hrun&Hi'&[G1 G2 G3 G4 G5 G6]&_).
  { left. lia. }
  { done. }
  rw (popped_same _ g Hp) in Hi'.
  exists v', t2. split_and!; [done| |exact (ha_stream _ _ _ _ _ G1)|by rw (ha_content _ _ _ _ _ G1)].
  apply (inv_launch g v' c t2 _ Hi' G1); try done; destruct op; done.
Qed.

Lemma absorb_transfer m c op g o : op ≠ Io_Accept → io_operation <$> m !! c = Some op →
  o = PostQueuedCompletionStatus c ∨ absorb m g o = launch c g → absorb m g o = launch c g.
Proof. intros Hop Hm [->|?]; [|done]. cbn. rw decide_False; [congruence|done]. Qed.

Lemma Read_ok g v c attachment accepted :
  io_inv g v → g_popped g = ∅ → within_limits v → enabled g v (EvRead c attachment accepted) →
  event_ok g v (EvRead c attachment accepted).
Proof.
  intros Hi Hp Hw (Hh&Hu&Htc&Hwr). destruct (in_use_handled g v c Hi Hh Hu) as (t&y&Hc). pose proof (ha_content _ _ _ _ _ Hc) as Hy.
  pose proof (handled_ok _ _ _ _ _ Hi Hc) as [_ _ B3 _]. destruct (Hw _ t (ha_stream _ _ _ _ _ Hc)) as [Hb _].
  destruct (transfer_run g v c t y Io_Read attachment Hi Hp Hc Htc) as (v'&t'&Hrun&Hi'&Ht'&Hop); [lia|done..|].
  eexists v', _. split_and!.
  - cbn [run_io_event]. rw /TransmitRead (bind_ok _ _ _ _ _ (get_context_run c y v Hy)) (proj2 (Z.leb_le _ _)); [lia|].
    rw (bind_ok _ _ v () v); [done|]. rw (bind_ok _ _ _ _ _ Hrun) (bind_ok _ _ _ _ _ (get_stream_run _ t' v' Ht')). done.
  - rw /after_event. cbn [consume foldl]. rw (absorb_transfer _ c Io_Read); [done..| |done].
    destruct (st_connected t' && accepted); [by right|by left].
  - left. cbn. by destruct (st_connected t' && accepted).
Qed.

Lemma Write_ok g v c offset attachment accepted :
  io_inv g v → g_popped g = ∅ → within_limits v → enabled g v (EvWrite c offset attachment accepted) →
  event_ok g v (EvWrite c offset attachment accepted).
Proof.
  intros Hi Hp Hw (Hh&Hu&Htc&Hoff). destruct (in_use_handled g v c Hi Hh Hu) as (t&y&Hc). pose proof (ha_content _ _ _ _ _ Hc) as Hy.
  destruct (Hw _ t (ha_stream _ _ _ _ _ Hc)) as [Hb _].
  destruct (transfer_run g v c t y Io_Write attachment Hi Hp Hc Htc) as (v'&t'&Hrun&Hi'&Ht'&Hop); [lia|done..|].
  eexists v', _. split_and!.
  - cbn [run_io_event]. rw /TransmitWrite (bind_ok _ _ _ _ _ (get_context_run c y v Hy)) (proj2 (Z.leb_le _ _)); [by apply Hoff|].
    rw (bind_ok _ _ v () v); [done|]. rw (bind_ok _ _ _ _ _ Hrun) (bind_ok _ _ _ _ _ (get_stream_run _ t' v' Ht')). done.
  - rw /after_event. cbn [consume foldl]. rw (absorb_transfer _ c Io_Write); [done..| |done].
    destruct (st_connected t' && accepted); [by right|by left].
  - left. cbn. by destruct (st_connected t' && accepted).
Qed.

(** *** Disconnecting *)

Lemma settled_open g v s : io_inv g v → settled g v s → s ∈ g_conn g → s ∈ g_open g.
Proof.
  intros Hi Hset Hn. destruct (ii_conn _ _ Hi s Hn) as [?|(c&x&Hc&Hcs&Hx&Hop)]; [done|].
  assert (Hcl : c ∈ g_listening g ∪ g_flight g) by (apply elem_of_union; by right).
  specialize (Hset c x Hcl Hx Hcs). by rw Hop in Hset.
Qed.

Lemma connected_not_closing g v s t : io_inv g v → sk_streams v !! s = Some t → st_connected t = true → not_closing g v s.
Proof.
  intros Hi Ht Hc d x Hd Hx Hds Hop. assert (Hdl : d ∈ g_listening g ∪ g_flight g) by (apply elem_of_union; by right).
  destruct (inv_flying g v d x Hi Hdl Hx) as (t'&Ht'&Hf&_). destruct (fl_closing _ _ _ _ _ Hf Hop) as (_&Hcf&_).
  rw Hds Ht in Ht'. injection Ht' as <-. congruence.
Qed.

(** What [TransmitDisconnect] does: nothing, or an operation under way, or, when
    the operating system refuses, the flag alone. *)
Lemma TransmitDisconnect_run g v s t attachment accepted :
  io_inv g v → g_popped g = ∅ → sk_streams v !! s = Some t → settled g v s → 1 ≤ st_count t < 2 ^ 31 - 2 →
  op_object_sequence (st_pool true t) < 2 ^ 64 - 1 →
  ∃ v' o, TransmitDisconnect s attachment accepted v = Ok ((), v', o) ∧
    (∀ m, io_inv (foldl (absorb m) g o) v') ∧ (o = [] ∨ ∃ d, o = [DisconnectEx d]) ∧
    (∀ m c t0 y, handled g v c t0 y → ∃ t', handled (foldl (absorb m) g o) v' c t' y) ∧
    (∀ t', sk_streams v' !! s = Some t' → st_count t' ≤ st_count t + 1) ∧
    (accepted = false → o = []) ∧ ∃ t', sk_streams v' !! s = Some t' ∧ st_connected t' = false.
Proof.
  intros Hi Hp Ht Hset Hc Hseq. destruct (st_connected t) eqn:Hcon.
  2: { exists v, []. split_and!; try done; [|by left|..].
       - rw /TransmitDisconnect (bind_ok _ _ v false v); [|done].
         rw /SetConnectionStatus (bind_ok _ _ _ _ _ (get_stream_run s t v Ht)) Hcon. done.
       - intros m c t0 y Hh. by exists t0.
       - intros t' Ht'. rw Ht in Ht'. injection Ht' as <-. lia.
       - by exists t. }
  pose proof (connected_not_closing g v s t Hi Ht Hcon) as Hnc.
  assert (Ho : s ∈ g_open g) by (apply (settled_open g v s Hi Hset), (ii_connected _ _ Hi s t Ht Hcon)).
  set (t1 := st_set_connected false t). set (v1 := upd_stream s t1 v).
  assert (Hi1 : io_inv g v1) by (apply (inv_stream_same g v s t t1); try done; right; by left).
  assert (Ht1 : sk_streams v1 !! s = Some t1) by (by rw upd_stream_lookup decide_True).
  assert (Hflag : SetConnectionStatus s false v = Ok (true, v1, [])).
  { rw /SetConnectionStatus (bind_ok _ _ _ _ _ (get_stream_run s t v Ht)) Hcon. done. }
  destruct (AllocateWriteBuffer_run g v1 s true t1 Hi1 Ht1) as (c&v2&t2&y&Hrun2&Hi2&[<- E1 E2 E3 E4 E5 (E6&E7&E8&E9) E10 E11]); [done|].
  set (s := ptr_stream c) in *.
  assert (Hset2 : settled g v2 s) by (rw E2; apply settled_upd_context; [by destruct E5|done]).
  destruct (begin_operation_run g v2 c t2 y Io_Disconnect attachment s Hi2 E5 eq_refl Hset2) as
    (v3&t3&Hrun3&Hi3&[G1 G2 G3 G4 G5 G6]&G7&_).
  { left. rw E3. cbn. lia. }
  { rw E3. cbn. lia. }
  rw (popped_same s g Hp) in Hi3. rw E6 E3 in G7. cbn [st_count t1 st_set_connected] in G7.
  pose proof (ha_stream _ _ _ _ _ E5) as Ht2. pose proof (ha_stream _ _ _ _ _ G1) as Ht3.
  assert (Hk12 : keeps c v v2).
  { refine (keeps_trans c v v1 v2 _ E10). apply (keeps_same_pools c y s t t1 v v1 Ht); [done..|by right]. }
  assert (Hk : keeps c v v3).
  { refine (keeps_trans c v v2 v3 Hk12 _). apply (keeps_same_pools c (operating Io_Disconnect attachment s y) s t2 t3 v2 v3 Ht2 G4 G3). by left. }
  assert (Hne : ∀ d t0 y0, handled g v d t0 y0 → d ≠ c).
  { intros d t0 y0 [_ Hd Hu _]. destruct (decide (ptr_stream d = s)) as [Hds|Hds]; [|by intros ->].
    apply (E11 d t1); [by rw Hds|]. rw Hds Ht in Hd. injection Hd as <-. exact Hu. }
  destruct accepted.
  - exists v3, [DisconnectEx c]. split_and!; [|intros m|right; by exists c|intros m d t0 y0 Hh| |done|exists t3; split; [done|by rw G2 E4]].
    + rw /TransmitDisconnect (bind_ok _ _ _ _ _ Hflag). cbn [negb]. rw (bind_ok _ _ _ _ _ Hrun2).
      rw (bind_ok _ _ v2 c v2); [done|]. rw (bind_ok _ _ _ _ _ Hrun3). done.
    + cbn. apply (inv_launch g v3 c t3 _ Hi3 G1); try done. intros _. split_and!; [done|by rw G2 E4|].
      intros d x Hd. rw G5 lookup_insert_ne; [intros <-; destruct G1 as [[_ Hf] _ _ _]; done|].
      rw E2 upd_context_lookup decide_False; [intros ->; destruct G1 as [[_ Hf] _ _ _]; done|]. apply Hnc. done.
    + pose proof (Hne d t0 y0 Hh) as Hdc. destruct Hh as [[Hl Hf] Hd Hu Hy]. destruct (Hk d t0 y0 Hdc Hd Hu Hy) as (Hy3&t'&Ht'&Hu').
      exists t'. split; try done. split; [done|]. cbn. rw elem_of_union elem_of_singleton. tauto.
    + intros t' Ht'. rw Ht3 in Ht'. injection Ht' as <-. lia.
  - destruct (operation_stream_Release_run g v3 c t3 _ s Hi3 G1 eq_refl) as (v4&Hrel&Hi4&_&Hh4&Hco4&Hst4&_); [lia|].
    destruct (release_buffer_run g v4 c _ _ Hi4 Hh4) as (v5&Hfree&Hi5&Hk5&Hcnt5&t5&Ht5&Hcf5&_); [cbn; lia|].
    assert (Hk45 : keeps c v v5).
    { refine (keeps_trans c v v4 v5 _ Hk5). refine (keeps_trans c v v3 v4 Hk _).
      apply (keeps_same_pools c (with_stream None (operating Io_Disconnect attachment s y)) s t3 _ v3 v4 Ht3 Hst4); [done|]. by left. }
    exists v5, []. split_and!; [|done|by left|intros m d t0 y0 Hh| |done|exists t5; split; [done|rw Hcf5 /= G2 E4; done]].
    + rw /TransmitDisconnect (bind_ok _ _ _ _ _ Hflag). cbn [negb]. rw (bind_ok _ _ _ _ _ Hrun2).
      rw (bind_ok _ _ v2 c v2); [done|]. rw (bind_ok _ _ _ _ _ Hrun3) (bind_ok _ _ _ _ _ Hrel). rw /ReleaseWriteBuffer -E1. exact Hfree.
    + pose proof (Hne d t0 y0 Hh) as Hdc. destruct Hh as [Hhd Hd Hu Hy]. destruct (Hk45 d t0 y0 Hdc Hd Hu Hy) as (Hy3&t'&Ht'&Hu').
      exists t'. by split.
    + intros t' Ht'. destruct (Hcnt5 s t' Ht') as (t4&Ht4&Hle). rw Hst4 lookup_insert_eq in Ht4. injection Ht4 as <-. cbn in Hle. lia.
Qed.

Lemma Disconnect_ok g v s attachment accepted :
  io_inv g v → g_popped g = ∅ → within_limits v → enabled g v (EvDisconnect s attachment accepted) →
  event_ok g v (EvDisconnect s attachment accepted).
Proof.
  intros Hi Hp Hw Hen. destruct (touchable_facts g v s Hi Hen) as (t&Ht&Hset&Hc). destruct (Hw s t Ht) as [Hb Hseq].
  destruct (TransmitDisconnect_run g v s t attachment accepted Hi Hp Ht Hset) as (v'&o&Hrun&Hi'&Hno&_); [lia|done|].
  exists v', o. split_and!; [done|apply Hi'|left]. by destruct Hno as [->|[d ->]].
Qed.

(** *** Connecting *)

Lemma Connect_run g v setup address attachment accepted p s l :
  io_inv g v → g_popped g = ∅ → buffers_ready v → sk_connector_socket_pool v = Some p → op_pool p = s :: l →
  ∃ v' c, IocpSocketServer_Connect address attachment setup accepted v =
      Ok ((), v', [if accepted then ConnectEx c else PostQueuedCompletionStatus c]) ∧
    io_inv (launch c g) v' ∧ io_operation <$> sk_contexts v' !! c = Some Io_Connect ∧
    buffers_ready v' ∧ sk_acceptor_socket_pool v' = sk_acceptor_socket_pool v ∧ same_setup v v'.
Proof.
  intros Hi Hp Hr Hpool Hl.
  destruct (pop_socket_run g v true false setup p s l Hi Hpool Hl) as (v0&t&Hpop&Hi0&_&Hst&Ht&Hc0&_&_&Hacc&Hset0).
  rw Hp union_empty_r_L in Hi0. set (g1 := with_popped {[s]} g) in *.
  assert (Ht0 : sk_streams v0 !! s = Some t) by (by rw Hst).
  set (t0 := st_set_socket_address address t). set (v1 := upd_stream s t0 v0).
  assert (Hi1 : io_inv g1 v1) by (apply (inv_stream_same g1 v0 s t t0); try done; by left).
  destruct (open_operation_run g1 v1 s t0 true Io_Connect attachment Hi1) as
    (c&v2&t2&y&v3&t3&Hrun&Hy&<-&Hbeg&Hi3&Hh&Hc1&Hn&Hcy&_&Hst3&_&_&_&_&[Hset3 Hpools]).
  { cbn. set_solver. }
  { by rw upd_stream_lookup decide_True. }
  { exact (Hr s t true Ht Hc0). }
  set (s := ptr_stream c) in *.
  rw (_ : with_popped (g_popped g1 ∖ {[s]}) g1 = g) in Hi3.
  { destruct g. rw /g1 /with_popped. cbn in *. rw Hp. f_equal. by rw difference_diag_L. }
  exists v3, c. split_and!.
  - rw /IocpSocketServer_Connect (bind_ok _ _ _ _ _ Hpop).
    rw (bind_ok _ _ v0 (Some s) v0); [done|]. rw (bind_ok _ _ v0 s v0); [done|].
    rw (bind_ok _ _ _ _ _ (get_stream_run s t v0 Ht0)) (bind_ok _ _ v0 () v1); [done|].
    rw /TransmitConnect (bind_ok _ _ _ _ _ Hrun) (bind_ok _ _ _ _ _ Hbeg). done.
  - apply (inv_launch g v3 c t3 (operating Io_Connect attachment s y) Hi3); try done; by destruct Hh.
  - by rw (ha_content _ _ _ _ _ Hh).
  - apply (buffers_ready_insert v v3 s t3 Hr); [|lia]. rw Hst3 /v1 /=. by rw insert_insert_eq Hst.
  - etrans; [exact (Hpools false)|]. etrans; [|exact Hacc]. done.
  - apply (same_setup_trans v v0 v3 Hset0). by destruct Hset3.
Qed.

Lemma Connect_ok g v address attachment accepted :
  io_inv g v → g_popped g = ∅ → enabled g v (EvConnect address attachment accepted) →
  event_ok g v (EvConnect address attachment accepted).
Proof.
  intros Hi Hp (Hr&p&Hpool&Hne). destruct (op_pool p) as [|s l] eqn:Hl; [done|].
  destruct (Connect_run g v no_setup address attachment accepted p s l Hi Hp Hr Hpool Hl) as (v'&c&Hrun&Hi'&Hop&_).
  exists v', [if accepted then ConnectEx c else PostQueuedCompletionStatus c]. split_and!; [done| |].
  - rw /after_event. cbn [consume foldl].
    rw (absorb_transfer _ c Io_Connect); [done|done| |done]. destruct accepted; [by right|by left].
  - left. by destruct accepted.
Qed.

(** *** Completions *)

(** The end of an iteration of [IoMain]. *)
Lemma finish_run g v c t x :
  io_inv g v → handled g v c t x → io_operation_stream x = Some (ptr_stream c) → io_count x = 0 → st_count t < 2 ^ 31 →
  ∃ v', (operation_stream_Release c ;; push_buffer c) v = Ok ((), v', []) ∧ io_inv g v'.
Proof.
  intros Hi Hh Hs H0 Hb. destruct (operation_stream_Release_run g v c t x _ Hi Hh Hs Hb) as (v1&Hrel&Hi1&_&Hh1&_).
  destruct (push_buffer_run g v1 c _ _ Hi1 Hh1 eq_refl H0) as (v2&Hpush&Hi2&_).
  exists v2. split; [|done]. by rw (bind_ok _ _ _ _ _ Hrel).
Qed.

(** What is known of a completed operation other than an accept. *)
Lemma complete_start g v c x :
  io_inv g v → c ∈ g_flight g → sk_contexts v !! c = Some x → io_operation x ≠ Io_Accept →
  io_inv (landed c g) v ∧ ∃ t, handled (landed c g) v c t x ∧ io_operation_stream x = Some (ptr_stream c) ∧
    (internal (io_operation x) = true → io_count x = 0) ∧ operation_kind c (io_operation x) ∧
    (opening (io_operation x) = true → settled (landed c g) v (ptr_stream c) ∧ not_closing (landed c g) v (ptr_stream c) ∧
       st_count t = 1 ∧ ptr_stream c ∉ g_conn g) ∧
    (io_operation x = Io_Disconnect → ptr_stream c ∈ g_open g ∧ st_connected t = false ∧
       not_closing (landed c g) v (ptr_stream c) ∧ settled (landed c g) v (ptr_stream c)) ∧
    touchable (landed c g) v (ptr_stream c).
Proof.
  intros Hi Hf Hx Hop. assert (Hcl : c ∈ g_listening g ∪ g_flight g) by (apply elem_of_union; by right).
  destruct (inv_leave g v c x Hi Hcl Hx) as (Hi1&t&Hh&Hs&H0&Hk&Ho&Hd); [done|]. cbv zeta in *.
  assert (Hnl : c ∉ g_listening (landed c g)).
  { cbn. intros Hl. destruct (inv_flying g v c x Hi Hcl Hx) as (t'&_&Hfl&_).
    destruct (fl_listening _ _ _ _ _ Hfl Hl) as [_ Hnf]. by apply Hnf. }
  rw (unlisten_same c (landed c g) Hnl) in Hi1 Hh Ho Hd. split; [done|]. exists t. split_and!; try done.
  right. right. exists c, x. split_and!; [by destruct Hh|done|done].
Qed.

Lemma Complete_transfer_ok g v c status bytes connected accepted x :
  io_inv g v → g_popped g = ∅ → within_limits v → enabled g v (EvComplete c status bytes connected accepted) →
  sk_contexts v !! c = Some x → io_operation x = Io_Read ∨ io_operation x = Io_Write →
  event_ok g v (EvComplete c status bytes connected accepted).
Proof.
  intros Hi Hp Hw (Hf&Hstat&Hb0&Hbytes) Hx Hop.
  destruct (complete_start g v c x Hi Hf Hx) as (Hi1&t&Hh&Hs&H0&Hk&_&_&Htc); [destruct Hop; congruence|].
  set (g1 := landed c g) in *. set (s := ptr_stream c) in *. pose proof (ha_stream _ _ _ _ _ Hh) as Ht. fold s in Ht.
  destruct (touchable_facts g1 v s Hi1 Htc) as (t'&Ht'&Hset&Hc). rw Ht in Ht'. injection Ht' as <-.
  destruct (Hw s t Ht) as [Hlim Hseq]. pose proof (handled_ok _ _ _ _ _ Hi1 Hh) as [_ _ B3 B4].
  assert (Hret : ∀ v1, io_inv g1 v1 → sk_streams v1 !! s = Some t → settled g1 v1 s →
    ∃ v2, stream_Retain s v1 = Ok ((), v2, []) ∧ io_inv (with_held (g_held g1 ⊎ {[+ s +]}) g1) v2).
  { intros v1 Hv1 Hvt Hvs. destruct (inv_retain g1 v1 s t Hv1 Hvt Hvs) as [Hr Hi2]; [left; lia|lia|]. eexists. split; [exact Hr|].
    by rw (retained_same s g1 Hp) in Hi2. }
  destruct Hop as [Hop|Hop].
  - assert (Hbx : bytes ≤ io_capacity x - io_length x) by (by apply Hbytes).
    set (z := mkIoContext (io_operation x) (io_attachment x) (io_operation_stream x) (u32 (io_length x + bytes)) (io_capacity x) (io_count x)).
    set (v1 := upd_context c z v).
    assert (Hz : io_inv g1 v1).
    { apply (inv_rewrite g1 v c t z x Hi1 Hh); [done| |done]. cbn. rw u32_small; lia. }
    assert (Hh1 : handled g1 v1 c t z) by (destruct Hh; split; try done; by rw upd_context_lookup decide_True).
    assert (Hset1 : settled g1 v1 s) by (apply settled_upd_context; [by destruct Hh|done]).
    assert (Hstart : ∀ r, (if 0 <? bytes then stream_Retain s ;; emit [Handler_OnRead s c (io_attachment x)]
        else TransmitDisconnect s (io_attachment x) accepted ;; ReleaseReadBuffer s c) v1 = r →
      run_io_event (EvComplete c status bytes connected accepted) v = r).
    { intros r Hr. cbn [run_io_event]. rw /IoMain_iteration.
      destruct Hstat as [-> | ->]; rw (bind_ok _ _ _ _ _ (get_context_run c x v Hx)) Hop /IoRead;
        rw (bind_ok _ _ _ _ _ (get_context_run c x v Hx)) (bind_ok _ _ v () v1); try done; rw Hs (bind_ok _ _ v1 s v1); done. }
    destruct (Z.ltb_spec 0 bytes) as [Hpos|Hzero].
    + destruct (Hret v1 Hz Ht Hset1) as (v2&Hr&Hi2). exists v2, [Handler_OnRead s c (io_attachment x)].
      split_and!; [|exact Hi2|by left]. apply Hstart. by rw (bind_ok _ _ _ _ _ Hr).
    + destruct (TransmitDisconnect_run g1 v1 s t (io_attachment x) accepted Hz Hp Ht Hset1) as (v2&o&Hdis&Hi2&Hno&Hkeep&Hcnt&_); [lia|done|].
      destruct (Hkeep (sk_contexts v2) c t z Hh1) as (t2&Hh2). pose proof (Hcnt t2 (ha_stream _ _ _ _ _ Hh2)) as Hc2.
      destruct (release_buffer_run _ v2 c t2 z (Hi2 _) Hh2) as (v3&Hfree&Hi3&_); [lia|].
      exists v3, (o ++ []). split_and!.
      * apply Hstart. apply (bind_out _ _ v1 () v2 o () v3 []); [done|]. rw /ReleaseReadBuffer.
        rw Hop in Hk. cbn in Hk. rw -Hk. exact Hfree.
      * rw app_nil_r /after_event. cbn [consume]. fold g1. by destruct Hno as [->|[d ->]].
      * left. by destruct Hno as [->|[d ->]].
  - destruct (Hret v Hi1 Ht Hset) as (v2&Hr&Hi2). exists v2, [Handler_OnWrite s c (io_attachment x)].
    split_and!; [|exact Hi2|by left]. cbn [run_io_event]. rw /IoMain_iteration.
    destruct Hstat as [-> | ->]; rw (bind_ok _ _ _ _ _ (get_context_run c x v Hx)) Hop /IoWrite;
      rw (bind_ok _ _ _ _ _ (get_context_run c x v Hx)) Hs (bind_ok _ _ v s v); try done; by rw (bind_ok _ _ _ _ _ Hr).
Qed.

(** [IoMain]'s dispatch for a completed operation, reduced to its case. *)
Lemma IoMain_dispatch c x v status bytes connected accepted r :
  sk_contexts v !! c = Some x → status = Io_Completed ∨ status = Io_Listed →
  (let finish := operation_stream_Release c ;; push_buffer c in
   match io_operation x with
   | Io_Read => IoRead c bytes accepted
   | Io_Write => IoWrite c
   | Io_Disconnect => IoDisconnect c ;; finish
   | Io_Accept =>
       s ← lift (from_option_ub "operation_stream" (io_operation_stream x));
       emit [Handler_OnAccept s] ;; finish
   | Io_Connect => IoConnect c connected ;; finish
   | Io_None | Io_Tick => finish
   end) v = r →
  run_io_event (EvComplete c status bytes connected accepted) v = r.
Proof.
  intros Hx Hstat Hr. cbn [run_io_event]. rw /IoMain_iteration.
  destruct Hstat as [-> | ->]; by rw (bind_ok _ _ _ _ _ (get_context_run c x v Hx)).
Qed.

Lemma Complete_accept_ok g v c status bytes connected accepted x :
  io_inv g v → within_limits v → enabled g v (EvComplete c status bytes connected accepted) →
  sk_contexts v !! c = Some x → io_operation x = Io_Accept →
  event_ok g v (EvComplete c status bytes connected accepted).
Proof.
  intros Hi Hw (Hf&Hstat&_) Hx Hop. destruct (inv_announce g v c x Hi Hf Hx Hop) as (Hno&Hi1&t&Hh&Hs&H0).
  destruct (Hw _ t (ha_stream _ _ _ _ _ Hh)) as [Hb _].
  destruct (finish_run _ v c t x Hi1 Hh Hs H0) as (v'&Hfin&Hi2); [lia|].
  exists v', ([Handler_OnAccept (ptr_stream c)] ++ []). split_and!; [|exact Hi2|].
  - apply (IoMain_dispatch c x v status bytes connected accepted _ Hx Hstat). rw Hop Hs. cbv zeta.
    rw (bind_ok _ _ v (ptr_stream c) v); [done|]. by apply (bind_out _ _ v () v _ () v' []).
  - right. exists (ptr_stream c), true. split; [done|]. split; [by intros ?|done].
Qed.

Lemma Complete_connect_ok g v c status bytes connected accepted x :
  io_inv g v → g_popped g = ∅ → enabled g v (EvComplete c status bytes connected accepted) →
  sk_contexts v !! c = Some x → io_operation x = Io_Connect →
  event_ok g v (EvComplete c status bytes connected accepted).
Proof.
  intros Hi Hp (Hf&Hstat&_) Hx Hop.
  destruct (complete_start g v c x Hi Hf Hx) as (Hi1&t&Hh&Hs&H0&_&Hopen&_); [congruence|].
  destruct Hopen as (Hset&Hnc&Hc1&Hn); [by rw Hop|]. specialize (H0 ltac:(by rw Hop)).
  set (g1 := landed c g) in *. set (s := ptr_stream c) in *.
  assert (Hno : s ∉ g_open g) by (intros Ho; by apply Hn, (ii_open _ _ Hi)).
  destruct connected.
  - destruct (join_run g1 v s t Hi1 Hp (ha_stream _ _ _ _ _ Hh) Hset Hnc Hn Hc1) as (v1&v2&t2&Hst&Hret&Hi2&Hv2&Hc2&Hpool).
    assert (Hh2 : handled (joined s g1) v2 c t2 x).
    { subst v2. destruct Hh as [? ? Hu ?]. split; try done; [by rw upd_stream_lookup decide_True|by rw Hpool]. }
    destruct (finish_run _ v2 c t2 x Hi2 Hh2 Hs H0) as (v'&Hfin&Hi3); [lia|].
    exists v', ([Handler_OnConnect (Some s) (io_attachment x)] ++ []). split_and!; [|exact Hi3|].
    + apply (IoMain_dispatch c x v status bytes true accepted _ Hx Hstat). rw Hop. cbv zeta.
      apply (bind_out _ _ v () v2 _ () v' []); [|done]. rw /IoConnect (bind_ok _ _ _ _ _ (get_context_run c x v Hx)) Hs.
      rw (bind_ok _ _ v s v); [done|]. cbn [negb]. by rw (bind_ok _ _ _ _ _ Hst) (bind_ok _ _ _ _ _ Hret).
    + right. exists s, true. split; [done|]. split; [by intros ?|done].
  - destruct (finish_run _ v c t x Hi1 Hh Hs H0) as (v'&Hfin&Hi3); [lia|].
    exists v', ([Handler_OnConnect None (io_attachment x)] ++ []). split_and!; [|exact Hi3|by left].
    apply (IoMain_dispatch c x v status bytes false accepted _ Hx Hstat). rw Hop. cbv zeta.
    apply (bind_out _ _ v () v _ () v' []); [|done]. rw /IoConnect (bind_ok _ _ _ _ _ (get_context_run c x v Hx)) Hs.
    by rw (bind_ok _ _ v s v).
Qed.

Lemma Complete_disconnect_ok g v c status bytes connected accepted x :
  io_inv g v → within_limits v → enabled g v (EvComplete c status bytes connected accepted) →
  sk_contexts v !! c = Some x → io_operation x = Io_Disconnect →
  event_ok g v (EvComplete c status bytes connected accepted).
Proof.
  intros Hi Hw (Hf&Hstat&_) Hx Hop.
  destruct (complete_start g v c x Hi Hf Hx) as (Hi1&t&Hh&Hs&H0&_&_&Hdis&_); [congruence|].
  destruct (Hdis Hop) as (Ho&Hcf&Hnc&Hset). specialize (H0 ltac:(by rw Hop)).
  set (g1 := landed c g) in *. set (s := ptr_stream c) in *. pose proof (ha_stream _ _ _ _ _ Hh) as Ht. fold s in Ht.
  destruct (Hw s t Ht) as [Hb _].
  pose proof (inv_disconnect g1 v s t Hi1 Ho Ht Hcf Hnc Hset) as Hi2. set (g2 := disconnected_ghost s g1) in *.
  assert (Hheld : s ∈ g_held g2) by (cbn; multiset_solver).
  assert (Hc2 : 2 ≤ st_count t).
  { rw (ii_count _ _ Hi1 s t Ht) /refs bool_decide_eq_true_2; [by apply (ii_open _ _ Hi)|].
    assert (Hin : c ∈ namers (sk_contexts v) s) by (rw elem_of_namers Hx /= Hs; done). apply namers_pos in Hin. cbn. lia. }
  pose proof (inv_release_kept g2 v s t Hi2 Hheld Ht ltac:(lia)) as Hi3.
  rw (_ : released s g2 = with_conn (g_conn g1 ∖ {[s]}) (g_open g1 ∖ {[s]}) g1) in Hi3.
  { rw /g2 /disconnected_ghost /released. cbn. rw held_plus_minus. by destruct g. }
  set (t2 := st_set_count (st_count t - 1) t) in *. set (v1 := upd_stream s t2 v) in *.
  assert (Hh2 : handled (with_conn (g_conn g1 ∖ {[s]}) (g_open g1 ∖ {[s]}) g1) v1 c t2 x).
  { destruct Hh as [? ? Hu ?]. split; try done. by rw upd_stream_lookup decide_True. }
  destruct (finish_run _ v1 c t2 x Hi3 Hh2 Hs H0) as (v'&Hfin&Hi4); [cbn; lia|].
  exists v', ([Handler_OnDisconnect s (io_attachment x)] ++ []). split_and!; [|exact Hi4|].
  - apply (IoMain_dispatch c x v status bytes connected accepted _ Hx Hstat). rw Hop. cbv zeta.
    apply (bind_out _ _ v () v1 _ () v' []); [|done].
    rw /IoDisconnect (bind_ok _ _ _ _ _ (get_context_run c x v Hx)) Hs (bind_ok _ _ v s v); [done|].
    apply (bind_out _ _ v () v [Handler_OnDisconnect s (io_attachment x)] () v1 []); [done|].
    rw (bind_ok _ _ v (st_count t - 1) v1).
    { rw /stream_Release (bind_ok _ _ _ _ _ (get_stream_run s t v Ht)) !to_i32_small; [lia..|done]. }
    case: Z.eqb_spec => Hz; [lia|done].
  - right. exists s, false. done.
Qed.

Lemma event_runs g v ev : io_inv g v → g_popped g = ∅ → within_limits v → enabled g v ev → event_ok g v ev.
Proof.
  intros Hi Hp Hw Hen. destruct ev as [answer|c address retried answer|retried answer|c status bytes connected accepted|address attachment accepted|s|s|
    s w must|c|c length count|c attachment accepted|c offset attachment accepted|s attachment accepted].
  - by apply StartAccept_ok.
  - by apply Accepted_ok.
  - by apply AcceptorTimeout_ok.
  - pose proof Hen as [Hf _]. destruct (ii_flying _ _ Hi c) as (t&x&_&Hx&Hfl); [apply elem_of_union; by right|].
    pose proof (fl_kind _ _ _ _ _ Hfl) as Hk. destruct (io_operation x) eqn:Hop; try done.
    + by apply (Complete_accept_ok _ _ _ _ _ _ _ x).
    + apply (Complete_transfer_ok _ _ _ _ _ _ _ x); try done. by left.
    + apply (Complete_transfer_ok _ _ _ _ _ _ _ x); try done. by right.
    + by apply (Complete_disconnect_ok _ _ _ _ _ _ _ x).
    + by apply (Complete_connect_ok _ _ _ _ _ _ _ x).
  - by apply Connect_ok.
  - by apply Hold_ok.
  - by apply Drop_ok.
  - by apply Allocate_ok.
  - by apply Free_ok.
  - by apply Fill_ok.
  - by apply Read_ok.
  - by apply Write_ok.
  - by apply Disconnect_ok.
Qed.
