(* ===== verification/IocpSafety.v ===== *)
(** * What the transport guarantees

    Every run of the transport from its start: which streams are free, that no
    thread faults, that connections begin and end in turn; and what happens when
    the operating system refuses. *)

From stdpp Require Import gmultiset.
From S2P Require Import Prelude Memory.
From S2P Require Import Coordinate SectorGrid Fixture Packet Iocp IocpLife IocpRuns.

#[local] Unset SsrOldRewriteGoalsOrder.

Open Scope Z_scope.

(** ** The start *)

Definition no_ghost : io_ghost := mkIoGhost ∅ ∅ ∅ ∅ ∅ ∅.

(** The fields of a configuration are 32-bit; ids of the two stocks of streams
    do not meet. *)
Record config_ok (config : SocketServerConfig) : Prop := {
  co_connectable : 0 < ssc_max_connectable_socket_count config < 2 ^ 31;
  co_acceptable : 0 < ssc_max_acceptable_socket_count config < CONNECTOR_SOCKET_START_ID;
  co_read : 0 ≤ ssc_read_buffer_capacity config < 2 ^ 32;
  co_write : 0 ≤ ssc_write_buffer_capacity config < 2 ^ 32;
  co_read_pool : ssc_read_buffer_pool_size config < 2 ^ 31;
  co_write_pool : ssc_write_buffer_pool_size config < 2 ^ 31;
}.

(** [Initialize] and [InitializeAcceptor] succeeded. *)
Definition started (config : SocketServerConfig) (v : IocpSocketServer) : Prop :=
  ∃ created setup1 options acceptor setup2 v1,
    IocpSocketServer_Initialize config created setup1 new_IocpSocketServer = Ok (true, v1, []) ∧
    InitializeAcceptor options acceptor setup2 v1 = Ok (true, v, []).

Record new_stream (t : IocpStream) : Prop := {
  ns_count : st_count t = 0;
  ns_connected : st_connected t = false;
  ns_pool : ∀ w, (∃ stock, pool_wf stock (st_pool w t)) ∧ op_in_used (st_pool w t) = ∅;
  ns_ready : ∀ w, op_pool (st_pool w t) ≠ [];
}.

Lemma SocketInitializer_new config handles id u1 u2 u3 t :
  config_ok config → 4 ≤ ssc_read_buffer_pool_size config → 4 ≤ ssc_write_buffer_pool_size config →
  SocketInitializer_Initialize config handles id u1 u2 u3 = Ok t → new_stream t.
Proof.
  intros [] H1 H2. rw /SocketInitializer_Initialize. repeat case_match; try done.
  rw /mbind /result_bind.
  assert (Hpool : ∀ n, 4 ≤ n < 2 ^ 31 → ∃ p, new_ObjectPool n (n / 4) 1 = Ok p ∧ (∃ stock, pool_wf stock p) ∧
    op_in_used p = ∅ ∧ op_pool p ≠ []).
  { intros n Hn. assert (0 < n / 4 ≤ n) by (split; [apply Z.div_str_pos; lia|apply Z.div_le_upper_bound; lia]).
    eexists. rw new_ObjectPool_spec; [lia..|]. split; [done|]. split_and!; [|done|].
    - exists (Z.to_nat n). apply (new_ObjectPool_wf n (n / 4) 1); [lia..|]. rw new_ObjectPool_spec; [lia..|done].
    - cbn. intros E%(f_equal length). rw length_reverse length_seqZ /= in E. lia. }
  destruct (Hpool (ssc_read_buffer_pool_size config)) as (p1&->&Hw1&Hu1&Hr1); [lia|].
  destruct (Hpool (ssc_write_buffer_pool_size config)) as (p2&->&Hw2&Hu2&Hr2); [lia|].
  intros [= <-]. split; try done; by intros [].
Qed.

Lemma initialize_streams_new config handles setup ids m m' :
  config_ok config → 4 ≤ ssc_read_buffer_pool_size config → 4 ≤ ssc_write_buffer_pool_size config →
  initialize_streams config handles setup ids m = Ok m' →
  ∀ s, (s ∈ ids → ∃ t, m' !! s = Some t ∧ new_stream t) ∧ (s ∉ ids → m' !! s = m !! s).
Proof.
  intros Hok H1 H2. revert m. induction ids as [|id ids IH]; intros m; cbn [initialize_streams].
  - intros [= <-] s. split; [intros ?%elem_of_nil; done|done].
  - rw /mbind /result_bind. destruct (SocketInitializer_Initialize _ _ _ _ _ _) as [t|] eqn:Ht; [|done].
    intros Hrun s. destruct (IH _ Hrun s) as [Ha Hb]. destruct (decide (s ∈ ids)) as [Hin|Hin].
    + split; [by intros _; apply Ha|]. intros Hn. destruct Hn. by right.
    + rw (Hb Hin). split.
      * intros [->|?]%elem_of_cons; [|done]. rw lookup_insert_eq. exists t. split; [done|].
        exact (SocketInitializer_new _ _ _ _ _ _ _ Hok H1 H2 Ht).
      * intros Hn. rw lookup_insert_ne; [|done]. intros ->. apply Hn. by left.
Qed.

(** A server that has its streams and has done nothing with them. *)
Record fresh_server (config : SocketServerConfig) (v : IocpSocketServer) (p1 p2 : ObjectPool) : Prop := {
  fs_config : sk_config v = config;
  fs_contexts : sk_contexts v = ∅;
  fs_flags : sk_is_initialized v = true ∧ sk_has_acceptor v = true;
  fs_acceptors : sk_acceptor_socket_pool v = Some p1 ∧ (∃ stock, pool_wf stock p1) ∧ op_in_used p1 = ∅;
  fs_connectors : sk_connector_socket_pool v = Some p2 ∧ (∃ stock, pool_wf stock p2) ∧ op_in_used p2 = ∅;
  fs_acceptor_ids : ∀ s, s ∈ op_pool p1 ↔ 1 ≤ s < 1 + ssc_max_acceptable_socket_count config;
  fs_connector_ids : ∀ s, s ∈ op_pool p2 ↔
    CONNECTOR_SOCKET_START_ID ≤ s < CONNECTOR_SOCKET_START_ID + ssc_max_connectable_socket_count config;
  fs_new : ∀ s, s ∈ op_pool p1 ∨ s ∈ op_pool p2 → ∃ t, sk_streams v !! s = Some t ∧ new_stream t;
  fs_dom : ∀ s, is_Some (sk_streams v !! s) → s ∈ op_pool p1 ∨ s ∈ op_pool p2;
}.

Lemma fresh_server_inv config v p1 p2 : config_ok config → fresh_server config v p1 p2 → io_inv no_ghost v.
Proof.
  intros [C1 C2 C3 C4 _ _] [Hcf Hco _ (Hp1&Hw1&Hu1) (Hp2&Hw2&Hu2) Hm1 Hm2 Hnew Hdom].
  assert (Hs1 : ∀ s, s ∈ op_pool p1 → from_connector_pool s = false).
  { intros s Hs%Hm1. rw /from_connector_pool. rw Z.geb_leb. apply Z.leb_gt. lia. }
  assert (Hs2 : ∀ s, s ∈ op_pool p2 → from_connector_pool s = true).
  { intros s Hs%Hm2. rw /from_connector_pool. rw Z.geb_leb. apply Z.leb_le. lia. }
  assert (Hst : ∀ s t, sk_streams v !! s = Some t → new_stream t ∧
    ∃ p, socket_pool (from_connector_pool s) v = Some p ∧ s ∈ op_pool p ∧ op_in_used p = ∅).
  { intros s t Ht. destruct (Hdom s) as [Hs|Hs]; [by exists t|..].
    - destruct (Hnew s (or_introl Hs)) as (t'&Ht'&Hn). rw Ht in Ht'. injection Ht' as <-. split; [done|].
      exists p1. by rw (Hs1 s Hs).
    - destruct (Hnew s (or_intror Hs)) as (t'&Ht'&Hn). rw Ht in Ht'. injection Ht' as <-. split; [done|].
      exists p2. by rw (Hs2 s Hs). }
  assert (Hheap : ∀ stock p, pool_wf stock p → op_in_used p = ∅ → op_heap p = ∅).
  { intros stock p Hw Hu. pose proof (pw_heap _ _ Hw) as Hh. rw Hu in Hh. set_solver. }
  split; rw ?Hco; try done.
  - intros [|] p; cbn [socket_pool]; [rw Hp2|rw Hp1]; intros [= <-].
    + destruct Hw2 as [n2 Hw2]. split_and!; [by exists n2|by apply (Hheap n2)|].
      intros s [Hs|Hs]; [|rw Hu2 in Hs; set_solver]. split; [by apply Hs2|]. destruct (Hnew s (or_intror Hs)) as (t&?&_). by exists t.
    + destruct Hw1 as [n1 Hw1]. split_and!; [by exists n1|by apply (Hheap n1)|].
      intros s [Hs|Hs]; [|rw Hu1 in Hs; set_solver]. split; [by apply Hs1|]. destruct (Hnew s (or_introl Hs)) as (t&?&_). by exists t.
  - intros s t Ht. destruct (Hst s t Ht) as ([Hc _ _ _]&p&Hp&Hin&Hu). split. exists p. rw Hc Hu. split_and!; [done|set_solver|set_solver].
  - intros s t Ht. destruct (Hst s t Ht) as ([Hc _ _ _]&_). rw Hc /refs /namers map_filter_empty dom_empty_L size_empty. done.
  - intros s t Ht Hc. destruct (Hst s t Ht) as ([_ Hc' _ _]&_). congruence.
  - intros s t w Ht. destruct (Hst s t Ht) as ([_ _ Hpl _]&_). apply Hpl.
  - intros c t Ht Hu. destruct (Hst _ t Ht) as ([_ _ Hpl _]&_). destruct (Hpl (ptr_write c)) as [_ Hu']. rw Hu' in Hu. set_solver.
  - intros s [Hs|[Hs|Hs]]; cbn in Hs; [multiset_solver|set_solver..].
  - by rw Hcf.
Qed.

Lemma new_SocketObjectPool_new config setup count start v p m :
  new_SocketObjectPool setup count start v = Ok (p, m) →
  sk_config v = config → config_ok config → 4 ≤ ssc_read_buffer_pool_size config → 4 ≤ ssc_write_buffer_pool_size config →
  0 < count < 2 ^ 31 → 0 ≤ start < 2 ^ 32 →
  (∃ stock, pool_wf stock p) ∧ op_in_used p = ∅ ∧ (∀ s, s ∈ op_pool p ↔ start ≤ s < start + count) ∧
  ∀ s, (start ≤ s < start + count → ∃ t, m !! s = Some t ∧ new_stream t) ∧
       (¬ (start ≤ s < start + count) → m !! s = sk_streams v !! s).
Proof.
  intros Hrun Hcf Hok H1 H2 Hc Hs. revert Hrun. rw /new_SocketObjectPool Hcf.
  destruct (new_ObjectPool count count start) as [q|] eqn:Hq; [|done]. rw /mbind /result_bind. destruct (initialize_streams _ _ _ _ _) as [m'|] eqn:Hm; [|done]. intros [= -> ->].
  split_and!; [exists (Z.to_nat count); apply (new_ObjectPool_wf count count start); try done; lia|..].
  - rw new_ObjectPool_spec in Hq; [lia..|]. by injection Hq as <-.
  - intros s. rw new_ObjectPool_spec in Hq; [lia..|]. injection Hq as <-. cbn. rw elem_of_reverse elem_of_seqZ. lia.
  - intros s. destruct (initialize_streams_new config _ _ _ _ _ Hok H1 H2 Hm s) as [Ha Hb]. rw elem_of_seqZ in Ha.
    rw elem_of_seqZ in Hb. split; [intros ?; apply Ha|intros ?; apply Hb]; lia.
Qed.

Lemma started_fresh config v : config_ok config → started config v → ∃ p1 p2, fresh_server config v p1 p2.
Proof.
  intros Hok (created&setup1&options&acceptor&setup2&v1&Hinit&Hacc). pose proof Hok as [C1 C2 C3 C4 C5 C6].
  assert (HS : CONNECTOR_SOCKET_START_ID = 2147483647) by reflexivity.
  rw /IocpSocketServer_Initialize /mbind /act_mbind /act_bind /get_state /modify /lift /= in Hinit.
  destruct (_ || _) eqn:Hcap in Hinit; [done|]. destruct (_ || _) eqn:Hsize in Hinit; [done|].
  apply orb_false_iff in Hsize as [Hr%Z.ltb_ge Hw%Z.ltb_ge].
  destruct (create_ports _ _ _) as [[] handles] in Hinit; [|done]. cbn -[new_SocketObjectPool] in Hinit.
  destruct (new_SocketObjectPool _ _ _ _) as [[p2 m2]|] eqn:Hp2 in Hinit; [|done]. injection Hinit as <-.
  rw /InitializeAcceptor /mbind /act_mbind /act_bind /get_state /modify /lift in Hacc.
  cbn -[new_SocketObjectPool SetSocketOptions set_has_acceptor] in Hacc.
  destruct (new_SocketObjectPool _ _ _ _) as [[p1 m1]|] eqn:Hp1 in Hacc; [|done].
  set (r1 := SetSocketOptions _ options <? 0) in Hacc.
  set (r2 := SetSocketOptions _ [(SO_CONDITIONAL_ACCEPT, 1)] <? 0) in Hacc.
  destruct (as_socket acceptor), r1, r2, (as_port acceptor), (as_registered acceptor); try done. injection Hacc as <-.
  destruct (new_SocketObjectPool_new config _ _ _ _ _ _ Hp2 eq_refl Hok Hr Hw C1 ltac:(lia)) as (W2&U2&M2&N2).
  destruct (new_SocketObjectPool_new config _ _ _ _ _ _ Hp1 eq_refl Hok Hr Hw ltac:(lia) ltac:(lia)) as (W1&U1&M1&N1).
  exists p1, p2. split; try done.
  - intros s. cbn. rw M1 M2. intros [Hs|Hs]; [by apply N1|]. destruct (N1 s) as [_ Hn1]. rw Hn1; [lia|]. by apply N2.
  - intros s. cbn. rw M1 M2. intros Hs. destruct (N1 s) as [_ Hn1]. destruct (N2 s) as [_ Hn2].
    destruct (decide (1 ≤ s < 1 + ssc_max_acceptable_socket_count config)) as [|H1]; [by left|].
    destruct (decide (CONNECTOR_SOCKET_START_ID ≤ s < CONNECTOR_SOCKET_START_ID + ssc_max_connectable_socket_count config))
      as [|H2]; [by right|]. rw (Hn1 H1) /= (Hn2 H2) /= lookup_empty in Hs. by destruct Hs.
Qed.

Lemma started_inv config v : config_ok config → started config v → io_inv no_ghost v.
Proof. intros Hok Hs. destruct (started_fresh config v Hok Hs) as (p1&p2&Hf). by apply (fresh_server_inv config v p1 p2). Qed.

(** Such a server can connect, and accept on all of its streams. *)
Lemma started_ready config v : config_ok config → started config v →
  sk_config v = config ∧ sk_is_initialized v = true ∧ sk_has_acceptor v = true ∧ buffers_ready v ∧
  (∃ p, sk_acceptor_socket_pool v = Some p ∧ (Z.to_nat (ssc_max_acceptable_socket_count config) ≤ length (op_pool p))%nat) ∧
  ∃ p s l, sk_connector_socket_pool v = Some p ∧ op_pool p = s :: l.
Proof.
  intros Hok Hs. destruct (started_fresh config v Hok Hs) as (p1&p2&[F1 _ [F2 F3] (F4&_) (F5&_) F6 F7 F8 F9]).
  split_and!; [done..| | |].
  - intros s t w Ht _. destruct (F8 s) as (t'&Ht'&Hn); [apply F9; by exists t|]. rw Ht in Ht'. injection Ht' as <-. apply Hn.
  - exists p1. split; [done|]. rw -(length_seqZ 1). apply submseteq_length, NoDup_submseteq; [apply NoDup_seqZ|].
    intros s Hin%elem_of_seqZ. by apply F6.
  - destruct (op_pool p2) as [|s l] eqn:Hl; [|by exists p2, s, l]. exfalso. apply (not_elem_of_nil CONNECTOR_SOCKET_START_ID), F7.
    destruct Hok. lia.
Qed.

(** ** A start that succeeds *)

(** What [Initialize] asks of a configuration, and workers to give streams to. *)
Definition startable (config : SocketServerConfig) : bool :=
  (0 <? ssc_read_buffer_capacity config) && (ssc_read_buffer_capacity config mod 4096 =? 0) &&
  (0 <? ssc_write_buffer_capacity config) && (ssc_write_buffer_capacity config mod 4096 =? 0) &&
  (4 <=? ssc_read_buffer_pool_size config) && (4 <=? ssc_write_buffer_pool_size config) && (0 <? ssc_worker_count config).

(** The operating system grants everything. *)
Definition willing : Z → socket_setup := λ _, mkSocketSetup true true true.
Definition willing_acceptor : acceptor_setup := mkAcceptorSetup true (λ _ _, 0) true true.

Lemma buffer_pool_ok n : 4 ≤ n < 2 ^ 31 → ∃ p, new_ObjectPool n (n / 4) 1 = Ok p.
Proof.
  intros Hn. assert (0 < n / 4 ≤ n) by (split; [apply Z.div_str_pos; lia|apply Z.div_le_upper_bound; lia]).
  eexists. by rw new_ObjectPool_spec; [lia..|].
Qed.

Lemma initialize_streams_ok config ids m :
  config_ok config → startable config = true →
  ∃ m', initialize_streams config (ssc_worker_count config) willing ids m = Ok m'.
Proof.
  intros [] Hs. rw /startable !andb_true_iff !Z.ltb_lt !Z.leb_le in Hs. destruct Hs as [[[_ H1] H2] Hw].
  destruct (buffer_pool_ok (ssc_read_buffer_pool_size config)) as [p1 Hp1]; [lia|].
  destruct (buffer_pool_ok (ssc_write_buffer_pool_size config)) as [p2 Hp2]; [lia|].
  revert m. induction ids as [|id ids IH]; intros m; [by exists m|]. cbn [initialize_streams].
  rw /SocketInitializer_Initialize /willing. cbn [su_socket su_registered su_bound negb].
  rw (proj2 (Z.eqb_neq _ _)); [lia|]. pose proof (Z.mod_pos_bound id (ssc_worker_count config) Hw).
  rw (proj2 (Z.leb_gt _ _)); [lia|]. rw andb_false_r Hp1 Hp2. cbn [mbind result_bind]. apply IH.
Qed.

Lemma create_ports_ok n i : create_ports n i (λ _, true) = (true, i + Z.of_nat n).
Proof. revert i. induction n as [|n IH]; intros i; cbn [create_ports]; [by rw Z.add_0_r|]. rw IH. f_equal. lia. Qed.

Lemma SetSocketOptions_granted options : SetSocketOptions (λ _ _, 0) options = 0.
Proof. rw /SetSocketOptions. induction options as [|[n x] options IH]; [done|exact IH]. Qed.

(** A server of such a configuration starts when the operating system grants
    what it asks for. *)
Lemma transport_starts config options : config_ok config → startable config = true →
  ∃ v1 v, IocpSocketServer_Initialize config (λ _, true) willing new_IocpSocketServer = Ok (true, v1, []) ∧
    InitializeAcceptor options willing_acceptor willing v1 = Ok (true, v, []).
Proof.
  intros Hok Hs. pose proof Hok as [C1 C2 C3 C4 C5 C6]. pose proof Hs as Hs'.
  rw /startable !andb_true_iff !Z.ltb_lt !Z.leb_le !Z.eqb_eq in Hs'. destruct Hs' as [[[[[[H1 H2] H3] H4] H5] H6] H7].
  assert (HS : CONNECTOR_SOCKET_START_ID = 2147483647) by reflexivity.
  set (v0 := mkIocpSocketServer config true None None (ssc_worker_count config) false false ∅ ∅ 0).
  assert (Hpool : ∀ n start, 0 < n < 2 ^ 31 → 0 ≤ start < 2 ^ 32 → ∃ p, new_ObjectPool n n start = Ok p).
  { intros n start Hn Hst. eexists. by rw new_ObjectPool_spec; [lia..|]. }
  destruct (Hpool (ssc_max_connectable_socket_count config) CONNECTOR_SOCKET_START_ID C1) as [p2 Hp2]; [lia|].
  destruct (initialize_streams_ok config (seqZ CONNECTOR_SOCKET_START_ID (ssc_max_connectable_socket_count config)) ∅ Hok Hs) as [m2 Hm2].
  set (v1 := sk_set_streams m2 (sk_set_connector_pool (Some p2) v0)).
  destruct (Hpool (ssc_max_acceptable_socket_count config) 1) as [p1 Hp1]; [lia..|].
  destruct (initialize_streams_ok config (seqZ 1 (ssc_max_acceptable_socket_count config)) m2 Hok Hs) as [m1 Hm1].
  exists v1, (set_has_acceptor (sk_set_streams m1 (sk_set_acceptor_pool (Some p1) v1))). split.
  - rw /IocpSocketServer_Initialize /mbind /act_mbind /act_bind /get_state /modify /lift. cbn -[new_SocketObjectPool Z.modulo create_ports].
    rw (proj2 (Z.eqb_neq (ssc_read_buffer_capacity config) 0)); [lia|]. rw (proj2 (Z.eqb_neq (ssc_write_buffer_capacity config) 0)); [lia|].
    rw H2 H4. cbn -[new_SocketObjectPool create_ports]. rw (proj2 (Z.ltb_ge _ 4)); [lia|]. rw (proj2 (Z.ltb_ge _ 4)); [lia|].
    cbn -[new_SocketObjectPool create_ports]. rw create_ports_ok Z2Nat.id; [lia|]. cbn -[new_SocketObjectPool].
    rw /new_SocketObjectPool Hp2. cbn. by rw Hm2.
  - rw /InitializeAcceptor /mbind /act_mbind /act_bind /get_state /modify /lift. cbn -[new_SocketObjectPool].
    rw /new_SocketObjectPool /= Hp1. cbn -[SetSocketOptions]. rw Hm1. cbn -[SetSocketOptions].
    by rw (SetSocketOptions_granted options).
Qed.

(** ** Runs *)

(** The states a server reaches, with the calls that began and ended
    connections so far. *)
Inductive io_reachable (config : SocketServerConfig) : io_ghost → IocpSocketServer → list (Z * bool) → Prop :=
| io_start v : config_ok config → started config v → io_reachable config no_ghost v []
| io_step g v trace ev v' o :
    io_reachable config g v trace → within_limits v → enabled g v ev → run_io_event ev v = Ok ((), v', o) →
    io_reachable config (after_event ev v' o g) v' (trace ++ notices o).

Definition apply_notice (opened : gset Z) (n : Z * bool) : gset Z :=
  if n.2 then {[n.1]} ∪ opened else opened ∖ {[n.1]}.

Lemma after_event_open ev v' o g : g_open (after_event ev v' o g) = foldl apply_notice (g_open g) (notices o).
Proof.
  rw /after_event. assert (Hc : g_open (consume ev g) = g_open g) by (by destruct ev).
  rw -Hc. generalize (consume ev g) as g0. induction o as [|x o IH]; intros g0; [done|]. cbn [foldl].
  rw IH. destruct x as [c|c|c|c n|c n k|c|s|[s|] a|s c a|s c a|s a|w]; try done. cbn. by case_decide.
Qed.

Lemma after_event_popped ev v' o g : g_popped (after_event ev v' o g) = g_popped g.
Proof.
  rw /after_event. assert (Hc : g_popped (consume ev g) = g_popped g) by (by destruct ev).
  rw -Hc. generalize (consume ev g) as g0. induction o as [|x o IH]; intros g0; [done|]. cbn [foldl].
  rw IH. destruct x as [c|c|c|c n|c n k|c|s|[s|] a|s c a|s c a|s a|w]; try done. cbn. by case_decide.
Qed.

Lemma reachable_io_inv config g v trace : io_reachable config g v trace → io_inv g v ∧ g_popped g = ∅.
Proof.
  induction 1 as [v Hok Hs|g v trace ev v' o _ [Hi Hp] Hw Hen Hrun]; [split; [by apply (started_inv config)|done]|].
  destruct (event_runs g v ev Hi Hp Hw Hen) as (v2&o2&Hrun2&Hi2&_). rw Hrun in Hrun2. injection Hrun2 as <- <-.
  split; [done|]. by rw after_event_popped.
Qed.


(** ** Connections begin and end in turn *)

Fixpoint alternates (b : bool) (l : list bool) : Prop :=
  match l with
  | [] => True
  | x :: l => x = b ∧ alternates (negb b) l
  end.

(** What has to come next. *)
Definition expected (b : bool) (l : list bool) : bool := foldl (λ _ x, negb x) b l.

Lemma alternates_snoc b l x : alternates b l → x = expected b l → alternates b (l ++ [x]).
Proof.
  revert b. induction l as [|y l IH]; intros b; cbn; [done|]. intros [-> Hl] Hx. split; [done|]. by apply IH.
Qed.

Definition history (s : Z) (trace : list (Z * bool)) : list bool := snd <$> filter (λ n, n.1 = s) trace.

(** C15: For every stream the calls of the event handler alternate: [OnAccept] or
    [OnConnect] first, then [OnDisconnect], and so on; no connection is announced
    twice, none ends that was not announced. *)
Theorem connections_alternate config g v trace s :
  io_reachable config g v trace → alternates true (history s trace).
Proof.
  intros Hreach. assert (Hall : alternates true (history s trace) ∧ (s ∈ g_open g ↔ expected true (history s trace) = false));
    [|by destruct Hall].
  induction Hreach as [v Hok Hs|g v trace ev v' o Hreach [Ha Ho] Hw Hen Hrun]; [split; [done|cbn; set_solver]|].
  destruct (reachable_io_inv config g v trace Hreach) as [Hi Hp].
  destruct (event_runs g v ev Hi Hp Hw Hen) as (v2&o2&Hrun2&_&Hno). rw Hrun in Hrun2. injection Hrun2 as <- <-.
  rw after_event_open. destruct Hno as [->|(s'&b&->&Hb)]; [by rw app_nil_r|].
  rw /history filter_app fmap_app. fold (history s trace). destruct (decide (s' = s)) as [->|Hne].
  - rw filter_cons_True; [done|]. cbn [filter list_filter fmap list_fmap snd foldl].
    assert (He : b = expected true (history s trace)).
    { destruct b, (expected true (history s trace)); naive_solver. }
    split; [by apply alternates_snoc|]. rw /expected foldl_app /=. rw /apply_notice /=. destruct b; set_solver.
  - rw filter_cons_False; [cbn; congruence|]. rw app_nil_r. split; [done|]. rw -Ho /apply_notice /=. destruct b; set_solver.
Qed.

(** ** What the operating system may refuse *)

(** [TransmitAccept] puts the [BOOL] of [AcceptEx] through [WSAOperationResult],
    which looks for [SOCKET_ERROR].  A refused [AcceptEx] therefore counts as one
    that waits: the stream leaves its pool with a reference that no completion
    will ever drop, and [AcceptSocket] reports success, so nothing is retried. *)
Theorem refused_accept_lost config g v trace p s l answer :
  io_reachable config g v trace → sk_acceptor_socket_pool v = Some p → op_pool p = s :: l → buffers_ready v →
  an_result answer = 0 → an_last_error answer ≠ WSA_IO_PENDING →
  ∃ c v' t, AcceptSocket no_setup answer v = Ok (true, v', [AcceptEx c]) ∧
    AcceptSocket no_setup (mkAnswer 0 WSA_IO_PENDING) v = Ok (true, v', [AcceptEx c]) ∧
    ptr_stream c = s ∧ sk_streams v' !! s = Some t ∧ st_count t = 1 ∧
    ∃ p', socket_pool (from_connector_pool s) v' = Some p' ∧ s ∉ op_pool p'.
Proof.
  intros Hreach Hpool Hl Hr Hans _. destruct (reachable_io_inv config g v trace Hreach) as [Hi Hp].
  destruct (pop_socket_run g v false false no_setup p s l Hi Hpool Hl) as (v0&t&Hpop&Hi0&_&Hst&Ht&Hc0&_).
  rw Hp union_empty_r_L in Hi0.
  destruct (open_operation_run _ v0 s t false Io_Accept 0 Hi0) as
    (c&v1&t1&y&v2&t2&Hrun&Hy&Hcs&Hbeg&Hi2&_&Hc1&_&_&Hay&Hst2&_).
  { cbn. set_solver. }
  { by rw Hst. }
  { exact (Hr _ _ false Ht Hc0). }
  assert (Hgo : ∀ a, is_BOOL a → AcceptSocket no_setup a v = Ok (true, v2, [AcceptEx c])).
  { intros a Ha. rw /AcceptSocket (bind_ok _ _ _ _ _ Hpop).
    apply (bind_out _ _ v0 true v2 [AcceptEx c] true v2 []); [|done].
    rw /TransmitAccept (bind_ok _ _ _ _ _ Hrun) (bind_ok _ _ _ _ _ (get_context_run c y v1 Hy)) Hay
      (bind_ok _ _ _ _ _ Hbeg). by rw (BOOL_accepted _ Ha). }
  assert (Ht2 : sk_streams v2 !! s = Some t2) by (by rw Hst2 lookup_insert_eq).
  destruct (ii_pooled _ _ Hi2 s t2 Ht2) as [(p'&Hp'&Hin&Hfree)].
  exists c, v2, t2. split_and!; [apply Hgo; by left|apply Hgo; by left|done..|].
  exists p'. split; [done|]. rw Hfree Hin Hc1. intros Hn. apply Hn. by left.
Qed.

(** When [DisconnectEx] is refused, the connection's reference stays: nothing
    is under way any more, the stream counts as disconnected, and every later
    [TransmitDisconnect] does nothing, so [OnDisconnect] is never called. *)
Theorem refused_disconnect_leaks config g v trace s t attachment :
  io_reachable config g v trace → within_limits v → s ∈ g_open g → sk_streams v !! s = Some t → st_connected t = true →
  ∃ v', TransmitDisconnect s attachment false v = Ok ((), v', []) ∧ io_inv g v' ∧
    ∀ attachment' accepted, TransmitDisconnect s attachment' accepted v' = Ok ((), v', []).
Proof.
  intros Hreach Hw Ho Ht Hcon. destruct (reachable_io_inv config g v trace Hreach) as [Hi Hp].
  destruct (touchable_facts g v s Hi (or_introl Ho)) as (t'&Ht'&Hset&Hc). rw Ht in Ht'. injection Ht' as <-.
  destruct (Hw s t Ht) as [Hb Hseq].
  destruct (TransmitDisconnect_run g v s t attachment false Hi Hp Ht Hset) as (v'&o&Hrun&Hi'&_&_&_&Hno&t'&Ht'&Hcf); [lia|done|].
  specialize (Hno eq_refl). subst o.
  exists v'. split_and!; [done|exact (Hi' ∅)|]. intros a acc. rw /TransmitDisconnect (bind_ok _ _ v' false v'); [|done].
  rw /SetConnectionStatus (bind_ok _ _ _ _ _ (get_stream_run s t' v' Ht')) Hcf. done.
Qed.

(** [Connect] allocates a stream from the heap when its stock is used up.  When
    the last reference to such a stream goes, it is deleted with its buffer
    pools, and [IoMain] then gives the buffer back to the deleted pool: here
    after an attempt to connect that failed. *)
Theorem late_stream_dangles v c x s t p bytes accepted :
  sk_contexts v !! c = Some x → io_operation x = Io_Connect → io_operation_stream x = Some s → ptr_stream c = s →
  sk_streams v !! s = Some t → st_count t = 1 → sk_connector_socket_pool v = Some p → from_connector_pool s = true →
  s ∈ op_in_used p → s ∈ op_heap p →
  IoMain_iteration c Io_Completed bytes false accepted v = Err (UndefinedBehaviour "stream").
Proof.
  intros Hx Hop Hs Hcs Ht Hc Hp Hb Hu Hh.
  assert (Hpush : ∃ v', release_reference s v = Ok ((), v', []) ∧ sk_streams v' !! s = None).
  { set (v1 := upd_stream s (st_set_count 0 t) v).
    set (q := mkObjectPool (op_pool p) (op_object_sequence p) (op_in_used p ∖ {[s]}) (op_heap p ∖ {[s]})).
    set (v2 := set_socket_pool true q v1). exists (sk_set_streams (delete s (sk_streams v2)) v2). split.
    - rw /release_reference (bind_ok _ _ v 0 v1).
      { rw /stream_Release (bind_ok _ _ _ _ _ (get_stream_run s t v Ht)) Hc. done. }
      cbn [Z.eqb]. rw /SocketObjectDeleter /push_socket (bind_ok get_state _ v1 v1 v1); [done|]. rw Hb. cbn [socket_pool].
      rw (_ : sk_connector_socket_pool v1 = Some p); [done|].
      rw (bind_ok (lift (from_option_ub _ (Some p))) _ v1 p v1); [done|].
      rw (bind_ok (lift (Push s p)) _ v1 q v1).
      { by rw /lift /Push (bool_decide_eq_true_2 _ Hu) (bool_decide_eq_true_2 _ Hh). }
      rw (bind_ok _ _ v1 () v2); [done|]. by rw (bool_decide_eq_true_2 _ Hh).
    - cbn. by rw lookup_delete_eq. }
  destruct Hpush as (v'&Hrel&Hgone).
  rw /IoMain_iteration (bind_ok _ _ _ _ _ (get_context_run c x v Hx)) Hop /mbind /act_mbind {1}/act_bind.
  rw /IoConnect (bind_ok _ _ _ _ _ (get_context_run c x v Hx)) Hs (bind_ok _ _ v s v); [done|]. cbn [negb emit].
  rw {1}/act_bind /operation_stream_Release (bind_ok _ _ _ _ _ (get_context_run c x v Hx)) Hs (bind_ok _ _ _ _ _ Hrel).
  rw put_context_run /push_buffer /get_stream /mbind /act_mbind /act_bind /get_state upd_context_streams Hcs Hgone. done.
Qed.

(** ** Options *)

Lemma SetSocketOptions_sum setsockopt options :
  (∀ n x, setsockopt n x = 0 ∨ setsockopt n x = SOCKET_ERROR) → Z.of_nat (length options) < 2 ^ 31 →
  SetSocketOptions setsockopt options =
    - Z.of_nat (length (filter (λ o, setsockopt o.1 o.2 = SOCKET_ERROR) options)).
Proof.
  intros Hs Hl. rw /SetSocketOptions.
  assert (Hgen : ∀ r, - (2 ^ 31 - Z.of_nat (length options)) ≤ r ≤ 0 →
    foldl (λ result option, to_i32 (result + setsockopt option.1 option.2)) r options =
    r - Z.of_nat (length (filter (λ o, setsockopt o.1 o.2 = SOCKET_ERROR) options))); [|rw Hgen; lia].
  clear Hl. induction options as [|[n x] options IH]; intros r Hr; cbn [foldl]; [cbn; lia|].
  cbn [length] in Hr. destruct (Hs n x) as [H0|H1].
  - rw filter_cons_False; [cbn; rw H0 /SOCKET_ERROR; lia|]. cbn [fst snd]. rw H0 Z.add_0_r to_i32_small; [lia|].
    apply IH. lia.
  - rw filter_cons_True; [done|]. cbn [fst snd length]. rw H1 to_i32_small; [rw /SOCKET_ERROR; lia|].
    rw IH; [rw /SOCKET_ERROR; lia|]. set (k := length (filter _ _)). rw /SOCKET_ERROR. lia.
Qed.

(** The sum is negative exactly when an option was refused. *)
Lemma SetSocketOptions_refused setsockopt options :
  (∀ n x, setsockopt n x = 0 ∨ setsockopt n x = SOCKET_ERROR) → Z.of_nat (length options) < 2 ^ 31 →
  (SetSocketOptions setsockopt options <? 0) = true ↔ ∃ n x, (n, x) ∈ options ∧ setsockopt n x = SOCKET_ERROR.
Proof.
  intros Hs Hl. rw Z.ltb_lt SetSocketOptions_sum; [done..|].
  set (l := filter _ options). assert (Hin : ∀ o, o ∈ l ↔ setsockopt o.1 o.2 = SOCKET_ERROR ∧ o ∈ options)
    by (intros o; exact (list_elem_of_filter (λ o : Z * Z, setsockopt o.1 o.2 = SOCKET_ERROR) options o)).
  split.
  - intros Hneg. destruct l as [|[n x] l']; [cbn in Hneg; lia|]. exists n, x. destruct (proj1 (Hin (n, x))); [by left|]. done.
  - intros (n&x&Ho&He). destruct l as [|o l']; [|cbn; lia]. exfalso. assert (Hn : (n, x) ∈ ([] : list (Z * Z))) by (by apply Hin).
    by apply elem_of_nil in Hn.
Qed.

(** ** Shutting down *)

(** Without an acceptor there is no acceptor thread, and a graceful [Shutdown]
    throws after it has waited for the I/O threads. *)
Lemma connector_only_shutdown_throws v n :
  IocpSocketServer_Shutdown true (mkServerThreads n false true) v = Err (Exception "std::system_error").
Proof. done. Qed.

(** The acceptor thread does not list the error of a closed port: it fails its
    assertion when [Shutdown] closes the port. *)
Lemma closed_acceptor_faults v setup retried accepted :
  sk_hang_acceptor_count v = 0 →
  AcceptorMain_iteration setup Acceptor_OtherError retried accepted v = Err (AssertionFailed "false").
Proof. intros Hh. by rw /AcceptorMain_iteration /get_state /mbind /act_mbind /act_bind Hh. Qed.
