(* ===== verification/NetworkEngine.v ===== *)
(** * Network engine

    [common/engine/NetworkEngine.cpp] with the objects it works on: the session
    ([Session.h], [SocketSession.h]), the worker tables and connectors
    ([SocketWorkerInfo.h]), contexts ([NetworkContext.h], [SocketContext.h]) and
    the dispatch of contexts to the game thread ([NetworkEngineWorker.h]).  The
    engine's state holds every session and stream by its id; what it asks of the
    socket layer are outputs.  The clock and the random keys are the parameters
    [clock] and [random_key], indexed by the number of readings. *)

From S2P Require Import Prelude.
From S2P Require Import Coordinate.
From S2P Require Import SectorGrid.
From S2P Require Import Fixture.
From S2P Require Import Packet.
From S2P Require Import Protocol.
From S2P Require Import Concurrent.

Open Scope Z_scope.

(** ** Data *)

Inductive SessionState : Type := Opened | Abandoned | Wait | Closed.
#[export] Instance SessionState_eq_dec : EqDecision SessionState.
Proof. solve_decision. Defined.

Inductive ContextType : Type :=
| SessionAccepted | SessionConnected | SessionAbandoned | SessionAlived | SessionClosed | SessionData | SessionError.
#[export] Instance ContextType_eq_dec : EqDecision ContextType.
Proof. solve_decision. Defined.

Inductive StreamType : Type := Connector | Acceptor.
#[export] Instance StreamType_eq_dec : EqDecision StreamType.
Proof. solve_decision. Defined.

Definition SessionKeySize : nat := 64.
Definition SessionKey : Type := list Z.
Definition SessionKey_Empty : SessionKey := replicate SessionKeySize 0.

Definition GRACEFUL_SHUTDOWN_CODE : Z := 1.

(** [Session] with the members [SocketSession] adds.  A stream is named by its
    id. *)
Record SocketSession : Type := mkSocketSession {
  ss_session_state : SessionState;
  ss_initialized : bool;
  ss_ping : Z;
  ss_last_heartbeat_receiving_time : Z;
  ss_last_heartbeat_sending_time : Z;
  ss_abandoned_time : Z;
  ss_session_key : SessionKey;
  ss_user_data : gmap Z Z;
  ss_session_id : Z;
  ss_socket_stream : option Z;
}.

Section session.
Implicit Types s : SocketSession.

Definition Session_Initialize (session_id : Z) s : result SocketSession :=
if ss_initialized s then Err (Exception "double initialized")
else Ok (mkSocketSession (ss_session_state s) true (ss_ping s) (ss_last_heartbeat_receiving_time s)
           (ss_last_heartbeat_sending_time s) (ss_abandoned_time s) (ss_session_key s) (ss_user_data s)
           session_id (ss_socket_stream s)).

(** [compare_exchange_strong] *)
Definition ChangeSessionState (expected desired : SessionState) s : bool * SocketSession :=
if decide (ss_session_state s = expected) then
  (true, mkSocketSession desired (ss_initialized s) (ss_ping s) (ss_last_heartbeat_receiving_time s)
           (ss_last_heartbeat_sending_time s) (ss_abandoned_time s) (ss_session_key s) (ss_user_data s)
           (ss_session_id s) (ss_socket_stream s))
else (false, s).

Definition UpdateHeartbeatSendingTime (t : Z) s : SocketSession :=
mkSocketSession (ss_session_state s) (ss_initialized s) (ss_ping s) (ss_last_heartbeat_receiving_time s)
  t (ss_abandoned_time s) (ss_session_key s) (ss_user_data s) (ss_session_id s) (ss_socket_stream s).

(** Dividing a duration truncates. *)
Definition UpdateHeartbeatReceivingTime (t : Z) s : SocketSession :=
mkSocketSession (ss_session_state s) (ss_initialized s)
  (u16 (Z.quot (t - ss_last_heartbeat_sending_time s) 2)) t
  (ss_last_heartbeat_sending_time s) (ss_abandoned_time s) (ss_session_key s) (ss_user_data s)
  (ss_session_id s) (ss_socket_stream s).

Definition UpdateAbandonedTime (t : Z) s : SocketSession :=
mkSocketSession (ss_session_state s) (ss_initialized s) (ss_ping s) (ss_last_heartbeat_receiving_time s)
  (ss_last_heartbeat_sending_time s) t (ss_session_key s) (ss_user_data s) (ss_session_id s) (ss_socket_stream s).

Definition ResetSessionKey (key : SessionKey) s : SocketSession :=
mkSocketSession (ss_session_state s) (ss_initialized s) (ss_ping s) (ss_last_heartbeat_receiving_time s)
  (ss_last_heartbeat_sending_time s) (ss_abandoned_time s) key (ss_user_data s) (ss_session_id s) (ss_socket_stream s).

Definition Session_ResetUserData s : SocketSession :=
mkSocketSession (ss_session_state s) (ss_initialized s) (ss_ping s) (ss_last_heartbeat_receiving_time s)
  (ss_last_heartbeat_sending_time s) (ss_abandoned_time s) (ss_session_key s) ∅ (ss_session_id s) (ss_socket_stream s).

Definition ResetSocketStream (stream : option Z) s : SocketSession :=
mkSocketSession (ss_session_state s) (ss_initialized s) (ss_ping s) (ss_last_heartbeat_receiving_time s)
  (ss_last_heartbeat_sending_time s) (ss_abandoned_time s) (ss_session_key s) (ss_user_data s) (ss_session_id s) stream.
End session.

(** The user data of a stream; the members the code never reads are left out. *)
Record SocketStreamExtension : Type := mkSocketStreamExtension {
  ext_session : option Z;
  ext_connector_id : Z;
  ext_connection_created_time : Z;
  ext_ping_ms : Z;
  ext_stream_type : StreamType;
}.

(** What the engine sees of a stream: its worker, its user data and how many
    buffers its two pools have left. *)
Record TransferStream : Type := mkTransferStream {
  ts_worker_index : Z;
  ts_user_data : option SocketStreamExtension;
  ts_read_pool : Z;
  ts_write_pool : Z;
}.

(** A buffer with the stream whose pool it belongs to, and whether the pool had
    to allocate it from the heap. *)
Record SocketBuffer : Type := mkSocketBuffer {
  sbf_data : DynamicBuffer;
  sbf_stream : Z;
  sbf_heap : bool;
}.

Definition set_data (d : DynamicBuffer) (b : SocketBuffer) : SocketBuffer :=
  mkSocketBuffer d (sbf_stream b) (sbf_heap b).

Record SocketContext : Type := mkSocketContext {
  ctx_context_type : ContextType;
  ctx_header : PacketHeader;
  ctx_session : Z;
  ctx_attachment : Z;
  ctx_cursor : DynamicBufferCursor;
}.

(** The contexts of one buffer, linked by [next]; each holds a reference to the
    buffer. *)
Record context_chain : Type := mkChain { chain_buffer : SocketBuffer; chain_contexts : list SocketContext }.

Record ConnectorInfo : Type := mkConnectorInfo {
  cn_connector_id : Z;
  cn_stream : option Z;
  cn_remote_address : SocketAddress;
  cn_attachment : Z;
  cn_session_id : Z;
  cn_session_key : SessionKey;
}.

Definition new_ConnectorInfo : ConnectorInfo :=
  mkConnectorInfo 0 None (mkSocketAddress EmptyString 0) 0 0 SessionKey_Empty.

(** Maps from an id to the object with that id are sets of ids; the member
    [_connector_list] of [SocketWorkerInfo] is never used. *)
Record SocketWorkerInfo : Type := mkSocketWorkerInfo {
  wi_activated_sockets : gset Z;
  wi_opened_sessions : gset Z;
  wi_abandoned_sessions : gset Z;
}.

Record NetworkEngine : Type := mkNetworkEngine {
  ne_session_pool : list Z;
  ne_worker_infos : list SocketWorkerInfo;
  ne_abandoned_session_list : gmap Z Z;
  ne_connector_list : gmap Z ConnectorInfo;
  ne_current_connector_id : Z;
  ne_option : NetworkEngineOption;
  ne_sessions : gmap Z SocketSession;
  ne_streams : gmap Z TransferStream;
  ne_worker_queue : list context_chain;
  ne_read_buffer_capacity : Z;
  ne_write_buffer_capacity : Z;
  ne_clock_readings : Z;
  ne_key_readings : Z;
}.

Inductive engine_out : Type :=
| TransmitRead (stream : Z) (buffer : SocketBuffer) (attachment : Z)
| TransmitWrite (stream : Z) (buffer : SocketBuffer)
| TransmitDisconnect (stream attachment : Z)
| SocketServer_Connect (address : SocketAddress) (attachment : Z)
| DeleteAttachment (attachment : Z)
| WorkerStart (tick_ms : Z)
| OnSocketSession (context : SocketContext).

Section setters.
Implicit Types e : NetworkEngine.

Definition set_session_pool v e := mkNetworkEngine v (ne_worker_infos e) (ne_abandoned_session_list e)
(ne_connector_list e) (ne_current_connector_id e) (ne_option e) (ne_sessions e) (ne_streams e) (ne_worker_queue e)
(ne_read_buffer_capacity e) (ne_write_buffer_capacity e) (ne_clock_readings e) (ne_key_readings e).
Definition set_worker_infos v e := mkNetworkEngine (ne_session_pool e) v (ne_abandoned_session_list e)
(ne_connector_list e) (ne_current_connector_id e) (ne_option e) (ne_sessions e) (ne_streams e) (ne_worker_queue e)
(ne_read_buffer_capacity e) (ne_write_buffer_capacity e) (ne_clock_readings e) (ne_key_readings e).
Definition set_abandoned_session_list v e := mkNetworkEngine (ne_session_pool e) (ne_worker_infos e) v
(ne_connector_list e) (ne_current_connector_id e) (ne_option e) (ne_sessions e) (ne_streams e) (ne_worker_queue e)
(ne_read_buffer_capacity e) (ne_write_buffer_capacity e) (ne_clock_readings e) (ne_key_readings e).
Definition set_connector_list v e := mkNetworkEngine (ne_session_pool e) (ne_worker_infos e)
(ne_abandoned_session_list e) v (ne_current_connector_id e) (ne_option e) (ne_sessions e) (ne_streams e)
(ne_worker_queue e) (ne_read_buffer_capacity e) (ne_write_buffer_capacity e) (ne_clock_readings e) (ne_key_readings e).
Definition set_current_connector_id v e := mkNetworkEngine (ne_session_pool e) (ne_worker_infos e)
(ne_abandoned_session_list e) (ne_connector_list e) v (ne_option e) (ne_sessions e) (ne_streams e)
(ne_worker_queue e) (ne_read_buffer_capacity e) (ne_write_buffer_capacity e) (ne_clock_readings e) (ne_key_readings e).
Definition set_sessions v e := mkNetworkEngine (ne_session_pool e) (ne_worker_infos e) (ne_abandoned_session_list e)
(ne_connector_list e) (ne_current_connector_id e) (ne_option e) v (ne_streams e) (ne_worker_queue e)
(ne_read_buffer_capacity e) (ne_write_buffer_capacity e) (ne_clock_readings e) (ne_key_readings e).
Definition set_streams v e := mkNetworkEngine (ne_session_pool e) (ne_worker_infos e) (ne_abandoned_session_list e)
(ne_connector_list e) (ne_current_connector_id e) (ne_option e) (ne_sessions e) v (ne_worker_queue e)
(ne_read_buffer_capacity e) (ne_write_buffer_capacity e) (ne_clock_readings e) (ne_key_readings e).
Definition set_worker_queue v e := mkNetworkEngine (ne_session_pool e) (ne_worker_infos e)
(ne_abandoned_session_list e) (ne_connector_list e) (ne_current_connector_id e) (ne_option e) (ne_sessions e)
(ne_streams e) v (ne_read_buffer_capacity e) (ne_write_buffer_capacity e) (ne_clock_readings e) (ne_key_readings e).
Definition set_clock_readings v e := mkNetworkEngine (ne_session_pool e) (ne_worker_infos e)
(ne_abandoned_session_list e) (ne_connector_list e) (ne_current_connector_id e) (ne_option e) (ne_sessions e)
(ne_streams e) (ne_worker_queue e) (ne_read_buffer_capacity e) (ne_write_buffer_capacity e) v (ne_key_readings e).
Definition set_key_readings v e := mkNetworkEngine (ne_session_pool e) (ne_worker_infos e)
(ne_abandoned_session_list e) (ne_connector_list e) (ne_current_connector_id e) (ne_option e) (ne_sessions e)
(ne_streams e) (ne_worker_queue e) (ne_read_buffer_capacity e) (ne_write_buffer_capacity e) (ne_clock_readings e) v.
End setters.

Definition ts_set_user_data v (t : TransferStream) := mkTransferStream (ts_worker_index t) v (ts_read_pool t) (ts_write_pool t).
Definition ts_set_read_pool v (t : TransferStream) := mkTransferStream (ts_worker_index t) (ts_user_data t) v (ts_write_pool t).
Definition ts_set_write_pool v (t : TransferStream) := mkTransferStream (ts_worker_index t) (ts_user_data t) (ts_read_pool t) v.

Definition ext_set_session v (x : SocketStreamExtension) := mkSocketStreamExtension v (ext_connector_id x)
  (ext_connection_created_time x) (ext_ping_ms x) (ext_stream_type x).
Definition ext_set_connector_id v (x : SocketStreamExtension) := mkSocketStreamExtension (ext_session x) v
  (ext_connection_created_time x) (ext_ping_ms x) (ext_stream_type x).

Section engine.
Context {C : Type} `{IterOrder} `{Indeterminate C} `{StructPack C}.
Variable clock : Z → Z.
Variable random_key : Z → SessionKey.

Notation M := (Act NetworkEngine engine_out).
Notation Packet := (Packet C).

(** ** Clock and keys *)

(** [utility::CurrentTick()], in nanoseconds. *)
Definition CurrentTick : M Z := λ e,
Ok (clock (ne_clock_readings e), set_clock_readings (ne_clock_readings e + 1) e, []).

(** [CurrentTick<Milliseconds>()] *)
Definition CurrentTick_ms : M Z := t ← CurrentTick; mret (Z.quot t 1000000).

Definition new_SessionKey : M SessionKey := λ e,
Ok (random_key (ne_key_readings e), set_key_readings (ne_key_readings e + 1) e, []).

(** ** Reaching sessions and streams through their pointers *)

Definition get_stream (stream : Z) : M TransferStream :=
e ← get_state; lift (from_option_ub "stream" (ne_streams e !! stream)).

Definition update_stream (stream : Z) (f : TransferStream → TransferStream) : M () :=
modify (λ e, set_streams (alter f stream (ne_streams e)) e).

Definition get_session (session : Z) : M SocketSession :=
e ← get_state; lift (from_option_ub "session" (ne_sessions e !! session)).

Definition update_session (session : Z) (f : SocketSession → SocketSession) : M () :=
modify (λ e, set_sessions (alter f session (ne_sessions e)) e).

Definition change_state (session : Z) (expected desired : SessionState) : M bool :=
s ← get_session session;
let '(b, s') := ChangeSessionState expected desired s in
update_session session (λ _, s') ;; mret b.

(** [reinterpret_cast<SocketStreamExtension*>(stream->GetUserData())],
  dereferenced. *)
Definition get_extension (stream : Z) : M SocketStreamExtension :=
t ← get_stream stream; lift (from_option_ub "extension_info" (ts_user_data t)).

Definition update_extension (stream : Z) (f : SocketStreamExtension → SocketStreamExtension) : M () :=
update_stream stream (λ t, ts_set_user_data (f <$> ts_user_data t) t).

Definition GetWorkerInfo (worker_index : Z) : M SocketWorkerInfo :=
e ← get_state;
match arr_get (ne_worker_infos e) worker_index with
| Some info => mret info
| None => fail (AssertionFailed "worker_index < _worker_infos.size()")
end.

Definition update_worker (worker_index : Z) (f : SocketWorkerInfo → SocketWorkerInfo) : M () :=
modify (λ e, set_worker_infos (alter f (Z.to_nat worker_index) (ne_worker_infos e)) e).

Definition worker_of (stream : Z) : M Z :=
t ← get_stream stream; _ ← GetWorkerInfo (ts_worker_index t); mret (ts_worker_index t).

Definition with_activated (f : gset Z → gset Z) (w : SocketWorkerInfo) :=
mkSocketWorkerInfo (f (wi_activated_sockets w)) (wi_opened_sessions w) (wi_abandoned_sessions w).
Definition with_opened (f : gset Z → gset Z) (w : SocketWorkerInfo) :=
mkSocketWorkerInfo (wi_activated_sockets w) (f (wi_opened_sessions w)) (wi_abandoned_sessions w).
Definition with_abandoned (f : gset Z → gset Z) (w : SocketWorkerInfo) :=
mkSocketWorkerInfo (wi_activated_sockets w) (wi_opened_sessions w) (f (wi_abandoned_sessions w)).

(** ** Buffers of a stream *)

Definition AllocateReadBuffer (stream : Z) (must_allocation : bool) : M (option SocketBuffer) :=
t ← get_stream stream; e ← get_state;
let buffer := mkSocketBuffer (mkDynamicBuffer [] (ne_read_buffer_capacity e)) stream in
if 0 <? ts_read_pool t then
  update_stream stream (ts_set_read_pool (ts_read_pool t - 1)) ;; mret (Some (buffer false))
else mret (if must_allocation then Some (buffer true) else None).

Definition ReleaseReadBuffer (stream : Z) (buffer : SocketBuffer) : M () :=
t ← get_stream stream;
check "block->pool_address == this" (sbf_stream buffer =? stream) ;;
if sbf_heap buffer then mret () else update_stream stream (ts_set_read_pool (ts_read_pool t + 1)).

Definition AllocateWriteBuffer (stream : Z) (must_allocation : bool) : M (option SocketBuffer) :=
t ← get_stream stream; e ← get_state;
let buffer := mkSocketBuffer (mkDynamicBuffer [] (ne_write_buffer_capacity e)) stream in
if 0 <? ts_write_pool t then
  update_stream stream (ts_set_write_pool (ts_write_pool t - 1)) ;; mret (Some (buffer false))
else mret (if must_allocation then Some (buffer true) else None).

Definition ReleaseWriteBuffer (stream : Z) (buffer : SocketBuffer) : M () :=
t ← get_stream stream;
check "block->pool_address == this" (sbf_stream buffer =? stream) ;;
if sbf_heap buffer then mret () else update_stream stream (ts_set_write_pool (ts_write_pool t + 1)).

(** [SerializePacket] into a buffer whose result the caller ignores: a packet
  that does not fit leaves a length past the capacity, which the transmission
  then reads. *)
Definition serialize_into (packet : Packet) (error : ErrorCode) (buffer : SocketBuffer) : M SocketBuffer :=
match SerializePacket packet error (db_capacity (sbf_data buffer)) with
| (_, Some bytes) => mret (set_data (mkDynamicBuffer bytes (db_capacity (sbf_data buffer))) buffer)
| (_, None) => fail (UndefinedBehaviour "read past the buffer")
end.

(** [buffer = stream->AllocateWriteBuffer(must); SerializePacket(...);
  stream->TransmitWrite(buffer, 0, 0)] *)
Definition write_packet (stream : Z) (must_allocation : bool) (packet : Packet) (error : ErrorCode) : M () :=
b ← AllocateWriteBuffer stream must_allocation;
b ← lift (from_option_ub "buffer" b);
b ← serialize_into packet error b;
emit [TransmitWrite stream b].

(** ** SocketSession *)

Definition GetSocketStream (session : Z) : M Z :=
s ← get_session session;
check "state == Opened || state == Abandoned"
  (bool_decide (ss_session_state s = Opened) || bool_decide (ss_session_state s = Abandoned)) ;;
lift (from_option_ub "_socket_stream" (ss_socket_stream s)).

(** [Send] once it has a buffer. *)
Definition send_buffer (session : Z) (packet : Packet) (error : ErrorCode) (b : SocketBuffer) : M () :=
match SerializePacket packet error (db_capacity (sbf_data b)) with
| (_, None) => fail (AssertionFailed "false")
| (_, Some bytes) =>
    stream ← GetSocketStream session;
    emit [TransmitWrite stream (set_data (mkDynamicBuffer bytes (db_capacity (sbf_data b))) b)]
end.

(** [Send] with [must_send]. *)
Definition Send_must (session : Z) (packet : Packet) (error : ErrorCode) : M () :=
s ← get_session session;
stream ← lift (from_option_ub "_socket_stream" (ss_socket_stream s));
b ← AllocateWriteBuffer stream false;
b ← match b with Some _ => mret b | None => AllocateWriteBuffer stream true end;
b ← lift (from_option_ub "buffer" b);
send_buffer session packet error b.

Definition CloseSession (session : Z) : M () :=
Send_must session (pkt_session_close_rq (mk_session_close_rq 0)) ErrorCode_None ;;
stream ← GetSocketStream session;
emit [TransmitDisconnect stream GRACEFUL_SHUTDOWN_CODE].

(** [Send] without [must_send] closes the session when there is no buffer. *)
Definition Send (session : Z) (packet : Packet) (error : ErrorCode) : M () :=
s ← get_session session;
stream ← lift (from_option_ub "_socket_stream" (ss_socket_stream s));
b ← AllocateWriteBuffer stream false;
match b with
| None => CloseSession session
| Some b => send_buffer session packet error b
end.

(** [Send] of a filled buffer, with the assertion on the first frame. *)
Definition Send_raw (session : Z) (buffer : SocketBuffer) : M () :=
let cursor := Cursor_of (sbf_data buffer) in
if (length (db_bytes (sbf_data buffer)) <? 4)%nat then fail (UndefinedBehaviour "read past the buffer")
else
  let packet_length := le_value (take 4 (Data cursor)) in
  cursor ← lift (Seek PACKET_LENGTH_SIZE cursor);
  header ← lift (DeserializePacketHeader (Data cursor) (RemainBytes cursor));
  check "header.body_size + sizeof(PacketHeader) == packet_length"
    (hdr_body_size header + PACKET_HEADER_SIZE =? packet_length) ;;
  stream ← GetSocketStream session;
  emit [TransmitWrite stream buffer].

Definition Session_TryAllocateReadBuffer (session : Z) : M (option SocketBuffer) :=
stream ← GetSocketStream session;
b ← AllocateReadBuffer stream false;
match b with
| Some _ => mret b
| None =>
    Send_must session (pkt_bandwith_overflow_ps (mk_bandwith_overflow_ps 0)) ErrorCode_None ;;
    CloseSession session ;;
    mret None
end.

Definition Session_ReleaseReadBuffer (session : Z) (buffer : SocketBuffer) : M () :=
stream ← GetSocketStream session; ReleaseReadBuffer stream buffer.

Definition Session_TryAllocateWriteBuffer (session : Z) : M (option SocketBuffer) :=
stream ← GetSocketStream session;
b ← AllocateWriteBuffer stream false;
match b with
| Some _ => mret b
| None =>
    Send_must session (pkt_bandwith_overflow_ps (mk_bandwith_overflow_ps 0)) ErrorCode_None ;;
    CloseSession session ;;
    mret None
end.

Definition Session_ReleaseWriteBuffer (session : Z) (buffer : SocketBuffer) : M () :=
stream ← GetSocketStream session; ReleaseWriteBuffer stream buffer.

Definition Disconnect (session : Z) : M () :=
stream ← GetSocketStream session; emit [TransmitDisconnect stream 0].

(** ** Contexts *)

(** [sizeof(SocketContext)] and [sizeof(SocketBuffer::reserved)] on a 64-bit
  target. *)
Definition SIZEOF_SocketContext : Z := 64.
Definition SIZEOF_reserved : Z := 8192.

Definition PrepareSocketContext (cursor : DynamicBufferCursor) (context_type : ContextType) (header : PacketHeader)
  (session attachment context_sequence : Z) : option SocketContext :=
if SIZEOF_SocketContext * (context_sequence + 1) >? SIZEOF_reserved then None
else Some (mkSocketContext context_type header session attachment cursor).

(** [_worker->Submit(first_context)] *)
Definition Submit_chain (chain : context_chain) : M bool :=
e ← get_state;
if Z.of_nat (length (ne_worker_queue e)) <? BUFFER_SIZE
then modify (set_worker_queue (ne_worker_queue e ++ [chain])) ;; mret true
else mret false.

Definition server_is_busy : Packet := pkt_server_is_busy_ps (mk_server_is_busy_ps 0).

(** The buffer whose references are dropped at once is not in use by any other
  context here. *)
Definition SendSocketContext (buffer : SocketBuffer) (cursor : DynamicBufferCursor) (context_type : ContextType)
  (header : PacketHeader) (session attachment : Z) : M () :=
context ← lift (from_option_ub "context" (PrepareSocketContext cursor context_type header session attachment 0));
success ← Submit_chain (mkChain buffer [context]);
if (success : bool) then mret ()
else
  Session_ReleaseReadBuffer session buffer ;;
  Send_must session server_is_busy ErrorCode_None ;;
  CloseSession session.

(** ** Connectors *)

Definition RegisterConnectorSocket (remote_address : SocketAddress) (attachment : Z) : M Z :=
e ← get_state;
let connector_id := ne_current_connector_id e in
modify (set_current_connector_id (u64 (connector_id + 1))) ;;
modify (λ e, set_connector_list (cm_Insert connector_id
  (mkConnectorInfo connector_id None remote_address attachment 0 SessionKey_Empty) (ne_connector_list e)).2 e) ;;
emit [SocketServer_Connect remote_address connector_id] ;;
mret connector_id.

Definition UnregisterConnectorSocket (connector_id : Z) (delete_attachment : bool) : M () :=
e ← get_state;
let '(removed, connector_list) := cm_Remove connector_id (ne_connector_list e) in
match removed with
| None => mret ()
| Some connector_info =>
    modify (set_connector_list connector_list) ;;
    match cn_stream connector_info with
    | Some stream => emit [TransmitDisconnect stream GRACEFUL_SHUTDOWN_CODE]
    | None => mret ()
    end ;;
    if delete_attachment then emit [DeleteAttachment (cn_attachment connector_info)] else mret ()
end.

(** ** Accepting and connecting *)

Definition new_SocketStreamExtension : SocketStreamExtension := mkSocketStreamExtension None 0 0 100 Acceptor.

(** The extension of a stream is created once and reused when the pool hands
  the stream out again. *)
Definition prepare_extension (stream : Z) : M () :=
update_stream stream (λ t, ts_set_user_data (Some (default new_SocketStreamExtension (ts_user_data t))) t).

Definition start_reading (stream : Z) : M () :=
b ← AllocateReadBuffer stream false;
b ← lift (from_option_ub "read_buffer" b);
emit [TransmitRead stream b stream].

Definition OnAccept (stream : Z) : M () :=
w ← worker_of stream;
update_worker w (with_activated (λ s, {[stream]} ∪ s)) ;;
prepare_extension stream ;;
now ← CurrentTick;
update_extension stream (λ x, mkSocketStreamExtension None (ext_connector_id x) now 100 Acceptor) ;;
start_reading stream.

Definition session_create_rq : Packet := pkt_session_create_rq (mk_session_create_rq (ind_Z "packet._1")).

Definition OnConnect (stream : option Z) (attachment : Z) : M () :=
e ← get_state;
let connector := cm_TryGet attachment (ne_connector_list e) in
match stream with
| None =>
    match connector with
    | Some connector_info =>
        emit [SocketServer_Connect (cn_remote_address connector_info) (cn_connector_id connector_info)]
    | None => mret ()
    end
| Some stream =>
    w ← worker_of stream;
    update_worker w (with_activated (λ s, {[stream]} ∪ s)) ;;
    prepare_extension stream ;;
    match connector with
    | None => emit [TransmitDisconnect stream attachment]
    | Some info =>
        let info := mkConnectorInfo (cn_connector_id info) (Some stream) (cn_remote_address info)
                      (cn_attachment info) (cn_session_id info) (cn_session_key info) in
        modify (λ e, set_connector_list (cm_Insert (cn_connector_id info) info (ne_connector_list e)).2 e) ;;
        now ← CurrentTick;
        update_extension stream (λ x, mkSocketStreamExtension None attachment now 100 Connector) ;;
        write_packet stream false
          (if negb (cn_session_id info =? 0)
           then pkt_session_auth_rq (mk_session_auth_rq (cn_session_id info) (cn_session_key info))
           else session_create_rq) ErrorCode_None ;;
        start_reading stream
    end
end.

(** ** Session packets *)

Definition Pop_session : M (option Z) :=
e ← get_state;
match ne_session_pool e with
| [] => mret None
| session :: pool => modify (set_session_pool pool) ;; mret (Some session)
end.

Definition packet_is (header : PacketHeader) (t : PacketType) : bool := hdr_packet_type header =? PacketType_to_Z t.

(** The bytes [DeserializePacketBody(buffer.Data(), header.body_size, packet)]
  reads. *)
Definition body_of (header : PacketHeader) (cursor : DynamicBufferCursor) : list Z :=
take (Z.to_nat (hdr_body_size header)) (Data cursor).

Definition set_extension_session (stream : Z) (session : option Z) : M () :=
update_extension stream (ext_set_session session).

(** The end of [ProcessSessionPacket], after the [switch]. *)
Definition open_session (stream session : Z) : M () :=
w ← worker_of stream;
update_worker w (with_opened (λ s, {[session]} ∪ s)) ;;
t ← CurrentTick_ms; update_session session (UpdateHeartbeatSendingTime t) ;;
t ← CurrentTick_ms; update_session session (UpdateHeartbeatReceivingTime t) ;;
update_session session Session_ResetUserData.

Definition on_session_create_rq (stream : Z) (header : PacketHeader) (cursor : DynamicBufferCursor) : M ContextType :=
match DeserializePacketBody (C:=C) PacketType_session_create_rq (body_of header cursor) with
| Some (pkt_session_create_rq _) =>
    session ← Pop_session;
    set_extension_session stream session ;;
    match session with
    | None => mret SessionError
    | Some session =>
        change_state session Closed Opened ;;
        key ← new_SessionKey;
        update_session session (ResetSessionKey key) ;;
        update_session session (ResetSocketStream (Some stream)) ;;
        s ← get_session session;
        write_packet stream false
          (pkt_session_create_rs (mk_session_create_rs (ss_session_id s) (ss_session_key s))) ErrorCode_None ;;
        open_session stream session ;;
        mret SessionAccepted
    end
| _ => mret SessionError
end.

(** The session id and key kept for reconnecting go into the caller's copy of
  the connector. *)
Definition on_session_create_rs (stream : Z) (header : PacketHeader) (cursor : DynamicBufferCursor)
  (connector_info : ConnectorInfo) : M (ContextType * ConnectorInfo) :=
x ← get_extension stream;
if negb (bool_decide (ext_stream_type x = Connector)) then mret (SessionError, connector_info)
else
  match DeserializePacketBody (C:=C) PacketType_session_create_rs (body_of header cursor) with
  | Some (pkt_session_create_rs packet) =>
      e ← get_state;
      match cm_TryGet (ext_connector_id x) (ne_connector_list e) with
      | None => mret (SessionError, connector_info)
      | Some info =>
          session ← Pop_session;
          set_extension_session stream session ;;
          match session with
          | None => mret (SessionError, info)
          | Some session =>
              change_state session Closed Opened ;;
              update_session session (ResetSessionKey (scrs_session_key packet)) ;;
              update_session session (ResetSocketStream (Some stream)) ;;
              s ← get_session session;
              let info :=
                if neo_use_session_reconnect (ne_option e)
                then mkConnectorInfo (cn_connector_id info) (cn_stream info) (cn_remote_address info)
                       (cn_attachment info) (ss_session_id s) (ss_session_key s)
                else info in
              open_session stream session ;;
              mret (SessionConnected, info)
          end
      end
  | _ => mret (SessionError, connector_info)
  end.

(** The processors [RemoveIf] runs on the session it finds: the state is
  changed whatever the comparison of the keys says. *)
Definition state_to (expected desired : SessionState) (session : Z) (sessions : gmap Z SocketSession)
  : bool * gmap Z SocketSession :=
match sessions !! session with
| None => (false, sessions)
| Some s => let '(b, s') := ChangeSessionState expected desired s in (b, <[session := s']> sessions)
end.

Definition auth_processor (key : SessionKey) (session : Z) (sessions : gmap Z SocketSession)
  : bool * gmap Z SocketSession :=
let key_equal := match sessions !! session with Some s => bool_decide (ss_session_key s = key) | None => false end in
let '(state_valid, sessions) := state_to Wait Opened session sessions in
(key_equal && state_valid, sessions).

(** [_abandoned_session_list.RemoveIf(id, session, processor)] *)
Definition remove_abandoned_if (id : Z) (processor : Z → gmap Z SocketSession → bool * gmap Z SocketSession)
  : M (option Z) :=
e ← get_state;
let '(removed, l, sessions) := cm_RemoveIf id processor (ne_abandoned_session_list e) (ne_sessions e) in
modify (λ e, set_sessions sessions (set_abandoned_session_list l e)) ;;
mret removed.

Definition resume_session (stream session : Z) : M () :=
update_session session (ResetSocketStream (Some stream)) ;;
s ← get_session session;
w ← worker_of stream;
update_worker w (with_abandoned (λ l, l ∖ {[ss_session_id s]})) ;;
open_session stream session.

Definition on_session_auth_rq (stream : Z) (header : PacketHeader) (cursor : DynamicBufferCursor) : M ContextType :=
match DeserializePacketBody (C:=C) PacketType_session_auth_rq (body_of header cursor) with
| Some (pkt_session_auth_rq packet) =>
    e ← get_state;
    let key_equal :=
      match ne_abandoned_session_list e !! sarq_session_id packet ≫= (λ s, ne_sessions e !! s) with
      | Some s => bool_decide (ss_session_key s = sarq_session_key packet)
      | None => false
      end in
    removed ← remove_abandoned_if (sarq_session_id packet) (auth_processor (sarq_session_key packet));
    match removed with
    | None =>
        write_packet stream false
          (pkt_session_auth_rq (mk_session_auth_rq (ind_Z "response.session_id")
            (replicate SessionKeySize (ind_Z "response.session_key"))))
          (if key_equal then SessionIsNotReady else SessionAuthFailed) ;;
        mret SessionError
    | Some session =>
        set_extension_session stream (Some session) ;;
        resume_session stream session ;;
        mret SessionAlived
    end
| _ => mret SessionError
end.

(** The read buffer is overwritten with the request and handed to the socket
  layer for writing. *)
Definition overwrite_and_write (stream : Z) (packet : Packet) (buffer : SocketBuffer) : M SocketBuffer :=
b ← serialize_into packet ErrorCode_None buffer;
emit [TransmitWrite stream b] ;;
mret b.

Definition forget_session (info : ConnectorInfo) : ConnectorInfo :=
mkConnectorInfo (cn_connector_id info) (cn_stream info) (cn_remote_address info) (cn_attachment info) 0 SessionKey_Empty.

Definition on_session_auth_rs (stream : Z) (header : PacketHeader) (buffer : SocketBuffer)
  (cursor : DynamicBufferCursor) (connector_info : ConnectorInfo) : M (ContextType * ConnectorInfo * SocketBuffer) :=
x ← get_extension stream;
match DeserializePacketBody (C:=C) PacketType_session_auth_rs (body_of header cursor) with
| Some (pkt_session_auth_rs _) =>
    e ← get_state;
    match cm_TryGet (ext_connector_id x) (ne_connector_list e) with
    | None => mret (SessionError, connector_info, buffer)
    | Some info =>
        if negb (hdr_error_code header =? ErrorCode_to_Z ErrorCode_None) then
          if hdr_error_code header =? ErrorCode_to_Z SessionIsNotReady then
            b ← overwrite_and_write stream
                  (pkt_session_auth_rq (mk_session_auth_rq (cn_session_id info) (cn_session_key info))) buffer;
            mret (SessionError, info, b)
          else
            let '(removed, l) := cm_Remove (cn_session_id info) (ne_abandoned_session_list e) in
            match removed with
            | Some session =>
                modify (set_abandoned_session_list l) ;;
                SendSocketContext buffer cursor SessionClosed header session 0 ;;
                set_extension_session stream None
            | None => mret ()
            end ;;
            b ← overwrite_and_write stream session_create_rq buffer;
            mret (SessionError, forget_session info, b)
        else
          removed ← remove_abandoned_if (cn_session_id info) (state_to Wait Opened);
          match removed with
          | None =>
              b ← overwrite_and_write stream session_create_rq buffer;
              mret (SessionError, forget_session info, b)
          | Some session =>
              set_extension_session stream (Some session) ;;
              resume_session stream session ;;
              mret (SessionAlived, info, buffer)
          end
    end
| _ => mret (SessionError, connector_info, buffer)
end.

Definition ProcessSessionPacket (stream : Z) (header : PacketHeader) (buffer : SocketBuffer)
  (cursor : DynamicBufferCursor) (connector_info : ConnectorInfo) : M (ContextType * ConnectorInfo * SocketBuffer) :=
_ ← worker_of stream;
_ ← get_extension stream;
if packet_is header PacketType_session_create_rq then
  t ← on_session_create_rq stream header cursor; mret (t, connector_info, buffer)
else if packet_is header PacketType_session_create_rs then
  '(t, info) ← on_session_create_rs stream header cursor connector_info; mret (t, info, buffer)
else if packet_is header PacketType_session_auth_rq then
  t ← on_session_auth_rq stream header cursor; mret (t, connector_info, buffer)
else if packet_is header PacketType_session_auth_rs then
  on_session_auth_rs stream header buffer cursor connector_info
else mret (SessionError, connector_info, buffer).

(** ** Reading *)

(** The locals of [OnRead]: the buffer being taken apart, the cursor into it and
  the contexts prepared in it so far ([last_context] is null iff there are
  none, and [context_sequence] is their number). *)
Record read_state : Type := mkReadState {
rd_buffer : SocketBuffer;
rd_cursor : DynamicBufferCursor;
rd_contexts : list SocketContext;
}.

Definition context_sequence (r : read_state) : Z := Z.of_nat (length (rd_contexts r)).

Definition rd_seek (n : Z) (r : read_state) : M read_state :=
c ← lift (Seek n (rd_cursor r)); mret (mkReadState (rd_buffer r) c (rd_contexts r)).

(** A [return] in the loop is [None]. *)
Definition on_header_mismatch (stream : Z) (x : SocketStreamExtension) (r : read_state) : M (option read_state) :=
match ext_session x with
| Some session => CloseSession session
| None => emit [TransmitDisconnect stream GRACEFUL_SHUTDOWN_CODE]
end ;;
ReleaseReadBuffer stream (rd_buffer r) ;;
mret None.

Definition read_session_packet (stream : Z) (header : PacketHeader) (r : read_state) : M (option read_state) :=
'(context_type, connector_info, b) ←
  ProcessSessionPacket stream header (rd_buffer r) (rd_cursor r) new_ConnectorInfo;
let r := mkReadState b (mkCursor (sbf_data b) (cur_pos (rd_cursor r))) (rd_contexts r) in
if bool_decide (context_type = SessionError) then
  r ← rd_seek (hdr_body_size header) r; mret (Some r)
else
  x ← get_extension stream;
  session ← lift (from_option_ub "extension_info->session" (ext_session x));
  match PrepareSocketContext (rd_cursor r) context_type header session (cn_attachment connector_info)
          (context_sequence r) with
  | None =>
      emit [TransmitDisconnect stream GRACEFUL_SHUTDOWN_CODE] ;;
      ReleaseReadBuffer stream (rd_buffer r) ;;
      mret None
  | Some context =>
      r ← rd_seek (hdr_body_size header) (mkReadState (rd_buffer r) (rd_cursor r) (rd_contexts r ++ [context]));
      mret (Some r)
  end.

(** A new buffer takes over when the contexts of this one are used up: the rest
  of the bytes, from the body of the current packet on, is copied. *)
Definition read_overflow (stream session : Z) (header : PacketHeader) (attachment : Z) (r : read_state)
  : M (option read_state) :=
new_buffer ← Session_TryAllocateReadBuffer session;
match new_buffer with
| None => ReleaseReadBuffer stream (rd_buffer r) ;; mret None
| Some new_buffer =>
    let new_buffer := set_data (mkDynamicBuffer (Data (rd_cursor r)) (db_capacity (sbf_data new_buffer))) new_buffer in
    success ← Submit_chain (mkChain (rd_buffer r) (rd_contexts r));
    if negb success then
      CloseSession session ;;
      ReleaseReadBuffer stream (rd_buffer r) ;;
      ReleaseReadBuffer stream new_buffer ;;
      mret None
    else
      let c := Cursor_of (sbf_data new_buffer) in
      context ← lift (from_option_ub "current_context"
                        (PrepareSocketContext c SessionData header session attachment 0));
      r ← rd_seek (hdr_body_size header) (mkReadState new_buffer c [context]);
      mret (Some r)
end.

Definition read_data_packet (stream session : Z) (header : PacketHeader) (attachment : Z) (r : read_state)
  : M (option read_state) :=
match PrepareSocketContext (rd_cursor r) SessionData header session attachment (context_sequence r) with
| Some context =>
    r ← rd_seek (hdr_body_size header) (mkReadState (rd_buffer r) (rd_cursor r) (rd_contexts r ++ [context]));
    mret (Some r)
| None => read_overflow stream session header attachment r
end.

(** A packet of a stream with a session. *)
Definition read_packet (stream session : Z) (header : PacketHeader) (attachment : Z) (r : read_state)
  : M (option read_state) :=
if packet_is header PacketType_heartbeat_rq then
  now ← CurrentTick_ms;
  update_session session (UpdateHeartbeatReceivingTime now) ;;
  Send session (pkt_heartbeat_rs (mk_heartbeat_rs 0)) ErrorCode_None ;;
  r ← rd_seek (hdr_body_size header) r; mret (Some r)
else if packet_is header PacketType_heartbeat_rs then
  now ← CurrentTick_ms;
  update_session session (UpdateHeartbeatReceivingTime now) ;;
  r ← rd_seek (hdr_body_size header) r; mret (Some r)
else if packet_is header PacketType_session_create_rq || packet_is header PacketType_session_create_rs
     || packet_is header PacketType_session_close_rq then
  CloseSession session ;;
  ReleaseReadBuffer stream (rd_buffer r) ;;
  mret None
else read_data_packet stream session header attachment r.

(** One iteration; the boolean tells whether the loop goes on. *)
Definition read_iteration (stream attachment : Z) (r : read_state) : M (bool * option read_state) :=
if negb (RemainBytes (rd_cursor r) >? PACKET_LENGTH_SIZE) then mret (false, Some r)
else
  let packet_length := le_value (take 4 (Data (rd_cursor r))) in
  if u32 (RemainBytes (rd_cursor r) - PACKET_LENGTH_SIZE) <? packet_length then mret (false, Some r)
  else
    r ← rd_seek PACKET_LENGTH_SIZE r;
    header ← lift (DeserializePacketHeader (Data (rd_cursor r)) PACKET_HEADER_SIZE);
    r ← rd_seek PACKET_HEADER_SIZE r;
    x ← get_extension stream;
    if RemainBytes (rd_cursor r) <? hdr_body_size header then
      r ← on_header_mismatch stream x r; mret (true, r)
    else
      r ← match ext_session x with
          | None => read_session_packet stream header r
          | Some session => read_packet stream session header attachment r
          end;
      mret (true, r).

Fixpoint read_loop (fuel : nat) (stream attachment : Z) (r : read_state) : M (option read_state) :=
match fuel with
| O => fail OutOfFuel
| S fuel =>
    '(continue, r) ← read_iteration stream attachment r;
    match r with
    | None => mret None
    | Some r => if (continue : bool) then read_loop fuel stream attachment r else mret (Some r)
    end
end.

(** After the loop: without a packet the buffer goes on reading, otherwise its
  contexts are submitted and a new buffer takes the bytes that are left. *)
Definition read_finish (stream attachment : Z) (r : read_state) : M () :=
if cur_pos (rd_cursor r) <=? PACKET_LENGTH_SIZE + PACKET_HEADER_SIZE then
  emit [TransmitRead stream (rd_buffer r) attachment]
else
  x ← get_extension stream;
  session ← lift (from_option_ub "extension_info->session" (ext_session x));
  new_buffer ← Session_TryAllocateReadBuffer session;
  match new_buffer with
  | None => ReleaseReadBuffer stream (rd_buffer r)
  | Some new_buffer =>
      let new_buffer := set_data (mkDynamicBuffer (Data (rd_cursor r)) (db_capacity (sbf_data new_buffer))) new_buffer in
      match rd_contexts r with
      | [] =>
          ReleaseReadBuffer stream (rd_buffer r) ;;
          emit [TransmitRead stream new_buffer attachment]
      | _ =>
          success ← Submit_chain (mkChain (rd_buffer r) (rd_contexts r));
          if negb success then
            ReleaseReadBuffer stream (rd_buffer r) ;;
            ReleaseReadBuffer stream new_buffer ;;
            Send_must session server_is_busy ErrorCode_None ;;
            CloseSession session
          else emit [TransmitRead stream new_buffer attachment]
      end
  end.

Definition OnRead (stream : Z) (buffer : SocketBuffer) (attachment : Z) : M () :=
_ ← worker_of stream;
r ← read_loop (S (Z.to_nat (db_capacity (sbf_data buffer)) + length (db_bytes (sbf_data buffer)))) stream attachment
      (mkReadState buffer (Cursor_of (sbf_data buffer)) []);
match r with
| None => mret ()
| Some r => read_finish stream attachment r
end.

(** [IocpSocketServer::IoRead]: the bytes received are behind those already in
  the buffer; none at all means that the peer has gone. *)
Definition IoRead (stream : Z) (buffer : SocketBuffer) (attachment : Z) (received : list Z) : M () :=
let d := sbf_data buffer in
let buffer := set_data (mkDynamicBuffer (db_bytes d ++ received) (db_capacity d)) buffer in
match received with
| _ :: _ => OnRead stream buffer attachment
| [] =>
    emit [TransmitDisconnect stream attachment] ;;
    ReleaseReadBuffer stream buffer
end.

Definition OnWrite (stream : Z) (buffer : SocketBuffer) : M () :=
_ ← worker_of stream; ReleaseWriteBuffer stream buffer.

(** ** Disconnecting *)

Definition no_header : PacketHeader := mkPacketHeader 0 0 0.

(** A connector whose entry still exists is connected again. *)
Definition reconnect_connector (x : SocketStreamExtension) : M () :=
if bool_decide (ext_stream_type x = Connector) then
  e ← get_state;
  match ne_connector_list e !! ext_connector_id x with
  | None => mret ()
  | Some connector =>
      modify (λ e, set_connector_list (cm_Process (ext_connector_id x)
        (λ c, mkConnectorInfo (cn_connector_id c) None (cn_remote_address c) (cn_attachment c)
                (cn_session_id c) (cn_session_key c)) (ne_connector_list e)).2 e) ;;
      emit [SocketServer_Connect (cn_remote_address connector) (ext_connector_id x)]
  end
else mret ().

(** With reconnecting enabled, a session that was not shut down gracefully is
  set aside. *)
Definition abandon_session (stream session attachment : Z) : M ContextType :=
e ← get_state;
if (Z.land attachment GRACEFUL_SHUTDOWN_CODE =? 0) && neo_use_session_reconnect (ne_option e) then
  success ← change_state session Opened Abandoned;
  check "false" success ;;
  s ← get_session session;
  w ← worker_of stream;
  modify (λ e, set_abandoned_session_list
    (cm_Insert (ss_session_id s) session (ne_abandoned_session_list e)).2 e) ;;
  update_worker w (with_abandoned (λ l, {[ss_session_id s]} ∪ l)) ;;
  mret SessionAbandoned
else mret SessionClosed.

Definition OnDisconnect (stream attachment : Z) : M () :=
w ← worker_of stream;
x ← get_extension stream;
update_worker w (with_activated (λ s, s ∖ {[stream]})) ;;
reconnect_connector x ;;
match ext_session x with
| None => mret ()
| Some session =>
    context_type ← abandon_session stream session attachment;
    buffer ← AllocateReadBuffer stream true;
    buffer ← lift (from_option_ub "buffer" buffer);
    s ← get_session session;
    update_worker w (with_opened (λ l, l ∖ {[ss_session_id s]})) ;;
    SendSocketContext buffer (Cursor_of (sbf_data buffer)) context_type no_header session 0 ;;
    update_extension stream (λ x, ext_set_session None (ext_set_connector_id 0 x))
end.

(** ** Tick *)

Definition ms (t : Z) : Z := t * 1000000.

Definition tick_socket (now stream : Z) : M () :=
e ← get_state;
x ← get_extension stream;
match ext_session x with
| None =>
    if now >=? ext_connection_created_time x + ms (neo_socket_idle_timeout_ms (ne_option e))
    then emit [TransmitDisconnect stream GRACEFUL_SHUTDOWN_CODE] else mret ()
| Some session =>
    if bool_decide (ext_stream_type x = Acceptor) then
      s ← get_session session;
      if now >=? ms (ss_last_heartbeat_sending_time s) + ms (neo_session_heartbeat_interval_ms (ne_option e)) then
        write_packet stream true (pkt_heartbeat_rq (mk_heartbeat_rq (ext_ping_ms x))) ErrorCode_None ;;
        update_session session (UpdateHeartbeatSendingTime (Z.quot now 1000000))
      else mret ()
    else mret ()
end.

(** The ids put into [deleted_session] are threaded through the loops. *)
Fixpoint tick_opened (now : Z) (sessions : list Z) : M (list Z) :=
match sessions with
| [] => mret []
| session :: sessions =>
    e ← get_state;
    s ← get_session session;
    if now >=? ms (ss_last_heartbeat_receiving_time s) + ms (neo_session_idle_timeout_ms (ne_option e)) then
      CloseSession session ;;
      deleted ← tick_opened now sessions; mret (session :: deleted)
    else tick_opened now sessions
end.

Fixpoint tick_abandoned (now : Z) (sessions : list Z) : M (list Z) :=
match sessions with
| [] => mret []
| session :: sessions =>
    e ← get_state;
    s ← get_session session;
    if negb (bool_decide (ss_session_state s = Wait)) then tick_abandoned now sessions
    else if bool_decide (ss_session_state s = Opened) || bool_decide (ss_session_state s = Closed) then
      deleted ← tick_abandoned now sessions; mret (session :: deleted)
    else if now >=? ms (ss_abandoned_time s) + ms (neo_session_reconnect_timeout_ms (ne_option e)) then
      removed ← remove_abandoned_if session (state_to Wait Closed);
      match removed with
      | None => mret [session]
      | Some removed_session =>
          r ← get_session removed_session;
          stream ← lift (from_option_ub "session->_socket_stream" (ss_socket_stream r));
          buffer ← AllocateReadBuffer stream true;
          buffer ← lift (from_option_ub "buffer" buffer);
          SendSocketContext buffer (Cursor_of (sbf_data buffer)) SessionClosed no_header session 0 ;;
          deleted ← tick_abandoned now sessions; mret (session :: deleted)
      end
    else tick_abandoned now sessions
end.

Definition OnTick (worker_index : Z) : M () :=
w ← GetWorkerInfo worker_index;
now ← CurrentTick;
for_each (iter_set (wi_activated_sockets w)) (tick_socket now) ;;
w ← GetWorkerInfo worker_index;
deleted ← tick_opened now (iter_set (wi_opened_sessions w));
update_worker worker_index (with_opened (λ l, l ∖ list_to_set deleted)) ;;
w ← GetWorkerInfo worker_index;
deleted ← tick_abandoned now (iter_set (wi_abandoned_sessions w));
update_worker worker_index (with_abandoned (λ l, l ∖ list_to_set deleted)).

(** ** The worker thread *)

(** [SocketContext::Release]: [refs] references to the buffer are left. *)
Definition Release_context (buffer : SocketBuffer) (refs : Z) (context : SocketContext) : M () :=
if refs - 1 <=? 0 then
  Session_ReleaseReadBuffer (ctx_session context) buffer ;;
  if bool_decide (ctx_context_type context = SessionClosed)
  then update_session (ctx_session context) (ResetSocketStream None) else mret ()
else mret ().

(** The [switch] over a context's type. *)
Definition dispatch_context (context : SocketContext) : M () :=
match ctx_context_type context with
| SessionAccepted | SessionConnected | SessionAlived | SessionClosed => emit [OnSocketSession context]
| SessionAbandoned =>
    emit [OnSocketSession context] ;;
    success ← change_state (ctx_session context) Abandoned Wait;
    check "false" success
| SessionData =>
    s ← get_session (ctx_session context);
    check "socket_context->session->GetSessionState() == SessionState::Opened"
      (bool_decide (ss_session_state s = Opened)) ;;
    emit [OnSocketSession context]
| SessionError => mret ()
end.

Fixpoint update_chain (buffer : SocketBuffer) (refs : Z) (contexts : list SocketContext) : M () :=
match contexts with
| [] => mret ()
| context :: contexts =>
    dispatch_context context ;;
    Release_context buffer refs context ;;
    if bool_decide (ctx_context_type context = SessionClosed) then mret ()
    else update_chain buffer (refs - 1) contexts
end.

(** [NetworkEngineWorker::UpdateContext] over the contexts of one batch. *)
Definition UpdateContext (contexts : list context_chain) : M () :=
for_each contexts (λ c, update_chain (chain_buffer c) (Z.of_nat (length (chain_contexts c))) (chain_contexts c)).

(** One pass of the worker over everything submitted. *)
Definition worker_pass : M () :=
e ← get_state;
modify (set_worker_queue []) ;;
UpdateContext (ne_worker_queue e).
End engine.

(** ** Start *)

(** A session as [SocketSessionInitializer] leaves it. *)
Definition new_SocketSession (key : SessionKey) (id : Z) : SocketSession :=
  mkSocketSession Closed true 0 0 0 0 key ∅ id None.

(** [SocketSessionPool] is a stack of the ids [max_session_count .. 1]; the keys
    the constructor draws are replaced before they are used. *)
Definition new_NetworkEngine (option : NetworkEngineOption) (config : SocketServerConfig) (streams : gmap Z TransferStream)
    (key : SessionKey) : NetworkEngine :=
  let ids := seqZ 1 (neo_max_session_count option) in
  mkNetworkEngine (reverse ids) (replicate (Z.to_nat (ssc_worker_count config)) (mkSocketWorkerInfo ∅ ∅ ∅))
    ∅ ∅ 1 option (list_to_map ((λ id, (id, new_SocketSession key id)) <$> ids)) streams []
    (ssc_read_buffer_capacity config) (ssc_write_buffer_capacity config) 0 0.

Definition NetworkEngine_Start (server_start : Z) : Act NetworkEngine engine_out Z :=
  e ← get_state;
  (if server_start =? 0 then emit [WorkerStart (neo_worker_update_tick_ms (ne_option e))] else mret ()) ;;
  mret server_start.
