(* ===== verification/EngineRead.v ===== *)
(** * Reassembly

    What [NetworkEngine::OnRead] makes of the byte stream of a connection: the
    packets a peer framed come out complete, once and in order, however the
    network cuts the stream into reads. *)

From S2P Require Import Prelude.
From S2P Require Import Coordinate.
From S2P Require Import SectorGrid.
From S2P Require Import Fixture.
From S2P Require Import Packet.
From S2P Require Import Protocol.
From S2P Require Import Concurrent.
From S2P Require Import NetworkEngine.

Open Scope Z_scope.

(** A stream whose session is open on it. *)
Record session_ready (e : NetworkEngine) (stream session : Z) (t : TransferStream) (s : SocketSession) : Prop := {
  sr_stream : ne_streams e !! stream = Some t;
  sr_worker : is_Some (arr_get (ne_worker_infos e) (ts_worker_index t));
  sr_extension : ext_session <$> ts_user_data t = Some (Some session);
  sr_session : ne_sessions e !! session = Some s;
  sr_state : ss_session_state s = Opened;
  sr_socket : ss_socket_stream s = Some stream;
}.

(** A connected stream before its session exists. *)
Record session_pending (e : NetworkEngine) (stream : Z) (t : TransferStream) (x : SocketStreamExtension) : Prop := {
  sp_stream : ne_streams e !! stream = Some t;
  sp_worker : is_Some (arr_get (ne_worker_infos e) (ts_worker_index t));
  sp_extension : ts_user_data t = Some x;
  sp_none : ext_session x = None;
}.

(** The packets the engine hands on, as opposed to those it handles itself. *)
Definition engine_packet (t : PacketType) : bool :=
  match t with
  | PacketType_heartbeat_rq | PacketType_heartbeat_rs | PacketType_session_create_rq | PacketType_session_create_rs
  | PacketType_session_close_rq => true
  | _ => false
  end.

Lemma get_extension_ready e stream session t s :
  session_ready e stream session t s →
  ∃ x, get_extension stream e = Ok (x, e, []) ∧ ext_session x = Some session.
Proof.
  intros [Hs _ Hx _ _ _]. destruct (ts_user_data t) as [x|] eqn:Ht; [|done]. exists x.
  rw /get_extension /get_stream /mbind /act_mbind /act_bind /get_state Hs /= Ht /=. naive_solver.
Qed.

(** A buffer of frames, as the throttler collects them, passes the assertion of
    [Send] and is transmitted whole. *)
Lemma Send_raw_frames {C} `{StructPack C} `{!StructPackSize C} e stream session t s (b : SocketBuffer)
    (p : Packet C) (error : ErrorCode) rest :
  session_ready e stream session t s → small_packet p → db_length (sbf_data b) < 2 ^ 31 →
  db_bytes (sbf_data b) = frame p error ++ rest →
  Send_raw session b e = Ok ((), e, [TransmitWrite stream b]).
Proof.
  intros [_ _ _ Hs Hop Hso] Hp Hlen Hb. set (n := sp_get_needed_size p).
  pose proof (needed_size_nonneg p) as Hn0. fold n in Hn0. rw /small_packet in Hp. fold n in Hp.
  pose proof (length_frame p error) as Hf. fold n in Hf.
  assert (Hl : db_length (sbf_data b) = 12 + n + Z.of_nat (length rest)) by (rw /db_length Hb length_app; lia).
  rw /Send_raw /Data /Cursor_of. cbn [cur_pos cur_buffer]. rw (proj2 (Nat.ltb_ge _ _)); [rw Hb length_app; lia|].
  rw (_ : le_value _ = 8 + n).
  { cbn [Z.to_nat drop]. rw Hb /frame -app_assoc (take_app_length' (le_bytes 4 _)); [by rw length_le_bytes|].
    rw le_value_bytes_small; [rw /PACKET_HEADER_SIZE; cbn; fold n; lia|done]. }
  rw Seek_ok; [done|done|rw /PACKET_LENGTH_SIZE /=; lia|]. cbn [cur_pos cur_buffer].
  rw (bind_ok (lift (Ok (mkCursor (sbf_data b) (0 + PACKET_LENGTH_SIZE)))) _ e (mkCursor (sbf_data b) (0 + PACKET_LENGTH_SIZE)) e); [done|].
  cbn [cur_pos cur_buffer]. rw (_ : drop _ _ = header_bytes (packet_header p error) ++ (sp_serialize p ++ rest)).
  { rw Hb /frame -!app_assoc. apply drop_app_length'. by rw length_le_bytes. }
  rw DeserializePacketHeader_bytes; [apply PacketType_to_Z_range|apply ErrorCode_to_Z_range|cbn; fold n; lia| |].
  { rw /RemainBytes u32_small; cbn [cur_pos cur_buffer]; rw /PACKET_LENGTH_SIZE /PACKET_HEADER_SIZE; lia. }
  rw (bind_ok (lift (Ok (packet_header p error))) _ e (packet_header p error) e); [done|].
  cbn [hdr_body_size packet_header]. fold n. rw (proj2 (Z.eqb_eq _ _)); [rw /PACKET_HEADER_SIZE; lia|].
  rw /check (bind_ok _ _ e () e); [done|].
  rw /GetSocketStream /get_session /mbind /act_mbind /act_bind /get_state Hs /= Hop /= Hso. done.
Qed.

Section reassembly.
Context {C : Type} `{IterOrder} `{Indeterminate C} `{StructPack C} `{!StructPackSize C}.
Context (clock : Z → Z) (random_key : Z → SessionKey).
Implicit Types (e : NetworkEngine) (r : read_state) (p : Packet C) (m : Packet C * ErrorCode).

Notation frame_of m := (frame m.1 m.2).
Definition frames (ms : list (Packet C * ErrorCode)) : list Z := concat ((λ m, frame_of m) <$> ms).

(** A packet to be delivered: not one of the engine's own, and with a body
  (every body [struct_pack] writes begins with a type hash). *)
Definition data_packet m : Prop :=
engine_packet (PACKET_TYPE m.1) = false ∧ small_packet m.1 ∧ 0 < sp_get_needed_size m.1.

(** Too few bytes for the packet they begin with. *)
Definition incomplete (l : list Z) : Prop :=
(length l ≤ 4)%nat ∨ Z.of_nat (length l) - 4 < le_value (take 4 l).

(** What a context delivers. *)
Definition delivers (session attachment : Z) m (c : SocketContext) : Prop :=
ctx_context_type c = SessionData ∧ ctx_session c = session ∧ ctx_attachment c = attachment ∧
ctx_header c = packet_header m.1 m.2 ∧ body_of (ctx_header c) (ctx_cursor c) = sp_serialize m.1.

Lemma PacketType_to_Z_inj t t' : PacketType_to_Z t = PacketType_to_Z t' → t = t'.
Proof. destruct t, t'; cbn; intros; try done; lia. Qed.

Lemma packet_is_header p er t : packet_is (packet_header p er) t = bool_decide (PACKET_TYPE p = t).
Proof.
rw /packet_is /packet_header /=. case_bool_decide as Ht.
- subst. apply Z.eqb_refl.
- apply Z.eqb_neq. intros Heq. by apply Ht, PacketType_to_Z_inj.
Qed.

(** The parts of a frame at a position of a buffer. *)
Lemma frame_at (bytes rest : list Z) (pos : Z) m :
0 ≤ pos → drop (Z.to_nat pos) bytes = frame_of m ++ rest →
take 4 (drop (Z.to_nat pos) bytes) = le_bytes 4 (8 + sp_get_needed_size m.1) ∧
drop (Z.to_nat (pos + 4)) bytes = header_bytes (packet_header m.1 m.2) ++ sp_serialize m.1 ++ rest ∧
drop (Z.to_nat (pos + 12)) bytes = sp_serialize m.1 ++ rest ∧
drop (Z.to_nat (pos + 12 + sp_get_needed_size m.1)) bytes = rest ∧
pos + 12 + sp_get_needed_size m.1 + Z.of_nat (length rest) = Z.of_nat (length bytes).
Proof.
intros Hpos Hd. pose proof (length_frame m.1 m.2) as Hf. pose proof (needed_size_nonneg m.1) as Hn.
assert (Hdrop : ∀ k, 0 ≤ k → drop (Z.to_nat (pos + k)) bytes = drop (Z.to_nat k) (frame_of m ++ rest)).
{ intros k Hk. rw -Hd drop_drop. f_equal. lia. }
rw -Z.add_assoc !Hdrop; [lia..|]. rw Hd. split_and!.
- rw /frame -app_assoc take_app_length'; [by rw length_le_bytes|done].
- rw /frame -!app_assoc drop_app_length'; [by rw length_le_bytes|done].
- rw /frame -!app_assoc app_assoc (drop_app_length' (le_bytes 4 _ ++ header_bytes _)); [by rw length_app length_le_bytes length_header_bytes|done].
- rw drop_app_length'; [lia|done].
- apply (f_equal length) in Hd. rw length_drop length_app in Hd. lia.
Qed.

(** A buffer state from which reading goes on. *)
Definition read_ok r : Prop :=
cur_buffer (rd_cursor r) = sbf_data (rd_buffer r) ∧ 0 ≤ cur_pos (rd_cursor r) ∧
db_length (sbf_data (rd_buffer r)) < 2 ^ 31.

Definition rest_of r : list Z := Data (rd_cursor r).

(** [r] after the packet [m]. *)
Definition after_packet session attachment m r : read_state :=
let c := mkCursor (cur_buffer (rd_cursor r)) (cur_pos (rd_cursor r) + 12) in
mkReadState (rd_buffer r) (mkCursor (cur_buffer (rd_cursor r)) (cur_pos (rd_cursor r) + 12 + sp_get_needed_size m.1))
  (rd_contexts r ++ [mkSocketContext SessionData (packet_header m.1 m.2) session attachment c]).

(** The head of an iteration over a complete packet: the cursor passes length
  and header. *)
Lemma read_iteration_head e stream attachment (b : SocketBuffer) pos cs m rest x :
0 ≤ pos → db_length (sbf_data b) < 2 ^ 31 → small_packet m.1 →
drop (Z.to_nat pos) (db_bytes (sbf_data b)) = frame_of m ++ rest →
get_extension stream e = Ok (x, e, []) →
read_iteration (C:=C) clock random_key stream attachment (mkReadState b (mkCursor (sbf_data b) pos) cs) e =
  (r ← match ext_session x with
       | None => read_session_packet (C:=C) clock random_key stream (packet_header m.1 m.2)
                   (mkReadState b (mkCursor (sbf_data b) (pos + 12)) cs)
       | Some session => read_packet (C:=C) clock stream session (packet_header m.1 m.2) attachment
                   (mkReadState b (mkCursor (sbf_data b) (pos + 12)) cs)
       end; mret (true, r)) e.
Proof.
intros Hpos Hlen Hsmall Hrest Hx. rw /small_packet in Hsmall.
destruct (frame_at _ _ _ _ Hpos Hrest) as (H4&Hh&_&_&Hl). pose proof (needed_size_nonneg m.1) as Hn.
set (n := sp_get_needed_size m.1) in *. fold (db_length (sbf_data b)) in Hl.
rw /read_iteration /rd_seek /RemainBytes /Data. cbn [rd_cursor rd_buffer rd_contexts cur_buffer cur_pos].
rw (u32_small (db_length _ - pos)); [lia|].
rw (_ : (db_length (sbf_data b) - pos >? PACKET_LENGTH_SIZE) = true).
{ rw Z.gtb_ltb. apply Z.ltb_lt. rw /PACKET_LENGTH_SIZE. lia. }
cbn [negb]. rw H4 le_value_bytes_small; [cbn; lia|]. rw u32_small; [rw /PACKET_LENGTH_SIZE; lia|].
rw (proj2 (Z.ltb_ge _ _)); [rw /PACKET_LENGTH_SIZE; lia|].
rw (bind_ok _ _ _ (mkReadState b (mkCursor (sbf_data b) (pos + 4)) cs) e).
{ rw Seek_ok; [rw /PACKET_LENGTH_SIZE /=; lia..|done]. }
cbn [rd_cursor rd_buffer rd_contexts cur_buffer cur_pos]. rw Hh.
rw (bind_ok _ _ _ (packet_header m.1 m.2) e).
{ rw DeserializePacketHeader_bytes; [apply PacketType_to_Z_range|apply ErrorCode_to_Z_range|cbn; fold n; lia|done..]. }
rw (bind_ok _ _ _ (mkReadState b (mkCursor (sbf_data b) (pos + 12)) cs) e).
{ rw Seek_ok; [rw /PACKET_HEADER_SIZE /=; lia..|]. cbn. by rw -Z.add_assoc. }
cbn [rd_cursor rd_buffer rd_contexts cur_buffer cur_pos]. rw (bind_ok _ _ _ _ _ Hx).
rw u32_small; [lia|]. cbn [hdr_body_size packet_header]. fold n. rw (proj2 (Z.ltb_ge _ _)); [lia|]. done.
Qed.
Lemma read_iteration_frame e stream session t s attachment r m rest :
session_ready e stream session t s → read_ok r → data_packet m → context_sequence r < 128 →
rest_of r = frame_of m ++ rest →
read_iteration (C:=C) clock random_key stream attachment r e =
  Ok ((true, Some (after_packet session attachment m r)), e, []).
Proof.
intros Hready (Hcur&Hpos&Hlen) (Hdata&Hsmall&_) Hseq Hrest.
destruct r as [b [d pos] cs]; cbn in *; subst d. rw /rest_of /Data /= in Hrest.
destruct (get_extension_ready e stream session t s Hready) as (x&Hx&Hxs).
rw (read_iteration_head e stream attachment b pos cs m rest x Hpos Hlen Hsmall Hrest Hx) Hxs.
destruct (frame_at _ _ _ _ Hpos Hrest) as (_&_&_&_&Hl). pose proof (needed_size_nonneg m.1). rw /small_packet in Hsmall.
rw (bind_ok _ _ _ (Some (after_packet session attachment m (mkReadState b (mkCursor (sbf_data b) pos) cs))) e); [|done].
rw /read_packet !packet_is_header.
rw !bool_decide_eq_false_2; [intros Ht; by rw Ht in Hdata..|]. cbn [orb].
rw /read_data_packet /PrepareSocketContext (_ : (_ >? _) = false).
{ rw Z.gtb_ltb. apply Z.ltb_ge. rw /SIZEOF_SocketContext /SIZEOF_reserved. rw /context_sequence /= in Hseq |- *. lia. }
rw /rd_seek. cbn [rd_cursor rd_buffer rd_contexts cur_buffer cur_pos hdr_body_size packet_header].
rw Seek_ok; [rw /db_length /=; lia..|]. done.
Qed.

Lemma after_packet_ok session attachment m r rest :
read_ok r → rest_of r = frame_of m ++ rest →
read_ok (after_packet session attachment m r) ∧ rest_of (after_packet session attachment m r) = rest ∧
context_sequence (after_packet session attachment m r) = context_sequence r + 1 ∧
∃ c, rd_contexts (after_packet session attachment m r) = rd_contexts r ++ [c] ∧ delivers session attachment m c.
Proof.
intros (Hcur&Hpos&Hlen) Hrest. pose proof (needed_size_nonneg m.1).
destruct r as [b [d pos] cs]; cbn in *; subst d.
destruct (frame_at _ _ _ _ Hpos Hrest) as (_&_&Hb&Hr&_). split_and!; [split_and!; cbn; [done|lia|done]|done| |].
- rw /context_sequence /= length_app /=. lia.
- eexists. split; [done|]. split_and!; [done..|]. rw /body_of /Data. cbn [ctx_header ctx_cursor cur_pos cur_buffer hdr_body_size packet_header].
  rw Hb. rw take_app_length'; [rw sp_size; lia|done].
Qed.

Definition read_packets session attachment (ms : list (Packet C * ErrorCode)) r : read_state :=
foldl (λ r m, after_packet session attachment m r) r ms.

(** The loop takes complete packets one by one... *)
Lemma read_loop_frames e stream session t s attachment ms : ∀ fuel r rest,
session_ready e stream session t s → read_ok r → Forall data_packet ms →
context_sequence r + Z.of_nat (length ms) ≤ 128 → rest_of r = frames ms ++ rest →
read_loop (C:=C) clock random_key (length ms + fuel) stream attachment r e =
  read_loop (C:=C) clock random_key fuel stream attachment (read_packets session attachment ms r) e ∧
read_ok (read_packets session attachment ms r) ∧ rest_of (read_packets session attachment ms r) = rest ∧
∃ cs, rd_contexts (read_packets session attachment ms r) = rd_contexts r ++ cs ∧
  Forall2 (delivers session attachment) ms cs.
Proof.
induction ms as [|m ms IH]; intros fuel r rest Hready Hok Hms Hseq Hrest.
- split_and!; [done..|]. exists []. by rw app_nil_r.
- apply Forall_cons in Hms as [Hm Hms]. cbn [frames fmap list_fmap concat] in Hrest. rw -app_assoc in Hrest.
  destruct (after_packet_ok session attachment m r _ Hok Hrest) as (Hok'&Hrest'&Hseq'&c&Hc&Hdel).
  destruct (IH fuel (after_packet session attachment m r) rest) as (Hrun&Hok2&Hrest2&cs&Hcs&Hall);
    [done..|cbn in Hseq; lia|done|].
  split_and!; [|done..|].
  + cbn [length Nat.add read_loop]. rw (bind_ok _ _ _ _ _ (read_iteration_frame e stream session t s attachment r m _
      Hready Hok Hm ltac:(cbn in Hseq; lia) Hrest)). exact Hrun.
  + exists (c :: cs). split; [|by constructor]. cbn [read_packets foldl]. rw Hcs Hc -app_assoc. done.
Qed.

(** ... and stops at an incomplete one. *)
Lemma read_loop_incomplete e stream attachment r fuel :
read_ok r → cur_pos (rd_cursor r) ≤ db_length (sbf_data (rd_buffer r)) → incomplete (rest_of r) →
read_loop (C:=C) clock random_key (S fuel) stream attachment r e = Ok (Some r, e, []).
Proof.
intros (Hcur&Hpos&Hlen) Hle Hinc. cbn [read_loop]. rw (bind_ok _ _ _ (false, Some r) e); [|done].
rw /read_iteration /RemainBytes Hcur. rw (u32_small (db_length _ - _)); [lia|].
rw /incomplete in Hinc. rw {1}/rest_of /Data length_drop Hcur in Hinc. rw -Hcur /db_length Hcur in Hle.
rw /db_length. case: (Z.gtb_spec _ PACKET_LENGTH_SIZE) => Hgt; [|done]. cbn [negb].
rw /PACKET_LENGTH_SIZE in Hgt |- *. destruct Hinc as [Hinc|Hinc]; [lia|].
rw u32_small; [rw /db_length in Hlen; lia|]. rw (proj2 (Z.ltb_lt _ _)); [|done]. rw /rest_of in Hinc. lia.
Qed.

(** The engine after a read that delivered something: the chain is queued and a
  buffer of the stream's pool is in use for the next read. *)
Definition after_read e stream (t : TransferStream) (chain : context_chain) : NetworkEngine :=
set_worker_queue (ne_worker_queue e ++ [chain])
  (set_streams (alter (ts_set_read_pool (ts_read_pool t - 1)) stream (ne_streams e)) e).

Definition next_buffer e stream (rest : list Z) : SocketBuffer :=
mkSocketBuffer (mkDynamicBuffer rest (ne_read_buffer_capacity e)) stream false.

Lemma TryAllocateReadBuffer_ready e stream session t s :
session_ready e stream session t s → 0 < ts_read_pool t →
Session_TryAllocateReadBuffer (C:=C) session e =
  Ok (Some (next_buffer e stream []),
      set_streams (alter (ts_set_read_pool (ts_read_pool t - 1)) stream (ne_streams e)) e, []).
Proof.
intros [Hst _ _ Hse Hop Hso] Hpool. rw /Session_TryAllocateReadBuffer (bind_ok _ _ _ stream e).
{ rw /GetSocketStream /get_session /mbind /act_mbind /act_bind /get_state Hse /= Hop /= Hso. done. }
rw /AllocateReadBuffer /get_stream /mbind /act_mbind /act_bind /get_state Hst /=.
rw (proj2 (Z.ltb_lt _ _)); [done|]. done.
Qed.

Lemma worker_of_ready e stream session t s :
session_ready e stream session t s → worker_of stream e = Ok (ts_worker_index t, e, []).
Proof.
intros [Hst [w Hw] _ _ _ _]. rw /worker_of /get_stream /GetWorkerInfo /mbind /act_mbind /act_bind /get_state Hst /= Hw. done.
Qed.

Lemma read_finish_submits e stream session t s attachment r :
session_ready e stream session t s → 0 < ts_read_pool t →
Z.of_nat (length (ne_worker_queue e)) < BUFFER_SIZE →
12 < cur_pos (rd_cursor r) → rd_contexts r ≠ [] →
read_finish (C:=C) stream attachment r e =
  Ok ((), after_read e stream t (mkChain (rd_buffer r) (rd_contexts r)),
      [TransmitRead stream (next_buffer e stream (rest_of r)) attachment]).
Proof.
intros Hready Hpool Hq Hpos Hcs. rw /read_finish (proj2 (Z.leb_gt _ _)); [done|].
destruct (get_extension_ready e stream session t s Hready) as (x&Hx&Hxs).
rw (bind_ok _ _ _ _ _ Hx) (bind_ok _ _ _ session e); [by rw Hxs|].
rw (bind_ok _ _ _ _ _ (TryAllocateReadBuffer_ready e stream session t s Hready Hpool)).
destruct (rd_contexts r) as [|c cs] eqn:Hrc; [done|].
rw (bind_ok _ _ _ true (after_read e stream t (mkChain (rd_buffer r) (c :: cs)))); [|done].
rw /Submit_chain /mbind /act_mbind /act_bind /get_state /=. rw (proj2 (Z.ltb_lt _ _)); [done|]. done.
Qed.

Lemma length_frames ms : Forall data_packet ms → 13 * Z.of_nat (length ms) ≤ Z.of_nat (length (frames ms)).
Proof.
induction 1 as [|m ms (_&_&Hm) _ IH]; [done|]. cbn [frames fmap list_fmap concat length]. rw length_app.
pose proof (length_frame m.1 m.2). fold (frames ms). lia.
Qed.

Lemma read_packets_pos session attachment ms : ∀ r,
rd_buffer (read_packets session attachment ms r) = rd_buffer r ∧
cur_pos (rd_cursor (read_packets session attachment ms r)) = cur_pos (rd_cursor r) + Z.of_nat (length (frames ms)).
Proof.
induction ms as [|m ms IH]; intros r; [cbn; by rw Z.add_0_r|]. destruct (IH (after_packet session attachment m r)) as [Hb Hp].
cbn [read_packets foldl]. fold (read_packets session attachment ms (after_packet session attachment m r)).
split; [by rw Hb|]. rw Hp. cbn [frames fmap list_fmap concat after_packet rd_cursor cur_pos]. rw length_app.
pose proof (length_frame m.1 m.2). fold (frames ms). lia.
Qed.

(** One read of complete packets and a rest: the packets are submitted to the
  worker in one chain, in order, each with its header and body, and the next
  read goes on behind the rest.  Without a complete packet the same buffer goes
  on reading. *)
Theorem OnRead_frames e stream session t s attachment (b : SocketBuffer) ms rest :
session_ready e stream session t s → 0 < ts_read_pool t →
Z.of_nat (length (ne_worker_queue e)) < BUFFER_SIZE → db_length (sbf_data b) < 2 ^ 31 →
Forall data_packet ms → (length ms ≤ 128)%nat → incomplete rest → db_bytes (sbf_data b) = frames ms ++ rest →
match ms with
| [] => OnRead (C:=C) clock random_key stream b attachment e = Ok ((), e, [TransmitRead stream b attachment])
| _ => ∃ cs, Forall2 (delivers session attachment) ms cs ∧
    OnRead (C:=C) clock random_key stream b attachment e =
      Ok ((), after_read e stream t (mkChain b cs), [TransmitRead stream (next_buffer e stream rest) attachment])
end.
Proof.
intros Hready Hpool Hq Hlen Hms Hn Hinc Hb.
set (r0 := mkReadState b (Cursor_of (sbf_data b)) []).
assert (Hok : read_ok r0) by (split_and!; cbn; [done|lia|done]).
assert (Hr0 : rest_of r0 = frames ms ++ rest) by (rw -Hb; done).
pose proof (length_frames ms Hms) as Hlf.
set (fuel := (Z.to_nat (db_capacity (sbf_data b)) + length (db_bytes (sbf_data b)) - length ms)%nat).
destruct (read_loop_frames e stream session t s attachment ms (S fuel) r0 rest) as (Hrun&Hok'&Hrest'&cs&Hcs&Hall);
  [done..|rw /context_sequence /=; lia|done|].
set (r1 := read_packets session attachment ms r0) in *.
assert (Hpos : cur_pos (rd_cursor r1) + Z.of_nat (length rest) = db_length (sbf_data (rd_buffer r1)) ∧
  rd_buffer r1 = b ∧ cur_pos (rd_cursor r1) = Z.of_nat (length (frames ms))).
{ destruct (read_packets_pos session attachment ms r0) as [Hb1 Hp1]. fold r1 in Hb1, Hp1.
  rw Hb1 Hp1 /db_length. cbn [rd_buffer rd_cursor r0 cur_pos Cursor_of]. rw Hb length_app. split_and!; [lia|done|lia]. }
destruct Hpos as (Hpos&Hbuf&Hpos').
rw /OnRead (bind_ok _ _ _ _ _ (worker_of_ready e stream session t s Hready)).
rw (bind_ok _ _ _ (Some r1) e).
{ rw (_ : S (_ + _) = length ms + S fuel)%nat; [rw /fuel Hb length_app; lia|]. rw Hrun.
  apply read_loop_incomplete; [done|lia|by rw Hrest']. }
destruct ms as [|m ms].
- rw /read_finish (proj2 (Z.leb_le _ _)); [rw Hpos' /=; done|]. by rw Hbuf.
- exists cs. split; [done|]. rw (read_finish_submits e stream session t s); [done..| | |].
  + rw Hpos'. cbn [length] in Hlf. lia.
  + rw Hcs. destruct cs; [by inversion Hall|done].
  + rw Hcs Hbuf Hrest'. done.
Qed.

(** *** Any number of reads *)

Definition next_read (outs : list engine_out) : option SocketBuffer :=
match outs with
| [TransmitRead _ b _] => Some b
| _ => None
end.

(** The stream in pieces: every piece fits_buffer behind the bytes that wait in the
  buffer being read into. *)
Fixpoint receive (stream attachment : Z) (chunks : list (list Z)) (b : SocketBuffer) e : option (SocketBuffer * NetworkEngine) :=
match chunks with
| [] => Some (b, e)
| chunk :: chunks =>
    if db_capacity (sbf_data b) <? db_length (sbf_data b) + Z.of_nat (length chunk) then None
    else
      match IoRead (C:=C) clock random_key stream b attachment chunk e with
      | Ok (_, e, outs) => next_read outs ≫= (λ b, receive stream attachment chunks b e)
      | Err _ => None
      end
end.

Lemma after_read_ready e stream session t s chain :
session_ready e stream session t s →
session_ready (after_read e stream t chain) stream session (ts_set_read_pool (ts_read_pool t - 1) t) s.
Proof. intros []. split; cbn; try done. by rw lookup_alter_eq sr_stream0. Qed.

Lemma incomplete_prefix (l1 l2 : list Z) : incomplete (l1 ++ l2) → incomplete l1.
Proof.
rw /incomplete length_app. intros Hinc. destruct (decide (length l1 ≤ 4)%nat) as [|Hgt]; [by left|]. right.
rw take_app_le in Hinc; lia.
Qed.

Lemma frame_length_prefix m rest : take 4 (frame_of m ++ rest) = le_bytes 4 (8 + sp_get_needed_size m.1).
Proof. rw /frame -app_assoc take_app_length'; [by rw length_le_bytes|done]. Qed.

(** An incomplete prefix is shorter than the packet it begins. *)
Lemma incomplete_short m (l l2 rest : list Z) :
data_packet m → incomplete l → l ++ l2 = frame_of m ++ rest → (length l < length (frame_of m))%nat.
Proof.
intros (_&Hsm&Hn) Hinc Heq. rw /small_packet in Hsm. pose proof (length_frame m.1 m.2) as Hf.
destruct (decide (length l < length (frame_of m))%nat) as [|Hge]; [done|]. destruct Hinc as [Hinc|Hinc]; [lia|].
assert (Ht : take 4 l = take 4 (frame_of m ++ rest)) by (rw -Heq take_app_le; [lia|done]).
rw Ht frame_length_prefix le_value_bytes_small in Hinc; [cbn; lia|]. lia.
Qed.

(** Every cut of a stream of packets is behind complete packets and a rest. *)
Lemma split_frames ms : ∀ l1 l2 rest,
Forall data_packet ms → incomplete rest → l1 ++ l2 = frames ms ++ rest →
∃ ms1 ms2 (tail : list Z), ms = ms1 ++ ms2 ∧ l1 = frames ms1 ++ tail ∧ incomplete tail ∧ tail ++ l2 = frames ms2 ++ rest.
Proof.
induction ms as [|m ms IH]; intros l1 l2 rest Hms Hinc Heq.
- exists [], [], l1. cbn in Heq. split_and!; try done. apply (incomplete_prefix l1 l2). by rw Heq.
- apply Forall_cons in Hms as [Hm Hms]. cbn [frames fmap list_fmap concat] in Heq. rw -app_assoc in Heq. fold (frames ms) in Heq.
  destruct (decide (length l1 < length (frame_of m))%nat) as [Hlt|Hge].
  + exists [], (m :: ms), l1. split_and!; [done..| |].
    * destruct Hm as (_&Hsm&Hn). rw /small_packet in Hsm. pose proof (length_frame m.1 m.2) as Hf.
      destruct (decide (length l1 ≤ 4)%nat) as [|Hgt]; [by left|]. right.
      rw (_ : take 4 l1 = take 4 (frame_of m ++ frames ms ++ rest)); [rw -Heq take_app_le; [lia|done]|].
      rw frame_length_prefix le_value_bytes_small; [cbn; lia|]. lia.
    * cbn [frames fmap list_fmap concat]. by rw -app_assoc.
  + assert (Hl1 : l1 = frame_of m ++ drop (length (frame_of m)) l1).
    { rw -{1}(take_drop (length (frame_of m)) l1). f_equal.
      apply (f_equal (take (length (frame_of m)))) in Heq. rw take_app_le in Heq; [lia|].
      by rw take_app_length in Heq. }
    set (l1' := drop _ l1) in *. rw Hl1 -app_assoc in Heq. apply app_inv_head in Heq.
    destruct (IH l1' l2 rest Hms Hinc Heq) as (ms1&ms2&tl&->&Hl1'&Hr&Hrest).
    exists (m :: ms1), ms2, tl. split_and!; [done| |done..].
    rw Hl1 Hl1'. cbn [frames fmap list_fmap concat]. by rw -app_assoc.
Qed.

(** Frames and the rest leave room for a piece of the network's size in a read
  buffer. *)
Definition segment_size : Z := 1536.

Definition fits_buffer e (l : list Z) : Prop := Z.of_nat (length l) + segment_size ≤ ne_read_buffer_capacity e.

Lemma segment_packets ms1 (waiting chunk tl : list Z) :
Forall data_packet ms1 → incomplete waiting → Z.of_nat (length chunk) ≤ segment_size →
waiting ++ chunk = frames ms1 ++ tl → (length ms1 ≤ 128)%nat.
Proof.
intros Hms Hinc Hch Heq. destruct Hms as [|m ms1 Hm Hms]; [cbn; lia|].
cbn [frames fmap list_fmap concat] in Heq. fold (frames ms1) in Heq. rw -app_assoc in Heq.
pose proof (incomplete_short m waiting chunk _ Hm Hinc Heq) as Hsh. pose proof (length_frames ms1 Hms) as Hl.
apply (f_equal length) in Heq. rw (length_app waiting) (length_app (frame_of m)) (length_app (frames ms1)) in Heq. rw /segment_size in Hch. cbn [length]. lia.
Qed.

Lemma tail_fits e ms rest (tl l2 : list Z) :
Forall data_packet ms → incomplete tl → Forall (λ m, fits_buffer e (frame_of m)) ms → fits_buffer e rest →
tl ++ l2 = frames ms ++ rest → fits_buffer e tl.
Proof.
intros Hms Hinc Hfit Hrest Heq. rw /fits_buffer in Hrest |- *. destruct Hms as [|m ms Hm Hms].
- apply (f_equal length) in Heq. rw length_app /= in Heq. lia.
- cbn [frames fmap list_fmap concat] in Heq. rw -app_assoc in Heq.
  pose proof (incomplete_short m tl l2 _ Hm Hinc Heq). apply Forall_cons in Hfit as [Hm' _]. rw /fits_buffer in Hm'. lia.
Qed.

Lemma receive_frames stream session s attachment chunks : ∀ ms rest (waiting : list Z) b e t,
session_ready e stream session t s → Z.of_nat (length chunks) ≤ ts_read_pool t →
Z.of_nat (length (ne_worker_queue e)) + Z.of_nat (length chunks) ≤ BUFFER_SIZE →
ne_read_buffer_capacity e < 2 ^ 31 → db_capacity (sbf_data b) = ne_read_buffer_capacity e →
Forall (λ c : list Z, c ≠ [] ∧ Z.of_nat (length c) ≤ segment_size) chunks →
Forall data_packet ms → Forall (λ m, fits_buffer e (frame_of m)) ms → fits_buffer e rest → incomplete rest →
db_bytes (sbf_data b) = waiting → incomplete waiting → waiting ++ concat chunks = frames ms ++ rest →
∃ b' e' chains, receive stream attachment chunks b e = Some (b', e') ∧ db_bytes (sbf_data b') = rest ∧
  ne_worker_queue e' = ne_worker_queue e ++ chains ∧
  Forall2 (delivers session attachment) ms (concat (chain_contexts <$> chains)).
Proof.
induction chunks as [|chunk chunks IH];
  intros ms rest waiting b e t Hready Hpool Hq Hcap Hbcap Hch Hms Hfit Hrest Hinc Hb Hwait Heq.
- exists b, e, []. cbn in Heq. rw app_nil_r in Heq.
  destruct ms as [|m ms].
  { split_and!; [done|by rw Hb Heq|by rw app_nil_r|constructor]. }
  exfalso. apply Forall_cons in Hms as [Hm _]. cbn [frames fmap list_fmap concat] in Heq. rw -app_assoc in Heq.
  assert (Heq' : waiting ++ [] = frame_of m ++ frames ms ++ rest) by by rw app_nil_r.
  pose proof (incomplete_short m waiting [] _ Hm Hwait Heq'). apply (f_equal length) in Heq. rw length_app in Heq. lia.
- apply Forall_cons in Hch as [[Hne Hsz] Hch]. cbn [concat] in Heq.
  pose proof (tail_fits e ms rest waiting _ Hms Hwait Hfit Hrest Heq) as Hroom. rw /fits_buffer in Hroom.
  rw app_assoc in Heq.
  destruct (split_frames ms (waiting ++ chunk) (concat chunks) rest Hms Hinc Heq)
    as (ms1&ms2&tl&->&Hcut&Htl&Htail).
  apply Forall_app in Hms as [Hms1 Hms2]. apply Forall_app in Hfit as [Hfit1 Hfit2].
  assert (Hn : (length ms1 ≤ 128)%nat) by exact (segment_packets ms1 waiting chunk tl Hms1 Hwait Hsz Hcut).
  pose proof (tail_fits e ms2 rest tl (concat chunks) Hms2 Htl Hfit2 Hrest Htail) as Hfit'.
  cbn [length] in Hpool, Hq. cbn [receive].
  rw (proj2 (Z.ltb_ge _ _)); [rw /db_length Hb Hbcap; lia|].
  destruct chunk as [|c0 chunk]; [done|]. cbn [IoRead].
  set (b1 := set_data _ b).
  assert (Hb1 : db_bytes (sbf_data b1) = waiting ++ c0 :: chunk) by (cbn; by rw Hb).
  assert (Hlen1 : db_length (sbf_data b1) < 2 ^ 31) by (rw /db_length Hb1 length_app; lia).
  rw Hcut in Hb1.
  pose proof (OnRead_frames e stream session t s attachment b1 ms1 tl Hready) as Hread.
  destruct ms1 as [|m ms1].
  + rw Hread; [lia|lia|done..|].
    cbn [next_read mbind option_bind].
    exact (IH ms2 rest tl b1 e t Hready ltac:(lia) ltac:(lia) Hcap Hbcap Hch Hms2 Hfit2 Hrest Hinc Hb1 Htl Htail).
  + destruct Hread as (cs&Hall&->); [lia|lia|done..|].
    cbn [next_read mbind option_bind].
    set (e1 := after_read _ _ _ _).
    destruct (IH ms2 rest tl (next_buffer e stream tl) e1 _ (after_read_ready e stream session t s _ Hready))
      as (b'&e'&chains&Hrec&Hb'&Hq'&Hdel); try done; cbn; [lia| |].
    { rw length_app /=. lia. }
    exists b', e', (mkChain b1 cs :: chains). split_and!; [done..| |].
    * rw Hq' /= -app_assoc. done.
    * exact (Forall2_app Hall Hdel).
Qed.


(** ** Opening a session *)

Lemma read_session_prefix e stream t x :
session_pending e stream t x →
get_extension stream e = Ok (x, e, []) ∧ worker_of stream e = Ok (ts_worker_index t, e, []).
Proof.
intros [Hst [w Hw] Hx _]. split.
- rw /get_extension /get_stream /mbind /act_mbind /act_bind /get_state Hst /= Hx. done.
- rw /worker_of /get_stream /GetWorkerInfo /mbind /act_mbind /act_bind /get_state Hst /= Hw. done.
Qed.

(** What sending a packet that fits_buffer does when the stream has a buffer. *)
Lemma write_packet_run e stream t must (p : Packet C) er :
ne_streams e !! stream = Some t → 0 < ts_write_pool t → small_packet p →
12 + sp_get_needed_size p ≤ ne_write_buffer_capacity e →
write_packet stream must p er e =
  Ok ((), set_streams (alter (ts_set_write_pool (ts_write_pool t - 1)) stream (ne_streams e)) e,
      [TransmitWrite stream (mkSocketBuffer (mkDynamicBuffer (frame p er) (ne_write_buffer_capacity e)) stream false)]).
Proof.
intros Hst Hpool Hsm Hfit. rw /write_packet.
rw (bind_ok _ _ _ (Some (mkSocketBuffer (mkDynamicBuffer [] (ne_write_buffer_capacity e)) stream false))
  (set_streams (alter (ts_set_write_pool (ts_write_pool t - 1)) stream (ne_streams e)) e)).
{ rw /AllocateWriteBuffer /get_stream /mbind /act_mbind /act_bind /get_state Hst /=. by rw (proj2 (Z.ltb_lt _ _)). }
rw (bind_ok _ _ _ (mkSocketBuffer (mkDynamicBuffer [] (ne_write_buffer_capacity e)) stream false)
  (set_streams (alter (ts_set_write_pool (ts_write_pool t - 1)) stream (ne_streams e)) e)); [done|].
rw /serialize_into SerializePacket_frame; [done|]. cbn [sbf_data db_capacity].
by rw (proj2 (Z.ltb_ge _ _)).
Qed.

Lemma arr_get_alter {A} (f : A → A) (l : list A) i j : is_Some (arr_get l i) → is_Some (arr_get (alter f j l) i).
Proof.
rw /arr_get length_alter. case_match; [|done]. intros [x Hx].
destruct (decide (Z.to_nat i = j)) as [<-|Hne]; [rw list_lookup_alter_eq Hx|rw list_lookup_alter_ne; [congruence|]]; cbn; eauto.
Qed.

(** The end of opening a session: both heartbeat times are set. *)
Lemma open_session_run e stream t sid s :
ne_streams e !! stream = Some t → is_Some (arr_get (ne_worker_infos e) (ts_worker_index t)) →
ne_sessions e !! sid = Some s →
∃ e', open_session clock stream sid e = Ok ((), e', []) ∧
  (∃ s', ne_sessions e' !! sid = Some s' ∧ ss_session_state s' = ss_session_state s ∧
     ss_socket_stream s' = ss_socket_stream s ∧ ss_session_key s' = ss_session_key s) ∧
  ne_streams e' = ne_streams e ∧ is_Some (arr_get (ne_worker_infos e') (ts_worker_index t)) ∧
  ne_session_pool e' = ne_session_pool e ∧ ne_worker_queue e' = ne_worker_queue e ∧
  ne_read_buffer_capacity e' = ne_read_buffer_capacity e.
Proof.
intros Hst [w Hw] Hs. rw /open_session (bind_ok _ _ _ (ts_worker_index t) e).
{ rw /worker_of /get_stream /GetWorkerInfo /mbind /act_mbind /act_bind /get_state Hst /= Hw. done. }
eexists. split; [done|]. cbn. split_and!; try done.
- rw !lookup_alter_eq Hs. by eexists.
- apply arr_get_alter. eauto.
Qed.

Definition created_key e : SessionKey := random_key (ne_key_readings e).

Definition created_reply e (sid : Z) : Packet C := pkt_session_create_rs (mk_session_create_rs sid (created_key e)).

(** A session of the pool is opened on the stream and the peer is told its id
  and key. *)
Lemma on_session_create_rq_run e stream t x header cursor sid l s :
session_pending e stream t x → ne_session_pool e = sid :: l → ne_sessions e !! sid = Some s →
ss_session_state s = Opened ∨ ss_session_state s = Closed → ss_session_id s = sid → 0 < ts_write_pool t →
small_packet (created_reply e sid) → 12 + sp_get_needed_size (created_reply e sid) ≤ ne_write_buffer_capacity e →
(∃ q, DeserializePacketBody (C:=C) PacketType_session_create_rq (body_of header cursor) = Some (pkt_session_create_rq q)) →
∃ e' t' s', on_session_create_rq (C:=C) clock random_key stream header cursor e =
    Ok (SessionAccepted, e', [TransmitWrite stream (mkSocketBuffer
      (mkDynamicBuffer (frame (created_reply e sid) ErrorCode_None) (ne_write_buffer_capacity e)) stream false)]) ∧
  session_ready e' stream sid t' s' ∧ ts_read_pool t' = ts_read_pool t ∧ ss_session_key s' = created_key e ∧
  ne_session_pool e' = l ∧ ne_worker_queue e' = ne_worker_queue e ∧ ne_read_buffer_capacity e' = ne_read_buffer_capacity e.
Proof.
intros [Hst [w Hw] Hx Hxs] Hp Hs Hstate Hid Hpool Hsm Hfit [q Hq]. rw /on_session_create_rq Hq.
set (e1 := set_session_pool l e).
rw (bind_ok _ _ _ (Some sid) e1); [by rw /Pop_session /mbind /act_mbind /act_bind /get_state Hp|].
set (e2 := set_streams (alter (λ t, ts_set_user_data (ext_set_session (Some sid) <$> ts_user_data t) t) stream (ne_streams e1)) e1).
rw (bind_ok _ _ _ () e2); [done|].
set (s3 := (ChangeSessionState Closed Opened s).2).
set (e3 := set_sessions (alter (λ _, s3) sid (ne_sessions e2)) e2).
assert (Hs3 : ss_session_state s3 = Opened ∧ ss_session_id s3 = sid).
{ rw /s3 /ChangeSessionState. case: (decide (ss_session_state s = Closed)) => Hd; [done|]. by destruct Hstate. }
rw (bind_ok _ _ _ (bool_decide (ss_session_state s = Closed)) e3).
{ rw /change_state /get_session /mbind /act_mbind /act_bind /get_state /= Hs /= /e3 /s3 /ChangeSessionState.
  case: (decide (ss_session_state s = Closed)) => Hd; [by rw bool_decide_eq_true_2|by rw bool_decide_eq_false_2]. }
rw (bind_ok _ _ _ (created_key e) (set_key_readings (ne_key_readings e + 1) e3)); [done|].
set (e4 := set_key_readings (ne_key_readings e + 1) e3).
set (e5 := set_sessions (alter (ResetSessionKey (created_key e)) sid (ne_sessions e4)) e4).
rw (bind_ok _ _ _ () e5); [done|].
set (e6 := set_sessions (alter (ResetSocketStream (Some stream)) sid (ne_sessions e5)) e5).
rw (bind_ok _ _ _ () e6); [done|].
set (s6 := ResetSocketStream (Some stream) (ResetSessionKey (created_key e) s3)).
assert (Hs6 : ne_sessions e6 !! sid = Some s6) by (cbn; by rw !lookup_alter_eq Hs).
rw (bind_ok _ _ _ s6 e6); [by rw /get_session /mbind /act_mbind /act_bind /get_state Hs6|].
rw (_ : ss_session_id s6 = sid); [apply Hs3|]. change (ss_session_key s6) with (created_key e).
set (t2 := ts_set_user_data (Some (ext_set_session (Some sid) x)) t).
assert (Ht6 : ne_streams e6 !! stream = Some t2) by (cbn; by rw lookup_alter_eq Hst /= Hx).
set (e7 := set_streams (alter (ts_set_write_pool (ts_write_pool t2 - 1)) stream (ne_streams e6)) e6).
set (t7 := ts_set_write_pool (ts_write_pool t2 - 1) t2).
assert (Ht7 : ne_streams e7 !! stream = Some t7) by (cbn; by rw !lookup_alter_eq Hst /= Hx).
assert (Hwrite := write_packet_run e6 stream t2 false (created_reply e sid) ErrorCode_None Ht6 Hpool Hsm Hfit).
destruct (open_session_run e7 stream t7 sid s6 Ht7) as (e'&Hopen&(s'&Hs'&Ho'&Hso'&Hk')&Ht'&Hw'&Hp'&Hq'&Hc'); [by exists w|done|].
exists e', t7, s'. split_and!; try done.
- apply (bind_out _ _ e6 () e7 _ SessionAccepted e' [] Hwrite). by rw (bind_ok _ _ _ _ _ Hopen).
- split; try done; [by rw Ht'|]. rw Ho'. by destruct Hs3.
Qed.

(** C21: The first packet of an accepted connection, a request for a session: a
  session of the pool is opened on the stream, the peer gets its id and its
  fresh key, the worker is told, and the stream goes on reading; from then on
  [reassembly] applies. *)
Theorem session_created e stream t x attachment (b : SocketBuffer) (q : packet_session_create_rq) er sid l s :
session_pending e stream t x → ne_session_pool e = sid :: l → ne_sessions e !! sid = Some s →
ss_session_state s = Opened ∨ ss_session_state s = Closed → ss_session_id s = sid →
0 < ts_write_pool t → 0 < ts_read_pool t → Z.of_nat (length (ne_worker_queue e)) < BUFFER_SIZE →
small_packet (created_reply e sid) → 12 + sp_get_needed_size (created_reply e sid) ≤ ne_write_buffer_capacity e →
small_packet (pkt_session_create_rq q : Packet C) → 0 < sp_get_needed_size (pkt_session_create_rq q : Packet C) →
DeserializePacketBody (C:=C) PacketType_session_create_rq (sp_serialize (pkt_session_create_rq q)) = Some (pkt_session_create_rq q) →
db_bytes (sbf_data b) = frame (pkt_session_create_rq q : Packet C) er →
∃ e' t' s' c, OnRead (C:=C) clock random_key stream b attachment e =
    Ok ((), e', [TransmitWrite stream (mkSocketBuffer
                   (mkDynamicBuffer (frame (created_reply e sid) ErrorCode_None) (ne_write_buffer_capacity e)) stream false);
                 TransmitRead stream (next_buffer e stream []) attachment]) ∧
  session_ready e' stream sid t' s' ∧ ss_session_key s' = created_key e ∧ ne_session_pool e' = l ∧
  ne_worker_queue e' = ne_worker_queue e ++ [mkChain b [c]] ∧
  ctx_context_type c = SessionAccepted ∧ ctx_session c = sid.
Proof.
intros Hpend Hp Hs Hstate Hid Hwp Hrp Hqueue Hsm Hfit Hsq Hnq Hdes Hb.
destruct (read_session_prefix e stream t x Hpend) as [Hext Hwork].
set (m := (pkt_session_create_rq q : Packet C, er)).
pose proof (length_frame m.1 m.2) as Hf. cbn [fst snd m] in Hf. rw -Hb in Hf. fold (db_length (sbf_data b)) in Hf.
rw /small_packet in Hsq. set (n := sp_get_needed_size (pkt_session_create_rq q)) in *.
assert (Hbody : body_of (packet_header m.1 m.2) (mkCursor (sbf_data b) 12) = sp_serialize m.1).
{ destruct (frame_at (db_bytes (sbf_data b)) [] 0 m) as (_&_&Hb12&_); [done|by rw app_nil_r|].
  rw /body_of /Data /= Hb12 app_nil_r. apply take_ge. pose proof (sp_size m.1) as Hsz. cbn [m fst snd packet_header hdr_body_size] in Hsz |- *. lia. }
destruct (on_session_create_rq_run e stream t x (packet_header m.1 m.2) (mkCursor (sbf_data b) 12) sid l s)
  as (e1&t1&s1&Hrun&Hready&Hrp1&Hkey&Hpool&Hq1&Hcap); try done.
{ exists q. rw Hbody. exact Hdes. }
set (c := mkSocketContext SessionAccepted (packet_header m.1 m.2) sid 0 (mkCursor (sbf_data b) 12)).
set (r1 := mkReadState b (mkCursor (sbf_data b) (db_length (sbf_data b))) [c]).
exists (after_read e1 stream t1 (mkChain b [c])), (ts_set_read_pool (ts_read_pool t1 - 1) t1), s1, c.
split_and!; [|by apply after_read_ready|done|done|by rw /= Hq1|done..].
set (W := TransmitWrite stream _).
assert (Hproc : ProcessSessionPacket (C:=C) clock random_key stream (packet_header m.1 m.2) b (mkCursor (sbf_data b) 12)
  new_ConnectorInfo e = Ok ((SessionAccepted, new_ConnectorInfo, b), e1, [W])).
{ rw /ProcessSessionPacket (bind_ok _ _ _ _ _ Hwork) (bind_ok _ _ _ _ _ Hext) packet_is_header bool_decide_eq_true_2; [done|].
  apply (bind_out _ _ e SessionAccepted e1 [W] _ e1 [] Hrun). done. }
destruct (get_extension_ready e1 stream sid t1 s1 Hready) as (x1&Hx1&Hx1s).
assert (Hsess : read_session_packet (C:=C) clock random_key stream (packet_header m.1 m.2)
  (mkReadState b (mkCursor (sbf_data b) 12) []) e = Ok (Some r1, e1, [W])).
{ rw /read_session_packet. apply (bind_out _ _ e _ e1 [W] _ e1 [] Hproc).
  rw bool_decide_eq_false_2; [done|]. rw (bind_ok _ _ _ _ _ Hx1) Hx1s (bind_ok _ _ _ sid e1); [done|].
  cbn [cn_attachment new_ConnectorInfo rd_cursor rd_buffer rd_contexts PrepareSocketContext context_sequence length app].
  rw /rd_seek. cbn [rd_cursor rd_buffer rd_contexts cur_pos hdr_body_size packet_header m fst snd]. fold n.
  rw Seek_ok; [lia|cbn; lia|cbn; lia|]. rw (_ : cur_pos (mkCursor (sbf_data b) 12) + n = db_length (sbf_data b)); [cbn; lia|done]. }
assert (Hloop : ∀ fuel, read_loop (C:=C) clock random_key (S (S fuel)) stream attachment
  (mkReadState b (Cursor_of (sbf_data b)) []) e = Ok (Some r1, e1, [W])).
{ intros fuel. cbn [read_loop]. apply (bind_out _ _ e (true, Some r1) e1 [W] _ e1 []).
  - rw (read_iteration_head e stream attachment b 0 [] m [] x); [done|lia|done|by rw app_nil_r|done|].
    rw (sp_none _ _ _ _ Hpend). apply (bind_out _ _ e (Some r1) e1 [W] _ e1 []); [exact Hsess|done].
  - apply read_loop_incomplete; [split_and!; cbn; [done|lia|lia]|cbn; lia|].
    left. rw /rest_of /r1 /Data /= length_drop /db_length. lia. }
rw /OnRead (bind_ok _ _ _ _ _ Hwork).
apply (bind_out _ _ e (Some r1) e1 [W] () (after_read e1 stream t1 (mkChain b [c]))
  [TransmitRead stream (next_buffer e stream []) attachment]).
- rw (_ : S (_ + _) = S (S (Z.to_nat (db_capacity (sbf_data b)) + pred (length (db_bytes (sbf_data b))))))%nat; [|apply Hloop].
  rw /db_length in Hf. lia.
- rw (read_finish_submits e1 stream sid t1 s1 attachment r1 Hready); [lia|by rw Hq1|cbn; lia|done|].
  rw /next_buffer Hcap /rest_of /r1 /Data /=. rw drop_ge; [rw /db_length; lia|done].
Qed.
End reassembly.
