(* ===== verification/EngineLife.v ===== *)
(** * The life of sessions

    An invariant of the network engine and its worker queue, for engines without
    session reconnect (the setting of every program of the repository), and what
    follows for the worker thread. *)

From S2P Require Import Prelude.
From S2P Require Import Coordinate.
From S2P Require Import SectorGrid.
From S2P Require Import Fixture.
From S2P Require Import Packet.
From S2P Require Import Protocol.
From S2P Require Import Concurrent.
From S2P Require Import NetworkEngine.

Open Scope Z_scope.

(** ** What the invariant looks at *)

Record engine_view : Type := mkView {
  v_pool : list Z;
  v_abandoned : gmap Z Z;
  v_reconnect : bool;
  v_sessions : gmap Z (SessionState * option Z);
  v_streams : gmap Z (option Z);
  v_queue : list context_chain;
}.

Definition view (e : NetworkEngine) : engine_view :=
  mkView (ne_session_pool e) (ne_abandoned_session_list e) (neo_use_session_reconnect (ne_option e))
    ((λ s, (ss_session_state s, ss_socket_stream s)) <$> ne_sessions e)
    ((λ t, ts_user_data t ≫= ext_session) <$> ne_streams e) (ne_worker_queue e).

(** *** Actions that leave it alone *)

Definition quiet {A} (m : Act NetworkEngine engine_out A) : Prop :=
  ∀ e, match m e with Ok (_, e', _) => view e' = view e | Err _ => True end.

Create HintDb quiet.

Section quiet.
Notation M := (Act NetworkEngine engine_out).

Lemma quiet_ret {A} (a : A) : quiet (mret a).
Proof. done. Qed.
Lemma quiet_act_ret {A} (a : A) : quiet (act_ret a).
Proof. done. Qed.
Lemma quiet_get : quiet get_state.
Proof. done. Qed.
Lemma quiet_emit o : quiet (emit o).
Proof. done. Qed.
Lemma quiet_fail {A} f : quiet (A:=A) (fail f).
Proof. done. Qed.
Lemma quiet_lift {A} (r : result A) : quiet (lift r).
Proof. intros e. by destruct r. Qed.
Lemma quiet_check c b : quiet (check c b).
Proof. by destruct b. Qed.
Lemma quiet_bind {A B} (m : M A) (k : A → M B) : quiet m → (∀ a, quiet (k a)) → quiet (m ≫= k).
Proof.
intros Hm Hk e. rw /mbind /act_mbind /act_bind. specialize (Hm e). destruct (m e) as [[[a e1] o1]|]; [|done].
specialize (Hk a e1). destruct (k a e1) as [[[b e2] o2]|]; [|done]. by rw Hk.
Qed.
Lemma quiet_for_each {A} (l : list A) (body : A → M ()) : (∀ a, quiet (body a)) → quiet (for_each l body).
Proof. intros Hb. induction l as [|x l IH]; [done|]. cbn. by apply quiet_bind. Qed.

Lemma quiet_update_stream stream f :
(∀ t, ts_user_data (f t) ≫= ext_session = ts_user_data t ≫= ext_session) → quiet (update_stream stream f).
Proof.
intros Hf e. rw /update_stream /modify /view /=. f_equal. apply map_eq. intros k. rw !lookup_fmap.
destruct (decide (k = stream)) as [->|Hne].
- rw lookup_alter_eq. destruct (ne_streams e !! stream); [|done]. cbn. by rw Hf.
- by rw lookup_alter_ne; [congruence|].
Qed.

Lemma quiet_update_session session f :
(∀ s, ss_session_state (f s) = ss_session_state s ∧ ss_socket_stream (f s) = ss_socket_stream s) →
quiet (update_session session f).
Proof.
intros Hf e. rw /update_session /modify /view /=. f_equal. apply map_eq. intros k. rw !lookup_fmap.
destruct (decide (k = session)) as [->|Hne].
- rw lookup_alter_eq. destruct (ne_sessions e !! session) as [s|]; [|done]. cbn. destruct (Hf s) as [-> ->]. done.
- by rw lookup_alter_ne; [congruence|].
Qed.

Lemma quiet_update_worker w f : quiet (update_worker w f).
Proof. done. Qed.
Lemma quiet_modify f : (∀ e, view (f e) = view e) → quiet (modify f).
Proof. intros Hf e. apply Hf. Qed.
End quiet.

#[export] Hint Resolve quiet_ret quiet_act_ret quiet_get quiet_emit quiet_fail quiet_lift quiet_check
  quiet_update_worker : quiet.

(** Takes an action apart into its steps. *)
Ltac quiet_step :=
  match goal with
  | |- quiet (mbind _ _) => apply quiet_bind; [|intros ?]
  | |- quiet (update_stream _ _) => apply quiet_update_stream; intros ?; done
  | |- quiet (update_session _ _) => apply quiet_update_session; intros ?; done
  | |- quiet (for_each _ _) => apply quiet_for_each; intros ?
  | |- quiet (match ?x with _ => _ end) => destruct x
  | |- quiet (let '(_, _) := ?x in _) => destruct x
  | |- quiet _ => solve [eauto with quiet nocore]
  end.
Ltac quiet_solve := repeat quiet_step.

Section quiet_engine.
Context {C : Type} `{IterOrder} `{Indeterminate C} `{StructPack C}.
Notation Packet := (Packet C).

Lemma quiet_get_stream st : quiet (get_stream st).
Proof. rw /get_stream. quiet_solve. Qed.
Lemma quiet_get_session se : quiet (get_session se).
Proof. rw /get_session. quiet_solve. Qed.
Hint Resolve quiet_get_stream quiet_get_session : quiet.
Lemma quiet_get_extension st : quiet (get_extension st).
Proof. rw /get_extension. quiet_solve. Qed.
Lemma quiet_GetWorkerInfo w : quiet (GetWorkerInfo w).
Proof. rw /GetWorkerInfo. quiet_solve. Qed.
Hint Resolve quiet_get_extension quiet_GetWorkerInfo : quiet.
Lemma quiet_worker_of st : quiet (worker_of st).
Proof. rw /worker_of. quiet_solve. Qed.
Lemma quiet_AllocateReadBuffer st b : quiet (AllocateReadBuffer st b).
Proof. rw /AllocateReadBuffer. quiet_solve. Qed.
Lemma quiet_ReleaseReadBuffer st b : quiet (ReleaseReadBuffer st b).
Proof. rw /ReleaseReadBuffer. quiet_solve. Qed.
Lemma quiet_AllocateWriteBuffer st b : quiet (AllocateWriteBuffer st b).
Proof. rw /AllocateWriteBuffer. quiet_solve. Qed.
Lemma quiet_ReleaseWriteBuffer st b : quiet (ReleaseWriteBuffer st b).
Proof. rw /ReleaseWriteBuffer. quiet_solve. Qed.
Lemma quiet_serialize_into (p : Packet) er b : quiet (serialize_into p er b).
Proof. rw /serialize_into. quiet_solve. Qed.
Lemma quiet_GetSocketStream se : quiet (GetSocketStream se).
Proof. rw /GetSocketStream. quiet_solve. Qed.
Hint Resolve quiet_worker_of quiet_AllocateReadBuffer quiet_ReleaseReadBuffer quiet_AllocateWriteBuffer
quiet_ReleaseWriteBuffer quiet_serialize_into quiet_GetSocketStream : quiet.
Lemma quiet_write_packet st b (p : Packet) er : quiet (write_packet st b p er).
Proof. rw /write_packet. quiet_solve. Qed.
Lemma quiet_send_buffer se (p : Packet) er b : quiet (send_buffer se p er b).
Proof. rw /send_buffer. quiet_solve. Qed.
Hint Resolve quiet_write_packet quiet_send_buffer : quiet.
Lemma quiet_Send_must se (p : Packet) er : quiet (Send_must se p er).
Proof. rw /Send_must. quiet_solve. Qed.
Hint Resolve quiet_Send_must : quiet.
Lemma quiet_CloseSession se : quiet (CloseSession (C:=C) se).
Proof. rw /CloseSession. quiet_solve. Qed.
Hint Resolve quiet_CloseSession : quiet.
Lemma quiet_Send se (p : Packet) er : quiet (Send se p er).
Proof. rw /Send. quiet_solve. Qed.
Lemma quiet_TryAllocateReadBuffer se : quiet (Session_TryAllocateReadBuffer (C:=C) se).
Proof. rw /Session_TryAllocateReadBuffer. quiet_solve. Qed.
Lemma quiet_Session_ReleaseReadBuffer se b : quiet (Session_ReleaseReadBuffer se b).
Proof. rw /Session_ReleaseReadBuffer. quiet_solve. Qed.
Hint Resolve quiet_Send quiet_TryAllocateReadBuffer quiet_Session_ReleaseReadBuffer : quiet.
Lemma quiet_start_reading st : quiet (start_reading st).
Proof. rw /start_reading. quiet_solve. Qed.
Lemma quiet_rd_seek n r : quiet (rd_seek n r).
Proof. rw /rd_seek. quiet_solve. Qed.
Hint Resolve quiet_start_reading quiet_rd_seek : quiet.
Lemma quiet_RegisterConnectorSocket a att : quiet (RegisterConnectorSocket a att).
Proof. rw /RegisterConnectorSocket. quiet_solve; by apply quiet_modify. Qed.
Lemma quiet_UnregisterConnectorSocket id d : quiet (UnregisterConnectorSocket id d).
Proof. rw /UnregisterConnectorSocket. quiet_solve; by apply quiet_modify. Qed.
Lemma quiet_reconnect_connector x : quiet (reconnect_connector x).
Proof. rw /reconnect_connector. quiet_solve; by apply quiet_modify. Qed.
Lemma quiet_on_header_mismatch st x r : quiet (on_header_mismatch (C:=C) st x r).
Proof. rw /on_header_mismatch. quiet_solve. Qed.
Lemma quiet_tick_socket now st : quiet (tick_socket (C:=C) now st).
Proof. rw /tick_socket. quiet_solve. Qed.
Lemma quiet_tick_opened now l : quiet (tick_opened (C:=C) now l).
Proof. induction l as [|x l IH]; cbn [tick_opened]; quiet_solve. Qed.
End quiet_engine.

#[export] Hint Resolve quiet_get_stream quiet_get_session
  quiet_get_extension quiet_GetWorkerInfo quiet_worker_of quiet_AllocateReadBuffer quiet_ReleaseReadBuffer
  quiet_AllocateWriteBuffer quiet_ReleaseWriteBuffer quiet_serialize_into quiet_GetSocketStream quiet_write_packet
  quiet_send_buffer quiet_Send_must quiet_CloseSession quiet_Send quiet_TryAllocateReadBuffer
  quiet_Session_ReleaseReadBuffer quiet_start_reading quiet_rd_seek quiet_RegisterConnectorSocket
  quiet_UnregisterConnectorSocket quiet_reconnect_connector quiet_on_header_mismatch quiet_tick_socket
  quiet_tick_opened : quiet.

Section quiet_clock.
Variable clock : Z → Z.
Variable random_key : Z → SessionKey.

Lemma quiet_CurrentTick : quiet (CurrentTick clock).
Proof. done. Qed.
Lemma quiet_CurrentTick_ms : quiet (CurrentTick_ms clock).
Proof. rw /CurrentTick_ms. apply quiet_bind; done. Qed.
Lemma quiet_new_SessionKey : quiet (new_SessionKey random_key).
Proof. done. Qed.
Hint Resolve quiet_CurrentTick_ms : quiet.
Lemma quiet_open_session st se : quiet (open_session clock st se).
Proof. rw /open_session. quiet_solve. Qed.
End quiet_clock.

#[export] Hint Resolve quiet_CurrentTick quiet_CurrentTick_ms quiet_new_SessionKey quiet_open_session : quiet.

(** ** The invariant *)

Definition attached_session (v : engine_view) (stream : Z) : option Z := mjoin (v_streams v !! stream).

Definition chain_sid (c : context_chain) : Z :=
  match chain_contexts c with x :: _ => ctx_session x | [] => 0 end.

(** A chain that reports the end of a session. *)
Definition closing (c : context_chain) : bool :=
  match chain_contexts c with [x] => bool_decide (ctx_context_type x = SessionClosed) | _ => false end.

Definition data_type (t : ContextType) : Prop := t = SessionAccepted ∨ t = SessionConnected ∨ t = SessionData.

Record chain_ok (v : engine_view) (c : context_chain) : Prop := {
  co_nonempty : chain_contexts c ≠ [];
  co_session : Forall (λ x, ctx_session x = chain_sid c) (chain_contexts c);
  co_type : closing c = true ∨ Forall (λ x, data_type (ctx_context_type x)) (chain_contexts c);
  co_open : v_sessions v !! chain_sid c = Some (Opened, Some (sbf_stream (chain_buffer c)));
  co_stream : is_Some (v_streams v !! sbf_stream (chain_buffer c));
}.

(** Nothing of a session is queued behind its end. *)
Fixpoint closes_last (q : list context_chain) : Prop :=
  match q with
  | [] => True
  | c :: q => (closing c = true → Forall (λ c', chain_sid c' ≠ chain_sid c) q) ∧ closes_last q
  end.

Record engine_inv (v : engine_view) : Prop := {
  ei_reconnect : v_reconnect v = false;
  ei_abandoned : v_abandoned v = ∅;
  ei_states : ∀ sid st o, v_sessions v !! sid = Some (st, o) → st = Opened ∨ st = Closed;
  ei_attached : ∀ stream sid, attached_session v stream = Some sid →
    v_sessions v !! sid = Some (Opened, Some stream) ∧ sid ∉ v_pool v ∧
    ∀ c, c ∈ v_queue v → closing c = true → chain_sid c ≠ sid;
  ei_nodup : NoDup (v_pool v);
  ei_pool : ∀ sid, sid ∈ v_pool v → is_Some (v_sessions v !! sid) ∧ ∀ c, c ∈ v_queue v → chain_sid c ≠ sid;
  ei_queue : Forall (chain_ok v) (v_queue v);
  ei_order : closes_last (v_queue v);
}.

(** ** Triples over the view *)

Definition vwp {A} (m : Act NetworkEngine engine_out A) (v : engine_view) (Q : A → engine_view → Prop) : Prop :=
  ∀ e, view e = v → match m e with Ok (a, e', _) => Q a (view e') | Err _ => True end.

Definition v_set_pool l v := mkView l (v_abandoned v) (v_reconnect v) (v_sessions v) (v_streams v) (v_queue v).
Definition v_set_sessions m v := mkView (v_pool v) (v_abandoned v) (v_reconnect v) m (v_streams v) (v_queue v).
Definition v_set_streams m v := mkView (v_pool v) (v_abandoned v) (v_reconnect v) (v_sessions v) m (v_queue v).
Definition v_set_queue q v := mkView (v_pool v) (v_abandoned v) (v_reconnect v) (v_sessions v) (v_streams v) q.

Section vwp.
Notation M := (Act NetworkEngine engine_out).

Lemma vwp_bind {A B} (m : M A) (k : A → M B) v Q :
vwp m v (λ a v', vwp (k a) v' Q) → vwp (m ≫= k) v Q.
Proof.
intros Hm e He. rw /mbind /act_mbind /act_bind. specialize (Hm e He).
destruct (m e) as [[[a e1] o1]|]; [|done]. specialize (Hm e1 eq_refl).
destruct (k a e1) as [[[b e2] o2]|]; done.
Qed.

Lemma vwp_mono {A} (m : M A) v (Q Q' : A → engine_view → Prop) :
vwp m v Q → (∀ a v', Q a v' → Q' a v') → vwp m v Q'.
Proof. intros Hm HQ e He. specialize (Hm e He). destruct (m e) as [[[a e'] o]|]; auto. Qed.

Lemma vwp_quiet {A} (m : M A) v Q : quiet m → (∀ a, Q a v) → vwp m v Q.
Proof. intros Hm HQ e He. specialize (Hm e). destruct (m e) as [[[a e'] o]|]; [|done]. rw Hm He. apply HQ. Qed.

Lemma vwp_ret {A} (a : A) v Q : Q a v → vwp (mret a) v Q.
Proof. intros HQ e He. cbn. by rw He. Qed.

(** Reading the extension of a stream tells its session. *)
Lemma vwp_get_extension stream v Q :
(∀ x, attached_session v stream = ext_session x → Q x v) → vwp (get_extension stream) v Q.
Proof.
intros HQ e He. rw /get_extension /get_stream /mbind /act_mbind /act_bind /get_state.
destruct (ne_streams e !! stream) as [t|] eqn:Ht; [|done]. cbn. destruct (ts_user_data t) as [x|] eqn:Hx; [|done].
cbn. rw He. apply HQ. subst v. rw /attached_session /view /= lookup_fmap Ht /= Hx. done.
Qed.

Lemma vwp_lift {A} (r : result A) v Q : (∀ a, r = Ok a → Q a v) → vwp (lift r) v Q.
Proof. intros HQ e He. destruct r; [|done]. cbn. rw He. by apply HQ. Qed.

Lemma vwp_get_state v Q : (∀ e, view e = v → Q e v) → vwp get_state v Q.
Proof. intros HQ e He. cbn. rw He. by apply HQ. Qed.

Lemma vwp_Pop_session v Q :
(v_pool v = [] → Q None v) → (∀ x l, v_pool v = x :: l → Q (Some x) (v_set_pool l v)) → vwp Pop_session v Q.
Proof.
intros H1 H2 e He. rw /Pop_session /mbind /act_mbind /act_bind /get_state.
destruct (ne_session_pool e) as [|x l] eqn:Hp; cbn; subst v.
- by apply H1.
- by apply H2.
Qed.

(** Without an extension nothing is stored. *)
Lemma vwp_update_extension stream f o v Q :
(∀ x, ext_session (f x) = o) →
(attached_session v stream = None → Q () v) → Q () (v_set_streams (alter (λ _, o) stream (v_streams v)) v) → vwp (update_extension stream f) v Q.
Proof.
intros Hf H1 H2 e He. rw /update_extension /update_stream /modify.
destruct (ne_streams e !! stream ≫= ts_user_data) as [x|] eqn:Hx.
- assert (Hv : view (set_streams (alter (λ t, ts_set_user_data (f <$> ts_user_data t) t) stream (ne_streams e)) e) =
    v_set_streams (alter (λ _, o) stream (v_streams v)) v); [|by rw Hv].
  subst v. rw /view /v_set_streams /=. f_equal. apply map_eq. intros k. rw lookup_fmap.
  destruct (ne_streams e !! stream) as [t|] eqn:Ht; [|done]. cbn in Hx.
  destruct (decide (k = stream)) as [->|Hne].
  + rw !lookup_alter_eq lookup_fmap Ht /= Hx /= Hf. done.
  + rw !lookup_alter_ne; [congruence..|]. by rw lookup_fmap.
- assert (Hv : view (set_streams (alter (λ t, ts_set_user_data (f <$> ts_user_data t) t) stream (ne_streams e)) e) = v);
    [|rw Hv; apply H1; subst v; rw /attached_session /= lookup_fmap; destruct (ne_streams e !! stream); [exact (f_equal (mbind ext_session) Hx)|done]].
  subst v. rw /view /=. f_equal. apply map_eq. intros k. rw !lookup_fmap.
  destruct (decide (k = stream)) as [->|Hne]; [|by rw lookup_alter_ne; [congruence|]].
  rw lookup_alter_eq. destruct (ne_streams e !! stream) as [t|] eqn:Ht; [|done]. cbn in Hx |- *. by rw Hx.
Qed.

Lemma vwp_change_state sid x y v Q :
(∀ st o, v_sessions v !! sid = Some (st, o) →
   Q (bool_decide (st = x)) (v_set_sessions (<[sid := (if decide (st = x) then y else st, o)]> (v_sessions v)) v)) →
vwp (change_state sid x y) v Q.
Proof.
intros HQ e He. rw /change_state /get_session /mbind /act_mbind /act_bind /get_state.
destruct (ne_sessions e !! sid) as [s|] eqn:Hs; [|done]. cbn [lift from_option_ub].
assert (Hl : v_sessions v !! sid = Some (ss_session_state s, ss_socket_stream s)) by (subst v; by rw /= lookup_fmap Hs).
specialize (HQ _ _ Hl). rw /ChangeSessionState.
assert (Hgen : ∀ s', view (set_sessions (alter (λ _, s') sid (ne_sessions e)) e) =
  v_set_sessions (<[sid := (ss_session_state s', ss_socket_stream s')]> (v_sessions v)) v).
{ intros s'. subst v. rw /view /v_set_sessions /=. f_equal. apply map_eq. intros k. rw lookup_fmap.
  destruct (decide (k = sid)) as [->|Hne].
  - by rw lookup_alter_eq Hs lookup_insert_eq.
  - rw lookup_alter_ne; [congruence|]. rw lookup_insert_ne; [congruence|]. by rw lookup_fmap. }
destruct (decide (ss_session_state s = x)) as [Hx|Hx].
- rw bool_decide_eq_true_2 in HQ; [done|]. cbn. by rw Hgen.
- rw bool_decide_eq_false_2 in HQ; [done|]. cbn. by rw Hgen.
Qed.

Lemma vwp_reset_stream sid o v Q :
Q () (v_set_sessions (alter (λ so, (so.1, o)) sid (v_sessions v)) v) →
vwp (update_session sid (ResetSocketStream o)) v Q.
Proof.
intros HQ e He. rw /update_session /modify.
assert (Hv : view (set_sessions (alter (ResetSocketStream o) sid (ne_sessions e)) e) =
  v_set_sessions (alter (λ so, (so.1, o)) sid (v_sessions v)) v); [|by rw Hv].
subst v. rw /view /v_set_sessions /=. f_equal. apply map_eq. intros k. rw lookup_fmap.
destruct (decide (k = sid)) as [->|Hne].
- rw !lookup_alter_eq lookup_fmap. by destruct (ne_sessions e !! sid).
- rw !lookup_alter_ne; [congruence..|]. by rw lookup_fmap.
Qed.

Lemma vwp_Submit_chain c v Q :
Q false v → Q true (v_set_queue (v_queue v ++ [c]) v) → vwp (Submit_chain c) v Q.
Proof.
intros H1 H2 e He. rw /Submit_chain /mbind /act_mbind /act_bind /get_state. case: (_ <? _); cbn; by subst v.
Qed.

(** No session is ever abandoned, so none is found again. *)
Lemma vwp_remove_abandoned id f v Q :
v_abandoned v = ∅ → Q None v → vwp (remove_abandoned_if id f) v Q.
Proof.
intros Hv HQ e He. rw /remove_abandoned_if /mbind /act_mbind /act_bind /get_state.
assert (Hab : ne_abandoned_session_list e = ∅) by (by subst v). rw Hab /cm_RemoveIf lookup_empty. cbn.
rw (_ : view _ = v); [subst v; rw /view /= Hab; done|done].
Qed.
End vwp.

(** ** Steps of the invariant *)

Section invariant.
Implicit Types v : engine_view.

Lemma attached_session_alter v stream o st :
attached_session (v_set_streams (alter (λ _, o) stream (v_streams v)) v) st =
  if decide (st = stream) then (v_streams v !! stream) ≫= (λ _, o) else attached_session v st.
Proof.
rw /attached_session /=. destruct (decide (st = stream)) as [->|Hne].
- rw lookup_alter_eq. by destruct (v_streams v !! stream).
- by rw lookup_alter_ne; [congruence|].
Qed.

Lemma chain_ok_streams v c stream o :
chain_ok v c → chain_ok (v_set_streams (alter (λ _, o) stream (v_streams v)) v) c.
Proof.
intros [H1 H2 H3 H4 H5]. split; try done. cbn. destruct (decide (sbf_stream (chain_buffer c) = stream)) as [<-|Hne].
- rw lookup_alter_eq. destruct H5 as [? ->]. by eexists.
- by rw lookup_alter_ne; [congruence|].
Qed.

Lemma chain_ok_queue v c q : chain_ok v c → chain_ok (v_set_queue q v) c.
Proof. intros []. by split. Qed.

(** A stream loses its session. *)
Lemma inv_detach v stream :
engine_inv v → engine_inv (v_set_streams (alter (λ _, None) stream (v_streams v)) v).
Proof.
intros [H1 H2 H3 H4 H5 H6 H7 H8]. split; try done.
- intros st sid. rw attached_session_alter. case_decide; [|apply H4]. by destruct (v_streams v !! stream).
- eapply Forall_impl; [exact H7|]. intros c. apply chain_ok_streams.
Qed.

(** A session of the pool is opened on a stream. *)
Lemma inv_open v sid l stream :
engine_inv v → v_pool v = sid :: l →
let v' := v_set_sessions (<[sid := (Opened, Some stream)]> (v_sessions v)) (v_set_pool l v) in
engine_inv v' ∧ engine_inv (v_set_streams (alter (λ _, Some sid) stream (v_streams v)) v').
Proof.
intros [H1 H2 H3 H4 H5 H6 H7 H8] Hp v'. rw Hp in H4, H5, H6. apply NoDup_cons in H5 as [Hno H5].
assert (Hq : ∀ c, c ∈ v_queue v → chain_sid c ≠ sid) by (apply H6; by left).
assert (Hinv : engine_inv v').
{ split; try done; cbn.
  - intros sid' st o. destruct (decide (sid' = sid)) as [->|Hne].
    + rw lookup_insert_eq. intros [= <- <-]. by left.
    + rw lookup_insert_ne; [congruence|]. apply H3.
  - intros st sid' Hst. destruct (H4 st sid' Hst) as (Ha&Hb&Hc). apply not_elem_of_cons in Hb as [Hb1 Hb2].
    rw lookup_insert_ne; [congruence|]. done.
  - intros sid' Hsid. destruct (H6 sid') as [Ha Hb]; [by right|]. split; [|done].
    rw lookup_insert_ne; [congruence|]. done.
  - apply Forall_forall. intros c Hc. rw Forall_forall in H7. destruct (H7 c Hc) as [C1 C2 C3 C4 C5].
    split; try done. cbn. rw lookup_insert_ne; [|done]. pose proof (Hq c Hc). congruence. }
split; [done|]. destruct Hinv as [J1 J2 J3 J4 J5 J6 J7 J8]. split; try done.
- intros st sid' Hst. change (attached_session _ st) with (attached_session (v_set_streams (alter (λ _, Some sid) stream (v_streams v)) v) st) in Hst.
  rw attached_session_alter in Hst. case_decide as Hd; [subst st|by apply J4].
  destruct (v_streams v !! stream); [|done]. cbn in Hst. injection Hst as <-. cbn. rw lookup_insert_eq.
  split_and!; [done..|]. intros c Hc _. by apply Hq.
- eapply Forall_impl; [exact J7|]. intros c. apply (chain_ok_streams v').
Qed.

Lemma closes_last_app q c :
closes_last q → (∀ c', c' ∈ q → closing c' = true → chain_sid c ≠ chain_sid c') → closes_last (q ++ [c]).
Proof.
induction q as [|c0 q IH]; cbn; [intros _ _; by split|]. intros [H1 H2] Hc. split.
- intros Hcl. apply Forall_app. split; [by apply H1|]. apply Forall_singleton. apply Hc; [by left|done].
- apply IH; [done|]. intros c' Hc'. apply Hc. by right.
Qed.

(** A chain is submitted. *)
Lemma inv_submit v c :
engine_inv v → chain_ok v c → chain_sid c ∉ v_pool v →
(∀ c', c' ∈ v_queue v → closing c' = true → chain_sid c' ≠ chain_sid c) →
(closing c = true → ∀ stream, attached_session v stream ≠ Some (chain_sid c)) →
engine_inv (v_set_queue (v_queue v ++ [c]) v).
Proof.
intros [H1 H2 H3 H4 H5 H6 H7 H8] Hok Hpool Hlast Hclosing. split; try done; cbn.
- intros st sid Hst. destruct (H4 st sid Hst) as (Ha&Hb&Hc). split_and!; [done..|].
  intros c' [Hin|Hin%list_elem_of_singleton]%elem_of_app Hcl; [by apply Hc|]. subst c'. intros Heq.
  apply (Hclosing Hcl st). by rw Heq.
- intros sid Hsid. destruct (H6 sid Hsid) as [Ha Hb]. split; [done|].
  intros c' [Hin|Hin%list_elem_of_singleton]%elem_of_app; [by apply Hb|]. subst c'. congruence.
- apply Forall_app. split; [|by apply Forall_singleton, chain_ok_queue].
  eapply Forall_impl; [exact H7|]. intros c'. apply chain_ok_queue.
- apply closes_last_app; [done|]. intros c' Hin Hcl Heq. by apply (Hlast c' Hin Hcl).
Qed.

(** Data of an attached session. *)
Lemma inv_submit_data v stream sid (b : SocketBuffer) contexts :
engine_inv v → attached_session v stream = Some sid → sbf_stream b = stream → contexts ≠ [] →
Forall (λ x, ctx_session x = sid ∧ data_type (ctx_context_type x)) contexts →
engine_inv (v_set_queue (v_queue v ++ [mkChain b contexts]) v).
Proof.
intros Hinv Hst Hb Hne Hall. destruct (ei_attached v Hinv stream sid Hst) as (Ha&Hp&Hc).
destruct contexts as [|x contexts]; [done|].
assert (Hx : ctx_session x = sid ∧ data_type (ctx_context_type x)) by by inversion Hall.
assert (Hsid : chain_sid (mkChain b (x :: contexts)) = sid) by apply Hx.
assert (Hncl : closing (mkChain b (x :: contexts)) = false).
{ cbn. destruct contexts; [|done]. apply bool_decide_eq_false. destruct Hx as [_ [Hx|[Hx|Hx]]]; by rw Hx. }
apply inv_submit; rw ?Hsid ?Hncl; try done.
split; rw ?Hsid; cbn; try done.
- eapply Forall_impl; [exact Hall|]. naive_solver.
- right. eapply Forall_impl; [exact Hall|]. naive_solver.
- by rw Hb.
- rw Hb. rw /attached_session in Hst. destruct (v_streams v !! stream); [by eexists|done].
Qed.

(** The end of a session whose stream is detached. *)
Lemma inv_submit_close v stream sid (b : SocketBuffer) x :
engine_inv v → attached_session v stream = Some sid → sbf_stream b = stream →
ctx_session x = sid → ctx_context_type x = SessionClosed →
engine_inv (v_set_streams (alter (λ _, None) stream (v_streams v)) (v_set_queue (v_queue v ++ [mkChain b [x]]) v)).
Proof.
intros Hinv Hst Hb Hx Ht. destruct (ei_attached v Hinv stream sid Hst) as (Ha&Hp&Hc).
set (v1 := v_set_streams (alter (λ _, None) stream (v_streams v)) v).
change (engine_inv (v_set_queue (v_queue v1 ++ [mkChain b [x]]) v1)).
assert (Hcl : closing (mkChain b [x]) = true) by (cbn; by apply bool_decide_eq_true).
apply inv_submit; cbn [chain_sid chain_contexts]; rw ?Hx; try done.
- by apply inv_detach.
- split; cbn; rw ?Hx; try done.
  + by apply Forall_singleton.
  + left. exact Hcl.
  + by rw Hb.
  + rw Hb lookup_alter_eq. rw /attached_session in Hst. destruct (v_streams v !! stream); [by eexists|done].
- intros _ st. rw attached_session_alter. case_decide as Hd; [by destruct (v_streams v !! stream)|].
  intros Hst'. destruct (ei_attached v Hinv st sid Hst') as (Ha'&_). congruence.
Qed.

(** The worker takes a chain off the queue. *)
Lemma inv_take v c q :
engine_inv v → v_queue v = c :: q →
engine_inv (v_set_sessions (if closing c then alter (λ so, (so.1, None)) (chain_sid c) (v_sessions v) else v_sessions v)
  (v_set_queue q v)).
Proof.
intros [H1 H2 H3 H4 H5 H6 H7 H8] Hq. rw Hq in H4, H6, H7, H8. apply Forall_cons in H7 as [Hc H7]. destruct H8 as [Hlast H8].
destruct (closing c) eqn:Hcl.
- specialize (Hlast eq_refl). split; try done; cbn.
  + intros sid st o. destruct (decide (sid = chain_sid c)) as [->|Hne].
    * rw lookup_alter_eq. destruct (v_sessions v !! chain_sid c) as [[st' o']|] eqn:Hs; [|done].
      intros [= <- <-]. exact (H3 (chain_sid c) _ _ Hs).
    * rw lookup_alter_ne; [congruence|]. apply H3.
  + intros st sid Hst. destruct (H4 st sid Hst) as (Ha&Hb&Hd). split_and!; [|done|].
    * rw lookup_alter_ne; [|done]. apply (Hd c); [by left|done].
    * intros c' Hc'. apply Hd. by right.
  + intros sid Hsid. destruct (H6 sid Hsid) as [Ha Hb]. split; [|intros c' Hc'; apply Hb; by right].
    destruct (decide (sid = chain_sid c)) as [->|Hne]; [|by rw lookup_alter_ne; [congruence|]].
    exfalso. apply (Hb c); [by left|done].
  + rw Forall_forall in H7. rw Forall_forall in Hlast. apply Forall_forall. intros c' Hc'.
    destruct (H7 c' Hc') as [C1 C2 C3 C4 C5]. split; try done. cbn.
    rw lookup_alter_ne; [|done]. pose proof (Hlast c' Hc'). congruence.
- split; try done; cbn.
  + intros st sid Hst. destruct (H4 st sid Hst) as (Ha&Hb&Hd). split_and!; [done..|]. intros c' Hc'. apply Hd. by right.
  + intros sid Hsid. destruct (H6 sid Hsid) as [Ha Hb]. split; [done|]. intros c' Hc'. apply Hb. by right.
  + eapply Forall_impl; [exact H7|]. by intros c' [].
Qed.
End invariant.

(** ** The handlers keep it *)

Definition keeps {A} (m : Act NetworkEngine engine_out A) : Prop :=
  ∀ v, engine_inv v → vwp m v (λ _ v', engine_inv v').

Ltac vquiet := apply vwp_quiet; [quiet_solve|intros ?].
Ltac vbind := apply vwp_bind.

Lemma keeps_quiet {A} (m : Act NetworkEngine engine_out A) : quiet m → keeps m.
Proof. intros Hm v Hv. by apply vwp_quiet. Qed.

Lemma vwp_get_session sid v Q :
  (∀ s, v_sessions v !! sid = Some (ss_session_state s, ss_socket_stream s) → Q s v) → vwp (get_session sid) v Q.
Proof.
  intros HQ e He. rw /get_session /mbind /act_mbind /act_bind /get_state.
  destruct (ne_sessions e !! sid) as [s|] eqn:Hs; [|done]. cbn. rw He. apply HQ. subst v. by rw /= lookup_fmap Hs.
Qed.

Section handlers.
Context {C : Type} `{IterOrder} `{Indeterminate C} `{StructPack C}.
Variable clock : Z → Z.
Variable random_key : Z → SessionKey.

Lemma quiet_prepare_extension stream : quiet (prepare_extension stream).
Proof. apply quiet_update_stream. intros t. cbn. by destruct (ts_user_data t). Qed.
Hint Resolve quiet_prepare_extension : quiet.

Lemma OnAccept_keeps stream : keeps (OnAccept clock stream).
Proof.
intros v Hv. rw /OnAccept. vbind; vquiet. vbind; vquiet. vbind; vquiet. vbind; vquiet. vbind.
apply (vwp_update_extension _ _ None); [done|intros _|]; vquiet; [done|by apply inv_detach].
Qed.

Lemma OnConnect_keeps stream attachment : keeps (OnConnect (C:=C) clock stream attachment).
Proof.
intros v Hv. rw /OnConnect. vbind; vquiet. destruct stream as [stream|]; [|by vquiet].
vbind; vquiet. vbind; vquiet. vbind; vquiet. destruct (cm_TryGet _ _) as [info|]; [|by vquiet].
vbind. apply vwp_quiet; [by apply quiet_modify|intros _]. vbind; vquiet. vbind.
apply (vwp_update_extension _ _ None); [done|intros _|]; (vbind; vquiet; vquiet); [done|by apply inv_detach].
Qed.

(** Opening a session of the pool on a stream, as both create packets do it:
  popped and stored, then set to [Opened], then given the stream. *)
Definition opening (sid stream : Z) (v : engine_view) : Prop :=
engine_inv (v_set_sessions (<[sid := (Opened, Some stream)]> (v_sessions v)) v) ∧
∀ st o, v_sessions v !! sid = Some (st, o) → st = Opened ∨ st = Closed.

Definition opened (sid stream : Z) (v : engine_view) : Prop :=
engine_inv (v_set_sessions (alter (λ so, (so.1, Some stream)) sid (v_sessions v)) v).

Lemma vwp_begin_open {A} stream (k : option Z → Act NetworkEngine engine_out A) v Q :
engine_inv v →
(∀ v', engine_inv v' → vwp (k None) v' Q) → (∀ sid v', opening sid stream v' → vwp (k (Some sid)) v' Q) →
vwp (session ← Pop_session; set_extension_session stream session ;; k session) v Q.
Proof.
intros Hinv Hnone Hsome. vbind. apply vwp_Pop_session.
- intros _. vbind. apply (vwp_update_extension _ _ None); [done|intros _; by apply Hnone|].
  apply Hnone. by apply inv_detach.
- intros sid l Hp. destruct (inv_open v sid l stream Hinv Hp) as [Ha Hb].
  vbind. apply (vwp_update_extension _ _ (Some sid)); [done|intros _|]; apply Hsome;
    (split; [done|exact (ei_states v Hinv sid)]).
Qed.

Lemma vwp_change_opening sid stream v :
opening sid stream v → vwp (change_state sid Closed Opened) v (λ _ v', opened sid stream v').
Proof.
intros [Hinv Hst]. apply vwp_change_state. intros st o Hs. rw /opened /= alter_insert_eq.
rw (_ : (if decide (st = Closed) then Opened else st) = Opened); [|done].
case_decide; [done|]. by destruct (Hst st o Hs).
Qed.

Lemma on_session_create_rq_inv stream header cursor v :
engine_inv v →
vwp (on_session_create_rq (C:=C) clock random_key stream header cursor) v
  (λ t v', engine_inv v' ∧ (t = SessionError ∨ t = SessionAccepted)).
Proof.
intros Hv. rw /on_session_create_rq.
assert (Herr : vwp (mret SessionError) v (λ t v', engine_inv v' ∧ (t = SessionError ∨ t = SessionAccepted))).
{ apply vwp_ret. auto. }
destruct (DeserializePacketBody _ _) as [[]|]; try exact Herr.
apply vwp_begin_open; [done| |].
- intros v' Hv'. apply vwp_ret. auto.
- intros sid v1 Hop. vbind. eapply vwp_mono; [exact (vwp_change_opening _ _ _ Hop)|]. intros ? v2 Hv2.
  vbind; vquiet. vbind; vquiet. vbind. apply vwp_reset_stream. vbind; vquiet. vbind; vquiet. vbind; vquiet.
  apply vwp_ret. auto.
Qed.

Lemma on_session_create_rs_inv stream header cursor info v :
engine_inv v →
vwp (on_session_create_rs (C:=C) clock stream header cursor info) v
  (λ ti v', engine_inv v' ∧ (ti.1 = SessionError ∨ ti.1 = SessionConnected)).
Proof.
intros Hv. rw /on_session_create_rs. vbind; vquiet. case: (negb _); [by apply vwp_ret; auto|].
assert (Herr : vwp (mret (SessionError, info)) v (λ ti v', engine_inv v' ∧ (ti.1 = SessionError ∨ ti.1 = SessionConnected))).
{ apply vwp_ret. auto. }
destruct (DeserializePacketBody _ _) as [[]|]; try exact Herr. vbind; vquiet.
destruct (cm_TryGet _ _) as [inf|]; [|exact Herr].
apply vwp_begin_open; [done| |].
- intros v' Hv'. apply vwp_ret. auto.
- intros sid v1 Hop. vbind. eapply vwp_mono; [exact (vwp_change_opening _ _ _ Hop)|]. intros ? v2 Hv2.
  vbind; vquiet. vbind. apply vwp_reset_stream. vbind; vquiet. vbind; vquiet. apply vwp_ret. auto.
Qed.

Lemma on_session_auth_rq_inv stream header cursor v :
engine_inv v →
vwp (on_session_auth_rq (C:=C) clock stream header cursor) v (λ t v', engine_inv v' ∧ t = SessionError).
Proof.
intros Hv. rw /on_session_auth_rq.
assert (Herr : vwp (mret SessionError) v (λ t v', engine_inv v' ∧ t = SessionError)) by (by apply vwp_ret).
destruct (DeserializePacketBody _ _) as [[]|]; try exact Herr. vbind; vquiet. vbind.
apply vwp_remove_abandoned; [by destruct Hv|]. vbind; vquiet. exact Herr.
Qed.

Lemma vwp_overwrite stream (p : Packet C) b v Q :
(∀ b', sbf_stream b' = sbf_stream b → Q b' v) → vwp (overwrite_and_write stream p b) v Q.
Proof.
intros HQ e He. rw /overwrite_and_write /serialize_into /mbind /act_mbind /act_bind.
destruct (SerializePacket _ _ _) as [n [bytes|]]; [|done]. cbn. rw He. by apply HQ.
Qed.

Lemma on_session_auth_rs_inv stream header b cursor info v :
engine_inv v →
vwp (on_session_auth_rs (C:=C) clock stream header b cursor info) v
  (λ r v', engine_inv v' ∧ r.1.1 = SessionError ∧ sbf_stream r.2 = sbf_stream b).
Proof.
intros Hv. rw /on_session_auth_rs. vbind; vquiet.
assert (Herr : ∀ (i : ConnectorInfo) b', sbf_stream b' = sbf_stream b → vwp (mret (SessionError, i, b')) v
  (λ r v', engine_inv v' ∧ r.1.1 = SessionError ∧ sbf_stream r.2 = sbf_stream b)) by (intros; by apply vwp_ret).
destruct (DeserializePacketBody _ _) as [[]|]; try (by apply Herr). vbind. apply vwp_get_state. intros e He.
destruct (cm_TryGet _ _) as [inf|]; [|by apply Herr]. case: (negb _).
- case: (_ =? _).
  + vbind. apply vwp_overwrite. intros b' Hb'. by apply Herr.
  + assert (Hab : ne_abandoned_session_list e = ∅) by (destruct Hv; by subst v). rw /cm_Remove Hab lookup_empty.
    vbind; vquiet. vbind. apply vwp_overwrite. intros b' Hb'. by apply Herr.
- vbind. apply vwp_remove_abandoned; [by destruct Hv|]. vbind. apply vwp_overwrite. intros b' Hb'. by apply Herr.
Qed.

(** A session packet opens a session or fails. *)
Lemma ProcessSessionPacket_inv stream header b cursor info v :
engine_inv v →
vwp (ProcessSessionPacket (C:=C) clock random_key stream header b cursor info) v
  (λ r v', engine_inv v' ∧ (r.1.1 = SessionError ∨ data_type r.1.1) ∧ sbf_stream r.2 = sbf_stream b).
Proof.
intros Hv. rw /ProcessSessionPacket /data_type. vbind; vquiet. vbind; vquiet.
case: (packet_is _ _); [|case: (packet_is _ _); [|case: (packet_is _ _); [|case: (packet_is _ _)]]].
- vbind. eapply vwp_mono; [by apply on_session_create_rq_inv|]. intros t v' [Hv' Ht]. apply vwp_ret. cbn. naive_solver.
- vbind. eapply vwp_mono; [by apply on_session_create_rs_inv|]. intros [t i] v' [Hv' Ht]. apply vwp_ret. cbn in *. naive_solver.
- vbind. eapply vwp_mono; [by apply on_session_auth_rq_inv|]. intros t v' [Hv' Ht]. apply vwp_ret. cbn. naive_solver.
- eapply vwp_mono; [by apply on_session_auth_rs_inv|]. naive_solver.
- apply vwp_ret. auto.
Qed.

(** *** Reading *)

Lemma vwp_GetSocketStream sid v Q :
(∀ st stream, v_sessions v !! sid = Some (st, Some stream) → Q stream v) → vwp (GetSocketStream sid) v Q.
Proof.
intros HQ. rw /GetSocketStream. vbind. apply vwp_get_session. intros s Hs. vbind; vquiet.
intros e He. destruct (ss_socket_stream s) as [st|] eqn:Hst; [|done]. cbn. rw He. exact (HQ _ _ Hs).
Qed.

Lemma vwp_AllocateReadBuffer stream must v Q :
(∀ b : option SocketBuffer, (∀ b', b = Some b' → sbf_stream b' = stream) → Q b v) →
vwp (AllocateReadBuffer stream must) v Q.
Proof.
intros HQ e He. assert (Hq : quiet (AllocateReadBuffer stream must)) by quiet_solve. specialize (Hq e).
rw /AllocateReadBuffer /get_stream /mbind /act_mbind /act_bind /get_state in Hq |- *.
destruct (ne_streams e !! stream) as [t|]; [|done]. cbn in *. destruct (0 <? ts_read_pool t); cbn in *.
- rw Hq He. apply HQ. intros b' [= <-]. done.
- rw He. apply HQ. intros b'. destruct must; [|done]. intros [= <-]. done.
Qed.

Lemma vwp_TryAllocateReadBuffer sid stream v Q :
v_sessions v !! sid = Some (Opened, Some stream) →
(∀ b : option SocketBuffer, (∀ b', b = Some b' → sbf_stream b' = stream) → Q b v) →
vwp (Session_TryAllocateReadBuffer (C:=C) sid) v Q.
Proof.
intros Hs HQ. rw /Session_TryAllocateReadBuffer. vbind. apply vwp_GetSocketStream. intros st stream' Hs'.
assert (stream' = stream) as -> by congruence. vbind. apply vwp_AllocateReadBuffer. intros [b|] Hb.
- apply vwp_ret. by apply HQ.
- vbind; vquiet. vbind; vquiet. apply vwp_ret. by apply HQ.
Qed.

Lemma vwp_rd_seek n r v Q :
(∀ r', rd_buffer r' = rd_buffer r → rd_contexts r' = rd_contexts r → Q r' v) → vwp (rd_seek n r) v Q.
Proof.
intros HQ e He. rw /rd_seek /mbind /act_mbind /act_bind. destruct (Seek n (rd_cursor r)); [|done]. cbn. rw He. by apply HQ.
Qed.

(** The contexts prepared so far are those of the session of the stream. *)
Definition read_inv (v : engine_view) (stream : Z) (r : read_state) : Prop :=
sbf_stream (rd_buffer r) = stream ∧
(rd_contexts r = [] ∨ ∃ sid, attached_session v stream = Some sid ∧
   Forall (λ x, ctx_session x = sid ∧ data_type (ctx_context_type x)) (rd_contexts r)).

Definition read_post (stream : Z) (r : option read_state) (v : engine_view) : Prop :=
engine_inv v ∧ match r with Some r => read_inv v stream r | None => True end.

Lemma read_inv_eq v stream r r' :
rd_buffer r' = rd_buffer r → rd_contexts r' = rd_contexts r → read_inv v stream r → read_inv v stream r'.
Proof. rw /read_inv. by intros -> ->. Qed.

(** A context of the session is added. *)
Lemma read_inv_add v stream r c sid :
read_inv v stream r → attached_session v stream = Some sid → ctx_session c = sid → data_type (ctx_context_type c) →
read_inv v stream (mkReadState (rd_buffer r) (rd_cursor r) (rd_contexts r ++ [c])).
Proof.
intros [Hb Hc] Hs ??. split; [done|]. right. exists sid. split; [done|]. cbn. apply Forall_app.
split; [|by apply Forall_singleton]. destruct Hc as [->|(sid'&Hs'&Hall)]; [constructor|].
assert (sid' = sid) as -> by congruence. done.
Qed.

Lemma seek_post n stream r v :
engine_inv v → read_inv v stream r →
vwp (r ← rd_seek n r; mret (Some r)) v (read_post stream).
Proof.
intros Hv Hr. vbind. apply vwp_rd_seek. intros r' Hr1 Hr2. apply vwp_ret. split; [done|]. exact (read_inv_eq v stream r r' Hr1 Hr2 Hr).
Qed.

Lemma read_session_packet_inv stream header r v :
engine_inv v → read_inv v stream r → attached_session v stream = None →
vwp (read_session_packet (C:=C) clock random_key stream header r) v (read_post stream).
Proof.
intros Hv [Hb Hc] Hs. destruct Hc as [Hc|(sid&Hs'&_)]; [|congruence]. rw /read_session_packet. vbind.
eapply vwp_mono; [by apply ProcessSessionPacket_inv|]. intros [[t info] b] v1 (Hv1&Ht&Hb1). cbn in Ht, Hb1. cbn [rd_contexts].
assert (Hr1 : read_inv v1 stream (mkReadState b (mkCursor (sbf_data b) (cur_pos (rd_cursor r))) (rd_contexts r))).
{ split; [by rw Hb1|]. left. done. }
case_bool_decide as Hte; [by apply seek_post|]. destruct Ht as [?|Ht]; [done|].
vbind. apply vwp_get_extension. intros x Hx. vbind. apply vwp_lift. intros sid Hsid.
destruct (ext_session x) as [sid'|]; [|done]. cbn in Hsid. injection Hsid as ->.
rw /PrepareSocketContext. case: (_ >? _).
- vbind; vquiet. vbind; vquiet. by apply vwp_ret.
- apply seek_post; [done|]. by apply (read_inv_add v1 stream (mkReadState _ _ _) _ sid).
Qed.

Lemma read_data_packet_inv stream sid header attachment r v :
engine_inv v → read_inv v stream r → attached_session v stream = Some sid →
vwp (read_data_packet (C:=C) stream sid header attachment r) v (read_post stream).
Proof.
intros Hv Hr Hs. destruct (ei_attached v Hv stream sid Hs) as (Hopen&_).
assert (Hdata : data_type SessionData) by (rw /data_type; auto).
rw /read_data_packet. rw {1}/PrepareSocketContext. case: Z.gtb_spec => Hgt.
2:{ apply seek_post; [done|]. by apply (read_inv_add v stream r _ sid). }
assert (Hne : rd_contexts r ≠ []).
{ intros Hnil. rw /context_sequence Hnil /SIZEOF_SocketContext /SIZEOF_reserved /= in Hgt. lia. }
destruct Hr as [Hb [?|(sid'&Hs'&Hall)]]; [done|]. assert (sid' = sid) as -> by congruence.
rw /read_overflow. vbind. apply (vwp_TryAllocateReadBuffer sid stream); [done|]. intros [nb|] Hnb.
- specialize (Hnb nb eq_refl). vbind. apply vwp_Submit_chain; cbn [negb].
  + vbind; vquiet. vbind; vquiet. vbind; vquiet. by apply vwp_ret.
  + vbind. apply vwp_lift. intros c Hc. cbn in Hc. injection Hc as <-. apply seek_post.
    * by apply (inv_submit_data v stream sid).
    * split; [done|]. right. exists sid. split; [done|]. by apply Forall_singleton.
- vbind; vquiet. by apply vwp_ret.
Qed.

Lemma read_packet_inv stream sid header attachment r v :
engine_inv v → read_inv v stream r → attached_session v stream = Some sid →
vwp (read_packet (C:=C) clock stream sid header attachment r) v (read_post stream).
Proof.
intros Hv Hr Hs. rw /read_packet. case: (packet_is _ _); [|case: (packet_is _ _); [|case: (_ || _)]].
- vbind; vquiet. vbind; vquiet. vbind; vquiet. by apply seek_post.
- vbind; vquiet. vbind; vquiet. by apply seek_post.
- vbind; vquiet. vbind; vquiet. by apply vwp_ret.
- by apply read_data_packet_inv.
Qed.

Lemma read_iteration_inv stream attachment r v :
engine_inv v → read_inv v stream r →
vwp (read_iteration (C:=C) clock random_key stream attachment r) v (λ cr v', read_post stream cr.2 v').
Proof.
intros Hv Hr. rw /read_iteration. case: (negb _); [by apply vwp_ret|]. case: (_ <? _); [by apply vwp_ret|].
vbind. apply vwp_rd_seek. intros r1 Hr1 Hr1'. vbind; vquiet. vbind. apply vwp_rd_seek. intros r2 Hr2' Hr2''.
assert (Hr2 : read_inv v stream r2) by (apply (read_inv_eq v stream r); [congruence..|done]).
vbind. apply vwp_get_extension. intros x Hx. case: (_ <? _).
- vbind. rw /on_header_mismatch. vbind. apply vwp_quiet; [quiet_solve|intros _].
  vbind; vquiet. apply vwp_ret. by apply vwp_ret.
- vbind. destruct (ext_session x) as [sid|].
  + eapply vwp_mono; [by apply read_packet_inv|]. intros r' v' Hr'. by apply vwp_ret.
  + eapply vwp_mono; [by apply read_session_packet_inv|]. intros r' v' Hr'. by apply vwp_ret.
Qed.

Lemma read_loop_inv stream attachment fuel : ∀ r v,
engine_inv v → read_inv v stream r →
vwp (read_loop (C:=C) clock random_key fuel stream attachment r) v (read_post stream).
Proof.
induction fuel as [|fuel IH]; intros r v Hv Hr; cbn [read_loop]; [done|]. vbind.
eapply vwp_mono; [by apply read_iteration_inv|]. intros [b [r'|]] v' [Hv' Hr'].
- destruct b; [by apply IH|by apply vwp_ret].
- by apply vwp_ret.
Qed.

Lemma read_finish_inv stream attachment r v :
engine_inv v → read_inv v stream r →
vwp (read_finish (C:=C) stream attachment r) v (λ _ v', engine_inv v').
Proof.
intros Hv Hr. rw /read_finish. case: (_ <=? _); [by vquiet|]. vbind. apply vwp_get_extension. intros x Hx.
vbind. apply vwp_lift. intros sid Hsid. destruct (ext_session x) as [sid'|]; [|done]. cbn in Hsid. injection Hsid as ->.
destruct (ei_attached v Hv stream sid Hx) as (Hopen&_).
vbind. apply (vwp_TryAllocateReadBuffer sid stream); [done|]. intros [nb|] Hnb; [|by vquiet].
destruct Hr as [Hb Hc]. destruct (rd_contexts r) as [|c cs] eqn:Hcs; [vbind; vquiet; by vquiet|].
destruct Hc as [?|(sid'&Hs'&Hall)]; [done|]. assert (sid' = sid) as -> by congruence.
vbind. apply vwp_Submit_chain; cbn [negb].
- vbind; vquiet. vbind; vquiet. vbind; vquiet. by vquiet.
- vquiet. by apply (inv_submit_data v stream sid).
Qed.

Lemma OnRead_keeps stream b attachment :
sbf_stream b = stream → keeps (OnRead (C:=C) clock random_key stream b attachment).
Proof.
intros Hb v Hv. rw /OnRead. vbind; vquiet. vbind.
eapply vwp_mono; [apply read_loop_inv; [done|split; [done|by left]]|]. intros [r|] v' [Hv' Hr].
- by apply read_finish_inv.
- by apply vwp_ret.
Qed.

Lemma IoRead_keeps stream b attachment received :
sbf_stream b = stream → keeps (IoRead (C:=C) clock random_key stream b attachment received).
Proof.
intros Hb v Hv. rw /IoRead. destruct received as [|x received].
- vbind; vquiet. by vquiet.
- by apply (OnRead_keeps stream).
Qed.

Lemma OnWrite_keeps stream b : keeps (OnWrite stream b).
Proof. apply keeps_quiet. rw /OnWrite. quiet_solve. Qed.

(** *** Disconnecting *)

Lemma abandon_session_inv stream sid attachment v :
engine_inv v → vwp (abandon_session stream sid attachment) v (λ t v', v' = v ∧ t = SessionClosed).
Proof.
intros Hv. rw /abandon_session. vbind. apply vwp_get_state. intros e He.
assert (Hr : neo_use_session_reconnect (ne_option e) = false) by (destruct Hv; by subst v).
rw Hr Bool.andb_false_r. by apply vwp_ret.
Qed.

Lemma OnDisconnect_keeps stream attachment : keeps (OnDisconnect (C:=C) stream attachment).
Proof.
intros v Hv. rw /OnDisconnect. vbind; vquiet. vbind. apply vwp_get_extension. intros x Hx. vbind; vquiet. vbind; vquiet.
destruct (ext_session x) as [sid|]; [|by apply vwp_ret]. vbind.
eapply vwp_mono; [by apply abandon_session_inv|]. intros t v' [-> ->]. vbind. apply vwp_AllocateReadBuffer. intros b Hb.
vbind. apply vwp_lift. intros b' Hb'. destruct b as [b|]; [|done]. cbn in Hb'. injection Hb' as ->.
specialize (Hb b' eq_refl). vbind; vquiet. vbind; vquiet. vbind. rw /SendSocketContext. vbind. apply vwp_lift. intros c Hc.
cbn in Hc. injection Hc as <-. vbind. apply vwp_Submit_chain.
- vbind; vquiet. vbind; vquiet. vquiet. apply (vwp_update_extension _ _ None); [done|done|]. by apply inv_detach.
- apply vwp_ret. apply (vwp_update_extension _ _ None); [done| |].
  + intros Hnone. change (attached_session v stream = None) in Hnone. congruence.
  + by apply (inv_submit_close v stream sid).
Qed.

(** *** Tick *)

Lemma tick_abandoned_keeps now l : keeps (tick_abandoned (C:=C) now l).
Proof.
induction l as [|sid l IH]; intros v Hv; cbn [tick_abandoned]; [by apply vwp_ret|]. vbind; vquiet. vbind.
apply vwp_get_session. intros s Hs. rw bool_decide_eq_false_2; [|by apply IH].
intros Hw. rw Hw in Hs. by destruct (ei_states v Hv _ _ _ Hs).
Qed.

Lemma OnTick_keeps w : keeps (OnTick (C:=C) clock w).
Proof.
intros v Hv. rw /OnTick. vbind; vquiet. vbind; vquiet. vbind. apply vwp_quiet; [apply quiet_for_each; intros ?; quiet_solve|intros _].
vbind; vquiet. vbind; vquiet. vbind; vquiet. vbind; vquiet. vbind.
eapply vwp_mono; [by apply tick_abandoned_keeps|]. intros deleted v' Hv'. by vquiet.
Qed.
End handlers.

(** ** The worker *)

Section worker.
Context {C : Type} `{IterOrder} `{Indeterminate C} `{StructPack C}.

(** The session and the stream of a chain, as the worker finds them. *)
Record chain_ready (e : NetworkEngine) (sid : Z) (b : SocketBuffer) : Prop := {
cr_session : ∃ s, ne_sessions e !! sid = Some s ∧ ss_session_state s = Opened ∧ ss_socket_stream s = Some (sbf_stream b);
cr_stream : is_Some (ne_streams e !! sbf_stream b);
}.

Lemma chain_ok_ready e c : chain_ok (view e) c → chain_ready e (chain_sid c) (chain_buffer c).
Proof.
intros [_ _ _ Ho Hs]. cbn in Ho, Hs. rw lookup_fmap in Ho. rw lookup_fmap in Hs. split.
- destruct (ne_sessions e !! chain_sid c) as [s|]; [|done]. exists s. cbn in Ho. injection Ho as -> ->. done.
- by apply fmap_is_Some in Hs.
Qed.

(** The worker can give the buffer back. *)
Lemma Session_ReleaseReadBuffer_run e sid b :
chain_ready e sid b → ∃ e', Session_ReleaseReadBuffer sid b e = Ok ((), e', []) ∧ view e' = view e.
Proof.
intros [(s&Hs&Hop&Hso) [t Ht]].
assert (Hq : quiet (Session_ReleaseReadBuffer sid b)) by quiet_solve. specialize (Hq e). revert Hq.
rw /Session_ReleaseReadBuffer (bind_ok _ _ _ (sbf_stream b) e).
{ rw /GetSocketStream /get_session /mbind /act_mbind /act_bind /get_state Hs /= Hop /= Hso. done. }
rw /ReleaseReadBuffer /get_stream /mbind /act_mbind /act_bind /get_state Ht /= Z.eqb_refl /=.
destruct (sbf_heap b); cbn; eauto.
Qed.

(** Releasing a context that is not the end of its session. *)
Lemma Release_context_run e b refs x :
chain_ready e (ctx_session x) b → ctx_context_type x ≠ SessionClosed →
∃ e', Release_context b refs x e = Ok ((), e', []) ∧ view e' = view e.
Proof.
intros Hready Hty. rw /Release_context. case: (_ <=? _); [|by eexists].
destruct (Session_ReleaseReadBuffer_run e _ b Hready) as (e'&Hrun&Hv). exists e'. split; [|done].
rw (bind_ok _ _ _ _ _ Hrun). by rw bool_decide_eq_false_2.
Qed.

Lemma chain_ready_view e e' sid b : view e' = view e → chain_ready e sid b → chain_ready e' sid b.
Proof.
intros Hv [(s&Hs&Hop&Hso) [t Ht]].
apply (f_equal (λ v, (v_sessions v !! sid, v_streams v !! sbf_stream b))) in Hv. cbn in Hv.
rw !lookup_fmap Hs Ht /= in Hv. split.
- destruct (ne_sessions e' !! sid) as [s'|]; [|done]. exists s'. cbn in Hv. naive_solver congruence.
- destruct (ne_streams e' !! sbf_stream b); [by eexists|done].
Qed.

Lemma dispatch_context_run e x :
data_type (ctx_context_type x) → (∃ s, ne_sessions e !! ctx_session x = Some s ∧ ss_session_state s = Opened) →
dispatch_context x e = Ok ((), e, [OnSocketSession x]).
Proof.
intros Hty (s&Hs&Hop). rw /dispatch_context. destruct Hty as [Ht|[Ht|Ht]]; rw Ht; [done..|].
by rw /get_session /mbind /act_mbind /act_bind /get_state Hs /= Hop /=.
Qed.

Lemma update_chain_data b sid contexts : ∀ e refs,
chain_ready e sid b → Forall (λ x, ctx_session x = sid ∧ data_type (ctx_context_type x)) contexts →
∃ e', update_chain b refs contexts e = Ok ((), e', OnSocketSession <$> contexts) ∧ view e' = view e.
Proof.
induction contexts as [|x contexts IH]; intros e refs Hready Hall; [by eexists|].
apply Forall_cons in Hall as [[Hsid Hty] Hall]. subst sid. cbn [update_chain].
assert (Hnc : ctx_context_type x ≠ SessionClosed) by (destruct Hty as [Ht|[Ht|Ht]]; by rw Ht).
destruct (Release_context_run e b refs x Hready Hnc) as (e1&Hrel&Hv1).
destruct (IH e1 (refs - 1) (chain_ready_view e e1 _ b Hv1 Hready) Hall) as (e2&Hrun&Hv2).
exists e2. split; [|congruence].
change (OnSocketSession <$> x :: contexts) with ([OnSocketSession x] ++ (OnSocketSession <$> contexts)).
apply (bind_out _ _ e () e [OnSocketSession x] () e2 (OnSocketSession <$> contexts)).
- apply dispatch_context_run; [done|]. destruct Hready as [(s&?&?&?) _]. eauto.
- rw (bind_ok _ _ _ _ _ Hrel). by rw bool_decide_eq_false_2.
Qed.

Lemma update_chain_close e b x :
chain_ready e (ctx_session x) b → ctx_context_type x = SessionClosed →
∃ e', update_chain b 1 [x] e = Ok ((), e', [OnSocketSession x]) ∧
  view e' = v_set_sessions (alter (λ so, (so.1, None)) (ctx_session x) (v_sessions (view e))) (view e).
Proof.
intros Hready Hty. cbn [update_chain].
destruct (Session_ReleaseReadBuffer_run e _ b Hready) as (e1&Hrun&Hv1).
assert (Hreset : vwp (update_session (ctx_session x) (ResetSocketStream None)) (view e1)
  (λ _ v', v' = v_set_sessions (alter (λ so, (so.1, None)) (ctx_session x) (v_sessions (view e))) (view e))).
{ apply vwp_reset_stream. by rw Hv1. }
exists (set_sessions (alter (ResetSocketStream None) (ctx_session x) (ne_sessions e1)) e1).
split; [|exact (Hreset e1 eq_refl)].
apply (bind_out _ _ e () e [OnSocketSession x] () _ []); [by rw /dispatch_context Hty|].
rw (bind_ok _ _ _ () (set_sessions (alter (ResetSocketStream None) (ctx_session x) (ne_sessions e1)) e1)).
- rw /Release_context Z.sub_diag /= (bind_ok _ _ _ _ _ Hrun) Hty. done.
- by rw Hty.
Qed.

(** The worker takes the first chain. *)
Definition worker_take : Act NetworkEngine engine_out () :=
e ← get_state;
match ne_worker_queue e with
| [] => mret ()
| c :: q => modify (set_worker_queue q) ;; UpdateContext [c]
end.

(** Every assertion of [UpdateContext] and of the buffers' way back holds: the
  worker calls the handlers for all contexts of the chain, in order, and
  returns. *)
Lemma worker_take_run e :
engine_inv (view e) →
∃ e', worker_take e = Ok ((), e', OnSocketSession <$> default [] (chain_contexts <$> head (ne_worker_queue e))) ∧
  ne_worker_queue e' = tail (ne_worker_queue e) ∧ engine_inv (view e').
Proof.
intros Hinv. rw /worker_take /mbind /act_mbind {1}/act_bind /get_state.
destruct (ne_worker_queue e) as [|c q] eqn:Hq; [exists e; by rw Hq|].
pose proof (inv_take (view e) c q Hinv Hq) as Htake.
assert (Hok : chain_ok (view e) c) by (pose proof (ei_queue _ Hinv) as Hall; rw /= Hq in Hall; by inversion Hall).
assert (Hready : chain_ready (set_worker_queue q e) (chain_sid c) (chain_buffer c)).
{ by destruct (chain_ok_ready e c Hok). }
assert (Hrun : ∃ e', update_chain (chain_buffer c) (Z.of_nat (length (chain_contexts c))) (chain_contexts c)
    (set_worker_queue q e) = Ok ((), e', OnSocketSession <$> chain_contexts c) ∧
  view e' = v_set_sessions (if closing c then alter (λ so, (so.1, None)) (chain_sid c) (v_sessions (view e))
                            else v_sessions (view e)) (v_set_queue q (view e))).
{ destruct Hok as [Hne Hses Hty _ _]. destruct c as [b contexts]. cbn [chain_buffer chain_contexts] in *.
  destruct Hty as [Hcl|Hty].
  - rw Hcl. destruct contexts as [|x [|]]; [done| |done]. cbn in Hcl. apply bool_decide_eq_true in Hcl.
    exact (update_chain_close (set_worker_queue q e) b x Hready Hcl).
  - assert (Hcl : closing (mkChain b contexts) = false).
    { rw /closing /=. destruct contexts as [|x [|]]; [done| |done]. apply bool_decide_eq_false.
      apply Forall_cons in Hty as [[Ht|[Ht|Ht]] _]; by rw Ht. }
    rw Hcl. destruct (update_chain_data b (chain_sid (mkChain b contexts)) contexts (set_worker_queue q e)
      (Z.of_nat (length contexts)) Hready) as (e'&Hrun&Hv).
    { apply Forall_forall. intros x Hx. rw Forall_forall in Hses. rw Forall_forall in Hty. auto. }
    exists e'. by rw Hrun Hv. }
destruct Hrun as (e'&Hrun&Hv). exists e'. split_and!.
- rw /UpdateContext /= /mbind /act_mbind /act_bind /modify Hrun /= app_nil_r. done.
- by apply (f_equal v_queue) in Hv.
- by rw Hv.
Qed.
End worker.

(** ** Runs *)

Section runs.
Context {C : Type} `{IterOrder} `{Indeterminate C} `{StructPack C}.
Variable clock : Z → Z.
Variable random_key : Z → SessionKey.

(** What the threads of the process execute: the socket layer's events, the
  connectors of the game server, and the worker. *)
Inductive handler : Act NetworkEngine engine_out () → Prop :=
| h_accept stream : handler (OnAccept clock stream)
| h_connect stream attachment : handler (OnConnect (C:=C) clock stream attachment)
| h_read stream b attachment received :
  sbf_stream b = stream → handler (IoRead (C:=C) clock random_key stream b attachment received)
| h_write stream b : handler (OnWrite stream b)
| h_disconnect stream attachment : handler (OnDisconnect (C:=C) stream attachment)
| h_tick w : handler (OnTick (C:=C) clock w)
| h_register address attachment : handler (RegisterConnectorSocket address attachment ;; mret ())
| h_unregister id delete_attachment : handler (UnregisterConnectorSocket id delete_attachment)
| h_worker : handler worker_take.

(** Handlers that return, new streams, and sessions that go back to the pool
  when the last pointer to them is gone. *)
Inductive engine_step : NetworkEngine → NetworkEngine → Prop :=
| es_handler m e e' o : handler m → m e = Ok ((), e', o) → engine_step e e'
| es_stream stream t e :
  ne_streams e !! stream = None → ts_user_data t = None →
  engine_step e (set_streams (<[stream := t]> (ne_streams e)) e)
| es_session sid e :
  sid ∉ ne_session_pool e → is_Some (ne_sessions e !! sid) →
  (∀ stream, attached_session (view e) stream ≠ Some sid) → (∀ c, c ∈ ne_worker_queue e → chain_sid c ≠ sid) →
  engine_step e (set_session_pool (sid :: ne_session_pool e) e).

Lemma handler_keeps m : handler m → keeps m.
Proof.
intros [stream|stream att|stream b att received Hb|stream b|stream att|w|address att|id d|].
- apply OnAccept_keeps.
- apply OnConnect_keeps.
- by apply IoRead_keeps.
- apply OnWrite_keeps.
- apply OnDisconnect_keeps.
- apply OnTick_keeps.
- apply keeps_quiet. quiet_solve.
- apply keeps_quiet. quiet_solve.
- intros v Hv e He. subst v. destruct (worker_take_run e Hv) as (e'&->&_&Hinv). done.
Qed.

Lemma engine_step_inv e e' : engine_step e e' → engine_inv (view e) → engine_inv (view e').
Proof.
intros [m e0 e0' o Hm Hrun|stream t e0 Hst Ht|sid e0 Hp Hs Hatt Hq] Hinv.
- pose proof (handler_keeps m Hm _ Hinv e0 eq_refl) as Hk. by rw Hrun in Hk.
- assert (Hsessions : ∀ st, attached_session (view (set_streams (<[stream := t]> (ne_streams e0)) e0)) st = attached_session (view e0) st).
  { intros st. rw /attached_session /= !lookup_fmap. destruct (decide (st = stream)) as [->|Hne].
    - by rw lookup_insert_eq Hst /= Ht.
    - by rw lookup_insert_ne; [congruence|]. }
  destruct Hinv as [I1 I2 I3 I4 I5 I6 I7 I8]. split; try done.
  + intros st sid. rw Hsessions. apply I4.
  + eapply Forall_impl; [exact I7|]. intros c [C1 C2 C3 C4 C5]. split; try done. cbn in *.
    rw lookup_fmap. rw lookup_fmap in C5. destruct (decide (sbf_stream (chain_buffer c) = stream)) as [->|Hne].
    * by rw lookup_insert_eq.
    * by rw lookup_insert_ne; [congruence|].
- destruct Hinv as [I1 I2 I3 I4 I5 I6 I7 I8]. split; try done; cbn.
  + intros st sid' Hst. destruct (I4 st sid' Hst) as (Ha&Hb&Hc). split_and!; [done| |done].
    apply not_elem_of_cons. split; [|done]. intros ->. by apply (Hatt st).
  + by apply NoDup_cons.
  + intros sid' [->|Hin]%elem_of_cons; [|by apply I6]. split; [|done]. rw lookup_fmap. by apply fmap_is_Some.
  + eapply Forall_impl; [exact I7|]. by intros c [].
Qed.

(** An engine without session reconnect, over streams fresh from their pools. *)
Lemma new_NetworkEngine_inv option config streams key :
neo_use_session_reconnect option = false → map_Forall (λ _ t, ts_user_data t = None) streams →
engine_inv (view (new_NetworkEngine option config streams key)).
Proof.
intros Hr Hs.
assert (Hses : ∀ sid, sid ∈ seqZ 1 (neo_max_session_count option) →
  (list_to_map ((λ id, (id, new_SocketSession key id)) <$> seqZ 1 (neo_max_session_count option)) : gmap Z _) !! sid =
    Some (new_SocketSession key sid)).
{ intros sid Hsid. apply elem_of_list_to_map; [|by apply list_elem_of_fmap_2 with (f := λ id, (id, new_SocketSession key id))].
  rw -list_fmap_compose list_fmap_id. apply NoDup_seqZ. }
split; cbn; try done.
- intros sid st o. rw lookup_fmap. destruct (_ !! sid) as [s|] eqn:Hl; [|done].
  apply elem_of_list_to_map_2, list_elem_of_fmap in Hl as (id&Heq&_). injection Heq as <- ->. intros [= <- <-]. by right.
- intros st sid. rw /attached_session /= lookup_fmap. destruct (streams !! st) as [t|] eqn:Ht; [|done].
  cbn. by rw (Hs st t Ht).
- rw reverse_Permutation. apply NoDup_seqZ.
- intros sid Hsid. rw elem_of_reverse in Hsid. split; [|set_solver]. rw lookup_fmap (Hses sid Hsid). by eexists.
Qed.

End runs.
