(* ===== verification/EngineFaults.v ===== *)
(** * What the network engine gets wrong

    Inputs under which the handlers of [NetworkEngine.cpp] leave the paths of
    [EngineRead] and [EngineLife]: streams without a session, more packets in a
    read than a buffer has room for contexts, and sessions set aside for a
    reconnect. *)

From S2P Require Import Prelude.
From S2P Require Import Coordinate.
From S2P Require Import SectorGrid.
From S2P Require Import Fixture.
From S2P Require Import Packet.
From S2P Require Import Protocol.
From S2P Require Import Concurrent.
From S2P Require Import NetworkEngine.
From S2P Require Import EngineRead.

Open Scope Z_scope.

(** The packets that can open a session. *)
Definition session_packet (t : PacketType) : bool :=
  match t with
  | PacketType_session_create_rq | PacketType_session_create_rs | PacketType_session_auth_rq
  | PacketType_session_auth_rs => true
  | _ => false
  end.

Section faults.
Context {C : Type} `{IterOrder} `{Indeterminate C} `{StructPack C} `{!StructPackSize C}.
Context (clock : Z → Z) (random_key : Z → SessionKey).
Implicit Types (e : NetworkEngine) (m : Packet C * ErrorCode).

Notation frame_of m := (frame m.1 m.2).


(** *** No session *)

(** C37: A stream without a session that receives any complete packet but the four
  that open one: the loop logs and skips it, and the code behind the loop
  dereferences the null session pointer. *)
Theorem unauthenticated_packet_faults e stream t x attachment (b : SocketBuffer) m :
session_pending e stream t x → db_length (sbf_data b) < 2 ^ 31 →
session_packet (PACKET_TYPE m.1) = false → small_packet m.1 → 0 < sp_get_needed_size m.1 →
db_bytes (sbf_data b) = frame_of m →
OnRead (C:=C) clock random_key stream b attachment e = Err (UndefinedBehaviour "extension_info->session").
Proof.
intros [Hst [w Hw] Hx Hnone] Hlen Hsp Hsm Hn Hb.
assert (Hext : get_extension stream e = Ok (x, e, [])).
{ rw /get_extension /get_stream /mbind /act_mbind /act_bind /get_state Hst /= Hx. done. }
assert (Hwork : worker_of stream e = Ok (ts_worker_index t, e, [])).
{ rw /worker_of /get_stream /GetWorkerInfo /mbind /act_mbind /act_bind /get_state Hst /= Hw. done. }
pose proof (length_frame m.1 m.2) as Hf. rw -Hb in Hf. fold (db_length (sbf_data b)) in Hf. rw /small_packet in Hsm.
set (r1 := mkReadState b (mkCursor (sbf_data b) (db_length (sbf_data b))) []).
rw /OnRead (bind_ok _ _ _ _ _ Hwork). rw (bind_ok _ _ _ (Some r1) e).
- cbn [Nat.add read_loop]. rw (bind_ok _ _ _ (true, Some r1) e).
  + rw (read_iteration_head clock random_key e stream attachment b 0 [] m [] x); [done..|by rw app_nil_r|done|].
    rw Hnone (bind_ok _ _ _ (Some r1) e); [|done]. rw /read_session_packet (bind_ok _ _ _ (SessionError, new_ConnectorInfo, b) e).
    { rw /ProcessSessionPacket (bind_ok _ _ _ _ _ Hwork) (bind_ok _ _ _ _ _ Hext) !packet_is_header.
      rw !bool_decide_eq_false_2; [intros Ht; by rw Ht in Hsp..|]. done. }
    rw bool_decide_eq_true_2; [done|]. rw (bind_ok _ _ _ r1 e); [|done].
    rw /rd_seek. cbn [rd_cursor rd_contexts cur_pos hdr_body_size packet_header]. rw Seek_ok; [cbn; lia..|].
    rw /r1 (_ : 0 + 12 + sp_get_needed_size m.1 = db_length (sbf_data b)); [lia|done].
  + rw (_ : length (db_bytes (sbf_data b)) = S (pred (length (db_bytes (sbf_data b))))); [rw /db_length in Hf; lia|].
    rw Nat.add_succ_r. apply read_loop_incomplete; [split_and!; cbn; [done|lia|done]|cbn; lia|].
    left. rw /rest_of /r1 /Data /= length_drop /db_length. lia.
- rw /read_finish (proj2 (Z.leb_gt _ _)); [rw /PACKET_LENGTH_SIZE /PACKET_HEADER_SIZE /=; lia|]. rw (bind_ok _ _ _ _ _ Hext) Hnone. done.
Qed.

(** *** More packets than contexts *)

(** The packet that does not find room for its context moves to a new buffer
  with the bytes behind it. *)
Lemma read_overflow_run e stream session t s attachment r m rest :
session_ready e stream session t s → 0 < ts_read_pool t →
Z.of_nat (length (ne_worker_queue e)) < BUFFER_SIZE → small_packet m.1 →
Data (rd_cursor r) = sp_serialize m.1 ++ rest → Z.of_nat (length rest) < 2 ^ 31 - sp_get_needed_size m.1 →
∃ c, delivers session attachment m c ∧
  read_overflow (C:=C) stream session (packet_header m.1 m.2) attachment r e =
    Ok (Some (mkReadState (next_buffer e stream (sp_serialize m.1 ++ rest))
                (mkCursor (sbf_data (next_buffer e stream (sp_serialize m.1 ++ rest))) (sp_get_needed_size m.1)) [c]),
        after_read e stream t (mkChain (rd_buffer r) (rd_contexts r)), []).
Proof.
intros Hready Hpool Hq Hsm Hdata Hlen. rw /small_packet in Hsm. pose proof (needed_size_nonneg m.1) as Hn.
set (nb := next_buffer e stream (sp_serialize m.1 ++ rest)).
exists (mkSocketContext SessionData (packet_header m.1 m.2) session attachment (Cursor_of (sbf_data nb))). split.
{ split_and!; [done..|]. rw /body_of /Data /=. rw take_app_length'; [rw sp_size; lia|done]. }
rw /read_overflow (bind_ok _ _ _ _ _ (TryAllocateReadBuffer_ready e stream session t s Hready Hpool)).
rw (bind_ok _ _ _ true (after_read e stream t (mkChain (rd_buffer r) (rd_contexts r)))).
{ rw /Submit_chain /mbind /act_mbind /act_bind /get_state /=. rw (proj2 (Z.ltb_lt _ _)); [done|]. done. }
cbn [negb]. rw Hdata. change (set_data _ (next_buffer e stream [])) with nb.
rw (bind_ok _ _ _ (mkSocketContext SessionData (packet_header m.1 m.2) session attachment (Cursor_of (sbf_data nb)))
      (after_read e stream t (mkChain (rd_buffer r) (rd_contexts r)))); [done|].
rw /rd_seek. cbn [rd_cursor rd_buffer rd_contexts hdr_body_size packet_header].
rw Seek_ok; [lia|done| |done]. cbn. rw /db_length /= length_app. pose proof (sp_size m.1). lia.
Qed.

(** Of 129 packets in one read the last one, when its body has at most twelve
  bytes, is not submitted: the buffer that holds its body goes on reading, and
  the body is taken for the beginning of the next packet. *)
Theorem overflow_packet_lost e stream session t s attachment (b : SocketBuffer) ms m :
session_ready e stream session t s → 0 < ts_read_pool t →
Z.of_nat (length (ne_worker_queue e)) < BUFFER_SIZE → db_length (sbf_data b) < 2 ^ 31 →
Forall data_packet ms → length ms = 128%nat → data_packet m → sp_get_needed_size m.1 ≤ 12 →
db_bytes (sbf_data b) = frames ms ++ frame_of m →
∃ cs, Forall2 (delivers session attachment) ms cs ∧
  OnRead (C:=C) clock random_key stream b attachment e =
    Ok ((), after_read e stream t (mkChain b cs), [TransmitRead stream (next_buffer e stream (sp_serialize m.1)) attachment]).
Proof.
intros Hready Hpool Hq Hlen Hms H128 (Hdm&Hsm&Hn) Hsize Hb.
set (r0 := mkReadState b (Cursor_of (sbf_data b)) []).
assert (Hok : read_ok r0) by (split_and!; cbn; [done|lia|done]).
pose proof (length_frames ms Hms) as Hlf. pose proof (length_frame m.1 m.2) as Hlm.
set (fuel := (Z.to_nat (db_capacity (sbf_data b)) + length (db_bytes (sbf_data b)) - 129)%nat).
destruct (read_loop_frames clock random_key e stream session t s attachment ms (S (S fuel)) r0 (frame_of m))
  as (Hrun&Hok'&Hrest'&cs&Hcs&Hall); [done..|rw /context_sequence /=; lia|by rw -Hb|].
destruct (read_packets_pos session attachment ms r0) as [Hbuf Hpos].
set (r1 := read_packets session attachment ms r0) in *. exists cs. split; [done|].
assert (Hlcs : length cs = 128%nat) by (rw -(Forall2_length _ _ _ Hall); done).
rw /OnRead (bind_ok _ _ _ _ _ (worker_of_ready e stream session t s Hready)).
destruct (get_extension_ready e stream session t s Hready) as (x&Hx&Hxs).
destruct Hok' as (Hc'&Hp'&_). destruct r1 as [b1 [d pos] cs1]; cbn [rd_buffer rd_cursor rd_contexts cur_buffer cur_pos app] in *.
subst b1 cs1 d. rw /rest_of /Data /= in Hrest'.
destruct (read_overflow_run e stream session t s attachment
  (mkReadState b (mkCursor (sbf_data b) (pos + 12)) cs) m []) as (c&_&Hover); [done..| |cbn; lia|].
{ rw /Data /=. destruct (frame_at (db_bytes (sbf_data b)) [] pos m) as (_&_&Hbody&_); [lia|by rw app_nil_r|done]. }
rw app_nil_r in Hover. set (r2 := mkReadState (next_buffer e stream (sp_serialize m.1)) _ [c]) in Hover.
rw (bind_out _ _ _ (Some r2) (after_read e stream t (mkChain b cs)) [] () (after_read e stream t (mkChain b cs))
      [TransmitRead stream (next_buffer e stream (sp_serialize m.1)) attachment]); [| |done].
- rw (_ : S (_ + _) = length ms + S (S fuel))%nat; [rw /fuel Hb length_app H128; lia|]. rw Hrun.
  cbn [read_loop]. rw (bind_ok _ _ _ (true, Some r2) (after_read e stream t (mkChain b cs))).
  + rw (read_iteration_head clock random_key e stream attachment b pos cs m [] x); [lia|done|done|by rw app_nil_r|done|].
    rw Hxs (bind_ok _ _ _ (Some r2) (after_read e stream t (mkChain b cs))); [|done]. rw /read_packet !packet_is_header.
    rw !bool_decide_eq_false_2; [intros Ht; by rw Ht in Hdm..|]. cbn [orb].
    rw /read_data_packet /PrepareSocketContext /context_sequence. cbn [rd_contexts]. rw Hlcs. exact Hover.
  + apply read_loop_incomplete; [split_and!; cbn; [done|lia|]|cbn|left].
    * rw /db_length /= -sp_size. lia.
    * rw /db_length /= -sp_size. lia.
    * rw /rest_of /Data /= length_drop. pose proof (sp_size m.1). lia.
- rw /read_finish (proj2 (Z.leb_le _ _)); [rw /PACKET_LENGTH_SIZE /PACKET_HEADER_SIZE /=; lia|]. done.
Qed.
End faults.

(** ** Sessions set aside *)

Section reconnect.
Context {C : Type} `{IterOrder} `{Indeterminate C} `{StructPack C}.
Implicit Types e : NetworkEngine.

(** An authentication with the wrong key wakes the session without resuming it:
  the right key is refused from then on, and the tick, which looks only at
  sessions that wait, never gives the session back. *)
Theorem wrong_key_locks_out e (id sid now : Z) (s : SocketSession) (key wrong : SessionKey) :
ne_abandoned_session_list e !! id = Some sid → ne_sessions e !! sid = Some s →
ss_session_state s = Wait → ss_session_key s = key → wrong ≠ key →
∃ e', remove_abandoned_if id (auth_processor wrong) e = Ok (None, e', []) ∧
  ne_abandoned_session_list e' !! id = Some sid ∧
  remove_abandoned_if id (auth_processor key) e' = Ok (None, e', []) ∧
  tick_abandoned (C:=C) now [sid] e' = Ok ([], e', []).
Proof.
intros Hab Hs Hst Hk Hne.
set (s1 := mkSocketSession Opened (ss_initialized s) (ss_ping s) (ss_last_heartbeat_receiving_time s)
  (ss_last_heartbeat_sending_time s) (ss_abandoned_time s) (ss_session_key s) (ss_user_data s)
  (ss_session_id s) (ss_socket_stream s)).
exists (set_sessions (<[sid := s1]> (ne_sessions e)) (set_abandoned_session_list (ne_abandoned_session_list e) e)).
rw /remove_abandoned_if /mbind /act_mbind /act_bind /get_state /cm_RemoveIf. cbn [ne_abandoned_session_list set_sessions
  set_abandoned_session_list ne_sessions]. rw Hab /auth_processor /state_to /ChangeSessionState Hs lookup_insert_eq.
rw (bool_decide_eq_false_2 (ss_session_key s = wrong)); [congruence|].
rw (bool_decide_eq_true_2 (ss_session_key s1 = key)); [done|].
rw decide_True; [done|]. fold s1. split_and!; [done..| |].
- case: (decide (ss_session_state s1 = Wait)) => [Hw|_]; [discriminate Hw|]. cbn. rw insert_insert_eq. done.
- cbn [tick_abandoned]. rw /get_session /mbind /act_mbind /act_bind /get_state /= lookup_insert_eq /=. done.
Qed.

(** Handling the context of an abandoned session fails an assertion: the
  session is set to wait before its buffer is given back, and giving back asks
  for a session that is open or abandoned. *)
Theorem abandoned_context_asserts e (b : SocketBuffer) (c : SocketContext) (s : SocketSession) :
ctx_context_type c = SessionAbandoned → ne_sessions e !! ctx_session c = Some s → ss_session_state s = Abandoned →
UpdateContext [mkChain b [c]] e = Err (AssertionFailed "state == Opened || state == Abandoned").
Proof.
intros Hty Hs Hst. rw /UpdateContext. cbn [for_each chain_buffer chain_contexts length update_chain].
apply bind_err.
set (e1 := set_sessions (alter (λ _, (ChangeSessionState Abandoned Wait s).2) (ctx_session c) (ne_sessions e)) e).
assert (Hs1 : ne_sessions e1 !! ctx_session c = Some (ChangeSessionState Abandoned Wait s).2) by by rw /= lookup_alter_eq Hs.
assert (Hchange : change_state (ctx_session c) Abandoned Wait e = Ok (true, e1, [])).
{ rw /change_state /get_session /mbind /act_mbind /act_bind /get_state Hs /e1 /ChangeSessionState /=.
  case: (decide (ss_session_state s = Abandoned)) => [_|//]. done. }
assert (Hst1 : ss_session_state (ChangeSessionState Abandoned Wait s).2 = Wait).
{ rw /ChangeSessionState. by case: (decide (ss_session_state s = Abandoned)). }
assert (Hdispatch : dispatch_context c e = Ok ((), e1, [OnSocketSession c])).
{ rw /dispatch_context Hty. apply (bind_out _ _ e () e [OnSocketSession c] () e1 []); [done|].
  by rw (bind_ok _ _ _ _ _ Hchange). }
assert (Hrel : Release_context b 1 c e1 = Err (AssertionFailed "state == Opened || state == Abandoned")).
{ rw /Release_context /=. apply bind_err, bind_err. rw /GetSocketStream (bind_ok _ _ _ (ChangeSessionState Abandoned Wait s).2 e1).
  - rw /get_session /mbind /act_mbind /act_bind /get_state Hs1. done.
  - by rw Hst1. }
rw {1}/mbind /act_mbind {1}/act_bind Hdispatch (bind_err _ _ _ _ Hrel). done.
Qed.
End reconnect.

(** ** Connectors *)

Section connectors.
Context {C : Type} `{IterOrder} `{Indeterminate C} `{StructPack C}.
Variable clock : Z → Z.
Implicit Types e : NetworkEngine.

(** The connector [id] is registered with [info], and [stream] is its stream:
  taken by a worker, marked as a connector's, with no session yet. *)
Definition connector_waiting e (id stream : Z) (info : ConnectorInfo) : Prop :=
ne_connector_list e !! id = Some info ∧ cn_connector_id info = id ∧
∃ t x, ne_streams e !! stream = Some t ∧ is_Some (arr_get (ne_worker_infos e) (ts_worker_index t)) ∧
  ts_user_data t = Some x ∧ ext_stream_type x = Connector ∧ ext_connector_id x = id ∧ ext_session x = None.

End connectors.
