(* ===== verification/CloudConfig.v ===== *)
(** * Cloud configuration

    [common/engine/CloudConfigManager.h] and [.cpp]: before a server starts, it
    connects to the supervisor, asks for its configuration and waits for the
    answer.  [RequestCloudConfig] puts a transport ([Iocp.v]) below a network
    engine ([NetworkEngine.v]); the answer comes back through a work queue
    ([Concurrent.v]). *)

From S2P Require Import Prelude Coordinate SectorGrid Fixture Packet Protocol Memory Concurrent NetworkEngine Iocp.

Open Scope Z_scope.

(** Running an action of a component on its state. *)
Definition run {S O A} (m : Act S O A) (s : S) : result (A * S * list O) := m s.

Inductive cloud_out : Type :=
| Cloud_engine (o : engine_out)
| Cloud_transport (o : io_out).

Record CloudConfigManager : Type := mkCloudConfigManager {
  cc_server_type : ServerType;
  cc_config_server_address : SocketAddress;
  cc_engine : option NetworkEngine.NetworkEngine;
  cc_socket_server : option IocpSocketServer;
  cc_connector_id : Z;
  cc_result_queue : LinearWorkQueue ServerConfig;
}.

Definition new_CloudConfigManager (server_type : ServerType) (address : SocketAddress) : CloudConfigManager :=
  mkCloudConfigManager server_type address None None 0 new_LinearWorkQueue.

Definition cc_set_engine (e : NetworkEngine.NetworkEngine) (m : CloudConfigManager) : CloudConfigManager :=
  mkCloudConfigManager (cc_server_type m) (cc_config_server_address m) (Some e) (cc_socket_server m)
    (cc_connector_id m) (cc_result_queue m).
Definition cc_set_queue (q : LinearWorkQueue ServerConfig) (m : CloudConfigManager) : CloudConfigManager :=
  mkCloudConfigManager (cc_server_type m) (cc_config_server_address m) (cc_engine m) (cc_socket_server m)
    (cc_connector_id m) q.

(** The size of [_result_queue]. *)
Definition RESULT_QUEUE_SIZE : Z := 64.

Section manager.
Context {C : Type} `{StructPack C}.

(** [OnSocketSessionConnected]: ask for the configuration. *)
Definition Cloud_OnSocketSessionConnected (m : CloudConfigManager) (context : SocketContext)
  : result (CloudConfigManager * list cloud_out) :=
e ← from_option_ub "_engine" (cc_engine m);
'(_, e, o) ← run (NetworkEngine.Send (C:=C) (ctx_session context)
               (pkt_load_server_config_rq (mk_load_server_config_rq (cc_server_type m))) ErrorCode_None) e;
Ok (cc_set_engine e m, map Cloud_engine o).

(** [OnSocketSessionData] on the thread [worker]; the exceptions it throws end
  the process. *)
Definition Cloud_OnSocketSessionData (worker : Z) (context : SocketContext) (m : CloudConfigManager)
  : result CloudConfigManager :=
if negb (hdr_packet_type (ctx_header context) =? PacketType_to_Z PacketType_load_server_config_rs)
then Err (Exception "connected server is not a cloud config server")
else
  let body := take (Z.to_nat (hdr_body_size (ctx_header context))) (Data (ctx_cursor context)) in
  match DeserializePacketBody (C:=C) PacketType_load_server_config_rs body with
  | Some (pkt_load_server_config_rs packet) =>
      let q := cc_result_queue m in
      if Z.of_nat (length (lq_queues q (lq_submission q))) <? RESULT_QUEUE_SIZE
      then Ok (cc_set_queue (TryPush_now worker (lcrs_server_config packet) q).2 m)
      else Ok m
  | _ => Err (Exception "cloud config server packet mismatch")
  end.
End manager.

Definition request_option : NetworkEngineOption :=
  let o := NetworkEngineOption_default in
  mkNetworkEngineOption (neo_socket_idle_timeout_ms o) (neo_session_idle_timeout_ms o) (neo_session_heartbeat_interval_ms o)
    2 (neo_use_session_reconnect o) (neo_session_reconnect_timeout_ms o) (neo_worker_update_tick_ms o).

Definition request_config : SocketServerConfig :=
  let c := SocketServerConfig_default in
  mkSocketServerConfig 1 2 2 1 4 (ssc_read_buffer_capacity c) 4 (ssc_write_buffer_capacity c) (ssc_update_tick c).

(** A stream of the transport as the engine sees it. *)
Definition engine_stream (t : IocpStream) : TransferStream :=
  mkTransferStream (st_worker_index t) None (Z.of_nat (length (op_pool (st_read_buffer_pool t))))
    (Z.of_nat (length (op_pool (st_write_buffer_pool t)))).

(** [RequestCloudConfig]; the engine is initialised before the transport and
    counts the workers of the transport's configuration at that moment.
    [_socket_server->Connect] of [RegisterConnectorSocket] runs on the
    transport. *)
Definition RequestCloudConfig (created : Z → bool) (setup : Z → socket_setup) (accepted : bool) (key : SessionKey)
    (m : CloudConfigManager) : result (CloudConfigManager * list cloud_out) :=
  let server := new_IocpSocketServer in
  let workers := sk_config server in
  '(ok, server, _) ← run (IocpSocketServer_Initialize request_config created setup) server;
  if negb ok then Err (Exception "failed to initialize socket server")
  else
    let engine := new_NetworkEngine request_option workers (engine_stream <$> sk_streams server) key in
    '(code, server, o1) ← run (IocpSocketServer_Start setup 0 0 0 (λ _, mkAnswer 0 WSA_IO_PENDING)) server;
    '(code, engine, o2) ← run (NetworkEngine_Start code) engine;
    if negb (code =? 0) then Err (Exception "failed to start network engine")
    else
      '(connector_id, engine, o3) ← run (RegisterConnectorSocket (cc_config_server_address m) 0) engine;
      '(_, server, o4) ← run (IocpSocketServer_Connect (cc_config_server_address m) connector_id setup accepted) server;
      Ok (mkCloudConfigManager (cc_server_type m) (cc_config_server_address m) (Some engine) (Some server)
            connector_id (cc_result_queue m),
          map Cloud_transport o1 ++ map Cloud_engine (o2 ++ o3) ++ map Cloud_transport o4).

(** The loop of [GetCloudConfig]: [env n] is what other threads do to the queue
    while it sleeps for the n-th time. *)
Fixpoint wait_for_config (fuel n : nat) (env : nat → LinearWorkQueue ServerConfig → LinearWorkQueue ServerConfig)
    (q : LinearWorkQueue ServerConfig) : result (ServerConfig * LinearWorkQueue ServerConfig) :=
  match fuel with
  | O => Err OutOfFuel
  | S fuel =>
      let '(config, q) := TryPop q in
      match config with
      | Some config => Ok (config, q)
      | None => wait_for_config fuel (S n) env (LockSubmissionQueue (env n q))
      end
  end.

Definition GetCloudConfig (fuel : nat) (env : nat → LinearWorkQueue ServerConfig → LinearWorkQueue ServerConfig)
    (m : CloudConfigManager) : result (ServerConfig * CloudConfigManager * list cloud_out) :=
  '(config, q) ← wait_for_config fuel 0 env (cc_result_queue m);
  e ← from_option_ub "_engine" (cc_engine m);
  '(_, e, o) ← run (UnregisterConnectorSocket (cc_connector_id m) false) e;
  Ok (config, cc_set_engine e (cc_set_queue q m), map Cloud_engine o).

(** ** Asking *)

Definition os_willing : Z → socket_setup := λ _, mkSocketSetup true true true.

(** When the operating system grants what is asked for, [RequestCloudConfig]
    succeeds: the connector of the supervisor's address is registered, one
    connection to it is under way for that connector, and every stream of the
    transport belongs to a worker the engine has, although the engine counted
    the workers before the transport was configured. *)
Theorem cloud_request_ok server_type address key :
  ∃ m e, RequestCloudConfig (λ _, true) os_willing true key (new_CloudConfigManager server_type address) =
      Ok (m, [Cloud_engine (WorkerStart 500); Cloud_engine (SocketServer_Connect address 1);
              Cloud_transport (ConnectEx (CONNECTOR_SOCKET_START_ID + 1, true, 4))]) ∧
    cc_engine m = Some e ∧ cc_connector_id m = 1 ∧ cc_result_queue m = new_LinearWorkQueue ∧
    (cn_remote_address <$> ne_connector_list e !! 1) = Some address ∧
    ∀ s t, ne_streams e !! s = Some t → ∃ w, GetWorkerInfo (ts_worker_index t) e = Ok (w, e, []).
Proof.
  eexists _, _. split_and!; [vm_compute; reflexivity|reflexivity..|].
  match goal with |- ∀ s t, ne_streams ?e !! s = Some t → _ =>
    assert (Hall : forallb (λ x, ts_worker_index x.2 =? 0) (map_to_list (ne_streams e)) = true) by (vm_compute; reflexivity) end.
  intros s t Ht. rewrite forallb_forall in Hall.
  specialize (Hall (s, t) (proj1 (list_elem_of_In _ _) (proj2 (elem_of_map_to_list _ _ _) Ht))).
  apply Z.eqb_eq in Hall. cbn [snd] in Hall. rw Hall. eexists. reflexivity.
Qed.

(** ** Waiting *)

(** The engine's worker pushes the configuration: it loads the queue during the
    sleep [k1] of [GetCloudConfig] and stores during the sleep [k2]. *)
Definition answer_env (worker : Z) (config : ServerConfig) (k1 k2 n : nat) (q : LinearWorkQueue ServerConfig)
    : LinearWorkQueue ServerConfig :=
  let q := if (n =? k1)%nat then TryPush_load worker config q else q in
  if (n =? k2)%nat then (TryPush_store worker q).2 else q.

Lemma TryPop_empty {T} (q : LinearWorkQueue T) : (∀ i, lq_queues q i = []) →
  ∃ q', TryPop q = (None, q') ∧ lq_queues q' = lq_queues q ∧ lq_pushing q' = lq_pushing q.
Proof. intros He. rw /TryPop He. by eexists. Qed.

(** A single configuration in the queues is found within two polls. *)
Lemma wait_finds env n (q : LinearWorkQueue ServerConfig) i config :
  (∀ m q', (n ≤ m)%nat → env m q' = q') →
  (∀ j, lq_queues q j = if Bool.eqb j i then [config] else []) →
  ∃ q', wait_for_config 2 n env q = Ok (config, q').
Proof.
  intros Henv Hq. cbn [wait_for_config]. destruct (decide (negb (lq_submission q) = i)) as [Hf|Hf].
  - rw /TryPop Hq Hf Bool.eqb_reflx. by eexists.
  - rw {1}/TryPop Hq. rw (_ : Bool.eqb (negb (lq_submission q)) i = false); [by apply Bool.eqb_false_iff|].
    rw Henv; [done|]. rw /TryPop /LockSubmissionQueue /= Hq.
    rw (_ : Bool.eqb _ i = true); [apply Bool.eqb_true_iff; by destruct (lq_submission q), i|]. by eexists.
Qed.

Lemma wait_run worker config k1 k2 d n (q : LinearWorkQueue ServerConfig) :
  (k1 ≤ k2)%nat → (n + d = k2)%nat → (∀ i, lq_queues q i = []) →
  ((k1 < n)%nat → ∃ i, lq_pushing q !! worker = Some (i, config)) →
  ∃ q', wait_for_config (d + 3) n (answer_env worker config k1 k2) q = Ok (config, q').
Proof.
  intros Hk. revert n q. induction d as [|d IH]; intros n q Hn He Hp; cbn [Nat.add wait_for_config];
    destruct (TryPop_empty q He) as (q1&->&Hq1&Hp1); cbv iota.
  - set (q2 := if (n =? k1)%nat then TryPush_load worker config q1 else q1).
    assert (Hq2 : lq_queues q2 = lq_queues q) by (rw /q2 -Hq1; by case_match).
    assert (Hp2 : ∃ i, lq_pushing q2 !! worker = Some (i, config)).
    { rw /q2. destruct (Nat.eqb_spec n k1) as [->|Hne]; [eexists; cbn; by rw lookup_insert_eq|]. rw Hp1. apply Hp. lia. }
    destruct Hp2 as [i Hi].
    assert (Henv : answer_env worker config k1 k2 n q1 = (TryPush_store worker q2).2).
    { rw /answer_env. fold q2. by rw (proj2 (Nat.eqb_eq n k2)); [lia|]. }
    rw Henv /TryPush_store Hi Hq2 He. cbn [length Z.of_nat]. rw (_ : (0 <? BUFFER_SIZE) = true); [done|].
    apply (wait_finds _ _ _ i).
    + intros m q' Hm. rw /answer_env. rw (proj2 (Nat.eqb_neq m k1)); [lia|]. by rw (proj2 (Nat.eqb_neq m k2)); [lia|].
    + intros j. cbn. rw /set_queue !He. by case_match.
  - apply IH; [lia| |].
    + intros i. rw /LockSubmissionQueue /answer_env /=. rw (proj2 (Nat.eqb_neq n k2)); [lia|]. case_match; cbn; by rw Hq1.
    + intros Hlt. rw /LockSubmissionQueue /answer_env /=. rw (proj2 (Nat.eqb_neq n k2)); [lia|].
      destruct (Nat.eqb_spec n k1) as [->|Hne]; [eexists; cbn; by rw lookup_insert_eq|]. rw Hp1. apply Hp. lia.
Qed.

(** [GetCloudConfig] with an answer that is pushed at some time. *)
Lemma GetCloudConfig_run worker config (k1 k2 : nat) (m : CloudConfigManager) (e : NetworkEngine.NetworkEngine) :
  (k1 ≤ k2)%nat → cc_result_queue m = new_LinearWorkQueue → cc_engine m = Some e →
  ∃ m' o e', GetCloudConfig (k2 + 3) (answer_env worker config k1 k2) m = Ok (config, m', o) ∧
    cc_engine m' = Some e' ∧ ne_connector_list e' !! cc_connector_id m = None.
Proof.
  intros Hk Hq He. destruct (wait_run worker config k1 k2 k2 0 (cc_result_queue m) Hk) as [q' Hw]; [lia|by rw Hq|lia|].
  rw /GetCloudConfig /mbind /result_bind Hw He. cbn [from_option_ub].
  rw /run /UnregisterConnectorSocket (bind_ok get_state _ e e e); [done|]. rw /cm_Remove.
  destruct (ne_connector_list e !! cc_connector_id m) as [info|] eqn:Hinfo.
  - set (e' := set_connector_list (delete (cc_connector_id m) (ne_connector_list e)) e).
    rw (bind_ok _ _ e () e'); [done|]. exists (cc_set_engine e' (cc_set_queue q' m)).
    destruct (cn_stream info) as [stream|]; eexists _, e'; (split_and!; [reflexivity|done|cbn; by rw lookup_delete_eq]).
  - by exists (cc_set_engine e (cc_set_queue q' m)), [], e.
Qed.

(** C27: Whenever the answer arrives, and however its push falls between the swaps of
    the waiting thread, [GetCloudConfig] returns it within two polls of the push
    and takes the connector out of the engine's list. *)
Theorem cloud_config_arrives worker config (k1 k2 : nat) (m : CloudConfigManager) (e : NetworkEngine.NetworkEngine) :
  (k1 ≤ k2)%nat → cc_result_queue m = new_LinearWorkQueue → cc_engine m = Some e →
  ∃ m' o e', GetCloudConfig (k2 + 3) (answer_env worker config k1 k2) m = Ok (config, m', o) ∧
    cc_engine m' = Some e' ∧ ne_connector_list e' !! cc_connector_id m = None.
Proof. apply GetCloudConfig_run. Qed.
