(* ===== verification/Sampling.v ===== *)
(** * Sampling

    [common/utility/Sampling.h]: objects that turn the passing of time into
    booleans.  Each [operator bool] reads the clock; the reading is an
    argument here, and the [mutable] members are threaded. *)

From S2P Require Import Prelude.

Open Scope Z_scope.

Record Timer : Type := mkTimer { tm_tick : Z; tm_last_tick_time : Z }.

Definition new_Timer (tick now : Z) : Timer := mkTimer tick now.

Definition Timer_bool (now : Z) (t : Timer) : bool * Timer :=
  if tm_last_tick_time t + tm_tick t <? now
  then (true, mkTimer (tm_tick t) now) else (false, t).

Record Countdown : Type := mkCountdown { cd_delay : Z; cd_start_time : Z }.

Definition new_Countdown (delay now : Z) : Countdown := mkCountdown delay now.

Definition Countdown_bool (now : Z) (c : Countdown) : bool := cd_start_time c + cd_delay c <? now.

Record Debouncer : Type := mkDebouncer {
  db_delay : Z; db_is_on : bool; db_last_enabled_time : Z }.

Definition new_Debouncer (delay : Z) : Debouncer := mkDebouncer delay false 0.

Definition Debouncer_Set (now : Z) (d : Debouncer) : Debouncer := mkDebouncer (db_delay d) true now.

Definition Debouncer_bool (now : Z) (d : Debouncer) : bool * Debouncer :=
  if db_is_on d && (db_last_enabled_time d + db_delay d <? now)
  then (true, mkDebouncer (db_delay d) false (db_last_enabled_time d)) else (false, d).

Record Throttler : Type := mkThrottler { th_tick : Z; th_last_execution_time : Z }.

Definition new_Throttler (tick now : Z) : Throttler := mkThrottler tick now.

Definition Throttler_bool (now : Z) (t : Throttler) : bool * Throttler :=
  if th_last_execution_time t + th_tick t <=? now
  then (true, mkThrottler (th_tick t) now) else (false, t).

(** ** Polling *)

(** The readings at which a throttler polled at the given readings fires. *)
Fixpoint Throttler_fires (t : Throttler) (polls : list Z) : list Z :=
  match polls with
  | [] => []
  | now :: polls =>
      let '(fired, t') := Throttler_bool now t in
      if fired then now :: Throttler_fires t' polls else Throttler_fires t' polls
  end.

(** How often a debouncer fires over a sequence of events at given readings:
    [true] is a [Set], [false] a poll. *)
Fixpoint Debouncer_fires (d : Debouncer) (events : list (bool * Z)) : nat :=
  match events with
  | [] => 0
  | (true, now) :: events => Debouncer_fires (Debouncer_Set now d) events
  | (false, now) :: events =>
      let '(fired, d') := Debouncer_bool now d in
      ((if fired then 1 else 0) + Debouncer_fires d' events)%nat
  end.

Inductive spaced (tick : Z) : Z → list Z → Prop :=
| spaced_nil last : spaced tick last []
| spaced_cons last t l : last + tick ≤ t → spaced tick t l → spaced tick last (t :: l).

(** A throttler never fires twice within its tick, however it is polled, and
    fires whenever a poll finds the tick elapsed. *)
Theorem Throttler_rate (t : Throttler) (polls : list Z) :
  spaced (th_tick t) (th_last_execution_time t) (Throttler_fires t polls) ∧
  (∀ now rest, polls = now :: rest → th_last_execution_time t + th_tick t ≤ now →
     ∃ fires, Throttler_fires t polls = now :: fires).
Proof.
  split.
  - revert t. induction polls as [|now polls IH]; intros t; cbn; [constructor|].
    rw /Throttler_bool. case: (Z.leb_spec _ now) => Hle; [|apply IH].
    constructor; [done|]. apply (IH (mkThrottler (th_tick t) now)).
  - intros now rest -> Hle. cbn. rw /Throttler_bool (proj2 (Z.leb_le _ _)); [done|]. eauto.
Qed.

(** A debouncer fires at most once for each [Set]. *)
Theorem Debouncer_once (d : Debouncer) (events : list (bool * Z)) :
  (Debouncer_fires d events ≤
     (if db_is_on d then 1 else 0) + length (filter (λ e, e.1 = true) events))%nat.
Proof.
  revert d. induction events as [|[[] now] events IH]; intros d; cbn [Debouncer_fires].
  - lia.
  - specialize (IH (Debouncer_Set now d)). rw /Debouncer_Set /= in IH.
    rw filter_cons_True //=. rw /Debouncer_Set. lia.
  - rw filter_cons_False //=. rw /Debouncer_bool.
    destruct (db_is_on d) eqn:E; cbn [andb].
    + case: (Z.ltb_spec _ now) => Hlt.
      * specialize (IH (mkDebouncer (db_delay d) false (db_last_enabled_time d))). cbn in IH. lia.
      * specialize (IH d). rw E in IH. lia.
    + specialize (IH d). rw E in IH. lia.
Qed.

Lemma Countdown_monotone (c : Countdown) (now now' : Z) :
  Countdown_bool now c = true → now ≤ now' → Countdown_bool now' c = true.
Proof. rw /Countdown_bool !Z.ltb_lt. lia. Qed.
