(* ===== verification/PacketThrottler.v ===== *)
(** * Packet throttler

    [common/engine/PacketThrottler.h]: packets posted to a session collect in
    one of the session's write buffers until the next flush.

    A session object is a [SessionRef]: its identity ([ses_handle], the
    object's address) and the value of [GetSessionId()].  Each [NetworkEngine]
    numbers its own sessions from 1, so two sessions may share an id.  Whether
    [TryAllocateWriteBuffer] finds a buffer depends on the I/O completions of
    other threads: the outcomes are an oracle, the capacity of the buffer that
    the n-th allocation on a session returns. *)

From S2P Require Import Prelude Coordinate SectorGrid Fixture Packet Protocol Sampling.

Open Scope Z_scope.

Record SessionRef : Type := mkSessionRef { ses_handle : Z; ses_id : Z }.

#[export] Instance SessionRef_eq_dec : EqDecision SessionRef.
Proof. solve_decision. Defined.

Inductive PacketPostingPolicy : Type := Immediate | Throttle.

Record ThrottleData : Type := mkThrottleData {
  td_session : option SessionRef; td_buffer : option DynamicBuffer }.

(** What leaves the throttler: a buffer handed to [session->Send], or the
    overflow notice and close of [TryAllocateWriteBuffer]. *)
Inductive WireEvent : Type :=
| Transmit (session : SessionRef) (bytes : list Z)
| OverflowClose (session : SessionRef)
| ReleaseBuffer (session : SessionRef).

Record PacketThrottler : Type := mkPacketThrottler {
  pt_throttle_data : gmap Z ThrottleData;
  pt_throttler : Throttler;
  pt_allocations : nat;
}.

Definition new_PacketThrottler (tick now : Z) : PacketThrottler :=
  mkPacketThrottler ∅ (new_Throttler tick now) 0.

Section throttler.
Context {C : Type} `{StructPack C} `{IterOrder}.
(** The capacity of the buffer the n-th allocation yields, if any. *)
Variable allocation : SessionRef → nat → option Z.

Abbreviation M := (Act PacketThrottler WireEvent).

Definition set_throttle_data (id : Z) (d : ThrottleData) (t : PacketThrottler) : PacketThrottler :=
mkPacketThrottler (<[id := d]> (pt_throttle_data t)) (pt_throttler t) (pt_allocations t).
Definition erase_throttle_data (id : Z) (t : PacketThrottler) : PacketThrottler :=
mkPacketThrottler (delete id (pt_throttle_data t)) (pt_throttler t) (pt_allocations t).

Definition TryAllocateWriteBuffer (session : SessionRef) : M (option DynamicBuffer) :=
t ← get_state;
modify (λ t, mkPacketThrottler (pt_throttle_data t) (pt_throttler t) (S (pt_allocations t))) ;;
match allocation session (pt_allocations t) with
| Some capacity => mret (Some (mkDynamicBuffer [] capacity))
| None => emit [OverflowClose session] ;; mret None
end.

(** Sending dereferences both the session and the buffer. *)
Definition SendPacket (d : ThrottleData) : M ThrottleData :=
match td_session d, td_buffer d with
| Some session, Some buffer =>
    emit [Transmit session (db_bytes buffer)] ;;
    mret (mkThrottleData (td_session d) None)
| Some _, None => fail (UndefinedBehaviour "session->Send(nullptr)")
| None, _ => fail (UndefinedBehaviour "null session")
end.

(** Serialise behind the bytes already in the buffer. *)
Definition append_packet (packet : Packet C) (error : ErrorCode) (b : DynamicBuffer)
  : option DynamicBuffer :=
bytes ← snd (SerializePacket packet error (u32 (db_capacity b - db_length b)));
Some (mkDynamicBuffer (db_bytes b ++ bytes) (db_capacity b)).

Definition StorePacket (d : ThrottleData) (packet : Packet C) (error : ErrorCode) : M ThrottleData :=
match td_buffer d with
| None => fail (UndefinedBehaviour "throttle_data.buffer is null")
| Some buffer =>
    match append_packet packet error buffer with
    | Some buffer' => mret (mkThrottleData (td_session d) (Some buffer'))
    | None =>
        d ← SendPacket d;
        match td_session d with
        | None => fail (UndefinedBehaviour "null session")
        | Some session =>
            buffer ← TryAllocateWriteBuffer session;
            match buffer with
            | None => mret (mkThrottleData (td_session d) None)
            | Some buffer =>
                match append_packet packet error buffer with
                | Some buffer' => mret (mkThrottleData (td_session d) (Some buffer'))
                | None => throw "packet size overflow"
                end
            end
        end
    end
end.

Definition PostPacket (session : SessionRef) (packet : Packet C) (policy : PacketPostingPolicy) : M () :=
t ← get_state;
let throttle_data := default (mkThrottleData None None) (pt_throttle_data t !! ses_id session) in
allocated ← match td_buffer throttle_data with
            | Some b => mret (Some b)
            | None => TryAllocateWriteBuffer session
            end;
match allocated with
| None => modify (erase_throttle_data (ses_id session))
| Some buffer =>
    throttle_data ← StorePacket (mkThrottleData (Some session) (Some buffer)) packet ErrorCode_None;
    match policy with
    | Immediate =>
        SendPacket throttle_data ;;
        modify (erase_throttle_data (ses_id session))
    | Throttle => modify (set_throttle_data (ses_id session) throttle_data)
    end
end.

Definition CleanUp (session : SessionRef) : M () :=
t ← get_state;
match pt_throttle_data t !! ses_id session with
| None => mret ()
| Some d =>
    match td_buffer d with
    | None => mret ()
    | Some _ =>
        match td_session d with
        | Some s => emit [ReleaseBuffer s]
        | None => fail (UndefinedBehaviour "null session")
        end
    end ;;
    modify (erase_throttle_data (ses_id session))
end.

Definition ForceFlushPacket : M () :=
t ← get_state;
for_each (iter_map (pt_throttle_data t)) (λ '(_, d), SendPacket d ;; mret ()) ;;
modify (λ t, mkPacketThrottler ∅ (pt_throttler t) (pt_allocations t)).

Definition TryFlushPacket (now : Z) : M () :=
t ← get_state;
let '(fired, throttler) := Throttler_bool now (pt_throttler t) in
modify (λ t, mkPacketThrottler (pt_throttle_data t) throttler (pt_allocations t)) ;;
if fired then ForceFlushPacket else mret ().

(** Posting a list of packets with the [Throttle] policy, as the posting
  manager does. *)
Definition post_all (posts : list (SessionRef * Packet C)) : M () :=
for_each posts (λ '(session, packet), PostPacket session packet Throttle).
End throttler.

(** ** Delivery *)

(** The bytes handed to a session by a sequence of events. *)
Definition transmitted (s : SessionRef) (e : WireEvent) : list Z :=
  match e with Transmit s' bytes => if decide (s' = s) then bytes else [] | _ => [] end.
Definition sent_to (s : SessionRef) (events : list WireEvent) : list Z :=
  concat (transmitted s <$> events).

(** The bytes waiting for a session. *)
Definition buffered (s : SessionRef) (t : PacketThrottler) : list Z :=
  match pt_throttle_data t !! ses_id s with
  | Some (mkThrottleData (Some s') (Some b)) => if decide (s' = s) then db_bytes b else []
  | _ => []
  end.

Lemma sent_to_app s e1 e2 : sent_to s (e1 ++ e2) = sent_to s e1 ++ sent_to s e2.
Proof. by rw /sent_to fmap_app concat_app. Qed.

Section delivery.
Context {C : Type} `{StructPack C} `{!StructPackSize C} `{IterOrder}.
Variable allocation : SessionRef → nat → option Z.
Variable min_capacity : Z.
Hypothesis min_capacity_range : 0 ≤ min_capacity < 2 ^ 31.
(** Every allocation finds a buffer of at least [min_capacity] bytes. *)
Hypothesis allocation_succeeds : ∀ s n, ∃ cap, allocation s n = Some cap ∧ min_capacity ≤ cap < 2 ^ 32.
(** The sessions in use, with pairwise different ids. *)
Variable D : SessionRef → Prop.
Hypothesis D_inj : ∀ s1 s2, D s1 → D s2 → ses_id s1 = ses_id s2 → s1 = s2.

Definition fits (p : Packet C) : Prop := 12 + sp_get_needed_size p ≤ min_capacity.

Definition wf_data (id : Z) (d : ThrottleData) : Prop :=
∃ s b, d = mkThrottleData (Some s) (Some b) ∧ D s ∧ ses_id s = id ∧
  db_length b ≤ db_capacity b < 2 ^ 32.
Definition wf_throttler (t : PacketThrottler) : Prop :=
map_Forall wf_data (pt_throttle_data t).

Lemma fits_small p : fits p → small_packet p.
Proof. rw /fits /small_packet. lia. Qed.

Lemma append_packet_spec p b :
fits p → db_length b ≤ db_capacity b < 2 ^ 32 →
append_packet p ErrorCode_None b =
  if db_capacity b - db_length b <? 12 + sp_get_needed_size p then None
  else Some (mkDynamicBuffer (db_bytes b ++ frame p ErrorCode_None) (db_capacity b)).
Proof.
intros Hp Hb. rw /append_packet SerializePacket_frame; [by apply fits_small|].
assert (0 ≤ db_length b) by (rw /db_length; lia).
rw u32_small; [lia|]. cbn [snd]. by case_match.
Qed.

Lemma append_packet_fresh p cap :
fits p → min_capacity ≤ cap < 2 ^ 32 →
append_packet p ErrorCode_None (mkDynamicBuffer [] cap) =
  Some (mkDynamicBuffer (frame p ErrorCode_None) cap).
Proof.
intros Hp Hc. rw append_packet_spec; [done|rw /db_length /=; lia|].
rw (proj2 (Z.ltb_ge _ _)); [rw /fits in Hp; rw /db_length /=; lia|done].
Qed.

(** Storing a packet keeps the stream: what was sent and what is buffered is
  what was buffered, then the packet. *)
Lemma StorePacket_stream s b p t :
fits p → D s → db_length b ≤ db_capacity b < 2 ^ 32 →
wp (StorePacket allocation (mkThrottleData (Some s) (Some b)) p ErrorCode_None) t
  (λ d t' o, pt_throttle_data t' = pt_throttle_data t ∧
     ∃ b', d = mkThrottleData (Some s) (Some b') ∧ db_length b' ≤ db_capacity b' < 2 ^ 32 ∧
       (∀ s', sent_to s' o ++ (if decide (s = s') then db_bytes b' else []) =
          if decide (s = s') then db_bytes b ++ frame p ErrorCode_None else []))
  (λ _, False).
Proof.
intros Hp Hs Hb. pose proof (length_frame p ErrorCode_None) as Hf.
rw /wp /StorePacket /= append_packet_spec; [done|done|].
case: (Z.ltb_spec (db_capacity b - db_length b)) => Hlt.
- rw /SendPacket /TryAllocateWriteBuffer /=.
  rw /mbind /act_mbind /act_bind /emit /mret /act_mret /act_ret /get_state /modify /=.
  destruct (allocation_succeeds s (pt_allocations t)) as (cap&->&Hcap).
  rw append_packet_fresh; [done|done|]. cbn. split; [done|].
  eexists. split; [done|]. split.
  { rw /db_length /= Hf. rw /fits in Hp. lia. }
  intros s'. rw /sent_to /=. by case_decide; rw ?app_nil_r.
- cbn. split; [done|]. eexists. split; [done|]. split.
  { rw /db_length /= length_app. rw /db_length in Hlt. lia. }
  done.
Qed.

Lemma PostPacket_stream s p t :
wf_throttler t → D s → fits p →
wp (PostPacket allocation s p Throttle) t
  (λ _ t' o, wf_throttler t' ∧ ∀ s', D s' →
     sent_to s' o ++ buffered s' t' =
     buffered s' t ++ (if decide (s = s') then frame p ErrorCode_None else []))
  (λ _, False).
Proof.
intros Hwf Hs Hp. rw /PostPacket.
apply wp_bind. rw {1}/wp /get_state.
set (d := default _ _). cbv zeta.
(* the buffer to store into: the session's own, or a fresh one *)
assert (Hbuf : ∃ b t1, db_length b ≤ db_capacity b < 2 ^ 32 ∧
  pt_throttle_data t1 = pt_throttle_data t ∧ buffered s t = db_bytes b ∧
  (match td_buffer d with Some b => mret (Some b) | None => TryAllocateWriteBuffer allocation s end) t
    = Ok (Some b, t1, [])).
{ rw /d /buffered. destruct (pt_throttle_data t !! ses_id s) as [d'|] eqn:E; cbn.
  - destruct (Hwf _ _ E) as (s'&b&->&Hs'&Hid&Hb). assert (s' = s) as -> by auto.
    exists b, t. by rw decide_True.
  - destruct (allocation_succeeds s (pt_allocations t)) as (cap&Hc&Hcap).
    rw /TryAllocateWriteBuffer. rw /mbind /act_mbind /act_bind /get_state /modify /= Hc.
    exists (mkDynamicBuffer [] cap),
      (mkPacketThrottler (pt_throttle_data t) (pt_throttler t) (S (pt_allocations t))).
    rw /db_length /=. split_and!; [lia..|done|done|done]. }
destruct Hbuf as (b&t1&Hb&Ht1&Hbs&Halloc).
apply wp_bind. rw {1}/wp Halloc. apply wp_bind.
eapply wp_mono; [by apply StorePacket_stream| |done].
intros d' t2 o (Ht2&b'&->&Hb'&Hstream). rw /wp /modify. split.
- rw /wf_throttler /= Ht2 Ht1. apply map_Forall_insert_2; [|done]. by exists s, b'.
- intros s' Hs'. rw /= app_nil_r /buffered /= Ht2 Ht1. specialize (Hstream s').
  destruct (decide (s = s')) as [<-|Hne].
  + rw lookup_insert_eq decide_True; [done|]. by rw Hstream -Hbs.
  + rw lookup_insert_ne; [intros ?; apply Hne; auto|].
    rw app_nil_r in Hstream. by rw Hstream app_nil_r.
Qed.

Definition flush_event (e : Z * ThrottleData) : WireEvent :=
match e.2 with
| mkThrottleData (Some s) (Some b) => Transmit s (db_bytes b)
| _ => Transmit (mkSessionRef 0 0) []
end.

Lemma flush_loop (l : list (Z * ThrottleData)) t :
(∀ id d, (id, d) ∈ l → wf_data id d) →
for_each l (λ '(_, d), SendPacket d ;; mret ()) t = Ok ((), t, flush_event <$> l).
Proof.
induction l as [|[id d] l IH]; intros Hwf; [done|].
destruct (Hwf id d) as (s&b&->&_); [by left|]. cbn.
rw /mbind /act_mbind /act_bind /emit /mret /act_mret /act_ret /=.
rw IH; [|done]. intros id' d' Hin. apply Hwf. by right.
Qed.

(** Among entries with distinct keys, a session has at most one. *)
Lemma sent_to_flush (l : list (Z * ThrottleData)) s :
D s → NoDup l.*1 → (∀ id d, (id, d) ∈ l → wf_data id d) →
sent_to s (flush_event <$> l) =
  match list_find (λ e, e.1 = ses_id s) l with
  | Some (_, (_, mkThrottleData (Some _) (Some b))) => db_bytes b
  | _ => []
  end.
Proof.
intros Hs. induction l as [|[id d] l IH]; intros Hnd Hwf; [done|].
apply NoDup_cons in Hnd as [Hni Hnd].
destruct (Hwf id d) as (s1&b&->&Hs1&Hid&_); [by left|].
assert (Hwf' : ∀ id d, (id, d) ∈ l → wf_data id d) by (intros id' d' Hin; apply Hwf; by right).
specialize (IH Hnd Hwf'). rw fmap_cons. rw /sent_to fmap_cons in IH |- *. cbn [concat list_find].
rw {}IH /=. destruct (decide (id = ses_id s)) as [->|Hne].
- assert (s1 = s) as -> by auto. rw decide_True; [done|].
  destruct (list_find _ l) as [[i [id' d']]|] eqn:E; [|by rw app_nil_r].
  apply list_find_Some in E as (Hl&Hk&_). exfalso. apply Hni.
  apply list_elem_of_fmap. exists (id', d'). split; [done|]. exact (list_elem_of_lookup_2 _ _ _ Hl).
- rw decide_False; [congruence|]. by destruct (list_find _ l) as [[? [? [[]?]]]|].
Qed.

Lemma ForceFlush_stream t :
wf_throttler t →
wp ForceFlushPacket t
  (λ _ t' o, pt_throttle_data t' = ∅ ∧ ∀ s, D s → sent_to s o = buffered s t) (λ _, False).
Proof.
intros Hwf. rw /wp /ForceFlushPacket.
assert (Hl : ∀ id d, (id, d) ∈ iter_map (pt_throttle_data t) → wf_data id d).
{ intros id d Hin. apply Hwf. by apply elem_of_iter_map. }
rw /mbind /act_mbind /act_bind /get_state /modify flush_loop; [done|].
cbn. split; [done|]. intros s Hs. rw -/(sent_to _ _) app_nil_r sent_to_flush; [done|apply NoDup_iter_map|done|].
rw /buffered. destruct (list_find _ _) as [[i [id d]]|] eqn:E.
- apply list_find_Some in E as (Hli&Hk&_). cbn in Hk. subst id.
  apply list_elem_of_lookup_2 in Hli. destruct (Hl _ _ Hli) as (s1&b&->&Hs1&Hid&_).
  apply elem_of_iter_map in Hli. rw Hli. assert (s1 = s) as -> by auto. by rw decide_True.
- destruct (pt_throttle_data t !! ses_id s) as [d|] eqn:Hd; [|done].
  apply list_find_None in E. rw Forall_forall in E.
  apply elem_of_iter_map in Hd. by destruct (E _ Hd).
Qed.
End delivery.

(** The frames of the packets a list of posts addresses to a session. *)
Definition frames_for {C} `{StructPack C} (s : SessionRef) (posts : list (SessionRef * Packet C)) : list Z :=
  concat ((λ e : SessionRef * Packet C, if decide (e.1 = s) then frame e.2 ErrorCode_None else []) <$> posts).


(** The table is keyed by the session id alone: when two sessions share an id
    (one per network engine), the packets of both go to the session posted to
    last, and the other receives nothing. *)
Theorem throttled_id_collision {C} `{StructPack C} `{!StructPackSize C} `{IterOrder}
    (allocation : SessionRef → nat → option Z) (cap tick now : Z)
    (s1 s2 : SessionRef) (p1 p2 : Packet C) :
  s1 ≠ s2 → ses_id s1 = ses_id s2 →
  allocation s1 0%nat = Some cap → cap < 2 ^ 31 →
  24 + sp_get_needed_size p1 + sp_get_needed_size p2 ≤ cap →
  wp (post_all allocation [(s1, p1); (s2, p2)] ;; ForceFlushPacket) (new_PacketThrottler tick now)
    (λ _ _ events, sent_to s1 events = [] ∧
       sent_to s2 events = frame p1 ErrorCode_None ++ frame p2 ErrorCode_None)
    (λ _, False).
Proof.
  intros Hne Hid Hal Hcap Hsz.
  pose proof (needed_size_nonneg p1). pose proof (needed_size_nonneg p2).
  pose proof (length_frame p1 ErrorCode_None) as Hf1.
  remember (frame p1 ErrorCode_None) as f1 eqn:E1. remember (frame p2 ErrorCode_None) as f2 eqn:E2.
  rw /wp /post_all /= /mbind /act_mbind /act_bind.
  rw {1}/PostPacket /= /mbind /act_mbind /act_bind /get_state /= lookup_empty /=.
  rw /TryAllocateWriteBuffer /mbind /act_mbind /act_bind /get_state /modify /= Hal.
  rw {1}/StorePacket /=.
  rw (append_packet_spec (cap)); [lia|rw /fits; lia|rw /db_length /=; lia|].
  rw (proj2 (Z.ltb_ge _ _)); [rw /db_length /=; lia|]. rw -E1. cbn.
  rw /PostPacket /mbind /act_mbind /act_bind /get_state /= -Hid lookup_insert_eq /=.
  rw /StorePacket /=.
  rw (append_packet_spec (cap)); [lia|rw /fits; lia|rw /db_length /= Hf1; lia|].
  rw (proj2 (Z.ltb_ge _ _)); [rw /db_length /= Hf1; lia|]. rw -E2. cbn.
  rw /ForceFlushPacket /mbind /act_mbind /act_bind /get_state /modify /= insert_insert_eq.
  rw (_ : iter_map _ = [(ses_id s1, mkThrottleData (Some s2)
     (Some (mkDynamicBuffer (f1 ++ f2) cap)))]).
  { apply Permutation_singleton_r. by rw iter_map_perm insert_empty map_to_list_singleton. }
  cbn. rw /sent_to /=. rw !app_nil_r. rw decide_False; [congruence|]. by rw decide_True.
Qed.
