(* ===== verification/SectorPosting.v ===== *)
(** * Sector posting manager

    [common/game/SectorPostingManager.h] and [SectorPostingManager.cpp]: who
    owns each sector, who listens to it, and through which session each of them
    is reached.

    [_sectors] and [_sessions] are node-based maps from which nothing is ever
    erased, and a pointer to a node is only ever stored under the key of that
    node ([related_sectors[sector_id] = &_sectors[sector_id]]), so a table of
    pointers is the set of its keys. *)

From S2P Require Import Prelude Coordinate SectorGrid Fixture Packet Protocol Sampling.
From S2P Require Import PacketThrottler.

Open Scope Z_scope.

(** What the game layer asks of the layers below it. *)
Inductive Effect (C : Type) : Type :=
| Post (session : SessionRef) (packet : Packet C) (policy : PacketPostingPolicy)
| CleanUpBuffer (session : SessionRef)
| Send (session : SessionRef) (packet : Packet C) (error : ErrorCode)
| CloseSession (session : SessionRef)
| Disconnect (session : SessionRef)
| RegisterConnectorSocket (address : SocketAddress) (server_id : Z)
| UnregisterConnectorSocket (connector_id : Z)
| FlushPackets (forced : bool)
| ProcessLoopbackPacket.
Arguments Post {C} _ _ _.
Arguments CleanUpBuffer {C} _.
Arguments Send {C} _ _ _.
Arguments CloseSession {C} _.
Arguments Disconnect {C} _.
Arguments RegisterConnectorSocket {C} _ _.
Arguments UnregisterConnectorSocket {C} _.
Arguments FlushPackets {C} _.
Arguments ProcessLoopbackPacket {C}.

Record NetworkSectorInfo : Type := mkNetworkSectorInfo {
  nsi_owner_id : Z; nsi_listening_sessions : gset Z }.
Record NetworkSessionInfo : Type := mkNetworkSessionInfo {
  nse_session : option SessionRef; nse_related_sectors : gset Z }.

Definition new_NetworkSectorInfo : NetworkSectorInfo := mkNetworkSectorInfo 0 ∅.
Definition new_NetworkSessionInfo : NetworkSessionInfo := mkNetworkSessionInfo None ∅.

Record SectorPostingManager : Type := mkSectorPostingManager {
  spm_sectors : gmap Z NetworkSectorInfo; spm_sessions : gmap Z NetworkSessionInfo }.

Definition new_SectorPostingManager : SectorPostingManager := mkSectorPostingManager ∅ ∅.

(** [_sectors[sector_id]] and [_sessions[target_id]] insert a default entry
    when there is none. *)
Definition sector_at (m : SectorPostingManager) (sector_id : Z) : NetworkSectorInfo :=
  default new_NetworkSectorInfo (spm_sectors m !! sector_id).
Definition session_at (m : SectorPostingManager) (target_id : Z) : NetworkSessionInfo :=
  default new_NetworkSessionInfo (spm_sessions m !! target_id).
Definition set_sector (sector_id : Z) (i : NetworkSectorInfo) (m : SectorPostingManager) : SectorPostingManager :=
  mkSectorPostingManager (<[sector_id := i]> (spm_sectors m)) (spm_sessions m).
Definition set_session (target_id : Z) (i : NetworkSessionInfo) (m : SectorPostingManager) : SectorPostingManager :=
  mkSectorPostingManager (spm_sectors m) (<[target_id := i]> (spm_sessions m)).

Section posting.
Context {C : Type} `{IterOrder}.

(** ** Sending *)

Definition post_if_linked (m : SectorPostingManager) (target_id : Z) (packet : Packet C) : list (Effect C) :=
match spm_sessions m !! target_id with
| Some (mkNetworkSessionInfo (Some session) _) => [Post session packet Throttle]
| _ => []
end.

Definition SendTo (m : SectorPostingManager) (target_id : Z) (packet : Packet C) : list (Effect C) :=
post_if_linked m target_id packet.

Definition SendToSectorOwner (m : SectorPostingManager) (packet : Packet C) (sector_id : Z) : list (Effect C) :=
match spm_sectors m !! sector_id with
| None => []
| Some i => post_if_linked m (nsi_owner_id i) packet
end.

Definition SendToSectorWithout (m : SectorPostingManager) (ignored_target : Z) (packet : Packet C)
  (sector_id : Z) (with_owner : bool) : list (Effect C) :=
match spm_sectors m !! sector_id with
| None => []
| Some i =>
    concat ((λ target_id, if target_id =? ignored_target then [] else post_if_linked m target_id packet)
              <$> iter_set (nsi_listening_sessions i))
    ++ (if with_owner then SendToSectorOwner m packet sector_id else [])
end.

Definition SendToSector (m : SectorPostingManager) (packet : Packet C) (sector_id : Z)
  (with_owner : bool) : list (Effect C) :=
match spm_sectors m !! sector_id with
| None => []
| Some i =>
    concat ((λ target_id, post_if_linked m target_id packet) <$> iter_set (nsi_listening_sessions i))
    ++ (if with_owner then SendToSectorOwner m packet sector_id else [])
end.

(** The loop of [SendToNearSector] stops at the first padding entry. *)
Fixpoint send_to_near_loop (m : SectorPostingManager) (packet : Packet C) (with_owner : bool)
  (sectors : list Z) : list (Effect C) :=
match sectors with
| [] => []
| near_sector_id :: sectors =>
    if near_sector_id =? INVALID_SECTOR then []
    else SendToSector m packet near_sector_id with_owner ++ send_to_near_loop m packet with_owner sectors
end.

Definition SendToNearSector (m : SectorPostingManager) (packet : Packet C) (sector_id : Z)
  (direction : Direction) (with_owner : bool) : option (list (Effect C)) :=
sectors ← GetNearSectors sector_id direction;
Some (send_to_near_loop m packet with_owner sectors).

(** ** Changing the tables *)

Definition AllocateSector (sector_id target_id : Z) (m : SectorPostingManager) : SectorPostingManager :=
let sector_info := sector_at m sector_id in
let m := set_sector sector_id sector_info m in
let m := if nsi_owner_id sector_info =? 0 then m
         else let owner := session_at m (nsi_owner_id sector_info) in
              set_session (nsi_owner_id sector_info)
                (mkNetworkSessionInfo (nse_session owner) (nse_related_sectors owner ∖ {[sector_id]})) m in
let session_info := session_at m target_id in
let m := set_session target_id
  (mkNetworkSessionInfo (nse_session session_info) ({[sector_id]} ∪ nse_related_sectors session_info)) m in
set_sector sector_id (mkNetworkSectorInfo target_id (nsi_listening_sessions sector_info)) m.

Definition LinkSession (target_id : Z) (session : option SessionRef) (m : SectorPostingManager) : SectorPostingManager :=
set_session target_id (mkNetworkSessionInfo session (nse_related_sectors (session_at m target_id))) m.

Definition UnlinkSession (target_id : Z) (m : SectorPostingManager) : SectorPostingManager * list (Effect C) :=
let session_info := session_at m target_id in
match nse_session session_info with
| None => (set_session target_id session_info m, [])
| Some session =>
    (set_session target_id (mkNetworkSessionInfo None (nse_related_sectors session_info)) m,
     [CleanUpBuffer session])
end.

Definition AddSectorListener (sector_id target_id : Z) (m : SectorPostingManager) : SectorPostingManager :=
let sector_info := sector_at m sector_id in
let session_info := session_at m target_id in
set_sector sector_id
  (mkNetworkSectorInfo (nsi_owner_id sector_info) ({[target_id]} ∪ nsi_listening_sessions sector_info))
  (set_session target_id
    (mkNetworkSessionInfo (nse_session session_info) ({[sector_id]} ∪ nse_related_sectors session_info)) m).

(** [sector->listening_sessions.erase(target_id)] through the pointer. *)
Definition erase_listener (target_id : Z) (i : NetworkSectorInfo) : NetworkSectorInfo :=
mkNetworkSectorInfo (nsi_owner_id i) (nsi_listening_sessions i ∖ {[target_id]}).
Definition disown (target_id : Z) (i : NetworkSectorInfo) : NetworkSectorInfo :=
if nsi_owner_id i =? target_id then mkNetworkSectorInfo 0 (nsi_listening_sessions i) else i.

(** Apply [f] to every sector of a table of pointers. *)
Definition update_related (f : NetworkSectorInfo → NetworkSectorInfo) (related : gset Z)
  (sectors : gmap Z NetworkSectorInfo) : gmap Z NetworkSectorInfo :=
foldr (alter f) sectors (iter_set related).

(** The [sector_id] argument is not used by the code. *)
Definition RemoveSectorListener (sector_id target_id : Z) (m : SectorPostingManager) : SectorPostingManager :=
let session_info := session_at m target_id in
let m := set_session target_id session_info m in
mkSectorPostingManager
  (update_related (erase_listener target_id) (nse_related_sectors session_info) (spm_sectors m))
  (spm_sessions m).

Definition UnsetAll (target_id : Z) (m : SectorPostingManager) : SectorPostingManager * list (Effect C) :=
let session_info := session_at m target_id in
let m := mkSectorPostingManager
  (update_related (disown target_id ∘ erase_listener target_id)
     (nse_related_sectors session_info) (spm_sectors m))
  (<[target_id := mkNetworkSessionInfo (nse_session session_info) ∅]> (spm_sessions m)) in
UnlinkSession target_id m.

Definition GetSectorOwnerSession (sector_id : Z) (m : SectorPostingManager)
  : option SessionRef * SectorPostingManager :=
let sector_info := sector_at m sector_id in
let m := set_sector sector_id sector_info m in
let session_info := session_at m (nsi_owner_id sector_info) in
(nse_session session_info, set_session (nsi_owner_id sector_info) session_info m).

Definition GetOwnershipSectors (target_id : Z) (m : SectorPostingManager) : gset Z * SectorPostingManager :=
let session_info := session_at m target_id in
(nse_related_sectors session_info, set_session target_id session_info m).
End posting.

(** ** What the manager promises

    Three tables: who listens to a sector, who owns it (0: nobody), and the
    session of each target. *)

Record PostingSpec : Type := mkPostingSpec {
  ps_listens : Z → Z → Prop;
  ps_owner : Z → Z;
  ps_linked : Z → option SessionRef;
}.

#[export] Instance PostingSpec_equiv : Equiv PostingSpec := λ a b,
  (∀ t s, ps_listens a t s ↔ ps_listens b t s) ∧
  (∀ s, ps_owner a s = ps_owner b s) ∧ (∀ t, ps_linked a t = ps_linked b t).

#[export] Instance PostingSpec_equivalence : Equivalence (≡@{PostingSpec}).
Proof.
  split; rw /equiv /PostingSpec_equiv.
  - done.
  - intros a b (H1&H2&H3). split_and!; [intros; by rw H1|done|done].
  - intros a b c (H1&H2&H3) (H4&H5&H6). split_and!; intros; [rw H1; apply H4|congruence..].
Qed.

Definition listens (m : SectorPostingManager) (t s : Z) : Prop := t ∈ nsi_listening_sessions (sector_at m s).
Definition owner (m : SectorPostingManager) (s : Z) : Z := nsi_owner_id (sector_at m s).
Definition linked (m : SectorPostingManager) (t : Z) : option SessionRef := nse_session (session_at m t).
Definition related (m : SectorPostingManager) (t s : Z) : Prop := s ∈ nse_related_sectors (session_at m t).

#[export] Instance listens_dec m t s : Decision (listens m t s).
Proof. rw /listens. apply _. Defined.
#[export] Instance related_dec m t s : Decision (related m t s).
Proof. rw /related. apply _. Defined.

Definition abstraction (m : SectorPostingManager) : PostingSpec :=
  mkPostingSpec (listens m) (owner m) (linked m).

(** The operations, and what each means for the three tables. *)
Inductive PostingOp : Type :=
| OpAllocate (sector_id target_id : Z)
| OpLink (target_id : Z) (session : option SessionRef)
| OpUnlink (target_id : Z)
| OpListen (sector_id target_id : Z)
| OpUnlisten (sector_id target_id : Z)
| OpUnset (target_id : Z)
| OpOwnerSession (sector_id : Z)
| OpOwnership (target_id : Z).

Definition exec {C : Type} `{IterOrder} (op : PostingOp) (m : SectorPostingManager) : SectorPostingManager :=
  match op with
  | OpAllocate s t => AllocateSector s t m
  | OpLink t c => LinkSession t c m
  | OpUnlink t => (UnlinkSession (C:=C) t m).1
  | OpListen s t => AddSectorListener s t m
  | OpUnlisten s t => RemoveSectorListener s t m
  | OpUnset t => (UnsetAll (C:=C) t m).1
  | OpOwnerSession s => (GetSectorOwnerSession s m).2
  | OpOwnership t => (GetOwnershipSectors t m).2
  end.

Definition spec_exec (op : PostingOp) (a : PostingSpec) : PostingSpec :=
  match op with
  | OpAllocate s t =>
      mkPostingSpec (ps_listens a) (λ s', if decide (s' = s) then t else ps_owner a s') (ps_linked a)
  | OpLink t c =>
      mkPostingSpec (ps_listens a) (ps_owner a) (λ t', if decide (t' = t) then c else ps_linked a t')
  | OpUnlink t =>
      mkPostingSpec (ps_listens a) (ps_owner a) (λ t', if decide (t' = t) then None else ps_linked a t')
  | OpListen s t =>
      mkPostingSpec (λ t' s', ps_listens a t' s' ∨ (t' = t ∧ s' = s)) (ps_owner a) (ps_linked a)
  | OpUnlisten _ t =>
      mkPostingSpec (λ t' s', ps_listens a t' s' ∧ t' ≠ t) (ps_owner a) (ps_linked a)
  | OpUnset t =>
      mkPostingSpec (λ t' s', ps_listens a t' s' ∧ t' ≠ t)
        (λ s', if decide (ps_owner a s' = t) then 0 else ps_owner a s')
        (λ t', if decide (t' = t) then None else ps_linked a t')
  | OpOwnerSession _ | OpOwnership _ => a
  end.

(** Listeners and owners are found again through [related_sectors]. *)
Record posting_inv (servers : gset Z) (m : SectorPostingManager) : Prop := {
  inv_listens : ∀ t s, listens m t s → related m t s;
  inv_owner : ∀ s, owner m s ≠ 0 → related m (owner m s) s;
  inv_related : ∀ t s, related m t s → is_Some (spm_sectors m !! s);
  inv_servers : ∀ s, owner m s ≠ 0 → owner m s ∈ servers;
  inv_clients : ∀ t s, listens m t s → t ∉ servers;
}.

(** Sectors are allocated to [servers]; listeners are not among them. *)
Definition respects (servers : gset Z) (op : PostingOp) : Prop :=
  match op with
  | OpAllocate _ t => t ∈ servers
  | OpListen _ t => t ∉ servers
  | _ => True
  end.

Section refinement.
Context {C : Type} `{IterOrder} (servers : gset Z).
Implicit Types m : SectorPostingManager.

Lemma sector_at_set m s i s' :
sector_at (set_sector s i m) s' = if decide (s' = s) then i else sector_at m s'.
Proof.
rw /sector_at /set_sector /=. destruct (decide (s' = s)) as [->|Hne].
- by rw lookup_insert_eq.
- rw lookup_insert_ne; [congruence|done].
Qed.
Lemma session_at_set m t i t' :
session_at (set_session t i m) t' = if decide (t' = t) then i else session_at m t'.
Proof.
rw /session_at /set_session /=. destruct (decide (t' = t)) as [->|Hne].
- by rw lookup_insert_eq.
- rw lookup_insert_ne; [congruence|done].
Qed.
Lemma sector_at_set_session m t i s : sector_at (set_session t i m) s = sector_at m s.
Proof. done. Qed.
Lemma session_at_set_sector m s i t : session_at (set_sector s i m) t = session_at m t.
Proof. done. Qed.

Lemma update_related_lookup f (X : gset Z) sectors s :
update_related f X sectors !! s =
  if decide (s ∈ X) then f <$> sectors !! s else sectors !! s.
Proof.
rw /update_related. pose proof (NoDup_iter_set X) as Hnd.
assert (Hgen : foldr (alter f) sectors (iter_set X) !! s =
  if decide (s ∈ iter_set X) then f <$> sectors !! s else sectors !! s).
{ induction (iter_set X) as [|x l IH]; simpl; [done|].
  apply NoDup_cons in Hnd as [Hx Hnd]. specialize (IH Hnd).
  destruct (decide (s = x)) as [->|Hne].
  - rw lookup_alter_eq IH decide_False; [done|].
    rw decide_True; [by left|done].
  - rw lookup_alter_ne; [congruence|]. rw IH.
    destruct (decide (s ∈ l)) as [Hl|Hl].
    + rw decide_True; [by right|done].
    + rw decide_False; [|done]. rw elem_of_cons. by intros [|]. }
assert (Hin : s ∈ X ↔ s ∈ iter_set X) by by rw elem_of_iter_set.
rw Hgen. destruct (decide (s ∈ X)) as [Hs|Hs].
- by rw decide_True; [apply Hin|].
- by rw decide_False; [rw -Hin|].
Qed.

Lemma sector_at_update_related f X m sessions s :
f new_NetworkSectorInfo = new_NetworkSectorInfo →
sector_at (mkSectorPostingManager (update_related f X (spm_sectors m)) sessions) s =
  if decide (s ∈ X) then f (sector_at m s) else sector_at m s.
Proof.
intros Hf. rw /sector_at /= update_related_lookup.
destruct (decide (s ∈ X)); [|done]. by destruct (spm_sectors m !! s).
Qed.

Lemma sector_at_None m s : spm_sectors m !! s = None → sector_at m s = new_NetworkSectorInfo.
Proof. by rw /sector_at => ->. Qed.

(** The observations after removing a target from its related sectors. *)
Lemma sector_at_unlisten m t s0 s :
sector_at (RemoveSectorListener s0 t m) s =
  if decide (related m t s) then erase_listener t (sector_at m s) else sector_at m s.
Proof.
rw /RemoveSectorListener sector_at_update_related; [|done].
by rw /erase_listener /new_NetworkSectorInfo /=; f_equal; set_solver.
Qed.

Lemma session_at_unlisten m t s0 t' : session_at (RemoveSectorListener s0 t m) t' = session_at m t'.
Proof.
trans (session_at (set_session t (session_at m t) m) t'); [done|].
rw session_at_set. case_decide; by subst.
Qed.

Lemma sector_at_unset m t s :
sector_at (UnsetAll (C:=C) t m).1 s =
  if decide (related m t s) then disown t (erase_listener t (sector_at m s)) else sector_at m s.
Proof.
rw /UnsetAll /UnlinkSession. case_match; cbn [fst].
all: rw sector_at_set_session sector_at_update_related; [|done].
all: rw /erase_listener /disown /new_NetworkSectorInfo /=.
all: rw (_ : ∅ ∖ {[t]} = ∅ :> gset Z); [set_solver|]; by case_match.
Qed.

Lemma session_at_unset m t t' :
session_at (UnsetAll (C:=C) t m).1 t' =
  if decide (t' = t) then new_NetworkSessionInfo else session_at m t'.
Proof.
rw /UnsetAll /UnlinkSession.
set (m' := mkSectorPostingManager _ _).
assert (Hm : ∀ u, session_at m' u = if decide (u = t)
  then mkNetworkSessionInfo (nse_session (session_at m t)) ∅ else session_at m u).
{ intros u. apply (session_at_set m t _ u). }
assert (Ht : session_at m' t = mkNetworkSessionInfo (nse_session (session_at m t)) ∅)
  by by rw Hm decide_True.
rw Ht. cbn. destruct (nse_session (session_at m t)); cbn; rw session_at_set Hm; by case_decide.
Qed.

Lemma session_at_unlink m t t' :
session_at (UnlinkSession (C:=C) t m).1 t' =
  if decide (t' = t) then mkNetworkSessionInfo None (nse_related_sectors (session_at m t))
  else session_at m t'.
Proof.
rw /UnlinkSession. destruct (session_at m t) as [[c|] r] eqn:E; cbn; rw session_at_set;
  by case_decide.
Qed.
Lemma sector_at_unlink m t s : sector_at (UnlinkSession (C:=C) t m).1 s = sector_at m s.
Proof. rw /UnlinkSession. by case_match. Qed.

Lemma session_at_allocate m s t t' :
nse_session (session_at (AllocateSector s t m) t') = nse_session (session_at m t') ∧
nse_related_sectors (session_at (AllocateSector s t m) t') =
  (if decide (t' = t) then {[s]} else ∅) ∪
  (nse_related_sectors (session_at m t') ∖
     (if decide (owner m s ≠ 0 ∧ t' = owner m s) then {[s]} else ∅)).
Proof.
rw /AllocateSector /owner session_at_set_sector session_at_set.
destruct (Z.eqb_spec (nsi_owner_id (sector_at m s)) 0) as [E|E];
  rw ?session_at_set ?session_at_set_sector; repeat case_decide; subst; cbn; naive_solver set_solver.
Qed.
Lemma sector_at_allocate m s t s' :
sector_at (AllocateSector s t m) s' =
  if decide (s' = s) then mkNetworkSectorInfo t (nsi_listening_sessions (sector_at m s))
  else sector_at m s'.
Proof.
rw /AllocateSector sector_at_set. case_decide; [done|]. rw sector_at_set_session.
case_match; rw ?sector_at_set_session sector_at_set; by rw decide_False.
Qed.

(** Each operation does to the three tables what it says. *)
Lemma exec_refines op m :
posting_inv servers m → abstraction (exec (C:=C) op m) ≡ spec_exec op (abstraction m).
Proof.
intros [Hl Ho _ _ _]. rw /equiv /PostingSpec_equiv /abstraction.
destruct op as [s0 t0|t0 c|t0|s0 t0|s0 t0|t0|s0|t0]; cbn [exec spec_exec ps_listens ps_owner ps_linked].
- split_and!; intros *; rw /listens /owner /linked ?sector_at_allocate; [|by case_decide|].
  + case_decide; by subst.
  + apply session_at_allocate.
- split_and!; intros *; [done|done|]. rw /linked /LinkSession session_at_set. by case_decide.
- split_and!; intros *; rw /listens /owner /linked ?sector_at_unlink ?session_at_unlink; [done|done|].
  by case_decide.
- rw /AddSectorListener. split_and!; intros *; rw /listens /owner /linked ?sector_at_set
    ?session_at_set_sector ?session_at_set; case_decide; subst; cbn; set_solver.
- split_and!; intros *; rw /listens /owner /linked ?sector_at_unlisten.
  + case_decide as Hr; cbn; [set_solver|]. split; [|naive_solver].
    intros Ht. split; [done|]. intros ->. by apply Hr, Hl.
  + by case_decide.
  + by rw session_at_unlisten.
- split_and!; intros *; rw /listens /owner /linked ?sector_at_unset ?session_at_unset; [| |by case_decide].
  + case_decide as Hr; cbn.
    * rw /disown. case_match; set_solver.
    * split; [|naive_solver]. intros Ht. split; [done|]. intros ->. by apply Hr, Hl.
  + case_decide as Hr; cbn.
    * rw /disown /=. destruct (Z.eqb_spec (nsi_owner_id (sector_at m s)) t0); by case_decide.
    * case_decide as Hown; [|done]. destruct (decide (owner m s = 0)) as [|H0]; [done|].
      exfalso. apply Hr. rw -Hown. by apply Ho.
- rw /GetSectorOwnerSession. split_and!; intros *; rw /listens /owner /linked /=
    ?sector_at_set_session ?session_at_set ?sector_at_set ?session_at_set_sector; case_decide; by subst.
- rw /GetOwnershipSectors. split_and!; intros *; rw /listens /owner /linked /=
    ?sector_at_set_session ?session_at_set; [done|done|]. case_decide; by subst.
Qed.

Lemma related_exec op m t s :
related (exec (C:=C) op m) t s ↔
match op with
| OpAllocate s0 t0 => (t = t0 ∧ s = s0) ∨ (related m t s ∧ ¬ (owner m s0 ≠ 0 ∧ t = owner m s0 ∧ s = s0))
| OpListen s0 t0 => (t = t0 ∧ s = s0) ∨ related m t s
| OpUnset t0 => related m t s ∧ t ≠ t0
| _ => related m t s
end.
Proof.
destruct op as [s0 t0|t0 c|t0|s0 t0|s0 t0|t0|s0|t0]; cbn [exec]; rw /related.
- destruct (session_at_allocate m s0 t0 t) as [_ ->].
  rw elem_of_union elem_of_difference. case_decide; case_decide; set_solver.
- rw /LinkSession session_at_set. case_decide; by subst.
- rw session_at_unlink. case_decide; by subst.
- rw /AddSectorListener session_at_set_sector session_at_set. case_decide; subst; cbn; set_solver.
- by rw session_at_unlisten.
- rw session_at_unset. case_decide; cbn; set_solver.
- rw /GetSectorOwnerSession /= session_at_set. case_decide; by subst.
- rw /GetOwnershipSectors /= session_at_set. case_decide; by subst.
Qed.

Lemma sectors_exec op m s :
is_Some (spm_sectors m !! s) ∨
  (match op with OpAllocate s0 _ | OpListen s0 _ => s = s0 | _ => False end) →
is_Some (spm_sectors (exec (C:=C) op m) !! s).
Proof.
destruct op as [s0 t0|t0 c|t0|s0 t0|s0 t0|t0|s0|t0]; cbn [exec].
- rw /AllocateSector /= lookup_insert_is_Some'. case_match; cbn; rw lookup_insert_is_Some'; intuition congruence.
- intuition congruence.
- rw /UnlinkSession. case_match; intuition congruence.
- rw /AddSectorListener /= lookup_insert_is_Some'. intuition congruence.
- rw /RemoveSectorListener /= update_related_lookup. case_decide; rw ?fmap_is_Some; intuition congruence.
- rw /UnsetAll /UnlinkSession. case_match; cbn; rw update_related_lookup; case_decide;
    rw ?fmap_is_Some; intuition congruence.
- rw /GetSectorOwnerSession /= lookup_insert_is_Some'. intuition congruence.
- intuition congruence.
Qed.

Lemma exec_preserves op m :
posting_inv servers m → respects servers op → posting_inv servers (exec (C:=C) op m).
Proof.
intros Hinv Hop. destruct (exec_refines op m Hinv) as (Hlis&Hown&_).
destruct Hinv as [Hl Ho Hr Hs Hc].
cbn [ps_listens ps_owner abstraction] in Hlis, Hown.
split.
- intros t s. rw Hlis related_exec.
  destruct op; cbn in *; naive_solver.
- intros s. rw Hown related_exec. destruct op; cbn in *; repeat case_decide; naive_solver.
- intros t s. rw related_exec => Hrel. apply sectors_exec.
  destruct op; cbn in *; naive_solver.
- intros s. rw Hown. destruct op; cbn in *; repeat case_decide; naive_solver.
- intros t s. rw Hlis. destruct op; cbn in *; naive_solver.
Qed.

#[export] Instance spec_exec_proper op : Proper ((≡) ==> (≡)) (spec_exec op).
Proof.
intros a b (H1&H2&H3). destruct op; cbn; split_and!; intros *; cbn;
  rw ?H1 ?H2 ?H3; repeat case_decide; naive_solver.
Qed.

Lemma posting_inv_new : posting_inv servers new_SectorPostingManager.
Proof.
split; rw /listens /owner /related /sector_at /session_at /= ?lookup_empty /=; set_solver.
Qed.

Definition exec_all (ops : list PostingOp) (m : SectorPostingManager) : SectorPostingManager :=
foldl (λ m op, exec (C:=C) op m) m ops.
Definition spec_exec_all (ops : list PostingOp) (a : PostingSpec) : PostingSpec :=
foldl (λ a op, spec_exec op a) a ops.

Lemma exec_all_refines ops m a :
posting_inv servers m → abstraction m ≡ a → Forall (respects servers) ops →
posting_inv servers (exec_all ops m) ∧ abstraction (exec_all ops m) ≡ spec_exec_all ops a.
Proof.
revert m a. induction ops as [|op ops IH]; intros m a Hinv Ha Hops; [done|].
apply Forall_cons in Hops as [Hop Hops]. apply IH; [by apply exec_preserves| |done].
etrans; [by apply exec_refines|]. by apply spec_exec_proper.
Qed.
End refinement.

(** ** Recipients *)

Section recipients.
Context {C : Type} `{IterOrder}.
Implicit Types m : SectorPostingManager.

Lemma post_if_linked_spec m t (p : Packet C) :
post_if_linked m t p = match linked m t with Some c => [Post c p Throttle] | None => [] end.
Proof.
rw /post_if_linked /linked /session_at. by destruct (spm_sessions m !! t) as [[[c|] r]|].
Qed.

Lemma SendToSectorOwner_spec m (p : Packet C) s :
SendToSectorOwner m p s =
  match spm_sectors m !! s with
  | Some _ => match linked m (owner m s) with Some c => [Post c p Throttle] | None => [] end
  | None => []
  end.
Proof.
rw /SendToSectorOwner /owner /sector_at. destruct (spm_sectors m !! s); [|done].
apply post_if_linked_spec.
Qed.

Lemma SendToSectorWithout_spec m ignored (p : Packet C) s :
SendToSectorWithout m ignored p s false ≡ₚ
  omap (λ t, if decide (t = ignored) then None else (λ c, Post c p Throttle) <$> linked m t)
    (elements (nsi_listening_sessions (sector_at m s))).
Proof.
rw /SendToSectorWithout /sector_at. destruct (spm_sectors m !! s) as [i|]; [|done]. cbn.
rw app_nil_r -iter_set_perm. apply reflexive_eq.
induction (iter_set (nsi_listening_sessions i)) as [|t l IH]; [done|]. cbn. rw IH post_if_linked_spec.
destruct (Z.eqb_spec t ignored); case_decide; try done. by destruct (linked m t).
Qed.

(** A sector nobody is excluded from: id [ignored] that does not listen. *)
Lemma SendToSector_spec m (p : Packet C) s :
SendToSector m p s false ≡ₚ
  omap (λ t, (λ c, Post c p Throttle) <$> linked m t)
    (elements (nsi_listening_sessions (sector_at m s))).
Proof.
rw /SendToSector /sector_at. destruct (spm_sectors m !! s) as [i|]; [|done]. cbn.
rw app_nil_r -iter_set_perm. apply reflexive_eq.
induction (iter_set (nsi_listening_sessions i)) as [|t l IH]; [done|]. cbn. rw IH post_if_linked_spec.
by destruct (linked m t).
Qed.
End recipients.

(** C11: The posting manager refines its specification: after any sequence of
    operations in which sectors are allocated to servers and listened to by
    others, the listeners, owners and sessions are those the specification
    gives, although the code finds them again only through
    [related_sectors]. *)
Theorem posting_refinement {C} `{IterOrder} (servers : gset Z) (ops : list PostingOp) :
  Forall (respects servers) ops →
  abstraction (exec_all (C:=C) ops new_SectorPostingManager) ≡
    spec_exec_all ops (mkPostingSpec (λ _ _, False) (λ _, 0) (λ _, None)).
Proof.
  intros Hops. apply (exec_all_refines servers); [apply posting_inv_new| |done].
  split_and!; intros *; [|done..]. rw /= /listens /sector_at lookup_empty. set_solver.
Qed.

(** After [UnsetAll] of a departed session nothing is addressed to it any
    more: in every reachable state it listens to no sector, owns none, and is
    linked to no session. *)
Theorem UnsetAll_forgets {C} `{IterOrder} (servers : gset Z) (ops : list PostingOp) (t : Z) :
  Forall (respects servers) ops → t ≠ 0 →
  let m := (UnsetAll (C:=C) t (exec_all (C:=C) ops new_SectorPostingManager)).1 in
  linked m t = None ∧ ∀ s, ¬ listens m t s ∧ owner m s ≠ t.
Proof.
  intros Hops Ht m.
  destruct (exec_all_refines (C:=C) servers ops _ _ (posting_inv_new servers) (reflexivity _) Hops) as [Hinv _].
  destruct (exec_refines (C:=C) servers (OpUnset t) _ Hinv) as (Hl&Ho&Hs). cbn in Hl, Ho, Hs.
  split.
  - rw /m Hs. by rw decide_True.
  - intros s. rw /m Hl Ho. split; [naive_solver|]. case_decide; congruence.
Qed.


(** Moving a listener between sectors, as a client's character crosses a
    border: whatever sector is named to [RemoveSectorListener], afterwards the
    client listens to the destination and to nothing else. *)
Theorem listener_moves {C} `{IterOrder} (servers : gset Z) (ops : list PostingOp) (t origin dest s : Z) :
  Forall (respects servers) ops →
  listens (AddSectorListener dest t
            (RemoveSectorListener origin t (exec_all (C:=C) ops new_SectorPostingManager))) t s ↔ s = dest.
Proof.
  intros Hops.
  destruct (exec_all_refines (C:=C) servers ops _ _ (posting_inv_new servers) (reflexivity _) Hops) as [Hinv _].
  pose proof (exec_preserves (C:=C) servers (OpUnlisten origin t) _ Hinv I) as Hinv'.
  destruct (exec_refines (C:=C) servers (OpUnlisten origin t) _ Hinv) as (Hl&_&_).
  destruct (exec_refines (C:=C) servers (OpListen dest t) _ Hinv') as (Hl'&_&_). cbn in Hl, Hl'.
  rw Hl' Hl. naive_solver.
Qed.

(** The allocation of a sector to a new owner drops the sector from the
    previous owner's table even when that owner also listens to it, so a later
    [UnsetAll] of the previous owner leaves a stale listener behind. *)
Theorem AllocateSector_stale_listener {C} `{IterOrder} (s a b : Z) :
  a ≠ 0 → a ≠ b →
  listens (UnsetAll (C:=C) a
    (AllocateSector s b (AddSectorListener s a (AllocateSector s a new_SectorPostingManager)))).1 a s.
Proof.
  intros Ha Hab. rw /listens sector_at_unset decide_False.
  - rw /related. destruct (session_at_allocate (AddSectorListener s a
      (AllocateSector s a new_SectorPostingManager)) s b a) as [_ ->].
    rw (decide_False (P:=a = b)); [done|]. rw decide_True; [|set_solver].
    rw /owner /AddSectorListener sector_at_set decide_True; [done|]. cbn.
    by rw sector_at_allocate decide_True.
  - rw sector_at_allocate decide_True; [done|]. cbn.
    rw /AddSectorListener sector_at_set decide_True; [done|]. cbn. set_solver.
Qed.
