(* ===== verification/SectorSystem.v ===== *)
(** * Sector system

    [common/game/coordinate/SectorSystem.h] and [SectorSystem.cpp]: the
    fixtures of one sector, and the step that moves them and reports, through
    a [Callback], every change of location (inside, border zone, outside) or
    of phase (the third of the sector). *)

From S2P Require Import Prelude Coordinate SectorGrid Fixture.
From Stdlib Require Import QArith Qround Qabs Lqa SpecFloat.

Open Scope Z_scope.

Record SectorSystem (C : Type) : Type := mkSectorSystem {
  ss_sector_id : Z;
  ss_fixtures : gmap Z (Fixture C);
  ss_current_fixture_id : Z;
  ss_base_position : Vector2 C;
  ss_size : Vector2 C;
  ss_chunk_size : C;
  ss_gray_zone_chunk : C;
  ss_direction_ratio : Vector2 C;
  ss_inner_box : Vector2 C;
  ss_inner_box_position : Vector2 C;
}.
Arguments mkSectorSystem {C} _ _ _ _ _ _ _ _ _ _.
Arguments ss_sector_id {C} _.
Arguments ss_fixtures {C} _.
Arguments ss_current_fixture_id {C} _.
Arguments ss_base_position {C} _.
Arguments ss_size {C} _.
Arguments ss_chunk_size {C} _.
Arguments ss_gray_zone_chunk {C} _.
Arguments ss_direction_ratio {C} _.
Arguments ss_inner_box {C} _.
Arguments ss_inner_box_position {C} _.

(** [SectorSystem::Callback].  The fixture is passed by pointer, and the code
    of the callbacks reaches it through that pointer only: each returns the
    fixture as it leaves it.  ([OnCollisionFixture] is never called.) *)
Record Callback (C St Out : Type) : Type := mkCallback {
  OnChangeFixturePhase : Z → Fixture C → Direction → Act St Out (Fixture C);
  OnChangeFixtureLocation : Z → Fixture C → FixtureLocation → Direction → Act St Out (Fixture C);
}.
Arguments mkCallback {C St Out} _ _.
Arguments OnChangeFixturePhase {C St Out} _ _ _ _.
Arguments OnChangeFixtureLocation {C St Out} _ _ _ _ _.

Section sector_system.
Context {C : Type} `{CoordinateUnit C} `{IterOrder}.
Implicit Types ss : SectorSystem C.

Definition new_SectorSystem (server_id sector_id : Z) (base_position sector_size : Vector2 C)
  (chunk_size gray_zone_chunk : C) : SectorSystem C := {|
ss_sector_id := sector_id;
ss_fixtures := ∅;
ss_current_fixture_id :=
  u64 (server_id * 1000000000000000 + 200000000000000 + 100000000000 * sector_id + 1);
ss_base_position := base_position;
ss_size := sector_size;
ss_chunk_size := chunk_size;
ss_gray_zone_chunk := gray_zone_chunk;
ss_direction_ratio := mkVector2 (vx sector_size / c_of_Z 3)%coord (vy sector_size / c_of_Z 3)%coord;
ss_inner_box := mkVector2
  (vx sector_size - chunk_size * gray_zone_chunk * c_of_Z 2)%coord
  (vy sector_size - chunk_size * gray_zone_chunk * c_of_Z 2)%coord;
ss_inner_box_position := mkVector2
  (vx base_position + chunk_size * gray_zone_chunk)%coord
  (vy base_position + chunk_size * gray_zone_chunk)%coord;
|}.

Definition ss_set_fixtures (m : gmap Z (Fixture C)) ss : SectorSystem C :=
mkSectorSystem (ss_sector_id ss) m (ss_current_fixture_id ss) (ss_base_position ss) (ss_size ss)
  (ss_chunk_size ss) (ss_gray_zone_chunk ss) (ss_direction_ratio ss) (ss_inner_box ss)
  (ss_inner_box_position ss).
Definition ss_set_current_fixture_id (id : Z) ss : SectorSystem C :=
mkSectorSystem (ss_sector_id ss) (ss_fixtures ss) id (ss_base_position ss) (ss_size ss)
  (ss_chunk_size ss) (ss_gray_zone_chunk ss) (ss_direction_ratio ss) (ss_inner_box ss)
  (ss_inner_box_position ss).

(** [*fixture = ...] through a pointer into [_fixtures]. *)
Definition ss_put_fixture (id : Z) (f : Fixture C) ss : SectorSystem C :=
ss_set_fixtures (<[id := f]> (ss_fixtures ss)) ss.

(** The three overloads of [CreateFixture]; the pointer they return is the
  key of the new fixture. *)
Definition CreateFixture_copy (origin : Fixture C) ss : result (Fixture C * SectorSystem C) :=
match ss_fixtures ss !! fx_id origin with
| Some _ => Err (Exception "duplicate fixture id")
| None => Ok (origin, ss_put_fixture (fx_id origin) origin ss)
end.

Definition CreateFixture_id (position size : Vector2 C) (fixture_id : Z) ss
  : result (Fixture C * SectorSystem C) :=
match ss_fixtures ss !! fixture_id with
| Some _ => Err (Exception "duplicate fixture id")
| None =>
    let fixture := set_sector_id (ss_sector_id ss) (set_id fixture_id (set_size size
      (set_position position (set_direction Direction_Max new_Fixture)))) in
    Ok (fixture, ss_put_fixture (fx_id fixture) fixture ss)
end.

Definition CreateFixture (position size : Vector2 C) ss : result (Fixture C * SectorSystem C) :=
let id := ss_current_fixture_id ss in
CreateFixture_id position size id (ss_set_current_fixture_id (u64 (id + 1)) ss).

Definition RemoveFixture (fixture_id : Z) ss : SectorSystem C :=
match ss_fixtures ss !! fixture_id with
| None => ss
| Some _ => ss_set_fixtures (delete fixture_id (ss_fixtures ss)) ss
end.

Definition GetFixture (fixture_id : Z) ss : option (Fixture C) := ss_fixtures ss !! fixture_id.

Definition GetAllFixtures ss : gmap Z (Fixture C) := ss_fixtures ss.

Definition CalculateCurrentLocation ss (fixture : Fixture C) : FixtureLocation :=
if FixtureRectangleOverlap (rect_of (ss_inner_box_position ss) (ss_inner_box ss) (c_of_Z 0))
     (ToFixtureRectangle fixture)
then FixtureLocation_In
else if FixtureRectangleOverlap (rect_of (ss_base_position ss) (ss_size ss) (c_of_Z 0))
          (ToFixtureRectangle fixture)
then FixtureLocation_Gray
else FixtureLocation_Leave.

(** One component of [fixture_sector_ratio], clamped. *)
Definition phase_ratio (position base ratio : C) : C :=
let r := ((position - base) / ratio)%coord in
let r := if (r <? c_of_Z 0)%coord then c_of_Z 0 else r in
if (r >? c_of_Z 2)%coord then c_of_Z 2 else r.

(** [None] where the conversion or the index is undefined. *)
Definition CalculateCurrentPhase ss (fixture : Fixture C) : option Direction :=
let x := phase_ratio (vx (fx_position fixture)) (vx (ss_base_position ss)) (vx (ss_direction_ratio ss)) in
let y := phase_ratio (vy (fx_position fixture)) (vy (ss_base_position ss)) (vy (ss_direction_ratio ss)) in
iy ← c_to_int (c_abs y);
ix ← c_to_int (c_abs x);
grid_row ← arr_get PhaseGrid (2 - iy);
arr_get grid_row ix.

Section update.
Context {St Out : Type} (callback : Callback C St Out).

Definition current_phase ss (fixture : Fixture C) : Act St Out Direction :=
lift (from_option_ub "CalculateCurrentPhase" (CalculateCurrentPhase ss fixture)).

(** The body of the loop of [Update]. *)
Definition update_fixture ss (current_time delta_time : Z) (fixture : Fixture C) : Act St Out (Fixture C) :=
let fixture := snd (Move delta_time fixture) in
if fx_is_observing_fixture fixture then mret fixture
else if fx_last_transform_time fixture + TransformCooltime >? current_time then mret fixture
else match fx_location fixture with
| FixtureLocation_In =>
  let current_location := CalculateCurrentLocation ss fixture in
  if decide (current_location ≠ fx_location fixture) then
    phase ← current_phase ss fixture;
    fixture ← OnChangeFixtureLocation callback (ss_sector_id ss) fixture current_location phase;
    mret (set_location current_location (set_phase phase fixture))
  else mret fixture
| FixtureLocation_Gray =>
  let current_location := CalculateCurrentLocation ss fixture in
  phase ← current_phase ss fixture;
  if decide (current_location ≠ fx_location fixture) then
    let phase := if decide (current_location = FixtureLocation_In) then Direction_Max else phase in
    fixture ← OnChangeFixtureLocation callback (ss_sector_id ss) fixture current_location phase;
    mret (set_phase phase (set_location current_location fixture))
  else if decide (phase ≠ fx_phase fixture) then
    fixture ← (if decide (phase ≠ Direction_Max)
               then OnChangeFixturePhase callback (ss_sector_id ss) fixture phase
               else mret fixture);
    mret (set_phase phase fixture)
  else mret fixture
| _ => mret fixture
end.

Fixpoint update_fixtures ss (current_time delta_time : Z) (l : list (Z * Fixture C))
(fixtures : gmap Z (Fixture C)) : Act St Out (gmap Z (Fixture C)) :=
match l with
| [] => mret fixtures
| (id, fixture) :: l =>
  fixture ← update_fixture ss current_time delta_time fixture;
  update_fixtures ss current_time delta_time l (<[id := fixture]> fixtures)
end.

Definition SectorSystem_Update (current_time delta_time : Z) ss : Act St Out (SectorSystem C) :=
fixtures ← update_fixtures ss current_time delta_time (iter_map (ss_fixtures ss)) (ss_fixtures ss);
mret (ss_set_fixtures fixtures ss).
End update.
End sector_system.

(** The system [World::AddSector] builds for a sector of the grid. *)
Definition grid_sector {C} `{CoordinateUnit C} (server_id s : Z) : option (SectorSystem C) :=
  rect ← GetSectorFixtureRectangle s;
  Some (new_SectorSystem server_id s (LeftDown rect) SectorSize ChunkSize SectorGrayZoneChunk).

(** ** Phases, over exact coordinates *)

(** The third of a sector an offset falls in, the outside counted to the
    nearest third. *)
Definition third (x : Q) : Z :=
  if Qlt_le_dec x (5000 # 3) then 0 else if Qlt_le_dec x (10000 # 3) then 1 else 2.

Definition phase_of (ix iy : Z) : Direction :=
  default Direction_Max (grid_row ← arr_get PhaseGrid (2 - iy); arr_get grid_row ix).

Lemma third_cases x :
  ((x < 5000 # 3)%Q ∧ third x = 0) ∨ ((5000 # 3 <= x)%Q ∧ (x < 10000 # 3)%Q ∧ third x = 1) ∨
  ((10000 # 3 <= x)%Q ∧ third x = 2).
Proof. rw /third. destruct (Qlt_le_dec x (5000 # 3)); [auto|]. destruct (Qlt_le_dec x (10000 # 3)); auto. Qed.

Lemma exact_abs_nonneg (q : Q) : (0 <= q)%Q → c_to_int (c_abs q) = c_to_int q.
Proof.
  destruct q as [a d]. rw /Qle /= => Ha. rw (Z.abs_eq a); [lia|done].
Qed.

Lemma phase_ratio_third (p b : Q) :
  c_to_int (c_abs (phase_ratio p b (c_of_Z 50 * c_of_Z 100 / c_of_Z 3)%coord)) = Some (third (p - b)).
Proof.
  rw /phase_ratio /c_gtb. set (q := ((p - b) / (c_of_Z 50 * c_of_Z 100 / c_of_Z 3))%coord).
  assert (Hq : (q == (p - b) * (3 # 5000))%Q) by reflexivity. clearbody q.
  pose proof (third_cases (p - b)) as Ht.
  destruct (q <? c_of_Z 0)%coord eqn:E1; rewrite ->?exact_ltb_true, ?exact_ltb_false in E1; cbn in E1; exact_literals.
  - destruct Ht as [[_ ->]|[(?&?&_)|[? _]]]; [done|exfalso; lra..].
  - destruct (c_of_Z 2 <? q)%coord eqn:E2; rewrite ->?exact_ltb_true, ?exact_ltb_false in E2; cbn in E2; exact_literals.
    + destruct Ht as [[? _]|[(?&?&_)|[_ ->]]]; [exfalso; lra..|done].
    + rw exact_abs_nonneg; [done|].
      destruct Ht as [[? ->]|[(?&?&->)|[? ->]]]; apply exact_to_int_nonneg; try lia; rw ?inject_Z_plus;
        exact_literals; lra.
Qed.

Lemma phase_third_range x : 0 ≤ third x < 3.
Proof. destruct (third_cases x) as [[_ ->]|[(_&_&->)|[_ ->]]]; lia. Qed.

Lemma CalculateCurrentPhase_third server s (ss : SectorSystem Q) (f : Fixture Q) :
  grid_sector server s = Some ss →
  CalculateCurrentPhase ss f = Some (phase_of
    (third (vx (fx_position f) - vx (ss_base_position ss)))
    (third (vy (fx_position f) - vy (ss_base_position ss)))).
Proof.
  rw /grid_sector. destruct (GetSectorFixtureRectangle s) as [r|]; [|done]. cbn [mbind option_bind].
  intros [= <-]. rw /CalculateCurrentPhase. cbn [ss_base_position ss_direction_ratio new_SectorSystem vx vy].
  rw /SectorSize /ChunkSize. cbn [vx vy]. rw !phase_ratio_third. cbn [mbind option_bind].
  set (tx := third _). set (ty := third _).
  pose proof (phase_third_range (vx (fx_position f) - vx (LeftDown r))) as Hx.
  pose proof (phase_third_range (vy (fx_position f) - vy (LeftDown r))) as Hy.
  fold tx in Hx. fold ty in Hy. clearbody tx ty.
  assert (tx = 0 ∨ tx = 1 ∨ tx = 2) as [->|[->| ->]] by lia;
    assert (ty = 0 ∨ ty = 1 ∨ ty = 2) as [->|[->| ->]] by lia; reflexivity.
Qed.

(** ** Locations, over exact coordinates *)

Section exact_location.
Variables (server s : Z) (ss : SectorSystem Q) (f : Fixture Q).
Hypothesis Hss : grid_sector server s = Some ss.
Hypothesis Hsx : (0 < vx (fx_size f))%Q.
Hypothesis Hsy : (0 < vy (fx_size f))%Q.

Let dx := (vx (fx_position f) - vx (ss_base_position ss))%Q.
Let dy := (vy (fx_position f) - vy (ss_base_position ss))%Q.

Lemma grid_sector_inv : ∃ r, GetSectorFixtureRectangle s = Some r ∧
ss = new_SectorSystem server s (LeftDown r) SectorSize ChunkSize SectorGrayZoneChunk.
Proof.
pose proof Hss as E. rw /grid_sector in E. destruct (GetSectorFixtureRectangle s) as [r|]; [|done].
cbn [mbind option_bind] in E. injection E as E. eauto.
Qed.

(** The fixture's square misses the inner box. *)
Lemma not_in_exact :
CalculateCurrentLocation ss f ≠ FixtureLocation_In →
(dx < 1000 # 1)%Q ∨ (4000 # 1 < dx)%Q ∨ (dy < 1000 # 1)%Q ∨ (4000 # 1 < dy)%Q.
Proof.
destruct grid_sector_inv as (r&Hr&Ess). rw /dx /dy Ess /CalculateCurrentLocation.
destruct (FixtureRectangleOverlap _ _) eqn:E; [done|]. intros _.
apply not_true_iff_false in E. rw FixtureRectangleOverlap_true in E.
- split; cbn; exact_literals; lra.
- split; cbn; exact_literals; lra.
- cbn in *. exact_literals.
  destruct (Qlt_le_dec (vx (fx_position f) - rect_left r) (1000 # 1)); [auto|].
  destruct (Qlt_le_dec (4000 # 1) (vx (fx_position f) - rect_left r)); [auto|].
  destruct (Qlt_le_dec (vy (fx_position f) - rect_down r) (1000 # 1)); [auto|].
  destruct (Qlt_le_dec (4000 # 1) (vy (fx_position f) - rect_down r)); [auto|].
  exfalso. apply E. split_and!; lra.
Qed.

Lemma leave_exact :
CalculateCurrentLocation ss f = FixtureLocation_Leave →
(dx < 0)%Q ∨ (5000 # 1 < dx)%Q ∨ (dy < 0)%Q ∨ (5000 # 1 < dy)%Q.
Proof.
destruct grid_sector_inv as (r&Hr&Ess). rw /dx /dy Ess /CalculateCurrentLocation.
destruct (FixtureRectangleOverlap _ _) eqn:E'; [done|]. clear E'.
destruct (FixtureRectangleOverlap _ _) eqn:E; [done|]. intros _.
apply not_true_iff_false in E. rw FixtureRectangleOverlap_true in E.
- split; cbn; exact_literals; lra.
- split; cbn; exact_literals; lra.
- cbn in *. exact_literals.
  destruct (Qlt_le_dec (vx (fx_position f) - rect_left r) 0); [auto|].
  destruct (Qlt_le_dec (5000 # 1) (vx (fx_position f) - rect_left r)); [auto|].
  destruct (Qlt_le_dec (vy (fx_position f) - rect_down r) 0); [auto|].
  destruct (Qlt_le_dec (5000 # 1) (vy (fx_position f) - rect_down r)); [auto|].
  exfalso. apply E. split_and!; lra.
Qed.

Lemma border_phase :
CalculateCurrentLocation ss f ≠ FixtureLocation_In →
∃ d, CalculateCurrentPhase ss f = Some d ∧ d ≠ Direction_Max.
Proof.
intros Hl. rw (CalculateCurrentPhase_third server s); [done|]. eexists. split; [done|].
fold dx dy. destruct (not_in_exact Hl) as [Hd|[Hd|[Hd|Hd]]];
  destruct (third_cases dx) as [[? ->]|[(?&?&->)|[? ->]]];
  destruct (third_cases dy) as [[? ->]|[(?&?&->)|[? ->]]];
  try done; exfalso; lra.
Qed.
End exact_location.

(** The neighbour at an offset is one of the near sectors of every phase that
    faces it. *)
Lemma near_offset (s : Z) : valid_sector s →
  Forall (λ ox, Forall (λ oy, Forall (λ tx, Forall (λ ty,
    ¬ (ox = 0 ∧ oy = 0) → (ox = -1 → tx = 0) → (ox = 1 → tx = 2) → (oy = -1 → ty = 0) → (oy = 1 → ty = 2) →
    0 ≤ s mod 5 + ox < 5 → 0 ≤ s / 5 - oy < 5 →
    5 * (s / 5 - oy) + (s mod 5 + ox) ∈ near s (phase_of tx ty))
    [0; 1; 2]) [0; 1; 2]) [-1; 0; 1]) [-1; 0; 1].
Proof. revert s. by_sectors. Qed.

Lemma Q_between_lt (a b : Z) (x : Q) : (inject_Z a <= x)%Q → (x < inject_Z b)%Q → a < b.
Proof. intros H1 H2. rw Zlt_Qlt. lra. Qed.

(** One axis: the cell [c] of an offset within one sector of cell [n], and the
    third it is counted to. *)
Lemma axis_offset (x : Q) (n c : Z) :
  let d := (x - inject_Z (5000 * n - 10000))%Q in
  (-5000 # 1 <= d)%Q → (d < 10000 # 1)%Q →
  (inject_Z (5000 * c - 10000) <= x)%Q → (x < inject_Z (5000 * c - 5000))%Q →
  (c - n) ∈ [-1; 0; 1] ∧ third d ∈ [0; 1; 2] ∧ (c - n = -1 → third d = 0) ∧ (c - n = 1 → third d = 2) ∧
  ((d < 0)%Q ∨ (5000 # 1 < d)%Q → c - n ≠ 0).
Proof.
  intros d H1 H2 H3 H4.
  assert (Hd : (x == inject_Z (5000 * n - 10000) + d)%Q) by (rw /d; ring). clearbody d.
  assert (Ha : 5000 * n - 15000 < 5000 * c - 5000).
  { apply (Q_between_lt _ _ x); [|done].
    rw (_ : 5000 * n - 15000 = (5000 * n - 10000) + -5000); [lia|]. rw inject_Z_plus.
    change (inject_Z (-5000)) with (-5000 # 1)%Q. lra. }
  assert (Hb : 5000 * c - 10000 < 5000 * n).
  { apply (Q_between_lt _ _ x); [done|].
    rw (_ : 5000 * n = (5000 * n - 10000) + 10000); [lia|]. rw inject_Z_plus.
    change (inject_Z 10000) with (10000 # 1)%Q. lra. }
  assert (Hc : c - n = -1 ∨ c - n = 0 ∨ c - n = 1) by lia.
  rw (_ : 5000 * c - 10000 = (5000 * n - 10000) + 5000 * (c - n)) in H3; [lia|].
  rw (_ : 5000 * c - 5000 = (5000 * n - 10000) + (5000 * (c - n) + 5000)) in H4; [lia|].
  rw inject_Z_plus in H3. rw inject_Z_plus in H4.
  destruct Hc as [Ec|[Ec|Ec]]; rewrite ->Ec in *;
    change (5000 * -1) with (-5000) in *; change (5000 * 0) with 0 in *; change (5000 * 1) with 5000 in *;
    change (-5000 + 5000) with 0 in *; change (0 + 5000) with 5000 in *; change (5000 + 5000) with 10000 in *;
    change (inject_Z (-5000)) with (-5000 # 1)%Q in *; change (inject_Z 5000) with (5000 # 1)%Q in *;
    change (inject_Z 10000) with (10000 # 1)%Q in *; change (inject_Z 0) with 0%Q in *;
    destruct (third_cases d) as [[? ->]|[(?&?&->)|[? ->]]];
    split_and!; try set_solver; intros Hi; try done; try (exfalso; lra); destruct Hi; exfalso; lra.
Qed.

Lemma grid_sector_base server s (ss : SectorSystem Q) :
  grid_sector server s = Some ss → valid_sector s ∧
  (vx (ss_base_position ss) == inject_Z (5000 * (s mod 5) - 10000))%Q ∧
  (vy (ss_base_position ss) == inject_Z (5000 * (4 - s / 5) - 10000))%Q.
Proof.
  intros Hss. destruct (grid_sector_inv server s ss Hss) as (r&Hr&->).
  assert (Hs : valid_sector s).
  { apply valid_sector_iff. rw /GetSectorFixtureRectangle in Hr.
    destruct (arr_get SectorGridList s); [eauto|done]. }
  destruct (sector_rect_exact s Hs) as (r'&Hr'&El&_&Ed&_). simplify_eq. cbn.
  split_and!; [done..|]. by rw (_ : 5000 * (4 - s / 5) - 10000 = 10000 - 5000 * (s / 5)); [lia|].
Qed.

Lemma third_proper x y : (x == y)%Q → third x = third y.
Proof.
  intros Hxy. destruct (third_cases x) as [[? ->]|[(?&?&->)|[? ->]]],
    (third_cases y) as [[? ->]|[(?&?&->)|[? ->]]]; try done; exfalso; lra.
Qed.

(** An object that leaves its sector is handed over to a sector that
    already observes it: when its whole square has left the sector and its
    centre lies within one sector of it, inside the world, the sector at the
    centre is among the near sectors of the object's current phase. *)
Lemma leave_destination_near (server s : Z) (ss : SectorSystem Q) (f : Fixture Q) :
  grid_sector server s = Some ss →
  (0 < vx (fx_size f))%Q → (0 < vy (fx_size f))%Q →
  CalculateCurrentLocation ss f = FixtureLocation_Leave →
  in_rect WorldRect (fx_position f) →
  (-5000 # 1 <= vx (fx_position f) - vx (ss_base_position ss) < 10000 # 1)%Q →
  (-5000 # 1 <= vy (fx_position f) - vy (ss_base_position ss) < 10000 # 1)%Q →
  ∃ phase dest, CalculateCurrentPhase ss f = Some phase ∧
    GetSectorByPosition (fx_position f) = Some dest ∧ dest ∈ near s phase.
Proof.
  intros Hss Hsx Hsy Hleave (W1&W2&W3&W4) Hx Hy.
  destruct (grid_sector_base _ _ _ Hss) as (Hs&Bx&By).
  destruct WorldRect_exact as (El&Er&Ed&Eu).
  setoid_rewrite El in W1. setoid_rewrite Er in W2. setoid_rewrite Ed in W3. setoid_rewrite Eu in W4.
  destruct (world_cell _ W1 W2) as (c&Hc&Hx1&Hx2). destruct (world_cell _ W3 W4) as (n&Hn&Hy1&Hy2).
  assert (Hdest : GetSectorByPosition (fx_position f) = Some (5 * (4 - n) + c)).
  { apply GetSectorByPosition_cell; [lia..|done|done| |].
    - by rw (_ : 10000 - 5000 * (4 - n) = 5000 * n - 10000); [lia|].
    - by rw (_ : 15000 - 5000 * (4 - n) = 5000 * n - 5000); [lia|]. }
  pose proof (leave_exact server s ss f Hss Hsx Hsy Hleave) as Hout.
  rw (CalculateCurrentPhase_third server s); [done|].
  destruct (axis_offset (vx (fx_position f)) (s mod 5) c) as (Ox&Tx&Tx1&Tx2&Nx); [lra..|done|done|].
  destruct (axis_offset (vy (fx_position f)) (4 - s / 5) n) as (Oy&Ty&Ty1&Ty2&Ny); [lra..|done|done|].
  rw (third_proper (vx (fx_position f) - vx (ss_base_position ss))
        (vx (fx_position f) - inject_Z (5000 * (s mod 5) - 10000))); [lra|].
  rw (third_proper (vy (fx_position f) - vy (ss_base_position ss))
        (vy (fx_position f) - inject_Z (5000 * (4 - s / 5) - 10000))); [lra|].
  do 2 eexists. split; [done|]. split; [exact Hdest|].
  pose proof (near_offset s Hs) as Hnear. rewrite ->Forall_forall in Hnear.
  specialize (Hnear _ Ox). rewrite ->Forall_forall in Hnear. specialize (Hnear _ Oy).
  rewrite ->Forall_forall in Hnear. specialize (Hnear _ Tx). rewrite ->Forall_forall in Hnear.
  specialize (Hnear _ Ty).
  rw (_ : 5 * (4 - n) + c = 5 * (s / 5 - (n - (4 - s / 5))) + (s mod 5 + (c - s mod 5))); [lia|].
  apply Hnear; [|done..|lia|lia].
  intros [Ex Ey]. destruct Hout as [Ho|[Ho|[Ho|Ho]]].
  - apply Nx; [left; lra|done].
  - apply Nx; [right; lra|done].
  - apply Ny; [left; lra|done].
  - apply Ny; [right; lra|done].
Qed.

(** ** The phase in single precision *)

Lemma digits2_pos_lt (m : positive) : Z.pos m < 2 ^ Z.pos (digits2_pos m).
Proof.
  induction m as [m IH|m IH|]; cbn [digits2_pos]; [..|done];
    rw (_ : Z.pos (Pos.succ (digits2_pos m)) = Z.pos (digits2_pos m) + 1); try lia;
    rw Z.pow_add_r; lia.
Qed.

Lemma valid_mantissa_lt s m e : valid_binary 24 128 (S754_finite s m e) = true → Z.pos m < 2 ^ 24.
Proof.
  rw /valid_binary /bounded /canonical_mantissa /fexp /emin andb_true_iff Z.eqb_eq.
  intros [Hc _]. pose proof (digits2_pos_lt m).
  assert (2 ^ Z.pos (digits2_pos m) ≤ 2 ^ 24) by (apply Z.pow_le_mono_r; lia). lia.
Qed.

(** Clamping to [0, 2] leaves a value whose conversion is one of 0, 1, 2. *)
Lemma clamped_index (x : spec_float) :
  valid_binary 24 128 x = true → x ≠ S754_nan →
  let r := if (x <? c_of_Z 0)%coord then c_of_Z 0 else x in
  ∃ i, c_to_int (c_abs (if (r >? c_of_Z 2)%coord then c_of_Z 2 else r)) = Some i ∧ 0 ≤ i ≤ 2.
Proof.
  change (c_of_Z 0) with (S754_zero false). change (c_of_Z 2) with (S754_finite false 8388608 (-22)).
  rw /c_gtb. cbn [c_ltb binary32 c_to_int c_abs]. intros Hv Hn.
  destruct x as [s|s| |s m e]; [exists 0; split; [by destruct s|lia]| |done|].
  { destruct s; [exists 0|exists 2]; (split; [done|lia]). }
  destruct s; [exists 0; split; [done|lia]|].
  pose proof (valid_mantissa_lt _ _ _ Hv) as Hm. clear Hv Hn.
  rw (_ : SFltb (S754_finite false m e) (S754_zero false) = false); [done|].
  rw /SFltb /SFcompare. destruct (Z.compare_spec (-22) e) as [<-|He|He].
  - change (Pos.compare_cont Eq 8388608 m) with (8388608 ?= m)%positive.
    destruct (Pos.compare_spec 8388608 m) as [<-|Hlt|Hgt]; [exists 2; split; [done|lia]..|].
    apply Pos2Z.pos_lt_pos in Hgt. clear Hm.
    rw /f32_trunc /SFabs. cbn [cond_Zopp]. change (0 <=? -22) with false. cbn iota.
    change (2 ^ - (-22)) with 4194304. exists (Z.pos m / 4194304).
    assert (0 ≤ Z.pos m / 4194304) by (apply Z.div_pos; lia).
    assert (Z.pos m / 4194304 < 3) by (apply Z.div_lt_upper_bound; lia).
    split; [|lia]. rw /int32_range (proj2 (Z.leb_le _ _)); [lia|]. by rw (proj2 (Z.ltb_lt _ _)); [lia|].
  - exists 2. cbn. split; [done|lia].
  - rw /f32_trunc /SFabs. rw (proj2 (Z.leb_gt 0 e)); [lia|]. cbn [cond_Zopp].
    exists (Z.pos m / 2 ^ (- e)).
    assert (0 ≤ Z.pos m / 2 ^ (- e)) by (apply Z.div_pos; lia).
    assert (Z.pos m / 2 ^ (- e) < 2).
    { apply Z.div_lt_upper_bound; [lia|]. 
      assert (2 ^ 23 ≤ 2 ^ (- e)) by (apply Z.pow_le_mono_r; lia). lia. }
    split; [|lia]. rw /int32_range (proj2 (Z.leb_le _ _)); [lia|]. by rw (proj2 (Z.ltb_lt _ _)); [lia|].
Qed.

(** C33: In single precision the phase is defined for every fixture whose
    offset, measured in thirds of the sector, is a number: the clamping keeps
    the indices into [PhaseGrid] in range, also for infinities. *)
Theorem CalculateCurrentPhase_binary32 (ss : SectorSystem spec_float) (f : Fixture spec_float) :
  let x := ((vx (fx_position f) - vx (ss_base_position ss)) / vx (ss_direction_ratio ss))%coord in
  let y := ((vy (fx_position f) - vy (ss_base_position ss)) / vy (ss_direction_ratio ss))%coord in
  valid_binary 24 128 x = true → x ≠ S754_nan →
  valid_binary 24 128 y = true → y ≠ S754_nan →
  is_Some (CalculateCurrentPhase ss f).
Proof.
  intros x y Hx Hnx Hy Hny. rw /CalculateCurrentPhase /phase_ratio.
  destruct (clamped_index x Hx Hnx) as (ix&Eix&Hix). destruct (clamped_index y Hy Hny) as (iy&Eiy&Hiy).
  fold x y. rw Eiy Eix. cbn [mbind option_bind].
  assert (ix = 0 ∨ ix = 1 ∨ ix = 2) as [->|[->| ->]] by lia;
    assert (iy = 0 ∨ iy = 1 ∨ iy = 2) as [->|[->| ->]] by lia; by eexists.
Qed.

(** ** The update step *)

(** What the sector system relies on: a callback touches nothing of a fixture
    but its transform time and its observing flag, and fails, if at all, with
    the faults [E]. *)
Definition same_body {C} (f f' : Fixture C) : Prop :=
  ∃ time observing, f' = set_last_transform_time time (set_is_observing_fixture observing f).

Class CallbackFrame {C St Out : Type} (callback : Callback C St Out) (E : fault → Prop) : Prop := {
  location_frame : ∀ s f l d st,
    wp (OnChangeFixtureLocation callback s f l d) st (λ f' _ _, same_body f f') E;
  phase_frame : ∀ s f d st,
    wp (OnChangeFixturePhase callback s f d) st (λ f' _ _, same_body f f') E;
}.

(** The fixtures a step examines: owned, cooled down, and not yet left. *)
Definition examined {C} (current_time : Z) (f : Fixture C) : Prop :=
  fx_is_observing_fixture f = false ∧
  fx_last_transform_time f + TransformCooltime ≤ current_time ∧
  (fx_location f = FixtureLocation_In ∨ fx_location f = FixtureLocation_Gray).

#[export] Instance examined_dec {C} current_time (f : Fixture C) : Decision (examined current_time f).
Proof. rw /examined. apply _. Defined.

(** What a step does to the zone of a fixture. *)
Record zone_step {C} `{CoordinateUnit C} (ss : SectorSystem C) (current_time delta_time : Z)
    (f f' : Fixture C) : Prop := {
  zs_position : fx_position f' = fx_position (Move delta_time f).2;
  zs_id : fx_id f' = fx_id f;
  zs_skipped : ¬ examined current_time f → f' = (Move delta_time f).2;
  zs_location : examined current_time f →
    fx_location f' = CalculateCurrentLocation ss (Move delta_time f).2;
  zs_phase : examined current_time f → fx_location f' ≠ FixtureLocation_In →
    CalculateCurrentPhase ss (Move delta_time f).2 = Some (fx_phase f');
  zs_inside : examined current_time f → fx_location f' = FixtureLocation_In →
    fx_phase f' = if decide (fx_location f = FixtureLocation_In) then fx_phase f else Direction_Max;
}.

(** Moving changes the position and the pending time only. *)
Lemma Move_frame {C} `{CoordinateUnit C} dt (f : Fixture C) :
  let g := (Move dt f).2 in
  fx_id g = fx_id f ∧ fx_size g = fx_size f ∧ fx_location g = fx_location f ∧ fx_phase g = fx_phase f ∧
  fx_is_observing_fixture g = fx_is_observing_fixture f ∧
  fx_last_transform_time g = fx_last_transform_time f ∧ fx_sector_id g = fx_sector_id f.
Proof. rw /Move. case_decide; done. Qed.

Section update_rules.
Context {C St Out : Type} `{CoordinateUnit C} `{IterOrder} (callback : Callback C St Out).

Lemma wp_current_phase ss (f : Fixture C) st (Q : Direction → St → list Out → Prop) E :
is_Some (CalculateCurrentPhase ss f) →
(∀ d, CalculateCurrentPhase ss f = Some d → Q d st []) →
wp (current_phase (Out:=Out) ss f) st Q E.
Proof. intros [d Hd] HQ. rw /wp /current_phase /lift Hd. by apply HQ. Qed.

Lemma update_fixture_step E `{!CallbackFrame callback E} ss t dt (f : Fixture C) st :
is_Some (CalculateCurrentPhase ss (Move dt f).2) →
wp (update_fixture callback ss t dt f) st (λ f' _ _, zone_step ss t dt f f') E.
Proof.
intros Hphase.
rw /update_fixture. destruct (Move_frame dt f) as (Eid&_&Eloc&Eph&Eobs&Elast&_).
set (g := (Move dt f).2) in *.
assert (Hskip : ¬ examined t f → zone_step ss t dt f g) by (by intros Hne; split).
rw /examined -Eobs -Elast -Eloc in Hskip.
destruct (fx_is_observing_fixture g) eqn:Hobs; [by apply wp_ret, Hskip; intros (?&_)|].
case: (Z.gtb_spec (fx_last_transform_time g + TransformCooltime) t) => Ht;
  [apply wp_ret, Hskip; intros (_&?&_); lia|].
destruct (fx_location g) eqn:Hloc.
3,4: by apply wp_ret, Hskip; intros (_&_&[|]).
all: assert (Hex : examined t f)
  by (rw /examined -Eobs -Elast -Eloc; split_and!; [done|lia|auto]).
- case_decide as Hl.
  + apply wp_bind, wp_current_phase; [done|]. intros d Hd. apply wp_bind.
    eapply wp_mono; [apply location_frame| |done]. intros h st' o (time&observing&->). apply wp_ret.
    by split.
  + apply wp_ret. split; try done; rw ?Hl ?Hloc //.
    intros _ _. by rw decide_True.
- apply wp_bind, wp_current_phase; [done|]. intros d Hd. case_decide as Hl.
  + apply wp_bind. eapply wp_mono; [apply location_frame| |done]. intros h st' o (time&observing&->). apply wp_ret.
    split; try done; cbn; intros _ Hin; [by rw decide_False|].
    rw decide_True; [done|]. by rw decide_False; [rw -Eloc|].
  + case_decide as Hp.
    * apply wp_bind. case_decide.
      -- eapply wp_mono; [apply phase_frame| |done]. intros h st' o (time&observing&->). apply wp_ret.
         split; try done; cbn; rw ?Hl ?Hloc //.
      -- apply wp_ret, wp_ret. split; try done; cbn; rw ?Hl ?Hloc //.
    * subst d. apply wp_ret. split; try done; rw ?Hl ?Hloc //.
Qed.

(** A relation every fixture's step satisfies relates the whole tables. *)
Lemma wp_SectorSystem_Update (R : Fixture C → Fixture C → Prop) (I : St → Prop) E ss t dt :
(∀ id f st, ss_fixtures ss !! id = Some f → I st →
   wp (update_fixture callback ss t dt f) st (λ f' st' _, R f f' ∧ I st') E) →
∀ st, I st →
wp (SectorSystem_Update callback t dt ss) st
  (λ ss' st' _, I st' ∧ ∃ m', ss' = ss_set_fixtures m' ss ∧
     ∀ id, option_Forall2 R (ss_fixtures ss !! id) (m' !! id)) E.
Proof.
intros Hstep.
assert (Hgen : ∀ l m st, NoDup l.*1 → (∀ id f, (id, f) ∈ l → ss_fixtures ss !! id = Some f) →
  (∀ id, id ∈ l.*1 → m !! id = ss_fixtures ss !! id) →
  (∀ id, (id ∉ l.*1) → option_Forall2 R (ss_fixtures ss !! id) (m !! id)) → I st →
  wp (update_fixtures callback ss t dt l m) st
    (λ m' st' _, I st' ∧ ∀ id, option_Forall2 R (ss_fixtures ss !! id) (m' !! id)) E).
{ induction l as [|[id f] l IH]; intros m st Hnd Hl Hm Hr HI; cbn [update_fixtures].
  - apply wp_ret. split; [done|]. intros id. apply Hr, not_elem_of_nil.
  - rw fmap_cons in Hnd Hm Hr. apply NoDup_cons in Hnd as [Hni Hnd]. apply wp_bind.
    assert (Hf : ss_fixtures ss !! id = Some f) by (apply Hl; by left).
    eapply wp_mono; [exact (Hstep id f st Hf HI)| |done]. intros f' st' o [HR HI'].
    apply IH; [done| | | |done].
    + intros id' f0 Hin. apply Hl. by right.
    + intros id' Hin. rw lookup_insert_ne; [by intros ->|]. apply Hm. by right.
    + intros id' Hin. destruct (decide (id' = id)) as [->|Hne].
      * rw lookup_insert_eq Hf. by constructor.
      * rw lookup_insert_ne; [congruence|]. apply Hr. rw elem_of_cons. intros [|]; done. }
intros st HI. apply wp_bind. eapply wp_mono; [apply Hgen; [apply NoDup_iter_map| | | |exact HI]| |done].
- intros id f. apply elem_of_iter_map.
- done.
- intros id Hni. destruct (ss_fixtures ss !! id) as [f|] eqn:Ef; [|constructor].
  destruct Hni. apply list_elem_of_fmap. exists (id, f). split; [done|]. by apply elem_of_iter_map.
- intros m' st' o [HI' Hall]. apply wp_ret. split; [done|]. by exists m'.
Qed.
End update_rules.

(** The zone of a fixture determines whether it has a phase: exactly the
    fixtures of the border zone do. *)
Definition zone_inv {C} (f : Fixture C) : Prop :=
  (fx_location f = FixtureLocation_In → fx_phase f = Direction_Max) ∧
  (fx_location f = FixtureLocation_Gray → fx_phase f ≠ Direction_Max).

(** A sector system of the grid, whatever fixtures it holds and has created. *)
Definition on_grid {C} `{CoordinateUnit C} (server s : Z) (ss g : SectorSystem C) : Prop :=
  grid_sector server s = Some g ∧
  ss = ss_set_fixtures (ss_fixtures ss) (ss_set_current_fixture_id (ss_current_fixture_id ss) g).

Lemma on_grid_location {C} `{CoordinateUnit C} server s (ss g : SectorSystem C) f :
  on_grid server s ss g → CalculateCurrentLocation ss f = CalculateCurrentLocation g f.
Proof. by intros [_ ->]. Qed.
Lemma on_grid_phase {C} `{CoordinateUnit C} server s (ss g : SectorSystem C) f :
  on_grid server s ss g → CalculateCurrentPhase ss f = CalculateCurrentPhase g f.
Proof. by intros [_ ->]. Qed.

