(* ===== verification/World.v ===== *)
(** * World

    [common/game/World.h] and [World.cpp]: the sectors a play server owns, the
    requests of agencies and of the other play servers, and the protocol that
    keeps, for an object in the border zone of its sector, an observing copy
    in each near sector and hands the object over when it leaves.

    The posting manager is read only by this code ([Send*]), so it is an
    argument.  [CurrentTick] is read at named places, once per object:
    [clock place object_id] is the reading. *)

From S2P Require Import Prelude Coordinate SectorGrid Fixture Packet Protocol Sampling.
From S2P Require Import PacketThrottler SectorPosting SectorSystem.
From Stdlib Require Import QArith Lqa.

Open Scope Z_scope.

Record PromotedObjectInfo : Type := mkPromotedObjectInfo {
  poi_object_id : Z; poi_promoted_sector_id : Z; poi_tracking_timer : Countdown }.

(** [_sectors] maps to pointers, and holds null pointers too. *)
Record World (C : Type) : Type := mkWorld {
  w_sectors : gmap Z (option (SectorSystem C));
  w_promoted_object_list : gmap Z PromotedObjectInfo;
  w_removing_fixtures : list Z;
  w_remove_count : Z;
}.
Arguments mkWorld {C} _ _ _ _.
Arguments w_sectors {C} _.
Arguments w_promoted_object_list {C} _.
Arguments w_removing_fixtures {C} _.
Arguments w_remove_count {C} _.

Definition new_World {C} : World C := mkWorld ∅ ∅ [] 0.

(** ** The exchange of observers, on sector ids

    The loops of [ExchangeObservingObject] over its two arrays. *)

Fixpoint cancel_overlap (prev_sector_id : Z) (new_near_sectors : list Z) : Z * list Z :=
  match new_near_sectors with
  | [] => (prev_sector_id, [])
  | new_sector_id :: rest =>
      if new_sector_id =? INVALID_SECTOR then (prev_sector_id, new_sector_id :: rest)
      else if prev_sector_id =? new_sector_id then (INVALID_SECTOR, INVALID_SECTOR :: rest)
      else let '(prev, rest) := cancel_overlap prev_sector_id rest in (prev, new_sector_id :: rest)
  end.

Fixpoint cancel_overlaps (prev_near_sectors new_near_sectors : list Z) : list Z * list Z :=
  match prev_near_sectors with
  | [] => ([], new_near_sectors)
  | prev_sector_id :: rest =>
      if prev_sector_id =? INVALID_SECTOR then (prev_sector_id :: rest, new_near_sectors)
      else let '(prev, news) := cancel_overlap prev_sector_id new_near_sectors in
           let '(prevs, news) := cancel_overlaps rest news in (prev :: prevs, news)
  end.

Definition invalidate (sector_id : Z) (sectors : list Z) : list Z :=
  (λ x, if x =? sector_id then INVALID_SECTOR else x) <$> sectors.

(** The sectors to notify of a removal and of a creation. *)
Definition exchange_sectors (phase : Direction) (sector_id : Z) (new_phase : Direction)
    (dest_sector_id : Z) : option (list Z * list Z) :=
  prev_near ← GetNearSectors sector_id phase;
  new_near ← GetNearSectors dest_sector_id new_phase;
  let prev_near := prev_near ++ [sector_id] in
  let '(prev_near, new_near) :=
    if decide (phase ≠ Direction_Max ∧ new_phase ≠ Direction_Max)
    then cancel_overlaps prev_near new_near else (prev_near, new_near) in
  Some (invalidate dest_sector_id prev_near, invalidate sector_id new_near).

Section world.
Context {C : Type} `{CoordinateUnit C} `{IterOrder} `{Indeterminate C}.
Variable pm : SectorPostingManager.
Variable clock : string → Z → Z.

Abbreviation M := (Act (World C) (Effect C)).

Definition set_sectors (m : gmap Z (option (SectorSystem C))) (w : World C) : World C :=
mkWorld m (w_promoted_object_list w) (w_removing_fixtures w) (w_remove_count w).
Definition set_promoted (m : gmap Z PromotedObjectInfo) (w : World C) : World C :=
mkWorld (w_sectors w) m (w_removing_fixtures w) (w_remove_count w).

(** [SectorSystem*& sector = _sectors[sector_id]] inserts a null pointer. *)
Definition sector_ref (sector_id : Z) : M (option (SectorSystem C)) :=
w ← get_state;
match w_sectors w !! sector_id with
| Some sector => mret sector
| None => modify (set_sectors (<[sector_id := None]> (w_sectors w))) ;; mret None
end.

Definition put_sector (sector_id : Z) (sector : SectorSystem C) : M () :=
modify (λ w, set_sectors (<[sector_id := Some sector]> (w_sectors w)) w).

Definition ub_option {A} (what : string) (o : option A) : M A := lift (from_option_ub what o).

(** ** Sectors *)

Definition AddSector (server_id sector_id : Z) : M () :=
sector ← sector_ref sector_id;
match sector with
| Some _ => throw "duplicate sector"
| None =>
    rect ← ub_option "SectorGridList" (GetSectorFixtureRectangle sector_id);
    put_sector sector_id
      (new_SectorSystem server_id sector_id (LeftDown rect) SectorSize ChunkSize SectorGrayZoneChunk)
end.

Definition RemoveSector (sector_id : Z) : M () :=
sector ← sector_ref sector_id;
match sector with
| None => mret ()
| Some _ => modify (λ w, set_sectors (delete sector_id (w_sectors w)) w)
end.

Definition ClearSector : M () :=
modify (λ w, set_sectors ((λ _, None) <$> w_sectors w) w).

Definition GetAllObjects (sector_id : Z) : M (gmap Z (Fixture C)) :=
sector ← sector_ref sector_id;
match sector with
| None => fail (AssertionFailed "sector != nullptr")
| Some sector => mret (GetAllFixtures sector)
end.

Definition GetAllSectors : M (gmap Z (option (SectorSystem C))) :=
w ← get_state; mret (w_sectors w).

(** ** Characters *)

Definition SpawnCharacter (request_session : SessionRef) (request_server_id : Z)
  (packet : packet_spawn_character_rq C) : M () :=
let sector_id := oi_sector_id (sprq_object_info packet) in
let response := mk_spawn_character_rs (sprq_user_id packet) EmptyString uninit_PacketObjectInfo in
sector ← sector_ref sector_id;
match sector with
| None => emit [Send request_session (pkt_spawn_character_rs response) SectorNotFound]
| Some sector =>
    '(fixture, sector) ← lift (CreateFixture (fx_position (oi_fixture (sprq_object_info packet)))
                                 (fx_size (oi_fixture (sprq_object_info packet))) sector);
    let fixture := set_last_transform_time (clock "SpawnCharacter" (fx_id fixture)) fixture in
    put_sector sector_id (ss_put_fixture (fx_id fixture) fixture sector) ;;
    let object_info := oi_set_sector_id (fx_sector_id fixture)
      (oi_set_object_id (fx_id fixture) (oi_set_fixture fixture uninit_PacketObjectInfo)) in
    let response := mk_spawn_character_rs (sprq_user_id packet) EmptyString object_info in
    let broadcast := mk_create_object_ps object_info in
    emit (SendTo pm request_server_id (pkt_spawn_character_rs response)) ;;
    emit (SendToSectorWithout pm request_server_id (pkt_create_object_ps broadcast) sector_id false)
end.

(** The notifications to the near sectors of an object of the border zone,
  of [RemoveCharacter] and [MoveObject]. *)
Definition notify_near_sectors (broadcast request : Z → Packet C) (near_sectors : list Z) : list (Effect C) :=
concat ((λ sector_id,
  if sector_id =? INVALID_SECTOR then []
  else SendToSector pm (broadcast sector_id) sector_id false
       ++ SendToSectorOwner pm (request sector_id) sector_id) <$> near_sectors).

(** An object that is not, or no longer, owned here: the request follows the
  object to the sector it was handed over to. *)
Definition forward_to_promoted (object_id : Z) (request : Z → Packet C) : M () :=
w ← get_state;
match w_promoted_object_list w !! object_id with
| Some promoted =>
    emit (SendToSectorOwner pm (request (poi_promoted_sector_id promoted)) (poi_promoted_sector_id promoted))
| None => throw "error"
end.

Definition RemoveCharacter (request_session : SessionRef) (request_server_id : Z)
  (packet : packet_remove_character_rq) : M () :=
let sector_id := rcq_sector_id packet in
let object_id := rcq_object_id packet in
let request (to_owner : bool) (s : Z) : Packet C :=
  pkt_remove_character_rq (mk_remove_character_rq (rcq_user_id packet) s object_id to_owner) in
let response := mk_remove_character_rs (rcq_user_id packet) sector_id object_id in
sector ← sector_ref sector_id;
match sector with
| None => emit [Send request_session (pkt_remove_character_rs response) SectorNotFound]
| Some sector =>
    match GetFixture object_id sector with
    | None =>
        if rcq_to_owner packet then forward_to_promoted object_id (request (rcq_to_owner packet))
        else emit [Send request_session (pkt_remove_character_rs response) ObjectNotFound]
    | Some fixture =>
        if fx_is_observing_fixture fixture then
          if rcq_to_owner packet then forward_to_promoted object_id (request (rcq_to_owner packet))
          else put_sector sector_id (RemoveFixture (fx_id fixture) sector)
        else
          modify (λ w, mkWorld (w_sectors w) (w_promoted_object_list w) (w_removing_fixtures w)
                         (u32 (w_remove_count w + 1))) ;;
          let broadcast (s : Z) : Packet C :=
            pkt_remove_object_ps (mk_remove_object_ps s object_id (ind_Z "broadcast.reason")) in
          emit (SendTo pm request_server_id (pkt_remove_character_rs response)) ;;
          emit (SendToSectorWithout pm request_server_id (broadcast sector_id) sector_id false) ;;
          (if decide (fx_location fixture = FixtureLocation_Gray) then
             near_sectors ← ub_option "SectorGridList" (GetNearSectors sector_id (fx_phase fixture));
             emit (notify_near_sectors broadcast (request false) near_sectors)
           else mret ()) ;;
          put_sector sector_id (RemoveFixture (fx_id fixture) sector)
    end
end.

Definition MoveObject (request_session : SessionRef) (request_server_id : Z)
  (packet : packet_character_move_rq C) : M () :=
let sector_id := cmrq_sector_id packet in
let object_id := cmrq_object_id packet in
let request (to_owner : bool) (s : Z) : Packet C := pkt_character_move_rq (mk_character_move_rq s object_id
  (cmrq_starting_position packet) (cmrq_direction packet) to_owner) in
let response := mk_character_move_rs sector_id object_id (cmrq_starting_position packet) (cmrq_direction packet) in
sector ← sector_ref sector_id;
match sector with
| None => mret ()
| Some sector =>
    match GetFixture object_id sector with
    | None =>
        if cmrq_to_owner packet then forward_to_promoted object_id (request (cmrq_to_owner packet))
        else throw "error"
    | Some fixture =>
        let fixture := set_direction (cmrq_direction packet)
                         (set_position (cmrq_starting_position packet) fixture) in
        put_sector sector_id (ss_put_fixture object_id fixture sector) ;;
        if fx_is_observing_fixture fixture then
          if cmrq_to_owner packet then forward_to_promoted object_id (request (cmrq_to_owner packet))
          else mret ()
        else
          let broadcast (s : Z) : Packet C := pkt_object_move_ps (mk_object_move_ps s object_id
            (cmrq_starting_position packet) (cmrq_direction packet)) in
          emit (SendToSectorWithout pm request_server_id (broadcast sector_id) sector_id false) ;;
          emit (SendTo pm request_server_id (pkt_character_move_rs response)) ;;
          if decide (fx_location fixture = FixtureLocation_Gray) then
            near_sectors ← ub_option "SectorGridList" (GetNearSectors sector_id (fx_phase fixture));
            emit (notify_near_sectors broadcast (request false) near_sectors)
          else mret ()
    end
end.

(** ** Observing copies *)

Definition CreateObservingObject (packet : packet_create_observing_object_rq C) : M () :=
let object_info := corq_object_info packet in
sector ← sector_ref (oi_sector_id object_info);
match sector with
| None => mret ()
| Some sector =>
    match GetFixture (oi_object_id object_info) sector with
    | Some _ => throw "error"
    | None =>
        '(fixture, sector) ← lift (CreateFixture_copy (oi_fixture object_info) sector);
        let fixture := set_is_observing_fixture true fixture in
        phase ← ub_option "CalculateCurrentPhase" (CalculateCurrentPhase sector fixture);
        let fixture := set_phase phase fixture in
        put_sector (oi_sector_id object_info) (ss_put_fixture (fx_id fixture) fixture sector)
    end
end.

Definition RemoveObservingObject (packet : packet_remove_observing_object_rq) : M () :=
sector ← sector_ref (rorq_sector_id packet);
match sector with
| None => mret ()
| Some sector =>
    match GetFixture (rorq_object_id packet) sector with
    | None => fail (AssertionFailed "fixture != nullptr")
    | Some fixture =>
        check "fixture->is_observing_fixture" (fx_is_observing_fixture fixture) ;;
        put_sector (rorq_sector_id packet) (RemoveFixture (rorq_object_id packet) sector)
    end
end.

Definition SendRemoveObservingObject (sectors : list Z) (object_id : Z) : list (Effect C) :=
concat ((λ sector_id,
  if sector_id =? INVALID_SECTOR then []
  else SendToSector pm (pkt_remove_object_ps (mk_remove_object_ps sector_id object_id 0)) sector_id false
       ++ SendToSectorOwner pm
            (pkt_remove_observing_object_rq (mk_remove_observing_object_rq sector_id object_id 0)) sector_id)
  <$> sectors).

Definition SendCreateObservingObject (sectors : list Z) (origin_sector_id : Z)
  (object_info : PacketObjectInfo C) : list (Effect C) :=
concat ((λ sector_id,
  if sector_id =? INVALID_SECTOR then []
  else
    let create_info := oi_set_fixture (set_sector_id sector_id (oi_fixture object_info))
                         (oi_set_sector_id sector_id object_info) in
    let broadcast_info := oi_set_sector_id sector_id object_info in
    SendToSector pm (pkt_create_object_ps (mk_create_object_ps broadcast_info)) sector_id false
    ++ SendToSectorOwner pm
         (pkt_create_observing_object_rq (mk_create_observing_object_rq origin_sector_id create_info)) sector_id)
  <$> sectors).

(** [location] is not used by the code. *)
Definition ExchangeObservingObject (object_info : PacketObjectInfo C)
  (location : FixtureLocation) (phase : Direction) (sector_id : Z)
  (new_location : FixtureLocation) (new_phase : Direction) (dest_sector_id : Z) : M () :=
if decide (sector_id = dest_sector_id ∧ phase = new_phase ∧ new_location = FixtureLocation_Leave)
then mret ()
else
  '(prev_near_sectors, new_near_sectors) ← ub_option "SectorGridList"
    (exchange_sectors phase sector_id new_phase dest_sector_id);
  emit (if decide (phase ≠ Direction_Max)
        then SendRemoveObservingObject prev_near_sectors (oi_object_id object_info) else []) ;;
  emit (if decide (new_phase ≠ Direction_Max)
        then SendCreateObservingObject new_near_sectors sector_id object_info else []).

Definition PromoteObservingObject (packet : packet_promote_object_rq C) : M () :=
let object_info := porq_object_info packet in
let sector_id := oi_sector_id object_info in
sector ← sector_ref sector_id;
match sector with
| None => mret ()
| Some sector =>
    match GetFixture (oi_object_id object_info) sector with
    | None => throw "error"
    | Some _ =>
        (* the key of the overwritten fixture is the requested object id *)
        let promoted := set_last_transform_time (u32 (clock "PromoteObservingObject" (oi_object_id object_info)))
          (set_is_observing_fixture false (oi_fixture object_info)) in
        let origin_location := fx_location promoted in
        let dest_location := CalculateCurrentLocation sector promoted in
        let origin_phase := fx_phase promoted in
        dest_phase ← ub_option "CalculateCurrentPhase" (CalculateCurrentPhase sector promoted);
        let dest_phase := if decide (dest_location = FixtureLocation_In) then Direction_Max else dest_phase in
        let promoted := set_location dest_location (set_phase dest_phase promoted) in
        put_sector sector_id (ss_put_fixture (oi_object_id object_info) promoted sector) ;;
        emit (SendToSector pm (pkt_promote_object_rq packet) (porq_origin_sector_id packet) false) ;;
        if decide (dest_location = FixtureLocation_Leave) then throw "error"
        else
          near_phase ← ub_option "SectorGridList"
            (IsNearPhase (porq_origin_sector_id packet) origin_phase (fx_sector_id promoted) dest_phase);
          if near_phase : bool then mret ()
          else ExchangeObservingObject object_info origin_location origin_phase (porq_origin_sector_id packet)
                 dest_location dest_phase (fx_sector_id promoted)
    end
end.

(** ** The callbacks of the sector systems *)

Definition World_OnChangeFixturePhase (sector_id : Z) (fixture : Fixture C) (phase : Direction) : M (Fixture C) :=
check "fixture->location == FixtureLocation::Gray"
  (bool_decide (fx_location fixture = FixtureLocation_Gray)) ;;
let object_info := oi_set_fixture fixture (oi_set_sector_id sector_id
  (oi_set_object_id (fx_id fixture) uninit_PacketObjectInfo)) in
ExchangeObservingObject object_info (fx_location fixture) (fx_phase fixture) (fx_sector_id fixture)
  (fx_location fixture) phase sector_id ;;
mret fixture.

Definition World_OnChangeFixtureLocation (sector_id : Z) (fixture : Fixture C)
  (location : FixtureLocation) (phase : Direction) : M (Fixture C) :=
w ← get_state;
match w_sectors w !! sector_id with
| None => mret fixture
| Some _ =>
    let fixture := set_last_transform_time (clock "OnChangeFixtureLocation" (fx_id fixture)) fixture in
    let object_info := oi_set_fixture fixture (oi_set_sector_id sector_id
      (oi_set_object_id (fx_id fixture) uninit_PacketObjectInfo)) in
    ExchangeObservingObject object_info (fx_location fixture) (fx_phase fixture) sector_id
      location phase sector_id ;;
    if decide (location ≠ FixtureLocation_Leave) then mret fixture
    else
      near_sectors ← ub_option "SectorGridList" (GetNearSectors sector_id phase);
      dest_sector_id ← ub_option "GetSectorByPosition" (GetSectorByPosition (fx_position fixture));
      emit (if existsb (Z.eqb dest_sector_id) near_sectors then []
            else SendCreateObservingObject [dest_sector_id; INVALID_SECTOR; INVALID_SECTOR] sector_id object_info) ;;
      let object_info := oi_set_fixture
        (set_phase phase (set_location location (oi_fixture object_info))) object_info in
      let fixture := set_is_observing_fixture true fixture in
      check "dest_sector_id != INVALID_SECTOR" (negb (dest_sector_id =? INVALID_SECTOR)) ;;
      let packet := mk_promote_object_rq sector_id
        (oi_set_fixture (set_sector_id dest_sector_id (oi_fixture object_info))
          (oi_set_sector_id dest_sector_id object_info)) in
      let promoted_object := mkPromotedObjectInfo (fx_id fixture) dest_sector_id
        (new_Countdown (TransformCooltime * 4) (clock "tracking_timer" (fx_id fixture))) in
      modify (λ w, set_promoted (<[fx_id fixture := promoted_object]> (w_promoted_object_list w)) w) ;;
      emit (SendToSectorOwner pm (pkt_promote_object_rq packet) dest_sector_id) ;;
      mret fixture
end.

Definition world_callback : Callback C (World C) (Effect C) :=
mkCallback World_OnChangeFixturePhase World_OnChangeFixtureLocation.

(** ** Update *)

(** The first loops of [Update]: forget the objects handed over long ago. *)
Definition expire_promoted (w : World C) : World C :=
let untracked_objects := (filter (λ e, Countdown_bool (clock "tracking_timer expired" e.1)
                                         (poi_tracking_timer e.2) = true)
                            (iter_map (w_promoted_object_list w))).*1 in
set_promoted (foldr delete (w_promoted_object_list w) untracked_objects) w.

Definition World_Update (current_time delta_time : Z) : M () :=
modify expire_promoted ;;
w ← get_state;
for_each (iter_map (w_sectors w)) (λ '(sector_id, sector),
  match sector with
  | None => fail (AssertionFailed "pair.second != nullptr")
  | Some sector =>
      sector ← SectorSystem_Update world_callback current_time delta_time sector;
      w ← get_state;
      put_sector sector_id (foldl (λ ss id, RemoveFixture id ss) sector (w_removing_fixtures w)) ;;
      modify (λ w, mkWorld (w_sectors w) (w_promoted_object_list w) [] (w_remove_count w))
  end).
End world.

(** ** The callbacks keep the contract of the sector systems *)

Section callback_frame.
Context {C : Type} `{CoordinateUnit C} `{IterOrder} `{Indeterminate C}.
Variable pm : SectorPostingManager.
Variable clock : string → Z → Z.

Lemma wp_ub_option {A} what (o : option A) (w : World C) (Q : A → World C → list (Effect C) → Prop) :
(∀ a, o = Some a → Q a w []) → wp (ub_option what o) w Q (λ _, True).
Proof. intros HQ. rw /wp /ub_option /lift. destruct o; cbn; auto. Qed.

Lemma wp_emit o (w : World C) (Q : () → World C → list (Effect C) → Prop) E :
Q () w o → wp (emit o) w Q E.
Proof. done. Qed.

Lemma wp_check cond b (w : World C) (Q : () → World C → list (Effect C) → Prop) :
(b = true → Q () w []) → wp (check cond b) w Q (λ _, True).
Proof. intros HQ. rw /check. destruct b; [by apply HQ|done]. Qed.

(** The exchange of observers changes nothing of the world. *)
Lemma wp_Exchange oi l p s l' p' d (w : World C) (Q : () → World C → list (Effect C) → Prop) :
(∀ o, Q () w o) → wp (ExchangeObservingObject pm oi l p s l' p' d) w Q (λ _, True).
Proof.
intros HQ. rw /ExchangeObservingObject. case_decide; [by apply wp_ret|].
apply wp_bind, wp_ub_option. intros [r c] _. apply wp_bind, wp_emit, wp_emit, HQ.
Qed.

#[export] Instance world_callback_frame : CallbackFrame (world_callback (C:=C) pm clock) (λ _, True).
Proof.
split; intros *; cbn.
- rw /World_OnChangeFixtureLocation. apply wp_bind. rw {1}/wp /get_state.
  destruct (w_sectors st !! s); [|apply wp_ret; exists (fx_last_transform_time f), (fx_is_observing_fixture f); by destruct f].
  apply wp_bind, wp_Exchange. intros effects. case_decide.
  { apply wp_ret. exists (clock "OnChangeFixtureLocation" (fx_id f)), (fx_is_observing_fixture f).
    by destruct f. }
  apply wp_bind, wp_ub_option. intros near _. apply wp_bind, wp_ub_option. intros dest _.
  apply wp_bind, wp_emit, wp_bind, wp_check. intros _. apply wp_bind. rw {1}/wp /modify.
  apply wp_bind, wp_emit, wp_ret. by exists (clock "OnChangeFixtureLocation" (fx_id f)), true.
- rw /World_OnChangeFixturePhase. apply wp_bind, wp_check. intros _.
  apply wp_bind, wp_Exchange. intros effects. apply wp_ret.
  exists (fx_last_transform_time f), (fx_is_observing_fixture f). by destruct f.
Qed.
End callback_frame.

(** ** The observers of an object

    An object owned by sector [s] in phase [p] has a copy in [s] and, marked as
    observing, in each near sector of [p]. *)
Definition copies (s : Z) (p : Direction) : list Z := s :: near s p.

Definition entries (sectors : list Z) : list Z := filter (λ x, x ≠ INVALID_SECTOR) sectors.

(** The sectors [ExchangeObservingObject] notifies of a removal and of a
    creation. *)
Definition exchange_targets (p : Direction) (s : Z) (q : Direction) (t : Z) : option (list Z * list Z) :=
  '(prev_near, new_near) ← exchange_sectors p s q t;
  Some (if decide (p ≠ Direction_Max) then entries prev_near else [],
        if decide (q ≠ Direction_Max) then entries new_near else []).

(** The sectors whose copy a promotion removes and creates. *)
Definition promotion_targets (s : Z) (p : Direction) (t : Z) (q : Direction) : option (list Z * list Z) :=
  near_phase ← IsNearPhase s p t q;
  if near_phase : bool then Some ([], []) else exchange_targets p s q t.

(** What the two lists must be for the copies to move from [(s, p)] to
    [(t, q)]. *)
Definition exchange_exact (s : Z) (p : Direction) (t : Z) (q : Direction)
    (targets : option (list Z * list Z)) : Prop :=
  match targets with
  | None => False
  | Some (removed, created) =>
      removed ≡ₚ filter (λ x, x ∉ copies t q) (copies s p) ∧
      created ≡ₚ filter (λ x, x ∉ t :: copies s p) (copies t q)
  end.

#[export] Instance exchange_exact_dec s p t q targets : Decision (exchange_exact s p t q targets).
Proof. rw /exchange_exact. destruct targets as [[r c]|]; apply _. Defined.

(** One axis of a handover from a sector to the one [o] sectors further: the
    object left on that side, or stands in the same third of both. *)
Definition axis_facing (o a b : Z) : Prop := (o < 0 → a = -1) ∧ (0 < o → a = 1) ∧ (o = 0 → a = b).

(** The phases one position has in two sectors. *)
Definition facing (s : Z) (p : Direction) (t : Z) (q : Direction) : Prop :=
  axis_facing (t mod 5 - s mod 5) (column (PhaseForce_at p)) (column (PhaseForce_at q)) ∧
  axis_facing (s / 5 - t / 5) (row (PhaseForce_at p)) (row (PhaseForce_at q)).

#[export] Instance axis_facing_dec o a b : Decision (axis_facing o a b).
Proof. rw /axis_facing. apply _. Defined.
#[export] Instance facing_dec s p t q : Decision (facing s p t q).
Proof. rw /facing. apply _. Defined.

Lemma exchange_same_sector (s : Z) (p q : Direction) :
  valid_sector s → p ≠ q → exchange_exact s p s q (exchange_targets p s q s).
Proof. intros Hs. revert s Hs p q. by_sectors. Qed.

(** The statement below for one case, the premises first. *)
Definition promotion_check (s : Z) (p : Direction) (t : Z) (q : Direction) : bool :=
  if decide (s = t) then true
  else if decide (p = Direction_Max) then true
  else if decide (q = Direction_Max ∨ facing s p t q)
  then bool_decide (exchange_exact s p t q (promotion_targets s p t q))
  else true.

Lemma promotion_exact (s t : Z) (p q : Direction) :
  valid_sector s → valid_sector t → s ≠ t → p ≠ Direction_Max →
  q = Direction_Max ∨ facing s p t q →
  exchange_exact s p t q (promotion_targets s p t q).
Proof.
  intros Hs Ht Hne Hp Hq.
  assert (Hall : ∀ s, valid_sector s → ∀ p q, Forall (λ t, promotion_check s p t q = true) (seqZ 0 25))
    by by_sectors.
  specialize (Hall s Hs p q). rewrite ->Forall_forall in Hall.
  assert (Hc : promotion_check s p t q = true).
  { apply Hall, elem_of_seqZ. rw /valid_sector in Ht. lia. }
  rw /promotion_check in Hc. do 2 (rewrite ->decide_False in Hc by done).
  rewrite ->decide_True in Hc by done. by apply bool_decide_eq_true in Hc.
Qed.

(** ** The messages of an exchange *)

Section notices.
Context {C : Type} `{CoordinateUnit C} `{IterOrder} `{Indeterminate C}.
Variable pm : SectorPostingManager.
Variable clock : string → Z → Z.

(** What a sector is told: its listeners a broadcast, its owner a request. *)
Definition remove_notice (object_id s : Z) : list (Effect C) :=
SendToSector pm (pkt_remove_object_ps (mk_remove_object_ps s object_id 0)) s false
++ SendToSectorOwner pm (pkt_remove_observing_object_rq (mk_remove_observing_object_rq s object_id 0)) s.
Definition create_notice (origin : Z) (info : PacketObjectInfo C) (s : Z) : list (Effect C) :=
SendToSector pm (pkt_create_object_ps (mk_create_object_ps (oi_set_sector_id s info))) s false
++ SendToSectorOwner pm (pkt_create_observing_object_rq (mk_create_observing_object_rq origin
     (oi_set_fixture (set_sector_id s (oi_fixture info)) (oi_set_sector_id s info)))) s.

Lemma concat_entries (f : Z → list (Effect C)) (l : list Z) :
concat ((λ s, if s =? INVALID_SECTOR then [] else f s) <$> l) = concat (f <$> entries l).
Proof.
induction l as [|s l IH]; [done|]. rw fmap_cons /entries filter_cons. cbn [concat].
destruct (Z.eqb_spec s INVALID_SECTOR); case_decide; try done. cbn [concat fmap list_fmap]. by f_equal.
Qed.

(** The exchange posts one notice to each of its targets. *)
Lemma Exchange_targets info l p s l' q t (w : World C) r c :
¬ (s = t ∧ p = q ∧ l' = FixtureLocation_Leave) →
exchange_targets p s q t = Some (r, c) →
ExchangeObservingObject pm info l p s l' q t w =
  Ok ((), w, concat (remove_notice (oi_object_id info) <$> r) ++ concat (create_notice s info <$> c)).
Proof.
intros Hne Ht. rw /ExchangeObservingObject decide_False; [done|].
rw /exchange_targets in Ht. destruct (exchange_sectors p s q t) as [[r' c']|]; [|done].
cbn [mbind option_bind] in Ht. simplify_eq.
rw /mbind /act_mbind /act_bind. cbn. rw /emit. f_equal. f_equal. f_equal.
- rw /SendRemoveObservingObject. case_decide; [apply (concat_entries (remove_notice _))|done].
- rw /SendCreateObservingObject. case_decide; [apply (concat_entries (create_notice _ _))|done].
Qed.

(** The information the callbacks put into their packets. *)
Definition packet_info (s : Z) (f : Fixture C) : PacketObjectInfo C :=
oi_set_fixture f (oi_set_sector_id s (oi_set_object_id (fx_id f) uninit_PacketObjectInfo)).

(** C20: When a fixture of the border zone changes its phase, the callback
  moves its observing copies exactly: the near sectors of the old phase
  that are not near the new one are told to remove theirs, those near the
  new phase only are told to create one, nobody else is told anything, and
  the early exits of the two nested loops lose no sector. *)
Theorem phase_change_exchanges (s : Z) (f : Fixture C) (q : Direction) (w : World C) :
valid_sector s → fx_sector_id f = s → fx_location f = FixtureLocation_Gray → fx_phase f ≠ q →
∃ removed created,
  exchange_exact s (fx_phase f) s q (Some (removed, created)) ∧
  World_OnChangeFixturePhase pm s f q w =
    Ok (f, w, concat (remove_notice (fx_id f) <$> removed) ++
              concat (create_notice s (packet_info s f) <$> created)).
Proof.
intros Hs Hfs Hgray Hpq.
pose proof (exchange_same_sector s (fx_phase f) q Hs Hpq) as Hex.
destruct (exchange_targets (fx_phase f) s q s) as [[r c]|] eqn:Ht; [|done].
exists r, c. split; [done|]. rw /World_OnChangeFixturePhase bool_decide_eq_true_2; [done|].
rw /mbind /act_mbind {1}/act_bind. cbn [check act_ret]. rw {1}/act_bind.
rw Hfs (Exchange_targets _ _ _ _ _ _ _ w r c); [|done|].
- intros (_&?&_). done.
- cbn. by rw app_nil_r.
Qed.
End notices.

(** ** Null pointers in [_sectors] *)

Lemma for_each_stops {St Out A} (body : A → Act St Out ()) x (l : list A) :
  x ∈ l → (∀ s, wp (body x) s (λ _ _ _, False) (λ _, True)) →
  ∀ s, wp (for_each l body) s (λ _ _ _, False) (λ _, True).
Proof.
  intros Hx Hbody. induction l as [|y l IH]; intros s; [by apply not_elem_of_nil in Hx|].
  cbn [for_each]. apply wp_bind. apply elem_of_cons in Hx as [->|Hx].
  - eapply wp_mono; [apply Hbody|done|done].
  - rw {1}/wp. destruct (body y s) as [[[u s'] o]|f]; [|done]. by apply IH.
Qed.

Lemma null_sector_stops {C} `{CoordinateUnit C} `{IterOrder} `{Indeterminate C} pm clock t dt (w : World C) s :
  w_sectors w !! s = Some None →
  wp (World_Update pm clock t dt) w (λ _ _ _, False) (λ _, True).
Proof.
  intros Hs. rw /World_Update. apply wp_bind. rw {1}/wp /modify. apply wp_bind. rw {1}/wp /get_state.
  apply (for_each_stops _ (s, None)); [by apply elem_of_iter_map|done].
Qed.

(** A request that names a sector the server does not have is answered
    with an error, but [_sectors[sector_id]] leaves a null pointer behind, and
    the next [World::Update] does not return: it fails its assertion (or
    dereferences the pointer where assertions are off).  [ClearSector], the
    reaction to a reset by the supervisor, does the same to every sector. *)
Theorem null_sector_stops_update {C} `{CoordinateUnit C} `{IterOrder} `{Indeterminate C}
    (pm : SectorPostingManager) (clock : string → Z → Z) (t dt : Z) (w : World C)
    (session : SessionRef) (server : Z) (packet : packet_spawn_character_rq C) :
  w_sectors w !! oi_sector_id (sprq_object_info packet) = None →
  wp (SpawnCharacter pm clock session server packet ;; World_Update pm clock t dt) w
    (λ _ _ _, False) (λ _, True) ∧
  (w_sectors w ≠ ∅ → wp (ClearSector ;; World_Update pm clock t dt) w (λ _ _ _, False) (λ _, True)).
Proof.
  intros Hs. split.
  - apply wp_bind. rw /SpawnCharacter. apply wp_bind. rw {1}/wp /sector_ref.
    rw /mbind /act_mbind {1}/act_bind /get_state Hs. cbn -[World_Update].
    apply (null_sector_stops pm clock t dt _ (oi_sector_id (sprq_object_info packet))). by rw /= lookup_insert_eq.
  - intros Hne. apply wp_bind. rw {1}/wp /ClearSector /modify.
    destruct (map_choose _ Hne) as (s&x&Hx). apply (null_sector_stops pm clock t dt _ s).
    by rw /= lookup_fmap Hx.
Qed.

(** ** Requests for an object that moved on *)

(** C23: For an object that was handed over and is still tracked, a move or
    removal request addressed to the owner changes nothing but the stale copy
    and is forwarded, with the sector replaced, to the owner of the sector the
    object went to. *)
Theorem requests_follow_object {C} `{CoordinateUnit C} `{IterOrder} `{Indeterminate C}
    (pm : SectorPostingManager) (w : World C) (session : SessionRef) (server : Z)
    (sector : SectorSystem C) (s object_id : Z) (copy : option (Fixture C)) (info : PromotedObjectInfo)
    (position : Vector2 C) (direction : Direction) (user_id : Z) :
  w_sectors w !! s = Some (Some sector) → GetFixture object_id sector = copy →
  (∀ f, copy = Some f → fx_is_observing_fixture f = true) →
  w_promoted_object_list w !! object_id = Some info →
  let t := poi_promoted_sector_id info in
  (∃ w', MoveObject pm session server (mk_character_move_rq s object_id position direction true) w =
     Ok ((), w', SendToSectorOwner pm
       (pkt_character_move_rq (mk_character_move_rq t object_id position direction true)) t) ∧
     w_promoted_object_list w' = w_promoted_object_list w) ∧
  RemoveCharacter pm session server (mk_remove_character_rq user_id s object_id true) w =
    Ok ((), w, SendToSectorOwner pm
      (pkt_remove_character_rq (mk_remove_character_rq user_id t object_id true)) t).
Proof.
  intros Hs Hcopy Hobs Hprom t. split.
  - rw /MoveObject /mbind /act_mbind {1}/act_bind /sector_ref /mbind /act_mbind {1}/act_bind /get_state.
    cbn [cmrq_sector_id cmrq_object_id cmrq_to_owner cmrq_direction cmrq_starting_position]. rw Hs.
    cbn [mret act_mret act_ret]. rw Hcopy. destruct copy as [f|].
    + rw {1}/act_bind /put_sector /modify. cbn [fx_is_observing_fixture set_direction set_position].
      rw (Hobs f eq_refl). rw /forward_to_promoted /mbind /act_mbind {1}/act_bind /get_state.
      cbn [w_promoted_object_list set_sectors]. rw Hprom. by eexists.
    + rw /forward_to_promoted /mbind /act_mbind {1}/act_bind /get_state Hprom. by eexists.
  - rw /RemoveCharacter /mbind /act_mbind {1}/act_bind /sector_ref /mbind /act_mbind {1}/act_bind /get_state.
    cbn [rcq_sector_id rcq_object_id rcq_to_owner rcq_user_id]. rw Hs.
    cbn [mret act_mret act_ret]. rw Hcopy.
    destruct copy as [f|]; [rw (Hobs f eq_refl)|];
      by rw /forward_to_promoted /mbind /act_mbind {1}/act_bind /get_state Hprom.
Qed.
