(* ===== verification/Handover.v ===== *)
(** * Handing an object over

    What the handlers of [World.cpp] achieve together: the observing copies of
    an object follow its phase, an object that leaves its sector is promoted at
    its destination, and requests for it follow it there. *)

From S2P Require Import Prelude Coordinate SectorGrid Fixture Packet Protocol Sampling.
From S2P Require Import PacketThrottler SectorPosting SectorSystem World.
From Stdlib Require Import QArith Lqa.

Open Scope Z_scope.

(** ** Geometry of a handover *)

Lemma phase_of_force tx ty :
  0 ≤ tx < 3 → 0 ≤ ty < 3 →
  column (PhaseForce_at (phase_of tx ty)) = tx - 1 ∧ row (PhaseForce_at (phase_of tx ty)) = ty - 1.
Proof.
  intros Hx Hy. assert (tx = 0 ∨ tx = 1 ∨ tx = 2) as [->|[->| ->]] by lia;
    assert (ty = 0 ∨ ty = 1 ∨ ty = 2) as [->|[->| ->]] by lia; done.
Qed.

(** One axis: [a] and [b] are the lower ends of the two sectors' squares. *)
Lemma axis_facing_third (x : Q) (n m : Z) :
  (inject_Z (5000 * m - 10000) <= x)%Q → (x < inject_Z (5000 * m - 5000))%Q →
  axis_facing (m - n) (third (x - inject_Z (5000 * n - 10000)) - 1)
    (third (x - inject_Z (5000 * m - 10000)) - 1).
Proof.
  intros H1 H2. split_and!; intros Ho.
  - assert (Hz : 5000 * m - 5000 ≤ 5000 * n - 10000) by lia. rewrite ->Zle_Qle in Hz.
    destruct (third_cases (x - inject_Z (5000 * n - 10000))) as [[? ->]|[(?&?&->)|[? ->]]]; [done|exfalso; lra..].
  - assert (Hz : (5000 * n - 10000) + 5000 ≤ 5000 * m - 10000) by lia. rewrite ->Zle_Qle, inject_Z_plus in Hz.
    change (inject_Z 5000) with (5000 # 1)%Q in Hz.
    destruct (third_cases (x - inject_Z (5000 * n - 10000))) as [[? ->]|[(?&?&->)|[? ->]]]; [exfalso; lra..|done].
  - assert (m = n) as -> by lia. done.
Qed.

Lemma in_sector_square (s : Z) (r : FixtureRectangle Q) (p : Vector2 Q) :
  GetSectorFixtureRectangle s = Some r → in_rect r p → valid_sector s ∧
  (inject_Z (5000 * (s mod 5) - 10000) <= vx p)%Q ∧ (vx p < inject_Z (5000 * (s mod 5) - 5000))%Q ∧
  (inject_Z (5000 * (4 - s / 5) - 10000) <= vy p)%Q ∧ (vy p < inject_Z (5000 * (4 - s / 5) - 5000))%Q.
Proof.
  intros Hr (H1&H2&H3&H4).
  assert (Hs : valid_sector s).
  { apply valid_sector_iff. rw /GetSectorFixtureRectangle in Hr.
    destruct (arr_get SectorGridList s); [eauto|done]. }
  destruct (sector_rect_exact s Hs) as (r'&Hr'&El&Er&Ed&Eu). simplify_eq.
  rw (_ : 5000 * (4 - s / 5) - 10000 = 10000 - 5000 * (s / 5)); [lia|].
  rw (_ : 5000 * (4 - s / 5) - 5000 = 15000 - 5000 * (s / 5)); [lia|].
  split_and!; [done|lra..].
Qed.

(** The phases of one position in the sector it has left and in the sector it
    lies in face each other. *)
Lemma position_facing srv1 srv2 s t (ss1 ss2 : SectorSystem Q) (r : FixtureRectangle Q) (f1 f2 : Fixture Q) p q :
  grid_sector srv1 s = Some ss1 → grid_sector srv2 t = Some ss2 →
  GetSectorFixtureRectangle t = Some r → in_rect r (fx_position f1) → fx_position f2 = fx_position f1 →
  CalculateCurrentPhase ss1 f1 = Some p → CalculateCurrentPhase ss2 f2 = Some q →
  facing s p t q.
Proof.
  intros Hs1 Hs2 Hr Hin Hpos Hp Hq.
  rewrite ->(CalculateCurrentPhase_third _ _ _ _ Hs1) in Hp.
  rewrite ->(CalculateCurrentPhase_third _ _ _ _ Hs2), Hpos in Hq.
  destruct (grid_sector_base _ _ _ Hs1) as (_&Bx1&By1). destruct (grid_sector_base _ _ _ Hs2) as (_&Bx2&By2).
  destruct (in_sector_square _ _ _ Hr Hin) as (_&X1&X2&Y1&Y2).
  injection Hp as <-. injection Hq as <-. rw /facing.
  set (x := vx (fx_position f1)) in *. set (y := vy (fx_position f1)) in *.
  destruct (phase_of_force (third (x - vx (ss_base_position ss1))) (third (y - vy (ss_base_position ss1))))
    as [-> ->]; [apply phase_third_range..|].
  destruct (phase_of_force (third (x - vx (ss_base_position ss2))) (third (y - vy (ss_base_position ss2))))
    as [-> ->]; [apply phase_third_range..|].
  rw (third_proper (x - vx (ss_base_position ss1)) (x - inject_Z (5000 * (s mod 5) - 10000))); [lra|].
  rw (third_proper (x - vx (ss_base_position ss2)) (x - inject_Z (5000 * (t mod 5) - 10000))); [lra|].
  rw (third_proper (y - vy (ss_base_position ss1)) (y - inject_Z (5000 * (4 - s / 5) - 10000))); [lra|].
  rw (third_proper (y - vy (ss_base_position ss2)) (y - inject_Z (5000 * (4 - t / 5) - 10000))); [lra|].
  split; [by apply axis_facing_third|].
  rw (_ : s / 5 - t / 5 = (4 - t / 5) - (4 - s / 5)); [lia|]. by apply axis_facing_third.
Qed.

(** An object whose centre lies in a sector's square has not left it. *)
Lemma inside_not_left srv t (ss : SectorSystem Q) (r : FixtureRectangle Q) (f : Fixture Q) :
  grid_sector srv t = Some ss → GetSectorFixtureRectangle t = Some r → in_rect r (fx_position f) →
  (0 < vx (fx_size f))%Q → (0 < vy (fx_size f))%Q →
  CalculateCurrentLocation ss f ≠ FixtureLocation_Leave.
Proof.
  intros Hss Hr Hin Hx Hy Hl. destruct (in_sector_square _ _ _ Hr Hin) as (_&X1&X2&Y1&Y2).
  destruct (grid_sector_base _ _ _ Hss) as (_&Bx&By).
  rw (_ : 5000 * (t mod 5) - 5000 = (5000 * (t mod 5) - 10000) + 5000) in X2; [lia|].
  rw (_ : 5000 * (4 - t / 5) - 5000 = (5000 * (4 - t / 5) - 10000) + 5000) in Y2; [lia|].
  rewrite ->inject_Z_plus in X2, Y2. change (inject_Z 5000) with (5000 # 1)%Q in *.
  destruct (leave_exact srv t ss f Hss Hx Hy Hl) as [?|[?|[?|?]]]; lra.
Qed.

(** ** Promotion at the destination *)

(** The fixture the promotion leaves in the destination sector. *)
Definition promoted_fixture {C} `{CoordinateUnit C} (clock : string → Z → Z) (sector : SectorSystem C)
    (info : PacketObjectInfo C) (q : Direction) : Fixture C :=
  let f := set_last_transform_time (u32 (clock "PromoteObservingObject"%string (oi_object_id info)))
             (set_is_observing_fixture false (oi_fixture info)) in
  set_location (CalculateCurrentLocation sector f) (set_phase q f).

Section promotion.
Context `{IterOrder} `{Indeterminate Q}.
Variable pm : SectorPostingManager.
Variable clock : string → Z → Z.

(** A promotion, whatever its targets turn out to be. *)
Lemma Promote_run (w : World Q) (packet : packet_promote_object_rq Q) (sector : SectorSystem Q)
  (old : Fixture Q) (d : Direction) r c :
let info := porq_object_info packet in
let f := set_last_transform_time (u32 (clock "PromoteObservingObject"%string (oi_object_id info)))
           (set_is_observing_fixture false (oi_fixture info)) in
let q := if decide (CalculateCurrentLocation sector f = FixtureLocation_In) then Direction_Max else d in
w_sectors w !! oi_sector_id info = Some (Some sector) →
GetFixture (oi_object_id info) sector = Some old →
CalculateCurrentPhase sector f = Some d →
CalculateCurrentLocation sector f ≠ FixtureLocation_Leave →
promotion_targets (porq_origin_sector_id packet) (fx_phase f) (fx_sector_id f) q = Some (r, c) →
PromoteObservingObject pm clock packet w =
  Ok ((), set_sectors (<[oi_sector_id info := Some (ss_put_fixture (oi_object_id info)
             (promoted_fixture clock sector info q) sector)]> (w_sectors w)) w,
      SendToSector pm (pkt_promote_object_rq packet) (porq_origin_sector_id packet) false ++
      concat (remove_notice pm (oi_object_id info) <$> r) ++
      concat (create_notice pm (porq_origin_sector_id packet) info <$> c)).
Proof.
intros info f q Hsec Hold Hd Hleave Ht. rw /PromoteObservingObject. fold info.
rw /mbind /act_mbind {1}/act_bind {1}/sector_ref /mbind /act_mbind {1}/act_bind /get_state Hsec.
cbn [mret act_mret act_ret]. rw Hold {1}/act_bind {1}/ub_option. fold f. rw Hd. cbn [from_option_ub lift].
fold q. rw {1}/act_bind {1}/put_sector /modify {1}/act_bind /emit decide_False; [done|].
rw /promotion_targets in Ht.
destruct (IsNearPhase (porq_origin_sector_id packet) (fx_phase f) (fx_sector_id f) q) as [[]|] eqn:Hnear;
  [| |done]; cbn [mbind option_bind] in Ht.
all: rw {1}/act_bind {1}/ub_option.
all: change (fx_sector_id (set_location _ (set_phase q f))) with (fx_sector_id f).
all: rw Hnear; cbn [from_option_ub lift].
- simplify_eq. cbn. by rw !app_nil_r.
- rw (Exchange_targets pm info _ _ _ _ _ _ _ r c); [by intros (_&_&?)|done|]. cbn. done.
Qed.

(** Promotion completes a handover.  When an object has left sector [s]
  (its phase there being [p]) and its centre lies in sector [t], the
  destination's handling of the promotion faults nowhere, makes the
  destination the owner of the object with the zone its position has, and
  moves the observing copies exactly from the near sectors of [(s, p)] to
  those of the new sector and phase. *)
Lemma promotion_completes (w : World Q) (packet : packet_promote_object_rq Q)
  (srv1 srv2 s : Z) (g1 g2 sector : SectorSystem Q) (r2 : FixtureRectangle Q) (old : Fixture Q) :
let info := porq_object_info packet in
let f := oi_fixture info in
let t := oi_sector_id info in
grid_sector srv1 s = Some g1 → on_grid srv2 t sector g2 →
porq_origin_sector_id packet = s → fx_sector_id f = t →
(0 < vx (fx_size f))%Q → (0 < vy (fx_size f))%Q →
CalculateCurrentLocation g1 f = FixtureLocation_Leave →
CalculateCurrentPhase g1 f = Some (fx_phase f) →
GetSectorFixtureRectangle t = Some r2 → in_rect r2 (fx_position f) →
w_sectors w !! t = Some (Some sector) → GetFixture (oi_object_id info) sector = Some old →
∃ q removed created,
  exchange_exact s (fx_phase f) t q (Some (removed, created)) ∧
  zone_inv (promoted_fixture clock sector info q) ∧
  fx_location (promoted_fixture clock sector info q) ≠ FixtureLocation_Leave ∧
  fx_is_observing_fixture (promoted_fixture clock sector info q) = false ∧
  PromoteObservingObject pm clock packet w =
    Ok ((), set_sectors (<[t := Some (ss_put_fixture (oi_object_id info)
               (promoted_fixture clock sector info q) sector)]> (w_sectors w)) w,
        SendToSector pm (pkt_promote_object_rq packet) s false ++
        concat (remove_notice pm (oi_object_id info) <$> removed) ++
        concat (create_notice pm s info <$> created)).
Proof.
intros info f t Hg1 Hg2 Hs Ht Hx Hy Hleave Hp Hr2 Hin Hsec Hold.
set (f' := set_last_transform_time (u32 (clock "PromoteObservingObject"%string (oi_object_id info)))
           (set_is_observing_fixture false (oi_fixture info))).
assert (Hne : CalculateCurrentLocation sector f' ≠ FixtureLocation_Leave).
{ rw (on_grid_location srv2 t sector g2 f' Hg2).
  exact (inside_not_left srv2 t g2 r2 f' (proj1 Hg2) Hr2 Hin Hx Hy). }
destruct (border_phase srv1 s g1 f Hg1 Hx Hy) as (p&Hp'&Hpmax); [by rw Hleave|].
rw Hp in Hp'. injection Hp' as <-.
pose proof (CalculateCurrentPhase_third srv2 t g2 f' (proj1 Hg2)) as Hd.
set (d := phase_of _ _) in Hd.
assert (Hd' : CalculateCurrentPhase sector f' = Some d) by by rw (on_grid_phase srv2 t sector g2).
set (q := if decide (CalculateCurrentLocation sector f' = FixtureLocation_In) then Direction_Max else d).
destruct (grid_sector_base _ _ _ Hg1) as (Hvs&Bx&By). destruct (in_sector_square _ _ _ Hr2 Hin) as (Hvt&X1&X2&Y1&Y2).
assert (Hst : s ≠ t).
{ intros ->. exact (inside_not_left srv1 t g1 r2 f Hg1 Hr2 Hin Hx Hy Hleave). }
assert (Hex : exchange_exact s (fx_phase f) t q (promotion_targets s (fx_phase f) t q)).
{ apply promotion_exact; [done..|]. rw /q. case_decide; [by left|right].
  exact (position_facing srv1 srv2 s t g1 g2 r2 f f' _ _ Hg1 (proj1 Hg2) Hr2 Hin eq_refl Hp Hd). }
destruct (promotion_targets s (fx_phase f) t q) as [[rm cr]|] eqn:Htg; [|done].
exists q, rm, cr. split; [done|]. split_and!.
- rw /zone_inv /promoted_fixture. cbn. fold f'. rw /q. split; intros Hl; [by rw decide_True|].
  rw decide_False; [by rw Hl|].
  destruct (border_phase srv2 t g2 f' (proj1 Hg2) Hx Hy) as (d'&Hd''&?);
    [by rw -(on_grid_location srv2 t sector g2 f' Hg2) Hl|]. congruence.
- done.
- done.
- rw -Hs. apply (Promote_run w packet sector old d); try done. by rw Hs Ht.
Qed.
End promotion.

(** ** Departure from the origin *)

Section departure.
Context {C : Type} `{CoordinateUnit C} `{IterOrder} `{Indeterminate C}.
Variable pm : SectorPostingManager.
Variable clock : string → Z → Z.

(** The fixture the callback leaves in the origin sector, and the packet it
  posts to the owner of the destination. *)
Definition departed_fixture (f : Fixture C) : Fixture C :=
set_is_observing_fixture true
  (set_last_transform_time (clock "OnChangeFixtureLocation"%string (fx_id f)) f).

Definition promotion_packet (s t : Z) (f : Fixture C) (p : Direction) : packet_promote_object_rq C :=
let f := set_last_transform_time (clock "OnChangeFixtureLocation"%string (fx_id f)) f in
mk_promote_object_rq s (oi_set_fixture
  (set_sector_id t (set_phase p (set_location FixtureLocation_Leave f)))
  (oi_set_sector_id t (packet_info s f))).

Lemma near_existsb s p t near_sectors :
GetNearSectors s p = Some near_sectors → t ∈ near s p → existsb (Z.eqb t) near_sectors = true.
Proof.
rw /near => -> Ht. cbn in Ht. apply list_elem_of_filter in Ht as [_ Ht].
apply existsb_exists. exists t. rw Z.eqb_refl. by rw -list_elem_of_In.
Qed.

(** The exchange within a sector that precedes the handover. *)
Lemma Exchange_leave (s : Z) (f : Fixture C) (p : Direction) info l (w : World C) :
valid_sector s → oi_object_id info = fx_id f →
∃ removed created,
  (fx_phase f ≠ p → exchange_exact s (fx_phase f) s p (Some (removed, created))) ∧
  (fx_phase f = p → removed = [] ∧ created = []) ∧
  ExchangeObservingObject pm info l (fx_phase f) s FixtureLocation_Leave p s w =
    Ok ((), w, concat (remove_notice pm (fx_id f) <$> removed) ++
               concat (create_notice pm s info <$> created)).
Proof.
intros Hs Hid. destruct (decide (fx_phase f = p)) as [Heq|Hne].
- exists [], []. split_and!; try done. rw /ExchangeObservingObject. by rw decide_True.
- pose proof (exchange_same_sector s (fx_phase f) p Hs Hne) as Hex.
  destruct (exchange_targets (fx_phase f) s p s) as [[r c]|] eqn:Ht; [|done].
  exists r, c. split_and!; try done.
  rw (Exchange_targets pm info _ _ _ _ _ _ w r c); [naive_solver|done|]. by rw Hid.
Qed.

Lemma departure_run (s t : Z) (f : Fixture C) (p : Direction) (w : World C) x :
valid_sector s → w_sectors w !! s = Some x →
GetSectorByPosition (fx_position f) = Some t → t ∈ near s p →
∃ removed created,
  (fx_phase f ≠ p → exchange_exact s (fx_phase f) s p (Some (removed, created))) ∧
  (fx_phase f = p → removed = [] ∧ created = []) ∧
  World_OnChangeFixtureLocation pm clock s f FixtureLocation_Leave p w =
    Ok (departed_fixture f,
        set_promoted (<[fx_id f := mkPromotedObjectInfo (fx_id f) t
          (new_Countdown (TransformCooltime * 4) (clock "tracking_timer"%string (fx_id f)))]>
          (w_promoted_object_list w)) w,
        (concat (remove_notice pm (fx_id f) <$> removed) ++
         concat (create_notice pm s (packet_info s
           (set_last_transform_time (clock "OnChangeFixtureLocation"%string (fx_id f)) f)) <$> created)) ++
        SendToSectorOwner pm (pkt_promote_object_rq (promotion_packet s t f p)) t).
Proof.
intros Hs Hw Ht Hn.
set (f1 := set_last_transform_time (clock "OnChangeFixtureLocation"%string (fx_id f)) f).
destruct (Exchange_leave s f1 p (packet_info s f1) (fx_location f1) w Hs eq_refl) as (r&c&Hex&Heq&Hrun).
exists r, c. split_and!; [done..|]. rw /World_OnChangeFixtureLocation.
rw /mbind /act_mbind {1}/act_bind /get_state Hw {1}/act_bind. fold f1.
change (oi_set_fixture f1 _) with (packet_info s f1). rw Hrun. case_decide as Hc; [done|]. clear Hc.
destruct (GetNearSectors_total s p Hs) as [ns Hns].
rw Hns {1}/act_bind /ub_option. cbn [from_option_ub lift]. rw {1}/act_bind.
change (fx_position f1) with (fx_position f). rw Ht. cbn [from_option_ub lift].
rw {1}/act_bind (near_existsb s p t ns Hns Hn). cbn [emit].
assert (Hti : (t =? INVALID_SECTOR) = false).
{ apply Z.eqb_neq. intros ->. exact (INVALID_SECTOR_not_valid (near_valid s p _ Hs Hn)). }
rw {1}/act_bind Hti. cbn -[SendToSectorOwner TransformCooltime remove_notice create_notice].
rw !app_nil_r. done.
Qed.
End departure.

