(* ===== verification/WorldUpdate.v ===== *)
(** * The step of the world

    [World::Update] over exact coordinates: the invariant of the world under
    which a step completes without a fault, and that the step keeps it. *)

From S2P Require Import Prelude Coordinate SectorGrid Fixture Packet Protocol Sampling.
From S2P Require Import PacketThrottler SectorPosting SectorSystem World Handover.
From Stdlib Require Import QArith Lqa.

Open Scope Z_scope.

(** A fixture of sector [s]: registered there, of a size the world can hold,
    and in the world (a moving one is brought back by [Move]). *)
Record fixture_ok (s : Z) (f : Fixture Q) : Prop := {
  fo_sector : fx_sector_id f = s;
  fo_width : (0 < vx (fx_size f) <= 25000)%Q;
  fo_height : (0 < vy (fx_size f) <= 25000)%Q;
  fo_world : fx_direction f = Direction_Max → in_rect WorldRect (fx_position f);
}.

Definition sector_ok (s : Z) (sector : option (SectorSystem Q)) : Prop :=
  ∃ ss server g, sector = Some ss ∧ on_grid server s ss g ∧
    ∀ id f, ss_fixtures ss !! id = Some f → fixture_ok s f.

(** Every pointer of [_sectors] is a sector of the grid, none is null. *)
Definition world_ok (w : World Q) : Prop := map_Forall sector_ok (w_sectors w).

Lemma within_world_in_rect (p size : Vector2 Q) :
  (0 < vx size)%Q → (0 < vy size)%Q →
  rect_within (rect_of p size c_half) WorldRect → in_rect WorldRect p.
Proof.
  intros Hx Hy (H1&H2&H3&H4). destruct WorldRect_exact as (El&Er&Ed&Eu). rw /in_rect.
  cbn -[WorldRect] in *. exact_literals.
  set (a := rect_left WorldRect) in *. set (b := rect_right WorldRect) in *.
  set (c := rect_down WorldRect) in *. set (d := rect_up WorldRect) in *. clearbody a b c d.
  split_and!; lra.
Qed.

Lemma Move_direction {C} `{CoordinateUnit C} dt (f : Fixture C) : fx_direction (Move dt f).2 = fx_direction f.
Proof. rw /Move. by case_decide. Qed.

(** After a move a fixture is in the world. *)
Lemma Move_in_world s dt f : fixture_ok s f → in_rect WorldRect (fx_position (Move dt f).2).
Proof.
  intros [Hs Hx Hy Hw]. destruct (decide (fx_direction f = Direction_Max)) as [Hd|Hd].
  - rw /Move decide_True; [done|]. auto.
  - pose proof (Move_within dt f Hd) as Hm. apply (within_world_in_rect _ (fx_size f)); [lra..|].
    destruct (Move_frame dt f) as (_&<-&_). apply Hm; lra.
Qed.

Lemma Move_ok s dt f : fixture_ok s f → fixture_ok s (Move dt f).2.
Proof.
  intros Hf. pose proof (Move_in_world s dt f Hf). destruct Hf as [Hs Hx Hy Hw].
  destruct (Move_frame dt f) as (_&Esz&_&_&_&_&Es). split; [congruence|by rw Esz|by rw Esz|done].
Qed.

Lemma same_body_ok s f f' : same_body f f' → fixture_ok s f → fixture_ok s f'.
Proof. intros (time&observing&->) [??? ?]. by split. Qed.

Section safety.
Context `{IterOrder} `{Indeterminate Q}.
Variable pm : SectorPostingManager.
Variable clock : string → Z → Z.

Lemma exchange_sectors_total p s q t :
valid_sector s → valid_sector t → is_Some (exchange_sectors p s q t).
Proof.
intros Hs Ht. rw /exchange_sectors.
destruct (GetNearSectors_total s p Hs) as [a ->], (GetNearSectors_total t q Ht) as [b ->]. cbn.
case_decide; [destruct (cancel_overlaps _ _)|]; by eexists.
Qed.

Lemma Exchange_total oi l p s l' q t (w : World Q) :
valid_sector s → valid_sector t →
∃ e, ExchangeObservingObject pm oi l p s l' q t w = Ok ((), w, e).
Proof.
intros Hs Ht. rw /ExchangeObservingObject. case_decide; [by eexists|].
destruct (exchange_sectors_total p s q t Hs Ht) as [[r c] ->]. cbn. by eexists.
Qed.

Lemma OnChangeFixtureLocation_safe s (f : Fixture Q) l p (w : World Q) :
valid_sector s → (l = FixtureLocation_Leave → in_rect WorldRect (fx_position f)) →
wp (World_OnChangeFixtureLocation pm clock s f l p) w
  (λ f' w' _, same_body f f' ∧ w_sectors w' = w_sectors w ∧ w_removing_fixtures w' = w_removing_fixtures w)
  (λ _, False).
Proof.
intros Hs Hl. pose proof (location_frame (callback := world_callback pm clock) s f l p w) as Hframe.
rw /wp /= in Hframe |- *.
enough (Hsafe : ∃ f' w' e, World_OnChangeFixtureLocation pm clock s f l p w = Ok (f', w', e) ∧
  w_sectors w' = w_sectors w ∧ w_removing_fixtures w' = w_removing_fixtures w).
{ destruct Hsafe as (f'&w'&e&Hrun&?&?). rw Hrun in Hframe |- *. done. }
clear Hframe. rw /World_OnChangeFixtureLocation /mbind /act_mbind {1}/act_bind /get_state.
destruct (w_sectors w !! s); [|by do 3 eexists]. rw {1}/act_bind.
edestruct Exchange_total as [e ->]; [exact Hs|exact Hs|].
case_decide as Hne; [by do 3 eexists|].
destruct (GetNearSectors_total s p Hs) as [ns ->].
destruct (world_square _ (Hl Hne)) as (t&r&Ht&Hr&Hin).
rw /act_bind. cbn -[GetSectorByPosition]. rw (GetSectorByPosition_in_rect _ _ _ Hr Hin). cbn.
rw (proj2 (Z.eqb_neq t INVALID_SECTOR)); [intros ->; by apply INVALID_SECTOR_not_valid|].
cbn. by do 3 eexists.
Qed.

Lemma OnChangeFixturePhase_safe s (f : Fixture Q) q (w : World Q) :
valid_sector s → fx_sector_id f = s → fx_location f = FixtureLocation_Gray →
wp (World_OnChangeFixturePhase pm s f q) w (λ f' w' _, f' = f ∧ w' = w) (λ _, False).
Proof.
intros Hs Hf Hg. rw /wp /World_OnChangeFixturePhase bool_decide_eq_true_2; [done|].
rw /mbind /act_mbind /act_bind /=. rw Hf.
edestruct Exchange_total as [e ->]; [exact Hs|exact Hs|]. done.
Qed.

(** One fixture's step returns, and leaves a fixture of the sector. *)
Lemma update_fixture_safe server s (ss g : SectorSystem Q) t dt f (w : World Q) :
on_grid server s ss g → fixture_ok s f →
wp (update_fixture (world_callback pm clock) ss t dt f) w
  (λ f' w' _, fixture_ok s f' ∧ w_sectors w' = w_sectors w ∧ w_removing_fixtures w' = w_removing_fixtures w)
  (λ _, False).
Proof.
intros Hss Hf. pose proof (Move_in_world s dt f Hf) as Hpos.
assert (Hid : ss_sector_id ss = s).
{ destruct Hss as [Hg ->]. destruct (grid_sector_inv _ _ _ Hg) as (r&_&->). done. }
destruct (grid_sector_base _ _ _ (proj1 Hss)) as (Hs&_).
apply (Move_ok s dt) in Hf. rw /update_fixture. set (m := (Move dt f).2) in *. clearbody m.
assert (Hret : ∀ f', fixture_ok s f' → wp (mret f') w (λ f' (w' : World Q) (_ : list (Effect Q)),
  fixture_ok s f' ∧ w_sectors w' = w_sectors w ∧ w_removing_fixtures w' = w_removing_fixtures w) (λ _, False))
  by (intros f' Hf'; by apply wp_ret).
destruct (fx_is_observing_fixture m); [by apply Hret|]. case_match; [by apply Hret|].
assert (Hph : ∀ w' (Q0 : Direction → World Q → list (Effect Q) → Prop), (∀ d, Q0 d w' []) →
  wp (current_phase (Out:=Effect Q) ss m) w' Q0 (λ _, False)).
{ intros w' Q0 HQ. rw /wp /current_phase (on_grid_phase server s ss g m Hss).
  rw (CalculateCurrentPhase_third server s g); [apply Hss|]. apply HQ. }
assert (Hloc : ∀ l d w', wp (OnChangeFixtureLocation (world_callback pm clock) (ss_sector_id ss) m l d) w'
  (λ f' w'' _, fixture_ok s f' ∧ w_sectors w'' = w_sectors w' ∧ w_removing_fixtures w'' = w_removing_fixtures w')
  (λ _, False)).
{ intros l d w'. rw Hid. eapply wp_mono; [apply OnChangeFixtureLocation_safe; done| |done].
  intros f' w'' o (Hb&Hw). split; [exact (same_body_ok s m f' Hb Hf)|done]. }
assert (Hset : ∀ l d f', fixture_ok s f' → fixture_ok s (set_location l (set_phase d f'))).
{ intros l d f' [????]. by split. }
destruct (fx_location m) eqn:El; try by apply Hret.
- case_decide; [|by apply Hret]. apply wp_bind, Hph. intros d. apply wp_bind.
  eapply wp_mono; [apply Hloc| |done]. intros f' w' o (Hf'&Hw'). apply wp_ret. split; [by apply Hset|done].
- apply wp_bind, Hph. intros d. case_decide.
  + apply wp_bind. eapply wp_mono; [apply Hloc| |done]. intros f' w' o (Hf'&Hw'). apply wp_ret.
    split; [by apply (Hset _ _ f')|done].
  + case_decide; [|by apply Hret]. apply wp_bind.
    assert (Hset' : fixture_ok s (set_phase d m)) by (by destruct Hf; split).
    case_decide; [|by apply wp_ret, Hret].
    eapply wp_mono; [apply (OnChangeFixturePhase_safe (ss_sector_id ss))| |done].
    * by rw Hid.
    * rw Hid. apply Hf.
    * done.
    * intros f' w' o [-> ->]. by apply wp_ret.
Qed.

Lemma RemoveFixtures_ok s ss ids :
sector_ok s (Some ss) → sector_ok s (Some (foldl (λ ss id, RemoveFixture id ss) ss ids)).
Proof.
revert ss. induction ids as [|id ids IH]; intros ss Hss; [done|]. apply IH.
destruct Hss as (ss'&server&g&[= <-]&[Hg Hss]&Hf). rw /RemoveFixture.
destruct (ss_fixtures ss !! id); [|by exists ss, server, g].
eexists _, server, g. split; [done|]. split; [split; [done|by rw Hss]|].
intros id' fx. cbn. rw lookup_delete_Some. intros [_ ?]. eauto.
Qed.
(** What a step leaves of a sector's table: the same counter, no new ids. *)
Definition no_new_ids (ss ss' : SectorSystem Q) : Prop :=
ss_current_fixture_id ss' = ss_current_fixture_id ss ∧ dom (ss_fixtures ss') ⊆ dom (ss_fixtures ss).

Lemma no_new_ids_remove ss ids : no_new_ids ss (foldl (λ ss id, RemoveFixture id ss) ss ids).
Proof.
revert ss. induction ids as [|id ids IH]; intros ss; [by split|]. cbn. destruct (IH (RemoveFixture id ss)) as [E1 E2].
rw /RemoveFixture in E1 E2 |- *. destruct (ss_fixtures ss !! id); [|done]. split; [done|]. etrans; [exact E2|].
cbn. rw dom_delete_L. set_solver.
Qed.

Lemma World_Update_run t dt (w : World Q) :
world_ok w →
wp (World_Update pm clock t dt) w
  (λ _ w' _, world_ok w' ∧ dom (w_sectors w') = dom (w_sectors w) ∧
     ∀ s ss ss', w_sectors w !! s = Some (Some ss) → w_sectors w' !! s = Some (Some ss') → no_new_ids ss ss') (λ _, False).
Proof.
intros Hw. rw /World_Update. apply wp_bind. rw {1}/wp /modify. apply wp_bind. rw {1}/wp /get_state.
set (I := λ (l : list (Z * option (SectorSystem Q))) (w' : World Q) (_ : list (Effect Q)),
  world_ok w' ∧ dom (w_sectors w') = dom (w_sectors w) ∧
  (∀ s ss ss', w_sectors w !! s = Some (Some ss) → w_sectors w' !! s = Some (Some ss') → no_new_ids ss ss')).
refine (wp_mono _ _ _ _ (λ _, False) _ (wp_for_each I _ _ _ _ _ _) _ (λ _ f, f)); [| |done].
2: { split_and!; [done..|]. intros s ss ss' Hs Hs'. cbn in Hs'. rw Hs in Hs'. by injection Hs' as <-. }
intros [s o] l1 l2 w1 e Hl (Hok&Hdom&Hids).
assert (Hs : w_sectors w !! s = Some o).
{ apply elem_of_iter_map. rw Hl. apply elem_of_app. right. by left. }
destruct (Hw s o Hs) as (ss&server&g&->&Hss&Hfx).
apply wp_bind. eapply wp_mono; [eapply (wp_SectorSystem_Update _ (λ _ f', fixture_ok s f')
  (λ w', w_sectors w' = w_sectors w1) (λ _, False))| |done].
- intros id f w2 Hf Hw2. eapply wp_mono; [eapply (update_fixture_safe server s ss g)| |done].
  + done.
  + exact (Hfx id f Hf).
  + intros f' w3 o' (?&Hw3&_). split; [done|congruence].
- done.
- intros ss' w2 o2 (Hw2&m'&->&Hm'). apply wp_bind. rw {1}/wp /get_state. apply wp_bind.
  rw {1}/wp /put_sector /modify {1}/wp. cbn -[RemoveFixture].
  assert (Hnew : sector_ok s (Some (foldl (λ ss id, RemoveFixture id ss) (ss_set_fixtures m' ss)
                                      (w_removing_fixtures w2)))).
  { apply RemoveFixtures_ok. eexists _, server, g. split; [done|]. split.
    - destruct Hss as [Hg ->]. by split.
    - intros id f Hf. specialize (Hm' id). cbn in Hf. rw Hf in Hm'. by inversion Hm'. }
  rw /I /world_ok /= Hw2. split_and!; [by apply map_Forall_insert_2| |].
  + rw dom_insert_L -Hdom. assert (s ∈ dom (w_sectors w1)) by (rw Hdom; exact (elem_of_dom_2 _ _ _ Hs)).
    set_solver.
  + intros k ss1 ss2 H1 H2. destruct (decide (k = s)) as [->|Hne]; [|rw lookup_insert_ne in H2; [congruence|by apply (Hids k)]].
    rw lookup_insert_eq in H2. injection H2 as <-. rw Hs in H1. injection H1 as <-.
    destruct (no_new_ids_remove (ss_set_fixtures m' ss) (w_removing_fixtures w2)) as [E1 E2]. split; [done|].
    etrans; [exact E2|]. cbn. intros id. rw !elem_of_dom. intros [f Hf]. specialize (Hm' id). rw Hf in Hm'.
    inversion Hm'. by eexists.
Qed.
End safety.

(** A step of the world is safe: when every pointer of [_sectors] is a
    sector of the grid and its fixtures are registered in it, have a size the
    world can hold and lie in the world when they stand still, [World::Update]
    returns (no assertion, exception or undefined access), keeps the sectors,
    and restores the same invariant for the next step, for every order of
    iteration and all clock readings. *)
Theorem World_Update_safe `{IterOrder} `{Indeterminate Q} (pm : SectorPostingManager)
    (clock : string → Z → Z) (t dt : Z) (w : World Q) :
  world_ok w →
  wp (World_Update pm clock t dt) w
    (λ _ w' _, world_ok w' ∧ dom (w_sectors w') = dom (w_sectors w)) (λ _, False).
Proof.
  intros Hw. eapply wp_mono; [by apply World_Update_run| |done]. by intros _ w' _ (?&?&_).
Qed.
