(* ===== verification/WorldRuns.v ===== *)
(** * Runs of the world

    Every sequence of the requests a play server's world serves, interleaved with
    its steps, over exact coordinates: the invariant of [WorldUpdate.v] and the
    freshness of object ids hold throughout, and nothing faults; and what a
    client can do to it. *)

From S2P Require Import Prelude Coordinate SectorGrid Fixture Packet Protocol Sampling.
From S2P Require Import PacketThrottler SectorPosting SectorSystem World Handover WorldUpdate.
From Stdlib Require Import QArith Lqa.

Open Scope Z_scope.

Section world_runs.
Context `{IterOrder} `{Indeterminate Q}.
Variable clock : string → Z → Z.
Implicit Types (w : World Q) (pm : SectorPostingManager).

(** ** The invariant *)

(** Sectors number their objects in blocks of their own. *)
Definition block (id : Z) : Z := (id - 1) / 100000000000.

(** [id] is not one the sector has yet to give out. *)
Definition known_id (ss : SectorSystem Q) (id : Z) : Prop :=
id < ss_current_fixture_id ss ∨ block id ≠ block (ss_current_fixture_id ss).

Definition ids_ok (ss : SectorSystem Q) : Prop :=
0 ≤ ss_current_fixture_id ss ∧ ∀ id, is_Some (ss_fixtures ss !! id) → known_id ss id.

Definition world_inv w : Prop :=
world_ok w ∧ ∀ s ss, w_sectors w !! s = Some (Some ss) → ids_ok ss.

Lemma world_inv_sector w s ss :
world_inv w → w_sectors w !! s = Some (Some ss) →
valid_sector s ∧ sector_ok s (Some ss) ∧ ids_ok ss.
Proof.
intros [Hw Hids] Hs. pose proof (Hw s _ Hs) as Hok. split_and!; [|done|by apply (Hids s)].
destruct Hok as (ss'&server&g&_&[Hg _]&_). by destruct (grid_sector_base _ _ _ Hg) as [? _].
Qed.

Lemma put_sector_inv w s ss :
world_inv w → sector_ok s (Some ss) → ids_ok ss → world_inv (set_sectors (<[s := Some ss]> (w_sectors w)) w).
Proof.
intros [Hw Hids] Hok Hss. split; [by apply map_Forall_insert_2|]. intros k ss' Hk. cbn in Hk.
rw lookup_insert_Some in Hk. destruct Hk as [[_ E]|[_ Hk]]; [by injection E as <-|by apply (Hids k)].
Qed.

Lemma put_fixture_ok s ss id f :
sector_ok s (Some ss) → fixture_ok s f → sector_ok s (Some (ss_put_fixture id f ss)).
Proof.
intros (ss'&server&g&[= <-]&[Hg Hss]&Hf) Hfix. eexists _, server, g. split; [done|]. split; [split; [done|by rw Hss]|].
intros id' f'. cbn. rw lookup_insert_Some. intros [[_ <-]|[_ ?]]; eauto.
Qed.

Lemma put_fixture_ids ss id f : ids_ok ss → known_id ss id → ids_ok (ss_put_fixture id f ss).
Proof.
intros [H0' Hids] Hid. split; [done|]. intros id' [f' Hf']. cbn in Hf'. rw lookup_insert_Some in Hf'.
destruct Hf' as [[<- _]|[_ Hf']]; [done|]. apply Hids. by exists f'.
Qed.

Lemma remove_fixture_ids ss id : ids_ok ss → ids_ok (RemoveFixture id ss).
Proof.
intros [H0' Hids]. rw /RemoveFixture. destruct (ss_fixtures ss !! id); [|done]. split; [done|].
intros id' [f' Hf']. cbn in Hf'. apply lookup_delete_Some in Hf' as [_ Hf']. apply Hids. by exists f'.
Qed.

Lemma sector_ref_run w s x : w_sectors w !! s = Some x → sector_ref s w = Ok (x, w, []).
Proof. intros Hs. by rw /sector_ref /mbind /act_mbind /act_bind /get_state Hs. Qed.

Lemma fixture_of s ss id f : sector_ok s (Some ss) → ss_fixtures ss !! id = Some f → fixture_ok s f.
Proof. intros (ss'&server&g&[= <-]&_&Hf) Hid. by apply (Hf id). Qed.

(** ** Requests *)

Definition has_sector w (s : Z) (ss : SectorSystem Q) : Prop := w_sectors w !! s = Some (Some ss).

(** The object is owned here, or was and is still tracked. *)
Definition owned_or_tracked w (ss : SectorSystem Q) (object_id : Z) : Prop :=
(∃ f, GetFixture object_id ss = Some f ∧ fx_is_observing_fixture f = false) ∨
is_Some (w_promoted_object_list w !! object_id).

Lemma AddSector_step w server s :
world_inv w → valid_sector s → w_sectors w !! s = None → returns (AddSector (C:=Q) server s) w (λ _, world_inv).
Proof.
intros [Hw Hids] Hs Hnone. rw /AddSector /sector_ref. run_steps. rw Hnone. run_steps.
destruct (sector_rect_exact s Hs) as (r&Hr&_). rw Hr.
eapply returns_ok; [reflexivity|]. rw /put_sector. run_steps. cbn [w_sectors set_sectors]. rw insert_insert_eq.
assert (Hg : grid_sector server s = Some (new_SectorSystem server s (LeftDown r) SectorSize ChunkSize SectorGrayZoneChunk))
  by by rw /grid_sector Hr.
apply (put_sector_inv w s); [done| |].
- eexists _, server, _. split; [done|]. split; [split; [exact Hg|done]|]. intros id f. by rw lookup_empty.
- split; [apply u64_range|]. intros id [f Hf]. by rw lookup_empty in Hf.
Qed.

Lemma RemoveSector_step w s ss : world_inv w → has_sector w s ss → returns (RemoveSector (C:=Q) s) w (λ _, world_inv).
Proof.
intros [Hw Hids] Hs. rw /RemoveSector. run_step. eapply returns_ok; [exact (sector_ref_run w s _ Hs)|]. run_steps.
split; [by apply map_Forall_delete|]. intros k ss' Hk. cbn in Hk. apply lookup_delete_Some in Hk as [_ Hk]. by apply (Hids k).
Qed.

(** The character a sector creates for a request, and the sector with it. *)
Definition spawned_fixture (ss : SectorSystem Q) (packet : packet_spawn_character_rq Q) : Fixture Q :=
set_last_transform_time (clock "SpawnCharacter" (ss_current_fixture_id ss))
  (set_sector_id (ss_sector_id ss) (set_id (ss_current_fixture_id ss) (set_size (fx_size (oi_fixture (sprq_object_info packet)))
    (set_position (fx_position (oi_fixture (sprq_object_info packet))) (set_direction Direction_Max new_Fixture))))).
Definition spawned_sector (ss : SectorSystem Q) (packet : packet_spawn_character_rq Q) : SectorSystem Q :=
ss_put_fixture (ss_current_fixture_id ss) (spawned_fixture ss packet)
  (ss_set_current_fixture_id (u64 (ss_current_fixture_id ss + 1)) ss).
Definition spawned_info (ss : SectorSystem Q) (packet : packet_spawn_character_rq Q) : PacketObjectInfo Q :=
oi_set_sector_id (ss_sector_id ss) (oi_set_object_id (ss_current_fixture_id ss)
  (oi_set_fixture (spawned_fixture ss packet) uninit_PacketObjectInfo)).
Definition spawned_world (ss : SectorSystem Q) (packet : packet_spawn_character_rq Q) w : World Q :=
set_sectors (<[oi_sector_id (sprq_object_info packet) := Some (spawned_sector ss packet)]> (w_sectors w)) w.

Lemma fresh_id ss : ids_ok ss → ss_fixtures ss !! ss_current_fixture_id ss = None.
Proof.
intros [H0' Hids]. destruct (ss_fixtures ss !! ss_current_fixture_id ss) as [f|] eqn:E; [|done].
destruct (Hids (ss_current_fixture_id ss)) as [Hlt|Hb]; [by exists f|lia|done].
Qed.

Lemma sector_id_ok s ss : sector_ok s (Some ss) → ss_sector_id ss = s.
Proof. intros (ss'&srv&g&[= <-]&[Hg ->]&_). destruct (grid_sector_inv _ _ _ Hg) as (r&_&->). done. Qed.

Lemma put_fixture_twice id (f f' : Fixture Q) ss : ss_put_fixture id f (ss_put_fixture id f' ss) = ss_put_fixture id f ss.
Proof. rw /ss_put_fixture /ss_set_fixtures /=. by rw insert_insert_eq. Qed.

Lemma SpawnCharacter_run pm w session server packet ss :
let sector_id := oi_sector_id (sprq_object_info packet) in
has_sector w sector_id ss → ss_fixtures ss !! ss_current_fixture_id ss = None →
SpawnCharacter pm clock session server packet w = Ok ((), spawned_world ss packet w,
  SendTo pm server (pkt_spawn_character_rs (mk_spawn_character_rs (sprq_user_id packet) EmptyString (spawned_info ss packet))) ++
  SendToSectorWithout pm server (pkt_create_object_ps (mk_create_object_ps (spawned_info ss packet))) sector_id false).
Proof.
intros sector_id Hs Hnew. rw /SpawnCharacter (bind_ok _ _ _ _ _ (sector_ref_run w _ _ Hs)). cbv beta iota.
rw /CreateFixture /CreateFixture_id. cbn [ss_fixtures ss_set_current_fixture_id]. rw Hnew.
rw /lift /put_sector /modify /emit /mret /mbind /act_mret /act_mbind /act_bind.
change (fx_id (set_last_transform_time _ _)) with (ss_current_fixture_id ss).
change (fx_id (set_sector_id _ _)) with (ss_current_fixture_id ss). rw put_fixture_twice. done.
Qed.

Lemma spawned_ids ss packet :
ids_ok ss → ss_current_fixture_id ss + 1 < 2 ^ 64 → block (ss_current_fixture_id ss + 1) = block (ss_current_fixture_id ss) →
(∀ id, known_id ss id → known_id (spawned_sector ss packet) id) ∧
known_id (spawned_sector ss packet) (ss_current_fixture_id ss) ∧ ids_ok (spawned_sector ss packet).
Proof.
intros [H0' Hids] Hmax Hblk.
assert (Hk : ∀ id, known_id ss id → known_id (spawned_sector ss packet) id).
{ intros id. rw /known_id /=. rw u64_small; [lia|]. rw Hblk. intros [Hlt|Hb]; [left; lia|by right]. }
assert (Hown : known_id (spawned_sector ss packet) (ss_current_fixture_id ss)).
{ left. cbn. rw u64_small; lia. }
split_and!; [done..|]. split; [cbn; apply u64_range|]. intros id [f Hf]. cbn in Hf. rw lookup_insert_Some in Hf.
destruct Hf as [[<- _]|[_ Hf]]; [done|]. apply Hk, Hids. by exists f.
Qed.

Lemma spawned_inv w packet ss :
let info := sprq_object_info packet in
world_inv w → has_sector w (oi_sector_id info) ss → in_rect WorldRect (fx_position (oi_fixture info)) →
(0 < vx (fx_size (oi_fixture info)) <= 25000)%Q → (0 < vy (fx_size (oi_fixture info)) <= 25000)%Q →
ss_current_fixture_id ss + 1 < 2 ^ 64 → block (ss_current_fixture_id ss + 1) = block (ss_current_fixture_id ss) →
world_inv (spawned_world ss packet w).
Proof.
intros info Hw Hs Hpos Hsx Hsy Hmax Hblk. destruct (world_inv_sector w _ ss Hw Hs) as (Hval&Hok&Hids).
apply put_sector_inv; [done| |by apply spawned_ids].
pose proof (sector_id_ok _ ss Hok) as Hsid. apply put_fixture_ok; [|by split; rw ?Hsid].
destruct Hok as (ss'&srv&g&[= <-]&[Hg Hss]&Hf). eexists _, srv, g. split; [done|]. split; [|done].
split; [done|]. by rw /ss_set_current_fixture_id Hss.
Qed.

Lemma Spawn_step pm w session server packet ss :
let info := sprq_object_info packet in
world_inv w → has_sector w (oi_sector_id info) ss → in_rect WorldRect (fx_position (oi_fixture info)) →
(0 < vx (fx_size (oi_fixture info)) <= 25000)%Q → (0 < vy (fx_size (oi_fixture info)) <= 25000)%Q →
ss_current_fixture_id ss + 1 < 2 ^ 64 → block (ss_current_fixture_id ss + 1) = block (ss_current_fixture_id ss) →
returns (SpawnCharacter pm clock session server packet) w (λ _, world_inv).
Proof.
intros info Hw Hs Hpos Hsx Hsy Hmax Hblk. destruct (world_inv_sector w _ ss Hw Hs) as (_&_&Hids).
eapply returns_ok; [exact (SpawnCharacter_run pm w session server packet ss Hs (fresh_id ss Hids))|].
by apply spawned_inv.
Qed.

Lemma remove_fixture_ok s ss id : sector_ok s (Some ss) → sector_ok s (Some (RemoveFixture id ss)).
Proof. intros Hok. exact (RemoveFixtures_ok s ss [id] Hok). Qed.

Lemma forward_step pm w object_id request :
world_inv w → is_Some (w_promoted_object_list w !! object_id) →
returns (forward_to_promoted (C:=Q) pm object_id request) w (λ _, world_inv).
Proof. intros Hw [p Hp]. rw /forward_to_promoted. run_steps. rw Hp. by run_steps. Qed.

Lemma near_step (w : World Q) s phase (k : list Z → list (Effect Q)) (Q0 : () → World Q → Prop) :
valid_sector s → Q0 () w →
returns (near_sectors ← ub_option "SectorGridList" (GetNearSectors s phase); emit (k near_sectors)) w Q0.
Proof.
intros Hs HQ. destruct (GetNearSectors_total s phase Hs) as [ns Hns]. rw Hns. run_steps.
eapply returns_ok; [reflexivity|]. by run_steps.
Qed.

Lemma Remove_step pm w session server packet ss :
world_inv w → has_sector w (rcq_sector_id packet) ss →
(rcq_to_owner packet = true → owned_or_tracked w ss (rcq_object_id packet)) →
returns (RemoveCharacter pm session server packet) w (λ _, world_inv).
Proof.
intros Hw Hs Hown. destruct (world_inv_sector w _ ss Hw Hs) as (Hval&Hok&Hids).
rw /RemoveCharacter. run_steps. eapply returns_ok; [exact (sector_ref_run w _ _ Hs)|]. cbv beta iota.
assert (Hput : ∀ id w', world_inv w' → returns (put_sector (rcq_sector_id packet) (RemoveFixture id ss)) w' (λ _, world_inv)).
{ intros id w' Hw'. rw /put_sector. run_steps. apply put_sector_inv; [done|by apply remove_fixture_ok|by apply remove_fixture_ids]. }
destruct (GetFixture (rcq_object_id packet) ss) as [f|] eqn:Hf.
- destruct (fx_is_observing_fixture f) eqn:Hobs.
  + destruct (rcq_to_owner packet); [|exact (Hput _ w Hw)]. apply forward_step; [done|].
    destruct (Hown eq_refl) as [(f'&Hf'&Hn)|Hp]; [congruence|done].
  + run_steps. set (w1 := mkWorld _ _ _ _). assert (Hw1 : world_inv w1) by exact Hw.
    case_decide; [|run_steps; exact (Hput _ w1 Hw1)]. apply near_step; [done|]. exact (Hput _ w1 Hw1).
- destruct (rcq_to_owner packet); [|by run_steps]. apply forward_step; [done|].
  destruct (Hown eq_refl) as [(f'&Hf'&Hn)|Hp]; [congruence|done].
Qed.

Lemma Move_step pm w session server packet ss :
world_inv w → has_sector w (cmrq_sector_id packet) ss → in_rect WorldRect (cmrq_starting_position packet) →
(if cmrq_to_owner packet then owned_or_tracked w ss (cmrq_object_id packet)
 else is_Some (GetFixture (cmrq_object_id packet) ss)) →
returns (MoveObject pm session server packet) w (λ _, world_inv).
Proof.
intros Hw Hs Hpos Hown. destruct (world_inv_sector w _ ss Hw Hs) as (Hval&Hok&Hids).
rw /MoveObject. run_steps. eapply returns_ok; [exact (sector_ref_run w _ _ Hs)|]. cbv beta iota.
destruct (GetFixture (cmrq_object_id packet) ss) as [f|] eqn:Hf.
- rw /put_sector. run_steps. set (w1 := set_sectors _ _).
  assert (Hw1 : world_inv w1).
  { apply put_sector_inv; [done| |].
    - apply put_fixture_ok; [done|]. destruct (fixture_of _ ss _ f Hok Hf) as [E1 E2 E3 _]. by split.
    - apply put_fixture_ids; [done|]. apply Hids. by exists f. }
  cbn [fx_is_observing_fixture set_direction set_position]. destruct (fx_is_observing_fixture f) eqn:Hobs.
  + destruct (cmrq_to_owner packet); [|by run_steps]. apply forward_step; [done|].
    destruct Hown as [(f'&Hf'&Hn)|Hp]; [congruence|done].
  + run_steps. case_decide; [|by run_steps]. by apply near_step.
- destruct (cmrq_to_owner packet); [|by destruct Hown]. apply forward_step; [done|].
  destruct Hown as [(f'&Hf'&Hn)|Hp]; [congruence|done].
Qed.

Lemma CreateObserving_step w packet ss :
let info := corq_object_info packet in
world_inv w → has_sector w (oi_sector_id info) ss → GetFixture (oi_object_id info) ss = None →
fx_id (oi_fixture info) = oi_object_id info → fixture_ok (oi_sector_id info) (oi_fixture info) → known_id ss (oi_object_id info) →
returns (CreateObservingObject packet) w (λ _, world_inv).
Proof.
intros info Hw Hs Hnone Hid Hfix Hkn. destruct (world_inv_sector w _ ss Hw Hs) as (Hval&Hok&Hids).
rw /CreateObservingObject. run_steps. eapply returns_ok; [exact (sector_ref_run w _ _ Hs)|]. cbv beta iota. fold info. rw Hnone.
run_steps. rw /CreateFixture_copy Hid. rw /GetFixture in Hnone. rw Hnone. eapply returns_ok; [reflexivity|].
assert (Hok2 : sector_ok (oi_sector_id info) (Some (ss_put_fixture (oi_object_id info) (oi_fixture info) ss))) by by apply put_fixture_ok.
destruct Hok2 as (ss'&srv&g&[= <-]&Hg&_). run_steps.
rw (on_grid_phase srv _ _ g _ Hg) (CalculateCurrentPhase_third srv (oi_sector_id info) g); [apply Hg|].
eapply returns_ok; [reflexivity|]. rw /put_sector. run_steps. cbn [fx_id set_phase set_is_observing_fixture]. rw Hid.
apply put_sector_inv; [done| |].
- apply put_fixture_ok; [by apply put_fixture_ok|]. destruct Hfix. by split.
- by apply put_fixture_ids; [apply put_fixture_ids|].
Qed.

Lemma RemoveObserving_step w packet ss f :
world_inv w → has_sector w (rorq_sector_id packet) ss → GetFixture (rorq_object_id packet) ss = Some f →
fx_is_observing_fixture f = true → returns (RemoveObservingObject (C:=Q) packet) w (λ _, world_inv).
Proof.
intros Hw Hs Hf Hobs. destruct (world_inv_sector w _ ss Hw Hs) as (Hval&Hok&Hids).
rw /RemoveObservingObject. run_steps. eapply returns_ok; [exact (sector_ref_run w _ _ Hs)|]. cbv beta iota. rw Hf Hobs. run_steps.
eapply returns_ok; [reflexivity|]. rw /put_sector. run_steps.
apply put_sector_inv; [done|by apply remove_fixture_ok|by apply remove_fixture_ids].
Qed.

Lemma Promote_step pm w packet ss old :
let info := porq_object_info packet in
world_inv w → has_sector w (oi_sector_id info) ss → GetFixture (oi_object_id info) ss = Some old →
fixture_ok (oi_sector_id info) (oi_fixture info) → valid_sector (porq_origin_sector_id packet) →
CalculateCurrentLocation ss (oi_fixture info) ≠ FixtureLocation_Leave →
returns (PromoteObservingObject pm clock packet) w (λ _, world_inv).
Proof.
intros info Hw Hs Hf Hfix Horigin Hleave. destruct (world_inv_sector w _ ss Hw Hs) as (Hval&Hok&Hids).
rw /PromoteObservingObject. run_steps. eapply returns_ok; [exact (sector_ref_run w _ _ Hs)|]. cbv beta iota. fold info.
rw Hf. run_steps. pose proof Hok as (ss'&srv&g&[= <-]&Hg&_).
rw (on_grid_phase srv _ _ g _ Hg) (CalculateCurrentPhase_third srv (oi_sector_id info) g); [apply Hg|].
eapply returns_ok; [reflexivity|]. rw /put_sector. run_steps.
set (f := set_last_transform_time _ _). set (l := CalculateCurrentLocation ss f). set (d := if decide (l = FixtureLocation_In) then _ else _).
assert (Hw1 : world_inv (set_sectors (<[oi_sector_id info := Some (ss_put_fixture (oi_object_id info)
  (set_location l (set_phase d f)) ss)]> (w_sectors w)) w)).
{ apply put_sector_inv; [done| |].
  - apply put_fixture_ok; [done|]. destruct Hfix. by split.
  - apply put_fixture_ids; [done|]. apply Hids. by exists old. }
rw decide_False; [exact Hleave|]. run_steps.
change (fx_sector_id (set_location l (set_phase d f))) with (fx_sector_id (oi_fixture info)).
rw (fo_sector _ _ Hfix).
destruct (IsNearPhase_symmetric (porq_origin_sector_id packet) (oi_sector_id info) (fx_phase f) d Horigin Hval) as [[b Hb] _].
rw Hb. eapply returns_ok; [reflexivity|]. cbv beta. destruct b; [by run_steps|].
destruct (Exchange_total pm info (fx_location f) (fx_phase f) (porq_origin_sector_id packet) l d (oi_sector_id info)
  (set_sectors (<[oi_sector_id info := Some (ss_put_fixture (oi_object_id info) (set_location l (set_phase d f)) ss)]>
    (w_sectors w)) w) Horigin Hval) as [e He].
eapply returns_ok; [exact He|done].
Qed.

Lemma Update_step pm w t dt : world_inv w → returns (World_Update pm clock t dt) w (λ _, world_inv).
Proof.
intros [Hw Hids]. eapply wp_mono; [by apply World_Update_run| |done]. intros _ w' _ (Hw'&Hdom&Hnew). split; [done|].
intros s ss' Hs'. assert (Hin : s ∈ dom (w_sectors w)) by (rw -Hdom; exact (elem_of_dom_2 _ _ _ Hs')).
apply elem_of_dom in Hin as [o Ho]. destruct (Hw s o Ho) as (ss&_&_&->&_).
destruct (Hnew s ss ss' Ho Hs') as [Ec Ed]. destruct (Hids s ss Ho) as [H0' Hk]. split; [by rw Ec|].
intros id Hid. apply elem_of_dom, Ed, elem_of_dom in Hid. rw /known_id Ec. by apply Hk.
Qed.

(** ** Runs *)

(** [_world]'s callers: the supervisor's allocations, the agencies' requests, the
  other play servers' requests and the worker's tick. *)
Inductive WorldEvent : Type :=
| WAddSector (server_id sector_id : Z)
| WRemoveSector (sector_id : Z)
| WSpawn (session : SessionRef) (server_id : Z) (packet : packet_spawn_character_rq Q)
| WRemove (session : SessionRef) (server_id : Z) (packet : packet_remove_character_rq)
| WMove (session : SessionRef) (server_id : Z) (packet : packet_character_move_rq Q)
| WCreateObserving (packet : packet_create_observing_object_rq Q)
| WRemoveObserving (packet : packet_remove_observing_object_rq)
| WPromote (packet : packet_promote_object_rq Q)
| WUpdate (current_time delta_time : Z).

Definition run_world_event pm (ev : WorldEvent) : Act (World Q) (Effect Q) () :=
match ev with
| WAddSector server_id sector_id => AddSector server_id sector_id
| WRemoveSector sector_id => RemoveSector sector_id
| WSpawn session server_id packet => SpawnCharacter pm clock session server_id packet
| WRemove session server_id packet => RemoveCharacter pm session server_id packet
| WMove session server_id packet => MoveObject pm session server_id packet
| WCreateObserving packet => CreateObservingObject packet
| WRemoveObserving packet => RemoveObservingObject packet
| WPromote packet => PromoteObservingObject pm clock packet
| WUpdate current_time delta_time => World_Update pm clock current_time delta_time
end.

(** Requests name sectors the server has and objects it has or tracks; positions
  are in the world and sizes fit into it; observing copies are created once and
  removed while they observe; what is promoted has arrived; and a sector's block
  of ids is not used up. *)
Definition world_enabled w (ev : WorldEvent) : Prop :=
match ev with
| WAddSector _ s => valid_sector s ∧ w_sectors w !! s = None
| WRemoveSector s => ∃ ss, has_sector w s ss
| WSpawn _ _ packet => let info := sprq_object_info packet in ∃ ss, has_sector w (oi_sector_id info) ss ∧
    in_rect WorldRect (fx_position (oi_fixture info)) ∧
    (0 < vx (fx_size (oi_fixture info)) <= 25000)%Q ∧ (0 < vy (fx_size (oi_fixture info)) <= 25000)%Q ∧
    ss_current_fixture_id ss + 1 < 2 ^ 64 ∧ block (ss_current_fixture_id ss + 1) = block (ss_current_fixture_id ss)
| WRemove _ _ packet => ∃ ss, has_sector w (rcq_sector_id packet) ss ∧
    (rcq_to_owner packet = true → owned_or_tracked w ss (rcq_object_id packet))
| WMove _ _ packet => ∃ ss, has_sector w (cmrq_sector_id packet) ss ∧ in_rect WorldRect (cmrq_starting_position packet) ∧
    if cmrq_to_owner packet then owned_or_tracked w ss (cmrq_object_id packet)
    else is_Some (GetFixture (cmrq_object_id packet) ss)
| WCreateObserving packet => let info := corq_object_info packet in ∃ ss, has_sector w (oi_sector_id info) ss ∧
    GetFixture (oi_object_id info) ss = None ∧ fx_id (oi_fixture info) = oi_object_id info ∧
    fixture_ok (oi_sector_id info) (oi_fixture info) ∧ known_id ss (oi_object_id info)
| WRemoveObserving packet => ∃ ss f, has_sector w (rorq_sector_id packet) ss ∧
    GetFixture (rorq_object_id packet) ss = Some f ∧ fx_is_observing_fixture f = true
| WPromote packet => let info := porq_object_info packet in ∃ ss old, has_sector w (oi_sector_id info) ss ∧
    GetFixture (oi_object_id info) ss = Some old ∧ fixture_ok (oi_sector_id info) (oi_fixture info) ∧
    valid_sector (porq_origin_sector_id packet) ∧ CalculateCurrentLocation ss (oi_fixture info) ≠ FixtureLocation_Leave
| WUpdate _ _ => True
end.

Inductive world_reachable : World Q → Prop :=
| world_new : world_reachable new_World
| world_stepped pm w ev w' o :
  world_reachable w → world_enabled w ev → run_world_event pm ev w = Ok ((), w', o) → world_reachable w'.

Lemma world_event_ok pm w ev : world_inv w → world_enabled w ev → returns (run_world_event pm ev) w (λ _, world_inv).
Proof.
intros Hw He. destruct ev as [server s|s|session server p|session server p|session server p|p|p|p|t dt]; cbn in He.
- destruct He. by apply AddSector_step.
- destruct He as [ss Hs]. by apply (RemoveSector_step w s ss).
- destruct He as (ss&?&?&?&?&?&?). by apply (Spawn_step pm w session server p ss).
- destruct He as (ss&?&?). by apply (Remove_step pm w session server p ss).
- destruct He as (ss&?&?&?). by apply (Move_step pm w session server p ss).
- destruct He as (ss&?&?&?&?&?). by apply (CreateObserving_step w p ss).
- destruct He as (ss&f&?&?&?). by apply (RemoveObserving_step w p ss f).
- destruct He as (ss&old&?&?&?&?&?). by apply (Promote_step pm w p ss old).
- by apply Update_step.
Qed.

Lemma world_reachable_inv w : world_reachable w → world_inv w.
Proof.
induction 1 as [|pm w ev w' o Hr IH He Hrun]; [by split|].
pose proof (world_event_ok pm w ev IH He) as Hok. by rw /returns /wp Hrun in Hok.
Qed.

End world_runs.

(** ** A position nobody checks *)

Section unchecked_position.
Context `{IterOrder} `{Indeterminate Q}.
Variable pm : SectorPostingManager.
Variable clock : string → Z → Z.

Definition stops {S O A} (m : Act S O A) (s : S) : Prop := wp m s (λ _ _ _, False) (λ _, True).

(** Far to the right of every sector. *)
Definition beyond_world (p : Vector2 Q) : Prop := (100000 <= vx p)%Q.

Lemma beyond_no_sector p t : beyond_world p → GetSectorByPosition p = Some t → t = INVALID_SECTOR.
Proof.
intros Hp. rw /GetSectorByPosition. set (y := c_to_int (vy _ / _)%coord). set (x := c_to_int (vx _ / _)%coord).
destruct y as [iy|]; cbn [mbind option_bind]; [|done]. destruct x as [ix|] eqn:Hix; cbn [mbind option_bind]; [|done].
subst x.
assert (H22 : 5 ≤ ix).
{ cbn [c_to_int exact] in Hix. rw /int32_range in Hix. case_match; [|done]. injection Hix as <-.
  set (q := c_div _ _) in *. assert (Hq : (5 <= q)%Q).
  { subst q. rw /beyond_world in Hp. cbn in Hp |- *. exact_literals. apply Qle_shift_div_l; [reflexivity|]. lra. }
  rw /Qle /= in Hq. apply Z.quot_le_lower_bound; lia. }
cbn [column]. rw (_ : (ix >=? SectorGridWidth) = true); [apply Z.geb_le; exact H22|].
rw orb_true_r. cbn [orb]. congruence.
Qed.

(** Of a size the world can hold. *)
Definition sized (f : Fixture Q) : Prop := (0 < vx (fx_size f) <= 25000)%Q ∧ (0 < vy (fx_size f) <= 25000)%Q.

Lemma beyond_leaves s server (ss g : SectorSystem Q) f :
on_grid server s ss g → sized f → beyond_world (fx_position f) → CalculateCurrentLocation ss f = FixtureLocation_Leave.
Proof.
intros Hg [Hx Hy] Hp. rw (on_grid_location server s ss g f Hg). destruct Hg as [Hg _].
destruct (grid_sector_base _ _ _ Hg) as (Hval&_). destruct (grid_sector_inv _ _ _ Hg) as (r&Hr&->).
destruct (sector_rect_exact s Hval) as (r'&Hr'&El&_). rw Hr in Hr'. injection Hr' as <-.
rw /CalculateCurrentLocation.
assert (Hno : ∀ q : FixtureRectangle Q, proper_rect q → (rect_right q <= 20000)%Q →
  FixtureRectangleOverlap q (ToFixtureRectangle f) = false).
{ intros q Hq Hright. apply not_true_iff_false. rw FixtureRectangleOverlap_true; [done| |].
  - split; cbn; exact_literals; lra.
  - intros (_&Hl&_). rw /beyond_world in Hp. cbn in Hl. exact_literals. lra. }
assert (Hleft : (rect_left r <= 10000)%Q).
{ rewrite ->El. rw /valid_sector in Hval. rw -(Zle_Qle _ 10000). pose proof (Z.mod_pos_bound s 5). lia. }
rw !Hno; [split; cbn; exact_literals; lra|cbn; exact_literals; lra|split; cbn; exact_literals; lra|cbn; exact_literals; lra|done].
Qed.

(** The callback for the departure fails where the world ends. *)
Lemma departure_stops s f d (w : World Q) :
valid_sector s → is_Some (w_sectors w !! s) → beyond_world (fx_position f) →
stops (World_OnChangeFixtureLocation pm clock s f FixtureLocation_Leave d) w.
Proof.
intros Hs [x Hx] Hp. rw /stops /World_OnChangeFixtureLocation. apply wp_bind. rw {1}/wp /get_state Hx.
apply wp_bind, wp_Exchange. intros effects. case_decide; [done|].
apply wp_bind, wp_ub_option. intros near _. apply wp_bind, wp_ub_option. intros dest Hdest.
apply (beyond_no_sector _ dest Hp) in Hdest as ->. apply wp_bind, wp_emit, wp_bind, wp_check. done.
Qed.

Lemma standing_stops s server (ss g : SectorSystem Q) t dt f (w : World Q) :
on_grid server s ss g → sized f → beyond_world (fx_position f) → fx_direction f = Direction_Max →
examined t f → is_Some (w_sectors w !! s) → stops (update_fixture (world_callback pm clock) ss t dt f) w.
Proof.
intros Hg Hf Hp Hd (Hobs&Ht&Hloc) Hw. pose proof (beyond_leaves s server ss g f Hg Hf Hp) as Hleave.
assert (Hid : ss_sector_id ss = s).
{ destruct Hg as [Hg ->]. destruct (grid_sector_inv _ _ _ Hg) as (r&_&->). done. }
destruct (grid_sector_base _ _ _ (proj1 Hg)) as (Hval&_).
assert (HM : (Move dt f).2 = f) by by rw /Move decide_True.
rw /stops /update_fixture HM Hobs. rw (_ : (_ >? t) = false); [rw Z.gtb_ltb; apply Z.ltb_ge; lia|].
assert (Hph : CalculateCurrentPhase ss f ≠ None).
{ rw (on_grid_phase server s ss g f Hg) (CalculateCurrentPhase_third server s g); [apply Hg|done]. }
destruct (CalculateCurrentPhase ss f) as [d|] eqn:Hd'; [|done].
assert (Hcall : ∀ d' (k : Fixture Q → Act (World Q) (Effect Q) (Fixture Q)),
  wp (OnChangeFixtureLocation (world_callback pm clock) (ss_sector_id ss) f FixtureLocation_Leave d' ≫= k) w
    (λ _ _ _, False) (λ _, True)).
{ intros d' k. apply wp_bind. eapply wp_mono; [rw Hid; by apply departure_stops|done|done]. }
destruct Hloc as [El|El]; rw El Hleave.
- case_decide; [|done]. apply wp_bind. rw {1}/wp /current_phase Hd'. apply Hcall.
- apply wp_bind. rw {1}/wp /current_phase Hd' /=. exact (Hcall _ _).
Qed.

(** What the steps of other fixtures leave alone. *)
Lemma update_fixture_keeps (ss : SectorSystem Q) t dt f (w : World Q) :
wp (update_fixture (world_callback pm clock) ss t dt f) w (λ _ w' _, w_sectors w' = w_sectors w) (λ _, True).
Proof.
assert (Hloc : ∀ s f l d w', wp (World_OnChangeFixtureLocation pm clock s f l d) w'
  (λ _ w'' _, w_sectors w'' = w_sectors w') (λ _, True)).
{ clear. intros s f l d w. rw /World_OnChangeFixtureLocation. apply wp_bind. rw {1}/wp /get_state.
  destruct (w_sectors w !! s); [|by apply wp_ret]. apply wp_bind, wp_Exchange. intros effects.
  case_decide; [by apply wp_ret|]. apply wp_bind, wp_ub_option. intros near _. apply wp_bind, wp_ub_option. intros dest _.
  apply wp_bind, wp_emit, wp_bind, wp_check. intros _. apply wp_bind. rw {1}/wp /modify.
  by apply wp_bind, wp_emit, wp_ret. }
assert (Hphase : ∀ s f d w', wp (World_OnChangeFixturePhase pm s f d) w' (λ _ w'' _, w_sectors w'' = w_sectors w') (λ _, True)).
{ clear. intros s f d w. rw /World_OnChangeFixturePhase. apply wp_bind, wp_check. intros _. apply wp_bind, wp_Exchange.
  intros effects. by apply wp_ret. }
assert (Hcur : ∀ f' (Q0 : Direction → World Q → list (Effect Q) → Prop), (∀ d, Q0 d w []) →
  wp (current_phase ss f') w Q0 (λ _, True)).
{ intros f' Q0 HQ. rw /wp /current_phase. destruct (CalculateCurrentPhase ss f'); cbn; auto. }
rw /update_fixture. set (m := (Move dt f).2). destruct (fx_is_observing_fixture m); [by apply wp_ret|].
case_match; [by apply wp_ret|]. destruct (fx_location m); try by apply wp_ret.
- case_decide; [|by apply wp_ret]. apply wp_bind, Hcur. intros d. apply wp_bind.
  eapply wp_mono; [apply Hloc| |done]. intros f' w' o E. by apply wp_ret.
- apply wp_bind, Hcur. intros d. case_decide.
  + apply wp_bind. eapply wp_mono; [apply Hloc| |done]. intros f' w' o E. by apply wp_ret.
  + case_decide; [|by apply wp_ret]. apply wp_bind. case_decide; [|by apply wp_ret, wp_ret].
    eapply wp_mono; [apply Hphase| |done]. intros f' w' o E. by apply wp_ret.
Qed.

Lemma update_fixtures_stops (ss : SectorSystem Q) s t dt id f l m (w : World Q) :
(id, f) ∈ l → is_Some (w_sectors w !! s) →
(∀ w', is_Some (w_sectors w' !! s) → stops (update_fixture (world_callback pm clock) ss t dt f) w') →
stops (update_fixtures (world_callback pm clock) ss t dt l m) w.
Proof.
intros Hin Hw Hstop. revert m w Hw. induction l as [|[id' f'] l IH]; intros m w Hw; [by apply not_elem_of_nil in Hin|].
rw /stops. cbn [update_fixtures]. apply wp_bind. apply elem_of_cons in Hin as [E|Hin].
- injection E as <- <-. eapply wp_mono; [by apply Hstop|done|done].
- eapply wp_mono; [apply update_fixture_keeps| |done]. intros f1 w1 o1 Hw1. apply IH; [done|by rw Hw1].
Qed.

Lemma update_fixtures_keeps (ss : SectorSystem Q) t dt l m (w : World Q) :
wp (update_fixtures (world_callback pm clock) ss t dt l m) w (λ _ w' _, w_sectors w' = w_sectors w) (λ _, True).
Proof.
revert m w. induction l as [|[id f] l IH]; intros m w; cbn [update_fixtures]; [by apply wp_ret|]. apply wp_bind.
eapply wp_mono; [apply update_fixture_keeps| |done]. intros f1 w1 o1 Hw1. eapply wp_mono; [apply IH| |done].
intros m2 w2 o2 Hw2. congruence.
Qed.

Lemma World_Update_stops s server (ss g : SectorSystem Q) t dt id f (w : World Q) :
has_sector w s ss → on_grid server s ss g → ss_fixtures ss !! id = Some f → sized f →
beyond_world (fx_position f) → fx_direction f = Direction_Max → examined t f →
stops (World_Update pm clock t dt) w.
Proof.
intros Hs Hg Hid Hf Hp Hd Hex. rw /stops /World_Update. apply wp_bind. rw {1}/wp /modify. apply wp_bind. rw {1}/wp /get_state.
set (body := λ _, _). change (w_sectors (expire_promoted clock w)) with (w_sectors w).
assert (Hin : (s, Some ss) ∈ iter_map (w_sectors w)) by by apply elem_of_iter_map.
assert (Hw : is_Some (w_sectors (expire_promoted clock w) !! s)) by by exists (Some ss).
generalize dependent (expire_promoted clock w). induction (iter_map (w_sectors w)) as [|[s' o] l IH]; intros w1 Hw1;
  [by apply not_elem_of_nil in Hin|].
cbn [for_each]. apply wp_bind. apply elem_of_cons in Hin as [E|Hin].
- injection E as <- <-. subst body. cbv beta iota. apply wp_bind. rw /SectorSystem_Update. apply wp_bind.
  eapply wp_mono; [apply (update_fixtures_stops ss s t dt id f); [by apply elem_of_iter_map|done|]|done|done].
  intros w' Hw'. by apply (standing_stops s server ss g).
- eapply (wp_mono _ _ (λ _ w' _, is_Some (w_sectors w' !! s)) _ (λ _, True)); [|intros [] w2 o2 Hw2; by apply IH|done].
  subst body. cbv beta iota. destruct o as [ss'|]; [|done]. apply wp_bind. rw /SectorSystem_Update. apply wp_bind.
  eapply wp_mono; [apply update_fixtures_keeps| |done]. intros m w2 o2 Hw2. apply wp_ret, wp_bind. rw {1}/wp /get_state.
  apply wp_bind. rw {1}/wp /put_sector /modify. rw {1}/wp. cbn -[RemoveFixture]. rw Hw2.
  destruct (decide (s' = s)) as [->|Hne]; [by rw lookup_insert_eq; eexists|]. by rw lookup_insert_ne.
Qed.

End unchecked_position.
