(* ===== verification/Session.v ===== *)
(** * Session data

    [common/engine/Session.h], the per-session table of integers the servers
    attach their bookkeeping to.  Session objects live below the game layer:
    [UserData] is the part of them it reads and writes, by the identity of the
    session. *)

From S2P Require Import Prelude Coordinate SectorGrid Fixture Packet Protocol Sampling.
From S2P Require Import PacketThrottler.

Open Scope Z_scope.

Definition UserData : Type := gmap Z (gmap Z Z).

(** [_user_data[key]] yields zero for a key never set. *)
Definition GetUserData (session : SessionRef) (key : Z) (d : UserData) : Z :=
  default 0 (default ∅ (d !! ses_handle session) !! key).

Definition SetUserData (session : SessionRef) (key value : Z) (d : UserData) : UserData :=
  <[ses_handle session := <[key := u64 value]> (default ∅ (d !! ses_handle session))]> d.

Definition ResetUserData (session : SessionRef) (d : UserData) : UserData :=
  <[ses_handle session := ∅]> d.

Lemma GetUserData_set session session' key key' value d :
  GetUserData session' key' (SetUserData session key value d) =
    if decide (ses_handle session' = ses_handle session ∧ key' = key) then u64 value
    else GetUserData session' key' d.
Proof.
  rw /GetUserData /SetUserData.
  destruct (decide (ses_handle session' = ses_handle session)) as [->|Hne].
  - rw lookup_insert_eq /=. destruct (decide (key' = key)) as [->|Hne].
    + by rw lookup_insert_eq decide_True.
    + rw lookup_insert_ne; [congruence|]. rw decide_False; [naive_solver|done].
  - rw lookup_insert_ne; [congruence|]. rw decide_False; [naive_solver|done].
Qed.
