(* ===== verification/Supervisor.v ===== *)
(** * Supervisor

    [supervisor/supervisor/SupervisorWorker.h], [SupervisorWorker.cpp] and
    [Config.h]: the server that numbers the other servers, distributes the
    sectors over the play servers, and takes servers back after a restart. *)

From S2P Require Import Prelude Coordinate SectorGrid Fixture Packet Protocol Sampling.
From S2P Require Import PacketThrottler SectorPosting Session.

Open Scope Z_scope.

Definition SUPERVISOR_SERVER_ID : Z := 1.

(** ** Config.h *)

Definition MaxSectorPerPlayServer : Z := 50.

Definition AgencyServerConfig : ServerConfig := {|
  sc_intra_server_listen_port := 9998;
  sc_intra_socket_server_config := mkSocketServerConfig 1 32 1 2 256 65536 256 131072 250;
  sc_intra_network_engine_option := mkNetworkEngineOption 180000 180000 1000 256 false 0 33;
  sc_user_listen_port := 9997;
  sc_user_socket_server_config := mkSocketServerConfig 4 32 1024 2 32 8192 16 131072 250;
  sc_user_network_engine_option := mkNetworkEngineOption 180000 180000 1000 1024 false 0 33;
  sc_game_config := mkGameConfig 33 10 1000;
|}.

Definition PlayServerConfig : ServerConfig := {|
  sc_intra_server_listen_port := 9999;
  sc_intra_socket_server_config := mkSocketServerConfig 2 32 32 2 512 131072 512 131072 250;
  sc_intra_network_engine_option := mkNetworkEngineOption 180000 180000 1000 256 false 0 33;
  sc_user_listen_port := 0;
  sc_user_socket_server_config := SocketServerConfig_default;
  sc_user_network_engine_option := NetworkEngineOption_default;
  sc_game_config := mkGameConfig 33 10 1000;
|}.

(** ** State *)

Record ManagedSectorInfo : Type := mkManagedSectorInfo {
  msi_sector_id : Z; msi_grid_index : Indexer2; msi_owner_server_id : Z }.

Record ManagedServerInfo : Type := mkManagedServerInfo {
  ms_session : option SessionRef; ms_server_info : ServerInfo; ms_sector_list : gset Z }.

(** [sv_user_data] is the part of the sessions the supervisor uses. *)
Record SupervisorWorker : Type := mkSupervisorWorker {
  sv_server_info : ServerInfo;
  sv_current_server_id : Z;
  sv_server_port : Z;
  sv_sector_info : gmap Z ManagedSectorInfo;
  sv_managed_server_list : gmap Z ManagedServerInfo;
  sv_blocked_server_list : gmap Z ServerInfo;
  sv_recoverying_server_list : gmap Z ServerInfo;
  sv_recovery_countdown : Countdown;
  sv_initial_delay : option Countdown;
  sv_user_data : UserData;
}.

Definition SessionDataKey_ServerId : Z := 0.
Definition SessionDataKey_ServerType : Z := 1.

(** The constructor, at a reading of the clock. *)
Definition new_SupervisorWorker (my_address : SocketAddress) (now : Z) : SupervisorWorker := {|
  sv_server_info := mkServerInfo ServerType_Supervisor SUPERVISOR_SERVER_ID my_address;
  sv_current_server_id := SUPERVISOR_SERVER_ID + 1;
  sv_server_port := 11001;
  sv_sector_info := foldl (λ m sector, <[sector_info_id sector :=
    mkManagedSectorInfo (sector_info_id sector) (grid_index sector) 0]> m) ∅ (concat SectorGrid);
  sv_managed_server_list := ∅;
  sv_blocked_server_list := ∅;
  sv_recoverying_server_list := ∅;
  sv_recovery_countdown := new_Countdown 9999999999999 now;
  sv_initial_delay := None;
  sv_user_data := ∅;
|}.

(** [_sector_info[sector_id].owner_server_id = owner] for each sector of a list,
    the loops that write an owner into a list of sectors. *)
Definition with_owner (owner : Z) (sector : ManagedSectorInfo) : ManagedSectorInfo :=
  mkManagedSectorInfo (msi_sector_id sector) (msi_grid_index sector) owner.
Definition write_owner (owner : Z) (sectors : list Z) (m : gmap Z ManagedSectorInfo) : gmap Z ManagedSectorInfo :=
  foldl (λ m sector_id,
    let sector := default (mkManagedSectorInfo 0 (mkIndexer2 0 0) 0) (m !! sector_id) in
    <[sector_id := mkManagedSectorInfo (msi_sector_id sector) (msi_grid_index sector) owner]> m) m sectors.

Section setters.
Implicit Types v : SupervisorWorker.
Definition sv_set_current_server_id x v := mkSupervisorWorker (sv_server_info v) x (sv_server_port v)
(sv_sector_info v) (sv_managed_server_list v) (sv_blocked_server_list v) (sv_recoverying_server_list v)
(sv_recovery_countdown v) (sv_initial_delay v) (sv_user_data v).
Definition sv_set_server_port x v := mkSupervisorWorker (sv_server_info v) (sv_current_server_id v) x
(sv_sector_info v) (sv_managed_server_list v) (sv_blocked_server_list v) (sv_recoverying_server_list v)
(sv_recovery_countdown v) (sv_initial_delay v) (sv_user_data v).
Definition sv_set_sector_info x v := mkSupervisorWorker (sv_server_info v) (sv_current_server_id v)
(sv_server_port v) x (sv_managed_server_list v) (sv_blocked_server_list v) (sv_recoverying_server_list v)
(sv_recovery_countdown v) (sv_initial_delay v) (sv_user_data v).
Definition sv_set_managed x v := mkSupervisorWorker (sv_server_info v) (sv_current_server_id v)
(sv_server_port v) (sv_sector_info v) x (sv_blocked_server_list v) (sv_recoverying_server_list v)
(sv_recovery_countdown v) (sv_initial_delay v) (sv_user_data v).
Definition sv_set_blocked x v := mkSupervisorWorker (sv_server_info v) (sv_current_server_id v)
(sv_server_port v) (sv_sector_info v) (sv_managed_server_list v) x (sv_recoverying_server_list v)
(sv_recovery_countdown v) (sv_initial_delay v) (sv_user_data v).
Definition sv_set_recoverying x v := mkSupervisorWorker (sv_server_info v) (sv_current_server_id v)
(sv_server_port v) (sv_sector_info v) (sv_managed_server_list v) (sv_blocked_server_list v) x
(sv_recovery_countdown v) (sv_initial_delay v) (sv_user_data v).
Definition sv_set_recovery_countdown x v := mkSupervisorWorker (sv_server_info v) (sv_current_server_id v)
(sv_server_port v) (sv_sector_info v) (sv_managed_server_list v) (sv_blocked_server_list v)
(sv_recoverying_server_list v) x (sv_initial_delay v) (sv_user_data v).
Definition sv_set_initial_delay x v := mkSupervisorWorker (sv_server_info v) (sv_current_server_id v)
(sv_server_port v) (sv_sector_info v) (sv_managed_server_list v) (sv_blocked_server_list v)
(sv_recoverying_server_list v) (sv_recovery_countdown v) x (sv_user_data v).
Definition sv_set_user_data x v := mkSupervisorWorker (sv_server_info v) (sv_current_server_id v)
(sv_server_port v) (sv_sector_info v) (sv_managed_server_list v) (sv_blocked_server_list v)
(sv_recoverying_server_list v) (sv_recovery_countdown v) (sv_initial_delay v) x.
End setters.

Section supervisor.
Context {C : Type} `{IterOrder} `{Indeterminate C} `{StructPack C}.
Variable clock : string → Z.

Abbreviation M := (Act SupervisorWorker (Effect C)).

Definition SendPacket_session (session : option SessionRef) (packet : Packet C) : M () :=
match session with
| Some s => emit [Send s packet ErrorCode_None]
| None => fail (UndefinedBehaviour "null session")
end.

(** [BroadcastPacket(packets...)]: each server receives all packets in turn. *)
Definition BroadcastPacket (packets : list (Packet C)) : M () :=
v ← get_state;
for_each (iter_map (sv_managed_server_list v)) (λ '(_, server),
  for_each packets (λ packet, SendPacket_session (ms_session server) packet)).

Definition MakeUpdateIntraServerPacket (v : SupervisorWorker) : packet_update_intra_server_info_ps :=
mk_update_intra_server_info_ps
  ((λ e : Z * ManagedServerInfo, ms_server_info e.2) <$> iter_map (sv_managed_server_list v)) [].

Definition MakeSectorAllocationPacket (v : SupervisorWorker) : packet_sector_allocation_ps :=
mk_sector_allocation_ps
  (concat ((λ e : Z * ManagedServerInfo,
     (λ sector_id, mkSectorAllocationInfo (ms_server_info e.2) sector_id) <$> iter_set (ms_sector_list e.2))
     <$> iter_map (sv_managed_server_list v))) [].

(** ** Server ids *)

Definition server_id_free (v : SupervisorWorker) (server_id : Z) : bool :=
bool_decide (sv_managed_server_list v !! server_id = None) &&
bool_decide (sv_blocked_server_list v !! server_id = None) &&
bool_decide (sv_recoverying_server_list v !! server_id = None).

Fixpoint next_server_id_loop (fuel : nat) : M Z :=
match fuel with
| O => fail OutOfFuel
| S fuel =>
    v ← get_state;
    let server_id := sv_current_server_id v in
    modify (sv_set_current_server_id (u64 (server_id + 1))) ;;
    if server_id_free v server_id then mret server_id else next_server_id_loop fuel
end.

(** Enough iterations to pass every id in use. *)
Definition GetNextServerId : M Z :=
v ← get_state;
next_server_id_loop (S (size (sv_managed_server_list v) + size (sv_blocked_server_list v)
                        + size (sv_recoverying_server_list v))).

(** ** Distribution of the sectors *)

(** The [std::for_each] of [Update]: the first server with the fewest
  sectors that is not an agency. *)
Fixpoint least_loaded (servers : list (Z * ManagedServerInfo)) (current_sector_count : Z)
  (server : option (Z * ManagedServerInfo)) : option (Z * ManagedServerInfo) :=
match servers with
| [] => server
| data :: servers =>
    if decide (si_server_type (ms_server_info data.2) = ServerType_Agency)
    then least_loaded servers current_sector_count server
    else if current_sector_count >? Z.of_nat (size (ms_sector_list data.2))
    then least_loaded servers (Z.of_nat (size (ms_sector_list data.2))) (Some data)
    else least_loaded servers current_sector_count server
end.

(** The loop over [_sector_info]; [None] is the early return when there is
  no play server. *)
Fixpoint allocate_sectors (sectors : list (Z * ManagedSectorInfo))
  (v : SupervisorWorker) (allocation_info : list SectorAllocationInfo)
  : option (SupervisorWorker * list SectorAllocationInfo) :=
match sectors with
| [] => Some (v, allocation_info)
| (sector_id, sector) :: sectors =>
    if negb (msi_owner_server_id sector =? 0) then allocate_sectors sectors v allocation_info
    else match least_loaded (iter_map (sv_managed_server_list v)) UINT32_MAX None with
    | None => None
    | Some (key, server) =>
        if Z.of_nat (size (ms_sector_list server)) >=? MaxSectorPerPlayServer
        then allocate_sectors sectors v allocation_info
        else
          let v := sv_set_managed (<[key := mkManagedServerInfo (ms_session server) (ms_server_info server)
                     ({[sector_id]} ∪ ms_sector_list server)]> (sv_managed_server_list v)) v in
          let v := sv_set_sector_info (<[sector_id := mkManagedSectorInfo (msi_sector_id sector)
                     (msi_grid_index sector) (si_server_id (ms_server_info server))]> (sv_sector_info v)) v in
          allocate_sectors sectors v
            (allocation_info ++ [mkSectorAllocationInfo (ms_server_info server) sector_id])
    end
end.

(** The recovery part of [Update]. *)
Definition expire_recovery : M () :=
v ← get_state;
if Countdown_bool (clock "recovery_countdown") (sv_recovery_countdown v) then
  let recovering := iter_map (sv_recoverying_server_list v) in
  modify (λ v, sv_set_recoverying ∅ (sv_set_blocked
    (foldl (λ m e, <[e.1 := e.2]> m) (sv_blocked_server_list v) recovering) v)) ;;
  BroadcastPacket [pkt_update_intra_server_info_ps (mk_update_intra_server_info_ps [] (recovering.*2))] ;;
  modify (sv_set_recovery_countdown (new_Countdown 999999999999 (clock "recovery_countdown reset")))
else mret ().

Definition Supervisor_Update : M bool :=
v ← get_state;
match sv_initial_delay v with
| None => mret true
| Some initial_delay =>
    if negb (Countdown_bool (clock "initial_delay") initial_delay) then mret true
    else
      expire_recovery ;;
      v ← get_state;
      match allocate_sectors (iter_map (sv_sector_info v)) v [] with
      | None => mret true
      | Some (v', allocation_info) =>
          modify (λ _, v') ;;
          (match allocation_info with
           | [] => mret ()
           | _ => BroadcastPacket [pkt_sector_allocation_ps (mk_sector_allocation_ps allocation_info [])]
           end) ;;
          mret true
      end
end.

(** ** Sessions *)

Definition Supervisor_OnSocketSessionClosed (session : SessionRef) : M () :=
v ← get_state;
let server_id := GetUserData session SessionDataKey_ServerId (sv_user_data v) in
if server_id =? 0 then mret ()
else match sv_managed_server_list v !! server_id with
| None => fail (AssertionFailed "iterator != _managed_server_list.end()")
| Some server =>
    let intra_server_packet := mk_update_intra_server_info_ps [] [ms_server_info server] in
    let sector_allocation_packet := mk_sector_allocation_ps []
      ((λ sector_id, mkSectorAllocationInfo (ms_server_info server) sector_id)
         <$> iter_set (ms_sector_list server)) in
    modify (λ v, sv_set_sector_info (write_owner 0 (iter_set (ms_sector_list server)) (sv_sector_info v)) v) ;;
    modify (λ v, sv_set_managed (delete server_id (sv_managed_server_list v)) v) ;;
    BroadcastPacket [pkt_sector_allocation_ps sector_allocation_packet;
                     pkt_update_intra_server_info_ps intra_server_packet]
end.

(** ** Requests *)

Definition uninit_ServerConfig : ServerConfig :=
mkServerConfig (ind_Z "intra_server_listen_port") SocketServerConfig_default NetworkEngineOption_default
  (ind_Z "user_listen_port") SocketServerConfig_default NetworkEngineOption_default
  (mkGameConfig (ind_Z "game_update_tick_ms") (ind_Z "packet_batch_process_time_ms")
     (ind_Z "fixture_transform_cooltime_ms")).

Definition OnServerLoadServerConfig (session : SessionRef) (packet : packet_load_server_config_rq) : M () :=
server_config ← match lcrq_server_type packet with
  | ServerType_Agency => mret AgencyServerConfig
  | ServerType_Play =>
      v ← get_state;
      modify (sv_set_server_port (u16 (sv_server_port v + 1))) ;;
      mret (mkServerConfig (sv_server_port v) (sc_intra_socket_server_config PlayServerConfig)
        (sc_intra_network_engine_option PlayServerConfig) (sc_user_listen_port PlayServerConfig)
        (sc_user_socket_server_config PlayServerConfig) (sc_user_network_engine_option PlayServerConfig)
        (sc_game_config PlayServerConfig))
  | ServerType_Supervisor => mret uninit_ServerConfig
  end;
emit [Send session (pkt_load_server_config_rs (mk_load_server_config_rs server_config)) ErrorCode_None].

(** [std::array<uint8_t, SessionKeySize> auth_key] without an initialiser. *)
Definition uninit_auth_key : list Z := replicate 64 (ind_Z "auth_key").

Definition OnServerRegisterMinionServerReq (session : SessionRef)
  (packet : packet_register_minion_server_rq) : M () :=
v ← get_state;
if negb (GetUserData session SessionDataKey_ServerId (sv_user_data v) =? 0)
then emit [Disconnect session]
else
  server_id ← GetNextServerId;
  modify (λ v, sv_set_user_data
    (SetUserData session SessionDataKey_ServerType (ServerType_to_Z (rmrq_server_type packet))
      (SetUserData session SessionDataKey_ServerId server_id (sv_user_data v))) v) ;;
  let server_info := mkServerInfo (rmrq_server_type packet) server_id (rmrq_address packet) in
  v ← get_state;
  emit [Send session (pkt_register_minion_server_rs (mk_register_minion_server_rs server_info uninit_auth_key)) ErrorCode_None;
        Send session (pkt_update_intra_server_info_ps (MakeUpdateIntraServerPacket v)) ErrorCode_None;
        Send session (pkt_sector_allocation_ps (MakeSectorAllocationPacket v)) ErrorCode_None] ;;
  BroadcastPacket [pkt_update_intra_server_info_ps (mk_update_intra_server_info_ps [server_info] [])] ;;
  modify (λ v, sv_set_managed (<[server_id := mkManagedServerInfo (Some session) server_info ∅]>
                                 (sv_managed_server_list v)) v) ;;
  modify (λ v, match sv_initial_delay v with
               | None => sv_set_initial_delay (Some (new_Countdown 2000 (clock "initial_delay start"))) v
               | Some _ => v
               end).

(** The guards of [OnServerRecoveryMinionServerReq], in order. *)
Definition recovery_accepted (v : SupervisorWorker) (packet : packet_recovery_minion_server_rq) : bool :=
let server_info := rcrq_server_info packet in
negb (si_server_id server_info <=? SUPERVISOR_SERVER_ID) &&
bool_decide (sv_managed_server_list v !! si_server_id server_info = None) &&
negb (bool_decide (si_server_type server_info ≠ ServerType_Play) &&
      negb (bool_decide (rcrq_sectors packet = []))) &&
forallb (λ sector_id, match sv_sector_info v !! sector_id with
                      | None => false
                      | Some sector => msi_owner_server_id sector =? 0
                      end) (rcrq_sectors packet) &&
bool_decide (sv_blocked_server_list v !! si_server_id server_info = None).

(** The loop over [packet.intra_servers]. *)
Definition note_recoverying (now : Z) (v : SupervisorWorker) (recovered : ServerInfo) : SupervisorWorker :=
match sv_managed_server_list v !! si_server_id recovered with
| Some _ => v
| None => sv_set_recovery_countdown (new_Countdown 30000 now)
            (sv_set_recoverying (<[si_server_id recovered := recovered]> (sv_recoverying_server_list v)) v)
end.

Definition OnServerRecoveryMinionServerReq (session : SessionRef)
  (packet : packet_recovery_minion_server_rq) : M () :=
v ← get_state;
let server_info := rcrq_server_info packet in
let server_id := si_server_id server_info in
if negb (recovery_accepted v packet)
then emit [Send session (pkt_recovery_minion_server_rs (mk_recovery_minion_server_rs (ind_Z "response._1"))) RecoveryFailed]
else
  modify (λ v, sv_set_recoverying (delete server_id (sv_recoverying_server_list v)) v) ;;
  modify (λ v, foldl (note_recoverying (clock "recovery_countdown start")) v (rcrq_intra_servers packet)) ;;
  (* sector_list stays empty *)
  modify (λ v, sv_set_managed (<[server_id := mkManagedServerInfo (Some session) server_info ∅]>
                                 (sv_managed_server_list v)) v) ;;
  modify (λ v, sv_set_sector_info (write_owner server_id (rcrq_sectors packet) (sv_sector_info v)) v) ;;
  modify (λ v, sv_set_user_data
    (SetUserData session SessionDataKey_ServerType (ServerType_to_Z (si_server_type server_info))
      (SetUserData session SessionDataKey_ServerId server_id (sv_user_data v))) v) ;;
  emit [Send session (pkt_recovery_minion_server_rs (mk_recovery_minion_server_rs 0)) ErrorCode_None] ;;
  BroadcastPacket [pkt_update_intra_server_info_ps (mk_update_intra_server_info_ps [server_info] []);
                   pkt_sector_allocation_ps (mk_sector_allocation_ps
                     (mkSectorAllocationInfo server_info <$> rcrq_sectors packet) [])] ;;
  modify (λ v, match sv_initial_delay v with
               | None => sv_set_initial_delay (Some (new_Countdown 5000 (clock "initial_delay start"))) v
               | Some _ => v
               end).

(** [body] is [context->buffer.Data()] up to [header.body_size]. *)
Definition Supervisor_OnSocketSessionData (session : SessionRef) (packet_type : option PacketType)
  (body : list Z) : M () :=
v ← get_state;
if negb (GetUserData session SessionDataKey_ServerId (sv_user_data v) =? 0)
then emit [Disconnect session]
else match packet_type with
| Some PacketType_load_server_config_rq =>
    match DeserializePacketBody PacketType_load_server_config_rq body with
    | Some (pkt_load_server_config_rq packet) => OnServerLoadServerConfig session packet
    | _ => emit [Disconnect session]
    end
| Some PacketType_register_minion_server_rq =>
    match DeserializePacketBody PacketType_register_minion_server_rq body with
    | Some (pkt_register_minion_server_rq packet) => OnServerRegisterMinionServerReq session packet
    | _ => emit [Disconnect session]
    end
| Some PacketType_recovery_minion_server_rq =>
    match DeserializePacketBody PacketType_recovery_minion_server_rq body with
    | Some (pkt_recovery_minion_server_rq packet) => OnServerRecoveryMinionServerReq session packet
    | _ => emit [Disconnect session]
    end
| _ => mret ()
end.
End supervisor.

(** ** Fresh server ids *)

Definition known_servers (v : SupervisorWorker) : nat :=
  size (sv_managed_server_list v) + size (sv_blocked_server_list v) + size (sv_recoverying_server_list v).

Section server_ids.
Context {C : Type}.

(** [n] consecutive ids, as the counter produces them. *)
Definition id_window (start : Z) (n : nat) : list Z := (λ k, u64 (start + Z.of_nat k)) <$> seq 0 n.

Lemma id_window_cons start n :
0 ≤ start < 2 ^ 64 → id_window start (S n) = start :: id_window (u64 (start + 1)) n.
Proof.
intros Hs. rw /id_window. cbn [seq fmap list_fmap]. f_equal; [rw u64_small; lia|].
rw -fmap_S_seq -list_fmap_compose. apply list_fmap_ext. intros i k _. cbn.
rw /u64 Zplus_mod_idemp_l. f_equal. lia.
Qed.

Lemma NoDup_id_window start n : Z.of_nat n ≤ 2 ^ 64 → NoDup (id_window start n).
Proof.
intros Hn. rw /id_window. apply NoDup_fmap_2_strong; [|apply NoDup_seq].
intros x y Hx%elem_of_seq Hy%elem_of_seq Heq.
assert (Hd : (Z.of_nat x - Z.of_nat y) mod 2 ^ 64 = 0).
{ rw (_ : Z.of_nat x - Z.of_nat y = (start + Z.of_nat x) - (start + Z.of_nat y)); [lia|].
  rw Zminus_mod. rw /u64 in Heq. by rw Heq Z.sub_diag. }
apply Z.mod_divide in Hd; [|lia]. destruct Hd as [q Hq]. assert (q = 0) by lia. lia.
Qed.

Lemma server_id_free_spec v id :
server_id_free v id = true ↔
id ∉ dom (sv_managed_server_list v) ∪ dom (sv_blocked_server_list v) ∪ dom (sv_recoverying_server_list v).
Proof.
rw /server_id_free !andb_true_iff !bool_decide_eq_true -!not_elem_of_dom. set_solver.
Qed.

(** The loop finds a free id when its window holds one. *)
Lemma next_server_id_spec fuel v :
0 ≤ sv_current_server_id v < 2 ^ 64 →
(∃ id, id ∈ id_window (sv_current_server_id v) fuel ∧ server_id_free v id = true) →
wp (next_server_id_loop (C:=C) fuel) v
  (λ id v' o, server_id_free v id = true ∧ o = [] ∧ id ∈ id_window (sv_current_server_id v) fuel ∧
     v' = sv_set_current_server_id (sv_current_server_id v') v ∧
     sv_current_server_id v' = u64 (id + 1)) (λ _, False).
Proof.
revert v. induction fuel as [|fuel IH]; intros v Hc (id&Hid&Hfree); [by apply not_elem_of_nil in Hid|].
rw id_window_cons in Hid; [done|]. cbn [next_server_id_loop].
apply wp_bind. rw {1}/wp /get_state. apply wp_bind. rw {1}/wp /modify.
destruct (server_id_free v (sv_current_server_id v)) eqn:E.
{ apply wp_ret. split_and!; try done. rw id_window_cons; [done|by left]. }
set (v1 := sv_set_current_server_id _ v).
eapply wp_mono; [apply (IH v1)| |done].
- apply u64_range.
- exists id. split; [|done]. apply elem_of_cons in Hid as [->|]; [|done]. congruence.
- intros id' v' o (H1&->&H2&H3&H4). split_and!; [exact H1|done| |exact H3|done].
  rw id_window_cons; [done|by right].
Qed.

Lemma GetNextServerId_spec v :
0 ≤ sv_current_server_id v < 2 ^ 64 →
sv_current_server_id v + Z.of_nat (known_servers v) < 2 ^ 64 - 1 →
wp (GetNextServerId (C:=C)) v
  (λ id v' o, server_id_free v id = true ∧ o = [] ∧
     sv_current_server_id v ≤ id ≤ sv_current_server_id v + Z.of_nat (known_servers v) ∧
     v' = sv_set_current_server_id (id + 1) v) (λ _, False).
Proof.
intros Hc Hsz. rw /GetNextServerId. apply wp_bind. rw {1}/wp /get_state.
rw -/(known_servers v). set (n := known_servers v) in *.
eapply wp_mono; [apply next_server_id_spec; [done|]| |done].
2:{ intros id v' o (Hf&->&Hin&Hv'&Hn). apply list_elem_of_fmap in Hin as (k&Hid&Hk%elem_of_seq).
    rewrite ->u64_small in Hid by lia. rewrite ->u64_small in Hn by lia.
    rewrite ->Hn in Hv'. split_and!; [done|done|lia|lia|done]. }
destruct (decide (Exists (λ id, server_id_free v id = true)
  (id_window (sv_current_server_id v) (S n)))) as [Hex|Hno].
{ by apply Exists_exists in Hex. }
exfalso. apply not_Exists_Forall in Hno; [|apply _].
set (X := dom (sv_managed_server_list v) ∪ dom (sv_blocked_server_list v) ∪ dom (sv_recoverying_server_list v)).
assert (Hsub : list_to_set (id_window (sv_current_server_id v) (S n)) ⊆ X).
{ intros id Hid%elem_of_list_to_set. rewrite ->Forall_forall in Hno. specialize (Hno id Hid).
  cbn in Hno. rw server_id_free_spec in Hno. by apply dec_stable in Hno. }
apply subseteq_size in Hsub.
rw size_list_to_set in Hsub; [apply NoDup_id_window; lia|].
rw length_fmap length_seq in Hsub.
assert (size X ≤ n)%nat; [|lia].
rw /X /n /known_servers !size_union_alt.
pose proof (subseteq_size (dom (sv_blocked_server_list v) ∖ dom (sv_managed_server_list v))
  (dom (sv_blocked_server_list v)) ltac:(set_solver)).
pose proof (subseteq_size (dom (sv_recoverying_server_list v) ∖ (dom (sv_managed_server_list v) ∪
  dom (sv_blocked_server_list v))) (dom (sv_recoverying_server_list v)) ltac:(set_solver)).
rewrite ->!size_dom in *. lia.
Qed.
End server_ids.

(** ** Ownership of the sectors *)

Definition load (server : ManagedServerInfo) : Z := Z.of_nat (size (ms_sector_list server)).
Definition is_agency (server : ManagedServerInfo) : Prop :=
  si_server_type (ms_server_info server) = ServerType_Agency.
#[export] Instance is_agency_dec server : Decision (is_agency server).
Proof. rw /is_agency. apply _. Defined.

(** The two records of ownership agree: the owner named by a sector lists the
    sector, and a listed sector names its owner. *)
Record supervisor_inv (v : SupervisorWorker) : Prop := {
  si_owner_lists : ∀ s i, sv_sector_info v !! s = Some i → msi_owner_server_id i ≠ 0 →
    ∃ server, sv_managed_server_list v !! msi_owner_server_id i = Some server ∧ s ∈ ms_sector_list server;
  si_lists_owner : ∀ id server s, sv_managed_server_list v !! id = Some server → s ∈ ms_sector_list server →
    ∃ i, sv_sector_info v !! s = Some i ∧ msi_owner_server_id i = id;
  si_ids : ∀ id server, sv_managed_server_list v !! id = Some server →
    si_server_id (ms_server_info server) = id ∧ id ≠ 0 ∧ is_Some (ms_session server);
}.

(** The loads of any two play servers differ by at most one. *)
Definition balanced (v : SupervisorWorker) : Prop :=
  ∀ id1 id2 s1 s2, sv_managed_server_list v !! id1 = Some s1 → sv_managed_server_list v !! id2 = Some s2 →
    ¬ is_agency s1 → ¬ is_agency s2 → load s1 ≤ load s2 + 1.

Lemma least_loaded_spec l c acc :
  (∀ d, acc = Some d → c = load d.2 ∧ ¬ is_agency d.2) →
  match least_loaded l c acc with
  | None => acc = None ∧ ∀ d, d ∈ l → is_agency d.2 ∨ c ≤ load d.2
  | Some d => (acc = Some d ∨ d ∈ l) ∧ ¬ is_agency d.2 ∧ load d.2 ≤ c ∧
              ∀ d', d' ∈ l → is_agency d'.2 ∨ load d.2 ≤ load d'.2
  end.
Proof.
  revert c acc. induction l as [|d l IH]; intros c acc Hacc; cbn [least_loaded].
  - destruct acc as [d|]; [|split; [done|]; by intros d ?%not_elem_of_nil].
    destruct (Hacc d eq_refl) as [-> ?]. split_and!; [by left|done|lia|]. by intros d' ?%not_elem_of_nil.
  - rw -/(is_agency d.2) -/(load d.2). case_decide as Ha.
    + specialize (IH c acc Hacc). destruct (least_loaded l c acc) as [d0|].
      * destruct IH as (Hin&?&?&Hall). split_and!; try done.
        -- destruct Hin; [by left|right; by right].
        -- intros d' [->|Hd']%elem_of_cons; [by left|auto].
      * destruct IH as [-> Hall]. split; [done|]. intros d' [->|Hd']%elem_of_cons; [by left|auto].
    + case: (Z.gtb_spec c (load d.2)) => Hlt.
      * specialize (IH (load d.2) (Some d)).
        destruct (least_loaded l (load d.2) (Some d)) as [d0|].
        -- destruct IH as (Hin&?&Hle&Hall); [by intros ? [= <-]|]. split_and!; try done.
           ++ right. destruct Hin as [[= <-]|]; [by left|by right].
           ++ lia.
           ++ intros d' [->|Hd']%elem_of_cons; [by right|auto].
        -- destruct IH as [? _]; [by intros ? [= <-]|done].
      * specialize (IH c acc Hacc). destruct (least_loaded l c acc) as [d0|].
        -- destruct IH as (Hin&?&?&Hall). split_and!; try done.
           ++ destruct Hin; [by left|right; by right].
           ++ intros d' [->|Hd']%elem_of_cons; [right; lia|auto].
        -- destruct IH as [-> Hall]. split; [done|]. intros d' [->|Hd']%elem_of_cons; [right; lia|auto].
Qed.

Section allocation.
Context `{IterOrder}.
Implicit Types v : SupervisorWorker.

(** Giving one unowned sector to a server. *)
Definition give_sector (s : Z) (sector : ManagedSectorInfo) (key : Z) (server : ManagedServerInfo) v
  : SupervisorWorker :=
sv_set_sector_info (<[s := mkManagedSectorInfo (msi_sector_id sector) (msi_grid_index sector)
    (si_server_id (ms_server_info server))]> (sv_sector_info v))
  (sv_set_managed (<[key := mkManagedServerInfo (ms_session server) (ms_server_info server)
    ({[s]} ∪ ms_sector_list server)]> (sv_managed_server_list v)) v).

Lemma give_sector_inv s sector key server v :
supervisor_inv v → sv_managed_server_list v !! key = Some server →
sv_sector_info v !! s = Some sector → msi_owner_server_id sector = 0 →
supervisor_inv (give_sector s sector key server v) ∧ (s ∉ ms_sector_list server).
Proof.
intros [Ho Hl Hi] Hkey Hs Hfree. destruct (Hi key server Hkey) as (Hid&Hk0&Hses).
assert (Hni : ∀ id srv, sv_managed_server_list v !! id = Some srv → s ∉ ms_sector_list srv).
{ intros id srv Hsrv Hin. destruct (Hl id srv s Hsrv Hin) as (i&Hi'&Hown).
  destruct (Hi id srv Hsrv) as (_&?&_). congruence. }
split; [|exact (Hni key server Hkey)]. split; cbn.
- intros s' i Hi' Hne. destruct (decide (s' = s)) as [->|Hs'].
  + rewrite ->lookup_insert_eq in Hi'. injection Hi' as <-. cbn. rw Hid lookup_insert_eq.
    eexists. split; [done|]. cbn. set_solver.
  + rewrite ->lookup_insert_ne in Hi' by congruence. destruct (Ho s' i Hi' Hne) as (srv&Hsrv&Hin).
    destruct (decide (msi_owner_server_id i = key)) as [E|E].
    * rw E lookup_insert_eq. eexists. split; [done|]. cbn. assert (srv = server) as -> by congruence. set_solver.
    * rw lookup_insert_ne; [congruence|]. eauto.
- intros id srv s' Hsrv Hin. destruct (decide (id = key)) as [->|Hne].
  + rewrite ->lookup_insert_eq in Hsrv. injection Hsrv as <-. cbn in Hin.
    destruct (decide (s' = s)) as [->|Hs'].
    * rw lookup_insert_eq. eexists. split; [done|]. done.
    * rw lookup_insert_ne; [congruence|]. apply (Hl key server); [done|set_solver].
  + rewrite ->lookup_insert_ne in Hsrv by congruence.
    assert (s' ≠ s) by (intros ->; exact (Hni id srv Hsrv Hin)).
    rw lookup_insert_ne; [congruence|]. eauto.
- intros id srv Hsrv. destruct (decide (id = key)) as [->|Hne].
  + rewrite ->lookup_insert_eq in Hsrv. injection Hsrv as <-. done.
  + rewrite ->lookup_insert_ne in Hsrv by congruence. eauto.
Qed.

Lemma give_sector_balanced s sector key server v :
balanced v → sv_managed_server_list v !! key = Some server → (s ∉ ms_sector_list server) →
¬ is_agency server →
(∀ d, d ∈ iter_map (sv_managed_server_list v) → is_agency d.2 ∨ load server ≤ load d.2) →
balanced (give_sector s sector key server v).
Proof.
intros Hb Hkey Hni Hna Hmin id1 id2 s1 s2 H1 H2 Ha1 Ha2. cbn in H1, H2.
set (new := mkManagedServerInfo (ms_session server) (ms_server_info server) ({[s]} ∪ ms_sector_list server)) in *.
assert (Hnew : load new = load server + 1).
{ rw /load /new /=. rw size_union; [set_solver|]. rw size_singleton. lia. }
assert (Hcase : ∀ id sv, <[key:=new]> (sv_managed_server_list v) !! id = Some sv → ¬ is_agency sv →
  (sv = new) ∨ (sv_managed_server_list v !! id = Some sv ∧ load server ≤ load sv)).
{ intros id sv Hsv Hsa. destruct (decide (id = key)) as [->|Hne].
  - rewrite ->lookup_insert_eq in Hsv. left. congruence.
  - rewrite ->lookup_insert_ne in Hsv by congruence. right. split; [done|].
    destruct (Hmin (id, sv)) as [?|?]; [by apply elem_of_iter_map|done|done]. }
destruct (Hcase id1 s1 H1 Ha1) as [->|[H1' L1]], (Hcase id2 s2 H2 Ha2) as [->|[H2' L2]].
- lia.
- lia.
- pose proof (Hb id1 key s1 server H1' Hkey Ha1 Hna). lia.
- exact (Hb id1 id2 s1 s2 H1' H2' Ha1 Ha2).
Qed.

Lemma load_bound v id server :
supervisor_inv v → sv_managed_server_list v !! id = Some server →
load server ≤ Z.of_nat (size (sv_sector_info v)).
Proof.
intros [_ Hl _] Hsrv. rw /load -(size_dom (sv_sector_info v)). apply inj_le, subseteq_size.
intros s Hs. destruct (Hl id server s Hsrv Hs) as (i&Hi&_). by apply elem_of_dom_2 in Hi.
Qed.

(** What the distribution loop does, from a state in which fewer sectors
  than the limit of one server exist. *)
Lemma allocate_sectors_spec l v alloc :
supervisor_inv v → NoDup l.*1 → (∀ s i, (s, i) ∈ l → sv_sector_info v !! s = Some i) →
Z.of_nat (size (sv_sector_info v)) < MaxSectorPerPlayServer →
(∃ id server, sv_managed_server_list v !! id = Some server ∧ ¬ is_agency server) →
∃ v' alloc', allocate_sectors l v alloc = Some (v', alloc') ∧
  supervisor_inv v' ∧ (balanced v → balanced v') ∧
  sv_current_server_id v' = sv_current_server_id v ∧
  dom (sv_sector_info v') = dom (sv_sector_info v) ∧
  dom (sv_managed_server_list v') = dom (sv_managed_server_list v) ∧
  (∀ s i, sv_sector_info v !! s = Some i → msi_owner_server_id i ≠ 0 → sv_sector_info v' !! s = Some i) ∧
  (∀ s i, s ∈ l.*1 → sv_sector_info v' !! s = Some i → msi_owner_server_id i ≠ 0).
Proof.
revert v alloc. induction l as [|[s i] l IH]; intros v alloc Hinv Hnd Hl Hsz Hplay; cbn [allocate_sectors].
{ exists v, alloc. split_and!; try done. by intros s i ?%not_elem_of_nil. }
rw fmap_cons in Hnd. apply NoDup_cons in Hnd as [Hni Hnd].
assert (Hs : sv_sector_info v !! s = Some i) by (apply Hl; by left).
assert (Hl' : ∀ s i, (s, i) ∈ l → sv_sector_info v !! s = Some i) by (intros ???; apply Hl; by right).
destruct (Z.eqb_spec (msi_owner_server_id i) 0) as [H0|H0]; cbn [negb].
2:{ destruct (IH v alloc Hinv Hnd Hl' Hsz Hplay) as (v'&a'&->&?&?&?&?&?&Hkeep&Hall).
    exists v', a'. split_and!; try done. intros s' i'. rw fmap_cons elem_of_cons. intros [->|Hin] Hi'; [|by eauto].
    cbn in Hi'. rw (Hkeep s i Hs H0) in Hi'. congruence. }
pose proof (least_loaded_spec (iter_map (sv_managed_server_list v)) UINT32_MAX None) as Hll.
destruct (least_loaded (iter_map (sv_managed_server_list v)) UINT32_MAX None) as [[key server]|].
2:{ exfalso. destruct Hplay as (id&srv&Hsrv&Hna). destruct Hll as [_ Hll]; [done|].
    destruct (Hll (id, srv)) as [?|Hle]; [by apply elem_of_iter_map|done|].
    pose proof (load_bound v id srv Hinv Hsrv). rw /UINT32_MAX /MaxSectorPerPlayServer /= in Hle Hsz. lia. }
destruct Hll as (Hin&Hna&_&Hmin); [done|]. destruct Hin as [?|Hin]; [done|]. apply elem_of_iter_map in Hin.
cbn in Hna, Hmin.
pose proof (load_bound v key server Hinv Hin) as Hlb. rw -/(load server).
rw Z.geb_leb (proj2 (Z.leb_gt _ _)); [lia|].
destruct (give_sector_inv s i key server v Hinv Hin Hs H0) as [Hinv1 Hfresh].
pose proof (give_sector_balanced s i key server v) as Hbal. rw -/(give_sector s i key server v).
set (v1 := give_sector s i key server v) in *.
assert (Hlook : ∀ s', s' ≠ s → sv_sector_info v1 !! s' = sv_sector_info v !! s').
{ intros s' Hs'. rw /v1 /= lookup_insert_ne; [congruence|done]. }
edestruct (IH v1) as (v'&a'&->&?&Hb'&Hcur&Hd1&Hd2&Hkeep&Hall); [done|done| | | |].
- intros s' i' Hin'. rw Hlook; [|by apply Hl']. intros ->. apply Hni, list_elem_of_fmap. by exists (s, i').
- rw /v1 /= -size_dom dom_insert_L. rw (_ : {[s]} ∪ dom (sv_sector_info v) = dom (sv_sector_info v)).
  + apply elem_of_dom_2 in Hs. set_solver.
  + by rw size_dom.
- exists key. rw /v1 /= lookup_insert_eq. by eexists.
- exists v', a'. split_and!; [done|done|auto|done| | | |].
  + rw Hd1 /v1 /= dom_insert_L. apply elem_of_dom_2 in Hs. set_solver.
  + rw Hd2 /v1 /= dom_insert_L. apply elem_of_dom_2 in Hin. set_solver.
  + intros s' i' Hi' Hne. apply Hkeep; [|done]. rw Hlook; [congruence|done].
  + intros s' i'. rw fmap_cons elem_of_cons. intros [->|Hin'] Hi'; [|by eauto].
    cbn in Hi'. destruct (si_ids v Hinv key server Hin) as (Hid&Hk0&_).
    pose proof (Hkeep s _ (lookup_insert_eq _ _ _)) as Hv'. cbn in Hv'.
    rewrite ->Hv' in Hi' by congruence. injection Hi' as <-. cbn. congruence.
Qed.
End allocation.

(** ** The handlers *)

Section handlers.
Context {C : Type} `{IterOrder} `{Indeterminate C} `{StructPack C}.
Variable clock : string → Z.
Implicit Types v : SupervisorWorker.

(** The packets a broadcast sends: all of them to each managed server. *)
Definition broadcast v (packets : list (Packet C)) : list (Effect C) :=
concat ((λ e : Z * ManagedServerInfo, match ms_session e.2 with
   | Some s => (λ packet, Send s packet ErrorCode_None) <$> packets | None => [] end)
  <$> iter_map (sv_managed_server_list v)).

Lemma for_each_emit {St A} (f : A → list (Effect C)) (l : list A) (st : St) :
for_each l (λ x, emit (f x)) st = Ok ((), st, concat (f <$> l)).
Proof.
induction l as [|x l IH]; [done|]. cbn [for_each]. rw /mbind /act_mbind /act_bind.
cbn [emit]. by rw IH.
Qed.

Definition sessions_ok v : Prop := map_Forall (λ _ server, is_Some (ms_session server)) (sv_managed_server_list v).

Lemma BroadcastPacket_run v packets :
sessions_ok v → BroadcastPacket packets v = Ok ((), v, broadcast v packets).
Proof.
intros Hok. rw /BroadcastPacket /mbind /act_mbind {1}/act_bind /get_state /broadcast.
assert (Hses : ∀ e, e ∈ iter_map (sv_managed_server_list v) → is_Some (ms_session e.2)).
{ intros [id srv] Hin%elem_of_iter_map. exact (Hok id srv Hin). }
induction (iter_map (sv_managed_server_list v)) as [|[id srv] l IH]; [done|].
cbn [for_each]. rw /mbind /act_mbind {1}/act_bind.
destruct (Hses (id, srv)) as [s Hs]; [by left|]. cbn in Hs |- *. rw Hs.
assert (Hone : for_each packets (λ packet, SendPacket_session (Some s) packet) v =
  Ok ((), v, (λ packet, Send s packet ErrorCode_None) <$> packets)).
{ rw /SendPacket_session (for_each_emit (λ packet, [Send s packet ErrorCode_None])).
  by rw concat_singletons. }
rw Hone. destruct (for_each l _ v) as [[[u v'] o]|f] eqn:E; cbn in IH.
- specialize (IH ltac:(intros e He; apply Hses; by right)). cbn. congruence.
- specialize (IH ltac:(intros e He; apply Hses; by right)). congruence.
Qed.

Lemma wp_BroadcastPacket v packets (Q : () → SupervisorWorker → list (Effect C) → Prop) E :
supervisor_inv v → Q () v (broadcast v packets) → wp (BroadcastPacket packets) v Q E.
Proof.
intros [_ _ Hi] HQ. rw /wp BroadcastPacket_run; [|done]. intros id server Hs. by destruct (Hi id server Hs) as (_&_&?).
Qed.

(** The invariant looks at the ownership tables only. *)
Lemma supervisor_inv_ext v v' :
sv_sector_info v' = sv_sector_info v → sv_managed_server_list v' = sv_managed_server_list v →
supervisor_inv v → supervisor_inv v'.
Proof. intros E1 E2 [???]. by split; rw ?E1 ?E2. Qed.

(** Adding a server without sectors. *)
Lemma add_server_inv v v' id server :
supervisor_inv v → sv_managed_server_list v !! id = None →
sv_sector_info v' = sv_sector_info v → sv_managed_server_list v' = <[id := server]> (sv_managed_server_list v) →
ms_sector_list server = ∅ → si_server_id (ms_server_info server) = id → id ≠ 0 → is_Some (ms_session server) →
supervisor_inv v'.
Proof.
intros [Ho Hl Hi] Hnew E1 E2 Hempty Hid Hid0 Hses. split; rw ?E1 ?E2.
- intros s i Hs Hne. destruct (Ho s i Hs Hne) as (srv&Hsrv&Hin). exists srv. split; [|done].
  rw lookup_insert_ne; [congruence|done].
- intros id' srv s Hsrv Hin. destruct (decide (id' = id)) as [->|Hne].
  + rewrite ->lookup_insert_eq in Hsrv. injection Hsrv as <-. rw Hempty in Hin. set_solver.
  + rewrite ->lookup_insert_ne in Hsrv by congruence. eauto.
- intros id' srv Hsrv. destruct (decide (id' = id)) as [->|Hne].
  + rewrite ->lookup_insert_eq in Hsrv. by injection Hsrv as <-.
  + rewrite ->lookup_insert_ne in Hsrv by congruence. eauto.
Qed.

Lemma register_spec v session packet :
supervisor_inv v → 2 ≤ sv_current_server_id v →
sv_current_server_id v + Z.of_nat (known_servers v) < 2 ^ 64 - 1 →
GetUserData session SessionDataKey_ServerId (sv_user_data v) = 0 →
wp (OnServerRegisterMinionServerReq (C:=C) clock session packet) v
  (λ _ v' o, ∃ id, server_id_free v id = true ∧ sv_current_server_id v ≤ id ∧
     let info := mkServerInfo (rmrq_server_type packet) id (rmrq_address packet) in
     sv_managed_server_list v' =
       <[id := mkManagedServerInfo (Some session) info ∅]> (sv_managed_server_list v) ∧
     sv_sector_info v' = sv_sector_info v ∧ supervisor_inv v' ∧
     sv_current_server_id v' = id + 1 ∧
     GetUserData session SessionDataKey_ServerId (sv_user_data v') = id ∧
     o = [Send session (pkt_register_minion_server_rs (mk_register_minion_server_rs info uninit_auth_key)) ErrorCode_None;
          Send session (pkt_update_intra_server_info_ps (MakeUpdateIntraServerPacket v)) ErrorCode_None;
          Send session (pkt_sector_allocation_ps (MakeSectorAllocationPacket v)) ErrorCode_None] ++
         broadcast v [pkt_update_intra_server_info_ps (mk_update_intra_server_info_ps [info] [])])
  (λ _, False).
Proof.
intros Hinv Hcur Hroom Hdata. rw /OnServerRegisterMinionServerReq. apply wp_bind. rw {1}/wp /get_state.
rw Hdata. cbn [negb Z.eqb]. apply wp_bind.
eapply wp_mono; [apply GetNextServerId_spec; [lia|done]| |done].
intros id v1 o1 (Hfree&->&Hid&->). apply wp_bind. rw {1}/wp /modify.
apply wp_bind. rw {1}/wp /get_state. apply wp_bind. rw {1}/wp /emit. apply wp_bind.
apply wp_BroadcastPacket; [by apply (supervisor_inv_ext v)|]. apply wp_bind. rw {1}/wp /modify {1}/wp.
exists id. cbn -[GetUserData SetUserData].
assert (Hnone : sv_managed_server_list v !! id = None).
{ rw /server_id_free !andb_true_iff !bool_decide_eq_true in Hfree. by destruct_and!. }
rw /broadcast. destruct (sv_initial_delay v) eqn:Ed; cbn -[GetUserData SetUserData].
all: split_and!; [done|lia|done|done| |done| |by rw ?app_nil_r].
2,4: rw !GetUserData_set decide_False; [by intros []|]; rw decide_True; [done|]; apply u64_small; lia.
all: by eapply (add_server_inv v _ id); try done; lia.
Qed.

Lemma expire_recovery_spec v :
supervisor_inv v →
wp (expire_recovery (C:=C) clock) v (λ _ v' _, sv_sector_info v' = sv_sector_info v ∧
  sv_managed_server_list v' = sv_managed_server_list v ∧ sv_current_server_id v' = sv_current_server_id v)
  (λ _, False).
Proof.
intros Hinv. rw /expire_recovery. apply wp_bind. rw {1}/wp /get_state.
case_match; [|by apply wp_ret]. apply wp_bind. rw {1}/wp /modify. apply wp_bind.
apply wp_BroadcastPacket; [by apply (supervisor_inv_ext v)|]. done.
Qed.

(** Without a play server the distribution changes nothing. *)
Lemma allocate_sectors_idle l v alloc :
(∀ id server, sv_managed_server_list v !! id = Some server → is_agency server) →
allocate_sectors l v alloc = None ∨ allocate_sectors l v alloc = Some (v, alloc).
Proof.
intros Hag. induction l as [|[s i] l IH]; cbn [allocate_sectors]; [by right|].
case_match; [done|].
pose proof (least_loaded_spec (iter_map (sv_managed_server_list v)) UINT32_MAX None) as Hll.
destruct (least_loaded _ _ _) as [[key server]|]; [|by left].
destruct Hll as ([?|Hin]&Hna&_); [done|done|]. apply elem_of_iter_map in Hin. destruct Hna. by apply (Hag key).
Qed.

Definition has_play_server v : Prop := map_Exists (λ _ server, ¬ is_agency server) (sv_managed_server_list v).
Definition delay_elapsed v : Prop :=
∃ delay, sv_initial_delay v = Some delay ∧ Countdown_bool (clock "initial_delay") delay = true.

(** What one call of [Update] achieves. *)
Record update_effect v v' : Prop := {
ue_inv : supervisor_inv v';
ue_balanced : balanced v → balanced v';
ue_counter : sv_current_server_id v' = sv_current_server_id v;
ue_sectors : dom (sv_sector_info v') = dom (sv_sector_info v);
ue_servers : dom (sv_managed_server_list v') = dom (sv_managed_server_list v);
ue_kept : ∀ s i, sv_sector_info v !! s = Some i → msi_owner_server_id i ≠ 0 → sv_sector_info v' !! s = Some i;
ue_all_owned : delay_elapsed v → has_play_server v →
  ∀ s i, sv_sector_info v' !! s = Some i → msi_owner_server_id i ≠ 0;
}.

Lemma Update_spec v :
supervisor_inv v → Z.of_nat (size (sv_sector_info v)) < MaxSectorPerPlayServer →
wp (Supervisor_Update (C:=C) clock) v (λ b v' _, b = true ∧ update_effect v v') (λ _, False).
Proof.
intros Hinv Hsz. rw /Supervisor_Update. apply wp_bind. rw {1}/wp /get_state.
destruct (sv_initial_delay v) as [delay|] eqn:Edelay.
2:{ apply wp_ret. split; [done|]. split; try done. intros (d&Hd&_). congruence. }
destruct (Countdown_bool (clock "initial_delay") delay) eqn:Ecd; cbn [negb].
2:{ apply wp_ret. split; [done|]. split; try done. intros (d&Hd&?). congruence. }
apply wp_bind. eapply wp_mono; [by apply expire_recovery_spec| |done]. intros [] v1 o1 (E1&E2&E3).
assert (Hinv1 : supervisor_inv v1) by by apply (supervisor_inv_ext v).
assert (Heff : ∀ v2, update_effect v1 v2 →
  (has_play_server v → ∀ s i, sv_sector_info v2 !! s = Some i → msi_owner_server_id i ≠ 0) → update_effect v v2).
{ intros v2 [??????] Hall. rw /balanced in ue_balanced0 |- *. rw ?E1 ?E2 ?E3 in ue_balanced0 ue_counter0 ue_sectors0 ue_servers0 ue_kept0.
  by split. }
apply wp_bind. rw {1}/wp /get_state.
destruct (decide (has_play_server v1)) as [Hp|Hp].
- destruct (allocate_sectors_spec (iter_map (sv_sector_info v1)) v1 [])
    as (v2&alloc&->&Hinv2&Hbal&Hcur&Hd1&Hd2&Hkeep&Hall); try done.
  { apply NoDup_iter_map. }
  { intros s i. by apply elem_of_iter_map. }
  { by rw E1. }
  assert (Hv2 : update_effect v v2).
  { assert (Hown : ∀ s i, sv_sector_info v2 !! s = Some i → msi_owner_server_id i ≠ 0).
    { intros s i Hi. apply (Hall s i); [|done]. apply elem_of_dom_2 in Hi. rw Hd1 in Hi.
      apply elem_of_dom in Hi as [i' Hi']. apply list_elem_of_fmap. exists (s, i'). split; [done|].
      by apply elem_of_iter_map. }
    apply Heff; [by split|done]. }
  apply wp_bind. rw {1}/wp /modify. apply wp_bind.
  destruct alloc; [by apply wp_ret, wp_ret|]. by apply wp_BroadcastPacket; [|apply wp_ret].
- assert (Hv1 : update_effect v v1).
  { apply Heff; [by split|]. rw /has_play_server -E2. done. }
  assert (Hag : ∀ id server, sv_managed_server_list v1 !! id = Some server → is_agency server).
  { intros id server Hsrv. apply dec_stable. intros Hna. apply Hp. by exists id, server. }
  destruct (allocate_sectors_idle (iter_map (sv_sector_info v1)) v1 [] Hag) as [->| ->]; by apply wp_ret.
Qed.
End handlers.

(** ** Departure of a server *)

Lemma write_owner_lookup owner sectors m s :
  (∀ s, s ∈ sectors → is_Some (m !! s)) →
  write_owner owner sectors m !! s = if decide (s ∈ sectors) then with_owner owner <$> m !! s else m !! s.
Proof.
  revert m. induction sectors as [|s' l IH]; intros m Hin; [done|]. cbn.
  destruct (Hin s') as [i Hi]; [by left|]. rw Hi. cbn. rw -/(with_owner owner i).
  rw -/(write_owner owner l _) IH.
  - intros s0 Hs0. apply lookup_insert_is_Some'. right. apply Hin. by right.
  - destruct (decide (s = s')) as [->|Hne].
    + rw lookup_insert_eq (decide_True (P := s' ∈ s' :: l)); [by left|]. rw Hi. by case_decide.
    + rw lookup_insert_ne; [congruence|]. destruct (decide (s ∈ l)) as [Hl|Hl].
      * rw decide_True; [by right|done].
      * rw decide_False; [|done]. rw elem_of_cons. by intros [|].
Qed.

Section departure.
Context {C : Type} `{IterOrder} `{Indeterminate C} `{StructPack C}.
Implicit Types v : SupervisorWorker.

Lemma remove_server_inv v v' id server :
supervisor_inv v → sv_managed_server_list v !! id = Some server →
sv_managed_server_list v' = delete id (sv_managed_server_list v) →
sv_sector_info v' = write_owner 0 (iter_set (ms_sector_list server)) (sv_sector_info v) →
supervisor_inv v' ∧ dom (sv_sector_info v') = dom (sv_sector_info v) ∧
(∀ s i, sv_sector_info v' !! s = Some i → msi_owner_server_id i ≠ id).
Proof.
intros Hinv Hsrv E1 E2. destruct (si_ids v Hinv id server Hsrv) as (_&Hid0&_).
destruct Hinv as [Ho Hl Hi].
assert (Hlook : ∀ s, sv_sector_info v' !! s =
  if decide (s ∈ ms_sector_list server) then with_owner 0 <$> sv_sector_info v !! s else sv_sector_info v !! s).
{ intros s. rw E2 write_owner_lookup.
  - intros s0 Hs0%elem_of_iter_set. destruct (Hl id server s0 Hsrv Hs0) as (i&Hi'&_). eauto.
  - destruct (decide (s ∈ ms_sector_list server)) as [Hs|Hs].
    + by rw decide_True; [apply elem_of_iter_set|].
    + by rw decide_False; [rw elem_of_iter_set|]. }
assert (Hown : ∀ s i, sv_sector_info v' !! s = Some i → msi_owner_server_id i ≠ id ∧
  (msi_owner_server_id i ≠ 0 → sv_sector_info v !! s = Some i)).
{ intros s i. rw Hlook. case_decide as Hs.
  - rw fmap_Some. intros (i0&_&->). cbn. split; [congruence|done].
  - intros Hs'. split; [|done]. intros He. destruct (Ho s i Hs') as (srv&Hsrv'&Hin); congruence. }
split_and!; [| |by intros s i Hs; apply (Hown s i Hs)].
- split; rw ?E1.
  + intros s i Hs Hne. destruct (Hown s i Hs) as [Hne' Hold]. destruct (Ho s i (Hold Hne) Hne) as (srv&Hsrv'&Hin).
    exists srv. split; [|done]. rw lookup_delete_ne; [congruence|done].
  + intros id' srv s Hsrv' Hin. apply lookup_delete_Some in Hsrv' as [Hne Hsrv'].
    destruct (Hl id' srv s Hsrv' Hin) as (i&Hs&Hi'). exists i. split; [|done].
    rw Hlook decide_False; [|done]. intros Hs'. destruct (Hl id server s Hsrv Hs') as (i0&Hs0&Hi0). congruence.
  + intros id' srv Hsrv'. apply lookup_delete_Some in Hsrv' as [Hne Hsrv']. eauto.
- apply set_eq. intros s. rw !elem_of_dom Hlook. case_decide; [by rw fmap_is_Some|done].
Qed.

Lemma closed_spec v session id server :
supervisor_inv v → GetUserData session SessionDataKey_ServerId (sv_user_data v) = id → id ≠ 0 →
sv_managed_server_list v !! id = Some server →
wp (Supervisor_OnSocketSessionClosed (C:=C) session) v
  (λ _ v' o, supervisor_inv v' ∧ sv_managed_server_list v' = delete id (sv_managed_server_list v) ∧
     sv_current_server_id v' = sv_current_server_id v ∧
     dom (sv_sector_info v') = dom (sv_sector_info v) ∧
     (∀ s i, sv_sector_info v' !! s = Some i → msi_owner_server_id i ≠ id) ∧
     o = broadcast v' [pkt_sector_allocation_ps (mk_sector_allocation_ps []
            (mkSectorAllocationInfo (ms_server_info server) <$> iter_set (ms_sector_list server)));
          pkt_update_intra_server_info_ps (mk_update_intra_server_info_ps [] [ms_server_info server])])
  (λ _, False).
Proof.
intros Hinv Hdata Hid Hsrv. rw /Supervisor_OnSocketSessionClosed. apply wp_bind. rw {1}/wp /get_state.
rw Hdata (proj2 (Z.eqb_neq id 0)); [done|]. rw Hsrv. apply wp_bind. rw {1}/wp /modify.
apply wp_bind. rw {1}/wp /modify.
set (v' := sv_set_managed _ _).
destruct (remove_server_inv v v' id server Hinv Hsrv eq_refl eq_refl) as (Hinv'&Hdom&Hown).
by apply wp_BroadcastPacket.
Qed.
End departure.

(** ** Reachable states

    The events of a supervisor none of whose servers goes through a recovery:
    registrations, updates, and the closing of a server's session. *)

Inductive supervisor_event : Type :=
| EvRegister (session : SessionRef) (packet : packet_register_minion_server_rq)
| EvUpdate
| EvClosed (session : SessionRef).

Section reachable.
Context {C : Type} `{IterOrder} `{Indeterminate C} `{StructPack C}.
Implicit Types v : SupervisorWorker.

Definition run_event (clock : string → Z) (ev : supervisor_event) : Act SupervisorWorker (Effect C) () :=
match ev with
| EvRegister session packet => OnServerRegisterMinionServerReq clock session packet
| EvUpdate => Supervisor_Update clock ;; mret ()
| EvClosed session => Supervisor_OnSocketSessionClosed session
end.

(** A session registers once, before the ids run out, and a session that
  closes either never registered or still represents its server. *)
Definition enabled v (ev : supervisor_event) : Prop :=
match ev with
| EvRegister session _ =>
    GetUserData session SessionDataKey_ServerId (sv_user_data v) = 0 ∧
    sv_current_server_id v + Z.of_nat (known_servers v) < 2 ^ 64 - 1
| EvUpdate => True
| EvClosed session =>
    let id := GetUserData session SessionDataKey_ServerId (sv_user_data v) in
    id = 0 ∨ is_Some (sv_managed_server_list v !! id)
end.

Inductive supervisor_reachable : SupervisorWorker → Prop :=
| reach_new address now : supervisor_reachable (new_SupervisorWorker address now)
| reach_step v clock ev v' o :
  supervisor_reachable v → enabled v ev → run_event clock ev v = Ok ((), v', o) → supervisor_reachable v'.

Definition reachable_inv v : Prop :=
supervisor_inv v ∧ 2 ≤ sv_current_server_id v ∧ dom (sv_sector_info v) = list_to_set (seqZ 0 25).

Lemma reachable_inv_new address now : reachable_inv (new_SupervisorWorker address now).
Proof.
split_and!; [|done|by vm_compute]. split; cbn -[sv_sector_info new_SupervisorWorker].
- intros s i Hs Hne. exfalso. apply Hne.
  assert (Hall : map_Forall (λ _ i, msi_owner_server_id i = 0) (sv_sector_info (new_SupervisorWorker address now)))
    by (apply map_Forall_to_list; vm_compute; by repeat constructor).
  exact (Hall s i Hs).
- intros id server s Hs. change ((∅ : gmap Z ManagedServerInfo) !! id = Some server) in Hs. by rewrite ->lookup_empty in Hs.
- intros id server Hs. change ((∅ : gmap Z ManagedServerInfo) !! id = Some server) in Hs. by rewrite ->lookup_empty in Hs.
Qed.

Lemma sector_count v : dom (sv_sector_info v) = list_to_set (seqZ 0 25) →
Z.of_nat (size (sv_sector_info v)) < MaxSectorPerPlayServer.
Proof. intros Hd. rw -size_dom Hd. by vm_compute. Qed.

Lemma run_event_safe v clock ev :
reachable_inv v → enabled v ev → wp (run_event clock ev) v (λ _ v' _, reachable_inv v') (λ _, False).
Proof.
intros (Hinv&Hcur&Hdom) Hen. destruct ev as [session packet| |session]; cbn [run_event enabled] in *.
- destruct Hen as [Hdata Hroom].
  eapply wp_mono; [by apply register_spec| |done].
  intros [] v' o (id&_&Hid&_&Es&Hinv'&Ec&_). split_and!; [done|lia|by rw Es].
- apply wp_bind. eapply wp_mono; [by apply Update_spec; [|apply sector_count]| |done].
  intros b v' o (_&[Hinv' _ Ec Es _ _ _]). apply wp_ret. split_and!; [done|lia|by rw Es].
- destruct (decide (GetUserData session SessionDataKey_ServerId (sv_user_data v) = 0)) as [Hzero|Hzero].
  + rw /Supervisor_OnSocketSessionClosed. apply wp_bind. rw {1}/wp /get_state Hzero. by apply wp_ret.
  + destruct Hen as [?|[server Hsrv]]; [done|].
    eapply wp_mono; [exact (closed_spec v session _ server Hinv eq_refl Hzero Hsrv)| |done].
    intros [] v' o (Hinv'&_&Ec&Es&_). split_and!; [done|lia|by rw Es].
Qed.

Lemma reachable_invariant v : supervisor_reachable v → reachable_inv v.
Proof.
induction 1 as [address now|v clock ev v' o _ IH Hen Hrun]; [apply reachable_inv_new|].
pose proof (run_event_safe v clock ev IH Hen) as Hwp. by rw /wp Hrun in Hwp.
Qed.
End reachable.

(** C9: The supervisor's two records of ownership agree in every reachable
    state (each owned sector is listed by its owner and by nobody else), the
    grid's 25 sectors are always known, and no registration, update or
    departure of a server runs into a fault. *)
Theorem supervisor_safety {C} `{IterOrder} `{Indeterminate C} `{StructPack C} (v : SupervisorWorker) :
  supervisor_reachable (C:=C) v →
  supervisor_inv v ∧ dom (sv_sector_info v) = list_to_set (seqZ 0 25) ∧
  ∀ clock ev, enabled v ev → ∃ v' o, run_event (C:=C) clock ev v = Ok ((), v', o).
Proof.
  intros Hr. pose proof (reachable_invariant v Hr) as Hinv. pose proof Hinv as (Hi&Hc&Hd).
  split_and!; [done|done|]. intros clock ev Hen.
  pose proof (run_event_safe (C:=C) v clock ev Hinv Hen) as Hwp. rw /wp in Hwp.
  destruct (run_event clock ev v) as [[[[] v'] o]|f]; [eauto|done].
Qed.

(** C10: Distribution of the sectors: once the initial delay has passed and
    some play server is registered, one [Update] leaves every sector of the
    grid with an owner, takes no sector from its owner, and keeps the loads of
    the play servers within one of each other. *)
Theorem distribution_complete {C} `{IterOrder} `{Indeterminate C} `{StructPack C}
    (clock : string → Z) (v : SupervisorWorker) :
  supervisor_reachable (C:=C) v → delay_elapsed clock v → has_play_server v →
  wp (Supervisor_Update (C:=C) clock) v
    (λ b v' _, b = true ∧
       (∀ s, valid_sector s → ∃ i server, sv_sector_info v' !! s = Some i ∧
          sv_managed_server_list v' !! msi_owner_server_id i = Some server ∧ s ∈ ms_sector_list server) ∧
       (∀ s i, sv_sector_info v !! s = Some i → msi_owner_server_id i ≠ 0 → sv_sector_info v' !! s = Some i) ∧
       (balanced v → balanced v'))
    (λ _, False).
Proof.
  intros Hr Hdelay Hplay. destruct (reachable_invariant v Hr) as (Hinv&_&Hdom).
  eapply wp_mono; [apply Update_spec; [done|by apply sector_count]| |done].
  intros b v' o (->&[Hinv' Hbal _ Hd _ Hkept Hall]). split_and!; [done| |done|done].
  intros s Hs. assert (Hin : s ∈ dom (sv_sector_info v')).
  { rw Hd Hdom elem_of_list_to_set elem_of_seqZ. rw /valid_sector in Hs. lia. }
  apply elem_of_dom in Hin as [i Hi].
  destruct (si_owner_lists v' Hinv' s i Hi (Hall Hdelay Hplay s i Hi)) as (server&Hsrv&Hl). eauto.
Qed.

(** ** Recovery *)

Section recovery.
Context {C : Type} `{IterOrder} `{Indeterminate C} `{StructPack C}.
Implicit Types v : SupervisorWorker.

Lemma note_recoverying_spec now (l : list ServerInfo) v :
let v' := foldl (note_recoverying now) v l in
sv_managed_server_list v' = sv_managed_server_list v ∧ sv_sector_info v' = sv_sector_info v ∧
sv_user_data v' = sv_user_data v ∧ sv_initial_delay v' = sv_initial_delay v ∧
(∀ id, sv_managed_server_list v !! id = None →
   (∃ info, info ∈ l ∧ si_server_id info = id) ∨
   ((∃ info, sv_recoverying_server_list v !! id = Some info ∧ si_server_id info = id) ∧
    sv_recovery_countdown v = new_Countdown 30000 now) →
   (∃ info, sv_recoverying_server_list v' !! id = Some info ∧ si_server_id info = id) ∧
   sv_recovery_countdown v' = new_Countdown 30000 now).
Proof.
revert v. induction l as [|x l IH]; intros v.
{ cbn. split_and!; try done. intros id Hid [(info&Hin&_)|?]; [by apply not_elem_of_nil in Hin|done]. }
cbn [foldl]. specialize (IH (note_recoverying now v x)). cbn zeta in IH.
assert (Hm : sv_managed_server_list (note_recoverying now v x) = sv_managed_server_list v)
  by (rw /note_recoverying; by case_match).
destruct IH as (E1&E2&E3&E4&Hrec). rw Hm in E1 Hrec.
assert (Hx : sv_sector_info (note_recoverying now v x) = sv_sector_info v ∧
  sv_user_data (note_recoverying now v x) = sv_user_data v ∧
  sv_initial_delay (note_recoverying now v x) = sv_initial_delay v)
  by (rw /note_recoverying; by case_match).
destruct Hx as (X1&X2&X3). split_and!; [congruence..|].
intros id Hid Hcase. apply Hrec; [done|].
destruct (decide (si_server_id x = id)) as [Hxid|Hxid].
- right. rw /note_recoverying Hxid Hid. cbn. split; [|done]. exists x. by rw lookup_insert_eq.
- destruct Hcase as [(info&[->|Hin]%elem_of_cons&Hi)|[(info&Hr&Hi) Hc]]; [done|left; eauto|].
  right. rw /note_recoverying. case_match; [eauto|]. cbn. split; [|done].
  exists info. by rw lookup_insert_ne.
Qed.

(** What an accepted recovery does. *)
Lemma recovery_spec clock v session packet :
sessions_ok v → recovery_accepted v packet = true →
let info := rcrq_server_info packet in
let id := si_server_id info in
wp (OnServerRecoveryMinionServerReq (C:=C) clock session packet) v
  (λ _ v' _, 1 < id ∧
     sv_managed_server_list v' = <[id := mkManagedServerInfo (Some session) info ∅]> (sv_managed_server_list v) ∧
     sv_sector_info v' = write_owner id (rcrq_sectors packet) (sv_sector_info v) ∧
     GetUserData session SessionDataKey_ServerId (sv_user_data v') = u64 id ∧
     (∀ other, other ∈ rcrq_intra_servers packet → sv_managed_server_list v !! si_server_id other = None →
        (∃ info, sv_recoverying_server_list v' !! si_server_id other = Some info ∧
           si_server_id info = si_server_id other) ∧
        sv_recovery_countdown v' = new_Countdown 30000 (clock "recovery_countdown start")))
  (λ _, False).
Proof.
intros Hok Hacc info id. rw /OnServerRecoveryMinionServerReq. apply wp_bind. rw {1}/wp /get_state.
rw Hacc. cbn [negb]. rw /recovery_accepted !andb_true_iff negb_true_iff Z.leb_gt in Hacc.
destruct Hacc as [[[[Hid _] _] _] _]. rw /SUPERVISOR_SERVER_ID in Hid.
do 5 (apply wp_bind; rw {1}/wp /modify). apply wp_bind. rw {1}/wp /emit. apply wp_bind.
set (v1 := sv_set_recoverying (delete _ _) v).
pose proof (note_recoverying_spec (clock "recovery_countdown start") (rcrq_intra_servers packet) v1) as Hnote.
cbn zeta in Hnote.
set (v2 := foldl (note_recoverying _) v1 _) in *.
destruct Hnote as (E1&E2&E3&E4&Hrec). fold info id.
set (v5 := sv_set_user_data _ _).
rw {1}/wp BroadcastPacket_run.
{ rw /sessions_ok /v5 /= E1. by apply map_Forall_insert_2. }
assert (Hdelay : ∀ v6, match sv_initial_delay v6 with
    | None => sv_set_initial_delay (Some (new_Countdown 5000 (clock "initial_delay start"))) v6
    | Some _ => v6 end =
    sv_set_initial_delay (Some (default (new_Countdown 5000 (clock "initial_delay start")) (sv_initial_delay v6))) v6).
{ intros []. cbn. by case_match. }
rw {1}/wp Hdelay. cbn -[GetUserData SetUserData write_owner u64].
split_and!; [done|by rw E1|by rw E2| |].
- rw !GetUserData_set decide_False; [by intros []|]. by rw decide_True.
- intros other Hin Hnone. apply Hrec; [done|]. left. eauto.
Qed.
End recovery.

Lemma foldl_insert_is_Some {A} (l : list (Z * A)) (m : gmap Z A) k :
  is_Some (m !! k) ∨ k ∈ l.*1 → is_Some (foldl (λ m e, <[e.1 := e.2]> m) m l !! k).
Proof.
  revert m. induction l as [|[k' x] l IH]; intros m [Hk|Hk]; cbn.
  - done.
  - by apply not_elem_of_nil in Hk.
  - apply IH. left. apply lookup_insert_is_Some'. by right.
  - apply IH. rw fmap_cons elem_of_cons in Hk. destruct Hk as [->|Hk]; [left|by right].
    apply lookup_insert_is_Some'. by left.
Qed.

(** A recovered server does not get its sectors back into its list: when
    it leaves again, the sectors it recovered keep naming it as their owner
    although it is gone, so no later [Update] gives them to another server. *)
Theorem recovery_orphans_sectors {C} `{IterOrder} `{Indeterminate C} `{StructPack C}
    (clock : string → Z) (v : SupervisorWorker) (session : SessionRef)
    (packet : packet_recovery_minion_server_rq) (s : Z) :
  supervisor_inv v → recovery_accepted v packet = true → s ∈ rcrq_sectors packet →
  si_server_id (rcrq_server_info packet) < 2 ^ 64 →
  wp (OnServerRecoveryMinionServerReq (C:=C) clock session packet ;; Supervisor_OnSocketSessionClosed session) v
    (λ _ v' _, sv_managed_server_list v' !! si_server_id (rcrq_server_info packet) = None ∧
       msi_owner_server_id <$> sv_sector_info v' !! s = Some (si_server_id (rcrq_server_info packet)))
    (λ _, False).
Proof.
  intros [_ _ Hi] Hacc Hs Hmax.
  assert (Hok : sessions_ok v) by (intros id server Hsrv; by destruct (Hi id server Hsrv) as (_&_&?)).
  assert (Hknown : ∀ s, s ∈ rcrq_sectors packet → is_Some (sv_sector_info v !! s)).
  { pose proof Hacc as Hacc'. rw /recovery_accepted !andb_true_iff forallb_forall in Hacc'. destruct Hacc' as [[_ Hall] _].
    intros s' Hs'. specialize (Hall s'). rw -list_elem_of_In in Hall. specialize (Hall Hs').
    by destruct (sv_sector_info v !! s'). }
  apply wp_bind. eapply wp_mono; [by apply recovery_spec| |done].
  intros [] v1 o (Hid&Em&Es&Hdata&_). rw u64_small in Hdata; [lia|].
  rw /Supervisor_OnSocketSessionClosed. apply wp_bind. rw {1}/wp /get_state Hdata.
  rw (proj2 (Z.eqb_neq _ 0)); [lia|]. rw Em lookup_insert_eq. cbn [ms_sector_list ms_server_info].
  apply wp_bind. rw {1}/wp /modify. apply wp_bind. rw {1}/wp /modify.
  rw {1}/wp BroadcastPacket_run.
  { rw /sessions_ok /= Em. by apply map_Forall_delete, map_Forall_insert_2. }
  cbn. rw Em lookup_delete_eq. split; [done|].
  rw (_ : iter_set ∅ = []); [apply Permutation_nil_r; by rw iter_set_perm|]. cbn.
  rw Es write_owner_lookup; [done|]. rw decide_True; [done|]. destruct (Hknown s Hs) as [i ->]. done.
Qed.

(** A recovering server reports all servers it knows, the supervisor among
    them; the supervisor notes itself as a server still to be recovered, and
    when the recovery period ends it blocks its own id and announces itself to
    the recovered server as a server that left. *)
Theorem recovery_expels_supervisor {C} `{IterOrder} `{Indeterminate C} `{StructPack C}
    (clock clock' : string → Z) (v : SupervisorWorker) (session : SessionRef)
    (packet : packet_recovery_minion_server_rq) (self : ServerInfo) :
  supervisor_inv v → recovery_accepted v packet = true →
  self ∈ rcrq_intra_servers packet → si_server_id self = SUPERVISOR_SERVER_ID →
  sv_managed_server_list v !! SUPERVISOR_SERVER_ID = None →
  clock "recovery_countdown start" + 30000 < clock' "recovery_countdown" →
  wp (OnServerRecoveryMinionServerReq (C:=C) clock session packet ;; expire_recovery clock') v
    (λ _ v' o, is_Some (sv_blocked_server_list v' !! SUPERVISOR_SERVER_ID) ∧
       ∃ leaved info, Send session (pkt_update_intra_server_info_ps
           (mk_update_intra_server_info_ps [] leaved)) ErrorCode_None ∈ o ∧
         info ∈ leaved ∧ si_server_id info = SUPERVISOR_SERVER_ID)
    (λ _, False).
Proof.
  intros [_ _ Hi] Hacc Hself Hid Hnone Hclock.
  assert (Hok : sessions_ok v) by (intros id server Hsrv; by destruct (Hi id server Hsrv) as (_&_&?)).
  apply wp_bind. eapply wp_mono; [by apply recovery_spec| |done].
  intros [] v1 o (Hgt&Em&Es&_&Hrec). destruct (Hrec self Hself) as [(info&Hinfo&Hii) Hcd]; [by rw Hid|].
  rw Hid in Hinfo Hii. rw /expire_recovery. apply wp_bind. rw {1}/wp /get_state.
  rw Hcd /Countdown_bool /new_Countdown. cbn [cd_start_time cd_delay].
  rw (proj2 (Z.ltb_lt _ _)); [lia|]. apply wp_bind. rw {1}/wp /modify. apply wp_bind.
  rw {1}/wp BroadcastPacket_run.
  { rw /sessions_ok /= Em. by apply map_Forall_insert_2. }
  rw {1}/wp. cbn -[broadcast]. set (l := iter_map (sv_recoverying_server_list v1)).
  assert (Hin : (SUPERVISOR_SERVER_ID, info) ∈ l) by by apply elem_of_iter_map.
  split.
  - apply (foldl_insert_is_Some l). right. apply list_elem_of_fmap. by exists (SUPERVISOR_SERVER_ID, info).
  - exists l.*2, info. split_and!; [|apply list_elem_of_fmap; by exists (SUPERVISOR_SERVER_ID, info)|done].
    apply elem_of_app. right. rw app_nil_r /broadcast list_elem_of_In in_concat.
    eexists [_]. split; [|by left]. rw -list_elem_of_In. apply list_elem_of_fmap.
    exists (si_server_id (rcrq_server_info packet), mkManagedServerInfo (Some session) (rcrq_server_info packet) ∅).
    split; [done|]. apply elem_of_iter_map. by rw /= Em lookup_insert_eq.
Qed.
