(* ===== verification/GameServer.v ===== *)
(** * Game server

    [common/game/GameServer.h] and [GameServer.cpp]: what the agency and the
    play servers share.  A game server registers with the supervisor, connects
    to the servers the supervisor names, authorises the connections between
    servers, and follows the allocation of the sectors.

    The virtual methods of the derived servers are a record of hooks over the
    derived state [D].  The tables of sessions are node based: a pointer into
    [_server_sessions] or [_active_sessions] is the key of the node, and
    dereferencing it after the node was erased is undefined. *)

From S2P Require Import Prelude Coordinate SectorGrid Fixture Packet Protocol Sampling.
From S2P Require Import PacketThrottler SectorPosting Session Supervisor.

Open Scope Z_scope.

Inductive IntraServerConnectionPolicy : Type := Connection_All | Connection_Conditional | Connection_Not.
Inductive IntraServerSectorListeningPolicy : Type := Listening_All | Listening_Conditional | Listening_Not.

Record IntraServerConfig : Type := mkIntraServerConfig {
  isc_server_type : ServerType;
  isc_connection_policy : IntraServerConnectionPolicy;
  isc_sector_listening_policy : IntraServerSectorListeningPolicy;
}.

Record UniversalSessionInfo : Type := mkUniversalSessionInfo {
  usi_universal_session_id : Z; usi_session : option SessionRef;
  usi_is_authorized : bool; usi_is_client : bool }.

Record IntraServerInfo : Type := mkIntraServerInfo {
  isi_universal : UniversalSessionInfo;
  isi_server_info : ServerInfo;
  isi_socket_connector_id : Z;
  isi_is_connector : bool;
}.

Definition isi_session (i : IntraServerInfo) : option SessionRef := usi_session (isi_universal i).

(** [IntraServerInfo{}] and [UniversalSessionInfo{}]. *)
Definition new_UniversalSessionInfo : UniversalSessionInfo := mkUniversalSessionInfo 0 None false false.
Definition new_ServerInfo : ServerInfo := mkServerInfo ServerType_Supervisor 0 (mkSocketAddress EmptyString 0).
Definition new_IntraServerInfo : IntraServerInfo := mkIntraServerInfo new_UniversalSessionInfo new_ServerInfo 0 false.

Definition isi_set_session (s : option SessionRef) (i : IntraServerInfo) : IntraServerInfo :=
  let u := isi_universal i in
  mkIntraServerInfo (mkUniversalSessionInfo (usi_universal_session_id u) s (usi_is_authorized u) (usi_is_client u))
    (isi_server_info i) (isi_socket_connector_id i) (isi_is_connector i).
Definition isi_authorize (s : option SessionRef) (i : IntraServerInfo) : IntraServerInfo :=
  let u := isi_universal i in
  mkIntraServerInfo (mkUniversalSessionInfo (usi_universal_session_id u) s true (usi_is_client u))
    (isi_server_info i) (isi_socket_connector_id i) (isi_is_connector i).
Definition isi_set_server_info (x : ServerInfo) (i : IntraServerInfo) : IntraServerInfo :=
  mkIntraServerInfo (isi_universal i) x (isi_socket_connector_id i) (isi_is_connector i).
Definition usi_authorize (u : UniversalSessionInfo) : UniversalSessionInfo :=
  mkUniversalSessionInfo (usi_universal_session_id u) (usi_session u) true (usi_is_client u).

(** The pointer kept under [UNIVERSAL_SESSION_INFO_KEY]: a node of
    [_active_sessions], or [_supervisor_server_info]. *)
Inductive SessionInfoPtr : Type := ActiveSession (universal_session_id : Z) | SupervisorInfo.
#[export] Instance SessionInfoPtr_eq_dec : EqDecision SessionInfoPtr.
Proof. solve_decision. Defined.

(** An [IntraServerInfo*]: a node of [_server_sessions], or the loopback. *)
Inductive IntraServerPtr : Type := ServerNode (server_id : Z) | LoopbackNode.

Definition SERVER_ID_KEY : Z := UINT64_MAX - 1.

(** [gs_current_connector_id] is the counter of the intra-server network
    engine, and [gs_user_data], [gs_session_info_ptr] are parts of the
    sessions; the packet throttler is reached through the effects. *)
Record GameServer (D : Type) : Type := mkGameServer {
  gs_loopback_session : option IntraServerInfo;
  gs_current_universal_session_id : Z;
  gs_supervisor_server_info : IntraServerInfo;
  gs_my_server_info : ServerInfo;
  gs_connection_config : gmap Z IntraServerConfig;
  gs_server_sessions : gmap Z IntraServerInfo;
  gs_active_sessions : gmap Z UniversalSessionInfo;
  gs_sector_posting_manager : SectorPostingManager;
  gs_service_ready : bool;
  gs_current_epoch_timestamp : Z;
  gs_current_connector_id : Z;
  gs_user_data : UserData;
  gs_session_info_ptr : gmap Z SessionInfoPtr;
  gs_derived : D;
}.
Arguments mkGameServer {D} _ _ _ _ _ _ _ _ _ _ _ _ _ _.
Arguments gs_loopback_session {D} _.
Arguments gs_current_universal_session_id {D} _.
Arguments gs_supervisor_server_info {D} _.
Arguments gs_my_server_info {D} _.
Arguments gs_connection_config {D} _.
Arguments gs_server_sessions {D} _.
Arguments gs_active_sessions {D} _.
Arguments gs_sector_posting_manager {D} _.
Arguments gs_service_ready {D} _.
Arguments gs_current_epoch_timestamp {D} _.
Arguments gs_current_connector_id {D} _.
Arguments gs_user_data {D} _.
Arguments gs_session_info_ptr {D} _.
Arguments gs_derived {D} _.

Section setters.
Context {D : Type}.
Implicit Types g : GameServer D.
Definition gs_set_loopback_session (x : option IntraServerInfo) g : GameServer D := mkGameServer
x (gs_current_universal_session_id g) (gs_supervisor_server_info g) (gs_my_server_info g)
(gs_connection_config g) (gs_server_sessions g) (gs_active_sessions g) (gs_sector_posting_manager g)
(gs_service_ready g) (gs_current_epoch_timestamp g) (gs_current_connector_id g) (gs_user_data g)
(gs_session_info_ptr g) (gs_derived g).
Definition gs_set_current_universal_session_id (x : Z) g : GameServer D := mkGameServer
(gs_loopback_session g) x (gs_supervisor_server_info g) (gs_my_server_info g) (gs_connection_config g)
(gs_server_sessions g) (gs_active_sessions g) (gs_sector_posting_manager g) (gs_service_ready g)
(gs_current_epoch_timestamp g) (gs_current_connector_id g) (gs_user_data g) (gs_session_info_ptr g)
(gs_derived g).
Definition gs_set_supervisor_server_info (x : IntraServerInfo) g : GameServer D := mkGameServer
(gs_loopback_session g) (gs_current_universal_session_id g) x (gs_my_server_info g)
(gs_connection_config g) (gs_server_sessions g) (gs_active_sessions g) (gs_sector_posting_manager g)
(gs_service_ready g) (gs_current_epoch_timestamp g) (gs_current_connector_id g) (gs_user_data g)
(gs_session_info_ptr g) (gs_derived g).
Definition gs_set_my_server_info (x : ServerInfo) g : GameServer D := mkGameServer
(gs_loopback_session g) (gs_current_universal_session_id g) (gs_supervisor_server_info g) x
(gs_connection_config g) (gs_server_sessions g) (gs_active_sessions g) (gs_sector_posting_manager g)
(gs_service_ready g) (gs_current_epoch_timestamp g) (gs_current_connector_id g) (gs_user_data g)
(gs_session_info_ptr g) (gs_derived g).
Definition gs_set_connection_config (x : gmap Z IntraServerConfig) g : GameServer D := mkGameServer
(gs_loopback_session g) (gs_current_universal_session_id g) (gs_supervisor_server_info g)
(gs_my_server_info g) x (gs_server_sessions g) (gs_active_sessions g) (gs_sector_posting_manager g)
(gs_service_ready g) (gs_current_epoch_timestamp g) (gs_current_connector_id g) (gs_user_data g)
(gs_session_info_ptr g) (gs_derived g).
Definition gs_set_server_sessions (x : gmap Z IntraServerInfo) g : GameServer D := mkGameServer
(gs_loopback_session g) (gs_current_universal_session_id g) (gs_supervisor_server_info g)
(gs_my_server_info g) (gs_connection_config g) x (gs_active_sessions g) (gs_sector_posting_manager g)
(gs_service_ready g) (gs_current_epoch_timestamp g) (gs_current_connector_id g) (gs_user_data g)
(gs_session_info_ptr g) (gs_derived g).
Definition gs_set_active_sessions (x : gmap Z UniversalSessionInfo) g : GameServer D := mkGameServer
(gs_loopback_session g) (gs_current_universal_session_id g) (gs_supervisor_server_info g)
(gs_my_server_info g) (gs_connection_config g) (gs_server_sessions g) x (gs_sector_posting_manager g)
(gs_service_ready g) (gs_current_epoch_timestamp g) (gs_current_connector_id g) (gs_user_data g)
(gs_session_info_ptr g) (gs_derived g).
Definition gs_set_sector_posting_manager (x : SectorPostingManager) g : GameServer D := mkGameServer
(gs_loopback_session g) (gs_current_universal_session_id g) (gs_supervisor_server_info g)
(gs_my_server_info g) (gs_connection_config g) (gs_server_sessions g) (gs_active_sessions g) x
(gs_service_ready g) (gs_current_epoch_timestamp g) (gs_current_connector_id g) (gs_user_data g)
(gs_session_info_ptr g) (gs_derived g).
Definition gs_set_service_ready (x : bool) g : GameServer D := mkGameServer
(gs_loopback_session g) (gs_current_universal_session_id g) (gs_supervisor_server_info g)
(gs_my_server_info g) (gs_connection_config g) (gs_server_sessions g) (gs_active_sessions g)
(gs_sector_posting_manager g) x (gs_current_epoch_timestamp g) (gs_current_connector_id g)
(gs_user_data g) (gs_session_info_ptr g) (gs_derived g).
Definition gs_set_current_epoch_timestamp (x : Z) g : GameServer D := mkGameServer
(gs_loopback_session g) (gs_current_universal_session_id g) (gs_supervisor_server_info g)
(gs_my_server_info g) (gs_connection_config g) (gs_server_sessions g) (gs_active_sessions g)
(gs_sector_posting_manager g) (gs_service_ready g) x (gs_current_connector_id g) (gs_user_data g)
(gs_session_info_ptr g) (gs_derived g).
Definition gs_set_current_connector_id (x : Z) g : GameServer D := mkGameServer
(gs_loopback_session g) (gs_current_universal_session_id g) (gs_supervisor_server_info g)
(gs_my_server_info g) (gs_connection_config g) (gs_server_sessions g) (gs_active_sessions g)
(gs_sector_posting_manager g) (gs_service_ready g) (gs_current_epoch_timestamp g) x (gs_user_data g)
(gs_session_info_ptr g) (gs_derived g).
Definition gs_set_user_data (x : UserData) g : GameServer D := mkGameServer
(gs_loopback_session g) (gs_current_universal_session_id g) (gs_supervisor_server_info g)
(gs_my_server_info g) (gs_connection_config g) (gs_server_sessions g) (gs_active_sessions g)
(gs_sector_posting_manager g) (gs_service_ready g) (gs_current_epoch_timestamp g)
(gs_current_connector_id g) x (gs_session_info_ptr g) (gs_derived g).
Definition gs_set_session_info_ptr (x : gmap Z SessionInfoPtr) g : GameServer D := mkGameServer
(gs_loopback_session g) (gs_current_universal_session_id g) (gs_supervisor_server_info g)
(gs_my_server_info g) (gs_connection_config g) (gs_server_sessions g) (gs_active_sessions g)
(gs_sector_posting_manager g) (gs_service_ready g) (gs_current_epoch_timestamp g)
(gs_current_connector_id g) (gs_user_data g) x (gs_derived g).
Definition gs_set_derived (x : D) g : GameServer D := mkGameServer
(gs_loopback_session g) (gs_current_universal_session_id g) (gs_supervisor_server_info g)
(gs_my_server_info g) (gs_connection_config g) (gs_server_sessions g) (gs_active_sessions g)
(gs_sector_posting_manager g) (gs_service_ready g) (gs_current_epoch_timestamp g)
(gs_current_connector_id g) (gs_user_data g) (gs_session_info_ptr g) x.
End setters.

(** What the network engine hands to a worker. *)
Record SocketContext : Type := mkSocketContext {
  ctx_session : SessionRef;
  ctx_on_user_engine : bool;
  ctx_attachment : Z;
  ctx_packet_type : option PacketType;
  ctx_error_code : Z;
  ctx_body : list Z;
}.

(** The virtual methods. *)
Record Hooks (D C : Type) : Type := mkHooks {
  hook_InitializeGameServer : Act (GameServer D) (Effect C) bool;
  hook_OnSupervisorResetMinionServer : Act (GameServer D) (Effect C) ();
  hook_OnSupervisorSectorAllocation : packet_sector_allocation_ps → Act (GameServer D) (Effect C) ();
  hook_OnClientAccepted : SessionInfoPtr → Act (GameServer D) (Effect C) ();
  hook_OnClientClosed : SessionInfoPtr → Act (GameServer D) (Effect C) ();
  hook_OnClientAbandoned : SessionInfoPtr → Act (GameServer D) (Effect C) ();
  hook_OnClientAlived : SessionInfoPtr → Act (GameServer D) (Effect C) ();
  hook_OnIntraServerConnected : IntraServerPtr → Act (GameServer D) (Effect C) ();
  hook_OnIntraServerAccepted : IntraServerPtr → Act (GameServer D) (Effect C) ();
  hook_OnIntraServerClosed : IntraServerPtr → Act (GameServer D) (Effect C) ();
  hook_OnClientData : SessionInfoPtr → SocketContext → Act (GameServer D) (Effect C) ();
  hook_OnIntraServerData : IntraServerPtr → SocketContext → Act (GameServer D) (Effect C) ();
  hook_CheckIntraServerConnectivity : ServerType → Z → bool;
  hook_CheckIntraServerSectorListening : ServerType → Z → Z → bool;
  hook_UpdateEveryTick : Z → Act (GameServer D) (Effect C) ();
}.
Arguments mkHooks {D C} _ _ _ _ _ _ _ _ _ _ _ _ _ _ _.
Arguments hook_InitializeGameServer {D C} _.
Arguments hook_OnSupervisorResetMinionServer {D C} _.
Arguments hook_OnSupervisorSectorAllocation {D C} _ _.
Arguments hook_OnClientAccepted {D C} _ _.
Arguments hook_OnClientClosed {D C} _ _.
Arguments hook_OnClientAbandoned {D C} _ _.
Arguments hook_OnClientAlived {D C} _ _.
Arguments hook_OnIntraServerConnected {D C} _ _.
Arguments hook_OnIntraServerAccepted {D C} _ _.
Arguments hook_OnIntraServerClosed {D C} _ _.
Arguments hook_OnClientData {D C} _ _ _.
Arguments hook_OnIntraServerData {D C} _ _ _.
Arguments hook_CheckIntraServerConnectivity {D C} _ _ _.
Arguments hook_CheckIntraServerSectorListening {D C} _ _ _ _.
Arguments hook_UpdateEveryTick {D C} _ _.

Section game_server.
Context {D C : Type} `{IterOrder} `{Indeterminate C} `{StructPack C}.
Variable hooks : Hooks D C.

Abbreviation M := (Act (GameServer D) (Effect C)).

(** ** Access to the tables *)

Definition with_pm (f : SectorPostingManager → SectorPostingManager * list (Effect C)) : M () :=
g ← get_state;
let '(pm, effects) := f (gs_sector_posting_manager g) in
modify (gs_set_sector_posting_manager pm) ;; emit effects.
Definition with_pm_ (f : SectorPostingManager → SectorPostingManager) : M () := with_pm (λ pm, (f pm, [])).

(** [context->session->GetUserData(UNIVERSAL_SESSION_INFO_KEY)] *)
Definition get_session_info (session : SessionRef) : M (option SessionInfoPtr) :=
g ← get_state; mret (gs_session_info_ptr g !! ses_handle session).

Definition read_info (p : SessionInfoPtr) : M UniversalSessionInfo :=
g ← get_state;
match p with
| SupervisorInfo => mret (isi_universal (gs_supervisor_server_info g))
| ActiveSession id => lift (from_option_ub "dangling UniversalSessionInfo*" (gs_active_sessions g !! id))
end.

(** [session_info->is_authorized = true] *)
Definition authorize_info (p : SessionInfoPtr) : M () :=
match p with
| SupervisorInfo => modify (λ g, gs_set_supervisor_server_info
    (isi_authorize (isi_session (gs_supervisor_server_info g)) (gs_supervisor_server_info g)) g)
| ActiveSession id => modify (λ g, gs_set_active_sessions (alter usi_authorize id (gs_active_sessions g)) g)
end.

Definition deref_session (s : option SessionRef) : M SessionRef := lift (from_option_ub "null session" s).

(** [session_info->session->CloseSession()] *)
Definition close_info (p : SessionInfoPtr) : M () :=
info ← read_info p; session ← deref_session (usi_session info); emit [CloseSession session].

Definition GetServerSession (server_id : Z) : M (option IntraServerInfo) :=
g ← get_state; mret (gs_server_sessions g !! server_id).

(** Dereferencing an [IntraServerInfo*]. *)
Definition read_server (p : IntraServerPtr) : M IntraServerInfo :=
g ← get_state;
match p with
| ServerNode id => lift (from_option_ub "dangling IntraServerInfo*" (gs_server_sessions g !! id))
| LoopbackNode => lift (from_option_ub "_loopback_session" (gs_loopback_session g))
end.

(** [HandlePacketDeserializeError] for the session of a server. *)
Definition close_server (server_session : IntraServerPtr) : M () :=
server ← read_server server_session;
session ← deref_session (isi_session server);
emit [CloseSession session].

Definition set_user_data (session : SessionRef) (key value : Z) : M () :=
modify (λ g, gs_set_user_data (SetUserData session key value (gs_user_data g)) g).

(** [NetworkEngine::RegisterConnectorSocket] numbers its connectors. *)
Definition register_connector (address : SocketAddress) (server_id : Z) : M Z :=
g ← get_state;
modify (gs_set_current_connector_id (u64 (gs_current_connector_id g + 1))) ;;
emit [RegisterConnectorSocket address server_id] ;;
mret (gs_current_connector_id g).

(** ** Who connects, who listens *)

Definition IsConnector (g : GameServer D) (server_type : ServerType) (server_id : Z) : bool :=
match gs_connection_config g !! ServerType_to_Z server_type with
| None => false
| Some config =>
    match isc_connection_policy config with
    | Connection_Conditional => hook_CheckIntraServerConnectivity hooks server_type server_id
    | Connection_Not => false
    | Connection_All =>
        if decide (server_type ≠ si_server_type (gs_my_server_info g)) then true
        else si_server_id (gs_my_server_info g) >? server_id
    end
end.

Definition ListenSector (server_type : ServerType) (server_id : Z) : M () :=
g ← get_state;
match gs_connection_config g !! ServerType_to_Z server_type with
| None => mret ()
| Some config =>
    for_each SectorGridList (λ sector_info,
      let is_listen :=
        match isc_sector_listening_policy config with
        | Listening_All => true
        | Listening_Conditional =>
            hook_CheckIntraServerSectorListening hooks server_type server_id (sector_info_id sector_info)
        | Listening_Not => false
        end in
      if is_listen then with_pm_ (AddSectorListener (sector_info_id sector_info) server_id) else mret ())
end.

(** ** Session events *)

Definition register_request (g : GameServer D) : Packet C :=
pkt_register_minion_server_rq (mk_register_minion_server_rq
  (si_server_type (gs_my_server_info g)) (si_address (gs_my_server_info g))).

Definition authorize_request (g : GameServer D) : Packet C :=
pkt_authorize_server_rq (mk_authorize_server_rq
  (si_server_type (gs_my_server_info g)) (si_server_id (gs_my_server_info g))).

(** [_active_sessions[_current_universal_session_id++]], its session and id
  set, and the pointer to it stored with the session. *)
Definition new_active_session (session : SessionRef) : M Z :=
g ← get_state;
let session_id := gs_current_universal_session_id g in
let info := default new_UniversalSessionInfo (gs_active_sessions g !! session_id) in
modify (gs_set_current_universal_session_id (u64 (session_id + 1))) ;;
modify (λ g, gs_set_active_sessions (<[session_id := mkUniversalSessionInfo session_id (Some session)
  (usi_is_authorized info) (usi_is_client info)]> (gs_active_sessions g)) g) ;;
modify (λ g, gs_set_session_info_ptr
  (<[ses_handle session := ActiveSession session_id]> (gs_session_info_ptr g)) g) ;;
mret session_id.

Definition OnSocketSessionConnected (context : SocketContext) : M () :=
let session := ctx_session context in
check "context->session->GetNetworkEngine() == _server->_intra_network_engine"
  (negb (ctx_on_user_engine context)) ;;
intra_server_info ← GetServerSession (ctx_attachment context);
match intra_server_info with
| None => emit [CloseSession session]
| Some info =>
    if decide (si_server_type (isi_server_info info) = ServerType_Supervisor) then
      modify (λ g, gs_set_supervisor_server_info
        (isi_set_session (Some session) (gs_supervisor_server_info g)) g) ;;
      modify (λ g, gs_set_server_sessions
        (<[SUPERVISOR_SERVER_ID := gs_supervisor_server_info g]> (gs_server_sessions g)) g) ;;
      modify (λ g, gs_set_active_sessions
        (<[usi_universal_session_id (isi_universal (gs_supervisor_server_info g)) :=
           isi_universal (gs_supervisor_server_info g)]> (gs_active_sessions g)) g) ;;
      g ← get_state;
      (if gs_service_ready g then
         let '(sectors, pm) := GetOwnershipSectors (si_server_id (gs_my_server_info g))
                                 (gs_sector_posting_manager g) in
         modify (gs_set_sector_posting_manager pm) ;;
         emit [Send session (pkt_recovery_minion_server_rq (mk_recovery_minion_server_rq
           (uninit_auth_key (C:=C)) (gs_my_server_info g) (iter_set sectors)
           ((λ e : Z * IntraServerInfo, isi_server_info e.2) <$> iter_map (gs_server_sessions g)))) ErrorCode_None]
       else emit [Send session (register_request g) ErrorCode_None]) ;;
      modify (λ g, gs_set_session_info_ptr (<[ses_handle session := SupervisorInfo]> (gs_session_info_ptr g)) g)
    else
      new_active_session session ;;
      g ← get_state;
      emit [Send session (authorize_request g) ErrorCode_None]
end.

Definition OnSocketSessionAccepted (context : SocketContext) : M () :=
let session := ctx_session context in
session_id ← new_active_session session;
if ctx_on_user_engine context then
  g ← get_state;
  if negb (gs_service_ready g) then emit [CloseSession session]
  else
    modify (λ g, gs_set_active_sessions (alter (λ u, mkUniversalSessionInfo (usi_universal_session_id u)
      (usi_session u) (usi_is_authorized u) true) session_id (gs_active_sessions g)) g) ;;
    hook_OnClientAccepted hooks (ActiveSession session_id)
else mret ().

(** The body of [OnSocketSessionClosed] between the [DEFER] and its effect. *)
Definition closed_body (session_info : SessionInfoPtr) : M () :=
info ← read_info session_info;
with_pm (UnsetAll (usi_universal_session_id info)) ;;
if usi_is_client info then hook_OnClientClosed hooks session_info
else
  session ← deref_session (usi_session info);
  g ← get_state;
  let server_id := GetUserData session SERVER_ID_KEY (gs_user_data g) in
  server_session ← GetServerSession server_id;
  match server_session with
  | None => mret ()
  | Some server =>
      with_pm (UnsetAll (si_server_id (isi_server_info server))) ;;
      if decide (si_server_type (isi_server_info server) = ServerType_Supervisor)
      then modify (λ g, gs_set_supervisor_server_info (isi_set_session None (gs_supervisor_server_info g)) g)
      else hook_OnIntraServerClosed hooks (ServerNode server_id)
  end.

Definition OnSocketSessionClosed (context : SocketContext) : M () :=
session_info ← get_session_info (ctx_session context);
match session_info with
| None => mret ()
| Some session_info =>
    emit [CleanUpBuffer (ctx_session context)] ;;
    closed_body session_info ;;
    info ← read_info session_info;
    modify (λ g, gs_set_active_sessions (delete (usi_universal_session_id info) (gs_active_sessions g)) g)
end.

Definition OnSocketSessionAbandoned (context : SocketContext) : M () :=
session_info ← get_session_info (ctx_session context);
match session_info with
| None => mret ()
| Some session_info =>
    info ← read_info session_info;
    if usi_is_client info then hook_OnClientAbandoned hooks session_info else mret ()
end.

Definition OnSocketSessionAlived (context : SocketContext) : M () :=
session_info ← get_session_info (ctx_session context);
match session_info with
| None => mret ()
| Some session_info =>
    info ← read_info session_info;
    if usi_is_client info then hook_OnClientAlived hooks session_info else mret ()
end.

(** ** Reset *)

Definition GameServer_Reset : M () :=
g ← get_state;
for_each (iter_map (gs_server_sessions g)) (λ '(_, server),
  (if isi_socket_connector_id server >? 0
   then emit [UnregisterConnectorSocket (isi_socket_connector_id server)] else mret ()) ;;
  with_pm (UnsetAll (si_server_id (isi_server_info server)))) ;;
for_each (iter_map (gs_active_sessions g)) (λ '(_, info),
  session ← deref_session (usi_session info); emit [CloseSession session]) ;;
modify (gs_set_active_sessions ∅) ;;
modify (gs_set_server_sessions ∅) ;;
with_pm (UnsetAll (si_server_id (gs_my_server_info g))) ;;
modify (gs_set_service_ready false) ;;
hook_OnSupervisorResetMinionServer hooks ;;
modify (λ g, gs_set_server_sessions
  (<[SUPERVISOR_SERVER_ID := gs_supervisor_server_info g]> (gs_server_sessions g)) g).

(** ** Packets between servers *)

Definition on_authorize_server_rq (context : SocketContext) (session_info : SessionInfoPtr)
  (packet : packet_authorize_server_rq) : M () :=
let session := ctx_session context in
g ← get_state;
check "_server->_my_server_info.server_id != packet.server_id"
  (negb (si_server_id (gs_my_server_info g) =? asrq_server_id packet)) ;;
let response := pkt_authorize_server_rs (mk_authorize_server_rs (si_server_id (gs_my_server_info g))) in
server_session ← GetServerSession (asrq_server_id packet);
match server_session with
| None => emit [Send session response UnknownServerId]
| Some server =>
    if isi_is_connector server then close_info session_info
    else
      modify (λ g, gs_set_server_sessions
        (alter (isi_authorize (Some session)) (asrq_server_id packet) (gs_server_sessions g)) g) ;;
      authorize_info session_info ;;
      with_pm_ (LinkSession (asrq_server_id packet) (Some session)) ;;
      set_user_data session SERVER_ID_KEY (asrq_server_id packet) ;;
      ListenSector (si_server_type (isi_server_info server)) (asrq_server_id packet) ;;
      hook_OnIntraServerAccepted hooks (ServerNode (asrq_server_id packet)) ;;
      emit [Send session response ErrorCode_None]
end.

Definition on_authorize_server_rs (context : SocketContext) (session_info : SessionInfoPtr)
  (packet : packet_authorize_server_rs) : M () :=
let session := ctx_session context in
g ← get_state;
if ctx_error_code context =? ErrorCode_to_Z UnknownServerId
then emit [Send session (authorize_request g) ErrorCode_None]
else
  check "_server->_my_server_info.server_id != packet.server_id"
    (negb (si_server_id (gs_my_server_info g) =? asrs_server_id packet)) ;;
  server_session ← GetServerSession (asrs_server_id packet);
  match server_session with
  | None => close_info session_info
  | Some server =>
      if negb (isi_is_connector server) then close_info session_info
      else
        modify (λ g, gs_set_server_sessions
          (alter (isi_authorize (Some session)) (asrs_server_id packet) (gs_server_sessions g)) g) ;;
        authorize_info session_info ;;
        set_user_data session SERVER_ID_KEY (asrs_server_id packet) ;;
        with_pm_ (LinkSession (asrs_server_id packet) (Some session)) ;;
        ListenSector (si_server_type (isi_server_info server)) (asrs_server_id packet) ;;
        hook_OnIntraServerConnected hooks (ServerNode (asrs_server_id packet))
  end.

Definition on_register_minion_server_rs (packet : packet_register_minion_server_rs) : M () :=
let server_info := rmrs_server_info packet in
modify (gs_set_my_server_info server_info) ;;
g ← get_state;
loopback ← lift (from_option_ub "_loopback_session" (gs_loopback_session g));
modify (gs_set_loopback_session (Some (isi_set_server_info server_info loopback))) ;;
with_pm_ (LinkSession (si_server_id server_info) (isi_session loopback)) ;;
modify (gs_set_current_universal_session_id
  (u64 (si_server_id server_info * 1000000000000000 + 100000000000001))) ;;
modify (gs_set_service_ready true).

Definition on_recovery_minion_server_rs (context : SocketContext) : M () :=
if negb (ctx_error_code context =? ErrorCode_to_Z ErrorCode_None) then
  GameServer_Reset ;;
  g ← get_state;
  emit [Send (ctx_session context) (register_request g) ErrorCode_None]
else mret ().

Definition leave_server (leaved_server : ServerInfo) : M () :=
let server_id := si_server_id leaved_server in
g ← get_state;
emit [UnregisterConnectorSocket
        (isi_socket_connector_id (default new_IntraServerInfo (gs_server_sessions g !! server_id)))] ;;
modify (λ g, gs_set_server_sessions (delete server_id (gs_server_sessions g)) g) ;;
with_pm (UnsetAll server_id).

Definition join_server (joined_server : ServerInfo) : M () :=
let server_id := si_server_id joined_server in
g ← get_state;
if server_id =? si_server_id (gs_my_server_info g) then
  loopback ← lift (from_option_ub "_loopback_session" (gs_loopback_session g));
  modify (λ g, gs_set_server_sessions (<[server_id := loopback]> (gs_server_sessions g)) g)
else
  let old := default new_IntraServerInfo (gs_server_sessions g !! server_id) in
  let is_connector := IsConnector g (si_server_type joined_server) server_id in
  connector_id ← (if is_connector then register_connector (si_address joined_server) server_id
                  else mret (isi_socket_connector_id old));
  modify (λ g, gs_set_server_sessions (<[server_id := mkIntraServerInfo (isi_universal old) joined_server
    connector_id is_connector]> (gs_server_sessions g)) g).

Definition on_update_intra_server_info_ps (packet : packet_update_intra_server_info_ps) : M () :=
for_each (uips_leaved_server_info packet) leave_server ;;
for_each (uips_joined_server_info packet) join_server.

Definition on_sector_allocation_ps (packet : packet_sector_allocation_ps) : M () :=
for_each (saps_allocation_info packet) (λ info,
  with_pm_ (AllocateSector (sai_sector_id info) (si_server_id (sai_server_info info)))) ;;
hook_OnSupervisorSectorAllocation hooks packet.

(** The end of [OnSocketSessionData]: other packets need an authorised
  session of a known server. *)
Definition on_authorized_data (context : SocketContext) (session_info : SessionInfoPtr) : M () :=
info ← read_info session_info;
if negb (usi_is_authorized info) then close_info session_info
else
  session ← deref_session (usi_session info);
  g ← get_state;
  let server_id := GetUserData session SERVER_ID_KEY (gs_user_data g) in
  server_session ← GetServerSession server_id;
  match server_session with
  | None => emit [CloseSession (ctx_session context)]
  | Some _ => hook_OnIntraServerData hooks (ServerNode server_id) context
  end.

Definition OnSocketSessionData (context : SocketContext) : M () :=
ptr ← get_session_info (ctx_session context);
session_info ← lift (from_option_ub "null UniversalSessionInfo*" ptr);
info ← read_info session_info;
g ← get_state;
if usi_is_client info then
  if negb (gs_service_ready g) then emit [CloseSession (ctx_session context)]
  else hook_OnClientData hooks session_info context
else
  let body := ctx_body context in
  match ctx_packet_type context with
  | Some PacketType_authorize_server_rq =>
      match DeserializePacketBody PacketType_authorize_server_rq body with
      | Some (pkt_authorize_server_rq packet) => on_authorize_server_rq context session_info packet
      | _ => close_info session_info
      end
  | Some PacketType_authorize_server_rs =>
      match DeserializePacketBody PacketType_authorize_server_rs body with
      | Some (pkt_authorize_server_rs packet) => on_authorize_server_rs context session_info packet
      | _ => close_info session_info
      end
  | Some PacketType_register_minion_server_rs =>
      match DeserializePacketBody PacketType_register_minion_server_rs body with
      | Some (pkt_register_minion_server_rs packet) => on_register_minion_server_rs packet
      | _ => close_info session_info
      end
  | Some PacketType_recovery_minion_server_rs =>
      match DeserializePacketBody PacketType_recovery_minion_server_rs body with
      | Some (pkt_recovery_minion_server_rs _) => on_recovery_minion_server_rs context
      | _ => close_info session_info
      end
  | Some PacketType_update_intra_server_info_ps =>
      match DeserializePacketBody PacketType_update_intra_server_info_ps body with
      | Some (pkt_update_intra_server_info_ps packet) => on_update_intra_server_info_ps packet
      | _ => close_info session_info
      end
  | Some PacketType_sector_allocation_ps =>
      match DeserializePacketBody PacketType_sector_allocation_ps body with
      | Some (pkt_sector_allocation_ps packet) => on_sector_allocation_ps packet
      | _ => close_info session_info
      end
  | _ => on_authorized_data context session_info
  end.

(** ** Start and tick *)

(** [Initialize], for a server whose engines were not set before; the
  loopback session is the argument. *)
Definition GameServer_Initialize (my_server_type : ServerType) (my_intra_server_address : SocketAddress)
  (intra_server_config : list IntraServerConfig) (supervisor_address : SocketAddress)
  (loopback : SessionRef) : M bool :=
modify (gs_set_my_server_info (mkServerInfo my_server_type 0 my_intra_server_address)) ;;
modify (gs_set_sector_posting_manager new_SectorPostingManager) ;;
modify (λ g, gs_set_supervisor_server_info (isi_set_server_info
  (mkServerInfo ServerType_Supervisor SUPERVISOR_SERVER_ID supervisor_address) (gs_supervisor_server_info g)) g) ;;
g ← get_state;
match foldl (λ m config, m ≫= λ m,
        match m !! ServerType_to_Z (isc_server_type config) with
        | Some _ => None
        | None => Some (<[ServerType_to_Z (isc_server_type config) := config]> m)
        end) (Some (gs_connection_config g)) intra_server_config with
| None => mret false
| Some connection_config =>
    modify (gs_set_connection_config connection_config) ;;
    modify (gs_set_loopback_session (Some (mkIntraServerInfo
      (mkUniversalSessionInfo 1 (Some loopback) true false) new_ServerInfo 0 false))) ;;
    modify (λ g, let i := gs_supervisor_server_info g in gs_set_supervisor_server_info
      (mkIntraServerInfo (mkUniversalSessionInfo 2 (isi_session i) true (usi_is_client (isi_universal i)))
         (isi_server_info i) (isi_socket_connector_id i) (isi_is_connector i)) g) ;;
    register_connector supervisor_address SUPERVISOR_SERVER_ID ;;
    modify (λ g, gs_set_server_sessions
      (<[SUPERVISOR_SERVER_ID := gs_supervisor_server_info g]> (gs_server_sessions g)) g) ;;
    hook_InitializeGameServer hooks
end.

Definition GameServer_UpdateEveryTick (epoch current_time : Z) : M () :=
modify (gs_set_current_epoch_timestamp epoch) ;;
hook_UpdateEveryTick hooks current_time ;;
emit [FlushPackets false] ;;
emit [ProcessLoopbackPacket].
End game_server.
