(* ===== verification/Play.v ===== *)
(** * Play server

    [play/play/PlayWorker.h], [PlayWorker.cpp] and [play/play/PacketHandler.cpp]:
    the game server that runs the world for the sectors allocated to it. *)

From S2P Require Import Prelude Coordinate SectorGrid Fixture Packet Protocol Sampling.
From S2P Require Import PacketThrottler SectorPosting SectorSystem World Session Supervisor.
From S2P Require Import GameServer.

Open Scope Z_scope.

(** [play.cpp]: what [main] passes to [Initialize]. *)
Definition play_config : list IntraServerConfig :=
  [ mkIntraServerConfig ServerType_Play Connection_All Listening_Not;
    mkIntraServerConfig ServerType_Agency Connection_Not Listening_All ].

Section play.
Context {C : Type} `{CoordinateUnit C} `{IterOrder} `{Indeterminate C} `{StructPack C}.
(** The clock, read by the world at named places. *)
Variable clock : string → Z → Z.

Abbreviation M := (Act (GameServer (World C)) (Effect C)).

(** [_world->...]: the world is part of the server's state; it reads the
  posting manager the two share. *)
Definition run_world {A} (f : SectorPostingManager → Act (World C) (Effect C) A) : M A :=
g ← get_state;
match f (gs_sector_posting_manager g) (gs_derived g) with
| Ok (a, w, effects) => modify (gs_set_derived w) ;; emit effects ;; mret a
| Err e => fail e
end.

(** ** PacketHandler.cpp *)

Definition OnAgencySpawnCharacterReq (server_session : IntraServerPtr) (packet : packet_spawn_character_rq C) : M () :=
server ← read_server server_session;
session ← deref_session (isi_session server);
run_world (λ pm, SpawnCharacter pm clock session (si_server_id (isi_server_info server)) packet).

Definition OnAgencyRemoveCharacterReq (server_session : IntraServerPtr) (packet : packet_remove_character_rq) : M () :=
server ← read_server server_session;
session ← deref_session (isi_session server);
run_world (λ pm, RemoveCharacter pm session (si_server_id (isi_server_info server)) packet).

Definition OnAgencyUserMoveReq (server_session : IntraServerPtr) (packet : packet_character_move_rq C) : M () :=
server ← read_server server_session;
session ← deref_session (isi_session server);
run_world (λ pm, MoveObject pm session (si_server_id (isi_server_info server)) packet).

Definition OnPlayCreateObservingObjectReq (packet : packet_create_observing_object_rq C) : M () :=
run_world (λ _, CreateObservingObject packet).

Definition OnPlayRemoveObservingObjectReq (packet : packet_remove_observing_object_rq) : M () :=
run_world (λ _, RemoveObservingObject packet).

Definition OnPlayPromoteObjectReq (packet : packet_promote_object_rq C) : M () :=
run_world (λ pm, PromoteObservingObject pm clock packet).

(** ** PlayWorker.cpp *)

Definition Play_InitializeGameServer : M bool := modify (gs_set_derived new_World) ;; mret true.

Definition Play_Update (current_time delta_time : Z) : M bool :=
run_world (λ pm, World_Update pm clock current_time delta_time) ;;
emit [FlushPackets true] ;;
mret true.

Definition Play_OnSupervisorResetMinionServer : M () := run_world (λ _, ClearSector).

Definition Play_OnSupervisorSectorAllocation (packet : packet_sector_allocation_ps) : M () :=
g ← get_state;
let my_id := si_server_id (gs_my_server_info g) in
for_each (saps_deallocation_info packet) (λ info,
  if si_server_id (sai_server_info info) =? my_id
  then run_world (λ _, RemoveSector (sai_sector_id info)) else mret ()) ;;
for_each (saps_allocation_info packet) (λ info,
  if si_server_id (sai_server_info info) =? my_id
  then run_world (λ _, AddSector (si_server_id (sai_server_info info)) (sai_sector_id info)) else mret ()).

(** The list of a sector's objects; the vital values are not filled in. *)
Definition sector_object_list (sector_id : Z) (sector : SectorSystem C) : packet_object_list_ps C :=
mk_object_list_ps sector_id
  ((λ e : Z * Fixture C, mkPacketObjectInfo (fx_id e.2) sector_id ObjectType_Character e.2 uninit_Vital)
     <$> iter_map (GetAllFixtures sector)).

Definition Play_OnIntraServerAccepted (server_session : IntraServerPtr) : M () :=
server ← read_server server_session;
if decide (si_server_type (isi_server_info server) = ServerType_Agency) then
  all_sectors ← run_world (λ _, GetAllSectors);
  for_each (iter_map all_sectors) (λ '(sector_id, sector),
    match sector with
    | None => mret ()
    | Some sector =>
        session ← deref_session (isi_session server);
        emit [Post session (pkt_object_list_ps (sector_object_list sector_id sector)) Throttle]
    end)
else mret ().

Definition Play_OnIntraServerData (server_session : IntraServerPtr) (context : SocketContext) : M () :=
let body := ctx_body context in
match ctx_packet_type context with
| Some PacketType_spawn_character_rq =>
    match DeserializePacketBody PacketType_spawn_character_rq body with
    | Some (pkt_spawn_character_rq packet) => OnAgencySpawnCharacterReq server_session packet
    | _ => close_server server_session
    end
| Some PacketType_character_move_rq =>
    match DeserializePacketBody PacketType_character_move_rq body with
    | Some (pkt_character_move_rq packet) => OnAgencyUserMoveReq server_session packet
    | _ => close_server server_session
    end
| Some PacketType_remove_character_rq =>
    match DeserializePacketBody PacketType_remove_character_rq body with
    | Some (pkt_remove_character_rq packet) => OnAgencyRemoveCharacterReq server_session packet
    | _ => close_server server_session
    end
| Some PacketType_create_observing_object_rq =>
    match DeserializePacketBody PacketType_create_observing_object_rq body with
    | Some (pkt_create_observing_object_rq packet) => OnPlayCreateObservingObjectReq packet
    | _ => close_server server_session
    end
| Some PacketType_remove_observing_object_rq =>
    match DeserializePacketBody PacketType_remove_observing_object_rq body with
    | Some (pkt_remove_observing_object_rq packet) => OnPlayRemoveObservingObjectReq packet
    | _ => close_server server_session
    end
| Some PacketType_promote_object_rq =>
    match DeserializePacketBody PacketType_promote_object_rq body with
    | Some (pkt_promote_object_rq packet) => OnPlayPromoteObjectReq packet
    | _ => close_server server_session
    end
| _ => mret ()
end.

Definition play_hooks : Hooks (World C) C := mkHooks
Play_InitializeGameServer Play_OnSupervisorResetMinionServer Play_OnSupervisorSectorAllocation
(λ _, mret ()) (λ _, mret ()) (λ _, mret ()) (λ _, mret ())
(λ _, mret ()) Play_OnIntraServerAccepted (λ _, mret ())
(λ _ _, mret ()) Play_OnIntraServerData (λ _ _, true) (λ _ _ _, true) (λ _, mret ()).
End play.
