(* ===== verification/Agency.v ===== *)
(** * Agency server

    [agency/agency/AgencyWorker.h], [AgencyWorker.cpp] and
    [agency/agency/PacketHandler.cpp]: the game server the clients connect to.
    It forwards a client's requests to the play server that owns the client's
    sector, and passes what the play servers report on to the clients that
    listen to the sector. *)

From S2P Require Import Prelude Coordinate SectorGrid Fixture Packet Protocol Sampling.
From S2P Require Import PacketThrottler SectorPosting Session Supervisor GameServer.

Open Scope Z_scope.

(** [agency.cpp]: what [main] passes to [Initialize]. *)
Definition agency_config : list IntraServerConfig :=
  [ mkIntraServerConfig ServerType_Play Connection_All Listening_Not ].

Definition InitialSectorId : Z := sector_info_id CenterSector.

(** [AgencySessionValue].  The value under [Nickname] is a pointer to a string
    of the session. *)
Definition AgencySessionValue_UserId : Z := 0.
Definition AgencySessionValue_ObjectId : Z := 1.
Definition AgencySessionValue_SectorId : Z := 2.

(** The members of [AgencyWorker] and of its [PacketHandler]. *)
Record AgencyData (C : Type) : Type := mkAgencyData {
  ag_object_sessions : gmap Z SessionInfoPtr;
  ag_object_cache : gmap Z (gmap Z (Fixture C));
  ag_nicknames : gmap Z string;
  ag_a1 : Z;
  ag_a2 : Z;
}.
Arguments mkAgencyData {C} _ _ _ _ _.
Arguments ag_object_sessions {C} _.
Arguments ag_object_cache {C} _.
Arguments ag_nicknames {C} _.
Arguments ag_a1 {C} _.
Arguments ag_a2 {C} _.

Section agency.
Context {C : Type} `{CoordinateUnit C} `{IterOrder} `{Indeterminate C} `{StructPack C}.

Abbreviation M := (Act (GameServer (AgencyData C)) (Effect C)).

Definition new_AgencyData : AgencyData C := mkAgencyData ∅ ∅ ∅ 0 0.

(** [GetSectorFixtureRectangle(InitialSectorId).Center()], a constant. *)
Definition InitialCharacterPosition : Vector2 C :=
Center (default (mkFixtureRectangle (c_of_Z 0) (c_of_Z 0) (c_of_Z 0) (c_of_Z 0))
          (GetSectorFixtureRectangle InitialSectorId)).

Definition modify_agency (f : AgencyData C → AgencyData C) : M () :=
modify (λ g, gs_set_derived (f (gs_derived g)) g).
Definition ag_set_object_sessions x (a : AgencyData C) : AgencyData C :=
mkAgencyData x (ag_object_cache a) (ag_nicknames a) (ag_a1 a) (ag_a2 a).
Definition ag_set_object_cache x (a : AgencyData C) : AgencyData C :=
mkAgencyData (ag_object_sessions a) x (ag_nicknames a) (ag_a1 a) (ag_a2 a).
Definition ag_set_nicknames x (a : AgencyData C) : AgencyData C :=
mkAgencyData (ag_object_sessions a) (ag_object_cache a) x (ag_a1 a) (ag_a2 a).

Definition sector_objects (sector_id : Z) (a : AgencyData C) : gmap Z (Fixture C) :=
default ∅ (ag_object_cache a !! sector_id).
Definition set_sector_objects (sector_id : Z) (m : gmap Z (Fixture C)) : M () :=
modify_agency (λ a, ag_set_object_cache (<[sector_id := m]> (ag_object_cache a)) a).

Definition send_to_sector (packet : Packet C) (sector_id : Z) : M () :=
g ← get_state; emit (SendToSector (gs_sector_posting_manager g) packet sector_id false).

(** [GetSectorOwnerSession], which may insert default entries. *)
Definition sector_owner_session (sector_id : Z) : M (option SessionRef) :=
g ← get_state;
let '(session, pm) := GetSectorOwnerSession sector_id (gs_sector_posting_manager g) in
modify (gs_set_sector_posting_manager pm) ;; mret session.

Definition session_of (p : SessionInfoPtr) : M SessionRef :=
info ← read_info p; deref_session (usi_session info).

(** ** AgencyWorker.cpp *)

Definition Agency_Update (current_time delta_time : Z) : M bool := emit [FlushPackets true] ;; mret true.

Definition spawn_request (user_id : Z) : packet_spawn_character_rq C :=
mk_spawn_character_rq user_id EmptyString
  (oi_set_fixture (set_size (mkVector2 (c_of_Z 100) (c_of_Z 100))
     (set_position InitialCharacterPosition uninit_Fixture))
    (oi_set_sector_id InitialSectorId uninit_PacketObjectInfo)).

Definition Agency_OnClientAccepted (client_session : SessionInfoPtr) : M () :=
info ← read_info client_session;
play_session ← sector_owner_session InitialSectorId;
match play_session with
| None => close_info client_session
| Some play_session =>
    let user_id := usi_universal_session_id info in
    with_pm_ (LinkSession user_id (usi_session info)) ;;
    emit [Post play_session (pkt_spawn_character_rq (spawn_request user_id)) Throttle]
end.

Definition Agency_OnClientClosed (client_session : SessionInfoPtr) : M () :=
info ← read_info client_session;
session ← deref_session (usi_session info);
g ← get_state;
let object_id := GetUserData session AgencySessionValue_ObjectId (gs_user_data g) in
let sector_id := GetUserData session AgencySessionValue_SectorId (gs_user_data g) in
modify_agency (λ a, mkAgencyData (ag_object_sessions a) (ag_object_cache a) (ag_nicknames a)
  (u32 (ag_a1 a + 1)) (ag_a2 a)) ;;
if object_id =? 0 then mret ()
else
  modify_agency (λ a, mkAgencyData (ag_object_sessions a) (ag_object_cache a) (ag_nicknames a)
    (ag_a1 a) (u32 (ag_a2 a + 1))) ;;
  let packet := mk_remove_character_rq (GetUserData session AgencySessionValue_UserId (gs_user_data g))
    sector_id object_id (ind_bool "packet.to_owner") in
  g ← get_state;
  emit (SendToSectorOwner (gs_sector_posting_manager g) (pkt_remove_character_rq packet) sector_id) ;;
  with_pm (UnsetAll (usi_universal_session_id info)) ;;
  modify_agency (λ a, ag_set_object_sessions (delete object_id (ag_object_sessions a)) a) ;;
  modify_agency (λ a, ag_set_nicknames (delete (ses_handle session) (ag_nicknames a)) a).

(** Only [GetOwnershipSectors], whose result is not used. *)
Definition Agency_OnIntraServerClosed (server_session : IntraServerPtr) : M () :=
g ← get_state;
match server_session with
| LoopbackNode => mret ()
| ServerNode id =>
    server ← lift (from_option_ub "dangling IntraServerInfo*" (gs_server_sessions g !! id));
    if decide (si_server_type (isi_server_info server) = ServerType_Play)
    then with_pm_ (λ pm, (GetOwnershipSectors (si_server_id (isi_server_info server)) pm).2)
    else mret ()
end.

(** ** PacketHandler.cpp *)

(** The members of [object] are set one by one; [vital = {}] is zero. *)
Definition listed_object (epoch : Z) (e : Z * Fixture C) : PacketObjectInfo C :=
let fixture := set_personal_delta_time 0 e.2 in
let fixture := if decide (fx_direction fixture ≠ Direction_Max)
  then set_personal_delta_time (u16 (epoch - fx_last_transform_time fixture)) fixture else fixture in
mkPacketObjectInfo e.1 (fx_sector_id e.2) ObjectType_Character fixture (mkVital 0 0 0).

Definition MakeObjectListPacket (sector_id : Z) : M (packet_object_list_ps C) :=
g ← get_state;
let objects := sector_objects sector_id (gs_derived g) in
set_sector_objects sector_id objects ;;
mret (mk_object_list_ps sector_id (listed_object (gs_current_epoch_timestamp g) <$> iter_map objects)).

Definition OnUserMoveReq (session_info : SessionInfoPtr) (packet : packet_character_move_rq C) : M () :=
session ← session_of session_info;
g ← get_state;
let current_sector_id := GetUserData session AgencySessionValue_SectorId (gs_user_data g) in
let object_id := GetUserData session AgencySessionValue_ObjectId (gs_user_data g) in
play_session ← sector_owner_session current_sector_id;
match play_session with
| None => close_info session_info
| Some play_session =>
    emit [Post play_session (pkt_character_move_rq (mk_character_move_rq current_sector_id object_id
      (cmrq_starting_position packet) (cmrq_direction packet) true)) Immediate]
end.

(** [Fixture& fixture = sector_objects[object_id]] value-initialises. *)
Definition cached_fixture (sector_id object_id : Z) (a : AgencyData C) : Fixture C :=
default new_Fixture (sector_objects sector_id a !! object_id).

Definition moved_fixture (direction : Direction) (position : Vector2 C) (epoch : Z) (f : Fixture C) : Fixture C :=
set_last_transform_time epoch (set_position position (set_direction direction f)).

Definition OnPlayMoveCharacterRes (error_code : Z) (packet : packet_character_move_rs C) : M () :=
if negb (error_code =? ErrorCode_to_Z ErrorCode_None) then mret ()
else
  g ← get_state;
  match ag_object_sessions (gs_derived g) !! cmrs_object_id packet with
  | None => mret ()
  | Some user_session =>
      let sector_id := cmrs_sector_id packet in
      let object_id := cmrs_object_id packet in
      set_sector_objects sector_id (<[object_id := moved_fixture (cmrs_direction packet)
        (cmrs_starting_position packet) (gs_current_epoch_timestamp g)
        (cached_fixture sector_id object_id (gs_derived g))]> (sector_objects sector_id (gs_derived g))) ;;
      info ← read_info user_session;
      session ← deref_session (usi_session info);
      emit [Send session (pkt_character_move_rs packet) ErrorCode_None] ;;
      emit (SendToSectorWithout (gs_sector_posting_manager g) (usi_universal_session_id info)
        (pkt_object_move_ps (mk_object_move_ps sector_id object_id (cmrs_starting_position packet)
          (cmrs_direction packet))) sector_id false)
  end.

Definition OnPlaySpawnCharacterRes (server_session : IntraServerPtr) (packet : packet_spawn_character_rs C) : M () :=
g ← get_state;
let info0 := sprs_object_info packet in
let fixture := set_last_transform_time (gs_current_epoch_timestamp g) (oi_fixture info0) in
let object_info := oi_set_fixture fixture info0 in
let sector_id := oi_sector_id object_info in
let object_id := oi_object_id object_info in
set_sector_objects sector_id (<[object_id := fixture]> (sector_objects sector_id (gs_derived g))) ;;
match gs_active_sessions g !! sprs_user_id packet with
| None =>
    server ← read_server server_session;
    session ← deref_session (isi_session server);
    emit [Send session (pkt_remove_character_rs (mk_remove_character_rs (sprs_user_id packet) sector_id object_id))
            ErrorCode_None]
| Some client =>
    client_session ← deref_session (usi_session client);
    set_user_data client_session AgencySessionValue_SectorId sector_id ;;
    modify_agency (λ a, ag_set_nicknames (<[ses_handle client_session := sprs_nickname packet]> (ag_nicknames a)) a) ;;
    set_user_data client_session AgencySessionValue_UserId (sprs_user_id packet) ;;
    set_user_data client_session AgencySessionValue_ObjectId object_id ;;
    modify_agency (λ a, ag_set_object_sessions
      (<[object_id := ActiveSession (sprs_user_id packet)]> (ag_object_sessions a)) a) ;;
    send_to_sector (pkt_create_object_ps (mk_create_object_ps object_info)) sector_id ;;
    with_pm_ (AddSectorListener sector_id (sprs_user_id packet)) ;;
    emit [Send client_session (pkt_game_enter_request_rs
            (mk_game_enter_request_rs (sprs_nickname packet) object_info)) ErrorCode_None] ;;
    object_push ← MakeObjectListPacket sector_id;
    emit [Send client_session (pkt_object_list_ps object_push) ErrorCode_None]
end.

Definition OnPlayRemoveCharacterRes (packet : packet_remove_character_rs) : M () :=
g ← get_state;
set_sector_objects (rcs_sector_id packet)
  (delete (rcs_object_id packet) (sector_objects (rcs_sector_id packet) (gs_derived g))) ;;
send_to_sector (pkt_remove_object_ps (mk_remove_object_ps (rcs_sector_id packet) (rcs_object_id packet) 0))
  (rcs_sector_id packet).

(** Declared and defined, but no packet case calls it. *)
Definition OnPlayObjectListPush (now : Z) (packet : packet_object_list_ps C) : M () :=
let objects := (λ o, oi_set_fixture (set_last_transform_time now (oi_fixture o)) o) <$> olps_object_list packet in
set_sector_objects (olps_sector_id packet)
  (foldl (λ m o, <[oi_object_id o := oi_fixture o]> m) ∅ objects) ;;
send_to_sector (pkt_object_list_ps (mk_object_list_ps (olps_sector_id packet) objects)) (olps_sector_id packet).

Definition OnPlayObjectMovePush (packet : packet_object_move_ps C) : M () :=
g ← get_state;
let sector_id := omps_sector_id packet in
let object_id := omps_object_id packet in
set_sector_objects sector_id (<[object_id := moved_fixture (omps_direction packet)
  (omps_starting_position packet) (gs_current_epoch_timestamp g)
  (cached_fixture sector_id object_id (gs_derived g))]> (sector_objects sector_id (gs_derived g))) ;;
send_to_sector (pkt_object_move_ps packet) sector_id.

Definition OnPlayObjectCreatePush (packet : packet_create_object_ps C) : M () :=
g ← get_state;
let info := cops_object_info packet in
set_sector_objects (oi_sector_id info) (<[oi_object_id info :=
  set_last_transform_time (gs_current_epoch_timestamp g) (oi_fixture info)]>
  (sector_objects (oi_sector_id info) (gs_derived g))) ;;
send_to_sector (pkt_create_object_ps packet) (oi_sector_id info).

Definition OnPlayObjectRemovePush (packet : packet_remove_object_ps) : M () :=
g ← get_state;
set_sector_objects (rops_sector_id packet)
  (delete (rops_object_id packet) (sector_objects (rops_sector_id packet) (gs_derived g))) ;;
send_to_sector (pkt_remove_object_ps packet) (rops_sector_id packet).

Definition Agency_OnPlayPromoteObjectReq (packet : packet_promote_object_rq C) : M () :=
let info := porq_object_info packet in
let origin := porq_origin_sector_id packet in
let dest := oi_sector_id info in
let object_id := oi_object_id info in
departing_play_session ← sector_owner_session dest;
origin_play_session ← sector_owner_session origin;
match departing_play_session, origin_play_session with
| Some _, Some _ =>
    g ← get_state;
    set_sector_objects origin (sector_objects origin (gs_derived g)) ;;
    match sector_objects origin (gs_derived g) !! object_id with
    | None => mret ()
    | Some _ =>
        g ← get_state;
        set_sector_objects dest (<[object_id := oi_fixture info]> (sector_objects dest (gs_derived g))) ;;
        match ag_object_sessions (gs_derived g) !! object_id with
        | None => mret ()
        | Some user_session =>
            user ← read_info user_session;
            session ← deref_session (usi_session user);
            check "current_sector_id == packet.origin_sector_id"
              (GetUserData session AgencySessionValue_SectorId (gs_user_data g) =? origin) ;;
            object_push ← MakeObjectListPacket dest;
            set_user_data session AgencySessionValue_SectorId dest ;;
            emit [Send session (pkt_object_list_ps object_push) ErrorCode_None] ;;
            with_pm_ (RemoveSectorListener origin (usi_universal_session_id user)) ;;
            with_pm_ (AddSectorListener dest (usi_universal_session_id user))
        end
    end
| _, _ => mret ()
end.

(** ** Dispatch *)

Definition Agency_OnClientData (client_session : SessionInfoPtr) (context : SocketContext) : M () :=
session ← session_of client_session;
g ← get_state;
let object_id := GetUserData session AgencySessionValue_ObjectId (gs_user_data g) in
if object_id =? 0 then emit [CloseSession session]
else
  match ctx_packet_type context with
  | Some PacketType_character_move_rq =>
      match DeserializePacketBody PacketType_character_move_rq (ctx_body context) with
      | Some (pkt_character_move_rq packet) => OnUserMoveReq client_session packet
      | _ => close_info client_session
      end
  | _ => mret ()
  end.

Definition Agency_OnIntraServerData (server_session : IntraServerPtr) (context : SocketContext) : M () :=
let body := ctx_body context in
match ctx_packet_type context with
| Some PacketType_spawn_character_rs =>
    match DeserializePacketBody PacketType_spawn_character_rs body with
    | Some (pkt_spawn_character_rs packet) => OnPlaySpawnCharacterRes server_session packet
    | _ => close_server server_session
    end
| Some PacketType_remove_character_rs =>
    match DeserializePacketBody PacketType_remove_character_rs body with
    | Some (pkt_remove_character_rs packet) => OnPlayRemoveCharacterRes packet
    | _ => close_server server_session
    end
| Some PacketType_character_move_rs =>
    match DeserializePacketBody PacketType_character_move_rs body with
    | Some (pkt_character_move_rs packet) => OnPlayMoveCharacterRes (ctx_error_code context) packet
    | _ => close_server server_session
    end
| Some PacketType_create_object_ps =>
    match DeserializePacketBody PacketType_create_object_ps body with
    | Some (pkt_create_object_ps packet) => OnPlayObjectCreatePush packet
    | _ => close_server server_session
    end
| Some PacketType_remove_object_ps =>
    match DeserializePacketBody PacketType_remove_object_ps body with
    | Some (pkt_remove_object_ps packet) => OnPlayObjectRemovePush packet
    | _ => close_server server_session
    end
| Some PacketType_object_move_ps =>
    match DeserializePacketBody PacketType_object_move_ps body with
    | Some (pkt_object_move_ps packet) => OnPlayObjectMovePush packet
    | _ => close_server server_session
    end
| Some PacketType_promote_object_rq =>
    match DeserializePacketBody PacketType_promote_object_rq body with
    | Some (pkt_promote_object_rq packet) => Agency_OnPlayPromoteObjectReq packet
    | _ => close_server server_session
    end
| _ => mret ()
end.

Definition agency_hooks : Hooks (AgencyData C) C := mkHooks
(mret true) (mret ()) (λ _, mret ())
Agency_OnClientAccepted Agency_OnClientClosed (λ _, mret ()) (λ _, mret ())
(λ _, mret ()) (λ _, mret ()) Agency_OnIntraServerClosed
Agency_OnClientData Agency_OnIntraServerData (λ _ _, true) (λ _ _ _, true) (λ _, mret ()).
End agency.
