(* ===== verification/Topology.v ===== *)
(** * Topology

    Which servers connect to which, for the configurations the programs ship
    with ([agency.cpp], [play.cpp]), and how the connections between servers
    are authorised ([GameServer.cpp]). *)

From S2P Require Import Prelude Coordinate SectorGrid Fixture Packet Protocol Sampling.
From S2P Require Import PacketThrottler SectorPosting SectorSystem World Session.
From S2P Require Import Supervisor GameServer Play Agency.

Open Scope Z_scope.

(** ** Connectors *)

(** [_connection_config] after [Initialize] with a list of configurations. *)
Definition config_table (configs : list IntraServerConfig) : gmap Z IntraServerConfig :=
  list_to_map ((λ c, (ServerType_to_Z (isc_server_type c), c)) <$> configs).

Definition shipped_config (t : ServerType) : list IntraServerConfig :=
  match t with
  | ServerType_Agency => agency_config
  | ServerType_Play => play_config
  | ServerType_Supervisor => []
  end.

(** A server as its program configures it. *)
Definition as_shipped {D} (g : GameServer D) : Prop :=
  si_server_type (gs_my_server_info g) ≠ ServerType_Supervisor ∧
  gs_connection_config g = config_table (shipped_config (si_server_type (gs_my_server_info g))).

(** Whether server [a] opens the connection to server [b]. *)
Definition connects {D1 D2 C} (hooks : Hooks D1 C) (a : GameServer D1) (b : GameServer D2) : bool :=
  IsConnector hooks a (si_server_type (gs_my_server_info b)) (si_server_id (gs_my_server_info b)).

(** C31: Every two servers with different ids agree on who opens the
    connection between them: exactly one does, except between two agencies,
    which do not connect. *)
Theorem one_connector {D1 D2 C} (h1 : Hooks D1 C) (h2 : Hooks D2 C) (a : GameServer D1) (b : GameServer D2) :
  as_shipped a → as_shipped b →
  si_server_id (gs_my_server_info a) ≠ si_server_id (gs_my_server_info b) →
  xorb (connects h1 a b) (connects h2 b a) =
    bool_decide (¬ (si_server_type (gs_my_server_info a) = ServerType_Agency ∧
                    si_server_type (gs_my_server_info b) = ServerType_Agency)).
Proof.
  intros [Ha Ea] [Hb Eb] Hid. rw /connects /IsConnector Ea Eb.
  destruct (si_server_type (gs_my_server_info a)) eqn:Ta, (si_server_type (gs_my_server_info b)) eqn:Tb;
    try done; cbn.
  rw Z.gtb_ltb Z.gtb_ltb. case: Z.ltb_spec => H1; case: Z.ltb_spec => H2; try done; lia.
Qed.

(** ** Listening *)

(** Whether a server listens to a sector of ours, by our configuration. *)
Definition listening {D C} (hooks : Hooks D C) (g : GameServer D) (t : ServerType) (id s : Z) : bool :=
  match isc_sector_listening_policy <$> gs_connection_config g !! ServerType_to_Z t with
  | Some Listening_All => true
  | Some Listening_Conditional => hook_CheckIntraServerSectorListening hooks t id s
  | Some Listening_Not | None => false
  end.

Lemma listens_add dest t pm t' s :
  listens (AddSectorListener dest t pm) t' s ↔ listens pm t' s ∨ (t' = t ∧ s = dest).
Proof. rw /listens /AddSectorListener sector_at_set. case_decide; subst; cbn; set_solver. Qed.

Lemma linked_add dest t pm t' : linked (AddSectorListener dest t pm) t' = linked pm t'.
Proof. rw /linked /AddSectorListener session_at_set_sector session_at_set. by case_decide; subst. Qed.

Section listen.
Context {D C : Type} `{IterOrder} `{Indeterminate C} `{StructPack C} (hooks : Hooks D C).

Lemma with_pm__run f (g : GameServer D) :
with_pm_ (C:=C) f g = Ok ((), gs_set_sector_posting_manager (f (gs_sector_posting_manager g)) g, []).
Proof. done. Qed.

(** The loop of [ListenSector] over any list of sectors. *)
Lemma listen_loop (p : Z → bool) (id : Z) (l : list SectorInfo) (g : GameServer D) :
∃ pm,
  for_each l (λ sector_info, if p (sector_info_id sector_info)
              then with_pm_ (C:=C) (AddSectorListener (sector_info_id sector_info) id) else mret ()) g =
    Ok ((), gs_set_sector_posting_manager pm g, []) ∧
  (∀ t, linked pm t = linked (gs_sector_posting_manager g) t) ∧
  (∀ t s, listens pm t s ↔ listens (gs_sector_posting_manager g) t s ∨
     (t = id ∧ s ∈ sector_info_id <$> l ∧ p s = true)).
Proof.
revert g. induction l as [|x l IH]; intros g.
- exists (gs_sector_posting_manager g). split_and!; [by destruct g|done|].
  intros t s. rw /= elem_of_nil. naive_solver.
- cbn [for_each]. destruct (p (sector_info_id x)) eqn:Hp.
  + destruct (IH (gs_set_sector_posting_manager (AddSectorListener (sector_info_id x) id
      (gs_sector_posting_manager g)) g)) as (pm&Hrun&Hlink&Hlis).
    exists pm. split_and!.
    * rw /mbind /act_mbind /act_bind with_pm__run. by rw Hrun.
    * intros t. by rw Hlink /= linked_add.
    * intros t s. rw Hlis listens_add fmap_cons elem_of_cons. naive_solver.
  + destruct (IH g) as (pm&Hrun&Hlink&Hlis). exists pm. split_and!; [|done|].
    * rw /mbind /act_mbind /act_bind. rw {1}/mret /act_mret /act_ret. by rw Hrun.
    * intros t s. rw Hlis fmap_cons elem_of_cons. split.
      -- intros [?|(?&?&?)]; [by left|right; auto].
      -- intros [?|(?&[->|?]&Hps)]; [by left|congruence|right; auto].
Qed.

Lemma grid_ids s : s ∈ sector_info_id <$> SectorGridList ↔ valid_sector s.
Proof.
change (sector_info_id <$> SectorGridList) with (seqZ 0 25). rw elem_of_seqZ /valid_sector. lia.
Qed.

Lemma ListenSector_run (t : ServerType) (id : Z) (g : GameServer D) :
∃ pm, ListenSector (C:=C) hooks t id g = Ok ((), gs_set_sector_posting_manager pm g, []) ∧
  (∀ u, linked pm u = linked (gs_sector_posting_manager g) u) ∧
  (∀ u s, listens pm u s ↔ listens (gs_sector_posting_manager g) u s ∨
     (u = id ∧ valid_sector s ∧ listening hooks g t id s = true)).
Proof.
rw /ListenSector /mbind /act_mbind /act_bind /get_state /listening.
destruct (gs_connection_config g !! ServerType_to_Z t) as [config|]; cbv beta iota delta [fmap option_fmap option_map].
- destruct (listen_loop (λ s, match isc_sector_listening_policy config with
    | Listening_All => true
    | Listening_Conditional => hook_CheckIntraServerSectorListening hooks t id s
    | Listening_Not => false end) id SectorGridList g) as (pm&Hrun&Hlink&Hlis).
  exists pm. split_and!; [by rw Hrun|done|]. intros u s. by rw Hlis grid_ids.
- exists (gs_sector_posting_manager g). split_and!; [by destruct g|done|]. intros u s. naive_solver.
Qed.
End listen.

(** ** The handshake *)

(** What both ends of a handshake have established: the session stands for the
    server [id], which is linked to it, and our sectors are listened to by it as
    the configuration says. *)
Record established {D C} (hooks : Hooks D C) (session : SessionRef) (key id : Z) (server : IntraServerInfo)
    (g g' : GameServer D) : Prop := {
  est_node : gs_server_sessions g' !! id = Some (isi_authorize (Some session) server);
  est_session : usi_authorize <$> gs_active_sessions g !! key = gs_active_sessions g' !! key;
  est_others : ∀ k, k ≠ key → gs_active_sessions g' !! k = gs_active_sessions g !! k;
  est_linked : linked (gs_sector_posting_manager g') id = Some session;
  est_server_id : GetUserData session SERVER_ID_KEY (gs_user_data g') = u64 id;
  est_listens : ∀ s, listens (gs_sector_posting_manager g') id s ↔
    listens (gs_sector_posting_manager g) id s ∨
    (valid_sector s ∧ listening hooks g (si_server_type (isi_server_info server)) id s = true);
}.

Lemma linked_link t c pm u : linked (LinkSession t c pm) u = if decide (u = t) then c else linked pm u.
Proof. rw /linked /LinkSession session_at_set. by case_decide. Qed.

Lemma listens_link t c pm u s : listens (LinkSession t c pm) u s ↔ listens pm u s.
Proof. done. Qed.

Section handshake.
Context {D C : Type} `{IterOrder} `{Indeterminate C} `{StructPack C} (hooks : Hooks D C).

(** Data of an established session reaches the derived server under the id of
  the peer. *)
Lemma established_data context session key id server (g g' : GameServer D) u :
established hooks session key id server g g' →
gs_active_sessions g !! key = Some u → usi_session u = Some session → 0 ≤ id < 2 ^ 64 →
on_authorized_data (C:=C) hooks context (ActiveSession key) g' =
  hook_OnIntraServerData hooks (ServerNode id) context g'.
Proof.
intros [Hn Hs _ _ Hid _] Hu Hus Hr. rw Hu /= in Hs.
rw /on_authorized_data /read_info /mbind /act_mbind /act_bind /get_state -Hs /=.
rw Hus /= Hid u64_small; [done|]. rw Hn /=. by destruct (hook_OnIntraServerData hooks _ context g') as [[[[] ?] ?]|].
Qed.

(** C16: A server that connects to us and names itself by an id the supervisor
  announced is accepted: the session is bound to the id, the derived server is
  told, the response goes back, and from then on the session's packets are
  handed to the derived server as those of that server. *)
Theorem accept_handshake (context : SocketContext) (key id : Z) (server : IntraServerInfo)
  (u : UniversalSessionInfo) (packet : packet_authorize_server_rq) (g : GameServer D) :
asrq_server_id packet = id → 0 ≤ id < 2 ^ 64 → si_server_id (gs_my_server_info g) ≠ id →
gs_active_sessions g !! key = Some u → usi_session u = Some (ctx_session context) →
gs_server_sessions g !! id = Some server → isi_is_connector server = false →
∃ g', established hooks (ctx_session context) key id server g g' ∧
  on_authorize_server_rq (C:=C) hooks context (ActiveSession key) packet g =
    (hook_OnIntraServerAccepted hooks (ServerNode id) ;;
     emit [Send (ctx_session context)
             (pkt_authorize_server_rs (mk_authorize_server_rs (si_server_id (gs_my_server_info g)))) ErrorCode_None]) g' ∧
  ∀ context', on_authorized_data (C:=C) hooks context' (ActiveSession key) g' =
    hook_OnIntraServerData hooks (ServerNode id) context' g'.
Proof.
intros <- Hr Hme Hu Hus Hsrv Hconn. set (id := asrq_server_id packet) in *.
set (session := ctx_session context) in *.
set (g2 := gs_set_user_data (SetUserData session SERVER_ID_KEY id (gs_user_data g))
  (gs_set_sector_posting_manager (LinkSession id (Some session) (gs_sector_posting_manager g))
  (gs_set_active_sessions (alter usi_authorize key (gs_active_sessions g))
  (gs_set_server_sessions (alter (isi_authorize (Some session)) id (gs_server_sessions g)) g)))).
destruct (ListenSector_run hooks (si_server_type (isi_server_info server)) id g2) as (pm&Hrun&Hlink&Hlis).
assert (Hest : established hooks session key id server g (gs_set_sector_posting_manager pm g2)).
{ split; cbn.
  - by rw lookup_alter_eq Hsrv.
  - by rw lookup_alter_eq.
  - intros k Hk. rw lookup_alter_ne; congruence.
  - rw Hlink /= linked_link. rw decide_True; done.
  - rw GetUserData_set. rw decide_True; done.
  - intros s. rw Hlis /= listens_link. naive_solver. }
exists (gs_set_sector_posting_manager pm g2). split_and!; [done| |].
- rw /on_authorize_server_rq. fold id. fold session.
  rw /mbind /act_mbind {1}/act_bind /get_state {1}/act_bind.
  rw (proj2 (Z.eqb_neq _ _)); [done|]. cbn [negb check act_ret]. rw {1}/act_bind.
  rw /GetServerSession /mbind /act_mbind {1}/act_bind /get_state Hsrv. cbn [mret act_mret act_ret]. rw Hconn.
  rw {1}/act_bind {1}/modify {1}/act_bind {1}/authorize_info {1}/modify {1}/act_bind with_pm__run
    {1}/act_bind {1}/set_user_data {1}/modify {1}/act_bind.
  change (gs_set_user_data _ _) with g2. rw Hrun.
  by destruct (act_bind _ _ (gs_set_sector_posting_manager pm g2)) as [[[? ?] ?]|].
- intros context'. exact (established_data context' session key id server g _ u Hest Hu Hus Hr).
Qed.
End handshake.

Section connector_side.
Context {D C : Type} `{IterOrder} `{Indeterminate C} `{StructPack C} (hooks : Hooks D C).

(** C17: The other end: the response of a server we connect to establishes the
  session in the same way; a response that the peer does not know us yet is
  answered by asking again, and changes nothing. *)
Theorem connect_handshake (context : SocketContext) (key id : Z) (server : IntraServerInfo)
  (u : UniversalSessionInfo) (packet : packet_authorize_server_rs) (g : GameServer D) :
asrs_server_id packet = id → 0 ≤ id < 2 ^ 64 → si_server_id (gs_my_server_info g) ≠ id →
gs_active_sessions g !! key = Some u → usi_session u = Some (ctx_session context) →
gs_server_sessions g !! id = Some server → isi_is_connector server = true →
if ctx_error_code context =? ErrorCode_to_Z UnknownServerId
then on_authorize_server_rs (C:=C) hooks context (ActiveSession key) packet g =
       Ok ((), g, [Send (ctx_session context) (authorize_request g) ErrorCode_None])
else ∃ g', established hooks (ctx_session context) key id server g g' ∧
  on_authorize_server_rs (C:=C) hooks context (ActiveSession key) packet g =
    hook_OnIntraServerConnected hooks (ServerNode id) g' ∧
  ∀ context', on_authorized_data (C:=C) hooks context' (ActiveSession key) g' =
    hook_OnIntraServerData hooks (ServerNode id) context' g'.
Proof.
intros <- Hr Hme Hu Hus Hsrv Hconn. set (id := asrs_server_id packet) in *.
set (session := ctx_session context) in *.
rw /on_authorize_server_rs. fold id. fold session.
rw /mbind /act_mbind {1 2}/act_bind /get_state. case_match eqn:Herr; [done|].
set (g2 := gs_set_sector_posting_manager (LinkSession id (Some session) (gs_sector_posting_manager g))
  (gs_set_user_data (SetUserData session SERVER_ID_KEY id (gs_user_data g))
  (gs_set_active_sessions (alter usi_authorize key (gs_active_sessions g))
  (gs_set_server_sessions (alter (isi_authorize (Some session)) id (gs_server_sessions g)) g)))).
destruct (ListenSector_run hooks (si_server_type (isi_server_info server)) id g2) as (pm&Hrun&Hlink&Hlis).
assert (Hest : established hooks session key id server g (gs_set_sector_posting_manager pm g2)).
{ split; cbn.
  - by rw lookup_alter_eq Hsrv.
  - by rw lookup_alter_eq.
  - intros k Hk. rw lookup_alter_ne; congruence.
  - rw Hlink /= linked_link. rw decide_True; done.
  - rw GetUserData_set. rw decide_True; done.
  - intros s. rw Hlis /= listens_link. naive_solver. }
exists (gs_set_sector_posting_manager pm g2). split_and!; [done| |].
- rw {1}/act_bind. rw (proj2 (Z.eqb_neq _ _)); [done|]. cbn [negb check]. rw {1}/act_ret.
  rw /GetServerSession /mbind /act_mbind {1 2}/act_bind {1}/act_bind /get_state Hsrv. cbn [mret act_mret act_ret]. rw Hconn.
  cbn [negb]. rw {1}/act_bind {1}/modify {1}/act_bind {1}/authorize_info {1}/modify {1}/act_bind
    {1}/set_user_data {1}/modify {1}/act_bind with_pm__run {1}/act_bind.
  change (gs_set_sector_posting_manager (LinkSession _ _ _) _) with g2. rw Hrun.
  by destruct (hook_OnIntraServerConnected hooks _ (gs_set_sector_posting_manager pm g2)) as [[[? ?] ?]|].
- intros context'. exact (established_data hooks context' session key id server g _ u Hest Hu Hus Hr).
Qed.

(** The packets [OnSocketSessionData] handles before it asks whether the
  session is authorised. *)
Definition control_packet (t : option PacketType) : bool :=
match t with
| Some (PacketType_authorize_server_rq | PacketType_authorize_server_rs | PacketType_register_minion_server_rs
       | PacketType_recovery_minion_server_rs | PacketType_update_intra_server_info_ps
       | PacketType_sector_allocation_ps) => true
| _ => false
end.

(** C36: Any other packet of a session that is neither a client nor authorised
  changes nothing and closes the session. *)
Theorem unauthorized_data_closes (context : SocketContext) (key : Z) (u : UniversalSessionInfo)
  (session : SessionRef) (g : GameServer D) :
gs_session_info_ptr g !! ses_handle (ctx_session context) = Some (ActiveSession key) →
gs_active_sessions g !! key = Some u → usi_session u = Some session →
usi_is_client u = false → usi_is_authorized u = false → control_packet (ctx_packet_type context) = false →
OnSocketSessionData (C:=C) hooks context g = Ok ((), g, [CloseSession session]).
Proof.
intros Hptr Hu Hus Hcl Hau Hct.
assert (Hend : on_authorized_data (C:=C) hooks context (ActiveSession key) g = Ok ((), g, [CloseSession session])).
{ rw /on_authorized_data /close_info /read_info /mbind /act_mbind /act_bind /get_state Hu /= Hau /=.
  by rw Hu /= Hus. }
rw /OnSocketSessionData /mbind /act_mbind {1}/act_bind /get_session_info /mbind /act_mbind {1}/act_bind /get_state Hptr.
cbn [mret act_mret act_ret from_option_ub lift]. rw {1}/act_bind. cbn [from_option_ub lift].
rw {1}/act_bind /read_info /mbind /act_mbind {1}/act_bind /get_state Hu. cbn [from_option_ub lift].
rw {1}/act_bind Hcl.
destruct (ctx_packet_type context) as [[]|]; try done; by rw Hend.
Qed.

(** The control packets, however, are trusted from any session: a registration
  response from an unauthorised peer renames the server and puts it into
  service. *)
Theorem register_response_trusted (context : SocketContext) (key : Z) (u : UniversalSessionInfo)
  (loopback : IntraServerInfo) (info : ServerInfo) (sectors : list Z) (g : GameServer D) :
gs_session_info_ptr g !! ses_handle (ctx_session context) = Some (ActiveSession key) →
gs_active_sessions g !! key = Some u → usi_is_client u = false → usi_is_authorized u = false →
gs_loopback_session g = Some loopback →
ctx_packet_type context = Some PacketType_register_minion_server_rs →
DeserializePacketBody (C:=C) PacketType_register_minion_server_rs (ctx_body context) =
  Some (pkt_register_minion_server_rs (mk_register_minion_server_rs info sectors)) →
∃ g', OnSocketSessionData (C:=C) hooks context g = Ok ((), g', []) ∧
  gs_my_server_info g' = info ∧ gs_service_ready g' = true.
Proof.
intros Hptr Hu Hcl Hau Hlb Hct Hbody.
rw /OnSocketSessionData /mbind /act_mbind {1}/act_bind /get_session_info /mbind /act_mbind {1}/act_bind /get_state Hptr.
cbn [mret act_mret act_ret from_option_ub lift]. rw {1}/act_bind. cbn [from_option_ub lift].
rw {1}/act_bind /read_info /mbind /act_mbind {1}/act_bind /get_state Hu. cbn [from_option_ub lift].
rw {1}/act_bind Hcl Hct Hbody.
rw /on_register_minion_server_rs /mbind /act_mbind {1}/act_bind /modify {1}/act_bind {1}/get_state.
cbn [gs_loopback_session gs_set_my_server_info]. rw Hlb. by eexists.
Qed.
End connector_side.
