(* ===== verification/AgencySafety.v ===== *)
(** * Runs of an agency

    The worker of an agency ([GameServer.v] with the hooks of [Agency.v]) under
    every sequence of events its network engines hand it: clients come, act and
    go, play servers answer and report, the supervisor moves sectors.  In every
    state it reaches, the tables that tie clients, characters and sectors
    together agree, and no event faults. *)

From S2P Require Import Prelude Coordinate SectorGrid Fixture Packet Protocol Sampling.
From S2P Require Import PacketThrottler SectorPosting SectorSystem World Session.
From S2P Require Import Supervisor GameServer Play Agency Topology.

Open Scope Z_scope.

Lemma with_pm_run {D C} f (g : GameServer D) :
  with_pm (C:=C) f g = Ok ((), gs_set_sector_posting_manager (f (gs_sector_posting_manager g)).1 g,
    (f (gs_sector_posting_manager g)).2).
Proof. rw /with_pm /mbind /act_mbind /act_bind /get_state. by destruct (f (gs_sector_posting_manager g)). Qed.

(** The same for the actions of game servers. *)
Ltac act_step :=
  first [run_step|lazymatch goal with
  | |- returns (with_pm _) _ _ => eapply returns_ok; [apply with_pm_run|]
  | |- returns (with_pm_ _) _ _ => eapply returns_ok; [reflexivity|]
  | |- returns (set_user_data _ _ _) _ _ => eapply returns_ok; [reflexivity|]
  | |- returns (modify_agency _) _ _ => eapply returns_ok; [reflexivity|]
  | |- returns (set_sector_objects _ _) _ _ => eapply returns_ok; [reflexivity|]
  | |- returns (send_to_sector _ _) _ _ => eapply returns_ok; [reflexivity|]
  end; cbv beta].
Ltac act_steps := repeat act_step.

Section agency_runs.
Context {C : Type} `{CoordinateUnit C} `{IterOrder} `{Indeterminate C} `{StructPack C}.
Notation Agency := (GameServer (AgencyData C)).
Notation M := (Act Agency (Effect C)).
Implicit Types g : Agency.

(** The ids of servers, those the supervisor gives out and the reserved ones.
  Clients are numbered above them once the server is registered. *)
Variable servers : gset Z.
Definition FIRST_CLIENT : Z := 100000000000001.
Definition server_ids : Prop := {[0; 1; 2]} ⊆ servers ∧ ∀ x, x ∈ servers → 0 ≤ x < FIRST_CLIENT.

(** ** What the tables say *)

Definition object_sessions g : gmap Z SessionInfoPtr := ag_object_sessions (gs_derived g).
Definition object_of g (s : SessionRef) : Z := GetUserData s AgencySessionValue_ObjectId (gs_user_data g).
Definition sector_of g (s : SessionRef) : Z := GetUserData s AgencySessionValue_SectorId (gs_user_data g).
Definition user_of g (s : SessionRef) : Z := GetUserData s AgencySessionValue_UserId (gs_user_data g).

(** The client [u] is connected through [s]. *)
Definition client_of g (u : Z) (s : SessionRef) : Prop :=
∃ i, gs_active_sessions g !! u = Some i ∧ usi_is_client i = true ∧ usi_session i = Some s.

(** A client whose character is in the world. *)
Definition playing g (u : Z) (s : SessionRef) : Prop := client_of g u s ∧ object_of g s ≠ 0.

(** What [UNIVERSAL_SESSION_INFO_KEY] of an open session points to exists. *)
Definition points_to g (h : Z) (p : SessionInfoPtr) : Prop :=
match p with
| ActiveSession u => 2 < u ∧ ∃ i s, gs_active_sessions g !! u = Some i ∧ usi_session i = Some s ∧ ses_handle s = h
| SupervisorInfo => is_Some (isi_session (gs_supervisor_server_info g))
end.

(** [open] holds the sessions between their first and their last event. *)
Record client_inv (open : gset Z) g : Prop := {
ci_posting : posting_inv servers (gs_sector_posting_manager g);
ci_ids : ∀ u i, gs_active_sessions g !! u = Some i →
  usi_universal_session_id i = u ∧ 0 ≤ u < gs_current_universal_session_id g;
ci_open : ∀ h, h ∈ open → ∃ p, gs_session_info_ptr g !! h = Some p ∧ points_to g h p;
ci_clients : ∀ u s, client_of g u s →
  u ∉ servers ∧ ses_handle s ∈ open ∧ gs_session_info_ptr g !! ses_handle s = Some (ActiveSession u);
ci_sessions : ∀ u i, gs_active_sessions g !! u = Some i → usi_is_client i = true → is_Some (usi_session i);
ci_objects : ∀ o p, object_sessions g !! o = Some p → ∃ u s, p = ActiveSession u ∧ playing g u s ∧ object_of g s = o;
ci_playing : ∀ u s, playing g u s →
  object_sessions g !! object_of g s = Some (ActiveSession u) ∧ user_of g s = u ∧
  linked (gs_sector_posting_manager g) u = Some s ∧
  ∀ x, listens (gs_sector_posting_manager g) u x ↔ x = sector_of g s;
ci_listeners : ∀ u x, listens (gs_sector_posting_manager g) u x → ∃ s, playing g u s;
ci_linked : ∀ u s, linked (gs_sector_posting_manager g) u = Some s → u ∉ servers → client_of g u s;
ci_ready : gs_service_ready g = false → ∀ u s, ¬ client_of g u s;
}.

Record server_inv g : Prop := {
si_loopback : ∃ l, gs_loopback_session g = Some l ∧ si_server_id (isi_server_info l) ∈ servers ∧ is_Some (isi_session l);
si_me : si_server_id (gs_my_server_info g) ∈ servers;
si_loopback_me : ∀ l, gs_loopback_session g = Some l → 2 < si_server_id (gs_my_server_info g) →
  si_server_type (isi_server_info l) ≠ ServerType_Supervisor;
si_nodes : ∀ id i, gs_server_sessions g !! id = Some i → id ≠ 0 ∧ id ∈ servers ∧
  si_server_id (isi_server_info i) ∈ servers ∧
  (si_server_type (isi_server_info i) = ServerType_Supervisor → id = SUPERVISOR_SERVER_ID);
si_supervisor : usi_universal_session_id (isi_universal (gs_supervisor_server_info g)) = 2 ∧
  usi_is_client (isi_universal (gs_supervisor_server_info g)) = false ∧
  isi_server_info (gs_supervisor_server_info g) = mkServerInfo ServerType_Supervisor SUPERVISOR_SERVER_ID
    (si_address (isi_server_info (gs_supervisor_server_info g)));
si_keys : ∀ s, GetUserData s SERVER_ID_KEY (gs_user_data g) ≠ SUPERVISOR_SERVER_ID;
si_claims : ∀ s i, gs_server_sessions g !! GetUserData s SERVER_ID_KEY (gs_user_data g) = Some i → is_Some (isi_session i);
si_config : gs_connection_config g = config_table agency_config;
si_counter : 2 < gs_current_universal_session_id g < 2 ^ 64 ∧
  (gs_service_ready g = true → FIRST_CLIENT ≤ gs_current_universal_session_id g);
}.
(** ** Steps that leave the clients alone *)

(** Everything of a session's entry but whether it is authorised. *)
Definition entry (i : UniversalSessionInfo) : Z * option SessionRef * bool :=
(usi_universal_session_id i, usi_session i, usi_is_client i).

Record same_clients g g' : Prop := {
sc_posting : posting_inv servers (gs_sector_posting_manager g) → posting_inv servers (gs_sector_posting_manager g');
sc_listens : posting_inv servers (gs_sector_posting_manager g) →
  ∀ t s, listens (gs_sector_posting_manager g') t s ↔ listens (gs_sector_posting_manager g) t s;
sc_linked : posting_inv servers (gs_sector_posting_manager g) →
  ∀ t, t ∉ servers → linked (gs_sector_posting_manager g') t = linked (gs_sector_posting_manager g) t;
sc_active : ∀ u, entry <$> gs_active_sessions g' !! u = entry <$> gs_active_sessions g !! u;
sc_ptr : gs_session_info_ptr g' = gs_session_info_ptr g;
sc_supervisor : is_Some (isi_session (gs_supervisor_server_info g)) → is_Some (isi_session (gs_supervisor_server_info g'));
sc_data : ∀ s k, 0 ≤ k ≤ 2 → GetUserData s k (gs_user_data g') = GetUserData s k (gs_user_data g);
sc_objects : object_sessions g' = object_sessions g;
sc_counter : gs_current_universal_session_id g' = gs_current_universal_session_id g;
sc_ready : gs_service_ready g' = gs_service_ready g;
}.

#[export] Instance same_clients_preorder : PreOrder same_clients.
Proof.
split.
- intros g. by split.
- intros g1 g2 g3 [P1 Li1 Lk1 A1 R1 S1 D1 O1 N1 Y1] [P2 Li2 Lk2 A2 R2 S2 D2 O2 N2 Y2]. split; try congruence.
  + auto.
  + intros Hp t x. rw Li2; [auto|]. by apply Li1.
  + intros Hp t Ht. rw Lk2; [auto..|]. by apply Lk1.
  + auto.
  + intros s k Hk. rw D2; [done|]. by apply D1.
Qed.

Lemma entry_client g u i s :
gs_active_sessions g !! u = Some i → usi_is_client i = true → usi_session i = Some s → client_of g u s.
Proof. intros. by exists i. Qed.

Lemma same_active g g' u i :
same_clients g g' → gs_active_sessions g' !! u = Some i → ∃ i', gs_active_sessions g !! u = Some i' ∧ entry i' = entry i.
Proof.
intros Hs Hi. pose proof (sc_active g g' Hs u) as He. rw Hi /= in He.
destruct (gs_active_sessions g !! u) as [i'|]; [|done]. exists i'. split; [done|]. cbn in He. congruence.
Qed.
Lemma same_client_of g g' u s : same_clients g g' → client_of g' u s ↔ client_of g u s.
Proof.
intros Hs. pose proof (sc_active g g' Hs u) as He. rw /client_of.
destruct (gs_active_sessions g' !! u) as [i'|], (gs_active_sessions g !! u) as [i|]; cbn in He; try done.
injection He as Ei Es Ec. split; intros (j&Hj&Hc&Hu); injection Hj as <-; eexists; split_and!; try done; congruence.
Qed.

Lemma same_playing g g' u s :
same_clients g g' → (playing g' u s ↔ playing g u s) ∧ object_of g' s = object_of g s ∧
  sector_of g' s = sector_of g s ∧ user_of g' s = user_of g s.
Proof.
intros Hs. assert (Ho : object_of g' s = object_of g s) by by apply (sc_data g g' Hs).
split_and!; [|done|by apply (sc_data g g' Hs)..]. rw /playing Ho (same_client_of g g' u s Hs). done.
Qed.

Lemma client_frame open g g' : client_inv open g → same_clients g g' → client_inv open g'.
Proof.
intros Hi Hs. pose proof (ci_posting open g Hi) as Hp. split.
- by apply (sc_posting g g' Hs).
- intros u i Hu. destruct (same_active g g' u i Hs Hu) as (i'&Hi'&He). injection He as E _ _.
  rw (sc_counter g g' Hs) -E. by apply (ci_ids open g Hi).
- intros h Hh. destruct (ci_open open g Hi h Hh) as (p&Hptr&Hpt). exists p. split; [by rw (sc_ptr g g' Hs)|].
  destruct p as [u|]; [|by apply (sc_supervisor g g' Hs)]. destruct Hpt as (Hu&i&s&Ha&Hses&Hh').
  split; [done|]. pose proof (sc_active g g' Hs u) as He. rw Ha /= in He.
  destruct (gs_active_sessions g' !! u) as [i'|] eqn:Ha'; [|done]. injection He as E1 E2 E3. exists i', s.
  split_and!; [done| |done]. by rw E2.
- intros u s. rw (same_client_of g g' u s Hs) (sc_ptr g g' Hs). apply (ci_clients open g Hi).
- intros u i Hu Hc. destruct (same_active g g' u i Hs Hu) as (i'&Hi'&He). injection He as _ <- Ec.
  apply (ci_sessions open g Hi u i' Hi'). congruence.
- intros o p. rw (sc_objects g g' Hs). intros Ho. destruct (ci_objects open g Hi o p Ho) as (u&s&->&Hpl&Hob).
  exists u, s. destruct (same_playing g g' u s Hs) as (Hp'&Ho'&_&_). split_and!; [done|by apply Hp'|congruence].
- intros u s. destruct (same_playing g g' u s Hs) as (Hp'&Ho'&Hse&Hus). rw Hp' Ho' Hus Hse (sc_objects g g' Hs).
  intros Hpl. destruct (ci_playing open g Hi u s Hpl) as (H1'&H2'&H3'&H4').
  destruct (ci_clients open g Hi u s (proj1 Hpl)) as [Hns _].
  split_and!; [done|done|by rw (sc_linked g g' Hs Hp)|]. intros x. rw (sc_listens g g' Hs Hp). apply H4'.
- intros u x. rw (sc_listens g g' Hs Hp) => Hl. destruct (ci_listeners open g Hi u x Hl) as [s Hpl]. exists s.
  by apply (same_playing g g' u s Hs).
- intros u s Hl Hu. rw (sc_linked g g' Hs Hp) in Hl; [done|]. apply (same_client_of g g' u s Hs).
  by apply (ci_linked open g Hi).
- rw (sc_ready g g' Hs). intros Hr u s. rw (same_client_of g g' u s Hs). by apply (ci_ready open g Hi).
Qed.

(** ** The side of the servers *)

Definition server_op (op : PostingOp) : Prop :=
match op with
| OpAllocate _ t | OpLink t _ | OpUnset t => t ∈ servers
| OpOwnerSession _ | OpOwnership _ => True
| _ => False
end.

Lemma server_op_keeps op pm :
posting_inv servers pm → server_op op →
posting_inv servers (exec (C:=C) op pm) ∧ (∀ t s, listens (exec (C:=C) op pm) t s ↔ listens pm t s) ∧
(∀ t, t ∉ servers → linked (exec (C:=C) op pm) t = linked pm t).
Proof.
intros Hp Hop. destruct (exec_refines (C:=C) servers op _ Hp) as (Rl&_&Rk). cbn in Rl, Rk. split_and!.
- apply exec_preserves; [done|]. by destruct op.
- intros t s. rw Rl. destruct op; cbn in Hop |- *; try done. split; [naive_solver|]. intros Hts. split; [done|]. intros ->.
  by apply (inv_clients _ _ Hp _ _ Hts).
- intros t Ht. rw Rk. destruct op; cbn in Hop |- *; try done; (rw decide_False; [by intros ->|done]).
Qed.

Lemma posting_step g op :
server_op op → same_clients g (gs_set_sector_posting_manager (exec (C:=C) op (gs_sector_posting_manager g)) g).
Proof. intros Hop. split; try done; intros Hp; by apply (server_op_keeps op _ Hp Hop). Qed.

Lemma server_inv_posting g pm : server_inv g → server_inv (gs_set_sector_posting_manager pm g).
Proof. intros []. by split. Qed.

(** The state of a step that concerns servers only. *)
Definition server_step g g' : Prop := same_clients g g' ∧ server_inv g'.

Lemma server_step_refl g : server_inv g → server_step g g.
Proof. by split. Qed.

Lemma server_step_inv open g g' : client_inv open g → server_step g g' → client_inv open g' ∧ server_inv g'.
Proof. intros Hi [Hs Hinv]. split; [by apply (client_frame open g)|done]. Qed.

Lemma server_step_posting g0 g op :
server_step g0 g → server_op op →
server_step g0 (gs_set_sector_posting_manager (exec (C:=C) op (gs_sector_posting_manager g)) g).
Proof.
intros [Hs Hi] Hop. split; [|by apply server_inv_posting]. etrans; [exact Hs|]. by apply posting_step.
Qed.

Lemma read_info_run g h p :
points_to g h p → ∃ i s, read_info (C:=C) p g = Ok (i, g, []) ∧ usi_session i = Some s ∧
  match p with
  | ActiveSession u => gs_active_sessions g !! u = Some i ∧ ses_handle s = h
  | SupervisorInfo => i = isi_universal (gs_supervisor_server_info g)
  end.
Proof.
destruct p as [u|]; cbn.
- intros (_&i&s&Ha&Hs&Hh). exists i, s. rw /read_info /mbind /act_mbind /act_bind /get_state Ha. done.
- intros [s Hs]. eexists _, s. by split_and!.
Qed.

Lemma close_info_run g h p : points_to g h p → ∃ o, close_info (C:=C) p g = Ok ((), g, o).
Proof.
intros Hp. destruct (read_info_run g h p Hp) as (i&s&Hr&Hs&_). eexists.
rw /close_info (bind_ok _ _ _ _ _ Hr) Hs. done.
Qed.

Lemma ListenSector_nobody t id g :
gs_connection_config g = config_table agency_config → ListenSector agency_hooks t id g = Ok ((), g, []).
Proof.
intros Hc. rw /ListenSector /mbind /act_mbind /act_bind /get_state Hc. by destruct t.
Qed.

Lemma server_step_nodes g0 g f id :
server_step g0 g → (∀ i, isi_server_info (f i) = isi_server_info i) → (∀ i, is_Some (isi_session (f i))) →
server_step g0 (gs_set_server_sessions (alter f id (gs_server_sessions g)) g).
Proof.
intros [Hs Hi] Hf Hf'. split; [etrans; [exact Hs|by split]|]. destruct Hi as [? ? ? Hn ? ? Hcl ? ?]. split; try done; cbn.
- intros k i Hk. destruct (decide (k = id)) as [->|Hne].
  + rw lookup_alter_eq in Hk. destruct (gs_server_sessions g !! id) as [i'|] eqn:E; [|done]. injection Hk as <-.
    rw Hf. by apply Hn.
  + rw lookup_alter_ne in Hk; [congruence|]. by apply Hn.
- intros s i. set (k := GetUserData s _ _). destruct (decide (k = id)) as [->|Hne].
  + rw lookup_alter_eq. destruct (gs_server_sessions g !! id) as [i'|]; [|done]. intros Hi. injection Hi as <-. apply Hf'.
  + rw lookup_alter_ne; [congruence|]. by apply Hcl.
Qed.

Lemma server_step_authorize g0 g p (Q : () → Agency → Prop) :
server_step g0 g → (∀ g', server_step g0 g' → gs_server_sessions g' = gs_server_sessions g → Q () g') →
returns (authorize_info (C:=C) p) g Q.
Proof.
intros [Hs Hi] HQ. destruct p as [u|]; (eapply returns_ok; [reflexivity|]); apply HQ; [|done| |done].
- split; [etrans; [exact Hs|]|destruct Hi; by split]. split; try done. cbn. intros k.
  destruct (decide (k = u)) as [->|Hne]; [rw lookup_alter_eq; by destruct (gs_active_sessions g !! u)|].
  by rw lookup_alter_ne; [congruence|].
- split; [etrans; [exact Hs|by split]|]. destruct Hi. by split.
Qed.

Lemma server_step_key g0 g session id :
server_step g0 g → 0 ≤ id < 2 ^ 64 → id ≠ SUPERVISOR_SERVER_ID →
(∀ i, gs_server_sessions g !! id = Some i → is_Some (isi_session i)) →
server_step g0 (gs_set_user_data (SetUserData session SERVER_ID_KEY id (gs_user_data g)) g).
Proof.
intros [Hs Hi] Hr Hid Hn. split.
- etrans; [exact Hs|]. split; try done. cbn. intros s k Hk. rw GetUserData_set decide_False; [|done].
  rw /SERVER_ID_KEY /UINT64_MAX. lia.
- destruct Hi as [? ? ? ? ? Hk Hcl ? ?]. split; try done; cbn; intros s; rw GetUserData_set; case_decide.
  + by rw u64_small.
  + apply Hk.
  + rw u64_small; [done|apply Hn].
  + apply Hcl.
Qed.

Lemma authorize_rq_step g context h p packet :
server_ids → server_inv g → points_to g h p →
si_server_id (gs_my_server_info g) ≠ asrq_server_id packet → asrq_server_id packet ≠ SUPERVISOR_SERVER_ID →
returns (on_authorize_server_rq (agency_hooks (C:=C)) context p packet) g (λ _, server_step g).
Proof.
intros [Hsub Hids] Hi Hp Hme Hsup. rw /on_authorize_server_rq. act_steps.
rw (proj2 (Z.eqb_neq _ _)); [done|]. eapply returns_ok; [reflexivity|]. act_steps. rw /GetServerSession. act_steps.
destruct (gs_server_sessions g !! asrq_server_id packet) as [server|] eqn:Hn; [|act_steps; by apply server_step_refl].
destruct (si_nodes g Hi _ _ Hn) as (_&Hin&_). pose proof (Hids _ Hin) as Hr.
destruct (isi_is_connector server).
{ destruct (close_info_run g h p Hp) as [o Ho]. eapply returns_ok; [exact Ho|]. by apply server_step_refl. }
act_steps. apply (server_step_authorize g); [by apply server_step_nodes; [apply server_step_refl|done|]|].
intros g1 Hg1 Hnodes. act_steps.
eapply returns_ok; [apply ListenSector_nobody; apply (si_config g1 (proj2 Hg1))|]. act_steps.
apply server_step_key; [|rw /FIRST_CLIENT in Hr; lia|done|].
2: { cbn. rw Hnodes /= lookup_alter_eq Hn. intros i Ei. injection Ei as <-. done. }
by apply (server_step_posting g g1 (OpLink (asrq_server_id packet) (Some (ctx_session context)))).
Qed.

Lemma authorize_rs_step g context h p packet :
server_ids → server_inv g → points_to g h p →
si_server_id (gs_my_server_info g) ≠ asrs_server_id packet → asrs_server_id packet ≠ SUPERVISOR_SERVER_ID →
returns (on_authorize_server_rs (agency_hooks (C:=C)) context p packet) g (λ _, server_step g).
Proof.
intros [Hsub Hids] Hi Hp Hme Hsup. rw /on_authorize_server_rs. act_steps.
destruct (ctx_error_code context =? _); [act_steps; by apply server_step_refl|]. act_steps.
rw (proj2 (Z.eqb_neq _ _)); [done|]. eapply returns_ok; [reflexivity|]. act_steps. rw /GetServerSession. act_steps.
destruct (close_info_run g h p Hp) as [o Ho].
destruct (gs_server_sessions g !! asrs_server_id packet) as [server|] eqn:Hn;
  [|eapply returns_ok; [exact Ho|]; by apply server_step_refl].
destruct (si_nodes g Hi _ _ Hn) as (_&Hin&_). pose proof (Hids _ Hin) as Hr.
destruct (isi_is_connector server); [|eapply returns_ok; [exact Ho|]; by apply server_step_refl]. cbn [negb].
act_steps. apply (server_step_authorize g); [by apply server_step_nodes; [apply server_step_refl|done|]|].
intros g1 Hg1 Hnodes. act_steps.
eapply returns_ok; [apply ListenSector_nobody; apply (si_config g1 (proj2 Hg1))|]. act_steps.
eapply returns_ok; [reflexivity|].
apply (server_step_posting g _ (OpLink (asrs_server_id packet) (Some (ctx_session context)))); [|done].
apply server_step_key; [done|rw /FIRST_CLIENT in Hr; lia|done|].
rw Hnodes /= lookup_alter_eq Hn. intros i Ei. injection Ei as <-. done.
Qed.

(** An id the supervisor gives out. *)
Definition minion (x : ServerInfo) : Prop :=
si_server_id x ∈ servers ∧ 2 < si_server_id x ∧ si_server_type x ≠ ServerType_Supervisor.

Lemma leave_server_step g0 g x : server_step g0 g → minion x → returns (leave_server (C:=C) x) g
  (λ _ g', server_step g0 g' ∧ gs_user_data g' = gs_user_data g).
Proof.
intros [Hs Hi] [Hx _]. rw /leave_server. act_steps. split; [|done].
apply (server_step_posting g0 (gs_set_server_sessions (delete (si_server_id x) (gs_server_sessions g)) g) (OpUnset (si_server_id x)));
  [|done].
split; [etrans; [exact Hs|by split]|]. destruct Hi as [? ? ? Hn ? ? Hcl ? ?]. split; try done; cbn.
- intros id i. rw lookup_delete_Some. intros [_ Hid]. by apply Hn.
- intros s i. rw lookup_delete_Some. intros [_ Hid]. exact (Hcl s i Hid).
Qed.

Lemma server_step_node g0 g id i :
server_step g0 g → id ≠ 0 → id ∈ servers → si_server_id (isi_server_info i) ∈ servers →
(si_server_type (isi_server_info i) = ServerType_Supervisor → id = SUPERVISOR_SERVER_ID) →
is_Some (isi_session i) ∨ (∀ s, GetUserData s SERVER_ID_KEY (gs_user_data g) ≠ id) →
server_step g0 (gs_set_server_sessions (<[id := i]> (gs_server_sessions g)) g).
Proof.
intros [Hs Hi] H0' Hin Hi' Ht Hse. split; [etrans; [exact Hs|by split]|]. destruct Hi as [? ? ? Hn ? ? Hcl ? ?].
split; try done; cbn.
- intros k j. rw lookup_insert_Some. intros [[<- <-]|[_ Hk]]; [done|by apply Hn].
- intros s j. rw lookup_insert_Some. intros [[Ek <-]|[_ Hk]]; [|exact (Hcl s j Hk)].
  destruct Hse as [|Hse]; [done|]. by destruct (Hse s).
Qed.

Lemma join_server_step g0 g x :
server_step g0 g → minion x → (∀ s, GetUserData s SERVER_ID_KEY (gs_user_data g) ≠ si_server_id x) →
returns (join_server (agency_hooks (C:=C)) x) g (λ _ g', server_step g0 g' ∧ gs_user_data g' = gs_user_data g).
Proof.
intros Hg (Hx&Hx2&Ht) Hk. pose proof (proj2 Hg) as Hi. rw /join_server. act_steps.
destruct (Z.eqb_spec (si_server_id x) (si_server_id (gs_my_server_info g))) as [E|E].
- destruct (si_loopback g Hi) as (l&Hl&Hl'&Hls). rw Hl. act_steps. eapply returns_ok; [reflexivity|]. act_steps.
  split; [|done]. apply server_step_node; [done|lia|done|done| |by left]. intros Hsup. exfalso.
  apply (si_loopback_me g Hi l Hl); [lia|done].
- set (r := IsConnector _ _ _ _). act_steps. destruct r.
  + rw /register_connector. act_steps. split; [|done].
    apply (server_step_node g0 (gs_set_current_connector_id _ g)); [|lia|done..|by right].
    destruct Hg as [Hs _]. split; [etrans; [exact Hs|by split]|]. destruct Hi. by split.
  + act_steps. split; [|done]. apply server_step_node; [done|lia|done..|by right].
Qed.

Lemma update_intra_step g packet :
server_inv g → Forall minion (uips_leaved_server_info packet) → Forall minion (uips_joined_server_info packet) →
Forall (λ x, ∀ s, GetUserData s SERVER_ID_KEY (gs_user_data g) ≠ si_server_id x) (uips_joined_server_info packet) →
returns (on_update_intra_server_info_ps (agency_hooks (C:=C)) packet) g (λ _, server_step g).
Proof.
intros Hi Hl Hj Hn. rw /on_update_intra_server_info_ps. act_steps.
set (I := λ g', server_step g g' ∧ gs_user_data g' = gs_user_data g).
eapply returns_mono; [apply (returns_for_each I); [split; [by apply server_step_refl|done]|]|].
- intros x g1 Hx [Hg1 Ed]. eapply returns_mono; [apply (leave_server_step g); [done|by apply (proj1 (Forall_forall _ _) Hl)]|].
  intros [] g2 [Hg2 E]. split; [done|congruence].
- intros [] g1 Hg1. eapply returns_mono; [apply (returns_for_each I); [done|]|by intros [] g2 []].
  intros x g2 Hx [Hg2 Ed]. eapply returns_mono; [apply (join_server_step g); [done|by apply (proj1 (Forall_forall _ _) Hj)|]|].
  + rw Ed. by apply (proj1 (Forall_forall _ _) Hn).
  + intros [] g3 [Hg3 E]. split; [done|congruence].
Qed.

Lemma sector_allocation_step g packet :
server_inv g → Forall (λ i, minion (sai_server_info i)) (saps_allocation_info packet) →
returns (on_sector_allocation_ps (agency_hooks (C:=C)) packet) g (λ _, server_step g).
Proof.
intros Hi Ha. rw /on_sector_allocation_ps. act_steps.
eapply returns_mono; [apply (returns_for_each (server_step g)); [by apply server_step_refl|]|].
- intros x g1 Hx Hg1. act_steps. destruct (proj1 (Forall_forall _ _) Ha x Hx) as [Hin _].
  by apply (server_step_posting g g1 (OpAllocate (sai_sector_id x) (si_server_id (sai_server_info x)))).
- intros [] g1 Hg1. eapply returns_ok; [reflexivity|]. done.
Qed.

(** *** Registration *)

Definition next_client (id : Z) : Z := id * 1000000000000000 + FIRST_CLIENT.

Lemma into_service open g n :
client_inv open g → gs_service_ready g = false → gs_current_universal_session_id g ≤ n →
client_inv open (gs_set_service_ready true (gs_set_current_universal_session_id n g)).
Proof.
intros [Hp Hids Ho Hc Hse Hob Hpl Hli Hlk Hr] Hready Hn. split; try done.
intros u i Hu. destruct (Hids u i Hu) as [Hu' Hlt]. split; [done|]. cbn. lia.
Qed.

Lemma register_step open g packet :
client_inv open g → server_inv g → gs_service_ready g = false → minion (rmrs_server_info packet) →
si_server_id (rmrs_server_info packet) ≤ 18446 →
gs_current_universal_session_id g ≤ next_client (si_server_id (rmrs_server_info packet)) →
returns (on_register_minion_server_rs (C:=C) packet) g (λ _ g', client_inv open g' ∧ server_inv g').
Proof.
intros Hi Hs Hready (Hin&Hid&Ht) Hmax Hn. destruct (si_loopback g Hs) as (l&Hl&Hl'&Hls).
rw /on_register_minion_server_rs. act_steps. cbn [gs_loopback_session gs_set_my_server_info]. rw Hl.
eapply returns_ok; [reflexivity|]. act_steps.
set (id := si_server_id (rmrs_server_info packet)) in *.
assert (Hu : u64 (id * 1000000000000000 + 100000000000001) = next_client id).
{ apply u64_small. rw /next_client /FIRST_CLIENT in Hn |- *. lia. }
rw Hu. split.
- apply into_service; [|done|done].
  pose proof (posting_step g (OpLink id (isi_session l)) Hin) as Hsame. refine (client_frame open g _ Hi _).
  etrans; [exact Hsame|]. by split.
- destruct Hs as [? ? ? Hnodes ? ? ? ? [? ?]]. split; try done; cbn.
  + eexists. by split.
  + intros l' Hl'' _. by injection Hl'' as <-.
  + rw /next_client /FIRST_CLIENT. lia.
Qed.

(** ** Reports of the play servers *)

Lemma server_step_derived g0 g a :
server_step g0 g → ag_object_sessions a = object_sessions g → server_step g0 (gs_set_derived a g).
Proof.
intros [Hs Hi] Ha. split; [etrans; [exact Hs|by split]|]. destruct Hi. by split.
Qed.

(** Operations that change neither owners nor links. *)
Definition client_owner (op : PostingOp) : Prop :=
match op with OpListen _ _ | OpUnlisten _ _ | OpOwnerSession _ => True | _ => False end.

(** The session of the owner of a sector. *)
Definition owner_session g (s : Z) : option SessionRef :=
linked (gs_sector_posting_manager g) (owner (gs_sector_posting_manager g) s).

Lemma owner_session_run g s :
sector_owner_session (C:=C) s g = Ok (owner_session g s,
  gs_set_sector_posting_manager (exec (C:=C) (OpOwnerSession s) (gs_sector_posting_manager g)) g, []).
Proof. done. Qed.

Lemma owner_session_kept pm op s :
client_owner op → respects servers op → posting_inv servers pm →
posting_inv servers (exec (C:=C) op pm) ∧
linked (exec (C:=C) op pm) (owner (exec (C:=C) op pm) s) = linked pm (owner pm s).
Proof.
intros Hop Hr Hp. destruct (exec_refines (C:=C) servers op _ Hp) as (_&Ro&Rk). cbn in Ro, Rk.
split; [by apply exec_preserves|]. rw Rk Ro. by destruct op.
Qed.

Lemma object_session_info open g o p :
client_inv open g → object_sessions g !! o = Some p →
∃ u s i, p = ActiveSession u ∧ playing g u s ∧ object_of g s = o ∧ gs_active_sessions g !! u = Some i ∧
  usi_session i = Some s ∧ usi_universal_session_id i = u.
Proof.
intros Hi Ho. destruct (ci_objects open g Hi o p Ho) as (u&s&->&Hpl&Hob). pose proof Hpl as [(i&Hu&Hc&Hs) _].
destruct (ci_ids open g Hi u i Hu) as [Hid _]. by exists u, s, i.
Qed.

Lemma read_active g u i : gs_active_sessions g !! u = Some i → read_info (C:=C) (ActiveSession u) g = Ok (i, g, []).
Proof. intros Hu. by rw /read_info /mbind /act_mbind /act_bind /get_state Hu. Qed.

Lemma move_res_step open g e packet :
client_inv open g → server_inv g → returns (OnPlayMoveCharacterRes (C:=C) e packet) g (λ _, server_step g).
Proof.
intros Hi Hs. rw /OnPlayMoveCharacterRes. destruct (negb _); [act_steps; by apply server_step_refl|]. act_steps.
destruct (ag_object_sessions (gs_derived g) !! cmrs_object_id packet) as [p|] eqn:Ho; [|act_steps; by apply server_step_refl].
destruct (object_session_info open g _ p Hi Ho) as (u&s&i&->&Hpl&Hob&Hu&Hus&Hid). act_steps.
eapply returns_ok; [apply (read_active _ u i); exact Hu|]. rw Hus. act_steps. eapply returns_ok; [reflexivity|]. act_steps.
apply server_step_derived; [by apply server_step_refl|done].
Qed.

Lemma user_move_step g h u packet :
server_inv g → points_to g h (ActiveSession u) →
returns (OnUserMoveReq (C:=C) (ActiveSession u) packet) g (λ _, server_step g).
Proof.
intros Hs Hp. destruct (read_info_run g h _ Hp) as (i&s&Hr&Hus&_). rw /OnUserMoveReq /session_of. act_steps.
eapply returns_ok; [exact Hr|]. rw Hus. eapply returns_ok; [reflexivity|]. act_steps.
set (sector := GetUserData s _ _). eapply returns_ok; [exact (owner_session_run g sector)|].
set (g' := gs_set_sector_posting_manager _ g).
assert (Hstep : server_step g g') by exact (server_step_posting g g (OpOwnerSession sector) (server_step_refl g Hs) I).
destruct (owner_session g sector) as [play|]; [act_steps; exact Hstep|].
destruct (close_info_run g' h (ActiveSession u) Hp) as [o Ho]. eapply returns_ok; [exact Ho|exact Hstep].
Qed.

(** ** Steps of one client *)

Lemma client_unique g u s s' : client_of g u s → client_of g u s' → s' = s.
Proof. intros (i&Hi&_&Hs) (i'&Hi'&_&Hs'). congruence. Qed.

Lemma client_handle open g u s u' s' :
client_inv open g → client_of g u s → client_of g u' s' → u' ≠ u → ses_handle s' ≠ ses_handle s.
Proof.
intros Hi Hu Hu' Hne E. destruct (ci_clients open g Hi u s Hu) as (_&_&Hp).
destruct (ci_clients open g Hi u' s' Hu') as (_&_&Hp'). congruence.
Qed.

(** Whatever happens to the client [u] on the session [s], the others keep what
  the tables say of them. *)
Record others_same g g' (u : Z) (s : SessionRef) : Prop := {
os_posting : posting_inv servers (gs_sector_posting_manager g');
os_listens : ∀ t x, t ≠ u → listens (gs_sector_posting_manager g') t x ↔ listens (gs_sector_posting_manager g) t x;
os_linked : ∀ t, t ≠ u → linked (gs_sector_posting_manager g') t = linked (gs_sector_posting_manager g) t;
os_active : ∀ t, t ≠ u → gs_active_sessions g' !! t = gs_active_sessions g !! t;
os_ptr : gs_session_info_ptr g' = gs_session_info_ptr g;
os_supervisor : gs_supervisor_server_info g' = gs_supervisor_server_info g;
os_data : ∀ s' k, ses_handle s' ≠ ses_handle s → GetUserData s' k (gs_user_data g') = GetUserData s' k (gs_user_data g);
os_objects : ∀ o p, p ≠ ActiveSession u → object_sessions g' !! o = Some p ↔ object_sessions g !! o = Some p;
os_counter : gs_current_universal_session_id g' = gs_current_universal_session_id g;
os_ready : gs_service_ready g' = gs_service_ready g;
}.

Lemma others_client g g' u s t s' : others_same g g' u s → t ≠ u → client_of g' t s' ↔ client_of g t s'.
Proof. intros Ho Ht. rw /client_of (os_active g g' u s Ho t Ht). done. Qed.

Lemma others_playing open g g' u s t s' :
client_inv open g → client_of g u s → others_same g g' u s → t ≠ u → client_of g t s' →
(playing g' t s' ↔ playing g t s') ∧ object_of g' s' = object_of g s' ∧ sector_of g' s' = sector_of g s' ∧
  user_of g' s' = user_of g s'.
Proof.
intros Hi Hu Ho Ht Hc. pose proof (client_handle open g u s t s' Hi Hu Hc Ht) as Hh.
assert (E : object_of g' s' = object_of g s') by by apply (os_data g g' u s Ho).
split_and!; [|done|by apply (os_data g g' u s Ho)..]. rw /playing E (others_client g g' u s t s' Ho Ht). done.
Qed.

(** What the tables say of the client [u] itself. *)
Record own_tables g (u : Z) (s : SessionRef) : Prop := {
ot_playing : object_of g s ≠ 0 → object_sessions g !! object_of g s = Some (ActiveSession u) ∧ user_of g s = u ∧
  linked (gs_sector_posting_manager g) u = Some s ∧
  ∀ x, listens (gs_sector_posting_manager g) u x ↔ x = sector_of g s;
ot_objects : ∀ o, object_sessions g !! o = Some (ActiveSession u) → o ≠ 0 ∧ object_of g s = o;
ot_listens : ∀ x, listens (gs_sector_posting_manager g) u x → object_of g s ≠ 0;
ot_linked : ∀ s', linked (gs_sector_posting_manager g) u = Some s' → s' = s;
}.

Lemma client_update open g g' u s :
client_inv open g → client_of g u s → others_same g g' u s → client_of g' u s → own_tables g' u s →
usi_universal_session_id <$> gs_active_sessions g' !! u = Some u → client_inv open g'.
Proof.
intros Hi Hu Ho Hu' [Hpl Hob Hli Hlk] Hid.
assert (Hcl : ∀ t s', client_of g' t s' → client_of g t s').
{ intros t s' Ht. destruct (decide (t = u)) as [->|Hne]; [|by apply (others_client g g' u s)].
  by rw (client_unique g' u s s'). }
split.
- apply (os_posting g g' u s Ho).
- intros t i Ht. rw (os_counter g g' u s Ho). destruct (decide (t = u)) as [->|Hne].
  + rw Ht /= in Hid. injection Hid as ->. split; [done|]. destruct Hu as (i0&Hi0&_). by apply (ci_ids open g Hi u i0).
  + rw (os_active g g' u s Ho) in Ht; [done|]. by apply (ci_ids open g Hi).
- intros h Hh. destruct (ci_open open g Hi h Hh) as (p&Hp&Hpt). exists p. split; [by rw (os_ptr g g' u s Ho)|].
  destruct p as [t|]; [|by rw /= (os_supervisor g g' u s Ho)]. destruct Hpt as (H2t&i&s'&Ht&Hs'&Hh'). split; [done|].
  destruct (decide (t = u)) as [->|Hne]; [|exists i, s'; by rw (os_active g g' u s Ho)].
  destruct Hu' as (i'&Hi'&_&Hs). exists i', s. split_and!; [done..|].
  destruct Hu as (i0&Hi0&_&Hs0). rw Ht in Hi0. injection Hi0 as <-. congruence.
- intros t s' Ht. rw (os_ptr g g' u s Ho). by apply (ci_clients open g Hi), Hcl.
- intros t i Ht Hc. destruct (decide (t = u)) as [->|Hne].
  + destruct Hu' as (i'&Hi'&_&Hs). rw Ht in Hi'. injection Hi' as ->. by exists s.
  + rw (os_active g g' u s Ho) in Ht; [done|]. by apply (ci_sessions open g Hi t).
- intros o p Hop. destruct (decide (p = ActiveSession u)) as [->|Hne].
  + destruct (Hob o Hop) as [H0' Eo]. exists u, s. split_and!; [done| |done]. split; [done|congruence].
  + apply (os_objects g g' u s Ho) in Hop; [|done]. destruct (ci_objects open g Hi o p Hop) as (t&s'&->&Hpt&Eo).
    assert (Ht : t ≠ u) by congruence. exists t, s'.
    destruct (others_playing open g g' u s t s' Hi Hu Ho Ht (proj1 Hpt)) as (Hp&E&_&_).
    split_and!; [done|by apply Hp|congruence].
- intros t s' [Ht Ho']. destruct (decide (t = u)) as [->|Hne].
  + rw (client_unique g' u s s' Hu' Ht) in Ho' |- *. by apply Hpl.
  + destruct (others_playing open g g' u s t s' Hi Hu Ho Hne (Hcl t s' Ht)) as (Hp&Eo&Es&Eu).
    rw Eo Es Eu (os_linked g g' u s Ho t Hne).
    destruct (ci_playing open g Hi t s') as (P1&P2&P3&P4); [apply Hp; by split|].
    split_and!; [|done|done|].
    * apply (os_objects g g' u s Ho); [congruence|done].
    * intros x. rw (os_listens g g' u s Ho); [done|]. apply P4.
- intros t x Hl. destruct (decide (t = u)) as [->|Hne]; [exists s; split; [done|by apply (Hli x)]|].
  rw (os_listens g g' u s Ho) in Hl; [done|]. destruct (ci_listeners open g Hi t x Hl) as [s' Hp]. exists s'.
  by apply (others_playing open g g' u s t s' Hi Hu Ho Hne (proj1 Hp)).
- intros t s' Hl Hns. destruct (decide (t = u)) as [->|Hne]; [by rw (Hlk s' Hl)|].
  rw (os_linked g g' u s Ho) in Hl; [done|]. apply (others_client g g' u s t s' Ho Hne). by apply (ci_linked open g Hi).
- rw (os_ready g g' u s Ho). intros Hr t s' Ht. by apply (ci_ready open g Hi Hr t s'), Hcl.
Qed.

Lemma SetUserData_other s s' k k' v d :
ses_handle s' ≠ ses_handle s → GetUserData s' k' (SetUserData s k v d) = GetUserData s' k' d.
Proof. intros Hh. rw GetUserData_set decide_False; [|done]. naive_solver. Qed.

Lemma SetUserData_own s k k' v d :
0 ≤ v < 2 ^ 64 → GetUserData s k' (SetUserData s k v d) = if decide (k' = k) then v else GetUserData s k' d.
Proof.
intros Hv. rw GetUserData_set u64_small; [done|]. destruct (decide (k' = k)) as [->|Hne].
- by rw decide_True.
- rw decide_False; [naive_solver|done].
Qed.

(** A character appears: the object is [o], in the sector [x]. *)
Lemma enter_world open g g' u s o x :
client_inv open g → client_of g u s → object_of g s = 0 → linked (gs_sector_posting_manager g) u = Some s →
object_sessions g !! o = None → 0 < o < 2 ^ 64 → 0 ≤ x < 2 ^ 64 → u < 2 ^ 64 →
gs_active_sessions g' = gs_active_sessions g → gs_session_info_ptr g' = gs_session_info_ptr g →
gs_supervisor_server_info g' = gs_supervisor_server_info g →
gs_current_universal_session_id g' = gs_current_universal_session_id g → gs_service_ready g' = gs_service_ready g →
gs_user_data g' = SetUserData s AgencySessionValue_ObjectId o (SetUserData s AgencySessionValue_UserId u
  (SetUserData s AgencySessionValue_SectorId x (gs_user_data g))) →
object_sessions g' = <[o := ActiveSession u]> (object_sessions g) →
gs_sector_posting_manager g' = exec (C:=C) (OpListen x u) (gs_sector_posting_manager g) →
client_inv open g'.
Proof.
intros Hi Hu Hob Hl Hnew Ho Hx Hu64 Ea Ep Esup Ec Er Ed Eo Epm.
pose proof (ci_posting open g Hi) as Hp. destruct (ci_clients open g Hi u s Hu) as (Hns&_&_).
destruct Hu as (i&Hu&Hc&Hs). destruct (ci_ids open g Hi u i Hu) as [Hid Hr].
pose proof (entry_client g u i s Hu Hc Hs) as Hcl.
destruct (exec_refines (C:=C) servers (OpListen x u) _ Hp) as (Rl&_&Rk). cbn in Rl, Rk.
assert (Hnone : ∀ y, ¬ listens (gs_sector_posting_manager g) u y).
{ intros y Hy. destruct (ci_listeners open g Hi u y Hy) as (s'&Hs'&Hne). by rw (client_unique g u s s' Hcl Hs') in Hne. }
assert (Hnob : ∀ o', object_sessions g !! o' ≠ Some (ActiveSession u)).
{ intros o' Ho'. destruct (ci_objects open g Hi o' _ Ho') as (t&s'&Et&[Hs' Hne]&_). injection Et as <-.
  by rw (client_unique g u s s' Hcl Hs') in Hne. }
assert (Eob : object_of g' s = o) by (rw /object_of Ed SetUserData_own; [lia|done]).
apply (client_update open g g' u s); [done..| |by exists i; rw Ea| |by rw Ea Hu /= Hid].
- split; try done.
  + rw Epm. by apply exec_preserves.
  + intros t y Ht. rw Epm Rl. naive_solver.
  + intros t Ht. rw Epm. apply Rk.
  + intros t _. by rw Ea.
  + intros s' k Hh. rw Ed !SetUserData_other; done.
  + intros o' p Hp'. rw Eo lookup_insert_Some. split; [|naive_solver congruence].
    intros [[_ E]|[_ E]]; [congruence|done].
- split.
  + intros _. rw Eob Eo lookup_insert_eq. split_and!; [done| | |].
    * rw /user_of Ed !SetUserData_own; [lia..|]. done.
    * by rw Epm Rk.
    * intros y. rw Epm Rl /sector_of Ed !SetUserData_own; [lia..|]. cbn. naive_solver.
  + intros o'. rw Eo lookup_insert_Some. intros [[<- _]|[_ E]]; [split; [lia|done]|by destruct (Hnob o')].
  + intros y _. rw Eob. lia.
  + intros s'. rw Epm Rk Hl. congruence.
Qed.

(** A character moves to the sector [x]. *)
Lemma change_sector open g g' u s x x0 :
client_inv open g → playing g u s → 0 ≤ x < 2 ^ 64 →
gs_active_sessions g' = gs_active_sessions g → gs_session_info_ptr g' = gs_session_info_ptr g →
gs_supervisor_server_info g' = gs_supervisor_server_info g →
gs_current_universal_session_id g' = gs_current_universal_session_id g → gs_service_ready g' = gs_service_ready g →
gs_user_data g' = SetUserData s AgencySessionValue_SectorId x (gs_user_data g) →
object_sessions g' = object_sessions g →
gs_sector_posting_manager g' = exec (C:=C) (OpListen x u) (exec (C:=C) (OpUnlisten x0 u) (gs_sector_posting_manager g)) →
client_inv open g'.
Proof.
intros Hi [Hu Hne] Hx Ea Ep Esup Ec Er Ed Eo Epm.
pose proof (ci_posting open g Hi) as Hp. destruct (ci_clients open g Hi u s Hu) as (Hns&_&_).
destruct (ci_playing open g Hi u s) as (P1&P2&P3&P4); [by split|].
pose proof Hu as (i&Hui&Hc&Hs). destruct (ci_ids open g Hi u i Hui) as [Hid Hr].
pose proof (exec_preserves (C:=C) servers (OpUnlisten x0 u) _ Hp I) as Hp1.
destruct (exec_refines (C:=C) servers (OpUnlisten x0 u) _ Hp) as (Rl1&_&Rk1).
destruct (exec_refines (C:=C) servers (OpListen x u) _ Hp1) as (Rl&_&Rk). cbn in Rl, Rk, Rl1, Rk1.
assert (Eob : object_of g' s = object_of g s) by (rw /object_of Ed SetUserData_own; done).
apply (client_update open g g' u s); [done..| |by exists i; rw Ea| |by rw Ea Hui /= Hid].
- split; try done.
  + rw Epm. by apply exec_preserves.
  + intros t y Ht. rw Epm Rl Rl1. naive_solver.
  + intros t Ht. rw Epm Rk. apply Rk1.
  + intros t _. by rw Ea.
  + intros s' k Hh. rw Ed SetUserData_other; done.
  + intros o' p Hp'. by rw Eo.
- split.
  + intros _. rw Eob Eo. split_and!; [done| | |].
    * rw /user_of Ed SetUserData_own; done.
    * by rw Epm Rk Rk1.
    * intros y. rw Epm Rl Rl1 /sector_of Ed SetUserData_own; [done|]. cbn. naive_solver.
  + intros o'. rw Eo Eob. intros Ho'. destruct (ci_objects open g Hi o' _ Ho') as (t&s'&Et&[Hs' Hn']&<-).
    injection Et as <-. by rw (client_unique g u s s' Hu Hs') in Hn' |- *.
  + intros y _. by rw Eob.
  + intros s'. rw Epm Rk Rk1 P3. congruence.
Qed.

Lemma server_inv_data g g' :
server_inv g → gs_loopback_session g' = gs_loopback_session g → gs_my_server_info g' = gs_my_server_info g →
gs_server_sessions g' = gs_server_sessions g → gs_supervisor_server_info g' = gs_supervisor_server_info g →
gs_connection_config g' = gs_connection_config g →
gs_current_universal_session_id g' = gs_current_universal_session_id g → gs_service_ready g' = gs_service_ready g →
(∀ s, GetUserData s SERVER_ID_KEY (gs_user_data g') = GetUserData s SERVER_ID_KEY (gs_user_data g)) → server_inv g'.
Proof.
intros [? ? ? ? ? Hk Hcl ? ?] El Em En Es Ec Eu Er Ed. split; rw ?El ?Em ?En ?Es ?Ec ?Eu ?Er; try done; intros s; rw Ed.
- apply Hk.
- apply Hcl.
Qed.

Lemma SetUserData_key s s' k k' v d : k' ≠ k → GetUserData s' k' (SetUserData s k v d) = GetUserData s' k' d.
Proof. intros Hk. rw GetUserData_set decide_False; [naive_solver|done]. Qed.

Definition agency_inv (open : gset Z) g : Prop := client_inv open g ∧ server_inv g.

(** A play server answers a request of ours: it names an object that is new, and
  the user, if still there, asked for a character and has none. *)
Definition spawn_answers g (packet : packet_spawn_character_rs C) : Prop :=
let info := sprs_object_info packet in
0 < oi_object_id info < 2 ^ 64 ∧ 0 ≤ oi_sector_id info < 2 ^ 64 ∧ object_sessions g !! oi_object_id info = None ∧
∀ i, gs_active_sessions g !! sprs_user_id packet = Some i →
  ∃ s, client_of g (sprs_user_id packet) s ∧ object_of g s = 0 ∧
    linked (gs_sector_posting_manager g) (sprs_user_id packet) = Some s.

(** The object as the agency keeps it and passes it on. *)
Definition entered_fixture g (packet : packet_spawn_character_rs C) : Fixture C :=
set_last_transform_time (gs_current_epoch_timestamp g) (oi_fixture (sprs_object_info packet)).

(** The answer for a client that is still there: the character is noted, shown to
  the sector's other clients and handed to its own. *)
Lemma spawn_run open g node packet s :
let info := sprs_object_info packet in
agency_inv open g → client_of g (sprs_user_id packet) s → spawn_answers g packet →
∃ g' o, OnPlaySpawnCharacterRes (C:=C) node packet g = Ok ((), g', o) ∧ agency_inv open g' ∧
  client_of g' (sprs_user_id packet) s ∧ object_of g' s = oi_object_id info ∧ sector_of g' s = oi_sector_id info ∧
  object_sessions g' = <[oi_object_id info := ActiveSession (sprs_user_id packet)]> (object_sessions g) ∧
  sector_objects (oi_sector_id info) (gs_derived g') !! oi_object_id info = Some (entered_fixture g packet) ∧
  Send s (pkt_game_enter_request_rs (mk_game_enter_request_rs (sprs_nickname packet)
    (oi_set_fixture (entered_fixture g packet) info))) ErrorCode_None ∈ o.
Proof.
intros info [Hi Hs] Hcl (Ho&Hx&Hnew&Huser). pose proof Hcl as (i&Hu&Hc&Hs').
destruct (Huser i Hu) as (s'&Hcl'&Hob&Hl). pose proof (client_unique g _ s s' Hcl Hcl') as ->.
eexists _, _. split.
{ rw /OnPlaySpawnCharacterRes /mbind /act_mbind /act_bind /get_state Hu Hs'. reflexivity. }
destruct (ci_ids open g Hi _ i Hu) as [_ Hr]. destruct (si_counter g Hs) as [Hcnt _]. split_and!.
- split; [|apply (server_inv_data g); try done; intros s''; by rw /= !SetUserData_key].
  eapply (enter_world open g _ (sprs_user_id packet) s (oi_object_id info) (oi_sector_id info)); (done || lia).
- by exists i.
- rw /object_of /= SetUserData_own; [lia|done].
- rw /sector_of /= !SetUserData_own; [lia..|done].
- done.
- rw /sector_objects /= lookup_insert_eq /= lookup_insert_eq /= lookup_insert_eq. done.
- rw !elem_of_app !list_elem_of_singleton. tauto.
Qed.

Lemma spawn_step open g id node ns packet :
agency_inv open g → gs_server_sessions g !! id = Some node → isi_session node = Some ns →
spawn_answers g packet → returns (OnPlaySpawnCharacterRes (C:=C) (ServerNode id) packet) g (λ _, agency_inv open).
Proof.
intros Hg Hn Hns Hans. destruct (gs_active_sessions g !! sprs_user_id packet) as [i|] eqn:Hu.
- destruct Hans as (?&?&?&Huser). destruct (Huser i Hu) as (s&Hcl&_).
  destruct (spawn_run open g (ServerNode id) packet s) as (g'&o&Hrun&Hg'&_); [done..|].
  eapply returns_ok; [exact Hrun|done].
- rw /OnPlaySpawnCharacterRes. act_steps. rw Hu /read_server. act_steps. cbn. rw Hn. eapply returns_ok; [reflexivity|].
  rw Hns. act_steps. eapply returns_ok; [reflexivity|]. act_steps. destruct Hg as [Hi Hs].
  apply (server_step_inv open g); [done|]. by apply server_step_derived; [apply server_step_refl|].
Qed.

(** A character that crosses a border leaves the sector the agency has it in. *)
Definition promote_follows g (packet : packet_promote_object_rq C) : Prop :=
let info := porq_object_info packet in
0 ≤ oi_sector_id info < 2 ^ 64 ∧ ∀ u s, object_sessions g !! oi_object_id info = Some (ActiveSession u) →
  client_of g u s → sector_of g s = porq_origin_sector_id packet.

(** The client of an object the agency shows moves with it. *)
Definition promote_moves g g' (packet : packet_promote_object_rq C) : Prop :=
let info := porq_object_info packet in
∀ u s, playing g u s → object_of g s = oi_object_id info →
is_Some (owner_session g (oi_sector_id info)) → is_Some (owner_session g (porq_origin_sector_id packet)) →
is_Some (sector_objects (porq_origin_sector_id packet) (gs_derived g) !! oi_object_id info) →
client_of g' u s ∧ object_of g' s = oi_object_id info ∧ sector_of g' s = oi_sector_id info ∧
sector_objects (oi_sector_id info) (gs_derived g') !! oi_object_id info = Some (oi_fixture info) ∧
∀ x, owner_session g' x = owner_session g x.

Lemma promote_step open g packet :
agency_inv open g → promote_follows g packet →
returns (Agency_OnPlayPromoteObjectReq (C:=C) packet) g (λ _ g', agency_inv open g' ∧ promote_moves g g' packet).
Proof.
intros [Hi Hs] [Hx Hfol]. rw /Agency_OnPlayPromoteObjectReq /promote_moves.
set (info := porq_object_info packet) in *. set (dest := oi_sector_id info) in *.
set (origin := porq_origin_sector_id packet) in *.
act_steps. eapply returns_ok; [exact (owner_session_run g dest)|]. set (g1 := gs_set_sector_posting_manager _ g).
pose proof (server_step_posting g g (OpOwnerSession dest) (server_step_refl g Hs) I : server_step g g1) as Hg1.
act_steps. eapply returns_ok; [exact (owner_session_run g1 origin)|]. set (g2 := gs_set_sector_posting_manager _ g1).
pose proof (server_step_posting g g1 (OpOwnerSession origin) Hg1 I : server_step g g2) as Hg2.
destruct (server_step_inv open g g2 Hi Hg2) as [Hi2 Hs2].
assert (K1 : ∀ x, owner_session g1 x = owner_session g x).
{ intros x. by apply (owner_session_kept _ (OpOwnerSession dest)); [..|apply (ci_posting open g)]. }
assert (K2 : ∀ x, owner_session g2 x = owner_session g x).
{ intros x. rw -K1. apply (owner_session_kept _ (OpOwnerSession origin)); [done..|].
  by apply (owner_session_kept _ (OpOwnerSession dest)); [..|apply (ci_posting open g)]. }
rw (K1 origin).
destruct (owner_session g dest) as [p1|] eqn:E1, (owner_session g origin) as [p2|] eqn:E2;
  try (act_steps; split; [done|]; intros u s _ _ [] []; done).
act_steps. cbn [gs_derived gs_set_derived].
destruct (sector_objects origin (gs_derived g2) !! oi_object_id info) as [f|] eqn:Hf; act_steps.
2: { split; [apply (server_step_inv open g); [done|]; by apply server_step_derived|]. intros u s _ _ _ _ [f Hf'].
  change (gs_derived g2) with (gs_derived g) in Hf. congruence. }
match goal with |- context [?t !! ?k] => destruct (t !! k) as [p|] eqn:Ho end; act_steps.
2: { split; [apply (server_step_inv open g); [done|]; by apply server_step_derived; [apply server_step_derived|]|].
  intros u s Hpl Hob. destruct (ci_playing open g Hi u s Hpl) as [Hos _]. rw Hob in Hos.
  change (object_sessions g !! oi_object_id info = None) in Ho. congruence. }
destruct (object_session_info open g2 _ p Hi2 Ho) as (u&s&i&->&Hpl&Hob&Hu&Hus&Hid).
eapply returns_ok; [apply (read_active _ u i); exact Hu|]. rw Hus. act_steps. eapply returns_ok; [reflexivity|]. act_steps.
rw (_ : GetUserData s AgencySessionValue_SectorId _ =? origin = true); [apply Z.eqb_eq; exact (Hfol u s Ho (proj1 Hpl))|].
eapply returns_ok; [reflexivity|]. rw /MakeObjectListPacket. act_steps. rw Hid. split; [split|].
- by apply (change_sector open g2 _ u s dest origin).
- apply (server_inv_data g2); try done. intros s'. by rw /= SetUserData_key.
- intros u' s' Hpl' Hob' _ _ _.
  assert (E : u' = u ∧ s' = s).
  { destruct (ci_playing open g Hi u' s' Hpl') as [Hos _]. rw Hob' in Hos.
    change (object_sessions g !! oi_object_id info = Some (ActiveSession u)) in Ho. rw Hos in Ho. injection Ho as ->.
    split; [done|]. exact (client_unique g u s s' (proj1 Hpl) (proj1 Hpl')). }
  destruct E as [-> ->]. split_and!.
  + exact (proj1 Hpl).
  + rw /object_of /= SetUserData_own; done.
  + rw /sector_of /= SetUserData_own; done.
  + rw /sector_objects /= !lookup_insert_eq. done.
  + intros x. rw -K2.
    destruct (owner_session_kept (gs_sector_posting_manager g2) (OpUnlisten origin u) x) as [Hp3 K3];
      [done..|apply (ci_posting open g2 Hi2)|].
    destruct (owner_session_kept _ (OpListen dest u) x I (proj1 (ci_clients open g2 Hi2 u s (proj1 Hpl))) Hp3) as [_ K4].
    etrans; [exact K4|exact K3].
Qed.

(** ** Packets *)

(** What the other servers of the repository send, and what they do not.  A
  registration arrives once; a refused recovery is left out. *)
Definition expected_packet g (context : SocketContext) (packet : Packet C) : Prop :=
match packet with
| pkt_authorize_server_rq p =>
    si_server_id (gs_my_server_info g) ≠ asrq_server_id p ∧ asrq_server_id p ≠ SUPERVISOR_SERVER_ID
| pkt_authorize_server_rs p =>
    si_server_id (gs_my_server_info g) ≠ asrs_server_id p ∧ asrs_server_id p ≠ SUPERVISOR_SERVER_ID
| pkt_register_minion_server_rs p =>
    gs_service_ready g = false ∧ minion (rmrs_server_info p) ∧ si_server_id (rmrs_server_info p) ≤ 18446 ∧
    gs_current_universal_session_id g ≤ next_client (si_server_id (rmrs_server_info p))
| pkt_recovery_minion_server_rs _ => ctx_error_code context = ErrorCode_to_Z ErrorCode_None
| pkt_update_intra_server_info_ps p =>
    Forall minion (uips_leaved_server_info p) ∧ Forall minion (uips_joined_server_info p) ∧
    Forall (λ x, ∀ s, GetUserData s SERVER_ID_KEY (gs_user_data g) ≠ si_server_id x) (uips_joined_server_info p)
| pkt_sector_allocation_ps p => Forall (λ i, minion (sai_server_info i)) (saps_allocation_info p)
| pkt_spawn_character_rs p => spawn_answers g p
| pkt_promote_object_rq p => promote_follows g p
| _ => True
end.

Definition expected g (context : SocketContext) : Prop :=
∀ t packet, ctx_packet_type context = Some t → DeserializePacketBody t (ctx_body context) = Some packet →
  expected_packet g context packet.

Lemma close_server_run g id node ns :
gs_server_sessions g !! id = Some node → isi_session node = Some ns →
close_server (C:=C) (ServerNode id) g = Ok ((), g, [CloseSession ns]).
Proof.
intros Hn Hs. rw /close_server /read_server /mbind /act_mbind /act_bind /get_state Hn /= Hs. done.
Qed.

Lemma server_step_agency {A} open g (m : M A) :
client_inv open g → returns m g (λ _, server_step g) → returns m g (λ _, agency_inv open).
Proof. intros Hi Hm. eapply returns_mono; [exact Hm|]. intros a g'. by apply server_step_inv. Qed.

Lemma cache_step open g s m (k : () → M ()) :
agency_inv open g →
(∀ g', agency_inv open g' → gs_sector_posting_manager g' = gs_sector_posting_manager g → returns (k ()) g' (λ _, agency_inv open)) →
returns (set_sector_objects s m ≫= k) g (λ _, agency_inv open).
Proof.
intros [Hi Hs] Hk. act_steps. apply Hk; [|done]. apply (server_step_inv open g); [done|].
by apply server_step_derived; [apply server_step_refl|].
Qed.

Lemma intra_data_step open g id node ns context :
agency_inv open g → gs_server_sessions g !! id = Some node → isi_session node = Some ns → expected g context →
returns (Agency_OnIntraServerData (ServerNode id) context) g (λ _, agency_inv open).
Proof.
intros [Hi Hs] Hn Hns Hexp. rw /Agency_OnIntraServerData.
assert (Hclose : returns (close_server (C:=C) (ServerNode id)) g (λ _, agency_inv open))
  by (eapply returns_ok; [exact (close_server_run g id node ns Hn Hns)|done]).
assert (Hret : returns (mret () : M ()) g (λ _, agency_inv open)) by by act_steps.
destruct (ctx_packet_type context) as [t|] eqn:Ht; [|done].
destruct t; try done;
  (destruct (DeserializePacketBody _ (ctx_body context)) as [packet|] eqn:Hb; [|done]);
  destruct packet; try done; pose proof (Hexp _ _ Ht Hb) as He; cbn in He.
all: lazymatch goal with
  | |- returns (OnPlaySpawnCharacterRes _ _) _ _ => by apply (spawn_step open g id node ns)
  | |- returns (OnPlayMoveCharacterRes _ _) _ _ => by apply server_step_agency; [|apply (move_res_step open)]
  | |- returns (Agency_OnPlayPromoteObjectReq _) _ _ =>
      eapply returns_mono; [by apply (promote_step open)|]; intros [] g' []; done
  | |- _ => rw /OnPlayRemoveCharacterRes || rw /OnPlayObjectCreatePush || rw /OnPlayObjectRemovePush ||
      rw /OnPlayObjectMovePush; do 2 act_step; apply cache_step; [done|]; intros g' Hg' _; by act_steps
  end.
Qed.

Lemma client_data_step open g h u context :
agency_inv open g → points_to g h (ActiveSession u) →
returns (Agency_OnClientData (C:=C) (ActiveSession u) context) g (λ _, agency_inv open).
Proof.
intros [Hi Hs] Hp. destruct (read_info_run g h _ Hp) as (i&s&Hr&Hus&_).
destruct (close_info_run g h _ Hp) as [o Ho].
assert (Hclose : returns (close_info (C:=C) (ActiveSession u)) g (λ _, agency_inv open))
  by (eapply returns_ok; [exact Ho|done]).
rw /Agency_OnClientData /session_of. act_steps. eapply returns_ok; [exact Hr|]. rw Hus.
eapply returns_ok; [reflexivity|]. act_steps. destruct (_ =? 0); [by act_steps|].
destruct (ctx_packet_type context) as [t|]; [|by act_steps].
destruct t; try (act_steps; done). destruct (DeserializePacketBody _ _) as [packet|]; [|done]. destruct packet; try done.
by apply server_step_agency; [|apply (user_move_step g h)].
Qed.

Lemma authorized_data_step open g h p context :
agency_inv open g → points_to g h p → expected g context →
returns (on_authorized_data (agency_hooks (C:=C)) context p) g (λ _, agency_inv open).
Proof.
intros Hg Hp Hexp. destruct (read_info_run g h p Hp) as (i&s&Hr&Hus&_). rw /on_authorized_data. act_steps.
eapply returns_ok; [exact Hr|]. destruct (usi_is_authorized i).
- rw Hus. cbn [negb]. act_steps. eapply returns_ok; [reflexivity|]. act_steps. rw /GetServerSession. act_steps.
  destruct (gs_server_sessions g !! GetUserData s SERVER_ID_KEY (gs_user_data g)) as [node|] eqn:Hn; [|by act_steps].
  destruct (si_claims g (proj2 Hg) s node Hn) as [ns Hns]. by apply (intra_data_step open g _ node ns).
- destruct (close_info_run g h p Hp) as [o Ho]. eapply returns_ok; [exact Ho|done].
Qed.

Lemma data_step open g context :
server_ids → agency_inv open g → ses_handle (ctx_session context) ∈ open → expected g context →
returns (OnSocketSessionData agency_hooks context) g (λ _, agency_inv open).
Proof.
intros Hids Hg Hopen Hexp. pose proof Hg as [Hi Hs]. destruct (ci_open open g Hi _ Hopen) as (p&Hptr&Hp).
destruct (read_info_run g _ p Hp) as (i&s&Hr&Hus&Hpi). destruct (close_info_run g _ p Hp) as [o Ho].
assert (Hclose : returns (close_info (C:=C) p) g (λ _, agency_inv open)) by (eapply returns_ok; [exact Ho|done]).
pose proof (authorized_data_step open g _ p context Hg Hp Hexp) as Hauth.
rw /OnSocketSessionData /get_session_info. act_steps. rw Hptr. eapply returns_ok; [reflexivity|]. act_steps.
eapply returns_ok; [exact Hr|]. act_steps. destruct (usi_is_client i) eqn:Hc.
{ destruct (gs_service_ready g); [|by act_steps]. cbn [negb]. destruct p as [u|].
  - by apply (client_data_step open g (ses_handle (ctx_session context))).
  - destruct (si_supervisor g Hs) as (_&E&_). congruence. }
destruct (ctx_packet_type context) as [t|] eqn:Ht; [|done].
destruct t; try done; (destruct (DeserializePacketBody _ (ctx_body context)) as [packet|] eqn:Hb; [|done]);
  destruct packet; try done; pose proof (Hexp _ _ Ht Hb) as He; cbn in He.
all: lazymatch goal with
  | |- returns (on_register_minion_server_rs _) _ _ => destruct He as (?&?&?&?); by apply register_step
  | |- returns (on_recovery_minion_server_rs _ _) _ _ =>
      rw /on_recovery_minion_server_rs He; act_steps; done
  | |- returns (on_update_intra_server_info_ps _ _) _ _ =>
      destruct He as (?&?&?); by apply server_step_agency; [|apply update_intra_step]
  | |- returns (on_sector_allocation_ps _ _) _ _ => by apply server_step_agency; [|apply sector_allocation_step]
  | |- returns (on_authorize_server_rq _ _ _ _) _ _ =>
      destruct He; by apply server_step_agency; [|apply (authorize_rq_step g context (ses_handle (ctx_session context)))]
  | |- returns (on_authorize_server_rs _ _ _ _) _ _ =>
      destruct He; by apply server_step_agency; [|apply (authorize_rs_step g context (ses_handle (ctx_session context)))]
  end.
Qed.

(** ** Sessions begin *)

(** [ResetUserData], which the network engine runs before it hands over the first
  event of a session; the pointer under [UNIVERSAL_SESSION_INFO_KEY] is part of
  the data. *)
Definition reset_session (session : SessionRef) : M () :=
modify (λ g, gs_set_session_info_ptr (delete (ses_handle session) (gs_session_info_ptr g))
  (gs_set_user_data (ResetUserData session (gs_user_data g)) g)).

Lemma GetUserData_reset session s k d :
GetUserData s k (ResetUserData session d) = if decide (ses_handle s = ses_handle session) then 0 else GetUserData s k d.
Proof.
rw /GetUserData /ResetUserData. case_decide as E.
- by rw E lookup_insert_eq.
- rw lookup_insert_ne; [congruence|done].
Qed.

Lemma reset_step open g session :
agency_inv open g → ses_handle session ∉ open →
returns (reset_session session) g (λ _ g', agency_inv open g' ∧ ∀ k, GetUserData session k (gs_user_data g') = 0).
Proof.
intros [Hi Hs] Hh. rw /reset_session. act_steps. set (g' := gs_set_session_info_ptr _ _).
assert (Hdata : ∀ u s k, client_of g u s → GetUserData s k (gs_user_data g') = GetUserData s k (gs_user_data g)).
{ intros u s k Hu. rw /= GetUserData_reset decide_False; [|done]. intros E.
  destruct (ci_clients open g Hi u s Hu) as (_&Hin&_). congruence. }
assert (Hplay : ∀ u s, playing g' u s ↔ playing g u s).
{ intros u s. rw /playing /object_of. split; intros [Hu Hne]; (split; [done|]); rw (Hdata u s) in Hne |- *; done. }
split; [split|].
- destruct Hi as [Hp Hids Ho Hc Hse Hob Hpl Hli Hlk Hr]. split; try done.
  + intros h Hin. destruct (Ho h Hin) as (p&Hp'&Hpt). exists p. split; [|done]. cbn. rw lookup_delete_ne; [congruence|done].
  + intros u s Hu. destruct (Hc u s Hu) as (Hns&Hin&Hptr). split_and!; [done..|]. cbn. rw lookup_delete_ne; [congruence|done].
  + intros o p Hop. destruct (Hob o p Hop) as (u&s&->&Hpu&Eo). exists u, s. split_and!; [done|by apply Hplay|].
    rw /object_of (Hdata u s); [apply Hpu|done].
  + intros u s Hpu. apply Hplay in Hpu. rw /object_of /user_of /sector_of !(Hdata u s); [apply Hpu..|]. by apply Hpl.
  + intros u x Hl. destruct (Hli u x Hl) as [s Hpu]. exists s. by apply Hplay.
- destruct Hs as [? ? ? Hn ? Hk Hcl ? ?]. split; try done; cbn; intros s; rw GetUserData_reset; case_decide; try done.
  + intros i Hi'. by destruct (Hn 0 i Hi').
  + apply Hcl.
- intros k. by rw /= GetUserData_reset decide_True.
Qed.

(** The entry of a new session. *)
Definition with_entry g (session : SessionRef) (client : bool) : Agency :=
let n := gs_current_universal_session_id g in
gs_set_session_info_ptr (<[ses_handle session := ActiveSession n]> (gs_session_info_ptr g))
  (gs_set_active_sessions (<[n := mkUniversalSessionInfo n (Some session) false client]> (gs_active_sessions g))
    (gs_set_current_universal_session_id (n + 1) g)).

Lemma with_entry_inv open g session client :
agency_inv open g → ses_handle session ∉ open → (∀ k, GetUserData session k (gs_user_data g) = 0) →
gs_current_universal_session_id g + 1 < 2 ^ 64 →
(client = true → gs_service_ready g = true ∧ gs_current_universal_session_id g ∉ servers) →
agency_inv ({[ses_handle session]} ∪ open) (with_entry g session client) ∧
(client = true → client_of (with_entry g session client) (gs_current_universal_session_id g) session).
Proof.
intros [Hi Hs] Hh Hd Hmax Hcl. set (n := gs_current_universal_session_id g) in *. set (g' := with_entry g session client).
destruct (si_counter g Hs) as [Hn _].
assert (Hnew : gs_active_sessions g !! n = None).
{ destruct (gs_active_sessions g !! n) as [i|] eqn:E; [|done]. destruct (ci_ids open g Hi n i E) as [_ Hlt].
  subst n. lia. }
assert (Hold : ∀ u i, gs_active_sessions g !! u = Some i → gs_active_sessions g' !! u = Some i).
{ intros u i Hu. cbn. rw lookup_insert_ne; [intros <-; by rw Hnew in Hu|done]. }
assert (Hclient : ∀ u s, client_of g' u s ↔ client_of g u s ∨ (client = true ∧ u = n ∧ s = session)).
{ intros u s. split.
  - intros (i&Hu&Hc&Hus). rw lookup_insert_Some in Hu. destruct Hu as [[<- <-]|[_ Hu]]; [right; cbn in *; naive_solver|].
    left. by exists i.
  - intros [(i&Hu&Hc&Hus)|(Hc&->&->)]; [exists i; by split_and!; [apply Hold|..]|].
    eexists. split; [apply lookup_insert_eq|done]. }
assert (Hplay : ∀ u s, playing g' u s ↔ playing g u s).
{ intros u s. rw /playing Hclient. split; [|naive_solver]. intros [[Hu|(_&->&->)] Hne]; [done|]. by destruct Hne; apply Hd. }
split; [split|].
- destruct Hi as [Hp Hids Ho Hc Hse Hob Hpl Hli Hlk Hr]. split; try done.
  + intros u i Hu. rw lookup_insert_Some in Hu. destruct Hu as [[<- <-]|[_ Hu]]; cbn; [subst n; lia|].
    destruct (Hids u i Hu). split; [done|]. subst n. lia.
  + intros h. rw elem_of_union elem_of_singleton. destruct (decide (h = ses_handle session)) as [->|Hne].
    * intros _. eexists. cbn. rw lookup_insert_eq. split; [done|]. cbn. split; [lia|]. eexists _, session.
      split; [apply lookup_insert_eq|done].
    * intros [|Hin]; [done|]. destruct (Ho h Hin) as (p&Hp'&Hpt). exists p. cbn. rw lookup_insert_ne; [congruence|].
      split; [done|]. destruct p as [u|]; [|done]. destruct Hpt as (H2u&i&s&Hu&Hrest). split; [done|]. exists i, s.
      split; [by apply Hold|done].
  + intros u s. rw Hclient. intros [Hu|(Hc'&->&->)].
    * destruct (Hc u s Hu) as (Hns&Hin&Hptr). split_and!; [done|set_solver|]. cbn. rw lookup_insert_ne; [congruence|done].
    * split_and!; [by apply Hcl|set_solver|]. apply lookup_insert_eq.
  + intros u i Hu Hc'. rw lookup_insert_Some in Hu. destruct Hu as [[_ <-]|[_ Hu]]; [done|by apply (Hse u)].
  + intros o p Hop. destruct (Hob o p Hop) as (u&s&->&Hpu&Eo). exists u, s. split_and!; [done|by apply Hplay|done].
  + intros u s Hpu. apply Hplay in Hpu. exact (Hpl u s Hpu).
  + intros u x Hl. destruct (Hli u x Hl) as [s Hpu]. exists s. by apply Hplay.
  + intros u s Hl Hns. apply Hclient. left. by apply Hlk.
  + intros Hr' u s. rw Hclient. intros [Hu|(Hc'&_)]; [by apply (Hr Hr' u s)|]. change (gs_service_ready g = false) in Hr'. destruct (Hcl Hc'). congruence.
- destruct Hs as [? ? ? ? ? ? ? ? [? Hrdy]]. split; try done. cbn. subst n. split; [lia|]. intros Hr. specialize (Hrdy Hr). lia.
- intros Hc. apply Hclient. by right.
Qed.

Lemma new_active_session_run open g session :
agency_inv open g → gs_current_universal_session_id g + 1 < 2 ^ 64 →
new_active_session (C:=C) session g = Ok (gs_current_universal_session_id g, with_entry g session false, []).
Proof.
intros [Hi Hs] Hmax. destruct (si_counter g Hs) as [Hn _].
rw /new_active_session /mbind /act_mbind /act_bind /get_state /modify.
destruct (gs_active_sessions g !! gs_current_universal_session_id g) as [i|] eqn:E.
- destruct (ci_ids open g Hi _ i E) as [_ Hlt]. lia.
- cbn. rw u64_small; [lia|done].
Qed.

(** Linked, but not playing yet. *)
Lemma link_client open g u s :
agency_inv open g → client_of g u s → object_of g s = 0 →
agency_inv open (gs_set_sector_posting_manager (exec (C:=C) (OpLink u (Some s)) (gs_sector_posting_manager g)) g).
Proof.
intros [Hi Hs] Hu Hob. split; [|by apply server_inv_posting].
pose proof (ci_posting open g Hi) as Hp. destruct (exec_refines (C:=C) servers (OpLink u (Some s)) _ Hp) as (Rl&_&Rk).
cbn in Rl, Rk. pose proof Hu as (i&Hui&_).
apply (client_update open g _ u s); [done..| |done| |].
- split; try done.
  + by apply exec_preserves.
  + intros t Ht. cbn. rw Rk decide_False; done.
- split; cbn [gs_sector_posting_manager gs_set_sector_posting_manager].
  + by intros [].
  + intros o Ho. destruct (ci_objects open g Hi o _ Ho) as (t&s'&E&[Hs' Hne]&_). injection E as <-.
    by rw (client_unique g u s s' Hu Hs') in Hne.
  + intros x. rw Rl. intros Hl. destruct (ci_listeners open g Hi u x Hl) as (s'&Hs'&Hne).
    by rw (client_unique g u s s' Hu Hs') in Hne.
  + intros s'. rw Rk decide_True; [done|]. congruence.
- cbn. rw Hui /=. by destruct (ci_ids open g Hi u i Hui) as [-> _].
Qed.

(** A client that has asked for a character. *)
Definition waiting g (u : Z) (s : SessionRef) : Prop :=
client_of g u s ∧ object_of g s = 0 ∧ linked (gs_sector_posting_manager g) u = Some s.

Lemma accepted_run open g u s play :
agency_inv open g → client_of g u s → object_of g s = 0 → owner_session g InitialSectorId = Some play →
∃ g', Agency_OnClientAccepted (C:=C) (ActiveSession u) g =
    Ok ((), g', [Post play (pkt_spawn_character_rq (spawn_request u)) Throttle]) ∧
  agency_inv open g' ∧ waiting g' u s ∧ object_sessions g' = object_sessions g.
Proof.
intros Hg Hu Hob Hplay. pose proof Hu as (i&Hui&_&Hus). pose proof Hg as [Hi Hs].
destruct (ci_ids open g Hi u i Hui) as [Hid _].
pose proof (server_step_posting g g (OpOwnerSession InitialSectorId) (server_step_refl g Hs) I) as Hg1.
set (g1 := gs_set_sector_posting_manager _ g) in Hg1. destruct (server_step_inv open g g1 Hi Hg1) as [Hi1 Hs1].
eexists. split.
{ rw /Agency_OnClientAccepted (bind_ok _ _ _ _ _ (read_active g u i Hui)) (bind_ok _ _ _ _ _ (owner_session_run g _)) Hplay.
  rw Hid Hus. reflexivity. }
split_and!; [by apply (link_client open g1)| |done]. split_and!; [done..|].
destruct (exec_refines (C:=C) servers (OpLink u (Some s)) _ (ci_posting open g1 Hi1)) as (_&_&Rk). cbn in Rk.
etrans; [exact (Rk u)|]. by rw decide_True.
Qed.

Lemma accepted_step open g u s :
agency_inv open g → client_of g u s → object_of g s = 0 → 2 < u →
returns (Agency_OnClientAccepted (C:=C) (ActiveSession u)) g (λ _, agency_inv open).
Proof.
intros Hg Hu Hob Hu2. destruct (owner_session g InitialSectorId) as [play|] eqn:Hplay.
{ destruct (accepted_run open g u s play) as (g'&Hrun&Hg'&_); [done..|]. eapply returns_ok; [exact Hrun|done]. }
pose proof Hu as (i&Hui&_&Hus). pose proof Hg as [Hi Hs]. rw /Agency_OnClientAccepted. act_steps.
eapply returns_ok; [exact (read_active g u i Hui)|]. act_steps.
eapply returns_ok; [exact (owner_session_run g InitialSectorId)|]. rw Hplay. set (g1 := gs_set_sector_posting_manager _ g).
assert (Hp : points_to g1 (ses_handle s) (ActiveSession u)) by (split; [done|by exists i, s]).
destruct (close_info_run g1 _ _ Hp) as [o Ho]. eapply returns_ok; [exact Ho|].
apply (server_step_inv open g); [done|].
exact (server_step_posting g g (OpOwnerSession InitialSectorId) (server_step_refl g Hs) I).
Qed.

Lemma accept_step open g context :
server_ids → agency_inv open g → ses_handle (ctx_session context) ∉ open →
gs_current_universal_session_id g + 1 < 2 ^ 64 →
returns (reset_session (ctx_session context) ;; OnSocketSessionAccepted agency_hooks context) g
  (λ _, agency_inv ({[ses_handle (ctx_session context)]} ∪ open)).
Proof.
intros [_ Hids] Hg Hh Hmax. set (session := ctx_session context) in *. act_step.
destruct (returns_inv _ _ _ (reset_step open g session Hg Hh)) as ([]&g1&o&Hr&Hg1&Hd). eapply returns_ok; [exact Hr|].
assert (Ec : gs_current_universal_session_id g1 = gs_current_universal_session_id g) by by injection Hr as <-.
rw -Ec in Hmax. rw /OnSocketSessionAccepted. act_step.
eapply returns_ok; [exact (new_active_session_run open g1 session Hg1 Hmax)|].
destruct (with_entry_inv open g1 session false Hg1 Hh Hd Hmax) as [Hfalse _]; [done|].
destruct (ctx_on_user_engine context); [|by act_steps]. act_steps.
destruct (gs_service_ready (with_entry g1 session false)) eqn:Hready; [|by act_steps]. cbn [negb]. act_steps.
destruct (with_entry_inv open g1 session true Hg1 Hh Hd Hmax) as [Htrue Hcl].
{ intros _. split; [done|]. intros Hin. destruct (si_counter g1 (proj2 Hg1)) as [_ Hc]. specialize (Hc Hready).
  specialize (Hids _ Hin). lia. }
rw (_ : gs_set_active_sessions _ _ = with_entry g1 session true).
{ rw /with_entry /gs_set_active_sessions /=. f_equal. by rw alter_insert_eq. }
apply (accepted_step _ _ _ session); [done|by apply Hcl|by apply Hd|].
destruct (si_counter g1 (proj2 Hg1)) as [Hn _]. lia.
Qed.

(** The supervisor's session is kept apart from the others. *)
Definition with_supervisor g (session : SessionRef) : Agency :=
let sup := isi_set_session (Some session) (gs_supervisor_server_info g) in
gs_set_session_info_ptr (<[ses_handle session := SupervisorInfo]> (gs_session_info_ptr g))
  (gs_set_active_sessions (<[usi_universal_session_id (isi_universal sup) := isi_universal sup]> (gs_active_sessions g))
    (gs_set_server_sessions (<[SUPERVISOR_SERVER_ID := sup]> (gs_server_sessions g))
      (gs_set_supervisor_server_info sup g))).

Lemma with_supervisor_inv open g session :
server_ids → agency_inv open g → ses_handle session ∉ open →
agency_inv ({[ses_handle session]} ∪ open) (with_supervisor g session).
Proof.
intros [Hsub _] [Hi Hs] Hh. set (g' := with_supervisor g session). destruct (si_supervisor g Hs) as (Hid&Hnc&Hinfo).
assert (Hlook : ∀ u, u ≠ 2 → gs_active_sessions g' !! u = gs_active_sessions g !! u).
{ intros u Hu. cbn. rw Hid lookup_insert_ne; congruence. }
assert (Htwo : ∀ i, gs_active_sessions g' !! 2 = Some i → usi_universal_session_id i = 2 ∧ usi_is_client i = false).
{ intros i. cbn. rw Hid lookup_insert_eq => E. injection E as <-. cbn. by rw Hnc. }
assert (Hclient : ∀ u s, client_of g' u s ↔ client_of g u s).
{ intros u s. destruct (decide (u = 2)) as [->|Hne]; [|by rw /client_of Hlook]. split.
  - intros (i&Hu&Hc&_). destruct (Htwo i Hu). congruence.
  - intros Hc. destruct (ci_clients open g Hi 2 s Hc) as (Hns&_). destruct Hns. set_solver. }
split.
- destruct Hi as [Hp Hids Ho Hc Hse Hob Hpl Hli Hlk Hr]. split; try done.
  + intros u i Hu. destruct (decide (u = 2)) as [->|Hne]; [|rw Hlook in Hu; [done|by apply Hids]].
    split; [by apply Htwo|]. destruct (si_counter g Hs) as [Hn _]. cbn. lia.
  + intros h. rw elem_of_union elem_of_singleton. destruct (decide (h = ses_handle session)) as [->|Hne].
    * intros _. exists SupervisorInfo. split; [apply lookup_insert_eq|]. by eexists.
    * intros [|Hin]; [done|]. destruct (Ho h Hin) as (p&Hp'&Hpt). exists p. cbn. rw lookup_insert_ne; [congruence|].
      split; [done|]. destruct p as [u|]; [|by eexists]. destruct Hpt as (H2u&i&s&Hu&Hrest). split; [done|]. exists i, s.
      split; [by rw Hlook; [lia|]|done].
  + intros u s. rw Hclient. intros Hu. destruct (Hc u s Hu) as (Hns&Hin&Hptr). split_and!; [done|set_solver|].
    cbn. rw lookup_insert_ne; [|done]. intros E. apply Hh. by rw E.
  + intros u i Hu Hc'. destruct (decide (u = 2)) as [->|Hne]; [destruct (Htwo i Hu); congruence|].
    rw Hlook in Hu; [done|]. by apply (Hse u).
  + intros o p Hop. destruct (Hob o p Hop) as (u&s&->&[Hu Hne]&Eo). exists u, s. split_and!; [done|split; [by apply Hclient|done]|done].
  + intros u s [Hu Hne]. apply Hclient in Hu. exact (Hpl u s (conj Hu Hne)).
  + intros u x Hl. destruct (Hli u x Hl) as (s&Hu&Hne). exists s. split; [by apply Hclient|done].
  + intros u s Hl Hns. apply Hclient. by apply Hlk.
  + intros Hr' u s. rw Hclient. by apply Hr.
- destruct Hs as [? ? ? Hn ? Hk Hcl ? ?]. split; try done; cbn [gs_server_sessions gs_user_data g' with_supervisor
    gs_set_session_info_ptr gs_set_active_sessions gs_set_server_sessions gs_set_supervisor_server_info].
  + intros id i. rw lookup_insert_Some. intros [[<- <-]|[_ Hid']]; [|by apply Hn]. cbn [isi_server_info isi_set_session].
    rw Hinfo. split_and!; [done|set_solver..|done].
  + intros s i. rw lookup_insert_Some. intros [[E _]|[_ Hi']]; [by destruct (Hk s)|by apply (Hcl s)].
Qed.

Lemma connect_step open g context info :
server_ids → agency_inv open g → ses_handle (ctx_session context) ∉ open →
gs_current_universal_session_id g + 1 < 2 ^ 64 → ctx_on_user_engine context = false →
gs_server_sessions g !! ctx_attachment context = Some info →
returns (reset_session (ctx_session context) ;; OnSocketSessionConnected (C:=C) context) g
  (λ _, agency_inv ({[ses_handle (ctx_session context)]} ∪ open)).
Proof.
intros Hids Hg Hh Hmax Heng Hn. set (session := ctx_session context) in *. act_step.
destruct (returns_inv _ _ _ (reset_step open g session Hg Hh)) as ([]&g1&o&Hr&Hg1&Hd). eapply returns_ok; [exact Hr|].
assert (Ec : gs_current_universal_session_id g1 = gs_current_universal_session_id g) by by injection Hr as <-.
assert (En : gs_server_sessions g1 = gs_server_sessions g) by by injection Hr as <-.
rw -Ec in Hmax. rw -En in Hn. rw /OnSocketSessionConnected Heng. act_step. eapply returns_ok; [reflexivity|].
rw /GetServerSession. act_steps. rw Hn. destruct (decide _) as [Hsup|Hsup].
- act_steps. pose proof (with_supervisor_inv open g1 session Hids Hg1 Hh) as Hinv.
  match goal with |- context [if ?b then _ else _] => destruct b end.
  + rw /GetOwnershipSectors. act_steps. apply (server_step_inv _ (with_supervisor g1 session)); [apply Hinv|].
    exact (server_step_posting _ _ (OpOwnership (si_server_id (gs_my_server_info g1)))
      (server_step_refl (with_supervisor g1 session) (proj2 Hinv)) I).
  + act_steps. exact Hinv.
- act_step. eapply returns_ok; [exact (new_active_session_run open g1 session Hg1 Hmax)|]. act_steps.
  by apply (with_entry_inv open g1 session false Hg1 Hh Hd Hmax).
Qed.

(** ** Sessions end *)

(** The entry [u] of the session [h] goes, and with it all that concerns [u]. *)
Record departs g g' (u : Z) : Prop := {
dp_posting : posting_inv servers (gs_sector_posting_manager g');
dp_listens : ∀ t x, t ≠ u → listens (gs_sector_posting_manager g') t x ↔ listens (gs_sector_posting_manager g) t x;
dp_unlisten : ∀ x, ¬ listens (gs_sector_posting_manager g') u x;
dp_linked : ∀ t, t ∉ servers → linked (gs_sector_posting_manager g') t =
  if decide (t = u) then None else linked (gs_sector_posting_manager g) t;
dp_active : gs_active_sessions g' = delete u (gs_active_sessions g);
dp_ptr : gs_session_info_ptr g' = gs_session_info_ptr g;
dp_supervisor : gs_supervisor_server_info g' = gs_supervisor_server_info g;
dp_data : gs_user_data g' = gs_user_data g;
dp_objects : ∀ o p, object_sessions g' !! o = Some p ↔ object_sessions g !! o = Some p ∧ p ≠ ActiveSession u;
dp_counter : gs_current_universal_session_id g' = gs_current_universal_session_id g;
dp_ready : gs_service_ready g' = gs_service_ready g;
}.

Lemma departed open g g' u h :
client_inv open g → departs g g' u →
(∀ h', h' ∈ open → h' ≠ h → gs_session_info_ptr g !! h' ≠ Some (ActiveSession u)) →
(∀ t, t ≠ u → gs_session_info_ptr g !! h ≠ Some (ActiveSession t)) →
client_inv (open ∖ {[h]}) g'.
Proof.
intros Hi [Dp Dl Dul Dk Da Dptr Dsup Dd Do Dc Dr] Hothers Hown.
assert (Hclient : ∀ t s, client_of g' t s ↔ client_of g t s ∧ t ≠ u).
{ intros t s. rw /client_of Da. split.
  - intros (i&Hu&Hrest). apply lookup_delete_Some in Hu as [Hne Hu]. split; [by exists i|congruence].
  - intros [(i&Hu&Hrest) Hne]. exists i. by rw lookup_delete_ne; [congruence|]. }
assert (Hdata : ∀ s, object_of g' s = object_of g s ∧ sector_of g' s = sector_of g s ∧ user_of g' s = user_of g s)
  by (intros s; by rw /object_of /sector_of /user_of Dd).
assert (Hplay : ∀ t s, playing g' t s ↔ playing g t s ∧ t ≠ u).
{ intros t s. rw /playing Hclient. destruct (Hdata s) as [-> _]. naive_solver. }
destruct Hi as [Hp Hids Ho Hc Hse Hob Hpl Hli Hlk Hr]. split; [done|..].
- intros t i Hu. rw Da in Hu. apply lookup_delete_Some in Hu as [_ Hu]. rw Dc. by apply Hids.
- intros h'. rw elem_of_difference elem_of_singleton. intros [Hin Hne]. destruct (Ho h' Hin) as (p&Hp'&Hpt).
  exists p. rw Dptr. split; [done|]. destruct p as [t|]; [|by rw /= Dsup]. destruct Hpt as (H2t&i&s&Hu&Hrest).
  split; [done|]. exists i, s. split; [|done]. rw Da lookup_delete_ne; [|done]. intros ->. by apply (Hothers h').
- intros t s. rw Hclient. intros [Hu Hne]. destruct (Hc t s Hu) as (Hns&Hin&Hptr). rw Dptr. split_and!; [done| |done].
  apply elem_of_difference. split; [done|]. rw elem_of_singleton. intros E. rw E in Hptr. by apply (Hown t).
- intros t i Hu. rw Da in Hu. apply lookup_delete_Some in Hu as [_ Hu]. by apply (Hse t).
- intros o p. rw Do. intros [Hop Hne]. destruct (Hob o p Hop) as (t&s&->&Hpt&Eo). exists t, s. split_and!; [done| |].
  + apply Hplay. split; [done|congruence].
  + by destruct (Hdata s) as [-> _].
- intros t s. rw Hplay. intros [Hpt Hne]. destruct (Hpl t s Hpt) as (P1&P2&P3&P4). destruct (Hdata s) as (->&->&->).
  destruct (Hc t s (proj1 Hpt)) as (Hns&_). split_and!; [apply Do; split; [done|congruence]|done| |].
  + rw Dk; [done|]. by rw decide_False.
  + intros x. rw Dl; [done|]. apply P4.
- intros t x Hl. destruct (decide (t = u)) as [->|Hne]; [by destruct (Dul x)|]. apply Dl in Hl; [|done].
  destruct (Hli t x Hl) as [s Hpt]. exists s. by apply Hplay.
- intros t s Hl Hns. rw Dk in Hl; [done|]. case_decide; [done|]. apply Hclient. split; [by apply Hlk|done].
- rw Dr. intros Hr' t s. rw Hclient. intros [Hu _]. by apply (Hr Hr' t s).
Qed.

(** The tables of the posting manager without the target [u]. *)
Definition drops (pm pm' : SectorPostingManager) (u : Z) : Prop :=
posting_inv servers pm' ∧ (∀ t x, listens pm' t x ↔ listens pm t x ∧ t ≠ u) ∧
(∀ t, t ∉ servers → linked pm' t = if decide (t = u) then None else linked pm t).

Lemma drops_unset pm u : posting_inv servers pm → drops pm (exec (C:=C) (OpUnset u) pm) u.
Proof.
intros Hp. destruct (exec_refines (C:=C) servers (OpUnset u) _ Hp) as (Rl&_&Rk). cbn in Rl, Rk.
split_and!; [by apply exec_preserves|done|done].
Qed.

Lemma drops_again pm pm' u : drops pm pm' u → drops pm (exec (C:=C) (OpUnset u) pm') u.
Proof.
intros (Hp&Hl&Hk). destruct (drops_unset pm' u Hp) as (Hp'&Hl'&Hk'). split_and!; [done| |].
- intros t x. rw Hl' Hl. naive_solver.
- intros t Ht. rw Hk'; [done|]. case_decide; [done|]. rw Hk; [done|]. by rw decide_False.
Qed.

Lemma drops_server pm pm' u op : drops pm pm' u → server_op op → drops pm (exec (C:=C) op pm') u.
Proof.
intros (Hp&Hl&Hk) Hop. destruct (server_op_keeps op pm' Hp Hop) as (Hp'&Hl'&Hk'). split_and!; [done| |].
- intros t x. by rw Hl' Hl.
- intros t Ht. by rw Hk'; [|apply Hk].
Qed.

(** The session of a server, or of nobody yet, closes. *)
Lemma closed_server g h p i :
server_inv g → points_to g h p → read_info (C:=C) p g = Ok (i, g, []) → usi_is_client i = false →
posting_inv servers (gs_sector_posting_manager g) →
returns (closed_body (agency_hooks (C:=C)) p) g (λ _ g', ∃ pm, g' = gs_set_sector_posting_manager pm g ∧
  drops (gs_sector_posting_manager g) pm (usi_universal_session_id i)).
Proof.
intros Hs Hp Hr Hc Hpm. set (u := usi_universal_session_id i).
destruct (read_info_run g h p Hp) as (i'&s&Hr'&Hus&_). rw Hr in Hr'. injection Hr' as <-.
pose proof (drops_unset _ u Hpm) as Hd. rw /closed_body. act_steps. eapply returns_ok; [exact Hr|]. act_steps.
rw Hc Hus. act_steps. eapply returns_ok; [reflexivity|]. act_steps. rw /GetServerSession. act_steps.
cbn [gs_user_data gs_server_sessions gs_set_sector_posting_manager].
destruct (gs_server_sessions g !! GetUserData s SERVER_ID_KEY (gs_user_data g)) as [node|] eqn:Hn; [|act_steps; by eexists].
destruct (si_nodes g Hs _ _ Hn) as (_&Hin&Hin'&Hsup). act_steps.
pose proof (drops_server _ _ u (OpUnset (si_server_id (isi_server_info node))) Hd Hin') as Hd2.
destruct (decide _) as [Et|_]; [by destruct (si_keys g Hs s (Hsup Et))|].
cbn [hook_OnIntraServerClosed agency_hooks]. rw /Agency_OnIntraServerClosed. act_steps. cbn [gs_server_sessions gs_set_sector_posting_manager].
rw Hn. eapply returns_ok; [reflexivity|]. destruct (decide _); act_steps; [|by eexists].
eexists. split; [reflexivity|].
exact (drops_server _ _ u (OpOwnership (si_server_id (isi_server_info node))) Hd2 I).
Qed.

(** The session of a client closes. *)
Lemma closed_client open g h u i s :
client_inv open g → points_to g h (ActiveSession u) → gs_active_sessions g !! u = Some i → usi_session i = Some s →
usi_is_client i = true →
returns (closed_body (agency_hooks (C:=C)) (ActiveSession u)) g (λ _ g', ∃ pm a,
  g' = gs_set_derived a (gs_set_sector_posting_manager pm g) ∧ drops (gs_sector_posting_manager g) pm u ∧
  ∀ o p, ag_object_sessions a !! o = Some p ↔ object_sessions g !! o = Some p ∧ p ≠ ActiveSession u).
Proof.
intros Hi Hp Hu Hus Hc. destruct (ci_ids open g Hi u i Hu) as [Hid _].
pose proof (entry_client g u i s Hu Hc Hus) as Hcl. pose proof (drops_unset _ u (ci_posting open g Hi)) as Hd.
assert (Hown : ∀ o, object_sessions g !! o = Some (ActiveSession u) → o = object_of g s ∧ o ≠ 0).
{ intros o Ho. destruct (ci_objects open g Hi o _ Ho) as (t&s'&E&[Hs' Hne]&<-). injection E as <-.
  by rw (client_unique g u s s' Hcl Hs') in Hne |- *. }
rw /closed_body. act_steps. eapply returns_ok; [exact (read_active g u i Hu)|]. act_steps. rw Hc.
cbn [hook_OnClientClosed agency_hooks]. rw /Agency_OnClientClosed. act_steps.
eapply returns_ok; [exact (read_active (gs_set_sector_posting_manager _ g) u i Hu)|]. act_steps. rw Hus Hid.
eapply returns_ok; [reflexivity|]. act_steps. cbn [gs_user_data gs_set_sector_posting_manager].
fold (object_of g s). destruct (Z.eqb_spec (object_of g s) 0) as [E0|E0]; act_steps.
- eexists _, _. split; [reflexivity|]. split; [done|]. cbn. intros o p. split; [|naive_solver]. intros Ho. split; [done|].
  intros ->. by destruct (Hown o Ho) as [-> ?].
- eexists _, _. split; [reflexivity|]. split; [exact (drops_again _ _ u Hd)|]. cbn. intros o p.
  rw lookup_delete_Some. split.
  + intros [Hne Ho]. split; [done|]. intros ->. by destruct (Hown o Ho) as [-> _].
  + intros [Ho Hne]. split; [|done]. intros <-. destruct (ci_playing open g Hi u s (conj Hcl E0)) as [E _].
    rw /object_sessions in E Ho. congruence.
Qed.

Lemma drops_departs open g pm a u :
client_inv open g → drops (gs_sector_posting_manager g) pm u →
(∀ o p, ag_object_sessions a !! o = Some p ↔ object_sessions g !! o = Some p ∧ p ≠ ActiveSession u) →
departs g (gs_set_active_sessions (delete u (gs_active_sessions g))
  (gs_set_derived a (gs_set_sector_posting_manager pm g))) u.
Proof.
intros Hi (Hp&Hl&Hk) Ho. split; try done; cbn; intros *; rw Hl; naive_solver.
Qed.

Lemma server_inv_departs g pm a x :
server_inv g → server_inv (gs_set_active_sessions x (gs_set_derived a (gs_set_sector_posting_manager pm g))).
Proof. intros []. by split. Qed.

Lemma close_step open g context :
server_ids → agency_inv open g → ses_handle (ctx_session context) ∈ open →
returns (OnSocketSessionClosed (agency_hooks (C:=C)) context) g
  (λ _, agency_inv (open ∖ {[ses_handle (ctx_session context)]})).
Proof.
intros [Hsub _] [Hi Hs] Hopen. set (h := ses_handle (ctx_session context)) in *.
destruct (ci_open open g Hi h Hopen) as (p&Hptr&Hp). destruct (read_info_run g h p Hp) as (i&s&Hr&Hus&Hpi).
rw /OnSocketSessionClosed /get_session_info. act_steps. fold h. rw Hptr. act_steps.
destruct (usi_is_client i) eqn:Hc.
- destruct p as [u|]; [|destruct (si_supervisor g Hs) as (_&E&_); congruence]. destruct Hpi as [Hu Hh].
  destruct (ci_ids open g Hi u i Hu) as [Hid _].
  destruct (returns_inv _ _ _ (closed_client open g h u i s Hi Hp Hu Hus Hc)) as ([]&g'&o&Hrun&pm&a&->&Hd&Ho).
  eapply returns_ok; [exact Hrun|]. act_steps. eapply returns_ok; [exact (read_active (gs_set_derived a (gs_set_sector_posting_manager pm g)) u i Hu)|]. act_steps.
  rw Hid. split; [|by apply server_inv_departs].
  apply (departed open g _ u h Hi); [exact (drops_departs open g pm a u Hi Hd Ho)| |congruence].
  intros h' Hin Hne Hptr'. destruct (ci_open open g Hi h' Hin) as (p&Hp'&Hpt). rw Hptr' in Hp'. injection Hp' as <-.
  destruct Hpt as (_&i'&s'&Hu'&Hus'&Hh'). congruence.
- destruct (returns_inv _ _ _ (closed_server g h p i Hs Hp Hr Hc (ci_posting open g Hi))) as ([]&g'&o&Hrun&pm&->&Hd).
  eapply returns_ok; [exact Hrun|]. act_steps.
  assert (Hu : usi_universal_session_id i = match p with ActiveSession u => u | SupervisorInfo => 2 end).
  { destruct p as [u|]; [by apply (ci_ids open g Hi), Hpi|]. rw Hpi. apply (si_supervisor g Hs). }
  set (u := usi_universal_session_id i) in *.
  assert (Hnc : ∀ t, ¬ client_of g u t).
  { intros t Ht. destruct p as [v|]; [destruct Hpi as [Hv _]; subst u; rw Hu in Ht; destruct Ht as (j&Hj&Hcj&_); congruence|].
    destruct (ci_clients open g Hi u t Ht) as [Hns _]. apply Hns. rw Hu. set_solver. }
  eapply returns_ok; [destruct p; [exact (read_active (gs_set_sector_posting_manager pm g) _ i (proj1 Hpi))|by rw Hpi]|].
  act_steps. fold u.
  rw (_ : gs_set_active_sessions _ _ = gs_set_active_sessions (delete u (gs_active_sessions g))
    (gs_set_derived (gs_derived g) (gs_set_sector_posting_manager pm g))); [done|].
  split; [|by apply server_inv_departs]. apply (departed open g _ u h Hi).
  + apply (drops_departs open g pm _ u Hi Hd). intros o' p'. split; [|naive_solver]. intros Ho'. split; [done|]. intros ->.
    destruct (ci_objects open g Hi o' _ Ho') as (t&s'&E&[Hs' _]&_). injection E as <-. by apply (Hnc s').
  + intros h' Hin Hne Hptr'. destruct (ci_open open g Hi h' Hin) as (p'&Hp'&Hpt). rw Hptr' in Hp'. injection Hp' as <-.
    destruct Hpt as (H2u&i'&s'&Hu'&Hus'&Hh'). destruct p as [v|]; [|lia]. subst v. destruct Hpi as [Hv Hh]. congruence.
  + intros t Ht E. rw Hptr in E. injection E as ->. by rw Hu in Ht.
Qed.

(** ** Runs *)

Inductive AgencyEvent : Type :=
| EvAccepted (context : SocketContext)
| EvConnected (context : SocketContext)
| EvClosed (context : SocketContext)
| EvData (context : SocketContext)
| EvTick (epoch current_time : Z)
| EvUpdate (current_time delta_time : Z).

Definition run_agency (ev : AgencyEvent) : M () :=
match ev with
| EvAccepted context => reset_session (ctx_session context) ;; OnSocketSessionAccepted agency_hooks context
| EvConnected context => reset_session (ctx_session context) ;; OnSocketSessionConnected context
| EvClosed context => OnSocketSessionClosed agency_hooks context
| EvData context => OnSocketSessionData agency_hooks context
| EvTick epoch current_time => GameServer_UpdateEveryTick agency_hooks epoch current_time
| EvUpdate current_time delta_time => Agency_Update current_time delta_time ;; mret ()
end.

Definition sessions_after (ev : AgencyEvent) (open : gset Z) : gset Z :=
match ev with
| EvAccepted context | EvConnected context => {[ses_handle (ctx_session context)]} ∪ open
| EvClosed context => open ∖ {[ses_handle (ctx_session context)]}
| _ => open
end.

(** The engine begins a session once, ends it once and hands over its packets in
  between; connections are to servers still known when they come about; and the
  ids of sessions do not wrap. *)
Definition agency_enabled (open : gset Z) g (ev : AgencyEvent) : Prop :=
match ev with
| EvAccepted context => ses_handle (ctx_session context) ∉ open ∧ gs_current_universal_session_id g + 1 < 2 ^ 64
| EvConnected context => ses_handle (ctx_session context) ∉ open ∧ gs_current_universal_session_id g + 1 < 2 ^ 64 ∧
    ctx_on_user_engine context = false ∧ is_Some (gs_server_sessions g !! ctx_attachment context)
| EvClosed context => ses_handle (ctx_session context) ∈ open
| EvData context => ses_handle (ctx_session context) ∈ open ∧ expected g context
| EvTick _ _ | EvUpdate _ _ => True
end.

(** The agency before [Initialize]. *)
Definition new_agency : Agency :=
mkGameServer None 100 new_IntraServerInfo new_ServerInfo ∅ ∅ ∅ new_SectorPostingManager false
  (ind_Z "_current_epoch_timestamp") 1 ∅ ∅ new_AgencyData.

Inductive agency_reachable : gset Z → Agency → Prop :=
| agency_initialized address supervisor loopback g o :
  GameServer_Initialize (C:=C) agency_hooks ServerType_Agency address agency_config supervisor loopback new_agency =
    Ok (true, g, o) → agency_reachable ∅ g
| agency_stepped open g ev g' o :
  agency_reachable open g → agency_enabled open g ev → run_agency ev g = Ok ((), g', o) →
  agency_reachable (sessions_after ev open) g'.

(** What [Initialize] makes of it. *)
Definition initialized_agency (address supervisor : SocketAddress) (loopback : SessionRef) : Agency :=
let sup := mkIntraServerInfo (mkUniversalSessionInfo 2 None true false)
  (mkServerInfo ServerType_Supervisor SUPERVISOR_SERVER_ID supervisor) 0 false in
mkGameServer (Some (mkIntraServerInfo (mkUniversalSessionInfo 1 (Some loopback) true false) new_ServerInfo 0 false)) 100 sup
  (mkServerInfo ServerType_Agency 0 address) (config_table agency_config) {[SUPERVISOR_SERVER_ID := sup]} ∅
  new_SectorPostingManager false (ind_Z "_current_epoch_timestamp") 2 ∅ ∅ new_AgencyData.

Lemma agency_Initialize_run address supervisor loopback :
GameServer_Initialize (C:=C) agency_hooks ServerType_Agency address agency_config supervisor loopback new_agency =
  Ok (true, initialized_agency address supervisor loopback, [RegisterConnectorSocket supervisor SUPERVISOR_SERVER_ID]).
Proof. reflexivity. Qed.

Lemma agency_initial_inv address supervisor loopback :
server_ids → agency_inv ∅ (initialized_agency address supervisor loopback).
Proof.
intros [Hsub Hids]. split.
- split; cbn; try done.
  + intros u s (i&Hi&_). done.
  + intros u s [(i&Hi&_) _]. done.
  + intros _ u s (i&Hi&_). done.
- split; cbn; try done.
  + eexists. split_and!; [done|cbn; set_solver|by eexists].
  + set_solver.
  + intros id i. rw lookup_singleton_Some. intros [<- <-]. split_and!; [done|cbn; set_solver..|done].
Qed.

Lemma agency_event_ok open g ev :
server_ids → agency_inv open g → agency_enabled open g ev →
returns (run_agency ev) g (λ _, agency_inv (sessions_after ev open)).
Proof.
intros Hids Hg He. destruct ev as [context|context|context|context|epoch now|now delta]; cbn in He.
- by apply accept_step; destruct He.
- destruct He as (?&?&?&[info Hn]). by apply (connect_step open g context info).
- by apply close_step.
- by apply data_step; destruct He.
- rw /run_agency /GameServer_UpdateEveryTick. act_steps. eapply returns_ok; [reflexivity|]. act_steps.
  destruct Hg as [[] []]. by split; split.
- rw /run_agency /Agency_Update. by act_steps.
Qed.

Lemma agency_reachable_inv open g : server_ids → agency_reachable open g → agency_inv open g.
Proof.
intros Hids Hr. induction Hr as [address supervisor loopback g o Hinit|open g ev g' o Hr IH He Hrun].
- rw agency_Initialize_run in Hinit. injection Hinit as <- _. by apply agency_initial_inv.
- pose proof (agency_event_ok open g ev Hids IH He) as Hok. by rw /returns /wp Hrun in Hok.
Qed.

End agency_runs.

(** ** What the events leave out *)

Section reset.
Context {D C : Type} `{IterOrder} `{Indeterminate C} `{StructPack C} (hooks : Hooks D C).

(** The derived server's part of a reset keeps to its own state. *)
Definition reset_keeps_sessions : Prop :=
∀ g g' o, hook_OnSupervisorResetMinionServer hooks g = Ok ((), g', o) →
  gs_active_sessions g' = gs_active_sessions g ∧ gs_session_info_ptr g' = gs_session_info_ptr g.

Definition keeps_pointers {A} (m : Act (GameServer D) (Effect C) A) : Prop :=
∀ g, match m g with Ok (_, g', _) => gs_session_info_ptr g' = gs_session_info_ptr g | Err _ => True end.

Lemma keeps_bind {A B} (m : Act (GameServer D) (Effect C) A) (k : A → Act (GameServer D) (Effect C) B) :
keeps_pointers m → (∀ a, keeps_pointers (k a)) → keeps_pointers (m ≫= k).
Proof.
intros Hm Hk g. rw /mbind /act_mbind /act_bind. specialize (Hm g). destruct (m g) as [[[a g1] o1]|]; [|done].
specialize (Hk a g1). destruct (k a g1) as [[[b g2] o2]|]; [|done]. congruence.
Qed.

Lemma keeps_for_each {A} (l : list A) (body : A → Act (GameServer D) (Effect C) ()) :
(∀ x, keeps_pointers (body x)) → keeps_pointers (for_each l body).
Proof. intros Hb. induction l as [|x l IH]; [done|]. cbn. by apply keeps_bind. Qed.

Lemma keeps_with_pm f : keeps_pointers (with_pm f).
Proof. intros g. by rw with_pm_run. Qed.

Lemma Reset_clears (g g' : GameServer D) (o : list (Effect C)) :
reset_keeps_sessions → GameServer_Reset hooks g = Ok ((), g', o) →
gs_active_sessions g' = ∅ ∧ gs_session_info_ptr g' = gs_session_info_ptr g.
Proof.
intros Hhook. rw /GameServer_Reset /mbind /act_mbind {1}/act_bind /get_state.
set (loop1 := for_each (iter_map (gs_server_sessions g)) _). set (loop2 := for_each (iter_map (gs_active_sessions g)) _).
assert (H1' : keeps_pointers loop1).
{ apply keeps_for_each. intros [id server]. apply keeps_bind; [by case_match|]. intros _. apply keeps_with_pm. }
assert (H2' : keeps_pointers loop2).
{ apply keeps_for_each. intros [id info]. apply keeps_bind; [|done]. intros g0. by destruct (usi_session info). }
rw {1}/act_bind. specialize (H1' g). destruct (loop1 g) as [[[[] g1] o1]|]; [|done].
rw {1}/act_bind. specialize (H2' g1). destruct (loop2 g1) as [[[[] g2] o2]|]; [|done].
rw {1}/act_bind {1}/modify {1}/act_bind {1}/modify {1}/act_bind with_pm_run {1}/act_bind {1}/modify {1}/act_bind.
match goal with |- context [hook_OnSupervisorResetMinionServer hooks ?x] => set (g3 := x) end.
destruct (hook_OnSupervisorResetMinionServer hooks g3) as [[[[] g4] o4]|] eqn:Hh; [|done].
destruct (Hhook g3 g4 o4 Hh) as [Ea Ep]. cbn. intros E. injection E as <- _. cbn. rw Ea Ep /=. split; [done|congruence].
Qed.

(** C40: A refused recovery makes [Reset] clear [_active_sessions]; the sessions it
  closes still point into that table, so the event that tells of their end
  reads freed memory, and so do packets that were already queued. *)
Theorem reset_dangles (context : SocketContext) (u : Z) (g g' : GameServer D) (o : list (Effect C)) :
reset_keeps_sessions → gs_session_info_ptr g !! ses_handle (ctx_session context) = Some (ActiveSession u) →
GameServer_Reset hooks g = Ok ((), g', o) →
OnSocketSessionClosed hooks context g' = Err (UndefinedBehaviour "dangling UniversalSessionInfo*") ∧
OnSocketSessionData hooks context g' = Err (UndefinedBehaviour "dangling UniversalSessionInfo*").
Proof.
intros Hhook Hptr Hr. destruct (Reset_clears g g' o Hhook Hr) as [Ea Ep]. rw -Ep in Hptr.
assert (Hinfo : read_info (C:=C) (ActiveSession u) g' = Err (UndefinedBehaviour "dangling UniversalSessionInfo*"))
  by by rw /read_info /mbind /act_mbind /act_bind /get_state Ea lookup_empty.
split.
- rw /OnSocketSessionClosed /get_session_info /mbind /act_mbind /act_bind /get_state Hptr /=.
  by rw /closed_body /mbind /act_mbind /act_bind Hinfo.
- by rw /OnSocketSessionData /get_session_info /mbind /act_mbind /act_bind /get_state Hptr /= Hinfo.
Qed.
End reset.
