(* ===== verification/Composition.v ===== *)
(** * An agency and a play server together

    What passes between [agency/agency] and [play/play] for one client: the
    request for a character, the answer and the handover to another sector.  The
    output of a handler of one server is the input of a handler of the other; in
    between, the other events of [AgencySafety.v] and [WorldRuns.v] may occur. *)

From S2P Require Import Prelude Coordinate SectorGrid Fixture Packet Protocol Sampling.
From S2P Require Import PacketThrottler SectorPosting SectorSystem World Handover WorldUpdate WorldRuns.
From S2P Require Import Session Supervisor GameServer Play Agency AgencySafety.
From Stdlib Require Import QArith Lqa.

Open Scope Z_scope.

Section composition.
Context `{IterOrder} `{Indeterminate Q} `{StructPack Q}.
Variable clock : string → Z → Z.
Variable servers : gset Z.
Abbreviation Agency := (GameServer (AgencyData Q)).
Abbreviation PlayServer := (GameServer (World Q)).
Implicit Types (g : Agency) (p : PlayServer).

(** The packet is what a handler reads from the context. *)
Definition arrives (context : SocketContext) (packet : Packet Q) : Prop :=
ctx_packet_type context = Some (PACKET_TYPE packet) ∧
DeserializePacketBody (PACKET_TYPE packet) (ctx_body context) = Some packet.

(** The agency knows no object the sector has yet to create. *)
Definition ids_known g (ss : SectorSystem Q) : Prop := ∀ o, is_Some (object_sessions g !! o) → known_id ss o.

(** The play server [p] has the sector [ss] in which characters start, and is
  connected to the agency [agency_id] by [session]. *)
Record serves p (agency_id : Z) (session : SessionRef) (ss : SectorSystem Q) : Prop := {
sv_world : world_inv (gs_derived p);
sv_sector : has_sector (gs_derived p) InitialSectorId ss;
sv_ids : 0 < ss_current_fixture_id ss ∧ ss_current_fixture_id ss + 1 < 2 ^ 64 ∧
  block (ss_current_fixture_id ss + 1) = block (ss_current_fixture_id ss);
sv_node : ∃ node, gs_server_sessions p !! agency_id = Some node ∧ isi_session node = Some session ∧
  si_server_id (isi_server_info node) = agency_id;
sv_linked : linked (gs_sector_posting_manager p) agency_id = Some session;
}.

Lemma post_linked (pm : SectorPostingManager) t s (packet : Packet Q) :
linked pm t = Some s → SendTo pm t packet = [Post s packet Throttle].
Proof.
rw /linked /session_at /SendTo /post_if_linked. destruct (spm_sessions pm !! t) as [[o r]|]; [|done]. cbn. by intros ->.
Qed.

(** ** A character is created *)

(** The world's answer to the request of the user [u]. *)
Definition spawn_response (ss : SectorSystem Q) (u : Z) : packet_spawn_character_rs Q :=
mk_spawn_character_rs u EmptyString (spawned_info clock ss (spawn_request u)).

Lemma initial_in_world : in_rect WorldRect (InitialCharacterPosition (C:=Q)).
Proof. repeat split; vm_compute; discriminate. Qed.

Lemma spawn_request_served p agency_id session ss u context :
serves p agency_id session ss → arrives context (pkt_spawn_character_rq (spawn_request u)) →
∃ rest, Play_OnIntraServerData clock (ServerNode agency_id) context p =
  Ok ((), gs_set_derived (spawned_world clock ss (spawn_request u) (gs_derived p)) p,
    Post session (pkt_spawn_character_rs (spawn_response ss u)) Throttle :: rest).
Proof.
intros [Hw Hs _ (node&Hn&Hses&Hid) Hl] [Ht Hb]. destruct (world_inv_sector _ _ _ Hw Hs) as (_&_&Hids).
eexists. rw /Play_OnIntraServerData Ht. cbn [PACKET_TYPE] in Hb |- *. rw Hb.
rw /OnAgencySpawnCharacterReq /read_server /mbind /act_mbind /act_bind /get_state Hn. cbn [from_option_ub lift].
rw Hses. cbn [deref_session from_option_ub lift]. rw /run_world /mbind /act_mbind /act_bind /get_state Hid.
rw (SpawnCharacter_run clock _ _ session agency_id (spawn_request u) ss Hs (fresh_id ss Hids)).
rw (post_linked _ _ _ _ Hl). reflexivity.
Qed.

Lemma spawn_response_answers g ss u s :
waiting g u s → ids_known g ss → ss_sector_id ss = InitialSectorId →
0 < ss_current_fixture_id ss < 2 ^ 64 → spawn_answers g (spawn_response ss u).
Proof.
intros (Hc&Hob&Hl) Hk Hid Hr. rw /spawn_answers. cbn [sprs_object_info sprs_user_id spawn_response].
change (oi_object_id (spawned_info clock ss (spawn_request u))) with (ss_current_fixture_id ss).
change (oi_sector_id (spawned_info clock ss (spawn_request u))) with (ss_sector_id ss). rw Hid. split_and!; [lia..|done|done| |].
- destruct (object_sessions g !! ss_current_fixture_id ss) as [q|] eqn:E; [|done].
  destruct (Hk (ss_current_fixture_id ss)) as [Hlt|Hne]; [by exists q|lia|done].
- intros i _. by exists s.
Qed.
(** C2: A client gets its character, end to end.  The agency asks the owner of the
  initial sector; the play server creates a fixture there, at the initial
  position and with an id of its own, and answers the agency.  Whatever the
  agency did meanwhile, if the client still waits, the answer ties the client to
  that object and sector: it listens to the sector and to no other, the agency's
  cache and the client's [packet_game_enter_request_rs] hold the fixture the play
  server created, and both servers are ready for the next client. *)
Theorem spawn_round_trip open g p u s play agency_id session ss :
agency_inv servers open g → client_of g u s → object_of g s = 0 → owner_session g InitialSectorId = Some play →
ids_known g ss → serves p agency_id session ss →
∃ g1 p1 ss' f,
  Agency_OnClientAccepted (ActiveSession u) g =
    Ok ((), g1, [Post play (pkt_spawn_character_rq (spawn_request u)) Throttle]) ∧
  (∀ context, arrives context (pkt_spawn_character_rq (spawn_request u)) → ∃ rest,
    Play_OnIntraServerData clock (ServerNode agency_id) context p =
      Ok ((), p1, Post session (pkt_spawn_character_rs (spawn_response ss u)) Throttle :: rest)) ∧
  agency_inv servers open g1 ∧ waiting g1 u s ∧ ids_known g1 ss ∧
  world_inv (gs_derived p1) ∧ has_sector (gs_derived p1) InitialSectorId ss' ∧
  GetFixture (ss_current_fixture_id ss) ss = None ∧ GetFixture (ss_current_fixture_id ss) ss' = Some f ∧
  fx_position f = InitialCharacterPosition ∧ fx_is_observing_fixture f = false ∧
  ∀ open2 g2 node context,
    agency_inv servers open2 g2 → waiting g2 u s → ids_known g2 ss →
    arrives context (pkt_spawn_character_rs (spawn_response ss u)) →
    let shown := set_last_transform_time (gs_current_epoch_timestamp g2) f in
    ∃ g3 o3, Agency_OnIntraServerData node context g2 = Ok ((), g3, o3) ∧ agency_inv servers open2 g3 ∧
      playing g3 u s ∧ object_of g3 s = ss_current_fixture_id ss ∧ sector_of g3 s = InitialSectorId ∧
      (∀ x, listens (gs_sector_posting_manager g3) u x ↔ x = InitialSectorId) ∧ ids_known g3 ss' ∧
      sector_objects InitialSectorId (gs_derived g3) !! ss_current_fixture_id ss = Some shown ∧
      Send s (pkt_game_enter_request_rs (mk_game_enter_request_rs EmptyString
        (oi_set_fixture shown (sprs_object_info (spawn_response ss u))))) ErrorCode_None ∈ o3.
Proof.
intros Hg Hc Hob Hplay Hk Hsv. pose proof Hsv as [Hw Hs (Hpos&Hmax&Hblk) _ _].
destruct (world_inv_sector _ _ _ Hw Hs) as (_&Hok&Hids). pose proof (sector_id_ok _ _ Hok) as Hid.
destruct (accepted_run servers open g u s play Hg Hc Hob Hplay) as (g1&Hrun&Hg1&Hw1&Hos).
destruct (spawned_ids clock ss (spawn_request u) Hids Hmax Hblk) as (Hkn&Hnew&_).
eexists g1, _, (spawned_sector clock ss (spawn_request u)), (spawned_fixture clock ss (spawn_request u)). split_and!.
- exact Hrun.
- intros context. by apply spawn_request_served.
- done.
- done.
- rw /ids_known Hos. exact Hk.
- apply spawned_inv; [done|done|exact initial_in_world| | |done|done]; split; vm_compute; (reflexivity || discriminate).
- apply lookup_insert_eq.
- by apply fresh_id.
- apply lookup_insert_eq.
- done.
- done.
- intros open2 g2 node context Hg2 Hw2 Hk2 [Ht Hb] shown.
  destruct (spawn_run servers open2 g2 node (spawn_response ss u) s) as (g3&o3&Hrun3&Hg3&Hc3&Hob3&Hse3&Hos3&Hca&Hsend);
    [done|apply Hw2|by apply (spawn_response_answers _ _ _ s); [..|lia]|].
  assert (Hob3' : object_of g3 s = ss_current_fixture_id ss) by exact Hob3.
  assert (Hse3' : sector_of g3 s = InitialSectorId) by (etrans; [exact Hse3|exact Hid]).
  assert (Hpl : playing g3 u s) by (split; [done|rw Hob3'; lia]).
  destruct (ci_playing servers open2 g3 (proj1 Hg3) u s Hpl) as (_&_&_&Hlis).
  exists g3, o3. split_and!; [|done|done|done|done| | | |exact Hsend].
  + rw /Agency_OnIntraServerData Ht. cbn [PACKET_TYPE] in Hb |- *. by rw Hb.
  + intros x. rw (Hlis x) Hse3'. done.
  + intros o [q Hq]. rw Hos3 lookup_insert_Some in Hq. destruct Hq as [[<- _]|[_ Hq]]; [exact Hnew|].
    apply Hkn, Hk2. by exists q.
  + rewrite <-Hid at 1. exact Hca.
Qed.
(** C38: A client that leaves before its character is created.  The agency answers the
  play server with a [packet_remove_character_rs]; a play server has no case for
  that packet, so nothing of its state changes, and the character stays in the
  world without a client. *)
Theorem offline_character_stays g u id node play ss context :
gs_active_sessions g !! u = None → gs_server_sessions g !! id = Some node → isi_session node = Some play →
arrives context (pkt_spawn_character_rs (spawn_response ss u)) →
∃ g', let refusal := pkt_remove_character_rs (mk_remove_character_rs u (ss_sector_id ss) (ss_current_fixture_id ss)) in
  Agency_OnIntraServerData (ServerNode id) context g = Ok ((), g', [Send play refusal ErrorCode_None]) ∧
  ∀ p server context', arrives context' refusal → Play_OnIntraServerData clock server context' p = Ok ((), p, []).
Proof.
intros Hu Hn Hs [Ht Hb]. eexists. cbv zeta. split.
- rw /Agency_OnIntraServerData Ht. cbn [PACKET_TYPE] in Hb |- *. rw Hb.
  rw /OnPlaySpawnCharacterRes /mbind /act_mbind /act_bind /get_state. cbn [sprs_user_id spawn_response]. rw Hu.
  rw /set_sector_objects /modify_agency /modify /read_server /mbind /act_mbind /act_bind /get_state.
  cbn [gs_server_sessions gs_set_derived]. rw Hn. cbn [from_option_ub lift]. rw Hs. reflexivity.
- intros p server context' [Ht' _]. by rw /Play_OnIntraServerData Ht'.
Qed.

(** ** A character crosses a border *)

Lemma user_move_run g u s move play :
client_of g u s → owner_session g (sector_of g s) = Some play →
∃ g', OnUserMoveReq (ActiveSession u) move g = Ok ((), g', [Post play (pkt_character_move_rq
  (mk_character_move_rq (sector_of g s) (object_of g s) (cmrq_starting_position move) (cmrq_direction move) true)) Immediate]).
Proof.
intros (i&Hu&_&Hs) Hplay. eexists. rw /OnUserMoveReq.
assert (Hses : session_of (C:=Q) (ActiveSession u) g = Ok (s, g, [])).
{ rw /session_of (bind_ok _ _ _ _ _ (read_active g u i Hu)) Hs. done. }
rw (bind_ok _ _ _ _ _ Hses) (bind_ok _ _ _ _ _ (eq_refl : get_state g = Ok (g, g, []))).
rw (bind_ok _ _ _ _ _ (owner_session_run g _)) Hplay. done.
Qed.

(** C8: The client follows its character.  When a play server has handed the character
  over and the promotion reaches the agency, the client belongs to the
  destination: it listens to that sector and to no other, the agency shows the
  character where it arrived, and the client's next move goes to the owner of the
  destination. *)
Theorem client_follows_handover open g u s origin dest f phase node context play :
agency_inv servers open g → playing g u s → object_of g s = fx_id f → sector_of g s = origin → valid_sector dest →
owner_session g dest = Some play → is_Some (owner_session g origin) →
is_Some (sector_objects origin (gs_derived g) !! fx_id f) →
arrives context (pkt_promote_object_rq (promotion_packet clock origin dest f phase)) →
∃ g' o, Agency_OnIntraServerData node context g = Ok ((), g', o) ∧ agency_inv servers open g' ∧
  playing g' u s ∧ object_of g' s = fx_id f ∧ sector_of g' s = dest ∧
  (∀ x, listens (gs_sector_posting_manager g') u x ↔ x = dest) ∧
  (∃ shown, sector_objects dest (gs_derived g') !! fx_id f = Some shown ∧ fx_position shown = fx_position f ∧
    fx_sector_id shown = dest) ∧
  ∀ move, ∃ g'', OnUserMoveReq (ActiveSession u) move g' = Ok ((), g'', [Post play (pkt_character_move_rq
    (mk_character_move_rq dest (fx_id f) (cmrq_starting_position move) (cmrq_direction move) true)) Immediate]).
Proof.
intros Hg Hpl Hob Hse Hd Hplay Hor Hca [Ht Hb]. set (packet := promotion_packet clock origin dest f phase) in *.
assert (Hfol : promote_follows g packet).
{ split; [rw /valid_sector in Hd; cbn; lia|]. intros u' s' Ho' Hc'.
  destruct (ci_playing servers open g (proj1 Hg) u s Hpl) as [Ho _]. rw Hob in Ho.
  change (object_sessions g !! fx_id f = Some (ActiveSession u')) in Ho'. rw Ho in Ho'. injection Ho' as <-.
  by rw (client_unique g u s s' (proj1 Hpl) Hc'). }
destruct (returns_inv _ _ _ (promote_step servers open g packet Hg Hfol)) as ([]&g'&o&Hrun&Hg'&Hmoves).
destruct (Hmoves u s Hpl Hob) as (Hc'&Hob'&Hse'&Hca'&Hown); [by exists play|done|done|].
change (object_of g' s = fx_id f) in Hob'. change (sector_of g' s = dest) in Hse'.
assert (Hpl' : playing g' u s) by (split; [done|]; destruct Hpl; congruence).
destruct (ci_playing servers open g' (proj1 Hg') u s Hpl') as (_&_&_&Hlis).
exists g', o. split_and!; [|done|done|done|done| | |].
- rw /Agency_OnIntraServerData Ht. cbn [PACKET_TYPE] in Hb |- *. by rw Hb.
- intros x. rw (Hlis x) Hse'. done.
- eexists. split; [exact Hca'|done].
- intros move. destruct (user_move_run g' u s move play Hc') as [g'' Hm]; [by rw Hse' Hown|].
  exists g''. by rw Hm Hob' Hse'.
Qed.
End composition.
