(* ===== verification/TestClient.v ===== *)
(** * The test client

    [TestClient/TestClient.cpp]: a worker that plays the characters of 200
    connections, walking them at random.  Its fixtures follow the same motion as
    the servers' do, so the positions it reports never leave the world. *)

From S2P Require Import Prelude Coordinate SectorGrid Fixture Packet Protocol Sampling.
From S2P Require Import PacketThrottler SectorPosting SectorSystem World Handover WorldUpdate Session Supervisor GameServer.
From Stdlib Require Import QArith.

Open Scope Z_scope.

Section test_client.
Context {C : Type} `{CoordinateUnit C} `{IterOrder} `{Indeterminate C} `{StructPack C}.
(** The draws of [utility::RandomUint64], and what a failed [deserialize_to]
  leaves in the object it was to fill. *)
Variable RandomUint64 : Z → Z.
Variable left_over : list Z → PacketObjectInfo C.

Record SessionFixture : Type := mkSessionFixture { sf_fixture : Fixture C; sf_session : option SessionRef }.

(** [cw_draws] counts the draws so far. *)
Record ClientWorker : Type := mkClientWorker {
cw_sessions : gmap Z SessionFixture; cw_timer : Timer; cw_draws : Z }.

(** [reinterpret_cast<SocketSession*>(address)->Send(packet)]; sessions are known by
  the addresses of their objects, [ses_handle]. *)
Record ClientSend : Type := mkClientSend { cs_address : Z; cs_packet : packet_character_move_rq C }.

Abbreviation M := (Act ClientWorker ClientSend).

Definition new_ClientWorker (now : Z) : ClientWorker := mkClientWorker ∅ (new_Timer 500 now) 0.

Definition cw_set_sessions x (w : ClientWorker) : ClientWorker := mkClientWorker x (cw_timer w) (cw_draws w).
Definition cw_set_timer x (w : ClientWorker) : ClientWorker := mkClientWorker (cw_sessions w) x (cw_draws w).
Definition cw_set_draws x (w : ClientWorker) : ClientWorker := mkClientWorker (cw_sessions w) (cw_timer w) x.
Definition set_fixture (f : Fixture C) (sf : SessionFixture) : SessionFixture := mkSessionFixture f (sf_session sf).

Definition Client_OnSocketSessionConnected (context : SocketContext) : M () :=
modify (λ w, cw_set_sessions
  (<[ses_id (ctx_session context) := mkSessionFixture new_Fixture (Some (ctx_session context))]> (cw_sessions w)) w).

Definition Client_OnSocketSessionClosed (context : SocketContext) : M () :=
modify (λ w, cw_set_sessions (delete (ses_id (ctx_session context)) (cw_sessions w)) w).

(** [fixture.user_data = reinterpret_cast<uint64_t>(session)] *)
Definition own_fixture (address : Z) (f : Fixture C) : Fixture C := {|
fx_id := fx_id f; fx_position := fx_position f; fx_size := fx_size f; fx_force := fx_force f;
fx_direction := fx_direction f; fx_location := fx_location f;
fx_is_observing_fixture := fx_is_observing_fixture f; fx_phase := fx_phase f; fx_sector_id := fx_sector_id f;
fx_last_transform_time := fx_last_transform_time f; fx_personal_delta_time := fx_personal_delta_time f;
fx_user_data := address |}.

(** [_sessions[id]] inserts an empty entry when there is none. *)
Definition session_fixture (id : Z) (w : ClientWorker) : SessionFixture :=
default (mkSessionFixture new_Fixture None) (cw_sessions w !! id).

Definition Client_OnSocketSessionData (context : SocketContext) : M () :=
match ctx_packet_type context with
| Some PacketType_game_enter_request_rs =>
    let info := match DeserializePacketBody PacketType_game_enter_request_rs (ctx_body context) with
                | Some (pkt_game_enter_request_rs packet) => gers_object_info packet
                | _ => left_over (ctx_body context)
                end in
    let fixture := own_fixture (ses_handle (ctx_session context)) (oi_fixture info) in
    let id := ses_id (ctx_session context) in
    modify (λ w, cw_set_sessions (<[id := set_fixture fixture (session_fixture id w)]> (cw_sessions w)) w)
| _ => mret ()
end.

(** The first loop of [Update]; the iterations are independent. *)
Definition move_fixture (delta_time : Z) (sf : SessionFixture) : SessionFixture :=
if fx_id (sf_fixture sf) =? 0 then sf else set_fixture (Move delta_time (sf_fixture sf)).2 sf.

(** [static_cast<Direction>(utility::RandomUint64() % 8)] *)
Definition random_direction (n : Z) : Direction := Direction_of_Z (u64 (RandomUint64 n) mod 8).

(** The fields [sector_id] and [to_owner] are not set. *)
Definition move_request (f : Fixture C) : packet_character_move_rq C :=
mk_character_move_rq (ind_Z "packet_character_move_rq.sector_id") (fx_id f) (fx_position f) (fx_direction f)
  (ind_bool "packet_character_move_rq.to_owner").

Definition send_move (entry : Z * SessionFixture) : M () :=
let '(id, sf) := entry in
if fx_id (sf_fixture sf) =? 0 then mret ()
else
  w ← get_state;
  let fixture := set_direction (random_direction (cw_draws w)) (sf_fixture sf) in
  modify (λ w, cw_set_draws (cw_draws w + 1) (cw_set_sessions (<[id := set_fixture fixture sf]> (cw_sessions w)) w)) ;;
  emit [mkClientSend (fx_user_data fixture) (move_request fixture)].

(** [now] is the clock [_timer] reads. *)
Definition Client_Update (now current_time delta_time : Z) : M bool :=
modify (λ w, cw_set_sessions (move_fixture delta_time <$> cw_sessions w) w) ;;
w ← get_state;
let '(due, timer) := Timer_bool now (cw_timer w) in
modify (cw_set_timer timer) ;;
(if due : bool then for_each (iter_map (cw_sessions w)) send_move else mret ()) ;;
mret true.
End test_client.
Arguments SessionFixture : clear implicits.
Arguments ClientWorker : clear implicits.
Arguments ClientSend : clear implicits.

(** ** [main] *)

Definition client_socket_config : SocketServerConfig :=
  let c := SocketServerConfig_default in
  mkSocketServerConfig (ssc_parallel_acceptor_count c) 1024 (ssc_max_acceptable_socket_count c) 2 8 131072
    (ssc_write_buffer_pool_size c) (ssc_write_buffer_capacity c) 500.

Definition client_engine_option : NetworkEngineOption :=
  let o := NetworkEngineOption_default in
  mkNetworkEngineOption 5000 5000 2000 1024 false (neo_session_reconnect_timeout_ms o) 33.

(** ** Runs *)

Section test_client_runs.
Context `{IterOrder} `{Indeterminate Q} `{StructPack Q}.
Variable RandomUint64 : Z → Z.
Variable left_over : list Z → PacketObjectInfo Q.
Implicit Types (w : ClientWorker Q) (f : Fixture Q) (sf : SessionFixture Q).

(** A character of the world. *)
Definition in_world f : Prop :=
in_rect WorldRect (fx_position f) ∧ (0 < vx (fx_size f) <= 25000)%Q ∧ (0 < vy (fx_size f) <= 25000)%Q.

(** The client of the session has its character. *)
Definition entered sf : Prop := fx_id (sf_fixture sf) ≠ 0.
#[export] Instance entered_dec sf : Decision (entered sf).
Proof. rw /entered. apply _. Defined.

Definition entry_ok (id : Z) sf : Prop :=
∃ s, sf_session sf = Some s ∧ ses_id s = id ∧
  (entered sf → fx_user_data (sf_fixture sf) = ses_handle s ∧ in_world (sf_fixture sf)).

Definition client_ok w : Prop := map_Forall entry_ok (cw_sessions w).

Inductive ClientEvent : Type :=
| CConnected (context : SocketContext)
| CData (context : SocketContext)
| CClosed (context : SocketContext)
| CUpdate (now current_time delta_time : Z).

Definition run_client (ev : ClientEvent) : Act (ClientWorker Q) (ClientSend Q) bool :=
match ev with
| CConnected context => Client_OnSocketSessionConnected context ;; mret true
| CData context => Client_OnSocketSessionData left_over context ;; mret true
| CClosed context => Client_OnSocketSessionClosed context ;; mret true
| CUpdate now current_time delta_time => Client_Update RandomUint64 now current_time delta_time
end.

(** Data comes on sessions that are connected, and a server's entry packet names a
  character of the world. *)
Definition client_enabled w (ev : ClientEvent) : Prop :=
match ev with
| CData context =>
    (∃ sf, cw_sessions w !! ses_id (ctx_session context) = Some sf ∧ sf_session sf = Some (ctx_session context)) ∧
    (ctx_packet_type context = Some PacketType_game_enter_request_rs →
     ∃ packet, DeserializePacketBody PacketType_game_enter_request_rs (ctx_body context) =
         Some (pkt_game_enter_request_rs packet) ∧ in_world (oi_fixture (gers_object_info packet)))
| _ => True
end.

Inductive client_reachable : ClientWorker Q → Prop :=
| client_new now : client_reachable (new_ClientWorker now)
| client_stepped w ev b w' o :
  client_reachable w → client_enabled w ev → run_client ev w = Ok (b, w', o) → client_reachable w'.

(** ** Motion *)

Lemma in_world_moves dt f : in_world f → in_world (Move dt f).2.
Proof.
intros (Hp&Hx&Hy). assert (Hok : fixture_ok (fx_sector_id f) f) by by split.
destruct (Move_ok _ dt f Hok) as [_ Hx' Hy' _]. exact (conj (Move_in_world _ dt f Hok) (conj Hx' Hy')).
Qed.

Lemma Move_keeps dt f : fx_id (Move dt f).2 = fx_id f ∧ fx_user_data (Move dt f).2 = fx_user_data f.
Proof. by rw /Move; case_decide. Qed.

Lemma move_entered dt sf : entered (move_fixture dt sf) ↔ entered sf.
Proof.
rw /entered /move_fixture. case: (Z.eqb_spec (fx_id (sf_fixture sf)) 0) => Hid; [done|]. cbn. by rw (proj1 (Move_keeps _ _)).
Qed.

Lemma move_ok dt id sf : entry_ok id sf → entry_ok id (move_fixture dt sf).
Proof.
intros (s&Hs&Hid&Hok). exists s. rw move_entered. rw /move_fixture.
case: (Z.eqb_spec (fx_id (sf_fixture sf)) 0) => E; [done|]. split_and!; [done..|]. intros He. destruct (Hok He).
split; cbn; [by rw (proj2 (Move_keeps _ _))|by apply in_world_moves].
Qed.

Lemma random_direction_max n : random_direction RandomUint64 n ≠ Direction_Max.
Proof.
rw /random_direction. set (x := _ mod 8). assert (Hx : 0 ≤ x < 8) by (subst x; apply Z.mod_pos_bound; lia).
clearbody x. destruct (decide (x = 0 ∨ x = 1 ∨ x = 2 ∨ x = 3 ∨ x = 4 ∨ x = 5 ∨ x = 6 ∨ x = 7)) as [Hc|]; [|lia].
by destruct Hc as [->|[->|[->|[->|[->|[->|[->| ->]]]]]]].
Qed.
(** ** Requests *)

(** The entry after its turn, and the request it sends. *)
Definition turned (d : Direction) sf : SessionFixture Q := set_fixture (set_direction d (sf_fixture sf)) sf.
Definition request_of sf : ClientSend Q := mkClientSend (fx_user_data (sf_fixture sf)) (move_request (sf_fixture sf)).

(** What the loop has done to the entries [l] of the table [m]. *)
Record turns (m : gmap Z (SessionFixture Q)) (l : list (Z * SessionFixture Q)) w (o : list (ClientSend Q)) : Prop := {
tr_rest : ∀ id sf, m !! id = Some sf → id ∉ l.*1 ∨ ¬ entered sf → cw_sessions w !! id = Some sf;
tr_done : ∀ id sf, (id, sf) ∈ l → entered sf →
  ∃ d, d ≠ Direction_Max ∧ cw_sessions w !! id = Some (turned d sf) ∧ request_of (turned d sf) ∈ o;
tr_keys : ∀ id, is_Some (cw_sessions w !! id) → is_Some (m !! id);
tr_sent : ∀ x, x ∈ o → ∃ id sf d, (id, sf) ∈ l ∧ entered sf ∧ cw_sessions w !! id = Some (turned d sf) ∧ x = request_of (turned d sf);
tr_count : length o = length (filter (λ e, entered e.2) l);
}.

Lemma send_moves_run m w l :
cw_sessions w = m → NoDup l.*1 → (∀ id sf, (id, sf) ∈ l → m !! id = Some sf) →
wp (for_each l (send_move RandomUint64)) w (λ _ w' o, cw_timer w' = cw_timer w ∧ turns m l w' o) (λ _, False).
Proof.
intros Hm Hnd Hl.
apply (wp_for_each (λ l1 w' o, cw_timer w' = cw_timer w ∧ turns m l1 w' o)).
2: { split; [done|]. split; try done.
  - by rw Hm.
  - intros id sf Hin. by apply not_elem_of_nil in Hin.
  - by rw Hm.
  - intros x Hin. by apply not_elem_of_nil in Hin. }
intros [id sf] l1 l2 w1 o El [Ht [Hr Hd Hk Hs Hc]].
assert (Hfresh : id ∉ l1.*1).
{ rw El fmap_app NoDup_app in Hnd. destruct Hnd as (_&Hno&_). intros Hin. apply (Hno id Hin). cbn. by left. }
rw /send_move. case: (Z.eqb_spec (fx_id (sf_fixture sf)) 0) => E.
{ apply wp_ret. rw app_nil_r. split; [done|]. assert (Hne : ¬ entered sf) by by rw /entered E. split; try done.
  - intros id' sf' Hin Hor. apply Hr; [done|]. destruct Hor as [Hni|]; [|by right]. left.
    rw fmap_app elem_of_app in Hni. tauto.
  - intros id' sf' Hin He. apply elem_of_app in Hin as [Hin|Hin%list_elem_of_singleton]; [by apply Hd|].
    injection Hin as -> ->. done.
  - intros x Hx. destruct (Hs x Hx) as (i&s&d&Hin&?). exists i, s, d. split; [|done]. apply elem_of_app. by left.
  - by rw filter_app length_app filter_cons_False; [|rw Hc; cbn; lia]. }
assert (He : entered sf) by done.
rw /mbind /act_mbind /act_bind /get_state /modify /emit /wp /=. set (d := random_direction RandomUint64 (cw_draws w1)).
change (set_fixture (set_direction d (sf_fixture sf)) sf) with (turned d sf).
change (mkClientSend _ _) with (request_of (turned d sf)). split; [done|].
assert (Hold : ∀ id' d' sf', id' ≠ id → cw_sessions w1 !! id' = Some (turned d' sf') →
  <[id := turned d sf]> (cw_sessions w1) !! id' = Some (turned d' sf')).
{ intros id' d' sf' Hne Hw1. rw lookup_insert_ne; [congruence|done]. }
assert (Hkey : ∀ id' sf', (id', sf') ∈ l1 → id' ≠ id).
{ intros id' sf' Hin ->. apply Hfresh, list_elem_of_fmap. by exists (id, sf'). }
split; cbn.
- intros id' sf' Hin Hor. destruct (decide (id' = id)) as [->|Hne].
  + assert (Hm' : m !! id = Some sf) by (apply Hl; rw El elem_of_app; right; by left). rw Hm' in Hin. injection Hin as <-.
    destruct Hor as [Hni|]; [|done]. exfalso. apply Hni. rw fmap_app elem_of_app. right. by left.
  + rw lookup_insert_ne; [congruence|]. apply Hr; [done|]. destruct Hor as [Hni|]; [|by right]. left.
    rw fmap_app elem_of_app in Hni. tauto.
- intros id' sf' Hin He'. apply elem_of_app in Hin as [Hin|Hin%list_elem_of_singleton].
  + destruct (Hd id' sf' Hin He') as (d'&Hd'&Hw1&Ho). exists d'. split_and!; [done| |by apply elem_of_app; left].
    by apply Hold; [apply (Hkey id' sf')|].
  + injection Hin as -> ->. exists d. split_and!; [apply random_direction_max|apply lookup_insert_eq|].
    apply elem_of_app. right. by left.
- intros id' Hid'. destruct (decide (id' = id)) as [->|Hne].
  + exists sf. apply Hl. rw El elem_of_app. right. by left.
  + rw lookup_insert_ne in Hid'; [congruence|]. by apply Hk.
- intros x Hx. apply elem_of_app in Hx as [Hx|Hx%list_elem_of_singleton].
  + destruct (Hs x Hx) as (i&s&d'&Hin&He'&Hw1&Ex). exists i, s, d'. split_and!; [by apply elem_of_app; left|done| |done].
    by apply Hold; [apply (Hkey i s)|].
  + exists id, sf, d. split_and!; [apply elem_of_app; right; by left|done|apply lookup_insert_eq|done].
- rw filter_app !length_app filter_cons_True; [done|]. by rw Hc.
Qed.
Lemma turned_ok d id sf : entry_ok id sf → entry_ok id (turned d sf).
Proof. intros (s&Hs&Hid&Hok). by exists s. Qed.

Lemma turns_ok m l w o :
map_Forall entry_ok m → (∀ id sf, (id, sf) ∈ l ↔ m !! id = Some sf) → turns m l w o → client_ok w.
Proof.
intros Hm Hl [Hr Hd Hk _ _] id sf Hid. destruct (Hk id) as [sf0 Hsf0]; [by exists sf|]. pose proof (Hm id sf0 Hsf0) as Hok.
destruct (decide (entered sf0)) as [He|Hne].
- destruct (Hd id sf0) as (d&_&Hw&_); [by apply Hl|done|]. rw Hid in Hw. injection Hw as ->. by apply turned_ok.
- rw (Hr id sf0 Hsf0 (or_intror Hne)) in Hid. by injection Hid as <-.
Qed.

(** [_sessions] and [_timer] after the first half of [Update]. *)
Definition moved dt w : gmap Z (SessionFixture Q) := move_fixture dt <$> cw_sessions w.

Lemma Update_run now t dt w :
client_ok w →
∃ w' o, Client_Update RandomUint64 now t dt w = Ok (true, w', o) ∧ client_ok w' ∧
  if (Timer_bool now (cw_timer w)).1 then turns (moved dt w) (iter_map (moved dt w)) w' o
  else o = [] ∧ cw_sessions w' = moved dt w.
Proof.
intros Hok. rw /Client_Update /mbind /act_mbind /act_bind /modify /get_state. cbn [cw_timer cw_sessions cw_set_sessions].
fold (moved dt w).
assert (Hm : map_Forall entry_ok (moved dt w)).
{ intros id sf Hid. rw lookup_fmap in Hid. destruct (cw_sessions w !! id) as [sf0|] eqn:E; [|done]. injection Hid as <-.
  apply move_ok. by apply Hok. }
destruct (Timer_bool now (cw_timer w)) as [[] timer]; cbn [fst snd].
2: { by eexists _, _. }
set (w1 := cw_set_timer timer _).
pose proof (send_moves_run (moved dt w) w1 (iter_map (moved dt w)) eq_refl (NoDup_iter_map _)) as Hrun.
rw /wp in Hrun. destruct (for_each _ _ w1) as [[[[] w'] o]|]; (ospecialize (Hrun _); [intros id sf; apply elem_of_iter_map|]);
  [|done]. destruct Hrun as [_ Hturns].
eexists _, _. split; [reflexivity|]. rw /= app_nil_r. split; [|done].
eapply turns_ok; [exact Hm| |exact Hturns]. intros id sf. apply elem_of_iter_map.
Qed.

Lemma client_event_ok w ev b w' o : client_ok w → client_enabled w ev → run_client ev w = Ok (b, w', o) → client_ok w'.
Proof.
intros Hok He. destruct ev as [context|context|context|now t dt].
- intros [= <- <- _]. apply map_Forall_insert_2; [|done]. exists (ctx_session context). split_and!; [done..|].
  intros Hne. by destruct Hne.
- destruct He as [(sf&Hsf&Hses) Hpacket]. rw /run_client /Client_OnSocketSessionData.
  destruct (ctx_packet_type context) as [ty|]; [|by intros [= <- <- _]].
  destruct ty; try by intros [= <- <- _]. destruct (Hpacket eq_refl) as (packet&Hb&Hin). rw Hb.
  intros [= <- <- _]. apply map_Forall_insert_2; [|done]. exists (ctx_session context).
  rw /session_fixture Hsf. split_and!; [done..|]. by intros _.
- intros [= <- <- _]. by apply map_Forall_delete.
- intros Hrun. destruct (Update_run now t dt w Hok) as (w2&o2&Hrun2&Hok2&_). rw /run_client Hrun2 in Hrun.
  by injection Hrun as _ <- _.
Qed.

Lemma client_reachable_ok w : client_reachable w → client_ok w.
Proof.
induction 1 as [now|w ev b w' o Hr IH He Hrun]; [by apply map_Forall_empty|]. by apply (client_event_ok w ev b w' o).
Qed.

Lemma entered_moved dt w :
length (filter (λ e, entered e.2) (iter_map (moved dt w))) = size (filter (λ e, entered e.2) (cw_sessions w)).
Proof.
rw (_ : size (filter (λ e, entered e.2) (cw_sessions w)) = size (filter (λ e, entered e.2) (moved dt w))).
- rw /moved map_filter_fmap map_size_fmap. f_equal. apply map_filter_ext. intros id sf _. cbn. by rw move_entered.
- rw map_filter_alt map_size_list_to_map.
  + apply (sublist_NoDup _ _ (NoDup_fst_map_to_list (moved dt w))). apply fmap_sublist, sublist_filter.
  + apply Permutation_length. by rw iter_map_perm.
Qed.

(** C29: The test client plays by the rules.  Whatever sessions came, entered and went,
  [Update] returns true and keeps every character inside the world.  Every half
  second it turns each character and sends one request for it, over the session
  that belongs to it, with the object id the server gave, its position and a
  direction; between these it sends nothing. *)
Theorem test_client_walks w now t dt :
client_reachable w →
let due := (Timer_bool now (cw_timer w)).1 in
∃ w' out, Client_Update RandomUint64 now t dt w = Ok (true, w', out) ∧
  (∀ id sf, cw_sessions w' !! id = Some sf → entered sf →
     ∃ s, sf_session sf = Some s ∧ ses_id s = id ∧ in_rect WorldRect (fx_position (sf_fixture sf)) ∧
       (due = true → fx_direction (sf_fixture sf) ≠ Direction_Max ∧
          mkClientSend (ses_handle s) (move_request (sf_fixture sf)) ∈ out)) ∧
  (∀ x, x ∈ out → ∃ id sf s, cw_sessions w' !! id = Some sf ∧ entered sf ∧ sf_session sf = Some s ∧
     x = mkClientSend (ses_handle s) (move_request (sf_fixture sf))) ∧
  length out = if due then size (filter (λ e, entered e.2) (cw_sessions w)) else 0%nat.
Proof.
intros Hr due. destruct (Update_run now t dt w (client_reachable_ok w Hr)) as (w'&out&Hrun&Hok&Hout). fold due in Hout.
exists w', out. split; [done|]. split.
{ intros id sf Hid He. destruct (Hok id sf Hid) as (s&Hs&Hsid&Hent). destruct (Hent He) as [Hu [Hin _]].
  exists s. split_and!; [done..|]. intros Hdue. rw Hdue in Hout. destruct Hout as [Hrest Hdone Hkeys _ _].
  destruct (Hkeys id) as [sf0 Hsf0]; [by exists sf|]. destruct (decide (entered sf0)) as [He0|Hne].
  - destruct (Hdone id sf0) as (d&Hd&Hw&Ho); [by apply elem_of_iter_map|done|]. rw Hid in Hw. injection Hw as ->.
    split; [done|]. rw -Hu. exact Ho.
  - rw (Hrest id sf0 Hsf0 (or_intror Hne)) in Hid. injection Hid as <-. done. }
destruct due.
- destruct Hout as [_ _ _ Hsent Hcount]. split; [|by rw Hcount entered_moved].
  intros x Hx. destruct (Hsent x Hx) as (id&sf&d&_&He&Hw&->). destruct (Hok id _ Hw) as (s&Hs&_&Hent).
  destruct (Hent He) as [Hu _]. exists id, (turned d sf), s. split_and!; [done..|]. by rw /request_of Hu.
- destruct Hout as [-> _]. split; [|done]. intros x Hx. by apply not_elem_of_nil in Hx.
Qed.
End test_client_runs.
