(* ===== verification/Deployment.v ===== *)
(** * Deployment

    The programs [supervisor/supervisor.cpp], [agency/agency.cpp] and
    [play/play.cpp] put transports below their servers, with the configurations
    of [supervisor/Config.h] and of the supervisor's [main].  The theorems on the
    transport have a configuration as their premise; here it is discharged for
    the ones that are deployed. *)

From stdpp Require Import gmultiset.
From S2P Require Import Prelude Coordinate SectorGrid Fixture Packet Protocol PacketThrottler Session Supervisor Memory.
From S2P Require Import Iocp IocpLife IocpRuns IocpSafety.

#[local] Unset SsrOldRewriteGoalsOrder.

Open Scope Z_scope.

(** The supervisor's [main]: fields it does not set keep their defaults. *)
Definition supervisor_socket_config : SocketServerConfig :=
  let c := SocketServerConfig_default in
  mkSocketServerConfig 8 32 32 4 16 65536 (ssc_write_buffer_pool_size c) (ssc_write_buffer_capacity c) 500.

Definition supervisor_engine_option : NetworkEngineOption :=
  let o := NetworkEngineOption_default in
  mkNetworkEngineOption 50000 180000 100 100 false (neo_session_reconnect_timeout_ms o) 100.

(** The transports the programs run. *)
Definition deployed_configs : list SocketServerConfig :=
  [supervisor_socket_config;
   sc_intra_socket_server_config AgencyServerConfig; sc_user_socket_server_config AgencyServerConfig;
   sc_intra_socket_server_config PlayServerConfig; sc_user_socket_server_config PlayServerConfig].

(** How [main] brings a transport up; the exceptions, which name the transport,
    end the process. *)
Definition boot_transport (name : string) (config : SocketServerConfig) (options : SocketOptions) (created : Z → bool)
    (setup : Z → socket_setup) (acceptor : acceptor_setup) : Act IocpSocketServer io_out () :=
  initialized ← IocpSocketServer_Initialize config created setup;
  if negb initialized then throw ("failed to initialize " +:+ name)
  else
    listening ← InitializeAcceptor options acceptor setup;
    if negb listening then throw ("failed to initialize " +:+ name +:+ " acceptor")
    else mret ().

Lemma config_ok_check config :
  (0 <? ssc_max_connectable_socket_count config) && (ssc_max_connectable_socket_count config <? 2 ^ 31) &&
  (0 <? ssc_max_acceptable_socket_count config) && (ssc_max_acceptable_socket_count config <? CONNECTOR_SOCKET_START_ID) &&
  (0 <=? ssc_read_buffer_capacity config) && (ssc_read_buffer_capacity config <? 2 ^ 32) &&
  (0 <=? ssc_write_buffer_capacity config) && (ssc_write_buffer_capacity config <? 2 ^ 32) &&
  (ssc_read_buffer_pool_size config <? 2 ^ 31) && (ssc_write_buffer_pool_size config <? 2 ^ 31) = true →
  config_ok config.
Proof. rw !andb_true_iff !Z.ltb_lt !Z.leb_le. intros. split; lia. Qed.

Lemma deployed_ok : Forall (λ config, config_ok config ∧ startable config = true) deployed_configs.
Proof.
  repeat (apply Forall_cons; split; [split; [apply config_ok_check|]; vm_compute; reflexivity|]). by apply Forall_nil.
Qed.

Lemma boot_transport_run name config options :
  config_ok config → startable config = true →
  ∃ v, boot_transport name config options (λ _, true) willing willing_acceptor new_IocpSocketServer = Ok ((), v, []) ∧
    started config v.
Proof.
  intros Hok Hs. destruct (transport_starts config options Hok Hs) as (v1&v&Hinit&Hacc). exists v.
  split; [|by exists (λ _, true), willing, options, willing_acceptor, willing, v1].
  rw /boot_transport (bind_ok _ _ _ true v1); [done|]. cbn [negb]. by rw (bind_ok _ _ _ true v).
Qed.

(** Every transport that is deployed comes up when the operating system grants
    what is asked for, in a state from which every run is safe. *)
Theorem deployed_transports_boot (options : SocketOptions) :
  Forall (λ config, config_ok config ∧
    ∃ v, boot_transport "server" config options (λ _, true) willing willing_acceptor new_IocpSocketServer = Ok ((), v, []) ∧
      started config v ∧ io_reachable config no_ghost v []) deployed_configs.
Proof.
  eapply Forall_impl; [exact deployed_ok|]. intros config [Hok Hs]. split; [done|].
  destruct (boot_transport_run "server" config options Hok Hs) as (v&Hboot&Hst). exists v. split_and!; [done..|by apply io_start].
Qed.
