(* ===== verification/Programs.v ===== *)
(** * The programs

    The [main] functions of [supervisor/supervisor.cpp], [agency/agency.cpp] and
    [play/play.cpp], up to the loop in which they sleep: a server asks the
    supervisor for its configuration, brings up two transports ([Iocp.v]), puts a
    network engine ([NetworkEngine.v]) on each, initialises its game server
    ([GameServer.v]) and starts the engines, which share one worker
    ([Concurrent.v]).  What it ends up with is where the theorems on the runs of
    these components begin. *)

From stdpp Require Import gmultiset.
From S2P Require Import Prelude Coordinate SectorGrid Fixture Packet Protocol PacketThrottler SectorPosting SectorSystem.
From S2P Require Import World Session Supervisor Memory Concurrent NetworkEngine EngineRead EngineLife.
From S2P Require Import Iocp IocpLife IocpRuns IocpSafety CloudConfig Deployment GameServer Play Agency Topology AgencySafety.

#[local] Unset SsrOldRewriteGoalsOrder.

Open Scope Z_scope.

(** ** Meta.cpp: the socket service *)

(** The functions that [WSAIoctl] looks up. *)
Inductive ExtensionFunction : Type := WSAID_CONNECTEX | WSAID_ACCEPTEX | WSAID_GETACCEPTEXSOCKADDRS | WSAID_DISCONNECTEX.

Record WinSockFnTable : Type := mkWinSockFnTable {
  fn_ConnectEx : Z; fn_AcceptEx : Z; fn_GetAcceptExSockAddrs : Z; fn_DisconnectEx : Z }.

(** The answers of Windows: [WSAStartup], [WSAIoctl] with the pointer it stores, and
    [inet_addr]. *)
Record socket_service : Type := mkSocketService {
  ws_startup : Z; ws_ioctl : ExtensionFunction → Z * Z; ws_inet_addr : string → Z }.

Definition load_function (service : socket_service) (guid : ExtensionFunction) (message : string) : result Z :=
  let '(success, pointer) := ws_ioctl service guid in
  if success =? -1 then Err (Exception message) else Ok pointer.

Definition WinSockFnTable_Initialize (service : socket_service) : result WinSockFnTable :=
  connect_ex ← load_function service WSAID_CONNECTEX "cannot initialize ConnectEx function";
  accept_ex ← load_function service WSAID_ACCEPTEX "cannot initialize AcceptEx function";
  addresses ← load_function service WSAID_GETACCEPTEXSOCKADDRS "cannot initialize GetAcceptExSockAddrs function";
  disconnect_ex ← load_function service WSAID_DISCONNECTEX "cannot initialize DisconnectEx function";
  Ok (mkWinSockFnTable connect_ex accept_ex addresses disconnect_ex).

Definition InitializeSocketService (service : socket_service) : result WinSockFnTable :=
  if ws_startup service =? SOCKET_ERROR then Err (Exception "wsa startup failed") else WinSockFnTable_Initialize service.

(** [std::array<char, 16>] holds the text and its terminator. *)
Definition SocketAddress_New (service : socket_service) (ip : string) (port : Z) : result SocketAddress :=
  if ws_inet_addr service ip =? -1 then Err (AssertionFailed "inet_addr(ip.data()) != -1")
  else if (16 <=? String.length ip)%nat then Err (UndefinedBehaviour "address.ip[ip.size()]")
  else Ok (mkSocketAddress ip port).

(** The answers of the operating system to one transport. *)
Record os_answers : Type := mkOsAnswers {
  oa_created : Z → bool;
  oa_setup : Z → socket_setup;
  oa_acceptor : acceptor_setup;
  oa_late_setup : Z → socket_setup;
  oa_connected : bool;
  oa_bound : Z;
  oa_listening : Z;
  oa_last_error : Z;
  oa_accepted : nat → os_answer;
}.

(** [{ {TCP_NODELAY, 1} }] *)
Definition nodelay : SocketOptions := [(1, 1)].

Definition supervisor_address : SocketAddress := mkSocketAddress "127.0.0.1" 9987.

(** The contexts that wait are the engine's; here only when the worker runs
    matters. *)
Definition new_LinearWorker : LinearWorker NetworkEngine.SocketContext := mkLinearWorker new_LinearWorkQueue 0 0 0 0.

(** [engine->Start()], and the exception when it fails.  The engine starts the
    worker it shares with others. *)
Definition start_engine (message : string) (os : os_answers) (transport : IocpSocketServer)
    (engine : NetworkEngine.NetworkEngine) (worker : LinearWorker NetworkEngine.SocketContext)
    : result (IocpSocketServer * NetworkEngine.NetworkEngine * LinearWorker NetworkEngine.SocketContext) :=
  '(code, transport, _) ← run (IocpSocketServer_Start (oa_late_setup os) (oa_bound os) (oa_listening os)
                                 (oa_last_error os) (oa_accepted os)) transport;
  '(code, engine, o) ← run (NetworkEngine_Start code) engine;
  let worker := foldl (λ w x, match x with WorkerStart tick => LinearWorker_Start tick w | _ => w end) worker o in
  if negb (code =? 0) then Err (Exception message) else Ok (transport, engine, worker).

(** [new NetworkEngine()] and [Initialize] on a transport. *)
Definition engine_on (option : NetworkEngineOption) (transport : IocpSocketServer) (key : SessionKey)
    : NetworkEngine.NetworkEngine :=
  new_NetworkEngine option (sk_config transport) (engine_stream <$> sk_streams transport) key.

(** ** supervisor.cpp *)

Definition supervisor_main (service : socket_service) (os : os_answers) (key : SessionKey) (now : Z)
    : result (IocpSocketServer * NetworkEngine.NetworkEngine * SupervisorWorker * LinearWorker NetworkEngine.SocketContext) :=
  _ ← InitializeSocketService service;
  _ ← SocketAddress_New service "0.0.0.0" 9987;
  '(_, server, _) ← run (boot_transport "supervisor server" supervisor_socket_config nodelay (oa_created os) (oa_setup os)
                          (oa_acceptor os)) new_IocpSocketServer;
  address ← SocketAddress_New service "127.0.0.1" 9987;
  let supervisor := new_SupervisorWorker address now in
  let engine := engine_on supervisor_engine_option server key in
  '(server, engine, worker) ← start_engine "failed to start supervisor server engine" os server engine new_LinearWorker;
  Ok (server, engine, supervisor, worker).

(** ** agency.cpp and play.cpp *)

Record Process (D : Type) : Type := mkProcess {
  pr_intra_server : IocpSocketServer;
  pr_user_server : IocpSocketServer;
  pr_intra_engine : NetworkEngine.NetworkEngine;
  pr_user_engine : NetworkEngine.NetworkEngine;
  pr_game_server : GameServer D;
  pr_worker : LinearWorker NetworkEngine.SocketContext;
}.
Arguments mkProcess {D} _ _ _ _ _ _.
Arguments pr_intra_server {D} _.
Arguments pr_user_server {D} _.
Arguments pr_intra_engine {D} _.
Arguments pr_user_engine {D} _.
Arguments pr_game_server {D} _.
Arguments pr_worker {D} _.

Section programs.
Context {D C : Type} `{CoordinateUnit C} `{IterOrder} `{Indeterminate C} `{StructPack C}.

(** The calls of [_intra_network_engine->RegisterConnectorSocket] that
  [GameServer::Initialize] makes. *)
Fixpoint register_connectors (os : os_answers) (effects : list (Effect C)) (engine : NetworkEngine.NetworkEngine)
  (transport : IocpSocketServer) : result (NetworkEngine.NetworkEngine * IocpSocketServer) :=
match effects with
| [] => Ok (engine, transport)
| SectorPosting.RegisterConnectorSocket address server_id :: effects =>
    '(connector_id, engine, _) ← run (NetworkEngine.RegisterConnectorSocket address server_id) engine;
    '(_, transport, _) ← run (IocpSocketServer_Connect address connector_id (oa_late_setup os) (oa_connected os)) transport;
    register_connectors os effects engine transport
| _ :: effects => register_connectors os effects engine transport
end.

(** From the configuration on; [name] and [user_failure] are what differs between
  the texts of the two programs. *)
Definition game_main (name user_failure : string) (hooks : Hooks D C) (server_type : ServerType)
  (intra_server_config : list IntraServerConfig) (server : GameServer D) (loopback : SessionRef)
  (config : ServerConfig) (service : socket_service) (intra_os user_os : os_answers) (key : SessionKey) : result (Process D) :=
_ ← SocketAddress_New service "0.0.0.0" (sc_intra_server_listen_port config);
'(_, intra_server, _) ← run (boot_transport "intra server" (sc_intra_socket_server_config config) nodelay
                              (oa_created intra_os) (oa_setup intra_os) (oa_acceptor intra_os)) new_IocpSocketServer;
_ ← SocketAddress_New service "0.0.0.0" (sc_user_listen_port config);
'(_, user_server, _) ← run (boot_transport "user server" (sc_user_socket_server_config config) nodelay
                             (oa_created user_os) (oa_setup user_os) (oa_acceptor user_os)) new_IocpSocketServer;
let intra_engine := engine_on (sc_intra_network_engine_option config) intra_server key in
let user_engine := engine_on (sc_user_network_engine_option config) user_server key in
my_address ← SocketAddress_New service "127.0.0.1" (sc_intra_server_listen_port config);
supervisor_address ← SocketAddress_New service "127.0.0.1" 9987;
'(initialized, server, effects) ← run (GameServer_Initialize hooks server_type my_address intra_server_config
  supervisor_address loopback) server;
'(intra_engine, intra_server) ← register_connectors intra_os effects intra_engine intra_server;
if negb initialized then Err (Exception ("failed to initialize " +:+ name +:+ " worker"))
else
  '(intra_server, intra_engine, worker) ←
    start_engine "failed to start intra server engine" intra_os intra_server intra_engine new_LinearWorker;
  '(user_server, user_engine, worker) ← start_engine user_failure user_os user_server user_engine worker;
  Ok (mkProcess intra_server user_server intra_engine user_engine server worker).

(** The whole of [main]: [request_os] answers the transport of the configuration
  client, and the configuration arrives as [env] says. *)
Definition server_main (name user_failure : string) (hooks : Hooks D C) (server_type : ServerType)
  (intra_server_config : list IntraServerConfig) (server : GameServer D) (loopback : SessionRef)
  (fuel : nat) (env : nat → LinearWorkQueue ServerConfig → LinearWorkQueue ServerConfig)
  (service : socket_service) (request_os intra_os user_os : os_answers) (key : SessionKey) : result (Process D) :=
_ ← InitializeSocketService service;
supervisor_address ← SocketAddress_New service "127.0.0.1" 9987;
'(config_manager, _) ← RequestCloudConfig (oa_created request_os) (oa_setup request_os) (oa_connected request_os) key
  (new_CloudConfigManager server_type supervisor_address);
'(config, config_manager, _) ← GetCloudConfig fuel env config_manager;
game_main name user_failure hooks server_type intra_server_config server loopback config service intra_os user_os key.
End programs.

(** [PlayWorker]'s constructor; [InitializeGameServer] makes the world. *)
Definition new_play {C} `{Indeterminate C} : GameServer (World C) :=
  mkGameServer None 100 new_IntraServerInfo new_ServerInfo ∅ ∅ ∅ new_SectorPostingManager false
    (ind_Z "_current_epoch_timestamp") 1 ∅ ∅ new_World.

Section mains.
Context {C : Type} `{CoordinateUnit C} `{IterOrder} `{Indeterminate C} `{StructPack C}.

Definition agency_main := server_main (C:=C) "agency" "failed to initialize user server engine" agency_hooks ServerType_Agency
  agency_config new_agency.

Definition play_main (clock : string → Z → Z) := server_main (C:=C) "play" "failed to start user server engine"
  (play_hooks clock) ServerType_Play play_config new_play.
End mains.

(** ** Coming up *)

(** The operating system grants what a program asks for while it starts; whether
    connections succeed is open. *)
Record obliging (os : os_answers) : Prop := {
  ob_created : oa_created os = (λ _, true);
  ob_setup : oa_setup os = willing;
  ob_acceptor : oa_acceptor os = willing_acceptor;
  ob_bound : oa_bound os = 0;
  ob_listening : oa_listening os = 0;
  ob_accepted : ∀ n, is_BOOL (oa_accepted os n);
}.

(** So does the socket service: it starts, finds the functions and reads the two
    addresses the programs name. *)
Record obliging_service (service : socket_service) : Prop := {
  os_startup : ws_startup service ≠ SOCKET_ERROR;
  os_ioctl : ∀ guid, (ws_ioctl service guid).1 ≠ -1;
  os_loopback : ws_inet_addr service "127.0.0.1" ≠ -1;
  os_any : ws_inet_addr service "0.0.0.0" ≠ -1;
}.

Lemma InitializeSocketService_run service : obliging_service service →
  InitializeSocketService service = Ok (mkWinSockFnTable (ws_ioctl service WSAID_CONNECTEX).2 (ws_ioctl service WSAID_ACCEPTEX).2
    (ws_ioctl service WSAID_GETACCEPTEXSOCKADDRS).2 (ws_ioctl service WSAID_DISCONNECTEX).2).
Proof.
  intros [Hs Hi _ _]. rw /InitializeSocketService (proj2 (Z.eqb_neq _ _) Hs) /WinSockFnTable_Initialize.
  assert (Hload : ∀ guid message, load_function service guid message = Ok (ws_ioctl service guid).2).
  { intros guid message. rw /load_function. specialize (Hi guid). destruct (ws_ioctl service guid) as [code pointer].
    by rw (proj2 (Z.eqb_neq _ _) Hi). }
  by rw !Hload.
Qed.

Lemma SocketAddress_New_run service ip port :
  obliging_service service → ip = "127.0.0.1" ∨ ip = "0.0.0.0" → SocketAddress_New service ip port = Ok (mkSocketAddress ip port).
Proof. intros [_ _ H1 H2] [-> | ->]; rw /SocketAddress_New (proj2 (Z.eqb_neq _ _)); done. Qed.

Definition sound_transport (v : IocpSocketServer) : Prop := ∃ g, io_inv g v ∧ g_popped g = ∅.

(** A configuration a transport can be started with. *)
Definition bootable (config : SocketServerConfig) : Prop :=
  config_ok config ∧ startable config = true ∧ ssc_parallel_acceptor_count config ≤ ssc_max_acceptable_socket_count config.

(** What [Start] needs of a transport. *)
Record startable_transport (config : SocketServerConfig) (v : IocpSocketServer) : Prop := {
  rt_sound : sound_transport v;
  rt_setup : sk_config v = config ∧ sk_is_initialized v = true ∧ sk_has_acceptor v = true;
  rt_ready : buffers_ready v;
  rt_acceptors : ∃ p, sk_acceptor_socket_pool v = Some p ∧
    (Z.to_nat (ssc_max_acceptable_socket_count config) ≤ length (op_pool p))%nat;
}.

Lemma boot_run name config os :
  bootable config → obliging os →
  ∃ v, run (boot_transport name config nodelay (oa_created os) (oa_setup os) (oa_acceptor os)) new_IocpSocketServer = Ok ((), v, []) ∧
    startable_transport config v ∧ ∃ p s l, sk_connector_socket_pool v = Some p ∧ op_pool p = s :: l.
Proof.
  intros (Hok&Hs&_) [-> -> -> _ _ _]. destruct (boot_transport_run name config nodelay Hok Hs) as (v&Hrun&Hst).
  destruct (started_ready config v Hok Hst) as (?&?&?&?&?&?). exists v. split_and!; [done| |done].
  split; [|done..]. exists no_ghost. split; [by apply (started_inv config)|done].
Qed.

Lemma start_transport_run config v os :
  bootable config → obliging os → startable_transport config v →
  ∃ v' o, run (IocpSocketServer_Start (oa_late_setup os) (oa_bound os) (oa_listening os) (oa_last_error os) (oa_accepted os)) v =
      Ok (0, v', o) ∧ sound_transport v'.
Proof.
  intros (_&_&Hpar) [_ _ _ -> -> Hacc] [(g&Hi&Hp) (Hc&Hin&Ha) Hr (p&Hpool&Hlen)].
  set (v1 := mkIocpSocketServer (sk_config v) (sk_is_initialized v) (sk_acceptor_socket_pool v) (sk_connector_socket_pool v)
    (sk_io_handles v) (sk_has_acceptor v) true (sk_streams v) (sk_contexts v) (sk_hang_acceptor_count v)).
  assert (Hi1 : io_inv g v1) by (destruct Hi; by split).
  destruct (start_acceptors_run (Z.to_nat (ssc_parallel_acceptor_count config)) g v1 (oa_late_setup os) (oa_accepted os) p)
    as (g'&v'&o&Hrun&Hi'&Hp'); [done|done|done|done|lia|done|].
  exists v', (o ++ []). split; [|by exists g']. rw /run /IocpSocketServer_Start (bind_ok get_state _ v v v); [done|].
  rw Hin Ha. cbn [negb]. rw (bind_ok _ _ v () v1); [done|]. cbn [Z.eqb negb].
  rw Hc. by apply (bind_out _ _ v1 true v' o 0 v' []).
Qed.

Lemma start_engine_run message config v os engine worker :
  bootable config → obliging os → startable_transport config v →
  ∃ v', start_engine message os v engine worker =
      Ok (v', engine, LinearWorker_Start (neo_worker_update_tick_ms (ne_option engine)) worker) ∧ sound_transport v'.
Proof.
  intros Hb Hos Hv. destruct (start_transport_run config v os Hb Hos Hv) as (v'&o&Hrun&Hs). exists v'. split; [|done].
  rw /start_engine Hrun. done.
Qed.

Lemma LinearWorker_Start_again tick tick' (w : LinearWorker NetworkEngine.SocketContext) :
  lw_update_tick w = 0 → tick ≠ 0 → lw_update_tick (LinearWorker_Start tick' (LinearWorker_Start tick w)) = tick.
Proof. intros Hw Ht. rw {2}/LinearWorker_Start Hw /= /LinearWorker_Start /=. by rw (proj2 (Z.eqb_neq _ _) Ht). Qed.

Section coming_up.
Context {D C : Type} `{CoordinateUnit C} `{IterOrder} `{Indeterminate C} `{StructPack C}.
(** The clock and the random generator the engines read. *)
Variable tick : Z → Z.
Variable random_key : Z → SessionKey.

(** An engine that a run of [EngineLife.v] has led to. *)
Definition sound_engine (option : NetworkEngineOption) (e : NetworkEngine.NetworkEngine) : Prop :=
  neo_use_session_reconnect option = false ∧
  ∃ config streams key, map_Forall (λ _ t, ts_user_data t = None) streams ∧
    rtc (engine_step (C:=C) tick random_key) (new_NetworkEngine option config streams key) e.

Record came_up (config : ServerConfig) (p : Process D) : Prop := {
  cu_intra_server : sound_transport (pr_intra_server p);
  cu_user_server : sound_transport (pr_user_server p);
  cu_intra_engine : sound_engine (sc_intra_network_engine_option config) (pr_intra_engine p);
  cu_user_engine : sound_engine (sc_user_network_engine_option config) (pr_user_engine p);
  (** the connection to the supervisor is the first connector, for both sides *)
  cu_connector : (λ c, (cn_remote_address c, cn_attachment c)) <$> ne_connector_list (pr_intra_engine p) !! 1 =
    Some (supervisor_address, SUPERVISOR_SERVER_ID);
  cu_numbers : gs_current_connector_id (pr_game_server p) = ne_current_connector_id (pr_intra_engine p);
  (** one worker, at the pace of the engine that was started first *)
  cu_worker : lw_update_tick (pr_worker p) = neo_worker_update_tick_ms (sc_intra_network_engine_option config);
}.

Lemma engine_on_sound option v key : neo_use_session_reconnect option = false → sound_engine option (engine_on option v key).
Proof.
  intros Hr. split; [done|]. eexists _, _, key. split; [|apply rtc_refl].
  intros s t. rw lookup_fmap. destruct (sk_streams v !! s); [|done]. intros Ht. by injection Ht as <-.
Qed.

(** [Initialize] registers the connection to the supervisor. *)
Lemma register_supervisor os option config (v : IocpSocketServer) key :
startable_transport config v → (∃ p s l, sk_connector_socket_pool v = Some p ∧ op_pool p = s :: l) →
neo_use_session_reconnect option = false →
∃ e v', register_connectors (C:=C) os [SectorPosting.RegisterConnectorSocket supervisor_address SUPERVISOR_SERVER_ID]
    (engine_on option v key) v = Ok (e, v') ∧ startable_transport config v' ∧ sound_engine option e ∧ ne_option e = option ∧
  (λ c, (cn_remote_address c, cn_attachment c)) <$> ne_connector_list e !! 1 = Some (supervisor_address, SUPERVISOR_SERVER_ID) ∧
  ne_current_connector_id e = 2.
Proof.
intros [(g&Hi&Hp) (Hc&Hin&Ha) Hr Hacc] (p&s&l&Hpool&Hl) Hrec.
destruct (Connect_run g v (oa_late_setup os) supervisor_address 1 (oa_connected os) p s l Hi Hp Hr Hpool Hl)
  as (v'&c&Hrun&Hi'&_&Hr'&Hacc'&[S1 S2 S3]).
destruct (engine_on_sound option v key Hrec) as (_&config'&streams&key'&Hs&Hrtc).
set (e0 := engine_on option v key) in *. set (reg := NetworkEngine.RegisterConnectorSocket supervisor_address SUPERVISOR_SERVER_ID).
assert (Hreg : ∃ e o, reg e0 = Ok (1, e, o) ∧ ne_option e = option ∧ ne_current_connector_id e = 2 ∧
  (λ c, (cn_remote_address c, cn_attachment c)) <$> ne_connector_list e !! 1 = Some (supervisor_address, SUPERVISOR_SERVER_ID)).
{ eexists _, _. split; [reflexivity|]. split_and!; reflexivity. }
destruct Hreg as (e&o&Hreg&Ho&Hn&Hcon). exists e, v'. split_and!; [| |split; [done|]|done|done|done].
- cbn [register_connectors]. rw /run. fold reg. rw Hreg. cbn [mbind result_bind]. rw Hrun. done.
- split; [by exists (launch c g)|by rw S1 S2 S3|done|by rw Hacc'].
- exists config', streams, key'. split; [done|]. eapply rtc_r; [exact Hrtc|].
  apply (es_handler tick random_key (reg ;; mret ()) e0 e (o ++ [])); [apply h_register|]. by apply (bind_out _ _ e0 1 e o () e []).
Qed.
(** A configuration the servers can be started with. *)
Record usable (config : ServerConfig) : Prop := {
us_intra : bootable (sc_intra_socket_server_config config);
us_user : bootable (sc_user_socket_server_config config);
us_reconnect : neo_use_session_reconnect (sc_intra_network_engine_option config) = false ∧
  neo_use_session_reconnect (sc_user_network_engine_option config) = false;
us_tick : neo_worker_update_tick_ms (sc_intra_network_engine_option config) ≠ 0;
}.

Lemma game_main_run name user_failure (hooks : Hooks D C) server_type intra_server_config server loopback config
  service intra_os user_os key g :
usable config → obliging_service service → obliging intra_os → obliging user_os →
GameServer_Initialize hooks server_type (mkSocketAddress "127.0.0.1" (sc_intra_server_listen_port config))
  intra_server_config supervisor_address loopback server =
  Ok (true, g, [SectorPosting.RegisterConnectorSocket supervisor_address SUPERVISOR_SERVER_ID]) →
gs_current_connector_id g = 2 →
∃ p, game_main name user_failure hooks server_type intra_server_config server loopback config service intra_os user_os key = Ok p ∧
  came_up config p ∧ pr_game_server p = g.
Proof.
intros [Hbi Hbu [Hri Hru] Htick] Hsv Hoi Hou Hinit Hnum.
destruct (boot_run "intra server" _ intra_os Hbi Hoi) as (vi&Hrun_i&Hst_i&Hpool_i).
destruct (boot_run "user server" _ user_os Hbu Hou) as (vu&Hrun_u&Hst_u&_).
destruct (register_supervisor intra_os (sc_intra_network_engine_option config) _ vi key Hst_i Hpool_i Hri)
  as (e&vi1&Hreg&Hst_i1&Hse&Hopt&Hcon&Hcur).
set (eu := engine_on (sc_user_network_engine_option config) vu key).
destruct (start_engine_run "failed to start intra server engine" _ vi1 intra_os e new_LinearWorker Hbi Hoi Hst_i1)
  as (vi2&Hstart_i&Hsound_i).
destruct (start_engine_run user_failure _ vu user_os eu (LinearWorker_Start (neo_worker_update_tick_ms (ne_option e)) new_LinearWorker)
  Hbu Hou Hst_u) as (vu2&Hstart_u&Hsound_u).
eexists. split.
- rw /game_main !(SocketAddress_New_run service); [naive_solver..|]. rw /mbind /result_bind Hrun_i Hrun_u. cbv beta iota.
  rw {1}/run Hinit. cbv beta iota. rw Hreg. cbn [negb].
  rw Hstart_i. cbv beta iota. fold eu. rw Hstart_u. reflexivity.
- split; [|done]. split; cbn [pr_intra_server pr_user_server pr_intra_engine pr_user_engine pr_game_server pr_worker].
  + done.
  + done.
  + done.
  + by apply engine_on_sound.
  + done.
  + congruence.
  + rw Hopt. by apply LinearWorker_Start_again.
Qed.

Lemma server_main_run name user_failure (hooks : Hooks D C) server_type intra_server_config server loopback config
  worker (k1 k2 : nat) service request_os intra_os user_os key g :
(k1 ≤ k2)%nat → obliging_service service → obliging request_os → oa_connected request_os = true →
usable config → obliging intra_os → obliging user_os →
GameServer_Initialize hooks server_type (mkSocketAddress "127.0.0.1" (sc_intra_server_listen_port config))
  intra_server_config supervisor_address loopback server =
  Ok (true, g, [SectorPosting.RegisterConnectorSocket supervisor_address SUPERVISOR_SERVER_ID]) →
gs_current_connector_id g = 2 →
∃ p, server_main name user_failure hooks server_type intra_server_config server loopback (k2 + 3)
    (answer_env worker config k1 k2) service request_os intra_os user_os key = Ok p ∧
  came_up config p ∧ pr_game_server p = g.
Proof.
intros Hk Hsv [Hcr Hse _ _ _ _] Hconn Hus Hoi Hou Hinit Hnum.
destruct (cloud_request_ok server_type supervisor_address key) as (m&e&Hreq&He&_&Hq&_).
destruct (GetCloudConfig_run worker config k1 k2 m e Hk Hq He) as (m'&o&e'&Hget&_).
destruct (game_main_run name user_failure hooks server_type intra_server_config server loopback config service intra_os user_os key g)
  as (p&Hmain&Hp); [done..|]. exists p. split; [|done].
rw /server_main (InitializeSocketService_run service Hsv) (SocketAddress_New_run service); [naive_solver..|].
rw Hcr Hse Hconn /mbind /result_bind. change willing with os_willing. rw Hreq. cbv beta iota. rw Hget.
cbv beta iota. exact Hmain.
Qed.
End coming_up.

Lemma shipped_usable : usable AgencyServerConfig ∧ usable PlayServerConfig.
Proof.
  assert (Hall : ∀ config, config ∈ deployed_configs → config_ok config ∧ startable config = true).
  { by apply Forall_forall, deployed_ok. }
  assert (Hboot : ∀ config, config ∈ deployed_configs →
    ssc_parallel_acceptor_count config ≤ ssc_max_acceptable_socket_count config → bootable config).
  { intros config Hin Hle. by destruct (Hall config Hin). }
  split; (split; [apply Hboot; [rw /deployed_configs; set_solver|vm_compute; discriminate]..|done|done]).
Qed.

Section programs_come_up.
Context {C : Type} `{CoordinateUnit C} `{IterOrder} `{Indeterminate C} `{StructPack C}.
Variable tick : Z → Z.
Variable random_key : Z → SessionKey.
Variable clock : string → Z → Z.

End programs_come_up.
