(* ===== verification/Examples.v ===== *)
(** * Concrete runs

    One run per theorem that has hypotheses: the theorem applied at a concrete
    input at which they hold.  The parameters of the development get concrete
    values: maps iterate in the order of [map_to_list], indeterminate values
    are zero, and a packet's body is one byte, its type. *)

From S2P Require Import Prelude Coordinate SectorGrid Fixture Packet Protocol Sampling.
From S2P Require Import PacketThrottler SectorPosting SectorSystem World Handover WorldUpdate WorldRuns.
From S2P Require Import Session Supervisor GameServer Play Agency Topology.
From Stdlib Require Import QArith Lqa.
From Stdlib Require Import SpecFloat.

Open Scope Z_scope.

#[local] Existing Instance canonical_order.
#[local] Instance zero_values : Indeterminate Q := {| ind_Z _ := 0; ind_bool _ := false; ind_C _ := 0%Q |}.
#[local] Instance type_byte : StructPack Q := {|
  sp_get_needed_size _ := 1;
  sp_serialize p := [PacketType_to_Z (PACKET_TYPE p)];
  sp_deserialize t _ := match t with
    | PacketType_heartbeat_rq => Some (pkt_heartbeat_rq (mk_heartbeat_rq 0))
    | _ => None
    end |}.
#[local] Instance type_byte_size : StructPackSize Q.
Proof. by split. Defined.

(** ** The grid and the fixtures *)

(** A character in the middle of the central sector, one in its right border
    zone, and one that has crossed into the sector to the right. *)
Definition character (id x : Z) (location : FixtureLocation) (phase : Direction) : Fixture Q :=
  mkFixture id (mkVector2 (inject_Z x) 2500%Q) (mkVector2 100 100)%Q 500%Q Direction_Right location false phase 12 0 0 0.

Definition sector12 : SectorSystem Q :=
  new_SectorSystem 2 12 (mkVector2 0 0)%Q (mkVector2 5000 5000)%Q 100%Q 10%Q.


Lemma GetSectorByPosition_left_of_world_witness :
  GetSectorByPosition (mkVector2 (-12000) 2500)%Q = Some 10 ∧ ~ in_rect WorldRect (mkVector2 (-12000) 2500)%Q.
Proof.
  destruct (GetSectorByPosition_left_of_world (mkVector2 (-12000) 2500)%Q) as (s&Hs&_&_&Hn);
    [reflexivity|reflexivity|discriminate|reflexivity|]. split; [reflexivity|exact Hn].
Defined.

Lemma GetNextSector_oposite_witness :
  GetNextSector 12 Direction_UpRight = Some 8 ∧ GetNextSector 8 (GetOpositeDirection Direction_UpRight) = Some 12.
Proof.
  split; [reflexivity|].
  apply (GetNextSector_oposite 12 8 Direction_UpRight); [discriminate|reflexivity|discriminate].
Defined.

Lemma GetNearSectors_spec_witness : valid_sector 0 ∧ near 0 Direction_DownRight = [1; 6; 5].
Proof.
  assert (Hs : valid_sector 0) by (split; [discriminate|reflexivity]). split; [exact Hs|].
  destruct (GetNearSectors_spec 0 Direction_DownRight Hs) as (Hn&_). reflexivity.
Defined.

Lemma IsNearPhase_symmetric_witness : IsNearPhase 12 Direction_Right 13 Direction_Left = Some true ∧
  IsNearPhase 12 Direction_Right 13 Direction_Left = IsNearPhase 13 Direction_Left 12 Direction_Right.
Proof.
  split; [reflexivity|].
  apply (IsNearPhase_symmetric 12 13 Direction_Right Direction_Left); split; (discriminate || reflexivity).
Defined.

Lemma FixtureRectangleOverlap_spec_witness :
  ∃ p, in_closed_rect (mkFixtureRectangle 2 0 0 2)%Q p ∧ in_closed_rect (mkFixtureRectangle 3 1 1 3)%Q p.
Proof.
  apply (FixtureRectangleOverlap_spec (mkFixtureRectangle 2 0 0 2)%Q (mkFixtureRectangle 3 1 1 3)%Q);
    [split; reflexivity|split; reflexivity|reflexivity].
Defined.

Lemma Move_unclamped_witness :
  (vx (fx_position (Move 100 (character 7 2500 FixtureLocation_In Direction_Max)).2) == 2550)%Q.
Proof.
  rewrite (Move_unclamped 100 (character 7 2500 FixtureLocation_In Direction_Max));
    [discriminate|repeat split; vm_compute; discriminate|reflexivity].
Defined.

(** ** Packets *)

Definition session_a : SessionRef := mkSessionRef 1 1.
Definition session_b : SessionRef := mkSessionRef 2 2.
Definition ping (n : Z) : Packet Q := pkt_heartbeat_rq (mk_heartbeat_rq n).

Lemma ProcessLoopbackData_frames_witness :
  ProcessLoopbackData (St:=list Z) (Out:=Z)
    (λ header body, emit (body ++ [hdr_body_size header]))
    (mkDynamicBuffer (frame (ping 1) ErrorCode_None ++ frame (ping 2) ErrorCode_None) 64) [] =
  Ok ((), [], [0; 1; 0; 1]).
Proof.
  rewrite (ProcessLoopbackData_frames (C:=Q) _
    (mkDynamicBuffer (frame (ping 1) ErrorCode_None ++ frame (ping 2) ErrorCode_None) 64) [ping 1; ping 2] []);
    [reflexivity|discriminate|repeat constructor|reflexivity|reflexivity].
Defined.


Lemma throttled_id_collision_witness :
  wp (post_all (λ _ _, Some 100) [(mkSessionRef 1 5, ping 1); (mkSessionRef 2 5, ping 2)] ;; ForceFlushPacket)
    (new_PacketThrottler 33 0)
    (λ _ _ events, sent_to (mkSessionRef 1 5) events = [] ∧
       sent_to (mkSessionRef 2 5) events = frame (ping 1) ErrorCode_None ++ frame (ping 2) ErrorCode_None)
    (λ _, False).
Proof.
  apply (throttled_id_collision (λ _ _, Some 100) 100 33 0 (mkSessionRef 1 5) (mkSessionRef 2 5) (ping 1) (ping 2));
    [discriminate|reflexivity|reflexivity|reflexivity|vm_compute; discriminate].
Defined.

(** ** The posting manager: server 2 owns sector 12, server 3 sector 13, a
    client 100 listens *)

Definition posting_ops : list PostingOp :=
  [OpLink 2 (Some session_a); OpAllocate 12 2; OpAllocate 13 3; OpLink 100 (Some session_b); OpListen 12 100].

Lemma posting_ops_respect : Forall (respects {[2; 3]}) posting_ops.
Proof. repeat constructor; cbn; set_solver. Defined.

Lemma posting_refinement_witness :
  ps_owner (abstraction (exec_all (C:=Q) posting_ops new_SectorPostingManager)) 12 = 2.
Proof.
  destruct (posting_refinement (C:=Q) {[2; 3]} posting_ops posting_ops_respect) as (_&Ho&_).
  exact (Ho 12).
Defined.

Lemma UnsetAll_forgets_witness :
  owner (UnsetAll (C:=Q) 2 (exec_all (C:=Q) posting_ops new_SectorPostingManager)).1 12 ≠ 2.
Proof.
  destruct (UnsetAll_forgets (C:=Q) {[2; 3]} posting_ops 2 posting_ops_respect) as [_ Hs]; [discriminate|].
  apply (Hs 12).
Defined.

Lemma listener_moves_witness :
  listens (AddSectorListener 13 100
    (RemoveSectorListener 12 100 (exec_all (C:=Q) posting_ops new_SectorPostingManager))) 100 13.
Proof. by apply (listener_moves (C:=Q) {[2; 3]} posting_ops 100 12 13 13 posting_ops_respect). Defined.

Lemma AllocateSector_stale_listener_witness :
  listens (UnsetAll (C:=Q) 2
    (AllocateSector 12 3 (AddSectorListener 12 2 (AllocateSector 12 2 new_SectorPostingManager)))).1 2 12.
Proof. apply (AllocateSector_stale_listener (C:=Q) 12 2 3); discriminate. Defined.

(** ** A sector and a world *)

Definition clock0 : string → Z → Z := λ _ _, 0.

Definition pm0 : SectorPostingManager := exec_all (C:=Q) posting_ops new_SectorPostingManager.

(** The central sector with its character in the border zone, cooled down. *)
Definition border_sector : SectorSystem Q :=
  ss_put_fixture 7 (character 7 4900 FixtureLocation_Gray Direction_Right) sector12.
Definition border_world : World Q := mkWorld {[12 := Some border_sector]} ∅ [] 0.

(** Whatever the callbacks are told, they leave the fixture as it is. *)
Definition silent : Callback Q () () :=
  mkCallback (λ _ f _, mret f) (λ _ f _ _, mret f).
#[local] Instance silent_frame : CallbackFrame silent (λ _, False).
Proof.
  split; intros; exists (fx_last_transform_time f), (fx_is_observing_fixture f); by destruct f.
Defined.

Lemma border_on_grid : on_grid 2 12 border_sector sector12.
Proof. by split. Defined.

Lemma border_fixtures id f : ss_fixtures border_sector !! id = Some f →
  f = character 7 4900 FixtureLocation_Gray Direction_Right.
Proof.
  intros Hf. change (({[7 := character 7 4900 FixtureLocation_Gray Direction_Right]} : gmap Z (Fixture Q)) !! id
    = Some f) in Hf. apply lookup_singleton_Some in Hf as [_ Hf]. done.
Defined.


Lemma CalculateCurrentPhase_binary32_witness :
  ∃ ss : SectorSystem spec_float, grid_sector 2 12 = Some ss ∧ is_Some (CalculateCurrentPhase ss new_Fixture).
Proof.
  eexists. split; [vm_compute; reflexivity|].
  apply (CalculateCurrentPhase_binary32 _ new_Fixture); (discriminate || reflexivity).
Defined.

Lemma phase_change_exchanges_witness :
  ∃ removed created,
    exchange_exact 12 Direction_Right 12 Direction_UpRight (Some (removed, created)) ∧
    World_OnChangeFixturePhase pm0 12 (character 7 4900 FixtureLocation_Gray Direction_Right) Direction_UpRight border_world =
      Ok (character 7 4900 FixtureLocation_Gray Direction_Right, border_world,
          concat (remove_notice pm0 7 <$> removed) ++
          concat (create_notice pm0 12 (packet_info 12 (character 7 4900 FixtureLocation_Gray Direction_Right)) <$> created)).
Proof.
  apply (phase_change_exchanges pm0 12 (character 7 4900 FixtureLocation_Gray Direction_Right)
    Direction_UpRight border_world); [split; (discriminate || reflexivity)|reflexivity|reflexivity|discriminate].
Defined.


Lemma border_world_ok : world_ok border_world.
Proof.
  apply map_Forall_singleton. exists border_sector, 2, sector12. split; [reflexivity|].
  split; [exact border_on_grid|]. intros id f Hf. rewrite (border_fixtures id f Hf).
  split; [reflexivity|split; [reflexivity|discriminate]|split; [reflexivity|discriminate]|discriminate].
Defined.

Lemma World_Update_safe_witness :
  wp (World_Update pm0 clock0 5000 33) border_world (λ _ w' _, world_ok w') (λ _, False).
Proof.
  eapply wp_mono; [apply (World_Update_safe pm0 clock0 5000 33 border_world border_world_ok)| |intros f Hf; exact Hf].
  intros a w' o [Hw _]. exact Hw.
Defined.

Definition spawn_elsewhere : packet_spawn_character_rq Q :=
  mk_spawn_character_rq 100 EmptyString (oi_set_sector_id 3 uninit_PacketObjectInfo).

Lemma null_sector_stops_update_witness :
  wp (SpawnCharacter pm0 clock0 session_a 2 spawn_elsewhere ;; World_Update pm0 clock0 5000 33) border_world
    (λ _ _ _, False) (λ _, True).
Proof.
  apply (null_sector_stops_update pm0 clock0 5000 33 border_world session_a 2 spawn_elsewhere). reflexivity.
Defined.

Lemma requests_follow_object_witness :
  RemoveCharacter pm0 session_a 2 (mk_remove_character_rq 100 12 8 true)
    (mkWorld {[12 := Some border_sector]} {[8 := mkPromotedObjectInfo 8 13 (new_Countdown 1000 0)]} [] 0) =
  Ok ((), mkWorld {[12 := Some border_sector]} {[8 := mkPromotedObjectInfo 8 13 (new_Countdown 1000 0)]} [] 0,
      SendToSectorOwner pm0 (pkt_remove_character_rq (mk_remove_character_rq 100 13 8 true)) 13).
Proof.
  apply (requests_follow_object pm0
    (mkWorld {[12 := Some border_sector]} {[8 := mkPromotedObjectInfo 8 13 (new_Countdown 1000 0)]} [] 0)
    session_a 2 border_sector 12 8 None (mkPromotedObjectInfo 8 13 (new_Countdown 1000 0))
    (mkVector2 0 0)%Q Direction_Max 100); [reflexivity|reflexivity|discriminate|reflexivity].
Defined.

(** ** The supervisor: a play server registers over [session_a] *)

Definition address0 : SocketAddress := mkSocketAddress EmptyString 9987.
Definition sv_clock (now : Z) : string → Z := λ _, now.

Definition sv0 : SupervisorWorker := new_SupervisorWorker address0 0.
Definition register_play : packet_register_minion_server_rq := mk_register_minion_server_rq ServerType_Play address0.

(** The state after the registration. *)
Definition sv1 : SupervisorWorker :=
  match run_event (C:=Q) (sv_clock 0) (EvRegister session_a register_play) sv0 with
  | Ok (_, v, _) => v
  | Err _ => sv0
  end.

Lemma sv1_reachable : supervisor_reachable (C:=Q) sv1.
Proof.
  eapply (reach_step sv0 (sv_clock 0) (EvRegister session_a register_play)).
  - apply reach_new.
  - by split.
  - vm_compute. reflexivity.
Defined.

Lemma supervisor_safety_witness : supervisor_inv sv1.
Proof. apply (supervisor_safety (C:=Q) sv1 sv1_reachable). Defined.

Lemma distribution_complete_witness :
  wp (Supervisor_Update (C:=Q) (sv_clock 3000)) sv1
    (λ b v' _, b = true ∧ ∀ s, valid_sector s → ∃ i server, sv_sector_info v' !! s = Some i ∧
       sv_managed_server_list v' !! msi_owner_server_id i = Some server ∧ s ∈ ms_sector_list server) (λ _, False).
Proof.
  eapply wp_mono; [apply (distribution_complete (C:=Q) (sv_clock 3000) sv1 sv1_reachable)| |intros f Hf; exact Hf].
  - exists (new_Countdown 2000 0). split; reflexivity.
  - exists 2, (mkManagedServerInfo (Some session_a) (mkServerInfo ServerType_Play 2 address0) ∅).
    split; [reflexivity|discriminate].
  - intros b v' o (Hb&Hs&_). split; [exact Hb|exact Hs].
Defined.

Definition recover_play : packet_recovery_minion_server_rq :=
  mk_recovery_minion_server_rq [] (mkServerInfo ServerType_Play 5 address0) [12; 13]
    [mkServerInfo ServerType_Supervisor SUPERVISOR_SERVER_ID address0].

Lemma recovery_orphans_sectors_witness :
  wp (OnServerRecoveryMinionServerReq (C:=Q) (sv_clock 0) session_b recover_play ;;
      Supervisor_OnSocketSessionClosed session_b) sv0
    (λ _ v' _, sv_managed_server_list v' !! 5 = None ∧ msi_owner_server_id <$> sv_sector_info v' !! 12 = Some 5)
    (λ _, False).
Proof.
  apply (recovery_orphans_sectors (C:=Q) (sv_clock 0) sv0 session_b recover_play 12);
    [apply reachable_inv_new|reflexivity|by left|reflexivity].
Defined.

Lemma recovery_expels_supervisor_witness :
  wp (OnServerRecoveryMinionServerReq (C:=Q) (sv_clock 0) session_b recover_play ;; expire_recovery (sv_clock 40000)) sv0
    (λ _ v' _, is_Some (sv_blocked_server_list v' !! SUPERVISOR_SERVER_ID)) (λ _, False).
Proof.
  eapply wp_mono; [apply (recovery_expels_supervisor (C:=Q) (sv_clock 0) (sv_clock 40000) sv0 session_b recover_play
    (mkServerInfo ServerType_Supervisor SUPERVISOR_SERVER_ID address0));
    [apply reachable_inv_new|reflexivity|by left|reflexivity|reflexivity|reflexivity]| |intros f Hf; exact Hf].
  intros a v' o [Hb _]. exact Hb.
Defined.

(** ** Two servers: play server 3 accepts play server 4 and connects to 2 *)

Definition info_of (t : ServerType) (id : Z) : ServerInfo := mkServerInfo t id address0.
Definition pending : UniversalSessionInfo := mkUniversalSessionInfo 50 (Some session_a) false false.
Definition peer (id : Z) (connector : bool) : IntraServerInfo :=
  mkIntraServerInfo (mkUniversalSessionInfo id None false false) (info_of ServerType_Play id) 0 connector.

Definition play_server (id : Z) (peers : gmap Z IntraServerInfo) : GameServer (World Q) :=
  mkGameServer None 51 new_IntraServerInfo (info_of ServerType_Play id) (config_table play_config)
    peers {[50 := pending]} pm0 true 0 0 ∅ {[1 := ActiveSession 50]} new_World.
Definition play3 : GameServer (World Q) := play_server 3 {[4 := peer 4 false; 2 := peer 2 true]}.

Definition hooks0 : Hooks (World Q) Q := play_hooks clock0.

Lemma one_connector_witness :
  xorb (connects hooks0 play3 (play_server 4 ∅)) (connects hooks0 (play_server 4 ∅) play3) = true.
Proof.
  apply (one_connector hooks0 hooks0 play3 (play_server 4 ∅)); [split; [discriminate|reflexivity]..|discriminate].
Defined.

Definition message (t : PacketType) : SocketContext :=
  mkSocketContext session_a false 4 (Some t) 0 [].

Lemma accept_handshake_witness :
  ∃ g', established hooks0 session_a 50 4 (peer 4 false) play3 g'.
Proof.
  destruct (accept_handshake hooks0 (message PacketType_authorize_server_rq) 50 4 (peer 4 false) pending
    (mk_authorize_server_rq ServerType_Play 4) play3) as (g'&Hg&_); [reflexivity|lia|discriminate|reflexivity..|].
  by exists g'.
Defined.

Lemma connect_handshake_witness :
  ∃ g', established hooks0 session_a 50 2 (peer 2 true) play3 g'.
Proof.
  destruct (connect_handshake hooks0 (message PacketType_authorize_server_rs) 50 2 (peer 2 true) pending
    (mk_authorize_server_rs 2) play3) as (g'&Hg&_); [reflexivity|lia|discriminate|reflexivity..|].
  by exists g'.
Defined.

Lemma unauthorized_data_closes_witness :
  OnSocketSessionData hooks0 (message PacketType_promote_object_rq) play3 = Ok ((), play3, [CloseSession session_a]).
Proof.
  apply (unauthorized_data_closes hooks0 (message PacketType_promote_object_rq) 50 pending session_a play3); reflexivity.
Defined.

(** ** A world: one sector, one character *)

Definition spawn_packet : packet_spawn_character_rq Q :=
  mk_spawn_character_rq 1 EmptyString (mkPacketObjectInfo 0 12 ObjectType_Character
    (character 0 2500 FixtureLocation_In Direction_Max) (mkVital 0 0 0)).
Definition stand_at (x : Z) (object_id : Z) : packet_character_move_rq Q :=
  mk_character_move_rq 12 object_id (mkVector2 (inject_Z x) 2500%Q) Direction_Max true.

Definition world_after (ev : WorldEvent) (w : World Q) : World Q :=
  match run_world_event clock0 pm0 ev w with Ok (_, w', _) => w' | Err _ => w end.
Definition world1 : World Q := Eval vm_compute in world_after (WAddSector 7 12) new_World.
Definition world2 : World Q := Eval vm_compute in world_after (WSpawn session_a 5 spawn_packet) world1.
Definition first_object : Z := 7201200000000001.
Definition sector2 : SectorSystem Q := Eval vm_compute in
  match w_sectors world2 !! 12 with Some (Some ss) => ss | _ => sector12 end.
Definition standing : Fixture Q := Eval vm_compute in
  match ss_fixtures sector2 !! first_object with Some f => f | None => character 0 0 FixtureLocation_In Direction_Max end.

Lemma world2_reachable : world_reachable clock0 world2.
Proof.
  assert (H1 : world_reachable clock0 world1).
  { eapply (world_stepped clock0 pm0 new_World (WAddSector 7 12)); [apply world_new| |vm_compute; reflexivity].
    split; [split; [discriminate|reflexivity]|reflexivity]. }
  eapply (world_stepped clock0 pm0 world1 (WSpawn session_a 5 spawn_packet)); [exact H1| |vm_compute; reflexivity].
  eexists. split; [vm_compute; reflexivity|]. split_and!; try (vm_compute; (reflexivity || discriminate)).
  repeat split; vm_compute; discriminate.
Qed.

Lemma owned_standing : owned_or_tracked world2 sector2 first_object.
Proof. left. exists standing. split; vm_compute; reflexivity. Qed.


