(* ===== verification/AgencyExamples.v ===== *)
(** * A run of an agency

    The agency registers as server 5, connects to play server 7, which gets the
    central sector, and a client gets its character.  The peers of the run send one
    packet of each type, so a packet's body is one byte, its type. *)

From S2P Require Import Prelude Coordinate SectorGrid Fixture Packet Protocol Sampling.
From S2P Require Import PacketThrottler SectorPosting SectorSystem World Session.
From S2P Require Import Supervisor GameServer Play Agency Topology AgencySafety.
From Stdlib Require Import QArith.

Open Scope Z_scope.

#[local] Existing Instance canonical_order.
#[local] Instance zero_values : Indeterminate Q := {| ind_Z _ := 0; ind_bool _ := false; ind_C _ := 0%Q |}.

Definition here : SocketAddress := mkSocketAddress EmptyString 9000.
Definition supervisor_info : ServerInfo := mkServerInfo ServerType_Supervisor 1 here.
Definition agency_info : ServerInfo := mkServerInfo ServerType_Agency 5 here.
Definition play_info : ServerInfo := mkServerInfo ServerType_Play 7 here.
Definition user : Z := 5100000000000002.
Definition avatar : Fixture Q :=
  mkFixture 77 (mkVector2 2500 2500)%Q (mkVector2 100 100)%Q 500%Q Direction_Max FixtureLocation_In false Direction_Max 12 0 0 0.
Definition avatar_info : PacketObjectInfo Q := mkPacketObjectInfo 77 12 ObjectType_Character avatar (mkVital 0 0 0).

#[local] Instance one_of_each : StructPack Q := {|
  sp_get_needed_size _ := 1;
  sp_serialize p := [PacketType_to_Z (PACKET_TYPE p)];
  sp_deserialize t _ := match t with
    | PacketType_register_minion_server_rs => Some (pkt_register_minion_server_rs (mk_register_minion_server_rs agency_info []))
    | PacketType_update_intra_server_info_ps =>
        Some (pkt_update_intra_server_info_ps (mk_update_intra_server_info_ps [play_info] []))
    | PacketType_authorize_server_rs => Some (pkt_authorize_server_rs (mk_authorize_server_rs 7))
    | PacketType_sector_allocation_ps =>
        Some (pkt_sector_allocation_ps (mk_sector_allocation_ps [mkSectorAllocationInfo play_info 12] []))
    | PacketType_spawn_character_rs => Some (pkt_spawn_character_rs (mk_spawn_character_rs user EmptyString avatar_info))
    | _ => None
    end |}.

Definition session_of_supervisor : SessionRef := mkSessionRef 1 1.
Definition session_of_play : SessionRef := mkSessionRef 2 2.
Definition session_of_client : SessionRef := mkSessionRef 3 1.
Definition told (session : SessionRef) (t : PacketType) : SocketContext := mkSocketContext session false 0 (Some t) 0 [].

Definition agency_events : list AgencyEvent :=
  [EvConnected (mkSocketContext session_of_supervisor false 1 None 0 []);
   EvData (told session_of_supervisor PacketType_register_minion_server_rs);
   EvData (told session_of_supervisor PacketType_update_intra_server_info_ps);
   EvConnected (mkSocketContext session_of_play false 7 None 0 []);
   EvData (told session_of_play PacketType_authorize_server_rs);
   EvData (told session_of_supervisor PacketType_sector_allocation_ps);
   EvAccepted (mkSocketContext session_of_client true 0 None 0 []);
   EvData (told session_of_play PacketType_spawn_character_rs)].

Definition after_event (ev : AgencyEvent) (g : GameServer (AgencyData Q)) : GameServer (AgencyData Q) :=
  match run_agency (C:=Q) ev g with Ok (_, g', _) => g' | Err _ => g end.

Definition agency0 : GameServer (AgencyData Q) := Eval vm_compute in
  initialized_agency (C:=Q) here here (mkSessionRef 9 9).
Definition agency_at (n : nat) : GameServer (AgencyData Q) := foldl (λ g ev, after_event ev g) agency0 (take n agency_events).
Definition agency1 := Eval vm_compute in agency_at 1.
Definition agency2 := Eval vm_compute in agency_at 2.
Definition agency3 := Eval vm_compute in agency_at 3.
Definition agency4 := Eval vm_compute in agency_at 4.
Definition agency5 := Eval vm_compute in agency_at 5.
Definition agency6 := Eval vm_compute in agency_at 6.
Definition agency7 := Eval vm_compute in agency_at 7.
Definition agency8 := Eval vm_compute in agency_at 8.

Definition known_servers : gset Z := {[0; 1; 2; 5; 7]}.

Lemma known_server_ids : server_ids known_servers.
Proof. split; [set_solver|]. intros x. rw /known_servers /FIRST_CLIENT. set_solver by lia. Qed.

(** A value that no session holds. *)
Lemma no_session_holds k v (d : UserData) :
  v ≠ 0 → bool_decide (map_Forall (λ _ m, m !! k ≠ Some v) d) = true → ∀ s, GetUserData s k d ≠ v.
Proof.
  intros Hv Hd s. apply bool_decide_eq_true in Hd. rw /GetUserData.
  destruct (d !! ses_handle s) as [m|] eqn:Hm; [|by rw /= lookup_empty /=; congruence].
  specialize (Hd _ m Hm). cbn. destruct (m !! k) as [x|] eqn:Hx; cbn; congruence.
Qed.

Lemma minion_info t id : id ∈ known_servers → 2 < id → t ≠ ServerType_Supervisor → minion known_servers (mkServerInfo t id here).
Proof. done. Qed.

Lemma step_to open g ev g' o open' :
  agency_reachable (C:=Q) known_servers open g → agency_enabled known_servers open g ev →
  run_agency (C:=Q) ev g = Ok ((), g', o) → sessions_after ev open = open' → agency_reachable (C:=Q) known_servers open' g'.
Proof. intros Hr He Hrun <-. by apply (agency_stepped _ open g ev g' o). Qed.

Lemma agency3_reachable : agency_reachable (C:=Q) known_servers {[1]} agency3.
Proof.
  assert (H0 : agency_reachable (C:=Q) known_servers ∅ agency0).
  { apply (agency_initialized _ here here (mkSessionRef 9 9) agency0 [RegisterConnectorSocket here 1]). reflexivity. }
  assert (H1 : agency_reachable (C:=Q) known_servers {[1]} agency1).
  { refine (step_to _ _ (EvConnected (mkSocketContext session_of_supervisor false 1 None 0 [])) _ _ _ H0 _ _ _).
    - split_and!; [set_solver|reflexivity|reflexivity|by eexists].
    - vm_compute. reflexivity.
    - set_solver. }
  assert (H2 : agency_reachable (C:=Q) known_servers {[1]} agency2).
  { refine (step_to _ _ (EvData (told session_of_supervisor PacketType_register_minion_server_rs)) _ _ _ H1 _ _ _).
    - split; [set_solver|]. intros t packet Ht Hb. injection Ht as <-. injection Hb as <-. cbn.
      split_and!; [reflexivity|apply minion_info; [set_solver|lia|done]|lia|]. vm_compute. discriminate.
    - vm_compute. reflexivity.
    - done. }
  refine (step_to _ _ (EvData (told session_of_supervisor PacketType_update_intra_server_info_ps)) _ _ _ H2 _ _ _).
  - split; [set_solver|]. intros t packet Ht Hb. injection Ht as <-. injection Hb as <-. cbn. split_and!.
    + done.
    + apply Forall_singleton, minion_info; [set_solver|lia|done].
    + apply Forall_singleton. intros s. apply no_session_holds; [done|]. vm_compute. reflexivity.
  - vm_compute. reflexivity.
  - done.
Qed.

Lemma agency7_reachable : agency_reachable (C:=Q) known_servers {[3; 2; 1]} agency7.
Proof.
  assert (H4 : agency_reachable (C:=Q) known_servers {[2; 1]} agency4).
  { refine (step_to _ _ (EvConnected (mkSocketContext session_of_play false 7 None 0 [])) _ _ _ agency3_reachable _ _ _).
    - split_and!; [set_solver|reflexivity|reflexivity|by eexists].
    - vm_compute. reflexivity.
    - set_solver. }
  assert (H5 : agency_reachable (C:=Q) known_servers {[2; 1]} agency5).
  { refine (step_to _ _ (EvData (told session_of_play PacketType_authorize_server_rs)) _ _ _ H4 _ _ _).
    - split; [set_solver|]. intros t packet Ht Hb. injection Ht as <-. injection Hb as <-. by cbn.
    - vm_compute. reflexivity.
    - done. }
  assert (H6 : agency_reachable (C:=Q) known_servers {[2; 1]} agency6).
  { refine (step_to _ _ (EvData (told session_of_supervisor PacketType_sector_allocation_ps)) _ _ _ H5 _ _ _).
    - split; [set_solver|]. intros t packet Ht Hb. injection Ht as <-. injection Hb as <-. cbn.
      apply Forall_singleton, minion_info; [set_solver|lia|done].
    - vm_compute. reflexivity.
    - done. }
  refine (step_to _ _ (EvAccepted (mkSocketContext session_of_client true 0 None 0 [])) _ _ _ H6 _ _ _).
  - split; [set_solver|reflexivity].
  - vm_compute. reflexivity.
  - set_solver.
Qed.

Lemma agency8_reachable : agency_reachable (C:=Q) known_servers {[3; 2; 1]} agency8.
Proof.
  refine (step_to _ _ (EvData (told session_of_play PacketType_spawn_character_rs)) _ _ _ agency7_reachable _ _ _).
  - split; [set_solver|]. intros t packet Ht Hb. injection Ht as <-. injection Hb as <-. split_and!; [done..|].
    intros i Hi. exists session_of_client. split_and!; [|reflexivity|reflexivity]. exists i. split; [done|].
    vm_compute in Hi. injection Hi as <-. done.
  - vm_compute. reflexivity.
  - done.
Qed.


(** The supervisor refuses a recovery while the client plays. *)
Definition agency_reset : GameServer (AgencyData Q) := Eval vm_compute in
  match GameServer_Reset (C:=Q) agency_hooks agency8 with Ok (_, g, _) => g | Err _ => agency8 end.

Lemma reset_dangles_witness :
  OnSocketSessionClosed (C:=Q) agency_hooks (told session_of_client PacketType_heartbeat_rq) agency_reset =
    Err (UndefinedBehaviour "dangling UniversalSessionInfo*").
Proof.
  apply (reset_dangles (C:=Q) agency_hooks (told session_of_client PacketType_heartbeat_rq) user agency8 agency_reset
    (match GameServer_Reset (C:=Q) agency_hooks agency8 with Ok (_, _, o) => o | Err _ => [] end)).
  - intros g g' o Hr. injection Hr as <- _. split; reflexivity.
  - reflexivity.
  - vm_compute. reflexivity.
Defined.
