(* ===== verification/CompositionExamples.v ===== *)
(** * An agency and a play server, on concrete states

    The agency of [AgencyExamples.v] and play server 7 with the central sector: a
    client gets its character, leaves too early, or crosses into sector 13. *)

From S2P Require Import Prelude Coordinate SectorGrid Fixture Packet Protocol Sampling.
From S2P Require Import PacketThrottler SectorPosting SectorSystem World Handover WorldUpdate WorldRuns.
From S2P Require Import Session Supervisor GameServer Play Agency Topology AgencySafety Composition TestClient AgencyExamples.
From Stdlib Require Import QArith.

Open Scope Z_scope.

#[local] Existing Instance canonical_order.
#[local] Existing Instance zero_values.

Definition still : string → Z → Z := λ _ _, 0.
Definition play_world : World Q := Eval vm_compute in
  match AddSector (C:=Q) 7 12 new_World with Ok (_, w, _) => w | Err _ => new_World end.
Definition central : SectorSystem Q := Eval vm_compute in
  match w_sectors play_world !! 12 with Some (Some ss) => ss | _ => new_SectorSystem 0 0 vec_zero vec_zero 0%Q 0%Q end.
Definition session_of_agency : SessionRef := mkSessionRef 4 1.
Definition agency_node : IntraServerInfo :=
  mkIntraServerInfo (mkUniversalSessionInfo 60 (Some session_of_agency) true false) agency_info 0 false.
Definition play7 : GameServer (World Q) :=
  mkGameServer None 61 new_IntraServerInfo play_info (config_table play_config) {[5 := agency_node]} ∅
    (LinkSession 5 (Some session_of_agency) new_SectorPostingManager) true 0 0 ∅ ∅ play_world.

Lemma play_world_inv : world_inv play_world.
Proof.
  apply (world_reachable_inv still), (world_stepped still new_SectorPostingManager new_World (WAddSector 7 12) play_world []);
    [apply world_new| |vm_compute; reflexivity].
  split; [split; [discriminate|reflexivity]|reflexivity].
Qed.

Lemma play7_serves : serves play7 5 session_of_agency central.
Proof.
  split.
  - exact play_world_inv.
  - reflexivity.
  - split_and!; reflexivity.
  - exists agency_node. split_and!; reflexivity.
  - reflexivity.
Qed.

(** The packets of this exchange. *)
Definition crossing : Fixture Q :=
  mkFixture 77 (mkVector2 7600 2500)%Q (mkVector2 100 100)%Q 500%Q Direction_Right FixtureLocation_Gray false Direction_Right 12 0 0 0.
#[local] Instance exchanged : StructPack Q := {|
  sp_get_needed_size _ := 1;
  sp_serialize p := [PacketType_to_Z (PACKET_TYPE p)];
  sp_deserialize t _ := match t with
    | PacketType_spawn_character_rq => Some (pkt_spawn_character_rq (spawn_request user))
    | PacketType_spawn_character_rs => Some (pkt_spawn_character_rs (spawn_response still central user))
    | PacketType_promote_object_rq => Some (pkt_promote_object_rq (promotion_packet still 12 13 crossing Direction_Right))
    | PacketType_game_enter_request_rs => Some (pkt_game_enter_request_rs (mk_game_enter_request_rs EmptyString avatar_info))
    | _ => None
    end |}.

Lemma client7 : client_of agency7 user session_of_client.
Proof. eexists. split_and!; reflexivity. Qed.

Lemma agency7_inv : agency_inv known_servers {[3; 2; 1]} agency7.
Proof. exact (agency_reachable_inv known_servers _ agency7 known_server_ids agency7_reachable). Qed.
Lemma agency8_inv : agency_inv known_servers {[3; 2; 1]} agency8.
Proof. exact (agency_reachable_inv known_servers _ agency8 known_server_ids agency8_reachable). Qed.

Lemma no_objects7 : ids_known agency7 central.
Proof. intros o [q Hq]. change (object_sessions agency7) with (∅ : gmap Z SessionInfoPtr) in Hq. by rw lookup_empty in Hq. Qed.

Lemma spawn_round_trip_witness :
  ∃ g3 : GameServer (AgencyData Q), playing g3 user session_of_client ∧
    object_of g3 session_of_client = 7201200000000001 ∧
    ∀ x, listens (gs_sector_posting_manager g3) user x ↔ x = 12.
Proof.
  destruct (spawn_round_trip still known_servers {[3; 2; 1]} agency7 play7 user session_of_client session_of_play 5
    session_of_agency central) as (g1&p1&ss'&f&_&_&Hg1&Hw1&Hk1&_&_&_&_&_&_&Hanswer).
  - exact agency7_inv.
  - exact client7.
  - reflexivity.
  - reflexivity.
  - exact no_objects7.
  - exact play7_serves.
  - destruct (Hanswer {[3; 2; 1]} g1 (ServerNode 7) (told session_of_play PacketType_spawn_character_rs) Hg1 Hw1 Hk1)
      as (g3&o3&_&_&Hpl&Hob&_&Hlis&_); [split; reflexivity|]. exists g3. split_and!; [exact Hpl|exact Hob|exact Hlis].
Defined.

Definition agency_left : GameServer (AgencyData Q) := gs_set_active_sessions (delete user (gs_active_sessions agency7)) agency7.

Lemma offline_character_stays_witness :
  ∃ g', Agency_OnIntraServerData (ServerNode 7) (told session_of_play PacketType_spawn_character_rs) agency_left =
    Ok ((), g', [Send session_of_play (pkt_remove_character_rs (mk_remove_character_rs user 12 7201200000000001)) ErrorCode_None]).
Proof.
  destruct (offline_character_stays still agency_left user 7
    (default new_IntraServerInfo (gs_server_sessions agency_left !! 7)) session_of_play central
    (told session_of_play PacketType_spawn_character_rs)) as (g'&Hg'&_).
  - reflexivity.
  - reflexivity.
  - reflexivity.
  - split; reflexivity.
  - exists g'. exact Hg'.
Defined.

(** Play server 7 gets sector 13 too. *)
Definition agency9 : GameServer (AgencyData Q) :=
  gs_set_sector_posting_manager (exec (C:=Q) (OpAllocate 13 7) (gs_sector_posting_manager agency8)) agency8.

Lemma agency9_inv : agency_inv known_servers {[3; 2; 1]} agency9.
Proof.
  destruct agency8_inv as [Hi Hs]. apply (server_step_inv known_servers _ agency8); [exact Hi|].
  apply (server_step_posting known_servers agency8 agency8 (OpAllocate 13 7) (server_step_refl known_servers agency8 Hs)).
  cbn. rw /known_servers. set_solver.
Qed.

Lemma client_follows_handover_witness :
  ∃ g' o, Agency_OnIntraServerData (ServerNode 7) (told session_of_play PacketType_promote_object_rq) agency9 = Ok ((), g', o) ∧
    sector_of g' session_of_client = 13 ∧ ∀ x, listens (gs_sector_posting_manager g') user x ↔ x = 13.
Proof.
  destruct (client_follows_handover still known_servers {[3; 2; 1]} agency9 user session_of_client 12 13 crossing Direction_Right
    (ServerNode 7) (told session_of_play PacketType_promote_object_rq) session_of_play)
    as (g'&o&Hrun&_&_&_&Hse&Hlis&_).
  - exact agency9_inv.
  - split; [|discriminate]. eexists. split_and!; reflexivity.
  - reflexivity.
  - reflexivity.
  - split; [discriminate|reflexivity].
  - vm_compute. reflexivity.
  - eexists. vm_compute. reflexivity.
  - eexists. vm_compute. reflexivity.
  - split; reflexivity.
  - exists g', o. split_and!; [exact Hrun|exact Hse|exact Hlis].
Defined.

(** ** The test client: one connection, which enters the game *)

Definition walking0 : ClientWorker Q := new_ClientWorker 0.
Definition after_client (ev : ClientEvent) (w : ClientWorker Q) : ClientWorker Q :=
  match run_client (λ n, 3 * n + 2) (λ _, avatar_info) ev w with Ok (_, w', _) => w' | Err _ => w end.
Definition walking1 : ClientWorker Q := Eval vm_compute in after_client (CConnected (told session_of_client PacketType_heartbeat_rq)) walking0.
Definition walking2 : ClientWorker Q := Eval vm_compute in
  after_client (CData (told session_of_client PacketType_game_enter_request_rs)) walking1.

Lemma walking2_reachable : client_reachable (λ n, 3 * n + 2) (λ _, avatar_info) walking2.
Proof.
  assert (H1 : client_reachable (λ n, 3 * n + 2) (λ _, avatar_info) walking1).
  { eapply (client_stepped _ _ walking0 (CConnected (told session_of_client PacketType_heartbeat_rq)));
      [apply client_new|done|vm_compute; reflexivity]. }
  eapply (client_stepped _ _ walking1 (CData (told session_of_client PacketType_game_enter_request_rs)));
    [exact H1| |vm_compute; reflexivity].
  split; [eexists; split; reflexivity|]. intros _. eexists. split; [reflexivity|].
  repeat split; vm_compute; (reflexivity || discriminate).
Qed.

Lemma test_client_walks_witness :
  ∃ w' x, Client_Update (λ n, 3 * n + 2) 501 501 33 walking2 = Ok (true, w', [x]) ∧ cs_address x = 3 ∧
    cmrq_object_id (cs_packet x) = 77.
Proof.
  destruct (test_client_walks (λ n, 3 * n + 2) (λ _, avatar_info) walking2 501 501 33 walking2_reachable)
    as (w'&out&Hrun&_&_&Hlen).
  destruct out as [|x [|y out]]; [discriminate Hlen| |discriminate Hlen]. exists w', x. split; [exact Hrun|].
  vm_compute in Hrun. injection Hrun as _ <-. split; reflexivity.
Defined.
