(* ===== verification/ProgramExamples.v ===== *)
(** * The programs, started

    The premises of [programs_come_up] hold for an operating system that grants
    everything. *)

From S2P Require Import Prelude Coordinate SectorGrid Fixture Packet Protocol PacketThrottler Session Supervisor.
From S2P Require Import Concurrent NetworkEngine Iocp IocpRuns IocpSafety CloudConfig Deployment GameServer Agency AgencySafety.
From S2P Require Import Programs AgencyExamples.
From Stdlib Require Import QArith.

Open Scope Z_scope.

#[local] Existing Instance canonical_order.
#[local] Existing Instance zero_values.
#[local] Existing Instance one_of_each.

(** Accepting waits for peers; connecting succeeds or not. *)
Definition granting (connected : bool) : os_answers :=
  mkOsAnswers (λ _, true) willing willing_acceptor willing connected 0 0 0 (λ _, mkAnswer 0 WSA_IO_PENDING).

Lemma granting_obliging b : obliging (granting b).
Proof. split; try reflexivity. intros n. by left. Qed.

(** [inet_addr] of the two addresses. *)
Definition windows : socket_service :=
  mkSocketService 0 (λ _, (0, 4096)) (λ ip, if String.eqb ip "127.0.0.1" then 16777343 else if String.eqb ip "0.0.0.0" then 0 else -1).

Definition no_keys : SessionKey := replicate SessionKeySize 0.

