(* ===== verification/EngineExamples.v ===== *)
(** * Concrete runs of the network layer

    The theorems on memory, queues, the network engine and the connections
    between servers that have hypotheses, each applied at a concrete input.  A
    packet's body is one byte, its type, and the peers of the runs send only
    requests for sessions, heartbeats and moves. *)

From S2P Require Import Prelude Coordinate SectorGrid Fixture Packet Protocol Memory Concurrent NetworkEngine.
From S2P Require Import EngineRead EngineLife EngineFaults.
From Stdlib Require Import QArith.

Open Scope Z_scope.

#[local] Existing Instance canonical_order.
#[local] Instance zeros : Indeterminate Q := {| ind_Z _ := 0; ind_bool _ := false; ind_C _ := 0%Q |}.
#[local] Instance tag_byte : StructPack Q := {|
  sp_get_needed_size _ := 1;
  sp_serialize p := [PacketType_to_Z (PACKET_TYPE p)];
  sp_deserialize t _ := match t with
    | PacketType_session_create_rq => Some (pkt_session_create_rq (mk_session_create_rq 0))
    | _ => None
    end |}.
#[local] Instance tag_byte_size : StructPackSize Q.
Proof. by split. Defined.

Definition clock0 : Z → Z := λ n, n.
Definition keys0 : Z → SessionKey := λ n, replicate SessionKeySize n.

(** ** Memory *)

Definition pool0 : ObjectPool := mkObjectPool [2; 1] 3 ∅ ∅.

Lemma pool0_wf : pool_wf 2 pool0.
Proof.
  apply (new_ObjectPool_wf 2 2 1 pool0); [reflexivity|discriminate|reflexivity|discriminate|reflexivity|reflexivity].
Defined.

(** One object in use. *)
Definition pool1 : ObjectPool := mkObjectPool [1] 3 {[2]} ∅.

Lemma pool1_wf : pool_wf 2 pool1.
Proof.
  destruct (Pop_spec 2 true pool0 pool0_wf) as [Hwf _]; [reflexivity|]. exact Hwf.
Defined.

Lemma pool_discipline_witness :
  Pop true pool1 = (Some 1, mkObjectPool [] 3 ({[1]} ∪ {[2]}) ∅) ∧ (1 ∉ op_in_used pool1) ∧
  match Push 2 pool1 with Ok p' => pool_wf 2 p' | Err _ => False end.
Proof.
  destruct (pool_discipline 2 true 2 pool1 pool1_wf) as [(_&Hpop&_) (Hpush&_)]; [reflexivity|].
  split; [reflexivity|]. split; [exact Hpop|exact Hpush].
Defined.

(** Of a pool of three, an object is popped into variable 10, pinned, copied to
    variable 11 and released from 10. *)
Definition ptr_heap0 : PtrHeap := mkPtrHeap ∅ ∅ [3; 2; 1].
Definition ptr_popped : PtrHeap := Eval vm_compute in run_ptr_op (OpPop 10 99) ptr_heap0.
Definition ptr_pinned : PtrHeap := Eval vm_compute in Retain 3 ptr_popped.
Definition ptr_shared : PtrHeap := Eval vm_compute in run_ptr_op (OpRelease 10) (run_ptr_op (OpCopy 11 10) ptr_pinned).

Lemma ptr_run0 : rtc (ptr_step {[10; 11]} 99 1) (ptr_heap0, []) (ptr_shared, [3]).
Proof.
  eapply rtc_l; [apply (step_op _ _ _ (OpPop 10 99)); split; [by vm_compute|done]|].
  eapply rtc_l; [apply (step_retain _ _ _ 10 3 _ ptr_pinned); [reflexivity..|done]|].
  eapply rtc_l; [apply (step_op _ _ _ (OpCopy 11 10)); split_and!; [by vm_compute..|done]|].
  apply rtc_once. change ptr_shared with (run_ptr_op (OpRelease 10) (run_ptr_op (OpCopy 11 10) ptr_pinned)).
  apply (step_op _ _ _ (OpRelease 10)). by vm_compute.
Qed.

Lemma refs_are_exact_witness : count_of ptr_shared 3 = 1 + 1 ∧ holders ptr_shared 3 = {[11]} ∧ (3 ∉ ph_pool ptr_shared).
Proof.
  destruct (refs_are_exact 3 3 1 1 {[10; 11]} 99 ptr_heap0 ptr_shared [3]) with (o := 3) as [Hc Hp];
    [reflexivity|discriminate|reflexivity|discriminate|reflexivity|vm_compute; discriminate|discriminate|reflexivity
    |reflexivity|exact ptr_run0|].
  split; [exact Hc|]. split; [reflexivity|]. intros Hin. apply Hp in Hin as (_&_&Hin). apply Hin. by left.
Defined.

Lemma SequentialBuffer_fifo_witness :
  ∃ b1 b2 : SequentialBuffer Z, PushBack 7 (new_SequentialBuffer 4) = Ok b1 ∧ contents b1 = [Some 7] ∧
    EraseFront 0 (new_SequentialBuffer 4) = Ok b2 ∧ contents b2 = [].
Proof.
  destruct (SequentialBuffer_fifo 7 0 (new_SequentialBuffer 4)) as [(b1&H1&_&C1) (b2&H2&_&C2)];
    [apply (new_SequentialBuffer_wf 2); split; reflexivity|reflexivity|split; discriminate|].
  exists b1, b2. rewrite C1 C2. split; [exact H1|]. split; [reflexivity|]. split; [exact H2|reflexivity].
Defined.

(** ** The work queue *)

Definition queue1 : LinearWorkQueue Z := TryPush_load 7 1 new_LinearWorkQueue.
Definition queue2 : LinearWorkQueue Z := (TryPush_store 7 queue1).2.


Lemma atomic_fifo_witness :
  rtc atomic_step new_LinearWorkQueue (LockSubmissionQueue (TryPush_now 7 1 new_LinearWorkQueue).2) ∧
  lq_accepted (LockSubmissionQueue (TryPush_now 7 1 new_LinearWorkQueue).2) = [1].
Proof.
  assert (Hrun : rtc atomic_step new_LinearWorkQueue (LockSubmissionQueue (TryPush_now 7 1 new_LinearWorkQueue).2)).
  { eapply rtc_l; [apply (astep_push 7 1)|]. eapply rtc_l; [apply astep_lock; reflexivity|]. apply rtc_refl. }
  split; [exact Hrun|]. rewrite (atomic_fifo _ Hrun). reflexivity.
Defined.

(** ** The network engine *)

(** One worker, one stream with buffers, and an engine with one session. *)
Definition stream0 (x : option SocketStreamExtension) : TransferStream := mkTransferStream 0 x 4 4.
Definition option0 : NetworkEngineOption := mkNetworkEngineOption 5000 5000 2000 1 false 30000 500.
Definition config0 : SocketServerConfig := mkSocketServerConfig 1 1 1 1 8 4096 8 4096 0.
Definition engine0 : NetworkEngine := new_NetworkEngine option0 config0 {[1 := stream0 None]} (replicate SessionKeySize 0).

(** The stream accepted: it waits for its session. *)
Definition engine1 : NetworkEngine :=
  match OnAccept clock0 1 engine0 with Ok (_, e, _) => e | Err _ => engine0 end.

Definition create_packet : packet_session_create_rq := mk_session_create_rq 0.
Definition create_frame : list Z := frame (pkt_session_create_rq create_packet : Packet Q) ErrorCode_None.
Definition read_buffer (bytes : list Z) : SocketBuffer := mkSocketBuffer (mkDynamicBuffer bytes 4096) 1 false.

(** The session opened. *)
Definition engine2 : NetworkEngine :=
  match OnRead (C:=Q) clock0 keys0 1 (read_buffer create_frame) 1 engine1 with Ok (_, e, _) => e | Err _ => engine1 end.


Definition session2 : SocketSession := default (new_SocketSession [] 0) (ne_sessions engine2 !! 1).
Definition stream2 : TransferStream := default (stream0 None) (ne_streams engine2 !! 1).

Lemma engine2_ready : session_ready engine2 1 1 stream2 session2.
Proof. split; try (vm_compute; reflexivity). vm_compute. eexists. reflexivity. Defined.

(** A packet for the game, cut in two. *)
Definition notice : Packet Q * ErrorCode := (pkt_bandwith_overflow_ps (mk_bandwith_overflow_ps 0), ErrorCode_None).
Definition notice_frame : list Z := frame notice.1 notice.2.
Definition pieces : list (list Z) := [take 5 notice_frame; drop 5 notice_frame].

Lemma notice_data : data_packet notice.
Proof. split; [reflexivity|split; reflexivity]. Defined.


Definition extension1 : SocketStreamExtension := default new_SocketStreamExtension (ts_user_data (default (stream0 None) (ne_streams engine1 !! 1))).
Definition stream1 : TransferStream := default (stream0 None) (ne_streams engine1 !! 1).

Lemma engine1_pending : session_pending engine1 1 stream1 extension1.
Proof. split; try (vm_compute; reflexivity). vm_compute. eexists. reflexivity. Defined.

Lemma session_created_witness :
  ∃ e' t' s' c, session_ready e' 1 1 t' s' ∧ ss_session_key s' = created_key keys0 engine1 ∧
    ne_worker_queue e' = ne_worker_queue engine1 ++ [mkChain (read_buffer create_frame) [c]] ∧
    ctx_context_type c = SessionAccepted.
Proof.
  destruct (session_created (C:=Q) clock0 keys0 engine1 1 stream1 extension1 1 (read_buffer create_frame) create_packet
    ErrorCode_None 1 [] (default (new_SocketSession [] 0) (ne_sessions engine1 !! 1)))
    as (e'&t'&s'&c&_&Hr&Hk&_&Hq&Ht&_); try (vm_compute; (reflexivity || discriminate)).
  - apply engine1_pending.
  - right. vm_compute. reflexivity.
  - exists e', t', s', c. split; [exact Hr|]. split; [exact Hk|]. split; [exact Hq|exact Ht].
Defined.

Lemma unauthenticated_packet_faults_witness :
  OnRead (C:=Q) clock0 keys0 1 (read_buffer notice_frame) 1 engine1 =
    Err (UndefinedBehaviour "extension_info->session").
Proof.
  apply (unauthenticated_packet_faults (C:=Q) clock0 keys0 engine1 1 stream1 extension1 1 (read_buffer notice_frame) notice);
    try reflexivity. apply engine1_pending.
Defined.

(** ** Reconnecting and connectors *)

Definition waiting : SocketSession := mkSocketSession Wait true 0 0 0 0 [5] ∅ 1 (Some 1).
Definition engine3 : NetworkEngine :=
  set_sessions {[1 := waiting]} (set_abandoned_session_list {[1 := 1]} engine0).

Lemma wrong_key_locks_out_witness :
  ∃ e', remove_abandoned_if 1 (auth_processor [6]) engine3 = Ok (None, e', []) ∧
    remove_abandoned_if 1 (auth_processor [5]) e' = Ok (None, e', []).
Proof.
  destruct (wrong_key_locks_out (C:=Q) engine3 1 1 0 waiting [5] [6]) as (e'&H1&_&H2&_);
    [reflexivity|reflexivity|reflexivity|reflexivity|discriminate|]. exists e'. split; [exact H1|exact H2].
Defined.

Definition abandoned_context : SocketContext := mkSocketContext SessionAbandoned no_header 1 0 (Cursor_of (mkDynamicBuffer [] 4096)).
Definition engine4 : NetworkEngine :=
  set_sessions {[1 := mkSocketSession Abandoned true 0 0 0 0 [5] ∅ 1 (Some 1)]} engine0.

Lemma abandoned_context_asserts_witness :
  UpdateContext [mkChain (read_buffer []) [abandoned_context]] engine4 =
    Err (AssertionFailed "state == Opened || state == Abandoned").
Proof.
  apply (abandoned_context_asserts engine4 (read_buffer []) abandoned_context (mkSocketSession Abandoned true 0 0 0 0 [5] ∅ 1 (Some 1)));
    reflexivity.
Defined.

Definition connector0 : ConnectorInfo := mkConnectorInfo 1 (Some 1) (mkSocketAddress EmptyString 9987) 0 0 SessionKey_Empty.
Definition connector_extension : SocketStreamExtension := mkSocketStreamExtension None 1 0 100 Connector.
Definition engine5 : NetworkEngine :=
  set_streams {[1 := stream0 (Some connector_extension)]} (set_connector_list {[1 := connector0]} engine0).

