(* ===== verification/IocpExamples.v ===== *)
(** * Concrete runs of the transport

    A server with two streams of each kind accepts a connection; the theorems of
    [IocpSafety.v] at the states it goes through. *)

From stdpp Require Import gmultiset.
From S2P Require Import Prelude Memory.
From S2P Require Import Coordinate SectorGrid Fixture Packet Iocp IocpLife IocpRuns IocpSafety.

#[local] Unset SsrOldRewriteGoalsOrder.

Open Scope Z_scope.

Definition small_config : SocketServerConfig := mkSocketServerConfig 1 2 2 1 4 4096 4 4096 0.
Definition good_setup : Z → socket_setup := λ _, mkSocketSetup true true true.

Definition good_acceptor : acceptor_setup := mkAcceptorSetup true (λ _ _, 0) true true.

Definition state_of {A} (r : result (A * IocpSocketServer * list io_out)) : IocpSocketServer :=
  match r with Ok (_, v, _) => v | Err _ => new_IocpSocketServer end.
Definition output_of {A} (r : result (A * IocpSocketServer * list io_out)) : list io_out :=
  match r with Ok (_, _, o) => o | Err _ => [] end.

Definition server0 : IocpSocketServer := Eval vm_compute in
  state_of ((IocpSocketServer_Initialize small_config (λ _, true) good_setup ;; InitializeAcceptor [] good_acceptor good_setup)
    new_IocpSocketServer).

Lemma small_config_ok : config_ok small_config.
Proof. split; vm_compute; split; (reflexivity || discriminate). Defined.

Lemma server0_started : started small_config server0.
Proof.
  exists (λ _, true), good_setup, [], good_acceptor, good_setup,
    (state_of (IocpSocketServer_Initialize small_config (λ _, true) good_setup new_IocpSocketServer)).
  split; vm_compute; reflexivity.
Defined.

(** Checking a predicate of all streams. *)
Lemma all_streams (P : IocpStream → Prop) (f : IocpStream → bool) (m : gmap Z IocpStream) :
  (∀ t, f t = true → P t) → forallb (λ e, f e.2) (map_to_list m) = true → ∀ s t, m !! s = Some t → P t.
Proof.
  intros Hf Hall s t Ht. apply Hf. rewrite forallb_forall in Hall. apply (Hall (s, t)).
  apply list_elem_of_In, elem_of_map_to_list. done.
Defined.

Definition limits_check (t : IocpStream) : bool :=
  (st_count t <? 2 ^ 31 - 4) && (op_object_sequence (st_pool true t) <? 2 ^ 64 - 1) &&
  (op_object_sequence (st_pool false t) <? 2 ^ 64 - 1).
Definition ready_check (t : IocpStream) : bool :=
  match op_pool (st_pool true t), op_pool (st_pool false t) with [], _ | _, [] => false | _, _ => true end.

Lemma limits_of v : forallb (λ e, limits_check e.2) (map_to_list (sk_streams v)) = true → within_limits v.
Proof.
  intros Hall s t. revert s t. refine (all_streams _ limits_check _ _ Hall). intros t Ht. unfold limits_check in Ht.
  apply andb_prop in Ht as [[H1%Z.ltb_lt H2%Z.ltb_lt]%andb_prop H3%Z.ltb_lt].
  split; [exact H1|]. intros [|]; [exact H2|exact H3].
Defined.

Lemma ready_of v : forallb (λ e, ready_check e.2) (map_to_list (sk_streams v)) = true → buffers_ready v.
Proof.
  intros Hall s t w Ht _. revert s t Ht. refine (all_streams _ ready_check _ _ Hall). intros t Ht. unfold ready_check in Ht.
  destruct w, (op_pool (st_pool true t)), (op_pool (st_pool false t)); done.
Defined.

(** The acceptor waits, a peer connects, the I/O thread announces it; the client
    disconnects, and the I/O thread announces that. *)
Definition listener : IoContextPtr := (2, false, 4).
Definition closer : IoContextPtr := (2, true, 4).
Definition pending : os_answer := mkAnswer 0 WSA_IO_PENDING.
Definition ev1 : io_event := EvStartAccept pending.
Definition ev2 : io_event := EvAccepted listener Empty_address (λ _, pending) pending.
Definition ev3 : io_event := EvComplete listener Io_Completed 0 true true.
Definition ev4 : io_event := EvDisconnect 2 7 true.
Definition ev5 : io_event := EvComplete closer Io_Completed 0 true true.

Definition server1 : IocpSocketServer := Eval vm_compute in state_of (run_io_event ev1 server0).
Definition server2 : IocpSocketServer := Eval vm_compute in state_of (run_io_event ev2 server1).
Definition server3 : IocpSocketServer := Eval vm_compute in state_of (run_io_event ev3 server2).
Definition server4 : IocpSocketServer := Eval vm_compute in state_of (run_io_event ev4 server3).
Definition server5 : IocpSocketServer := Eval vm_compute in state_of (run_io_event ev5 server4).
Definition output1 : list io_out := Eval vm_compute in output_of (run_io_event ev1 server0).
Definition output2 : list io_out := Eval vm_compute in output_of (run_io_event ev2 server1).
Definition output3 : list io_out := Eval vm_compute in output_of (run_io_event ev3 server2).
Definition output4 : list io_out := Eval vm_compute in output_of (run_io_event ev4 server3).
Definition output5 : list io_out := Eval vm_compute in output_of (run_io_event ev5 server4).

Definition ghost1 : io_ghost := after_event ev1 server1 output1 no_ghost.
Definition ghost2 : io_ghost := after_event ev2 server2 output2 ghost1.
Definition ghost3 : io_ghost := after_event ev3 server3 output3 ghost2.
Definition ghost4 : io_ghost := after_event ev4 server4 output4 ghost3.
Definition ghost5 : io_ghost := after_event ev5 server5 output5 ghost4.

Definition trace1 : list (Z * bool) := [] ++ notices output1.
Definition trace2 : list (Z * bool) := trace1 ++ notices output2.
Definition trace3 : list (Z * bool) := trace2 ++ notices output3.
Definition trace4 : list (Z * bool) := trace3 ++ notices output4.
Definition trace5 : list (Z * bool) := trace4 ++ notices output5.

(** Membership in a concrete set. *)
Ltac in_set := apply (bool_decide_eq_true_1 _); vm_compute; reflexivity.
(** A step of a run: the condition that enables it is left. *)
Ltac run_step reached :=
  refine (io_step small_config _ _ _ _ _ _ reached _ _ _);
    [apply limits_of; vm_compute; reflexivity| |vm_compute; reflexivity].
(** A completion of an operation that is not a read. *)
Ltac completes c op attachment :=
  let x := fresh "x" in
  split_and!; [in_set|by left|done|];
  intros x; replace (sk_contexts _ !! c) with (Some (mkIoContext op attachment (Some 2) 0 4096 0) : option IoContext)
    by (vm_compute; reflexivity); intros [= <-]; discriminate.

Lemma reach1 : io_reachable small_config ghost1 server1 trace1.
Proof.
  run_step (io_start small_config server0 small_config_ok server0_started).
  split_and!; [by eexists|apply ready_of; vm_compute; reflexivity|by left].
Qed.

Lemma reach2 : io_reachable small_config ghost2 server2 trace2.
Proof.
  run_step reach1. split_and!; [by eexists|apply ready_of; vm_compute; reflexivity|by left|by left|in_set].
Qed.

Lemma reach3 : io_reachable small_config ghost3 server3 trace3.
Proof. run_step reach2. completes listener Io_Accept 0. Qed.

Lemma reach4 : io_reachable small_config ghost4 server4 trace4.
Proof. run_step reach3. left. in_set. Qed.

Lemma reach5 : io_reachable small_config ghost5 server5 trace5.
Proof. run_step reach4. completes closer Io_Disconnect 7. Qed.


Lemma connections_alternate_witness : history 2 trace5 = [true; false] ∧ alternates true (history 2 trace5).
Proof.
  split; [vm_compute; reflexivity|]. exact (connections_alternate small_config ghost5 server5 trace5 2 reach5).
Defined.

Definition acceptor_pool1 : ObjectPool := Eval vm_compute in
  match sk_acceptor_socket_pool server1 with Some p => p | None => mkObjectPool [] 0 ∅ ∅ end.

(** An [AcceptEx] refused for lack of buffers ([WSAENOBUFS]). *)
Definition refused : os_answer := mkAnswer 0 10055.

Lemma refused_accept_lost_witness :
  ∃ c v' t, AcceptSocket no_setup refused server1 = Ok (true, v', [AcceptEx c]) ∧
    AcceptSocket no_setup pending server1 = Ok (true, v', [AcceptEx c]) ∧
    ptr_stream c = 1 ∧ sk_streams v' !! 1 = Some t ∧ st_count t = 1 ∧
    ∃ p', socket_pool (from_connector_pool 1) v' = Some p' ∧ 1 ∉ op_pool p'.
Proof.
  refine (refused_accept_lost small_config ghost1 server1 trace1 acceptor_pool1 1 [] refused reach1 _ _ _ _ _).
  - vm_compute. reflexivity.
  - vm_compute. reflexivity.
  - apply ready_of. vm_compute. reflexivity.
  - reflexivity.
  - discriminate.
Defined.

Lemma refused_disconnect_leaks_witness :
  ∃ v', TransmitDisconnect 2 7 false server3 = Ok ((), v', []) ∧ io_inv ghost3 v' ∧
    ∀ attachment' accepted, TransmitDisconnect 2 attachment' accepted v' = Ok ((), v', []).
Proof.
  destruct (sk_streams server3 !! 2) as [t|] eqn:Ht; [|by vm_compute in Ht].
  refine (refused_disconnect_leaks small_config ghost3 server3 trace3 2 t 7 reach3 _ _ Ht _).
  - apply limits_of. vm_compute. reflexivity.
  - in_set.
  - revert Ht. vm_compute. intros [= <-]. reflexivity.
Defined.

(** The third attempt to connect needs a stream from the heap. *)
Definition connect_thrice : Act IocpSocketServer io_out () :=
  IocpSocketServer_Connect Empty_address 0 good_setup true ;;
  IocpSocketServer_Connect Empty_address 1 good_setup true ;;
  IocpSocketServer_Connect Empty_address 2 good_setup true.

Definition connecting : IocpSocketServer := Eval vm_compute in state_of (connect_thrice server0).
Definition late_stream : Z := 2147483649.

Lemma late_stream_dangles_witness :
  IoMain_iteration (late_stream, true, 4) Io_Completed 0 false true connecting = Err (UndefinedBehaviour "stream").
Proof.
  destruct (sk_streams connecting !! late_stream) as [t|] eqn:Ht; [|by vm_compute in Ht].
  destruct (sk_contexts connecting !! (late_stream, true, 4)) as [x|] eqn:Hx; [|by vm_compute in Hx].
  destruct (sk_connector_socket_pool connecting) as [p|] eqn:Hp; [|done].
  refine (late_stream_dangles connecting _ x late_stream t p 0 true Hx _ _ eq_refl Ht _ Hp _ _ _).
  - revert Hx. vm_compute. intros [= <-]. reflexivity.
  - revert Hx. vm_compute. intros [= <-]. reflexivity.
  - revert Ht. vm_compute. intros [= <-]. reflexivity.
  - reflexivity.
  - revert Hp. intros [= <-]. in_set.
  - revert Hp. intros [= <-]. in_set.
Defined.
