(* ===== verification/MemoryExamples.v ===== *)
(** * Concrete runs of the loopback session and the locked stack

    The theorems of [Loopback.v] at a session with two buffers that hold a
    packet each; a packet's body is one byte, its type.  The theorem of
    [LockedStack.v] at a run in which a thread pops while another waits for the
    lock. *)

From S2P Require Import Prelude Coordinate SectorGrid Fixture Packet Protocol Memory LockedStack Loopback.
From Stdlib Require Import QArith.

Open Scope Z_scope.

#[local] Instance one_byte : StructPack Q := {|
  sp_get_needed_size _ := 1;
  sp_serialize p := [PacketType_to_Z (PACKET_TYPE p)];
  sp_deserialize _ _ := None |}.
#[local] Instance one_byte_size : StructPackSize Q.
Proof. by split. Defined.

Definition beat (n : Z) : Packet Q := pkt_heartbeat_rq (mk_heartbeat_rq n).
Definition buffer_of (p : Packet Q) : DynamicBuffer := mkDynamicBuffer (frame p ErrorCode_None) 64.

(** Buffers 1 and 2 were sent, buffer 3 is free or, in the second session, in
    the executor's hands. *)
Definition sent_session : LoopbackSocketSession :=
  mkLoopback [1; 2] 64 false (mkObjectPool [3] 4 {[1; 2]} ∅)
    (<[1 := buffer_of (beat 1)]> (<[2 := buffer_of (beat 2)]> ∅)) 64.
Definition busy_session : LoopbackSocketSession :=
  mkLoopback [1] 64 false (mkObjectPool [2] 4 {[1; 3]} ∅) (<[1 := buffer_of (beat 1)]> ∅) 64.

Lemma sent_pool_wf : pool_wf 3 (ls_buffer_pool sent_session).
Proof.
  split; cbn.
  - apply NoDup_singleton.
  - intros o ->%list_elem_of_singleton. set_solver.
  - set_solver.
  - reflexivity.
  - lia.
  - intros o [->%list_elem_of_singleton|Ho]; [lia|].
    apply elem_of_union in Ho as [->%elem_of_singleton| ->%elem_of_singleton]; lia.
Qed.

Lemma busy_pool_wf : pool_wf 3 (ls_buffer_pool busy_session).
Proof.
  split; cbn.
  - apply NoDup_singleton.
  - intros o ->%list_elem_of_singleton. set_solver.
  - set_solver.
  - reflexivity.
  - lia.
  - intros o [->%list_elem_of_singleton|Ho]; [lia|].
    apply elem_of_union in Ho as [->%elem_of_singleton| ->%elem_of_singleton]; lia.
Qed.

Lemma holds_one l o n : ls_buffers l !! o = Some (buffer_of (beat n)) → holds_frames l o [beat n].
Proof.
  intros Hb. exists (buffer_of (beat n)). split_and!; [exact Hb|done|done| |].
  - apply Forall_singleton. done.
  - cbn. by rewrite app_nil_r.
Qed.

(** An executor that counts the bytes of the bodies it was given. *)
Definition count_bodies (header : PacketHeader) (body : list Z) : Act (LoopbackSocketSession * nat) Empty_set () :=
  modify (λ p, (p.1, (p.2 + length body)%nat)).

Lemma count_bodies_ok : executor_ok (C:=Q) count_bodies (λ packets held n, held = ∅ ∧ n = length packets) 3.
Proof.
  intros done p pending held l n [-> ->] Hs. cbn. exists ∅. split_and!; [done|..|done|set_solver|].
  - rewrite length_app. reflexivity.
  - split; [cbn; set_solver|done].
Qed.


Lemma loopback_send_lost_witness :
  ∃ l', Loopback_ProcessLoopbackPacket (Out:=Empty_set) (λ _ _, Loopback_Send 3) (busy_session, ()) = Ok ((), (l', ()), []) ∧
    ls_packet_list l' = [] ∧ 3 ∈ op_in_used (ls_buffer_pool l').
Proof.
  refine (loopback_send_lost (C:=Q) busy_session 1 3 (beat 1) 3 eq_refl _ busy_pool_wf _ _ _ _).
  - by apply holds_one.
  - cbn. set_solver.
  - cbn. set_solver.
  - lia.
  - cbn. lia.
Defined.

(** ** The locked stack *)

(** Thread 1 pushes 7; thread 2 asks for an element and takes the lock; thread 1
    asks as well and spins; thread 2 gets the 7 and returns. *)
Definition schedule : list (Z * option (stack_op (V:=Z))) :=
  [(1, Some (Op_push 7)); (1, None); (1, None); (1, None); (2, Some Op_try_pop); (2, None); (1, Some Op_try_pop);
   (1, None); (2, None); (1, None); (2, None); (2, None); (2, None); (1, None)].

Definition run_schedule1 (c : ConcurrentStack (V:=Z)) (x : Z * option (stack_op (V:=Z))) : ConcurrentStack * list stack_event :=
  match x with
  | (t, Some o) => (mkConcurrentStack (cs_spinlock_flag c) (cs_stack c) (<[t := Lock o]> (cs_threads c)), [Invoke t o])
  | (t, None) =>
      let '(p, flag, s, r) := advance (pc_of c t) (cs_spinlock_flag c) (cs_stack c) in
      (mkConcurrentStack flag s (<[t := p]> (cs_threads c)), returned t r)
  end.

Fixpoint run_schedule (c : ConcurrentStack (V:=Z)) (tr : list stack_event) (l : list (Z * option (stack_op (V:=Z))))
    : ConcurrentStack * list stack_event :=
  match l with
  | [] => (c, tr)
  | x :: l => let '(c, e) := run_schedule1 c x in run_schedule c (tr ++ e) l
  end.

(** Every entry of the schedule can be run. *)
Fixpoint schedule_ok (c : ConcurrentStack (V:=Z)) (l : list (Z * option (stack_op (V:=Z)))) : bool :=
  match l with
  | [] => true
  | x :: l =>
      match pc_of c x.1, x.2 with Idle, Some _ => true | Idle, None => false | _, Some _ => false | _, None => true end &&
      schedule_ok (run_schedule1 c x).1 l
  end.

Lemma schedule_runs l c tr :
  stack_run c tr → schedule_ok c l = true → stack_run (run_schedule c tr l).1 (run_schedule c tr l).2.
Proof.
  revert c tr. induction l as [|[t [o|]] l IH]; intros c tr Hrun Hok; [done|..];
    cbn [schedule_ok fst snd] in Hok; apply andb_prop in Hok as [Hpc Hok].
  - cbn [run_schedule run_schedule1]. apply IH; [|exact Hok]. eapply run_step; [exact Hrun|].
    apply step_invoke. by destruct (pc_of c t).
  - cbn [run_schedule]. destruct (run_schedule1 c (t, None)) as [c' e] eqn:Hs. apply IH; [|exact Hok].
    eapply run_step; [exact Hrun|]. cbn in Hs. destruct (advance _ _ _) as [[[p flag] s] r] eqn:Ha. injection Hs as <- <-.
    eapply step_run; [|exact Ha]. by destruct (pc_of c t).
Qed.

Lemma stack_linearizable_witness :
  (run_schedule new_ConcurrentStack [] schedule).2 =
    [Invoke 1 (Op_push 7); Return 1 Res_push; Invoke 2 Op_try_pop; Invoke 1 Op_try_pop; Return 2 (Res_try_pop (Some 7))] ∧
  ∃ calls, atomic_run (cs_stack (run_schedule new_ConcurrentStack [] schedule).1, calls)
    (run_schedule new_ConcurrentStack [] schedule).2.
Proof.
  split; [vm_compute; reflexivity|].
  refine (proj1 (stack_linearizable _ _ (schedule_runs schedule new_ConcurrentStack [] run_start _))).
  vm_compute. reflexivity.
Defined.
