(* ===== verification/UtilityExamples.v ===== *)
(** * Concrete runs of the utilities and the configuration client

    The theorems of [Calendar.v] in a zone nine hours ahead, of [Logger.v] at a
    logger that has printed one text and holds another, and of [CloudConfig.v]
    at a manager that has just asked. *)

From S2P Require Import Prelude Calendar Memory Logger.
From S2P Require Import Coordinate SectorGrid Fixture Packet Protocol Concurrent NetworkEngine Iocp CloudConfig.

Open Scope Z_scope.

(** ** Dates *)

Definition fixed_offset (seconds : Z) : Timezone := {|
  tz_to_local t := t + seconds * NS_PER_SECOND;
  tz_to_sys l := Some (l - seconds * NS_PER_SECOND);
  tz_offset _ := seconds |}.

Lemma fixed_offset_laws seconds : TimezoneLaws (H := fixed_offset seconds).
Proof. split. intros local sys [= <-]. cbn. lia. Qed.

#[local] Instance seoul : Timezone := fixed_offset 32400.
#[local] Instance seoul_laws : TimezoneLaws := fixed_offset_laws 32400.

Definition date_or_epoch (r : result DateTime) : DateTime := match r with Ok d => d | Err _ => DateTime_epoch 0 end.

Definition leap_day : DateTime := Eval vm_compute in date_or_epoch (DateTime_civil 2024 2 29 12 34 56).
Definition january_31 : DateTime := Eval vm_compute in date_or_epoch (DateTime_civil 2023 1 31 8 0 0).
Definition added : DateTime := Eval vm_compute in date_or_epoch (AddMonths 1 january_31).
Definition plussed : DateTime := Eval vm_compute in date_or_epoch (PlusMonths 1 january_31).

Lemma leap_day_string : ToLocalDateString leap_day = "2024-02-29 12:34:56.000".
Proof. vm_compute. reflexivity. Qed.

Lemma date_fields_valid_witness : ymd_ok (dt_ymd leap_day) = true ∧ 0 ≤ Hour leap_day < 24.
Proof.
  assert (Hmade : date_made leap_day) by (apply (made_civil 2024 2 29 12 34 56); vm_compute; reflexivity).
  destruct (date_fields_valid leap_day Hmade) as (Hok&Hh&_). split; [exact Hok|exact Hh].
Defined.

Lemma civil_roundtrip_witness :
  (Year leap_day, Month leap_day, Day leap_day) = (2024, 2, 29) ∧
  (Hour leap_day, Minute leap_day, Second leap_day, SubSecond leap_day) = (12, 34, 56, 0).
Proof.
  apply (civil_roundtrip 2024 2 29 12 34 56 leap_day); [reflexivity|lia|lia|lia|vm_compute; reflexivity].
Defined.

(** Adding a month to the 31st of January: [Add] arrives in February, [Plus] in
    March. *)
Lemma months_later_witness :
  dt_ymd added = mkYmd 2023 2 1 ∧ dt_ymd plussed = mkYmd 2023 3 1.
Proof.
  assert (Hmade : date_made january_31) by (apply (made_civil 2023 1 31 8 0 0); vm_compute; reflexivity).
  destruct (months_later january_31 added plussed 1 Hmade) as (_&_&H1&H2); [vm_compute; reflexivity..|].
  split; [exact H1|exact H2].
Defined.

(** ** Logging *)

Definition logger_or (r : result (() * Logger * list string)) : Logger :=
  match r with Ok (_, g, _) => g | Err _ => mkLogger ∅ ∅ ∅ ∅ 0 0 end.
Definition fill7 : Act Logger string () := PushLog_fill (λ t, t) LogLevel_Info "World.cpp" 10 1700000000000 7 "hello".
Definition fill8 : Act Logger string () := PushLog_fill (λ t, t) LogLevel_Warn "World.cpp" 20 1700000000001 8 "bye".

Definition logger0 : Logger := Eval vm_compute in
  match InitializeLogger 4096 1 with Ok g => g | Err _ => mkLogger ∅ ∅ ∅ ∅ 0 0 end.
Definition logger1 : Logger := Eval vm_compute in logger_or (fill7 logger0).
Definition logger2 : Logger := Eval vm_compute in logger_or (fill8 logger1).
Definition logger3 : Logger := Eval vm_compute in logger_or (PushLog_queue (λ t, t) 7 logger2).
Definition logger4 : Logger := Eval vm_compute in logger_or (PushLog_queue (λ t, t) 8 logger3).

Definition text7 : string := format_log (mkLog 1700000000000 "World.cpp" 10 "hello" 7 LogLevel_Info).
Definition text8 : string := format_log (mkLog 1700000000001 "World.cpp" 20 "bye" 8 LogLevel_Warn).

Lemma small_sequence g p q :
  match lg_buffer_pool g !! q with Some p => op_object_sequence p <? 2 ^ 64 - 1 | None => true end = true →
  lg_buffer_pool g !! q = Some p → op_object_sequence p < 2 ^ 64 - 1.
Proof. intros Hc Hp. rewrite Hp in Hc. by apply Z.ltb_lt. Qed.

Lemma logger4_run : ∃ pending, log_run (λ t, t) logger4 pending [(0, text7); (0, text8)] [].
Proof.
  assert (H1 : log_run (λ t, t) logger1 (<[7 := text7]> ∅) [] []).
  { refine (log_fill _ logger0 ∅ [] [] LogLevel_Info "World.cpp" 10 1700000000000 7 "hello" logger1 _ _ _ _).
    - apply (log_start _ 4096 1); [lia|vm_compute; reflexivity].
    - vm_compute. reflexivity.
    - intros p. apply small_sequence. vm_compute. reflexivity.
    - vm_compute. reflexivity. }
  assert (H2 : log_run (λ t, t) logger2 (<[8 := text8]> (<[7 := text7]> ∅)) [] []).
  { refine (log_fill _ logger1 _ [] [] LogLevel_Warn "World.cpp" 20 1700000000001 8 "bye" logger2 H1 _ _ _).
    - vm_compute. reflexivity.
    - intros p. apply small_sequence. vm_compute. reflexivity.
    - vm_compute. reflexivity. }
  assert (H3 : log_run (λ t, t) logger3 (delete 7 (<[8 := text8]> (<[7 := text7]> ∅))) ([] ++ [(0, text7)]) []).
  { refine (log_queue _ logger2 _ [] [] 7 text7 logger3 H2 _ _); [reflexivity|vm_compute; reflexivity]. }
  eexists. refine (log_queue _ logger3 _ [(0, text7)] [] 8 text8 logger4 H3 _ _); [reflexivity|vm_compute; reflexivity].
Qed.

Lemma logger_prints_witness :
  ∃ g', LoggerMain_pass logger4 = Ok ((), g', [text7; text8]) ∧ lg_log_queue g' !! 0 = Some [].
Proof.
  destruct logger4_run as [pending Hrun].
  destruct (logger_prints (λ t, t) logger4 pending _ _ Hrun) as (waiting&g'&Hw&Hpass&Hq). exists g'. split.
  - rewrite Hpass. do 2 f_equal. specialize (Hw 0). cbn [texts] in Hw. change (lg_parallelism logger4) with 1.
    change (waiting 0 ++ [] = [text7; text8]). rewrite app_nil_r. symmetry. exact Hw.
  - apply Hq. split; [lia|reflexivity].
Defined.

(** ** The configuration client *)

Definition asked : CloudConfigManager :=
  match RequestCloudConfig (λ _, true) os_willing true SessionKey_Empty
          (new_CloudConfigManager ServerType_Play Empty_address) with
  | Ok (m, _) => m
  | Err _ => new_CloudConfigManager ServerType_Play Empty_address
  end.
Definition some_config : ServerConfig :=
  mkServerConfig 9999 SocketServerConfig_default NetworkEngineOption_default 0 SocketServerConfig_default
    NetworkEngineOption_default (mkGameConfig 33 10 1000).

(** The answer's push is split over two sleeps. *)
Lemma cloud_config_arrives_witness :
  ∃ m o, GetCloudConfig 8 (answer_env 1 some_config 4 5) asked = Ok (some_config, m, o).
Proof.
  destruct (cc_engine asked) as [e|] eqn:He; [|by vm_compute in He].
  destruct (cloud_config_arrives 1 some_config 4 5 asked e) as (m&o&e'&Hget&_); [lia|vm_compute; reflexivity|exact He|].
  exists m, o. exact Hget.
Defined.
